(* ===== verification/_CoqProject ===== *)
-Q . S2P
Prelude.v
Hardware.v
Linked.v
Queue.v
HashMap.v
FrameList.v
PageTable.v
State.v
UserMem.v
Scheduler.v
SyncObjects.v
LoadProgram.v
GeneralCalls.v
Tty.v
Machine.v
UserPrograms.v
StressTests.v
UserRun.v
UserLib.v
Keeps.v
Stable.v
Managed.v
Buffers.v
Ownership.v
SwitchLaws.v
SchedView.v
SchedLaws.v
SyncLaws.v
Steps.v
PipeLaws.v
ForkLaws.v
CopyLaws.v
InitLaws.v
ForkCall.v
CallLaws.v
TtyLaws.v
ExitLaws.v
WaitLaws.v
SpaceLaws.v
LoadLaws.v
ExecLaws.v
GrowLaws.v
BootLaws.v
StartLaws.v
IsoLaws.v
IsoStable.v
IsoCalls.v
IsoRun.v
Processes.v
ProcLaws.v
ProcFork.v
ProcRun.v
Boot.v
Demo.v
ClaimsData.v
ClaimsSched.v
ClaimsSync.v
ClaimsCalls.v
ClaimsStart.v
ClaimsFork.v
ClaimsTty.v
ClaimsExit.v
ClaimsLoad.v
ClaimsBuffers.v
ClaimsLocks.v
UserTests.v
ClaimsRun.v
