(* ===== verification/Prelude.v ===== *)
(** * Yalnix, a small operating system kernel: a verification development

    The program under src/ is the kernel of a teaching operating system for a
    simulated machine: processes with their own address space, a scheduler,
    locks, condition variables, pipes, terminals and the system calls on them.
    This library translates all of the kernel's C into Rocq functions and
    proves what makes its parts correct; where the code does something else
    than what it means to do, a theorem says so.

    ** How C is modelled

    A C function is a function in the state monad [M] of this file.  A call
    ends by returning ([Ret]), by giving the processor to another process in
    [KernelContextSwitch] ([Switch]), by [Halt()] ([Halted]), or it has
    undefined behaviour ([Undef]): null and dangling pointers, indices outside
    an array, indeterminate values, overflow of a signed addition of a user's
    number.  Pointers are addresses; every kind of object is in a store
    indexed by address, so objects are shared and freed as in C.  [malloc] is
    [Prelude.malloc]: a list of booleans says which calls return NULL, so that
    every failing path can be taken.  The values of hardware.h and yalnix.h,
    which are not in the repository, are the parameters of the class
    [Hardware.Hardware], what the kernel relies on is [HardwareLaws], and
    [dartmouth] is a concrete machine that satisfies it.

    A process that is suspended inside the kernel is resumed at a named point
    ([kcont]): the constructor says which kernel function it was in and holds
    the local variables that are still needed.  [Machine.resume] is what the
    process does then.  So a C function that calls [blockProcess] in its
    middle is cut in two: for instance [KernelWait] and [wait_finish], or
    [KernelPipeRead] and [pipe_read_loop].

    ** Files

    Model, in the order of the calls:
    - Prelude: monad, lenses, [malloc], tactics; Hardware: the machine;
    - Linked: singly linked lists in a heap, the shapes used by the next two;
    - Queue: Queue.c.  The class [QueueOps] is Queue.h; [QueueLaws] is what it
      promises, a family of first-in first-out lists; [QueueImpl] is the code;
    - HashMap: set.c and HashMap.c, likewise: [MapOps], [MapLaws] (a family of
      finite maps), [SetImpl], [HashMapImpl];
    - FrameList: FrameList.c; PageTable: PageTable.c and the MMU registers;
    - State: the structures of Scheduler.h, Lock.h, Pipe.h and TtyBuffer.c,
      the globals, memory seen through the MMU; UserMem: integers in user
      memory;
    - Scheduler: all of Scheduler.c; SyncObjects: Lock.c, CVar.c, Pipe.c and
      their system calls; LoadProgram: LoadProgram.c; GeneralCalls:
      GeneralKernelCalls.c, SetKernelData and SetKernelBrk of Kernel.c; Tty:
      TtyBuffer.c and TtyKernelCalls.c; Machine: TrapHandlers.c, KernelStart
      of Kernel.c, and the machine that runs traps and resumed processes;
    - UserPrograms: init.c, programs of test/ and [DoIdle] as interaction
      trees over system calls and accesses to memory, StressTests: forktest.c
      and torture.c likewise; UserRun: the machine in
      user mode, that runs such trees on the kernel, with page faults,
      terminals and the clock as interrupts; UserLib: an example instance of
      the parameters for code outside the repository (user library, layout,
      file system), used by the test runs of UserTests only.

    The client files from Scheduler on use queues and maps only through
    [QueueOps] and [MapOps], and their theorems only [QueueLaws] and
    [MapLaws]; the instances at the end of Queue and HashMap discharge these
    for the code.

    Laws:
    - Keeps: [keeps], invariants through computations, whatever these return;
      Stable: the classes of the invariants that everything but the
      management of memory keeps, [Steady] without the operations on locks and
      [Stable] with them, and that it does, function by function; Managed: the
      class of those that survive the management of memory too, and that Fork,
      Exec, Exit, Brk and the faults keep them; Buffers: one such invariant,
      that the buffers of pipes and terminals are not overrun and what waits
      for them in saved contexts fits, which [KernelStart] establishes;
      Ownership: what a turn of a process does to the owner of a lock, which
      only the operations on locks look at;
    - SwitchLaws: [switchBetween], [forkTo] and [execTo] on kernel stacks,
      contexts and registers;
    - SchedView: the abstract scheduler: who runs, the ready list, the blocked
      and the sleeping processes; SchedLaws: [kernel_ok], the invariant that a
      kernel state is in order and stands for such a view, and the scheduler's
      functions against it; Steps: runs of scheduler operations and their
      simulation by an abstract machine;
    - ForkLaws: [forkProcess]; CopyLaws: the copy of region 1; InitLaws:
      [initPCB]; ForkCall: the whole of [KernelFork], put together from these;
      ExitLaws: the whole of [exitProcess]; WaitLaws: a parent in
      [KernelWait] that goes on;
    - SpaceLaws: an address space as areas of memory over frames; LoadLaws:
      the whole of [LoadProgram], the program and its arguments as they lie in
      region 1; ExecLaws: the whole of [KernelExec]; GrowLaws: what makes
      region 1 grow and shrink, [KernelBrk] and the stack in [handleTrapMemory];
    - BootLaws: the parts of [KernelStart], page tables, frames, modules, the
      first two processes; StartLaws: the whole of it, from the state the
      hardware hands over to a kernel in order;
    - IsoLaws: [mem_safe], processes with frames and page tables of their own
      (memory isolation), and no frame that nobody has; IsoStable: it is
      [Stable]; IsoCalls: each call that manages memory keeps it; IsoRun: it
      holds when [KernelStart] is done, and [memory_step], the steps of the
      kernel, keeps it;
    - Processes: an abstract machine of processes, each with a user context,
      and [represents], how a kernel state stands for it; ProcLaws and
      ProcFork: the clock, GetPid, Delay and Fork are steps of it; ProcRun:
      where it starts, its runs;
    - SyncLaws: locks, condition variables and pipes; PipeLaws: pipes as
      streams of bytes over runs; CallLaws: the
      pointer checks, Wait; TtyLaws: terminals, who waits for them and which bytes
      go through them.  A process that waits for a terminal is in no place of
      the view; it leaves the view and joins it again;
    - Boot: a whole machine with a program to load, evaluated; Demo: a
      concrete kernel state in order, for the witnesses.

    Claims, the theorems that matter:
    - ClaimsSched: the scheduler refines the abstract machine; nobody is lost;
      round robin; delays; resumption;
    - ClaimsStart: [KernelStart] establishes the invariant; memory isolation
      over every run from there, in which no frame is lost;
    - ClaimsRun: from [KernelStart] on, the kernel refines the machine of
      processes: what each process sees of the clock, GetPid, Delay and Fork;
    - ClaimsBuffers: the buffers of pipes and terminals are never overrun;
    - ClaimsLocks: mutual exclusion in every run of the kernel, from any state;
    - ClaimsFork: Fork as a whole; ClaimsExit: Exit as a whole, and how the
      status gets to the parent; ClaimsLoad:
      [LoadProgram] and Exec as a whole;
    - ClaimsData: queues, maps, frames, page tables;
    - ClaimsSync: locks, condition variables, pipes, which are first-in
      first-out streams whatever the interleaving of writers and readers;
    - ClaimsTty: writing to a terminal in batches, reading lines from it, its
      interrupts;
    - ClaimsCalls: Brk, the growing stack, Wait, pointer checks.

    Test runs, by evaluation: Boot has runs of the whole kernel that show
    defects, UserTests the repository's own test programs on the whole kernel
    with the example library of UserLib.

    ** Bounds and fuel

    Loops of the code that follow pointers have fuel: the number of nodes in
    the heap plus one for the lists of Queue and HashMap, the length of the
    array plus one for [getFrame], the number of pages of a buffer plus one
    for [isValidBuffer], the bytes left in region 1 for strings and argument
    vectors.  Running out of it is [Undef], and the theorems say [Ret], so the
    fuel is enough wherever a result is claimed.  [KernelCvarBroadcast] takes
    any fuel larger than the number of waiters.  The transmitting loop has the
    length of the buffer plus one: a turn transmits at least a byte.  [Machine.settle] bounds the
    number of context switches after one trap, [UserRun.urun] the steps of user
    code; in the test runs 20000 are enough, and 100000 for forktest.c.

    ** Not modelled

    - The user library: [TtyPrintf], [malloc], [free], [rand] and [assert] are
      parameters, and so is the place of a user's variables in its memory.
      torture.c never ends: its test run is of its first 10000 steps.
    - The kernel's own [malloc] is library code, and every module has an arena
      of its own for it ([Prelude.malloc]): blocks are never handed out twice,
      lie in no page of region 0, and no allocation calls [SetKernelBrk], so
      none takes frames, maps pages of region 0 or moves [currKernelBrk].
      [SetKernelBrk] itself is modelled, with its own cases.  So the theorems
      on frames ([kernel_start_spec], [memory_isolation], [kernel_frames_kept])
      are about runs in which the kernel's heap does not grow; [Boot.stale_break]
      shows what goes wrong in [KernelStart] when it does.
    - Page tables lie in one arena: an access past the end of a table reaches
      the next table or nothing ([Undef]), never other data of the kernel.
    - The loop of [KernelTtyWrite] that waits for the terminal turns for ever
      once [blockTransmitter] returns [ERROR]: this is [Undef].
    - Trace output, except where its arguments are undefined behaviour
      ([forkProcess]).
    - The Linux files that programs are read from and the format of load_info.h
      ([LoadProgram.FileSystem] is a parameter); [TtyReceive], whose line is an
      argument; the bytes of the kernel's own data in region 0: a user pointer
      into region 0 is [Undef].
    - The TLB's contents: every flush is recorded, translation reads the page
      tables.
    - Overflow of [nextPid] and [nextSyncId] after 2^31 processes or objects,
      and of the sizes computed in [LoadProgram] from a file's header.
    - Memory leaks: a block that nothing points to is left where it is. *)

From stdpp Require Import base gmap list.
From Stdlib Require Import Lia.

#[global] Set Default Goal Selector "!".

Open Scope Z_scope.

(** * Pointers and integers *)

(** A pointer is its address; [NULL] is address 0. *)
Abbreviation ptr := Z (only parsing).
Abbreviation NULL := 0%Z.

(** Unsigned 32-bit values: what a cast to [unsigned int] keeps. *)
Definition u32 (x : Z) : Z := x mod 2 ^ 32.

(** The value of an [n]-bit unsigned bit-field after an assignment. *)
Definition bits (n x : Z) : Z := x mod 2 ^ n.

(** * User and kernel contexts *)

(** [UserContext]: the members of the hardware's structure that this kernel
    reads or writes. *)
Record UserContext := mkUctxt {
  uc_code : Z;
  uc_addr : Z;
  uc_pc : Z;
  uc_sp : Z;
  uc_ebp : Z;
  uc_regs : list Z
}.

(** The points inside the kernel at which a process can be suspended.  Each
    names the kernel function that called the scheduler, with the local
    variables of that function that are live when it goes on. *)
Inductive kcont :=
| KStart                                        (** [KernelStart], after [getStarterKernelState] *)
| KClock                                        (** [handleTrapClock], in [kickProcess] *)
| KDelay                                        (** [KernelDelay], in [sleepProcess] *)
| KExit                                         (** [KernelExit], in [exitProcess]: never resumed *)
| KExec                                         (** [KernelExec], in [execProcess]: never resumed *)
| KFork (parentPCB childPCB : ptr)              (** [KernelFork], in [forkProcess] *)
| KWait (status_ptr : ptr)                      (** [KernelWait], in [blockProcess] *)
| KAcquire (lockp : ptr)                        (** [KernelAcquire], in [blockProcess] *)
| KCvarWait (lock_id : Z)                       (** [KernelCvarWait], in [blockProcess] *)
| KPipeReadTurn (pipep waitingQ buf : ptr) (len : Z)   (** [KernelPipeRead], first [blockProcess] *)
| KPipeReadBytes (pipep waitingQ buf : ptr) (len : Z)  (** [KernelPipeRead], [blockProcess] of the loop *)
| KTtyBlock (tty_id : Z) (r0Buf : list Z)       (** [KernelTtyWrite], in [blockTransmitter] *)
| KTtyWait (tty_id : Z) (r0Buf : list Z) (bytesTransmitted : Z) (** [KernelTtyWrite], in [waitTransmitter] *)
| KTtyRead (tty_id : Z) (buf : ptr) (len : Z)   (** [readBuffer], in [blockReader] *)
| KTtySignal.                                   (** [handleTtyTransmit], in [signalTransmitter] *)

(** A [KernelContext] together with the kernel stack it runs on: where the
    process goes on inside the kernel, and the [UserContext] that the trap
    left on that stack. *)
Record KernelContext := mkKctxt {
  kc_resume : kcont;
  kc_frame : UserContext
}.

#[global] Instance UserContext_eq_dec : EqDecision UserContext.
Proof. solve_decision. Defined.
#[global] Instance kcont_eq_dec : EqDecision kcont.
Proof. solve_decision. Defined.
#[global] Instance KernelContext_eq_dec : EqDecision KernelContext.
Proof. solve_decision. Defined.

(** * The monad of C computations over a state [S] *)

(** A C function ends by returning a value ([Ret]), by giving the processor
    to another process inside [KernelContextSwitch] ([Switch kc]: the machine
    goes on with [kc]), by [Halt()] ([Halted]), or it has undefined behaviour
    ([Undef]: a null or dangling pointer, an index outside its array, an
    indeterminate value). *)
Inductive outcome (S A : Type) :=
| Ret (a : A) (s : S)
| Switch (kc : KernelContext) (s : S)
| Halted (s : S)
| Undef.
Arguments Ret {S A} a s.
Arguments Switch {S A} kc s.
Arguments Halted {S A} s.
Arguments Undef {S A}.

Definition M (S A : Type) : Type := S -> outcome S A.

Definition ret {S A} (a : A) : M S A := fun s => Ret a s.
Definition bind {S A B} (m : M S A) (f : A -> M S B) : M S B := fun s =>
  match m s with
  | Ret a s' => f a s'
  | Switch kc s' => Switch kc s'
  | Halted s' => Halted s'
  | Undef => Undef
  end.
Definition undef {S A} : M S A := fun _ => Undef.
Definition Halt {S A} : M S A := fun s => Halted s.
Definition gets {S A} (f : S -> A) : M S A := fun s => Ret (f s) s.
Definition modify {S} (f : S -> S) : M S unit := fun s => Ret tt (f s).

(** An indeterminate or out-of-bounds value is undefined behaviour. *)
Definition rd {S A} (o : option A) : M S A :=
  match o with Some a => ret a | None => undef end.

Declare Scope c_scope.
Delimit Scope c_scope with c.
Notation "'let!' x ':=' m 'in' k" := (bind m (fun x => k))
  (at level 10, x name, m at level 99, k at level 200) : c_scope.
Notation "m ;;; k" := (bind m (fun _ => k))
  (at level 100, k at level 200, right associativity) : c_scope.
Open Scope c_scope.

(** A loop over a list: [for (...) f(x)]. *)
Fixpoint foldM {S X} (f : X -> M S unit) (l : list X) : M S unit :=
  match l with
  | [] => ret tt
  | x :: l' => f x ;;; foldM f l'
  end.

(** * Sub-states *)

(** A component's operations run on that component's own state; a [Lens] says
    where this state sits inside a larger one. *)
Class Lens (S A : Type) := {
  view : S -> A;
  put : A -> S -> S;
  view_put a s : view (put a s) = a;
  put_view s : put (view s) s = s;
  put_put a b s : put a (put b s) = put a s
}.

Definition lift {S A} `{Lens S A} {X} (m : M A X) : M S X := fun s =>
  match m (view s) with
  | Ret x a => Ret x (put a s)
  | Switch kc a => Switch kc (put a s)
  | Halted a => Halted (put a s)
  | Undef => Undef
  end.

#[global] Program Instance lens_refl {A} : Lens A A := {|
  view := fun a => a; put := fun a _ => a |}.
Solve All Obligations with done.

(** A local variable whose address is passed to the functions called is a
    second component of their state. *)
#[global] Program Instance lens_fst {S A B} `{Lens S A} : Lens (S * B) A := {|
  view s := view (fst s); put a s := (put a (fst s), snd s) |}.
Next Obligation. intros. apply view_put. Qed.
Next Obligation. intros ???? []. simpl. by rewrite put_view. Qed.
Next Obligation. intros. simpl. by rewrite put_put. Qed.

(** Runs [m] with a local variable that starts at [b]; its final value is
    returned too. *)
Definition with_local {S B A} (b : B) (m : M (S * B) A) : M S (A * B) := fun s =>
  match m (s, b) with
  | Ret a (s', b') => Ret (a, b') s'
  | Switch kc (s', _) => Switch kc s'
  | Halted (s', _) => Halted s'
  | Undef => Undef
  end.

(** * Lemmas on computations *)

Section monad.
Context {S : Type}.

Lemma bind_Ret {A B} (m : M S A) (f : A -> M S B) s a s' :
  m s = Ret a s' -> bind m f s = f a s'.
Proof. unfold bind. by intros ->. Qed.

Lemma bind_inv {A B} (m : M S A) (f : A -> M S B) s b s' :
  bind m f s = Ret b s' -> exists a s1, m s = Ret a s1 /\ f a s1 = Ret b s'.
Proof. unfold bind. destruct (m s); naive_solver. Qed.

Lemma bind_inv_Switch {A B} (m : M S A) (f : A -> M S B) s kc s' :
  bind m f s = Switch kc s' ->
  m s = Switch kc s' \/ exists a s1, m s = Ret a s1 /\ f a s1 = Switch kc s'.
Proof. unfold bind. destruct (m s); naive_solver. Qed.

Lemma bind_assoc {A B C} (m : M S A) (f : A -> M S B) (g : B -> M S C) s :
  bind (bind m f) g s = bind m (fun a => bind (f a) g) s.
Proof. unfold bind. by destruct (m s). Qed.

Lemma bind_ext {A B} (m : M S A) (f g : A -> M S B) s :
  (forall a s', f a s' = g a s') -> bind m f s = bind m g s.
Proof. intros Hfg. unfold bind. destruct (m s); auto. Qed.

Lemma bind_gets {A B} (g : S -> A) (f : A -> M S B) s :
  bind (gets g) f s = f (g s) s.
Proof. done. Qed.

Lemma bind_modify {B} (g : S -> S) (f : unit -> M S B) s :
  bind (modify g) f s = f tt (g s).
Proof. done. Qed.

Lemma bind_ret {A B} (a : A) (f : A -> M S B) s : bind (ret a) f s = f a s.
Proof. done. Qed.

Lemma bind_rd {A B} (o : option A) (f : A -> M S B) s a :
  o = Some a -> bind (rd o) f s = f a s.
Proof. by intros ->. Qed.

Lemma foldM_app {X} (f : X -> M S unit) l1 l2 s :
  foldM f (l1 ++ l2) s = bind (foldM f l1) (fun _ => foldM f l2) s.
Proof.
  revert s. induction l1 as [|x l1 IH]; intros s; [done|].
  simpl. rewrite bind_assoc. apply bind_ext. intros _ s'. apply IH.
Qed.

Lemma foldM_snoc {X} (f : X -> M S unit) l x s :
  foldM f (l ++ [x]) s = bind (foldM f l) (fun _ => f x) s.
Proof.
  rewrite foldM_app. apply bind_ext. intros _ s'. simpl.
  unfold bind. destruct (f x s') as [[] | | |]; done.
Qed.

(** The invariant rule for a loop over a list: [P done s] describes the state
    once the elements [done] have been handled.  In a turn that has no defined
    behaviour [U] holds, and the loop has none. *)
Lemma foldM_tries {X} (f : X -> M S unit) (P : list X -> S -> Prop) (U : Prop) l s :
  P [] s ->
  (forall done_ x rest s1, l = done_ ++ x :: rest -> P done_ s1 ->
     (exists s2, f x s1 = Ret tt s2 /\ P (done_ ++ [x]) s2) \/ f x s1 = Undef /\ U) ->
  (exists s', foldM f l s = Ret tt s' /\ P l s') \/ foldM f l s = Undef /\ U.
Proof.
  intros H0 Hstep.
  enough (forall rest done_ s1, l = done_ ++ rest -> P done_ s1 ->
    (exists s', foldM f rest s1 = Ret tt s' /\ P l s') \/ foldM f rest s1 = Undef /\ U) as Hgen by (apply (Hgen l []); auto).
  intros rest. induction rest as [|x rest IH]; intros done_ s1 Hl HP.
  - rewrite app_nil_r in Hl. subst. left. by exists s1.
  - simpl. destruct (Hstep done_ x rest s1 Hl HP) as [(s2 & Hf & HP2)|[Hf HU]].
    + rewrite (bind_Ret _ _ _ _ _ Hf). apply (IH (done_ ++ [x])); [|done]. by rewrite <- (assoc_L (++)).
    + right. split; [|done]. unfold bind. by rewrite Hf.
Qed.

Lemma foldM_ind {X} (f : X -> M S unit) (P : list X -> S -> Prop) l s :
  P [] s ->
  (forall done_ x rest s1, l = done_ ++ x :: rest -> P done_ s1 ->
     exists s2, f x s1 = Ret tt s2 /\ P (done_ ++ [x]) s2) ->
  exists s', foldM f l s = Ret tt s' /\ P l s'.
Proof. intros H0 Hstep. destruct (foldM_tries f P False l s H0) as [?|[_ []]]; [|done]. eauto. Qed.

End monad.

Lemma lift_Ret {S A X} `{Lens S A} (m : M A X) (s : S) x a :
  m (view s) = Ret x a -> lift m s = Ret x (put a s).
Proof. unfold lift. by intros ->. Qed.

(** The index of a turn of a loop over [seqZ m n]. *)
Lemma seqZ_split m n d i r : seqZ m n = d ++ i :: r -> i = m + Z.of_nat (length d) /\ Z.of_nat (length d) < n.
Proof.
  intros Heq. apply lookup_seqZ. by rewrite Heq, lookup_app_r, Nat.sub_diag.
Qed.

(** * Tactics *)

(** [mon] runs the state-independent first step of a computation. *)
Ltac mon :=
  repeat first
    [ rewrite bind_assoc | rewrite bind_gets | rewrite bind_modify
    | rewrite bind_ret ]; cbn beta iota.

(** [step H] runs the first step of a computation with the equation [H]
    for it. *)
Ltac step H := rewrite (bind_Ret _ _ _ _ _ H); cbn beta iota.

(** [step_rd H] reads a value that is there. *)
Ltac step_rd H := rewrite (bind_rd _ _ _ _ H); cbn beta iota.

(** [loop P as pat] applies the invariant rule to the loop of the goal. *)
Tactic Notation "loop" uconstr(P) "as" simple_intropattern(pat) :=
  match goal with
  | |- context [foldM ?f ?l ?s] => destruct (foldM_ind f P l s) as pat
  end.

(** Case analysis on the boolean comparisons of the code. *)
Ltac zcase :=
  match goal with
  | |- context [Z.eqb ?a ?b] => destruct (Z.eqb_spec a b)
  | |- context [Z.ltb ?a ?b] => destruct (Z.ltb_spec a b)
  | |- context [Z.leb ?a ?b] => destruct (Z.leb_spec a b)
  | H : context [Z.eqb ?a ?b] |- _ => destruct (Z.eqb_spec a b)
  | H : context [Z.ltb ?a ?b] |- _ => destruct (Z.ltb_spec a b)
  | H : context [Z.leb ?a ?b] |- _ => destruct (Z.leb_spec a b)
  end.

(** * Memory *)

(** The allocator behind [malloc]: [fails] says, call by call, which of the
    next calls return [NULL] (every call after the end of the list succeeds);
    a successful call returns an address that was never returned before. *)
Record arena := mkArena {
  fails : list bool;
  brk_addr : Z
}.

Definition malloc (size : Z) : M arena ptr := fun a =>
  match fails a with
  | true :: fs => Ret NULL (mkArena fs (brk_addr a))
  | false :: fs => Ret (brk_addr a) (mkArena fs (brk_addr a + Z.max 1 size))
  | [] => Ret (brk_addr a) (mkArena [] (brk_addr a + Z.max 1 size))
  end.

(** Memory is plentiful when no later [malloc] fails. *)
Definition plenty (a : arena) : Prop := Forall (fun f => f = false) (fails a).

Lemma malloc_spec size a :
  0 < brk_addr a ->
  exists p a', malloc size a = Ret p a' /\ (plenty a -> plenty a') /\
    brk_addr a <= brk_addr a' /\
    (p = NULL /\ brk_addr a' = brk_addr a /\ ~ plenty a \/
     p = brk_addr a /\ brk_addr a' = brk_addr a + Z.max 1 size).
Proof.
  intros Hpos. unfold malloc, plenty. destruct (fails a) as [|[] fs] eqn:E; simpl.
  - eexists _, _. split; [done|]. simpl. split; [auto|]. split; [lia|]. by right.
  - eexists _, _. split; [done|]. simpl. split; [by inversion 1|]. split; [lia|].
    left. split_and!; [done..|]. by inversion 1.
  - eexists _, _. split; [done|]. simpl. split; [by inversion 1|]. split; [lia|]. by right.
Qed.

(** * Generic lemmas *)

Lemma app_inj_singleton {A} (l1 l2 : list A) x y :
  l1 ++ [x] = l2 ++ [y] -> l1 = l2 /\ x = y.
Proof. intros H. by apply app_inj_2 in H as [-> [= ->]]. Qed.

Lemma NoDup_fmap_fst_perm {A B} (l1 l2 : list (A * B)) :
  l1 ≡ₚ l2 -> NoDup l1.*1 -> NoDup l2.*1.
Proof. intros HP. by rewrite HP. Qed.

Create Rewrite HintDb lens.
#[export] Hint Rewrite @view_put @put_view @put_put : lens.

Create HintDb yalnix.
