(* ===== verification/Hardware.v ===== *)
(** The machine the kernel runs on: the constants and macros of hardware.h and
    yalnix.h.  These headers are not part of the repository, so every one of
    their names is a parameter (the class [Hardware]), and what the kernel
    relies on is stated once, as the laws of [HardwareLaws].

    [dartmouth] is a concrete instance, used only to show that the laws can
    hold and to evaluate the examples. *)

From stdpp Require Import base numbers.
From S2P Require Import Prelude.

(** The system calls of yalnix.h that the kernel handles; [YALNIX] gives their
    numbers. *)
Inductive yalnix_call :=
| FORK | EXEC | EXIT | WAIT | GETPID | BRK | DELAY | RECLAIM | TTY_READ | TTY_WRITE
| LOCK_INIT | LOCK_ACQUIRE | LOCK_RELEASE | CVAR_INIT | CVAR_SIGNAL | CVAR_BROADCAST | CVAR_WAIT
| PIPE_INIT | PIPE_READ | PIPE_WRITE.
Definition all_calls : list yalnix_call :=
  [FORK; EXEC; EXIT; WAIT; GETPID; BRK; DELAY; RECLAIM; TTY_READ; TTY_WRITE;
   LOCK_INIT; LOCK_ACQUIRE; LOCK_RELEASE; CVAR_INIT; CVAR_SIGNAL; CVAR_BROADCAST; CVAR_WAIT;
   PIPE_INIT; PIPE_READ; PIPE_WRITE].

Class Hardware := {
  (** yalnix.h *)
  ERROR : Z;
  YALNIX : yalnix_call -> Z;
  (** pages *)
  PAGESHIFT : Z;
  PAGESIZE : Z;
  DOWN_TO_PAGE : Z -> Z;
  (** virtual memory layout *)
  VMEM_BASE : Z;
  VMEM_0_BASE : Z;
  VMEM_0_LIMIT : Z;
  VMEM_1_BASE : Z;
  VMEM_1_LIMIT : Z;
  MAX_PT_LEN : Z;
  KERNEL_STACK_BASE : Z;
  KERNEL_STACK_LIMIT : Z;
  KERNEL_STACK_MAXSIZE : Z;
  (** physical memory *)
  PMEM_BASE : Z;
  (** protection bits, and the page table entry *)
  PROT_NONE : Z;
  PROT_READ : Z;
  PROT_WRITE : Z;
  PROT_EXEC : Z;
  PTE_SIZE : Z;        (** [sizeof(struct pte)] *)
  PTE_PROT_BITS : Z;   (** width of [prot] in [struct pte] *)
  PTE_PFN_BITS : Z;    (** width of [pfn] in [struct pte] *)
  (** [WriteRegister(REG_TLB_FLUSH, TLB_FLUSH_1)] *)
  TLB_FLUSH_1 : Z;
  (** terminals *)
  NUM_TERMINALS : Z;
  TERMINAL_MAX_LINE : Z;
  (** the sizes of the context structures, and what a [UserContext] holds that
      [malloc] has just returned *)
  sizeof_UserContext : Z;
  sizeof_KernelContext : Z;
  (** load_info.h and hardware.h: the layout of a new user stack *)
  POST_ARGV_NULL_SPACE : Z;
  INITIAL_STACK_FRAME_SIZE : Z;
  fresh_UserContext : UserContext
}.

(** [PROT_READ|PROT_WRITE] and [PROT_READ|PROT_EXEC]. *)
Definition PROT_RW `{Hardware} : Z := Z.lor PROT_READ PROT_WRITE.
Definition PROT_RX `{Hardware} : Z := Z.lor PROT_READ PROT_EXEC.

(** The macros of Kernel.h. *)
Definition SUCCESS : Z := 0.
Definition KILL : Z := 42.
Definition KERNEL_STACK_BASE_VPN `{Hardware} : Z := Z.shiftr KERNEL_STACK_BASE PAGESHIFT.
Definition KERNEL_BASE_VPN `{Hardware} : Z := Z.shiftr VMEM_0_BASE PAGESHIFT.
Definition USER_BASE_VPN `{Hardware} : Z := Z.shiftr VMEM_1_BASE PAGESHIFT.

(** The number of pages of a kernel stack, the bound of the loops over
    [stackPfns]. *)
Definition STACK_PAGES `{Hardware} : Z := Z.quot KERNEL_STACK_MAXSIZE PAGESIZE.

(** What the kernel relies on: [ERROR] is negative ("supposedly -1",
    PageTable.c), pages are powers of two, the two regions are adjacent, each
    as long as one page table maps, and below the sign bit; the kernel stack
    is a whole number of pages at the top of region 0; the protections the
    kernel uses fit their bit-field and are not empty; the gaps in a new user
    stack are not negative. *)
Class HardwareLaws `{Hardware} : Prop := {
  ERROR_neg : ERROR < 0;
  YALNIX_inj c d : YALNIX c = YALNIX d -> c = d;
  PAGESHIFT_pos : 0 < PAGESHIFT < 31;
  PAGESIZE_eq : PAGESIZE = 2 ^ PAGESHIFT;
  DOWN_TO_PAGE_eq a : 0 <= a < 2 ^ 32 -> DOWN_TO_PAGE a = a - a mod PAGESIZE;
  MAX_PT_LEN_pos : 0 < MAX_PT_LEN;
  VMEM_BASE_eq : VMEM_BASE = 0;
  VMEM_0_BASE_eq : VMEM_0_BASE = 0;
  VMEM_0_LIMIT_eq : VMEM_0_LIMIT = MAX_PT_LEN * PAGESIZE;
  VMEM_1_BASE_eq : VMEM_1_BASE = MAX_PT_LEN * PAGESIZE;
  VMEM_1_LIMIT_eq : VMEM_1_LIMIT = 2 * MAX_PT_LEN * PAGESIZE;
  VMEM_1_LIMIT_int : VMEM_1_LIMIT < 2 ^ 31;
  KERNEL_STACK_LIMIT_eq : KERNEL_STACK_LIMIT = VMEM_0_LIMIT;
  KERNEL_STACK_BASE_eq : KERNEL_STACK_BASE = KERNEL_STACK_LIMIT - KERNEL_STACK_MAXSIZE;
  KERNEL_STACK_pages : KERNEL_STACK_MAXSIZE = STACK_PAGES * PAGESIZE;
  KERNEL_STACK_room : 0 < STACK_PAGES < MAX_PT_LEN;
  PTE_SIZE_pos : 0 < PTE_SIZE;
  PROT_NONE_fits : 0 <= PROT_NONE < 2 ^ PTE_PROT_BITS;
  PROT_RW_fits : 0 < PROT_RW < 2 ^ PTE_PROT_BITS;
  PROT_RX_fits : 0 < PROT_RX < 2 ^ PTE_PROT_BITS;
  PTE_BITS_pos : 0 < PTE_PROT_BITS /\ 0 < PTE_PFN_BITS;
  NUM_TERMINALS_pos : 0 < NUM_TERMINALS;
  TERMINAL_MAX_LINE_pos : 1 < TERMINAL_MAX_LINE < 2 ^ 31;
  ARGV_SPACE_nonneg : 0 <= POST_ARGV_NULL_SPACE /\ 0 <= INITIAL_STACK_FRAME_SIZE
}.

(** A machine with the documented layout: 8 KiB pages, 1 MiB regions, a
    two-page kernel stack. *)
#[export] Instance dartmouth : Hardware := {|
  ERROR := -1;
  YALNIX := fun c => match c with
    | FORK => 1 | EXEC => 2 | EXIT => 3 | WAIT => 4 | GETPID => 5 | BRK => 6 | DELAY => 7
    | TTY_READ => 21 | TTY_WRITE => 22 | PIPE_INIT => 31 | PIPE_READ => 32 | PIPE_WRITE => 33
    | LOCK_INIT => 41 | LOCK_ACQUIRE => 42 | LOCK_RELEASE => 43 | CVAR_INIT => 51
    | CVAR_WAIT => 52 | CVAR_SIGNAL => 53 | CVAR_BROADCAST => 54 | RECLAIM => 61
    end;
  PAGESHIFT := 13; PAGESIZE := 0x2000;
  DOWN_TO_PAGE := fun a => Z.land a (Z.lnot 0x1fff);
  VMEM_BASE := 0; VMEM_0_BASE := 0; VMEM_0_LIMIT := 0x100000;
  VMEM_1_BASE := 0x100000; VMEM_1_LIMIT := 0x200000;
  MAX_PT_LEN := 128;
  KERNEL_STACK_BASE := 0xfc000; KERNEL_STACK_LIMIT := 0x100000;
  KERNEL_STACK_MAXSIZE := 0x4000;
  PMEM_BASE := 0;
  PROT_NONE := 0; PROT_READ := 1; PROT_WRITE := 2; PROT_EXEC := 4;
  PTE_SIZE := 4; PTE_PROT_BITS := 3; PTE_PFN_BITS := 24;
  TLB_FLUSH_1 := -2;
  NUM_TERMINALS := 4; TERMINAL_MAX_LINE := 1024;
  sizeof_UserContext := 64; sizeof_KernelContext := 128;
  POST_ARGV_NULL_SPACE := 0; INITIAL_STACK_FRAME_SIZE := 16;
  fresh_UserContext := mkUctxt 0 0 0 0 0 (repeat 0 8)
|}.

#[export] Instance dartmouth_laws : HardwareLaws.
Proof.
  split; try match goal with
    | |- forall _ : Z, _ => fail 1
    | |- forall _ : yalnix_call, _ => intros [] []; done
    | |- _ => vm_compute; intuition congruence
    end.
  intros a Ha. cbn.
  rewrite <- Z.ldiff_land. change 8191 with (Z.ones 13).
  rewrite Z.ldiff_ones_r by lia. rewrite Z.shiftr_div_pow2, Z.shiftl_mul_pow2 by lia.
  change 8192 with (2 ^ 13). pose proof (Z.div_mod a (2 ^ 13)). lia.
Qed.

(** * Page arithmetic *)

Section pages.
Context `{HL : HardwareLaws}.

Lemma PAGESIZE_pos : 0 < PAGESIZE.
Proof. rewrite PAGESIZE_eq. pose proof PAGESHIFT_pos. apply Z.pow_pos_nonneg; lia. Qed.

Lemma shiftr_page a : Z.shiftr a PAGESHIFT = a / PAGESIZE.
Proof. pose proof PAGESHIFT_pos. rewrite PAGESIZE_eq. apply Z.shiftr_div_pow2. lia. Qed.

Lemma shiftl_page a : Z.shiftl a PAGESHIFT = a * PAGESIZE.
Proof. pose proof PAGESHIFT_pos. rewrite PAGESIZE_eq. apply Z.shiftl_mul_pow2. lia. Qed.

(** A status 0 is not an error. *)
Lemma eqb_0_ERROR : (0 =? ERROR) = false.
Proof. pose proof ERROR_neg. by destruct (Z.eqb_spec 0 ERROR); [lia|]. Qed.

Lemma KERNEL_BASE_VPN_eq : KERNEL_BASE_VPN = 0.
Proof. unfold KERNEL_BASE_VPN. rewrite VMEM_0_BASE_eq. apply Z.shiftr_0_l. Qed.

Lemma USER_BASE_VPN_eq : USER_BASE_VPN = MAX_PT_LEN.
Proof.
  unfold USER_BASE_VPN. rewrite shiftr_page, VMEM_1_BASE_eq.
  pose proof PAGESIZE_pos. apply Z.div_mul. lia.
Qed.

(** The base of an address's page is the address itself exactly when the
    address is a multiple of the page size. *)
Lemma DOWN_TO_PAGE_aligned a :
  0 <= a < 2 ^ 32 -> (DOWN_TO_PAGE a =? a) = (a mod PAGESIZE =? 0).
Proof. intros Ha. rewrite DOWN_TO_PAGE_eq by done. repeat zcase; lia. Qed.

Lemma u32_small a : 0 <= a < 2 ^ 32 -> u32 a = a.
Proof. apply Z.mod_small. Qed.

End pages.
