(* ===== verification/Linked.v ===== *)
(** Singly linked lists in a heap of nodes: the shape shared by the queues of
    Queue.c and the sets of set.c.

[chain h p l q]: from pointer [p], following the [next] members, the heap
    [h] holds exactly the nodes [l] (address and content, in order), and the
    last of them points to [q]. *)

From stdpp Require Import base gmap list fin_sets.
From S2P Require Import Prelude.

Section chain.
Context {N : Type} (next : N -> ptr).
Implicit Types (h : gmap ptr N) (l : list (ptr * N)) (p q : ptr) (n : N).

Fixpoint chain h p l q : Prop :=
  match l with
  | [] => p = q
  | (a, n) :: l' => p = a /\ a <> NULL /\ h !! a = Some n /\ chain h (next n) l' q
  end.

Lemma chain_app h p l1 l2 q :
  chain h p (l1 ++ l2) q <-> exists r, chain h p l1 r /\ chain h r l2 q.
Proof.
  revert p. induction l1 as [|[a n] l1 IH]; intros p; simpl.
  - naive_solver.
  - setoid_rewrite IH. naive_solver.
Qed.

Lemma chain_frame h h' p l q :
  (forall a, a ∈ l.*1 -> h' !! a = h !! a) -> chain h p l q -> chain h' p l q.
Proof.
  revert p. induction l as [|[a n] l IH]; intros p Hfr; simpl; [done|].
  intros (-> & Ha & Hn & Hc). split_and!; [done|done| |].
  - rewrite Hfr; [done|]. simpl. left.
  - apply IH; [|done]. intros b Hb. apply Hfr. simpl. by right.
Qed.

Lemma chain_NULL h l q : chain h NULL l q -> l = [] /\ q = NULL.
Proof. destruct l as [|[a n] l]; simpl; naive_solver. Qed.

Lemma chain_nonnull h p l :
  p <> NULL -> chain h p l NULL ->
  exists n l', l = (p, n) :: l' /\ h !! p = Some n /\ chain h (next n) l' NULL.
Proof. destruct l as [|[a n] l]; simpl; naive_solver. Qed.

Lemma chain_lookup h p l q a : chain h p l q -> a ∈ l.*1 -> is_Some (h !! a) /\ a <> NULL.
Proof.
  revert p. induction l as [|[b n] l IH]; intros p; simpl.
  - intros _ H. by apply elem_of_nil in H.
  - intros (-> & Hb & Hn & Hc) [->|Hin]%elem_of_cons; eauto.
Qed.

(** A null-terminated chain is determined by its first pointer ... *)
Lemma chain_det h p l1 l2 : chain h p l1 NULL -> chain h p l2 NULL -> l1 = l2.
Proof.
  revert p l2. induction l1 as [|[a n] l1 IH]; intros p [|[b m] l2]; simpl; naive_solver.
Qed.

(** ... so it never visits a node twice. *)
Lemma chain_NoDup h p l : chain h p l NULL -> NoDup l.*1.
Proof.
  revert p. induction l as [|[a n] l IH]; intros p; simpl; [constructor|].
  intros (-> & Ha & Hn & Hc). constructor; [|by eapply IH].
  intros (i & [[b m] [Heq Hi]]%list_lookup_fmap_Some)%list_elem_of_lookup. simpl in Heq; subst b.
  pose proof (take_drop_middle _ _ _ Hi) as Hsplit.
  rewrite <- Hsplit in Hc. apply chain_app in Hc as (r & Hc1 & Hc2).
  assert (r = a) as -> by (simpl in Hc2; naive_solver).
  assert (chain h a ((a, n) :: l) NULL) as Hc3.
  { simpl. split_and!; try done. rewrite <- Hsplit. apply chain_app. eauto. }
  pose proof (chain_det _ _ _ _ Hc2 Hc3) as Hl. apply (f_equal length) in Hl.
  simpl in Hl. rewrite length_drop in Hl. apply lookup_lt_Some in Hi. lia.
Qed.

Lemma chain_insert_fresh h p l q a n :
  a ∉ l.*1 -> chain h p l q -> chain (<[a:=n]> h) p l q.
Proof.
  intros Ha. apply chain_frame. intros b Hb. rewrite lookup_insert_ne; [done|]. by intros ->.
Qed.

Lemma chain_delete h p l q a :
  a ∉ l.*1 -> chain h p l q -> chain (delete a h) p l q.
Proof.
  intros Ha. apply chain_frame. intros b Hb. rewrite lookup_delete_ne; [done|]. by intros ->.
Qed.

(** Appending a fresh node behind the last one, as [enq_q] does. *)
Lemma chain_snoc h p l a n b m m' :
  chain h p (l ++ [(a, n)]) NULL -> b <> NULL -> b ∉ (l ++ [(a, n)]).*1 ->
  next m' = b -> next m = NULL ->
  chain (<[a:=m']> (<[b:=m]> h)) p (l ++ [(a, m'); (b, m)]) NULL.
Proof.
  intros Hc Hb Hfr Hm' Hm. pose proof (chain_NoDup _ _ _ Hc) as Hnd.
  rewrite fmap_app in Hnd, Hfr. simpl in Hnd, Hfr.
  apply chain_app in Hc as (r & Hc1 & Hc2). simpl in Hc2. destruct Hc2 as (-> & Ha & Hn & Hnx).
  apply chain_app. exists a. split.
  - apply chain_insert_fresh; [|apply chain_insert_fresh; [set_solver|done]].
    apply NoDup_app in Hnd as (_ & Hd & _). intros Hin. apply (Hd a Hin). left.
  - simpl. rewrite lookup_insert_eq, lookup_insert_ne by set_solver.
    rewrite lookup_insert_eq, Hm, Hm'. naive_solver.
Qed.

(** Unlinking a node in the middle, as [set_remove] does. *)
Lemma chain_unlink h p l1 a n b m l2 n' :
  chain h p (l1 ++ (a, n) :: (b, m) :: l2) NULL -> next n' = next m ->
  chain (<[a:=n']> (delete b h)) p (l1 ++ (a, n') :: l2) NULL.
Proof.
  intros Hc Hn'. pose proof (chain_NoDup _ _ _ Hc) as Hnd.
  rewrite fmap_app in Hnd. simpl in Hnd.
  apply NoDup_app in Hnd as (_ & Hd & Hnd2).
  apply NoDup_cons in Hnd2 as [Hab Hnd2]. apply NoDup_cons in Hnd2 as [Hb2 Hnd2].
  apply chain_app in Hc as (r & Hc1 & Hc2). simpl in Hc2.
  destruct Hc2 as (-> & Ha & Hn & Hbn & Hb & Hm & Hc2).
  apply chain_app. exists a. split.
  - apply chain_insert_fresh; [|apply chain_delete; [|done]]; intros Hin;
      apply (Hd _ Hin); set_solver.
  - simpl. rewrite lookup_insert_eq, Hn'. split_and!; [done..|].
    apply chain_insert_fresh; [set_solver|]. by apply chain_delete.
Qed.

End chain.

Arguments chain {N} next h p l q.

(** * Heaps of lists

    A module that keeps linked lists has objects (a [q_t], a [set_t]) that
    point to the first node of a chain.  [forest brk nodes objs g]: the objects
    are the keys of [g]; each is the chain [g] gives it, up to [NULL], and
    satisfies the module's own [inv]; no node belongs to two objects; every
    address in use is below [brk], the next address of the allocator. *)

Section forest.
Context {N Obj : Type} (next : N -> ptr) (hd : Obj -> ptr) (inv : Obj -> list (ptr * N) -> Prop).
Implicit Types (nodes : gmap ptr N) (objs : gmap ptr Obj) (g : gmap ptr (list (ptr * N))).

Record forest (brk : Z) nodes objs g : Prop := {
  fo_brk : 0 < brk;
  fo_dom o : is_Some (objs !! o) <-> is_Some (g !! o);
  fo_obj o : is_Some (objs !! o) -> 0 < o < brk;
  fo_node a : is_Some (nodes !! a) -> 0 < a < brk;
  fo_chain o l O : g !! o = Some l -> objs !! o = Some O ->
    chain next nodes (hd O) l NULL /\ inv O l;
  fo_disj o1 o2 l1 l2 a : g !! o1 = Some l1 -> g !! o2 = Some l2 ->
    a ∈ l1.*1 -> a ∈ l2.*1 -> o1 = o2
}.

Lemma forest_object brk nodes objs g o l : forest brk nodes objs g -> g !! o = Some l ->
  exists O, objs !! o = Some O /\ o <> NULL /\ chain next nodes (hd O) l NULL /\ inv O l.
Proof.
  intros Hf Ho. destruct (proj2 (fo_dom _ _ _ _ Hf o)) as [O HO]; [by eauto|].
  pose proof (fo_obj _ _ _ _ Hf o (mk_is_Some _ _ HO)).
  destruct (fo_chain _ _ _ _ Hf _ _ _ Ho HO). exists O. split_and!; try done. lia.
Qed.

Lemma forest_in_nodes brk nodes objs g o l a : forest brk nodes objs g ->
  g !! o = Some l -> a ∈ l.*1 -> is_Some (nodes !! a).
Proof.
  intros Hf Ho Ha. destruct (forest_object _ _ _ _ _ _ Hf Ho) as (O & _ & _ & Hc & _).
  by destruct (chain_lookup _ _ _ _ _ _ Hc Ha).
Qed.

Lemma forest_NULL brk nodes objs g : forest brk nodes objs g -> g !! NULL = None.
Proof.
  intros Hf. apply eq_None_not_Some. intros Hi%(fo_dom _ _ _ _ Hf)%(fo_obj _ _ _ _ Hf). lia.
Qed.

Lemma forest_fresh_node brk nodes objs g a : forest brk nodes objs g -> brk <= a ->
  nodes !! a = None.
Proof. intros Hf Ha. apply eq_None_not_Some. intros Hi%(fo_node _ _ _ _ Hf). lia. Qed.

(** Every chain fits in the heap: the fuel of the loops over it suffices. *)
Lemma forest_length brk nodes objs g o l : forest brk nodes objs g -> g !! o = Some l ->
  (length l <= size nodes)%nat.
Proof.
  intros Hf Ho. destruct (forest_object _ _ _ _ _ _ Hf Ho) as (O & _ & _ & Hc & _).
  pose proof (chain_NoDup _ _ _ _ Hc) as Hnd.
  rewrite <- (length_fmap fst l), <- size_dom.
  rewrite <- (size_list_to_set (C := gset Z)) by done. apply subseteq_size.
  intros a Ha%elem_of_list_to_set. apply elem_of_dom. by eapply forest_in_nodes.
Qed.

(** The allocator moves on. *)
Lemma forest_brk brk brk' nodes objs g : forest brk nodes objs g -> brk <= brk' ->
  forest brk' nodes objs g.
Proof.
  intros [Hb Hd Ho Hn Hc Hdj] Hle. split; try done.
  - lia.
  - intros o Hi%Ho. lia.
  - intros a Hi%Hn. lia.
Qed.

(** A new object with no node. *)
Lemma forest_new brk brk' nodes objs g O : forest brk nodes objs g -> brk < brk' ->
  hd O = NULL -> inv O [] ->
  g !! brk = None /\ forest brk' nodes (<[brk := O]> objs) (<[brk := []]> g).
Proof.
  intros Hf Hlt HO Hi.
  assert (g !! brk = None) as Hfr.
  { apply eq_None_not_Some. intros Hs%(fo_dom _ _ _ _ Hf)%(fo_obj _ _ _ _ Hf). lia. }
  split; [done|]. destruct Hf as [Hb Hd Ho Hn Hc Hdj]. split.
  - lia.
  - intros o. by rewrite !lookup_insert_is_Some, Hd.
  - intros o [<-|[_ Hs]]%lookup_insert_is_Some; [lia|]. apply Ho in Hs. lia.
  - intros a Hs%Hn. lia.
  - intros o l O'. destruct (decide (o = brk)) as [->|Hne].
    + rewrite !lookup_insert_eq. by intros [= <-] [= <-].
    + rewrite !lookup_insert_ne by done. apply Hc.
  - intros o1 o2 l1 l2 a [[<- <-]|[Hne1 H1]]%lookup_insert_Some
      [[<- <-]|[Hne2 H2]]%lookup_insert_Some Ha1 Ha2; try by apply elem_of_nil in Ha1.
    + by apply elem_of_nil in Ha2.
    + by eapply Hdj.
Qed.

(** Replacing the chain of one object, leaving the nodes of the others. *)
Lemma forest_update brk brk' nodes nodes' objs g o l l' O' :
  forest brk nodes objs g -> g !! o = Some l ->
  chain next nodes' (hd O') l' NULL -> inv O' l' ->
  (forall a, a ∉ l.*1 -> a ∉ l'.*1 -> nodes' !! a = nodes !! a) ->
  (forall a, a ∈ l'.*1 -> a ∈ l.*1 \/ nodes !! a = None) ->
  brk <= brk' -> (forall a, is_Some (nodes' !! a) -> 0 < a < brk') ->
  forest brk' nodes' (<[o := O']> objs) (<[o := l']> g).
Proof.
  intros Hf Hl Hc Hi Hfr Hnew Hbrk Hn.
  assert (forall o2 l2 a, o2 <> o -> g !! o2 = Some l2 -> a ∈ l2.*1 ->
    (a ∉ l.*1) /\ (a ∉ l'.*1)) as Hother.
  { intros o2 l2 a Hne Ho2 Ha.
    assert (a ∉ l.*1) as Hal by (intros Hal; apply Hne; by eapply fo_disj).
    split; [done|]. intros Hal'. destruct (Hnew a Hal') as [|Hnone]; [done|].
    destruct (forest_in_nodes _ _ _ _ _ _ _ Hf Ho2 Ha). congruence. }
  pose proof (forest_brk _ _ _ _ _ Hf Hbrk) as [Hb Hd Ho _ Hc0 Hdj]. split; try done.
  - intros o2. rewrite !lookup_insert_is_Some, Hd. naive_solver.
  - intros o2 [<-|[_ Hs]]%lookup_insert_is_Some; [|by apply Ho]. apply Ho, Hd. by eauto.
  - intros o2 l2 O2 [[<- <-]|[Hne Hl2]]%lookup_insert_Some.
    + rewrite lookup_insert_eq. by intros [= <-].
    + rewrite lookup_insert_ne by done. intros HO2. destruct (Hc0 _ _ _ Hl2 HO2) as [Hc2 Hi2].
      split; [|done]. eapply chain_frame; [|done]. intros a Ha.
      destruct (Hother _ _ _ (not_eq_sym Hne) Hl2 Ha). by apply Hfr.
  - intros o1 o2 l1 l2 a [[<- <-]|[Hne1 H1]]%lookup_insert_Some
      [[<- <-]|[Hne2 H2]]%lookup_insert_Some Ha1 Ha2; [done|..].
    + by destruct (Hother _ _ _ (not_eq_sym Hne2) H2 Ha2).
    + by destruct (Hother _ _ _ (not_eq_sym Hne1) H1 Ha1).
    + by eapply Hdj.
Qed.

(** Freeing an object whose nodes are gone. *)
Lemma forest_free brk nodes objs g o : forest brk nodes objs g ->
  forest brk nodes (delete o objs) (delete o g).
Proof.
  intros [Hb Hd Ho Hn Hc Hdj]. split; try done.
  - intros o2. by rewrite !lookup_delete_is_Some, Hd.
  - intros o2 [_ Hs]%lookup_delete_is_Some. by apply Ho.
  - intros o2 l O [_ Hl]%lookup_delete_Some [_ HO]%lookup_delete_Some. by eapply Hc.
  - intros o1 o2 l1 l2 a [_ H1]%lookup_delete_Some [_ H2]%lookup_delete_Some. by eapply Hdj.
Qed.

End forest.

Arguments forest {N Obj} next hd inv brk nodes objs g.
