(* ===== verification/Queue.v ===== *)
(** The queues of GeneralDataStructures/Queue/Queue.c.

    [QueueOps] is the interface the rest of the kernel uses: the functions of
    Queue.h, over an abstract state [QH].  [QueueLaws] is what they promise: a
    queue holds a FIFO list of items ([q_rep h m]: in the heap [h], the queue
    objects are the keys of [m], with these contents).

    [QueueImpl] is the code of Queue.c, on a heap of [q_t] objects and linked
    [qnode_t] nodes; the two instances at the end say that it keeps the
    promise. *)

From stdpp Require Import base gmap list.
From S2P Require Import Prelude Hardware Linked.

(** * The interface *)

Class QueueOps (QH : Type) := {
  make_q : M QH ptr;
  enq_q : ptr -> ptr -> M QH Z;
  deq_q : ptr -> M QH ptr;
  peek_q : ptr -> M QH ptr;
  delete_q : forall {S} `{Lens S QH}, ptr -> option (ptr -> M S unit) -> M S unit
}.

Class QueueLaws (QH : Type) `{Hardware} `{QueueOps QH} := {
  (** the queue objects of the heap, and their contents, head first *)
  q_rep : QH -> gmap ptr (list ptr) -> Prop;
  (** no later [malloc] of the module fails *)
  q_plenty : QH -> Prop;

  q_rep_NULL h m : q_rep h m -> m !! NULL = None;
  make_q_spec h m : q_rep h m ->
    exists p h', make_q h = Ret p h' /\ (q_plenty h -> q_plenty h') /\
      (p = NULL /\ ~ q_plenty h /\ q_rep h' m \/
       p <> NULL /\ m !! p = None /\ q_rep h' (<[p := []]> m));
  enq_q_null x h : enq_q NULL x h = Ret ERROR h;
  enq_q_spec h m q xs x : q_rep h m -> m !! q = Some xs ->
    exists r h', enq_q q x h = Ret r h' /\ (q_plenty h -> q_plenty h') /\
      (r = ERROR /\ ~ q_plenty h /\ q_rep h' m \/
       r = 0 /\ q_rep h' (<[q := xs ++ [x]]> m));
  deq_q_null h : deq_q NULL h = Ret NULL h;
  deq_q_nil h m q : q_rep h m -> m !! q = Some [] -> deq_q q h = Ret NULL h;
  deq_q_cons h m q x xs : q_rep h m -> m !! q = Some (x :: xs) ->
    exists h', deq_q q h = Ret x h' /\ (q_plenty h -> q_plenty h') /\
      q_rep h' (<[q := xs]> m);
  peek_q_null h : peek_q NULL h = Ret NULL h;
  peek_q_spec h m q xs : q_rep h m -> m !! q = Some xs ->
    peek_q q h = Ret (default NULL (head xs)) h;
  delete_q_null {S} `{Lens S QH} f (s : S) : delete_q NULL f s = Ret tt s;
  (** [delete_q] calls [itemdelete] on the items in order, then frees the
      queue; [J] is what the caller knows of its own state after the items
      [done] *)
  delete_q_spec {S} `{Lens S QH} (s : S) m q xs (f : option (ptr -> M S unit))
      (J : list ptr -> S -> Prop) :
    q_rep (view s) m -> m !! q = Some xs ->
    J [] s ->
    (forall d s1 h, J d s1 -> J d (put h s1)) ->
    (forall d x r s1, xs = d ++ x :: r -> J d s1 ->
       match f with
       | Some g => exists s2, g x s1 = Ret tt s2 /\ view s2 = view s1 /\ J (d ++ [x]) s2
       | None => J (d ++ [x]) s1
       end) ->
    exists s', delete_q q f s = Ret tt s' /\ J xs s' /\
      (q_plenty (view s) -> q_plenty (view s')) /\ q_rep (view s') (delete q m)
}.

(** * Queue.c *)

Module QueueImpl.

(** [struct qnode] and [struct queue] of Queue.h. *)
Record qnode_t := mkQnode { item : ptr; node_behind : ptr }.
Record q_t := mkQ { q_head : ptr; q_tail : ptr }.

(** The memory of the module: its [malloc], the nodes, the queue objects. *)
Record qheap := mkQheap {
  qh_arena : arena;
  qh_nodes : gmap ptr qnode_t;
  qh_qs : gmap ptr q_t
}.

#[export] Program Instance qheap_arena : Lens qheap arena := {|
  view := qh_arena;
  put a h := mkQheap a (qh_nodes h) (qh_qs h)
|}.
Solve All Obligations with first [done | by intros [] ].

Definition load_node (p : ptr) : M qheap qnode_t := fun h =>
  match qh_nodes h !! p with Some n => Ret n h | None => Undef end.
Definition load_q (p : ptr) : M qheap q_t := fun h =>
  match qh_qs h !! p with Some q => Ret q h | None => Undef end.
(** Writing a whole object that [malloc] returned, and freeing one. *)
Definition set_node (p : ptr) (n : qnode_t) : M qheap unit :=
  modify (fun h => mkQheap (qh_arena h) (<[p := n]> (qh_nodes h)) (qh_qs h)).
Definition set_q (p : ptr) (q : q_t) : M qheap unit :=
  modify (fun h => mkQheap (qh_arena h) (qh_nodes h) (<[p := q]> (qh_qs h))).
Definition free_node (p : ptr) : M qheap unit :=
  load_node p ;;; modify (fun h => mkQheap (qh_arena h) (delete p (qh_nodes h)) (qh_qs h)).
Definition free_q (p : ptr) : M qheap unit :=
  load_q p ;;; modify (fun h => mkQheap (qh_arena h) (qh_nodes h) (delete p (qh_qs h))).

Section code.
Context `{Hardware}.

Definition make_q : M qheap ptr :=
  let! queue := lift (malloc 8) in
  if queue =? NULL then ret NULL else
  set_q queue (mkQ NULL NULL) ;;;
  ret queue.

Definition enq_q (queue item : ptr) : M qheap Z :=
  if queue =? NULL then ret ERROR else
  let! node := lift (malloc 8) in
  if node =? NULL then ret ERROR else
  set_node node (mkQnode item NULL) ;;;
  let! q := load_q queue in
  (if q_head q =? NULL then
     set_q queue (mkQ node node)
   else
     let! t := load_node (q_tail q) in
     set_node (q_tail q) (mkQnode (QueueImpl.item t) node) ;;;
     set_q queue (mkQ (q_head q) node)) ;;;
  ret 0.

Definition deq_q (queue : ptr) : M qheap ptr :=
  if queue =? NULL then ret NULL else
  let! q := load_q queue in
  if q_head q =? NULL then ret NULL else
  let! n := load_node (q_head q) in
  let new_head := node_behind n in
  free_node (q_head q) ;;;
  set_q queue (mkQ new_head (if new_head =? NULL then NULL else q_tail q)) ;;;
  ret (item n).

Definition peek_q (queue : ptr) : M qheap ptr :=
  if queue =? NULL then ret NULL else
  let! q := load_q queue in
  if q_head q =? NULL then ret NULL else
  let! n := load_node (q_head q) in
  ret (item n).

(** The loop of [delete_q]; [fuel] bounds the number of nodes. *)
Fixpoint delete_q_loop {S} `{Lens S qheap} (fuel : nat) (queue : ptr)
    (itemdelete : option (ptr -> M S unit)) : M S unit :=
  match fuel with
  | O => undef
  | Datatypes.S fuel' =>
    let! q := lift (load_q queue) in
    if q_head q =? NULL then ret tt else
    let! item := lift (deq_q queue) in
    (match itemdelete with Some f => f item | None => ret tt end) ;;;
    delete_q_loop fuel' queue itemdelete
  end.

Definition delete_q {S} `{Lens S qheap} (queue : ptr)
    (itemdelete : option (ptr -> M S unit)) : M S unit :=
  if queue =? NULL then ret tt else
  let! n := gets (fun s => size (qh_nodes (view s))) in
  delete_q_loop (Datatypes.S n) queue itemdelete ;;;
  lift (free_q queue).

(** The loop of [iterate_q], from node [currNode] on. *)
Fixpoint iterate_q_loop {S} `{Lens S qheap} (fuel : nat) (currNode : ptr)
    (itemfunc : ptr -> M S unit) : M S unit :=
  match fuel with
  | O => undef
  | Datatypes.S fuel' =>
    if currNode =? NULL then ret tt else
    let! n := lift (load_node currNode) in
    itemfunc (item n) ;;;
    let! n' := lift (load_node currNode) in
    iterate_q_loop fuel' (node_behind n') itemfunc
  end.

Definition iterate_q {S} `{Lens S qheap} (queue : ptr) (itemfunc : ptr -> M S unit) : M S unit :=
  if queue =? NULL then ret tt else
  let! q := lift (load_q queue) in
  let! n := gets (fun s => size (qh_nodes (view s))) in
  iterate_q_loop (Datatypes.S n) (q_head q) itemfunc.

End code.

(** ** The shape of the heap *)

Abbreviation nodes := (list (ptr * qnode_t)).
Definition items (l : nodes) : list ptr := (fun e => item e.2) <$> l.
Definition last_addr (l : nodes) : ptr := default NULL (last l.*1).

Definition tail_inv (Q : q_t) (l : nodes) : Prop := q_tail Q = last_addr l.

(** [shape h g]: the queue objects are the keys of [g]; each is a chain of
    nodes from its head to [NULL], its tail is the last node, and no node
    belongs to two queues. *)
Definition shape (h : qheap) (g : gmap ptr nodes) : Prop :=
  forest node_behind q_head tail_inv (brk_addr (qh_arena h)) (qh_nodes h) (qh_qs h) g.

Definition rep (h : qheap) (m : gmap ptr (list ptr)) : Prop :=
  exists g, shape h g /\ m = items <$> g.

Lemma last_addr_nil : last_addr [] = NULL.
Proof. done. Qed.

Lemma last_addr_snoc l a n : last_addr (l ++ [(a, n)]) = a.
Proof. unfold last_addr. rewrite fmap_app. simpl. by rewrite last_snoc. Qed.

Lemma last_addr_cons e e' l : last_addr (e :: e' :: l) = last_addr (e' :: l).
Proof. done. Qed.

Lemma items_app l1 l2 : items (l1 ++ l2) = items l1 ++ items l2.
Proof. apply fmap_app. Qed.

Lemma rep_lookup h m q xs : rep h m -> m !! q = Some xs ->
  exists g l Q, shape h g /\ m = items <$> g /\ g !! q = Some l /\ xs = items l /\
    qh_qs h !! q = Some Q /\ q <> NULL /\
    chain node_behind (qh_nodes h) (q_head Q) l NULL /\ q_tail Q = last_addr l.
Proof.
  intros (g & Hsh & ->) (l & <- & Hl)%lookup_fmap_Some.
  destruct (forest_object _ _ _ _ _ _ _ _ _ Hsh Hl) as (Q & HQ & Hq & Hc & Ht).
  by exists g, l, Q.
Qed.

Lemma load_q_ok h q Q : qh_qs h !! q = Some Q -> load_q q h = Ret Q h.
Proof. unfold load_q. by intros ->. Qed.
Lemma load_node_ok h a n : qh_nodes h !! a = Some n -> load_node a h = Ret n h.
Proof. unfold load_node. by intros ->. Qed.
Lemma free_node_ok h a n : qh_nodes h !! a = Some n ->
  free_node a h = Ret tt (mkQheap (qh_arena h) (delete a (qh_nodes h)) (qh_qs h)).
Proof. intros Ha. unfold free_node. by step (load_node_ok _ _ _ Ha). Qed.

(** ** The operations keep the promise *)

Section laws.
Context `{Hardware}.

Definition plentiful (h : qheap) : Prop := plenty (qh_arena h).

Lemma malloc_heap size h g : shape h g ->
  exists p a, lift (malloc size) h = Ret p (mkQheap a (qh_nodes h) (qh_qs h)) /\
    (plentiful h -> plenty a) /\ shape (mkQheap a (qh_nodes h) (qh_qs h)) g /\
    (p = NULL /\ ~ plentiful h \/
     p = brk_addr (qh_arena h) /\ 0 < p < brk_addr a).
Proof.
  intros Hsh. pose proof (fo_brk _ _ _ _ _ _ _ Hsh) as Hpos.
  destruct (malloc_spec size (qh_arena h) Hpos) as (p & a & Hm & Hpl & Hle & Hp).
  exists p, a. split_and!.
  - unfold lift. simpl. by rewrite Hm.
  - done.
  - by eapply forest_brk.
  - destruct Hp as [(-> & _ & ?)|(-> & ?)]; [by left|right]. lia.
Qed.

Lemma make_q_ok h m : rep h m ->
  exists p h', make_q h = Ret p h' /\ (plentiful h -> plentiful h') /\
    (p = NULL /\ ~ plentiful h /\ rep h' m \/
     p <> NULL /\ m !! p = None /\ rep h' (<[p := []]> m)).
Proof.
  intros (g & Hsh & ->). unfold make_q.
  destruct (malloc_heap 8 h g Hsh) as (p & a & Hm & Hpl & Hsh' & Hp).
  step Hm. destruct (Z.eqb_spec p NULL) as [->|Hp0].
  - eexists _, _. split; [done|]. split; [done|]. left.
    destruct Hp as [[_ Hnp]|?]; [|lia]. split_and!; [done..|]. by exists g.
  - destruct Hp as [[-> ?]|[-> Hlt]]; [done|].
    destruct (forest_new _ _ _ _ (brk_addr a) _ _ _ (mkQ NULL NULL) Hsh)
      as [Hfr Hnew]; [lia|done..|].
    eexists _, _. split; [done|]. split; [done|]. right. split; [done|].
    split; [by rewrite lookup_fmap, Hfr|].
    eexists. split; [exact Hnew|by rewrite fmap_insert].
Qed.

(** The two ways [enq_q] links its node: into an empty queue, or behind the
    tail. *)
Lemma enq_shape_empty h g q Q p x :
  shape h g -> g !! q = Some [] -> qh_qs h !! q = Some Q ->
  qh_nodes h !! p = None -> 0 < p < brk_addr (qh_arena h) ->
  shape (mkQheap (qh_arena h) (<[p := mkQnode x NULL]> (qh_nodes h))
           (<[q := mkQ p p]> (qh_qs h)))
        (<[q := [(p, mkQnode x NULL)]]> g).
Proof.
  intros Hsh Hq HQ Hp Hpos. eapply forest_update; try done; simpl.
  - rewrite lookup_insert_eq. split_and!; try done. lia.
  - intros a _ Ha. rewrite lookup_insert_ne; [done|]. intros ->. apply Ha. left.
  - intros a ->%list_elem_of_singleton. by right.
  - intros a [<-|[_ Hi]]%lookup_insert_is_Some; [lia|]. by apply (fo_node _ _ _ _ _ _ _ Hsh).
Qed.

Lemma enq_shape_tail h g q l t nt Q p x :
  shape h g -> g !! q = Some (l ++ [(t, nt)]) -> qh_qs h !! q = Some Q ->
  qh_nodes h !! p = None -> 0 < p < brk_addr (qh_arena h) ->
  shape (mkQheap (qh_arena h)
           (<[t := mkQnode (item nt) p]> (<[p := mkQnode x NULL]> (qh_nodes h)))
           (<[q := mkQ (q_head Q) p]> (qh_qs h)))
        (<[q := l ++ [(t, mkQnode (item nt) p); (p, mkQnode x NULL)]]> g).
Proof.
  intros Hsh Hq HQ Hp Hpos. destruct (fo_chain _ _ _ _ _ _ _ Hsh _ _ _ Hq HQ) as [Hc Ht].
  assert (p ∉ (l ++ [(t, nt)]).*1) as Hfr.
  { intros Hin. destruct (forest_in_nodes _ _ _ _ _ _ _ _ _ _ Hsh Hq Hin). congruence. }
  eapply forest_update; try done; simpl.
  - apply (chain_snoc _ _ _ _ _ nt); [done|lia|done..].
  - unfold tail_inv, last_addr. rewrite fmap_app. simpl.
    change [t; p] with ([t] ++ [p]). by rewrite (assoc_L (++)), last_snoc.
  - intros a Ha1 Ha2. rewrite !fmap_app in *. simpl in *.
    rewrite !lookup_insert_ne by set_solver. done.
  - intros a Ha. rewrite !fmap_app in *. simpl in *.
    destruct (decide (a = p)) as [->|]; [by right|left; set_solver].
  - intros a [<-|[_ [<-|[_ Hi]]%lookup_insert_is_Some]]%lookup_insert_is_Some.
    + apply (fo_node _ _ _ _ _ _ _ Hsh). eapply forest_in_nodes; [done..|].
      rewrite fmap_app. simpl. set_solver.
    + lia.
    + by apply (fo_node _ _ _ _ _ _ _ Hsh).
Qed.

Lemma enq_q_ok h m q xs x : rep h m -> m !! q = Some xs ->
  exists r h', enq_q q x h = Ret r h' /\ (plentiful h -> plentiful h') /\
    (r = ERROR /\ ~ plentiful h /\ rep h' m \/
     r = 0 /\ rep h' (<[q := xs ++ [x]]> m)).
Proof.
  intros Hrep Hm. destruct (rep_lookup _ _ _ _ Hrep Hm)
    as (g & l & Q & Hsh & -> & Hg & -> & HQ & Hq0 & Hc & Ht).
  unfold enq_q. destruct (Z.eqb_spec q NULL) as [|_]; [done|].
  destruct (malloc_heap 8 h g Hsh) as (p & a & Hml & Hpl & Hsh' & Hp).
  step Hml. destruct (Z.eqb_spec p NULL) as [->|Hp0].
  { eexists _, _. split; [done|]. split; [done|]. left.
    destruct Hp as [[_ Hnp]|?]; [|lia]. split_and!; [done..|]. by exists g. }
  destruct Hp as [[-> ?]|[Hpe Hlt]]; [done|].
  assert (qh_nodes h !! p = None) as Hfr.
  { apply (forest_fresh_node _ _ _ _ _ _ _ _ Hsh). lia. }
  unfold set_node. mon. simpl. erewrite bind_Ret by (apply load_q_ok; exact HQ).
  destruct (Z.eqb_spec (q_head Q) NULL) as [H0|H0].
  - rewrite H0 in Hc. apply chain_NULL in Hc as [-> _]. unfold set_q. mon. simpl.
    eexists _, _. split; [done|]. split; [done|]. right. split; [done|].
    eexists. split; [by apply (enq_shape_empty _ _ _ _ _ x Hsh' Hg HQ)|].
    by rewrite fmap_insert.
  - destruct (chain_nonnull _ _ _ _ H0 Hc) as (nh & l0 & Hl & _).
    destruct l as [|[t nt] l1 _] using rev_ind; [done|]. clear Hl.
    rewrite last_addr_snoc in Ht.
    assert (t <> p /\ qh_nodes h !! t = Some nt) as [Htp Hnt].
    { apply chain_app in Hc as (r & _ & Hc2). simpl in Hc2.
      destruct Hc2 as (-> & _ & Hnt & _). split; [|done]. intros ->. congruence. }
    rewrite Ht. mon. erewrite bind_Ret;
      [|apply load_node_ok; simpl; rewrite lookup_insert_ne; [exact Hnt|done] ].
    unfold set_node, set_q. mon. simpl.
    eexists _, _. split; [done|]. split; [done|]. right. split; [done|].
    eexists. split; [by apply (enq_shape_tail _ _ _ _ _ _ Q p x Hsh' Hg)|].
    rewrite fmap_insert. f_equal. by rewrite !items_app, <- (assoc_L (++)).
Qed.

Lemma deq_q_nil_ok h m q : rep h m -> m !! q = Some [] -> deq_q q h = Ret NULL h.
Proof.
  intros Hrep Hm. destruct (rep_lookup _ _ _ _ Hrep Hm)
    as (g & l & Q & Hsh & -> & Hg & Hl & HQ & Hq0 & Hc & Ht).
  destruct l; [|done]. simpl in Hc. unfold deq_q.
  destruct (Z.eqb_spec q NULL) as [|_]; [done|]. step (load_q_ok _ _ _ HQ).
  rewrite Hc. done.
Qed.

Lemma deq_q_cons_ok h m q x xs : rep h m -> m !! q = Some (x :: xs) ->
  exists h', deq_q q h = Ret x h' /\ (plentiful h -> plentiful h') /\ rep h' (<[q := xs]> m).
Proof.
  intros Hrep Hm. destruct (rep_lookup _ _ _ _ Hrep Hm)
    as (g & l & Q & Hsh & -> & Hg & Hl & HQ & Hq0 & Hc & Ht).
  destruct l as [|[a n] l]; [done|]. simpl in Hl. injection Hl as -> ->.
  pose proof (chain_NoDup _ _ _ _ Hc) as Hnd. simpl in Hnd, Hc.
  destruct Hc as (<- & Ha & Hn & Hc). apply NoDup_cons in Hnd as [Hal Hnd].
  unfold deq_q. destruct (Z.eqb_spec q NULL) as [|_]; [done|].
  step (load_q_ok _ _ _ HQ). destruct (Z.eqb_spec (q_head Q) NULL) as [|_]; [done|].
  step (load_node_ok _ _ _ Hn). step (free_node_ok _ _ _ Hn). unfold set_q. mon. simpl.
  eexists. split; [done|]. split; [done|]. exists (<[q := l]> g).
  split; [|by rewrite fmap_insert].
  eapply forest_update; try done; simpl.
  - by apply chain_delete.
  - destruct (Z.eqb_spec (node_behind n) NULL) as [H0|H0].
    + rewrite H0 in Hc. by apply chain_NULL in Hc as [-> _].
    + destruct (chain_nonnull _ _ _ _ H0 Hc) as (n2 & l2 & -> & _). by rewrite Ht, last_addr_cons.
  - intros b Hb _. apply lookup_delete_ne. set_solver.
  - intros b Hb. left. set_solver.
  - intros b [_ Hi]%lookup_delete_is_Some. by apply (fo_node _ _ _ _ _ _ _ Hsh).
Qed.

Lemma peek_q_ok h m q xs : rep h m -> m !! q = Some xs ->
  peek_q q h = Ret (default NULL (head xs)) h.
Proof.
  intros Hrep Hm. destruct (rep_lookup _ _ _ _ Hrep Hm)
    as (g & l & Q & Hsh & -> & Hg & -> & HQ & Hq0 & Hc & Ht).
  unfold peek_q. destruct (Z.eqb_spec q NULL) as [|_]; [done|]. step (load_q_ok _ _ _ HQ).
  destruct l as [|[a n] l]; simpl in *; [by rewrite Hc, Z.eqb_refl|].
  destruct Hc as (<- & Ha & Hn & Hc). destruct (Z.eqb_spec (q_head Q) NULL); [done|].
  by step (load_node_ok _ _ _ Hn).
Qed.

(** There are enough nodes in the heap for every queue: the fuel of the loops
    suffices. *)
Lemma rep_length h m q xs : rep h m -> m !! q = Some xs ->
  (length xs <= size (qh_nodes h))%nat.
Proof.
  intros Hrep Hm. destruct (rep_lookup _ _ _ _ Hrep Hm)
    as (g & l & Q & Hsh & -> & Hg & -> & HQ & _ & Hc & _).
  unfold items. rewrite length_fmap. by eapply forest_length.
Qed.

Lemma delete_q_loop_ok {S} `{L : Lens S qheap} (f : option (ptr -> M S unit))
    (J : list ptr -> S -> Prop) q m xs0 :
  (forall d s1 h, J d s1 -> J d (put h s1)) ->
  (forall d x r s1, xs0 = d ++ x :: r -> J d s1 ->
     match f with
     | Some g => exists s2, g x s1 = Ret tt s2 /\ view s2 = view s1 /\ J (d ++ [x]) s2
     | None => J (d ++ [x]) s1
     end) ->
  forall xs d s fuel, xs0 = d ++ xs -> (length xs < fuel)%nat -> J d s ->
  rep (view s) (<[q := xs]> m) ->
  exists s', delete_q_loop fuel q f s = Ret tt s' /\ J xs0 s' /\
    (plentiful (view s) -> plentiful (view s')) /\ rep (view s') (<[q := []]> m).
Proof.
  intros HJput Hf xs. induction xs as [|x xs IH]; intros d s fuel Hxs Hfuel HJ Hrep.
  - destruct fuel as [|fuel]; [simpl in Hfuel; lia|].
    rewrite app_nil_r in Hxs. subst d. simpl.
    destruct (rep_lookup _ _ q [] Hrep) as (g & l & Q & _ & _ & _ & Hl & HQ & _ & Hc & _);
      [apply lookup_insert_eq|]. destruct l; [|done]. simpl in Hc.
    rewrite (bind_Ret _ _ _ _ _ (lift_Ret _ _ _ _ (load_q_ok _ _ _ HQ))), put_view.
    rewrite Hc. simpl. exists s. done.
  - destruct fuel as [|fuel]; [simpl in Hfuel; lia|]. simpl.
    destruct (rep_lookup _ _ q (x :: xs) Hrep) as (g & l & Q & _ & _ & _ & Hl & HQ & _ & Hc & _);
      [apply lookup_insert_eq|]. destruct l as [|[a n] l]; [done|]. simpl in Hc.
    destruct Hc as (Hh & Ha & _).
    rewrite (bind_Ret _ _ _ _ _ (lift_Ret _ _ _ _ (load_q_ok _ _ _ HQ))), put_view.
    destruct (Z.eqb_spec (q_head Q) NULL); [congruence|].
    destruct (deq_q_cons_ok _ _ q x xs Hrep) as (h' & Hd & Hpl & Hrep');
      [apply lookup_insert_eq|].
    rewrite insert_insert_eq in Hrep'.
    step (lift_Ret _ _ _ _ Hd).
    pose proof (HJput _ _ h' HJ) as HJ1. specialize (Hf _ _ _ _ Hxs HJ1).
    assert (exists s2, match f with Some f0 => f0 x | None => ret tt end (put h' s) = Ret tt s2 /\
      view s2 = h' /\ J (d ++ [x]) s2) as (s2 & Hf2 & Hv2 & HJ2).
    { destruct f as [f|].
      - destruct Hf as (s2 & ? & Hv & ?). exists s2. rewrite view_put in Hv. done.
      - exists (put h' s). rewrite view_put. done. }
    step Hf2. destruct (IH (d ++ [x]) s2 fuel) as (s' & Hl' & HJ' & Hpl' & Hr').
    + by rewrite <- (assoc_L (++)).
    + simpl in Hfuel. lia.
    + done.
    + by rewrite Hv2.
    + exists s'. rewrite Hv2 in Hpl'. split_and!; auto.
Qed.

Lemma free_q_ok h m q : rep h m -> m !! q = Some [] ->
  exists h', free_q q h = Ret tt h' /\ (plentiful h -> plentiful h') /\ rep h' (delete q m).
Proof.
  intros Hrep Hm. destruct (rep_lookup _ _ _ _ Hrep Hm)
    as (g & l & Q & Hsh & -> & Hg & _ & HQ & _ & _).
  unfold free_q. step (load_q_ok _ _ _ HQ). eexists. split; [done|]. split; [done|].
  exists (delete q g). split; [by apply forest_free|by rewrite fmap_delete].
Qed.

Lemma delete_q_ok {S} `{L : Lens S qheap} (s : S) m q xs (f : option (ptr -> M S unit))
    (J : list ptr -> S -> Prop) :
  rep (view s) m -> m !! q = Some xs ->
  J [] s ->
  (forall d s1 h, J d s1 -> J d (put h s1)) ->
  (forall d x r s1, xs = d ++ x :: r -> J d s1 ->
     match f with
     | Some g => exists s2, g x s1 = Ret tt s2 /\ view s2 = view s1 /\ J (d ++ [x]) s2
     | None => J (d ++ [x]) s1
     end) ->
  exists s', delete_q q f s = Ret tt s' /\ J xs s' /\
    (plentiful (view s) -> plentiful (view s')) /\ rep (view s') (delete q m).
Proof.
  intros Hrep Hm HJ HJput Hf. pose proof (rep_length _ _ _ _ Hrep Hm) as Hlen.
  destruct (rep_lookup _ _ _ _ Hrep Hm) as (_ & _ & _ & _ & _ & _ & _ & _ & Hq0 & _).
  unfold delete_q. destruct (Z.eqb_spec q NULL) as [|_]; [done|]. mon.
  destruct (delete_q_loop_ok f J q m xs HJput Hf xs [] s (Datatypes.S (size (qh_nodes (view s)))))
    as (s1 & Hl & HJ1 & Hpl1 & Hr1); [done|lia|done|by rewrite insert_id|].
  step Hl. destruct (free_q_ok _ _ q Hr1) as (h' & Hfr & Hpl2 & Hr2); [apply lookup_insert_eq|].
  exists (put h' s1). rewrite view_put. split; [by apply lift_Ret|].
  rewrite delete_insert_eq in Hr2. split_and!; auto.
Qed.

End laws.

End QueueImpl.

(** * The implementation of the interface *)

#[export] Instance queue_impl `{Hardware} : QueueOps QueueImpl.qheap := {|
  make_q := QueueImpl.make_q;
  enq_q := QueueImpl.enq_q;
  deq_q := QueueImpl.deq_q;
  peek_q := QueueImpl.peek_q;
  delete_q := @QueueImpl.delete_q
|}.

#[export] Program Instance queue_impl_laws `{Hardware} : QueueLaws QueueImpl.qheap := {|
  q_rep := QueueImpl.rep;
  q_plenty := QueueImpl.plentiful
|}.
Next Obligation.
  intros ? h m (g & Hsh & ->). by rewrite lookup_fmap, (forest_NULL _ _ _ _ _ _ _ Hsh).
Qed.
Next Obligation. intros ?. apply QueueImpl.make_q_ok. Qed.
Next Obligation. done. Qed.
Next Obligation. intros ?. apply QueueImpl.enq_q_ok. Qed.
Next Obligation. done. Qed.
Next Obligation. intros ?. apply QueueImpl.deq_q_nil_ok. Qed.
Next Obligation. intros ?. apply QueueImpl.deq_q_cons_ok. Qed.
Next Obligation. done. Qed.
Next Obligation. intros ?. apply QueueImpl.peek_q_ok. Qed.
Next Obligation. done. Qed.
Next Obligation. intros ? S L s m q xs f J. apply QueueImpl.delete_q_ok. Qed.
