(* ===== verification/HashMap.v ===== *)
(** The integer-keyed maps of GeneralDataStructures/HashMap (HashMap.c over
    set.c).

    [MapOps] is the interface the rest of the kernel uses, the functions of
    HashMap.h; [MapLaws] is what they promise: a map object holds a finite map
    from keys to non-null items, iterated in some order.

    [SetImpl] is the code of set.c (linked lists of [setnode_t]) and
    [HashMapImpl] that of HashMap.c (an array of sets indexed by
    [key % size]); the two instances at the end say that they keep the
    promise. *)

From stdpp Require Import base gmap list.
From S2P Require Import Prelude Hardware Linked.

(** * The interface *)

Class MapOps (MH : Type) := {
  HashMap_new : Z -> M MH ptr;
  HashMap_insert : ptr -> Z -> ptr -> M MH Z;
  HashMap_find : ptr -> Z -> M MH ptr;
  HashMap_remove : ptr -> Z -> M MH ptr;
  HashMap_iterate : forall {S} `{Lens S MH}, ptr -> (Z -> ptr -> M S unit) -> M S unit;
  HashMap_delete : forall {S} `{Lens S MH}, ptr -> option (ptr -> M S unit) -> M S unit
}.

(** Some turn of an iteration in this order has no defined behaviour. *)
Definition stuck_turn {S} (f : Z -> ptr -> M S unit) (J : list (Z * ptr) -> S -> Prop) (order : list (Z * ptr)) : Prop :=
  exists d k x r s1, order = d ++ (k, x) :: r /\ J d s1 /\ f k x s1 = Undef.

Class MapLaws (MH : Type) `{Hardware} `{MapOps MH} := {
  (** the map objects of the heap, and their contents *)
  m_rep : MH -> gmap ptr (gmap Z ptr) -> Prop;
  (** no later [malloc] of the module fails, and none failed in [HashMap_new] *)
  m_plenty : MH -> Prop;

  m_rep_NULL h ms : m_rep h ms -> ms !! NULL = None;
  m_rep_item h ms hm m k x : m_rep h ms -> ms !! hm = Some m -> m !! k = Some x -> x <> NULL;
  (** [HashMap_new] does not check its [calloc]: short of memory it can also
      write through a null pointer *)
  HashMap_new_spec h ms n : 0 < n -> m_rep h ms ->
    (~ m_plenty h /\ HashMap_new n h = Undef) \/
    exists p h', HashMap_new n h = Ret p h' /\ (m_plenty h -> m_plenty h') /\
      (p = NULL /\ ~ m_plenty h /\ m_rep h' ms \/
       p <> NULL /\ ms !! p = None /\ m_rep h' (<[p := ∅]> ms));
  HashMap_insert_null k x h : HashMap_insert NULL k x h = Ret ERROR h;
  HashMap_insert_null_item hm k h : HashMap_insert hm k NULL h = Ret ERROR h;
  HashMap_insert_old h ms hm m k x y : m_rep h ms -> ms !! hm = Some m -> 0 <= k ->
    m !! k = Some y -> HashMap_insert hm k x h = Ret ERROR h;
  HashMap_insert_new h ms hm m k x : m_rep h ms -> ms !! hm = Some m -> 0 <= k ->
    m !! k = None -> x <> NULL ->
    exists r h', HashMap_insert hm k x h = Ret r h' /\ (m_plenty h -> m_plenty h') /\
      (r = ERROR /\ ~ m_plenty h /\ m_rep h' ms \/
       r = 0 /\ m_rep h' (<[hm := <[k := x]> m]> ms));
  HashMap_find_null k h : HashMap_find NULL k h = Ret NULL h;
  HashMap_find_spec h ms hm m k : m_rep h ms -> ms !! hm = Some m -> 0 <= k ->
    HashMap_find hm k h = Ret (default NULL (m !! k)) h;
  HashMap_remove_null k h : HashMap_remove NULL k h = Ret NULL h;
  HashMap_remove_spec h ms hm m k : m_rep h ms -> ms !! hm = Some m -> 0 <= k ->
    exists h', HashMap_remove hm k h = Ret (default NULL (m !! k)) h' /\
      (m_plenty h -> m_plenty h') /\ m_rep h' (<[hm := delete k m]> ms);
  HashMap_iterate_null {S} `{Lens S MH} f (s : S) : HashMap_iterate NULL f s = Ret tt s;
  (** [HashMap_iterate] calls [itemfunc] once per entry, "in undefined order",
      and tolerates the removal of the current entry by [itemfunc].  [J] is
      what the caller knows of the state once the entries [d] are handled; a
      call that has no defined behaviour is the end. *)
  HashMap_iterate_tries {S} `{Lens S MH} (s : S) ms hm m (f : Z -> ptr -> M S unit) :
    m_rep (view s) ms -> ms !! hm = Some m ->
    exists order, order ≡ₚ map_to_list m /\
    forall J : list (Z * ptr) -> S -> Prop,
      J [] s ->
      (forall d k x r s1, order = d ++ (k, x) :: r -> J d s1 ->
         (exists s2, f k x s1 = Ret tt s2 /\ J (d ++ [(k, x)]) s2 /\
           (view s2 = view s1 \/ exists y, HashMap_remove hm k (view s1) = Ret y (view s2))) \/
         f k x s1 = Undef) ->
      (exists s', HashMap_iterate hm f s = Ret tt s' /\ J order s') \/
      HashMap_iterate hm f s = Undef /\ stuck_turn f J order;
  HashMap_delete_null {S} `{Lens S MH} f (s : S) : HashMap_delete NULL f s = Ret tt s;
  HashMap_delete_spec {S} `{Lens S MH} (s : S) ms hm m :
    m_rep (view s) ms -> ms !! hm = Some m ->
    exists h', HashMap_delete hm None s = Ret tt (put h' s) /\
      (m_plenty (view s) -> m_plenty h') /\ m_rep h' (delete hm ms)
}.

(** The same when every call returns. *)
Lemma HashMap_iterate_spec {MH S} `{MapLaws MH} `{Lens S MH} (s : S) ms hm m (f : Z -> ptr -> M S unit) :
  m_rep (view s) ms -> ms !! hm = Some m ->
  exists order, order ≡ₚ map_to_list m /\
  forall J : list (Z * ptr) -> S -> Prop,
    J [] s ->
    (forall d k x r s1, order = d ++ (k, x) :: r -> J d s1 ->
       exists s2, f k x s1 = Ret tt s2 /\ J (d ++ [(k, x)]) s2 /\
         (view s2 = view s1 \/ exists y, HashMap_remove hm k (view s1) = Ret y (view s2))) ->
    exists s', HashMap_iterate hm f s = Ret tt s' /\ J order s'.
Proof.
  intros Hrep Hm. destruct (HashMap_iterate_tries s ms hm m f Hrep Hm) as (order & Hord & Hit). exists order. split; [done|].
  intros J HJ0 Hf. destruct (Hit J HJ0) as [?|(_ & d & k & x & r & s1 & Heq & HJ & Hu)]; [intros; left; by eapply Hf|done|].
  destruct (Hf d k x r s1 Heq HJ) as (s2 & Hr & _). by rewrite Hr in Hu.
Qed.

(** * set.c *)

(** [struct setnode], [struct set] and [struct HashMap], and the memory of
    both modules. *)
Record setnode_t := mkSetnode { sn_key : Z; sn_item : ptr; sn_next : ptr }.
Record set_t := mkSet { set_head : ptr }.
Record HashMap_t := mkMap { hm_size : Z; hm_sets : option (list ptr) }.

Record mheap := mkMheap {
  mh_arena : arena;
  mh_nodes : gmap ptr setnode_t;
  mh_sets : gmap ptr set_t;
  mh_maps : gmap ptr HashMap_t
}.

#[export] Program Instance mheap_arena : Lens mheap arena := {|
  view := mh_arena;
  put a h := mkMheap a (mh_nodes h) (mh_sets h) (mh_maps h)
|}.
Solve All Obligations with first [done | by intros [] ].

Module SetImpl.

Definition load_node (p : ptr) : M mheap setnode_t := fun h =>
  match mh_nodes h !! p with Some n => Ret n h | None => Undef end.
Definition load_set (p : ptr) : M mheap set_t := fun h =>
  match mh_sets h !! p with Some s => Ret s h | None => Undef end.
Definition set_node (p : ptr) (n : setnode_t) : M mheap unit :=
  modify (fun h => mkMheap (mh_arena h) (<[p := n]> (mh_nodes h)) (mh_sets h) (mh_maps h)).
Definition set_set (p : ptr) (s : set_t) : M mheap unit :=
  modify (fun h => mkMheap (mh_arena h) (mh_nodes h) (<[p := s]> (mh_sets h)) (mh_maps h)).
Definition free_node (p : ptr) : M mheap unit :=
  load_node p ;;;
  modify (fun h => mkMheap (mh_arena h) (delete p (mh_nodes h)) (mh_sets h) (mh_maps h)).
Definition free_set (p : ptr) : M mheap unit :=
  load_set p ;;;
  modify (fun h => mkMheap (mh_arena h) (mh_nodes h) (delete p (mh_sets h)) (mh_maps h)).

(** Fuel for the loops over a set's nodes. *)
Definition node_fuel (h : mheap) : nat := S (size (mh_nodes h)).

Section code.
Context `{Hardware}.

Definition set_new : M mheap ptr :=
  let! set := lift (malloc 4) in
  (if set =? NULL then ret tt else set_set set (mkSet NULL)) ;;;
  ret set.

(** The search loop of [set_insert] and [set_find]: the node with this key. *)
Fixpoint find_loop (fuel : nat) (node : ptr) (key : Z) : M mheap (option setnode_t) :=
  match fuel with
  | O => undef
  | Datatypes.S fuel' =>
    if node =? NULL then ret None else
    let! n := load_node node in
    if sn_key n =? key then ret (Some n) else find_loop fuel' (sn_next n) key
  end.

Definition set_insert (set : ptr) (key : Z) (item : ptr) : M mheap Z :=
  if negb (set =? NULL) && negb (item =? NULL) then
    let! s := load_set set in
    let! fuel := gets node_fuel in
    let! found := find_loop fuel (set_head s) key in
    match found with
    | Some _ => ret ERROR
    | None =>
      let! node := lift (malloc 12) in
      if node =? NULL then ret ERROR else
      set_node node (mkSetnode key item (set_head s)) ;;;
      set_set set (mkSet node) ;;;
      ret 0
    end
  else ret ERROR.

Definition set_find (set : ptr) (key : Z) : M mheap ptr :=
  if set =? NULL then ret NULL else
  let! s := load_set set in
  if set_head s =? NULL then ret NULL else
  let! fuel := gets node_fuel in
  let! found := find_loop fuel (set_head s) key in
  ret (match found with Some n => sn_item n | None => NULL end).

Fixpoint set_iterate_loop {S} `{Lens S mheap} (fuel : nat) (node : ptr)
    (itemfunc : Z -> ptr -> M S unit) : M S unit :=
  match fuel with
  | O => undef
  | Datatypes.S fuel' =>
    if node =? NULL then ret tt else
    let! n := lift (load_node node) in
    let next := sn_next n in
    itemfunc (sn_key n) (sn_item n) ;;;
    set_iterate_loop fuel' next itemfunc
  end.

Definition set_iterate {S} `{Lens S mheap} (set : ptr) (itemfunc : Z -> ptr -> M S unit) : M S unit :=
  if set =? NULL then ret tt else
  let! s := lift (load_set set) in
  let! fuel := gets (fun s => node_fuel (view s)) in
  set_iterate_loop fuel (set_head s) itemfunc.

(** The loop of [set_remove] over [currNode] and the node behind it. *)
Fixpoint remove_loop (fuel : nat) (currNode nextNode : ptr) (key : Z) : M mheap ptr :=
  match fuel with
  | O => undef
  | Datatypes.S fuel' =>
    if nextNode =? NULL then ret NULL else
    let! n := load_node nextNode in
    if sn_key n =? key then
      let item := sn_item n in
      let nextNextNode := sn_next n in
      free_node nextNode ;;;
      let! c := load_node currNode in
      set_node currNode (mkSetnode (sn_key c) (sn_item c) nextNextNode) ;;;
      ret item
    else remove_loop fuel' nextNode (sn_next n) key
  end.

Definition set_remove (set : ptr) (key : Z) : M mheap ptr :=
  if set =? NULL then ret NULL else
  let! s := load_set set in
  let currNode := set_head s in
  if currNode =? NULL then ret NULL else
  let! c := load_node currNode in
  if sn_key c =? key then
    let item := sn_item c in
    set_set set (mkSet (sn_next c)) ;;;
    free_node currNode ;;;
    ret item
  else
    let! fuel := gets node_fuel in
    remove_loop fuel currNode (sn_next c) key.

Fixpoint set_delete_loop {S} `{Lens S mheap} (fuel : nat) (node : ptr)
    (itemdelete : option (ptr -> M S unit)) : M S unit :=
  match fuel with
  | O => undef
  | Datatypes.S fuel' =>
    if node =? NULL then ret tt else
    let! n := lift (load_node node) in
    (match itemdelete with Some f => f (sn_item n) | None => ret tt end) ;;;
    let! n' := lift (load_node node) in
    let next := sn_next n' in
    lift (free_node node) ;;;
    set_delete_loop fuel' next itemdelete
  end.

Definition set_delete {S} `{Lens S mheap} (set : ptr)
    (itemdelete : option (ptr -> M S unit)) : M S unit :=
  if set =? NULL then ret tt else
  let! s := lift (load_set set) in
  let! fuel := gets (fun s => node_fuel (view s)) in
  set_delete_loop fuel (set_head s) itemdelete ;;;
  lift (free_set set).

End code.

End SetImpl.

(** * HashMap.c *)

Module HashMapImpl.
Import SetImpl.

Definition load_map (p : ptr) : M mheap HashMap_t := fun h =>
  match mh_maps h !! p with Some m => Ret m h | None => Undef end.
Definition set_map (p : ptr) (m : HashMap_t) : M mheap unit :=
  modify (fun h => mkMheap (mh_arena h) (mh_nodes h) (mh_sets h) (<[p := m]> (mh_maps h))).
Definition free_map (p : ptr) : M mheap unit :=
  load_map p ;;;
  modify (fun h => mkMheap (mh_arena h) (mh_nodes h) (mh_sets h) (delete p (mh_maps h))).

(** [hm->sets[i]]: undefined when [sets] is NULL or [i] is outside the array. *)
Definition sets_at (m : HashMap_t) (i : Z) : option ptr :=
  if i <? 0 then None else hm_sets m ≫= (.!! Z.to_nat i).

(** [hm->sets[(key % (hm->size))]]; C's [%] rounds towards zero, so a negative
    key gives a negative index. *)
Definition bucket (m : HashMap_t) (key : Z) : option ptr :=
  if hm_size m =? 0 then None else sets_at m (Z.rem key (hm_size m)).

Section code.
Context `{Hardware}.

(** One turn of the loop of [HashMap_new]: [hm->sets[i] = set_new()]. *)
Definition new_slot (hm : ptr) (i : nat) : M mheap unit :=
  let! set := set_new in
  let! m := load_map hm in
  let! sets := rd (hm_sets m) in
  rd (sets !! i) ;;;
  set_map hm (mkMap (hm_size m) (Some (<[i := set]> sets))).

Definition HashMap_new (num_slots : Z) : M mheap ptr :=
  let! hm := lift (malloc 8) in
  if hm =? NULL then ret NULL else
  let! sets := lift (malloc (num_slots * 4)) in
  set_map hm (mkMap num_slots
    (if sets =? NULL then None else Some (replicate (Z.to_nat num_slots) NULL))) ;;;
  foldM (new_slot hm) (seq 0 (Z.to_nat num_slots)) ;;;
  ret hm.

Definition HashMap_insert (hm : ptr) (key : Z) (item : ptr) : M mheap Z :=
  if negb (hm =? NULL) && negb (item =? NULL) then
    let! m := load_map hm in
    let! set := rd (bucket m key) in
    set_insert set key item
  else ret ERROR.

Definition HashMap_find (hm : ptr) (key : Z) : M mheap ptr :=
  if hm =? NULL then ret NULL else
  let! m := load_map hm in
  let! set := rd (bucket m key) in
  set_find set key.

Definition HashMap_iterate {S} `{Lens S mheap} (hm : ptr) (itemfunc : Z -> ptr -> M S unit) : M S unit :=
  if hm =? NULL then ret tt else
  let! m := lift (load_map hm) in
  foldM (fun i : nat =>
    let! m := lift (load_map hm) in
    let! set := rd (sets_at m (Z.of_nat i)) in
    set_iterate set itemfunc) (seq 0 (Z.to_nat (hm_size m))).

Definition HashMap_remove (hm : ptr) (key : Z) : M mheap ptr :=
  if hm =? NULL then ret NULL else
  let! m := load_map hm in
  let! set := rd (bucket m key) in
  set_remove set key.

Definition HashMap_delete {S} `{Lens S mheap} (hm : ptr)
    (itemdelete : option (ptr -> M S unit)) : M S unit :=
  if hm =? NULL then ret tt else
  let! m := lift (load_map hm) in
  foldM (fun i : nat =>
    let! m := lift (load_map hm) in
    let! set := rd (sets_at m (Z.of_nat i)) in
    set_delete set itemdelete) (seq 0 (Z.to_nat (hm_size m))) ;;;
  lift (free_map hm).

End code.

End HashMapImpl.

(** * The shape of the heap *)

Module HashMapShape.
Import SetImpl HashMapImpl.

Abbreviation nodes := (list (ptr * setnode_t)).
Definition entry (n : setnode_t) : Z * ptr := (sn_key n, sn_item n).
Definition entries (l : nodes) : list (Z * ptr) := (fun e => entry e.2) <$> l.
(** No key occurs twice in a set. *)
Definition keys_inv (_ : set_t) (l : nodes) : Prop := NoDup (entries l).*1.

Definition shape (h : mheap) (g : gmap ptr nodes) : Prop :=
  forest sn_next set_head keys_inv (brk_addr (mh_arena h)) (mh_nodes h) (mh_sets h) g.

(** The entries of the [i]th bucket of an array of sets. *)
Definition in_bucket (g : gmap ptr nodes) (ss : list ptr) (i : nat) (e : Z * ptr) : Prop :=
  exists s l, ss !! i = Some s /\ g !! s = Some l /\ e ∈ entries l.

(** One map object: its sets hold the entries of [m], each in the bucket of
    its key. *)
Record map_ok (g : gmap ptr nodes) (M : HashMap_t) (m : gmap Z ptr) : Prop := {
  mk_size : 0 < hm_size M;
  mk_sets : exists ss, hm_sets M = Some ss /\ Z.of_nat (length ss) = hm_size M /\
    (forall i s, ss !! i = Some s -> s = NULL \/ is_Some (g !! s)) /\
    (forall i j s, ss !! i = Some s -> ss !! j = Some s -> s <> NULL -> i = j) /\
    (forall i e, in_bucket g ss i e -> Z.rem e.1 (hm_size M) = Z.of_nat i /\ e.2 <> NULL) /\
    (forall k x, m !! k = Some x <-> exists i, in_bucket g ss i (k, x))
}.

Definition owns (M : HashMap_t) (s : ptr) : Prop :=
  s <> NULL /\ exists ss, hm_sets M = Some ss /\ s ∈ ss.

Record maps_ok (h : mheap) (g : gmap ptr nodes) (ms : gmap ptr (gmap Z ptr)) : Prop := {
  mo_dom hm : is_Some (mh_maps h !! hm) <-> is_Some (ms !! hm);
  mo_addr hm : is_Some (mh_maps h !! hm) -> 0 < hm < brk_addr (mh_arena h);
  mo_map hm M m : mh_maps h !! hm = Some M -> ms !! hm = Some m -> map_ok g M m;
  mo_disj hm1 hm2 M1 M2 s : mh_maps h !! hm1 = Some M1 -> mh_maps h !! hm2 = Some M2 ->
    owns M1 s -> owns M2 s -> hm1 = hm2
}.

Definition rep (h : mheap) (ms : gmap ptr (gmap Z ptr)) : Prop :=
  exists g, shape h g /\ maps_ok h g ms.

Definition plentiful (h : mheap) : Prop :=
  plenty (mh_arena h) /\
  forall hm M ss, mh_maps h !! hm = Some M -> hm_sets M = Some ss -> NULL ∉ ss.

(** ** Loads, stores and allocation *)

Lemma load_map_ok h p M : mh_maps h !! p = Some M -> load_map p h = Ret M h.
Proof. unfold load_map. by intros ->. Qed.
Lemma load_set_ok h p s : mh_sets h !! p = Some s -> load_set p h = Ret s h.
Proof. unfold load_set. by intros ->. Qed.
Lemma set_load_node_ok h p n : mh_nodes h !! p = Some n -> load_node p h = Ret n h.
Proof. unfold load_node. by intros ->. Qed.
Lemma set_free_node_ok h p n : mh_nodes h !! p = Some n ->
  free_node p h = Ret tt (mkMheap (mh_arena h) (delete p (mh_nodes h)) (mh_sets h) (mh_maps h)).
Proof. intros Hp. unfold free_node. by step (set_load_node_ok _ _ _ Hp). Qed.
Lemma free_set_ok h p s : mh_sets h !! p = Some s ->
  free_set p h = Ret tt (mkMheap (mh_arena h) (mh_nodes h) (delete p (mh_sets h)) (mh_maps h)).
Proof. intros Hp. unfold free_set. by step (load_set_ok _ _ _ Hp). Qed.

Definition with_arena (a : arena) (h : mheap) : mheap :=
  mkMheap a (mh_nodes h) (mh_sets h) (mh_maps h).

Lemma maps_ok_arena h g ms a : maps_ok h g ms -> brk_addr (mh_arena h) <= brk_addr a ->
  maps_ok (with_arena a h) g ms.
Proof.
  intros [Hd Ha Hm Hdj] Hle. split; simpl; try done. intros hm Hi%Ha. lia.
Qed.

Lemma mheap_malloc size h g ms : shape h g -> maps_ok h g ms ->
  exists p a, lift (malloc size) h = Ret p (with_arena a h) /\
    (plenty (mh_arena h) -> plenty a) /\
    shape (with_arena a h) g /\ maps_ok (with_arena a h) g ms /\
    (p = NULL /\ ~ plenty (mh_arena h) \/
     p = brk_addr (mh_arena h) /\ 0 < p < brk_addr a).
Proof.
  intros Hsh Hms. pose proof (fo_brk _ _ _ _ _ _ _ Hsh) as Hpos.
  destruct (malloc_spec size (mh_arena h) Hpos) as (p & a & Hm & Hpl & Hle & Hp).
  exists p, a. split_and!.
  - unfold lift. simpl. by rewrite Hm.
  - done.
  - by eapply forest_brk.
  - by apply maps_ok_arena.
  - destruct Hp as [(-> & _ & ?)|(-> & ?)]; [by left|right]. lia.
Qed.

(** ** Finding the bucket of a key *)

Lemma mrep_lookup h ms hm m : rep h ms -> ms !! hm = Some m ->
  exists g M, shape h g /\ maps_ok h g ms /\ mh_maps h !! hm = Some M /\ hm <> NULL /\
    map_ok g M m.
Proof.
  intros (g & Hsh & Hms) Hm.
  destruct (proj2 (mo_dom _ _ _ Hms hm)) as [M HM]; [by eauto|].
  pose proof (mo_addr _ _ _ Hms hm (mk_is_Some _ _ HM)).
  exists g, M. split_and!; try done; [lia|]. by eapply mo_map.
Qed.

(** The set in which the key [k] belongs, and what it says of [m !! k]. *)
Lemma bucket_ok g M m k : map_ok g M m -> 0 <= k ->
  exists ss i s, hm_sets M = Some ss /\ ss !! i = Some s /\ bucket M k = Some s /\
    Z.rem k (hm_size M) = Z.of_nat i /\ (s = NULL \/ is_Some (g !! s)) /\
    forall x, m !! k = Some x <-> exists l, g !! s = Some l /\ (k, x) ∈ entries l.
Proof.
  intros [Hsz (ss & Hss & Hlen & Hex & Hinj & Hres & Hm)] Hk.
  pose proof (Z.rem_bound_pos k (hm_size M) Hk Hsz) as Hb.
  destruct (lookup_lt_is_Some_2 ss (Z.to_nat (Z.rem k (hm_size M)))) as [s Hs]; [lia|].
  exists ss, (Z.to_nat (Z.rem k (hm_size M))), s. split_and!; try done.
  - unfold bucket, sets_at. rewrite Hss. repeat zcase; try lia. done.
  - lia.
  - by eapply Hex.
  - intros x. rewrite Hm. split.
    + intros (i & s' & l & Hs' & Hl & He).
      destruct (Hres i (k, x)) as [Hi _]; [by exists s', l|]. simpl in Hi.
      rewrite Hi, Nat2Z.id in Hs. rewrite Hs' in Hs. injection Hs as ->. by exists l.
    + intros (l & Hl & He). exists (Z.to_nat (Z.rem k (hm_size M))), s, l. done.
Qed.

Lemma find_loop_ok h p l key fuel : chain sn_next (mh_nodes h) p l NULL ->
  (length l < fuel)%nat ->
  exists o, find_loop fuel p key h = Ret o h /\
    match o with
    | Some n => sn_key n = key /\ entry n ∈ entries l
    | None => key ∉ (entries l).*1
    end.
Proof.
  revert p l. induction fuel as [|fuel IH]; intros p l Hc Hlen; [lia|]. simpl.
  destruct l as [|[a n] l]; simpl in Hc.
  - subst p. simpl. exists None. split; [done|]. apply not_elem_of_nil.
  - destruct Hc as (-> & Ha & Hn & Hc). destruct (Z.eqb_spec a NULL) as [|_]; [done|].
    step (set_load_node_ok _ _ _ Hn). destruct (Z.eqb_spec (sn_key n) key) as [Hk|Hk].
    + exists (Some n). split; [done|]. split; [done|]. by left.
    + destruct (IH _ _ Hc) as (o & Ho & Hspec); [simpl in Hlen; lia|]. exists o.
      split; [done|]. destruct o as [n'|].
      * destruct Hspec as [? Hin]. split; [done|]. by right.
      * intros Hin. apply elem_of_cons in Hin as [Hin|Hin]; [|done]. by apply Hk.
Qed.

(** Within a set, a key determines its item. *)
Lemma entries_det l k x y : NoDup (entries l).*1 -> (k, x) ∈ entries l ->
  (k, y) ∈ entries l -> x = y.
Proof.
  generalize (entries l). intros es. induction es as [|[k' x'] es IH]; simpl.
  - intros _ Hin. by apply elem_of_nil in Hin.
  - intros [Hni Hnd]%NoDup_cons Hx Hy.
    rewrite elem_of_cons in Hx, Hy. destruct Hx as [Hx|Hx], Hy as [Hy|Hy]; simplify_eq; auto.
    + exfalso. apply Hni. apply list_elem_of_fmap. by exists (k', y).
    + exfalso. apply Hni. apply list_elem_of_fmap. by exists (k', x).
Qed.

(** Another map does not see a change of a set that is not its own. *)
Lemma map_ok_other g M m s l' : map_ok g M m -> (forall ss, hm_sets M = Some ss -> s ∉ ss) -> map_ok (<[s := l']> g) M m.
Proof.
  intros [Hsz (ss & Hss & Hlen & Hex & Hinj & Hr & Hmm)] Hno.
  assert (forall j e, in_bucket (<[s:=l']> g) ss j e <-> in_bucket g ss j e) as Hb.
  { intros j e. unfold in_bucket.
    split; intros (s' & l1 & Hs' & Hl1 & He); exists s', l1; split_and!; try done.
    all: destruct (decide (s = s')) as [<-|]; [|by rewrite lookup_insert_ne in *].
    all: by destruct (Hno ss Hss); eapply list_elem_of_lookup_2. }
  split; [done|]. exists ss. split_and!; try done.
  - intros j s' [?|?]%Hex; [by left|right]. apply lookup_insert_is_Some. destruct (decide (s = s')); auto.
  - intros j e He%Hb. by apply Hr.
  - intros k x. rewrite Hmm. by setoid_rewrite Hb.
Qed.

(** Replacing the nodes of one set of one map. *)
Lemma maps_ok_update h h' g ms hm M m m' ss i s l l' :
  shape h g -> maps_ok h g ms -> mh_maps h !! hm = Some M -> ms !! hm = Some m ->
  hm_sets M = Some ss -> ss !! i = Some s -> g !! s = Some l ->
  mh_maps h' = mh_maps h -> brk_addr (mh_arena h) <= brk_addr (mh_arena h') ->
  (forall e, e ∈ entries l' -> Z.rem e.1 (hm_size M) = Z.of_nat i /\ e.2 <> NULL) ->
  (forall k x, m' !! k = Some x <->
     if decide (Z.rem k (hm_size M) = Z.of_nat i) then (k, x) ∈ entries l'
     else m !! k = Some x) ->
  maps_ok h' (<[s := l']> g) (<[hm := m']> ms).
Proof.
  intros Hsh Hms HM Hm Hss Hs Hl Hmaps Hbrk Hres Hm'.
  assert (s <> NULL) as Hs0 by (intros ->; by rewrite (forest_NULL _ _ _ _ _ _ _ Hsh) in Hl).
  assert (owns M s) as Hown by (split; [done|]; exists ss; split; [done|]; by eapply list_elem_of_lookup_2).
  destruct Hms as [Hd Ha Hmk Hdj]. split; rewrite ?Hmaps.
  - intros hm'. rewrite Hd, lookup_insert_is_Some. destruct (decide (hm = hm')); naive_solver.
  - intros hm' Hi%Ha. lia.
  - intros hm' M1 m1 HM1 [[<- <-]|[Hne Hm1]]%lookup_insert_Some.
    + rewrite HM in HM1. injection HM1 as <-.
      destruct (Hmk _ _ _ HM Hm) as [Hsz (ss' & Hss' & Hlen & Hex & Hinj & Hr & Hmm)].
      rewrite Hss in Hss'. injection Hss' as <-.
      assert (forall j e, in_bucket (<[s:=l']> g) ss j e <->
        if decide (j = i) then e ∈ entries l' else in_bucket g ss j e) as Hb.
      { intros j e. unfold in_bucket. destruct (decide (j = i)) as [->|Hji].
        - split; [|intros He; exists s, l'; by rewrite lookup_insert_eq].
          intros (s' & l1 & Hs' & Hl1 & He). simplify_eq. by rewrite lookup_insert_eq in Hl1; simplify_eq.
        - split; intros (s' & l1 & Hs' & Hl1 & He); exists s', l1.
          + rewrite lookup_insert_ne in Hl1; [done|]. intros <-. by apply Hji, (Hinj _ _ s).
          + rewrite lookup_insert_ne; [done|]. intros <-. by apply Hji, (Hinj _ _ s). }
      split; [done|]. exists ss. split_and!; try done.
      * intros j s' [?|?]%Hex; [by left|right]. apply lookup_insert_is_Some. destruct (decide (s = s')); auto.
      * intros j e He%Hb. destruct (decide (j = i)) as [->|]; auto.
      * intros k x. rewrite Hm'. setoid_rewrite Hb. case_decide as Hk.
        -- split; [intros He; exists i; by rewrite decide_True|].
           intros (j & He). destruct (decide (j = i)) as [->|Hji]; [done|].
           apply Hr in He as [He _]. simpl in He. lia.
        -- rewrite Hmm. split; intros (j & He); exists j.
           ++ rewrite decide_False; [done|]. intros ->. apply Hr in He as [He _]. done.
           ++ destruct (decide (j = i)) as [->|]; [|done]. apply Hres in He as [He _]. done.
    + apply map_ok_other; [by eapply Hmk|]. intros ss1 Hss1 Hin. apply Hne. eapply (Hdj hm hm' M M1 s); try done.
      split; [done|by exists ss1].
  - intros. by eapply Hdj.
Qed.

Section laws.
Context `{Hardware}.

Lemma rep_NULL h ms : rep h ms -> ms !! NULL = None.
Proof.
  intros (g & Hsh & Hms). apply eq_None_not_Some.
  intros Hi%(mo_dom _ _ _ Hms)%(mo_addr _ _ _ Hms). lia.
Qed.

Lemma rep_item h ms hm m k x : rep h ms -> ms !! hm = Some m -> m !! k = Some x -> x <> NULL.
Proof.
  intros Hrep Hm Hk. destruct (mrep_lookup _ _ _ _ Hrep Hm) as (g & M & _ & _ & _ & _ & Hok).
  destruct Hok as [_ (ss & _ & _ & _ & _ & Hr & Hmm)].
  destruct (proj1 (Hmm _ _) Hk) as (i & He). by destruct (Hr _ _ He) as [_ Hx].
Qed.

Lemma set_find_ok h g s l k : shape h g -> g !! s = Some l ->
  exists r, set_find s k h = Ret r h /\
    (forall x, (k, x) ∈ entries l -> r = x) /\ (k ∉ (entries l).*1 -> r = NULL).
Proof.
  intros Hsh Hl. pose proof (forest_length _ _ _ _ _ _ _ _ _ Hsh Hl) as Hlen.
  destruct (forest_object _ _ _ _ _ _ _ _ _ Hsh Hl) as (O & HO & Hs0 & Hc & Hnd).
  unfold set_find. destruct (Z.eqb_spec s NULL) as [|_]; [done|].
  step (load_set_ok _ _ _ HO). destruct (Z.eqb_spec (set_head O) NULL) as [H0|H0].
  - rewrite H0 in Hc. apply chain_NULL in Hc as [-> _]. exists NULL. split; [done|].
    split; [|done]. intros x Hin. by apply elem_of_nil in Hin.
  - mon. destruct (find_loop_ok h _ _ k (node_fuel h) Hc) as (o & Ho & Hspec);
      [unfold node_fuel; lia|].
    step Ho. eexists. split; [done|]. destruct o as [n|].
    + destruct Hspec as [<- Hin]. split.
      * intros x Hx. by eapply entries_det.
      * intros Hni. exfalso. apply Hni. apply list_elem_of_fmap. by exists (entry n).
    + split; [|done]. intros x Hx. exfalso. apply Hspec.
      apply list_elem_of_fmap. by exists (k, x).
Qed.

Lemma HashMap_find_ok h ms hm m k : rep h ms -> ms !! hm = Some m -> 0 <= k ->
  HashMap_find hm k h = Ret (default NULL (m !! k)) h.
Proof.
  intros Hrep Hm Hk.
  destruct (mrep_lookup _ _ _ _ Hrep Hm) as (g & M & Hsh & _ & HM & Hhm & Hok).
  destruct (bucket_ok _ _ _ _ Hok Hk) as (ss & i & s & _ & _ & Hb & _ & Hs & Hmk).
  unfold HashMap_find. destruct (Z.eqb_spec hm NULL) as [|_]; [done|].
  step (load_map_ok _ _ _ HM). step_rd Hb.
  destruct Hs as [->|[l Hl]].
  - simpl. destruct (m !! k) as [x|]; [|done].
    destruct (proj1 (Hmk x) eq_refl) as (l & Hl & _).
    by rewrite (forest_NULL _ _ _ _ _ _ _ Hsh) in Hl.
  - destruct (set_find_ok h g s l k Hsh Hl) as (r & -> & Hin & Hni). f_equal.
    destruct (m !! k) as [x|]; simpl.
    + destruct (proj1 (Hmk x) eq_refl) as (l' & Hl' & He). simplify_eq. by apply Hin.
    + apply Hni. intros ([k' x] & -> & Hx)%list_elem_of_fmap.
      enough (@None ptr = Some x) by done. apply Hmk. by exists l.
Qed.

(** Searching a key in its set finds it exactly when the map has it. *)
Lemma find_in_bucket h g (m : gmap Z ptr) k s l O : shape h g -> g !! s = Some l ->
  (forall x, m !! k = Some x <-> exists l, g !! s = Some l /\ (k, x) ∈ entries l) ->
  mh_sets h !! s = Some O ->
  exists o, find_loop (node_fuel h) (set_head O) k h = Ret o h /\
    match o with
    | Some n => m !! k = Some (sn_item n)
    | None => m !! k = None /\ k ∉ (entries l).*1
    end.
Proof.
  intros Hsh Hl Hmk HO. pose proof (forest_length _ _ _ _ _ _ _ _ _ Hsh Hl) as Hlen.
  destruct (fo_chain _ _ _ _ _ _ _ Hsh _ _ _ Hl HO) as [Hc Hnd].
  destruct (find_loop_ok h _ _ k (node_fuel h) Hc) as (o & Ho & Hspec); [unfold node_fuel; lia|].
  exists o. split; [done|]. destruct o as [n|].
  - destruct Hspec as [<- Hin]. apply Hmk. by exists l.
  - split; [|done]. destruct (m !! k) as [x|]; [|done].
    destruct (proj1 (Hmk x) eq_refl) as (l' & Hl' & He). simplify_eq.
    exfalso. apply Hspec, list_elem_of_fmap. by exists (k, x).
Qed.

Lemma HashMap_insert_old_ok h ms hm m k x y : rep h ms -> ms !! hm = Some m -> 0 <= k ->
  m !! k = Some y -> HashMap_insert hm k x h = Ret ERROR h.
Proof.
  intros Hrep Hm Hk Hy. unfold HashMap_insert.
  destruct (mrep_lookup _ _ _ _ Hrep Hm) as (g & M & Hsh & _ & HM & Hhm & Hok).
  destruct (bucket_ok _ _ _ _ Hok Hk) as (ss & i & s & _ & _ & Hb & _ & Hs & Hmk).
  destruct (Z.eqb_spec hm NULL), (Z.eqb_spec x NULL) as [|Hx]; try done.
  cbn [negb andb]. step (load_map_ok _ _ _ HM). step_rd Hb.
  destruct (proj1 (Hmk y) Hy) as (l & Hl & _).
  destruct (forest_object _ _ _ _ _ _ _ _ _ Hsh Hl) as (O & HO & Hs0 & _).
  unfold set_insert. destruct (Z.eqb_spec s NULL), (Z.eqb_spec x NULL); try done.
  cbn [negb andb]. step (load_set_ok _ _ _ HO). mon.
  destruct (find_in_bucket h g m k s l O Hsh Hl Hmk HO) as (o & Ho & Hspec).
  step Ho. destruct o; [done|]. destruct Hspec. congruence.
Qed.

(** Linking a new node in front of a set. *)
Lemma insert_shape h g s l O p k x : shape h g -> g !! s = Some l -> mh_sets h !! s = Some O ->
  mh_nodes h !! p = None -> 0 < p < brk_addr (mh_arena h) -> k ∉ (entries l).*1 ->
  shape (mkMheap (mh_arena h) (<[p := mkSetnode k x (set_head O)]> (mh_nodes h))
           (<[s := mkSet p]> (mh_sets h)) (mh_maps h))
        (<[s := (p, mkSetnode k x (set_head O)) :: l]> g).
Proof.
  intros Hsh Hl HO Hp Hpos Hk.
  destruct (fo_chain _ _ _ _ _ _ _ Hsh _ _ _ Hl HO) as [Hc Hnd].
  assert (p ∉ l.*1) as Hpl.
  { intros Hin. destruct (forest_in_nodes _ _ _ _ _ _ _ _ _ _ Hsh Hl Hin). congruence. }
  eapply forest_update; try done; simpl.
  - rewrite lookup_insert_eq. split_and!; try done; [lia|]. by apply chain_insert_fresh.
  - unfold keys_inv. simpl. by constructor.
  - intros a Ha1 Ha2. rewrite lookup_insert_ne; [done|]. intros ->. apply Ha2. by left.
  - intros a [->|Ha]%elem_of_cons; [by right|by left].
  - intros a [<-|[_ Hi]]%lookup_insert_is_Some; [lia|]. by apply (fo_node _ _ _ _ _ _ _ Hsh).
Qed.

(** The entries of the bucket and of the map with the new one. *)
Lemma insert_entries g M m ss i s l k x p next : map_ok g M m -> hm_sets M = Some ss -> ss !! i = Some s -> g !! s = Some l ->
  Z.rem k (hm_size M) = Z.of_nat i -> k ∉ (entries l).*1 -> x <> NULL ->
  let l' := (p, mkSetnode k x next) :: l in
  (forall e, e ∈ entries l' -> Z.rem e.1 (hm_size M) = Z.of_nat i /\ e.2 <> NULL) /\
  (forall k' x', <[k := x]> m !! k' = Some x' <->
     if decide (Z.rem k' (hm_size M) = Z.of_nat i) then (k', x') ∈ entries l' else m !! k' = Some x').
Proof.
  intros [_ (ss' & Hss' & _ & _ & _ & Hr & Hmm)] Hss His Hl Hrem Hkl Hx. cbv zeta. assert (ss' = ss) as -> by congruence.
  split; [intros e [->|He]%elem_of_cons; [done|]; apply Hr; by exists s, l|].
  intros k' x'. rewrite lookup_insert_Some. case_decide as Hk'.
  - unfold entries. rewrite fmap_cons, elem_of_cons. fold (entries l). unfold entry at 1. simpl. split.
    + intros [[-> ->]|[Hne Hx']]; [by left|right]. destruct (proj1 (Hmm _ _) Hx') as (j & Hj).
      assert (j = i) as -> by (apply Hr in Hj as [Hj _]; simpl in Hj; lia).
      destruct Hj as (s' & l2 & ? & ? & He). by simplify_eq.
    + intros [[= -> ->]|He]; [by left|right].
      split; [intros ->; apply Hkl, list_elem_of_fmap; by exists (k', x')|]. apply Hmm. by exists i, s, l.
  - split; [|intros Hx'; right; split; [|done]; by intros ->]. by intros [[-> _]|[_ ?]].
Qed.

Lemma HashMap_insert_new_ok h ms hm m k x : rep h ms -> ms !! hm = Some m -> 0 <= k ->
  m !! k = None -> x <> NULL ->
  exists r h', HashMap_insert hm k x h = Ret r h' /\ (plentiful h -> plentiful h') /\
    (r = ERROR /\ ~ plentiful h /\ rep h' ms \/
     r = 0 /\ rep h' (<[hm := <[k := x]> m]> ms)).
Proof.
  intros Hrep Hm Hk Hnone Hx. unfold HashMap_insert.
  destruct (mrep_lookup _ _ _ _ Hrep Hm) as (g & M & Hsh & Hms & HM & Hhm & Hok).
  destruct (bucket_ok _ _ _ _ Hok Hk) as (ss & i & s & Hss & His & Hb & Hrem & Hs & Hmk).
  destruct (Z.eqb_spec hm NULL), (Z.eqb_spec x NULL) as [|_]; try done.
  cbn [negb andb]. step (load_map_ok _ _ _ HM). step_rd Hb.
  destruct Hs as [->|[l Hl]].
  { exists ERROR, h. split; [done|]. split; [done|]. left. split_and!; [done| |done].
    intros [_ Hnn]. by eapply (Hnn hm M ss), list_elem_of_lookup_2. }
  destruct (forest_object _ _ _ _ _ _ _ _ _ Hsh Hl) as (O & HO & Hs0 & _).
  unfold set_insert. destruct (Z.eqb_spec s NULL), (Z.eqb_spec x NULL); try done.
  cbn [negb andb]. step (load_set_ok _ _ _ HO). mon.
  destruct (find_in_bucket h g m k s l O Hsh Hl Hmk HO) as (o & Ho & Hspec).
  step Ho. destruct o as [n'|]; [congruence|]. destruct Hspec as [_ Hkl].
  destruct (mheap_malloc 12 h g ms Hsh Hms) as (p & a & Hml & Hpl & Hsh' & Hms' & Hp).
  step Hml. destruct (Z.eqb_spec p NULL) as [->|Hp0].
  { exists ERROR, (with_arena a h). split; [done|].
    split; [by intros [Hpa Hnn]; split; [by apply Hpl|]|].
    left. destruct Hp as [[_ Hnp]|?]; [|lia]. split_and!; [done|by intros [? _]|by exists g]. }
  destruct Hp as [[-> ?]|[Hpe Hlt]]; [done|].
  unfold set_node, set_set. mon.
  eexists 0, _. split; [done|].
  split; [by intros [Hpa Hnn]; split; [by apply Hpl|]|].
  right. split; [done|]. eexists. split.
  - apply (insert_shape (with_arena a h) g s l O p k x Hsh' Hl HO); simpl; [|lia|done].
    apply (forest_fresh_node _ _ _ _ _ _ _ _ Hsh). lia.
  - apply (maps_ok_update (with_arena a h) _ g ms hm M m _ ss i s l _ Hsh' Hms' HM Hm Hss His Hl);
      simpl; [done|lia| |].
    + by apply (insert_entries g M m ss i s l k x p (set_head O)).
    + by apply (insert_entries g M m ss i s l k x p (set_head O)).
Qed.

(** [removed key l l' n]: [l'] is [l] without its node [n], which has the key;
    the node before it may have a new [next]. *)
Definition removed (key : Z) (l l' : nodes) (n : setnode_t) : Prop :=
  sn_key n = key /\ exists l1 a l2 l1', l = l1 ++ (a, n) :: l2 /\ l' = l1' ++ l2 /\
    l1'.*1 = l1.*1 /\ entries l1' = entries l1.

Lemma entries_app l1 l2 : entries (l1 ++ l2) = entries l1 ++ entries l2.
Proof. apply fmap_app. Qed.

(** What a removal does to the heap: only nodes of [l] change. *)
Definition frame (h h' : mheap) (l : nodes) : Prop :=
  mh_arena h' = mh_arena h /\ mh_maps h' = mh_maps h /\
  (forall a, a ∉ l.*1 -> mh_nodes h' !! a = mh_nodes h !! a) /\
  (forall a, is_Some (mh_nodes h' !! a) -> is_Some (mh_nodes h !! a)).

Lemma remove_loop_ok h p key rest : forall l1 curr c fuel,
  chain sn_next (mh_nodes h) p (l1 ++ (curr, c) :: rest) NULL -> (length rest < fuel)%nat ->
  (key ∉ (entries rest).*1) /\ remove_loop fuel curr (sn_next c) key h = Ret NULL h \/
  exists n h' l', remove_loop fuel curr (sn_next c) key h = Ret (sn_item n) h' /\
    chain sn_next (mh_nodes h') p l' NULL /\ removed key (l1 ++ (curr, c) :: rest) l' n /\
    frame h h' (l1 ++ (curr, c) :: rest) /\ mh_sets h' = mh_sets h.
Proof.
  induction rest as [|[b n] rest IH]; intros l1 curr c fuel Hc Hfuel;
    (destruct fuel as [|fuel]; [simpl in Hfuel; lia|]); simpl.
  - apply chain_app in Hc as (r & _ & Hc). simpl in Hc. destruct Hc as (_ & _ & _ & ->).
    left. split; [apply not_elem_of_nil|done].
  - pose proof Hc as Hc'. apply chain_app in Hc' as (r & _ & Hc'). simpl in Hc'.
    destruct Hc' as (-> & Hcurr & Hnc & <- & Hb & Hnb & _).
    pose proof (chain_NoDup _ _ _ _ Hc) as Hnd. rewrite fmap_app in Hnd. simpl in Hnd.
    apply NoDup_app in Hnd as (_ & Hd1 & [Hcb Hnd]%NoDup_cons).
    destruct (Z.eqb_spec (sn_next c) NULL) as [|_]; [done|]. step (set_load_node_ok _ _ _ Hnb).
    destruct (Z.eqb_spec (sn_key n) key) as [Hk|Hk].
    + right. exists n. step (set_free_node_ok _ _ _ Hnb).
      erewrite bind_Ret;
        [|apply set_load_node_ok; simpl; rewrite lookup_delete_ne by set_solver; exact Hnc].
      unfold set_node. mon. eexists _, (l1 ++ (curr, mkSetnode (sn_key c) (sn_item c) (sn_next n)) :: rest).
      split; [done|]. split_and!; simpl.
      * by eapply chain_unlink.
      * split; [done|].
        exists (l1 ++ [(curr, c)]), (sn_next c), rest,
          (l1 ++ [(curr, mkSetnode (sn_key c) (sn_item c) (sn_next n))]).
        unfold entries. rewrite !fmap_app, <- !(assoc_L (++)). done.
      * split_and!; simpl; [done..| |].
        -- intros a Ha. rewrite fmap_app in Ha. simpl in Ha.
           rewrite lookup_insert_ne, lookup_delete_ne by set_solver. done.
        -- intros a [<-|[_ [_ Hi]%lookup_delete_is_Some]]%lookup_insert_is_Some; [by eauto|done].
      * done.
    + replace (l1 ++ (curr, c) :: (sn_next c, n) :: rest)
        with ((l1 ++ [(curr, c)]) ++ (sn_next c, n) :: rest) in Hc |- *
        by by rewrite <- (assoc_L (++)).
      destruct (IH _ _ _ fuel Hc) as [[Hni Hr]|Hr]; [simpl in Hfuel; lia| |by right].
      left. split; [|done]. unfold entries. simpl. by apply not_elem_of_cons.
Qed.

(** The whole of [set_remove] on one set. *)
Lemma set_remove_ok h g s l key : shape h g -> g !! s = Some l ->
  (key ∉ (entries l).*1) /\ set_remove s key h = Ret NULL h \/
  exists n h' l', set_remove s key h = Ret (sn_item n) h' /\ shape h' (<[s := l']> g) /\
    removed key l l' n /\ mh_maps h' = mh_maps h /\ mh_arena h' = mh_arena h.
Proof.
  intros Hsh Hl. pose proof (forest_length _ _ _ _ _ _ _ _ _ Hsh Hl) as Hlen.
  destruct (forest_object _ _ _ _ _ _ _ _ _ Hsh Hl) as (O & HO & Hs0 & Hc & Hnd).
  unfold set_remove. destruct (Z.eqb_spec s NULL) as [|_]; [done|].
  step (load_set_ok _ _ _ HO). destruct l as [|[a c] l].
  { simpl in Hc. rewrite Hc. left. split; [apply not_elem_of_nil|done]. }
  pose proof Hc as Hc0. pose proof (chain_NoDup _ _ _ _ Hc) as Hnda.
  simpl in Hc, Hnda. destruct Hc as (<- & Ha & Hn & Hc).
  destruct (Z.eqb_spec (set_head O) NULL) as [|_]; [done|]. step (set_load_node_ok _ _ _ Hn).
  apply NoDup_cons in Hnda as [Hal Hnda].
  unfold keys_inv, entries in Hnd. simpl in Hnd. apply NoDup_cons in Hnd as [Hkl Hnd].
  destruct (Z.eqb_spec (sn_key c) key) as [Hk|Hk].
  - right. unfold set_set. mon. erewrite bind_Ret by (eapply set_free_node_ok; simpl; exact Hn).
    eexists c, _, l. split; [done|]. split_and!; simpl; [| |done..].
    + eapply forest_update; try done; simpl.
      * by apply chain_delete.
      * intros b Hb _. apply lookup_delete_ne. set_solver.
      * intros b Hb. left. set_solver.
      * intros b [_ Hi]%lookup_delete_is_Some. by apply (fo_node _ _ _ _ _ _ _ Hsh).
    + split; [done|]. by exists [], (set_head O), l, [].
  - mon. destruct (remove_loop_ok h (set_head O) key l [] (set_head O) c (node_fuel h) Hc0)
      as [[Hni Hr]|(n & h' & l' & Hr & Hc' & Hrem & (Har & Hmaps & Hfr & Hdom) & Hsets)].
    { unfold node_fuel. simpl in Hlen. lia. }
    + left. split; [|done]. unfold entries. simpl. by apply not_elem_of_cons.
    + right. exists n, h', l'. split; [done|]. simpl in Hrem. split_and!; [|done..].
      unfold shape. rewrite Har, Hsets.
      rewrite <- (insert_id (mh_sets h) s O) by done.
      destruct Hrem as (_ & l1 & b & l2 & l1' & He & -> & Hl1a & Hl1).
      assert (NoDup (entries ((set_head O, c) :: l)).*1) as Hnd2 by (constructor; done).
      rewrite He in Hl, Hfr, Hnd2.
      eapply forest_update; [done..| | | | |done|].
      * done.
      * unfold keys_inv. rewrite entries_app, Hl1. rewrite entries_app in Hnd2.
        rewrite fmap_app in Hnd2 |- *. simpl in Hnd2.
        apply NoDup_app in Hnd2 as (H1 & H2 & [_ H3]%NoDup_cons).
        apply NoDup_app. split_and!; [done| |done]. intros x Hx Hx2. apply (H2 x Hx). by right.
      * intros x Hx _. by apply Hfr.
      * intros x. rewrite !fmap_app, Hl1a. simpl. clear. set_solver.
      * intros x Hi%Hdom. by apply (fo_node _ _ _ _ _ _ _ Hsh).
Qed.

(** What removing a node does to the entries of a set. *)
Lemma removed_entries key l l' n : removed key l l' n -> NoDup (entries l).*1 ->
  (key, sn_item n) ∈ entries l /\
  forall k x, (k, x) ∈ entries l' <-> k <> key /\ (k, x) ∈ entries l.
Proof.
  intros (Hk & l1 & a & l2 & l1' & -> & -> & _ & Hl1) Hnd. subst key.
  rewrite entries_app in Hnd |- *. rewrite entries_app, Hl1.
  change (entries ((a, n) :: l2)) with ((sn_key n, sn_item n) :: entries l2) in *.
  generalize dependent (entries l2). generalize dependent (entries l1). clear.
  intros es1 _ es2 Hnd. rewrite fmap_app in Hnd. simpl in Hnd.
  apply NoDup_app in Hnd as (_ & H1 & [H2 _]%NoDup_cons).
  split; [set_solver|]. intros k x. rewrite !elem_of_app, elem_of_cons. split.
  - intros Hin. split; [|naive_solver]. intros ->. destruct Hin as [Hin|Hin].
    + apply (H1 (sn_key n)); [apply list_elem_of_fmap; by exists (sn_key n, x)|by left].
    + apply H2, list_elem_of_fmap. by exists (sn_key n, x).
  - intros [Hne [?|[[= ? ?]|?]]]; auto. done.
Qed.

Lemma HashMap_remove_ok h ms hm m k : rep h ms -> ms !! hm = Some m -> 0 <= k ->
  exists h', HashMap_remove hm k h = Ret (default NULL (m !! k)) h' /\
    (plentiful h -> plentiful h') /\ rep h' (<[hm := delete k m]> ms).
Proof.
  intros Hrep Hm Hk. unfold HashMap_remove.
  destruct (mrep_lookup _ _ _ _ Hrep Hm) as (g & M & Hsh & Hms & HM & Hhm & Hok).
  destruct (bucket_ok _ _ _ _ Hok Hk) as (ss & i & s & Hss & His & Hb & Hrem & Hs & Hmk).
  destruct (Z.eqb_spec hm NULL) as [|_]; [done|].
  step (load_map_ok _ _ _ HM). step_rd Hb.
  destruct Hs as [->|[l Hl]].
  { assert (m !! k = None) as Hnone.
    { destruct (m !! k) as [x|]; [|done]. destruct (proj1 (Hmk x) eq_refl) as (l & Hl & _).
      by rewrite (forest_NULL _ _ _ _ _ _ _ Hsh) in Hl. }
    exists h. rewrite Hnone, (delete_id _ _ Hnone), insert_id; done. }
  destruct (fo_dom _ _ _ _ _ _ _ Hsh s) as [_ Hi]. destruct (Hi (mk_is_Some _ _ Hl)) as [O HO].
  destruct (fo_chain _ _ _ _ _ _ _ Hsh _ _ _ Hl HO) as [_ Hnd].
  destruct (set_remove_ok h g s l k Hsh Hl)
    as [[Hni ->]|(n & h' & l' & -> & Hsh' & Hrd & Hmaps & Har)].
  - assert (m !! k = None) as Hnone.
    { destruct (m !! k) as [x|]; [|done]. destruct (proj1 (Hmk x) eq_refl) as (l' & Hl' & He).
      simplify_eq. exfalso. apply Hni, list_elem_of_fmap. by exists (k, x). }
    exists h. rewrite Hnone, (delete_id _ _ Hnone), insert_id; done.
  - destruct (removed_entries _ _ _ _ Hrd Hnd) as [Hin Hrest].
    assert (m !! k = Some (sn_item n)) as Hmkx by (apply Hmk; by exists l).
    exists h'. rewrite Hmkx. split; [done|]. split.
    { unfold plentiful. by rewrite Har, Hmaps. }
    exists (<[s := l']> g). split; [done|].
    destruct Hok as [_ (ss' & Hss' & _ & _ & _ & Hr & Hmm)]. simplify_eq.
    eapply (maps_ok_update h h' g ms hm M m); try done; [by rewrite Har| |].
    + intros [k' x'] [Hne He]%Hrest. apply Hr. by exists s, l.
    + intros k' x'. rewrite lookup_delete_Some, Hmm. case_decide as Hk'.
      * rewrite Hrest. split.
        -- intros [Hne (j & Hj)]. split; [done|].
           assert (j = i) as -> by (apply Hr in Hj as [Hj _]; simpl in Hj; lia).
           destruct Hj as (s' & l1 & ? & ? & He). by simplify_eq.
        -- intros [Hne He]. split; [done|]. by exists i, s, l.
      * rewrite <- Hmm. split; [naive_solver|]. intros Hx. split; [congruence|done].
Qed.

(** ** Iteration *)

(** In a set the node that carries a key is at one place only. *)
Lemma split_unique (l1 l2 l1' l2' : nodes) a a' n n' :
  NoDup (entries (l1 ++ (a, n) :: l2)).*1 ->
  l1 ++ (a, n) :: l2 = l1' ++ (a', n') :: l2' -> sn_key n = sn_key n' -> l2 = l2'.
Proof.
  revert l1'. induction l1 as [|[b m] l1 IH]; intros [|[b' m'] l1'] Hnd Heq Hk;
    simpl in Heq; injection Heq as -> -> Heq; [done|..].
  - exfalso. unfold entries in Hnd. simpl in Hnd. apply NoDup_cons in Hnd as [Hni _].
    apply Hni. rewrite Heq, Hk. apply list_elem_of_fmap. exists (entry n').
    split; [done|]. apply list_elem_of_fmap. exists (a', n'). split; [done|].
    apply elem_of_app. right. by left.
  - exfalso. unfold entries in Hnd. simpl in Hnd. apply NoDup_cons in Hnd as [Hni _].
    apply Hni. rewrite <- Hk. apply list_elem_of_fmap. exists (entry n).
    split; [done|]. apply list_elem_of_fmap. exists (a, n). split; [done|].
    apply elem_of_app. right. by left.
  - apply (IH l1'); [|done..]. unfold entries in Hnd. simpl in Hnd. by apply NoDup_cons in Hnd as [_ ?].
Qed.

(** The nodes behind the current one survive the call of [itemfunc]. *)
Lemma remove_current h h' g s l1 a n l2 y k hm M :
  shape h g -> g !! s = Some (l1 ++ (a, n) :: l2) -> sn_key n = k ->
  mh_maps h !! hm = Some M -> hm <> NULL -> bucket M k = Some s ->
  HashMap_remove hm k h = Ret y h' ->
  exists l1', shape h' (<[s := l1' ++ l2]> g) /\ mh_maps h' = mh_maps h.
Proof.
  intros Hsh Hl Hk HM Hhm Hb Hr. unfold HashMap_remove in Hr.
  destruct (Z.eqb_spec hm NULL) as [|_]; [done|].
  rewrite (bind_Ret _ _ _ _ _ (load_map_ok _ _ _ HM)), (bind_rd _ _ _ _ Hb) in Hr.
  destruct (forest_object _ _ _ _ _ _ _ _ _ Hsh Hl) as (O & _ & _ & _ & Hnd).
  unfold keys_inv in Hnd.
  destruct (set_remove_ok h g s _ k Hsh Hl) as [[Hni _]|(n' & h1 & l' & Hr' & Hsh' & Hrd & Hmaps & _)].
  - exfalso. apply Hni, list_elem_of_fmap. exists (entry n). split; [done|].
    rewrite entries_app. apply elem_of_app. right. by left.
  - rewrite Hr' in Hr. simplify_eq.
    destruct Hrd as (Hk' & m1 & b & m2 & m1' & Heq & -> & _ & _).
    exists m1'. split; [|done].
    by rewrite (split_unique _ _ _ _ _ _ _ _ Hnd Heq (eq_sym Hk')).
Qed.

Section iterate.
Context {S : Type} `{L : Lens S mheap}.
Variables (f : Z -> ptr -> M S unit) (J : list (Z * ptr) -> S -> Prop).
Variables (order : list (Z * ptr)) (hm : ptr).
Hypothesis Hhm : hm <> NULL.
Hypothesis Hf : forall d k x r s1, order = d ++ (k, x) :: r -> J d s1 ->
  (exists s2, f k x s1 = Ret tt s2 /\ J (d ++ [(k, x)]) s2 /\
    (view s2 = view s1 \/ exists y, HashMap_remove hm k (view s1) = Ret y (view s2))) \/ f k x s1 = Undef.

Lemma iterate_loop_ok set Mp : forall rem pre d r p s1 g1 fuel,
  (forall e, e ∈ entries rem -> bucket Mp e.1 = Some set) ->
  shape (view s1) g1 -> mh_maps (view s1) !! hm = Some Mp ->
  g1 !! set = Some (pre ++ rem) -> chain sn_next (mh_nodes (view s1)) p rem NULL ->
  (length rem < fuel)%nat -> order = d ++ entries rem ++ r -> J d s1 ->
  (exists s2 g2, set_iterate_loop fuel p f s1 = Ret tt s2 /\ J (d ++ entries rem) s2 /\
    shape (view s2) g2 /\ mh_maps (view s2) = mh_maps (view s1) /\
    (forall s', s' <> set -> g2 !! s' = g1 !! s')) \/
  set_iterate_loop fuel p f s1 = Undef /\ stuck_turn f J order.
Proof.
  induction rem as [|[a n] rem IH]; intros pre d r p s1 g1 fuel Hb Hsh HM Hl Hc Hlen Hord HJ;
    (destruct fuel as [|fuel]; [simpl in Hlen; lia|]); simpl.
  - simpl in Hc. subst p. simpl. left. exists s1, g1. rewrite app_nil_r. done.
  - simpl in Hc. destruct Hc as (-> & Ha & Hn & Hc).
    destruct (Z.eqb_spec a NULL) as [|_]; [done|].
    rewrite (bind_Ret _ _ _ _ _ (lift_Ret _ _ _ _ (set_load_node_ok _ _ _ Hn))), put_view.
    destruct (Hf d (sn_key n) (sn_item n) (entries rem ++ r) s1) as [(s2 & Hf2 & HJ2 & Hv)|Hu]; [done..| |].
    2: { right. split; [unfold bind; by rewrite Hu|]. by exists d, (sn_key n), (sn_item n), (entries rem ++ r), s1. }
    step Hf2.
    assert (exists pre' g2, shape (view s2) g2 /\ mh_maps (view s2) = mh_maps (view s1) /\
      g2 !! set = Some (pre' ++ rem) /\ (forall s', s' <> set -> g2 !! s' = g1 !! s') /\
      chain sn_next (mh_nodes (view s2)) (sn_next n) rem NULL)
      as (pre' & g2 & Hsh2 & Hm2 & Hl2 & Ho2 & Hc2).
    { destruct Hv as [->|[y Hv]].
      - exists (pre ++ [(a, n)]), g1. rewrite <- (assoc_L (++)). done.
      - assert (bucket Mp (sn_key n) = Some set) as Hbn by (apply (Hb (entry n)); by left).
        destruct (remove_current _ _ _ _ _ _ _ _ _ _ _ _ Hsh Hl eq_refl HM Hhm Hbn Hv)
          as (l1' & Hsh2 & Hm2).
        exists l1', (<[set := l1' ++ rem]> g1). rewrite lookup_insert_eq. split_and!; try done.
        + intros s' Hs'. by rewrite lookup_insert_ne.
        + destruct (forest_object _ _ _ _ _ _ _ _ _ Hsh2 (lookup_insert_eq _ _ _))
            as (O & _ & _ & Hco & _).
          apply chain_app in Hco as (q & _ & Hco). destruct rem as [|[b m] rem]; [done|].
          assert (sn_next n = b) as -> by (simpl in Hc; naive_solver).
          assert (q = b) as -> by (simpl in Hco; naive_solver). done. }
    destruct (IH pre' (d ++ [entry n]) r (sn_next n) s2 g2 fuel) as [(s3 & g3 & H1 & H2 & H3 & H4 & H5)|Hu].
    + intros e He. apply Hb. by right.
    + done.
    + by rewrite Hm2.
    + done.
    + done.
    + simpl in Hlen. lia.
    + rewrite Hord, <- (assoc_L (++)). done.
    + done.
    + left. exists s3, g3. rewrite <- (assoc_L (++)) in H2. split_and!; try done.
      * by rewrite H4.
      * intros s' Hs'. by rewrite H5, Ho2.
    + by right.
Qed.

End iterate.

(** The entries of one bucket, and of the whole array, in iteration order. *)
Definition bucket_entries (g : gmap ptr nodes) (ss : list ptr) (i : nat) : list (Z * ptr) :=
  match ss !! i ≫= (g !!.) with Some l => entries l | None => [] end.
Definition all_entries (g : gmap ptr nodes) (ss : list ptr) (n : nat) : list (Z * ptr) :=
  mjoin (bucket_entries g ss <$> seq 0 n).

Lemma elem_of_bucket g ss i e : e ∈ bucket_entries g ss i <-> in_bucket g ss i e.
Proof.
  unfold bucket_entries, in_bucket. destruct (ss !! i) as [s|]; simpl.
  - destruct (g !! s) as [l|] eqn:Hl.
    + split; [by exists s, l|]. intros (s' & l' & ? & ? & ?). by simplify_eq.
    + split; [intros Hin; by apply elem_of_nil in Hin|]. intros (s' & l' & ? & ? & ?). by simplify_eq.
  - split; [intros Hin; by apply elem_of_nil in Hin|]. by intros (s' & l' & ? & _).
Qed.

Lemma all_entries_S g ss n : all_entries g ss (S n) = all_entries g ss n ++ bucket_entries g ss n.
Proof. unfold all_entries. rewrite seq_S, fmap_app, join_app. simpl. by rewrite app_nil_r. Qed.

Lemma all_entries_NoDup h g M m ss : shape h g -> map_ok g M m -> hm_sets M = Some ss ->
  forall n, NoDup (all_entries g ss n) /\
    (forall e, e ∈ all_entries g ss n <-> exists i, (i < n)%nat /\ in_bucket g ss i e).
Proof.
  intros Hsh [_ (ss' & Hss' & _ & _ & _ & Hr & _)] Hss. rewrite Hss in Hss'. injection Hss' as <-.
  induction n as [|n [IHnd IHe]].
  - split; [constructor|]. intros e. split; [intros Hin; by apply elem_of_nil in Hin|].
    intros (i & ? & _). lia.
  - rewrite all_entries_S. split.
    + apply NoDup_app. split_and!; [done| |].
      * intros e (i & Hi & He)%IHe He2%elem_of_bucket. apply Hr in He as [He _], He2 as [He2 _]. lia.
      * unfold bucket_entries. destruct (ss !! n) as [s|]; simpl; [|constructor].
        destruct (g !! s) as [l|] eqn:Hl; [|constructor].
        destruct (forest_object _ _ _ _ _ _ _ _ _ Hsh Hl) as (O & _ & _ & _ & Hnd).
        by apply NoDup_fmap_1 in Hnd.
    + intros e. rewrite elem_of_app, IHe, elem_of_bucket. split.
      * intros [(i & Hi & He)|He]; [exists i|exists n]; (split; [lia|done]).
      * intros (i & Hi & He). destruct (decide (i = n)) as [->|]; [by right|left].
        exists i. split; [lia|done].
Qed.

Lemma all_entries_perm h g M m ss : shape h g -> map_ok g M m -> hm_sets M = Some ss ->
  all_entries g ss (Z.to_nat (hm_size M)) ≡ₚ map_to_list m.
Proof.
  intros Hsh Hok Hss. destruct (all_entries_NoDup _ _ _ _ _ Hsh Hok Hss (Z.to_nat (hm_size M))) as [Hnd He].
  destruct Hok as [_ (ss' & Hss' & Hlen & _ & _ & _ & Hm)].
  rewrite Hss in Hss'. injection Hss' as <-.
  apply NoDup_Permutation; [done|apply NoDup_map_to_list|]. intros [k x].
  rewrite elem_of_map_to_list, Hm, He. split.
  - intros (i & _ & Hi). by exists i.
  - intros (i & Hi). exists i. split; [|done].
    destruct Hi as (s & l & Hs%lookup_lt_Some & _). lia.
Qed.

Lemma sets_at_lookup M ss i set : hm_sets M = Some ss -> ss !! i = Some set -> sets_at M (Z.of_nat i) = Some set.
Proof. intros Hss Hset. unfold sets_at. rewrite Hss. repeat zcase; [lia|]. simpl. by rewrite Nat2Z.id. Qed.

Lemma all_entries_prefix g ss i N : (i < N)%nat ->
  exists r, all_entries g ss N = all_entries g ss i ++ bucket_entries g ss i ++ r.
Proof.
  induction N as [|N IH]; [lia|]. intros HiN. rewrite all_entries_S. destruct (decide (i = N)) as [->|].
  - exists []. by rewrite app_nil_r.
  - destruct IH as [r ->]; [lia|]. exists (r ++ bucket_entries g ss N). by rewrite <- !(assoc_L (++)).
Qed.

(** The sets from the [i]th on are as they were. *)
Definition slots_left {S} `{L : Lens S mheap} (h : mheap) (g : gmap ptr nodes) (ss : list ptr) (i : nat) (s1 : S) : Prop :=
  exists g1, shape (view s1) g1 /\ mh_maps (view s1) = mh_maps h /\
    forall j s', (i <= j)%nat -> ss !! j = Some s' -> g1 !! s' = g !! s'.

(** A turn of the loop of [HashMap_iterate]. *)
Lemma iterate_slot_ok {S} `{L : Lens S mheap} (h : mheap) g Mo m hm ss i set N (f : Z -> ptr -> M S unit) (J : list (Z * ptr) -> S -> Prop) s1 :
  shape h g -> map_ok g Mo m -> mh_maps h !! hm = Some Mo -> hm <> NULL -> hm_sets Mo = Some ss -> ss !! i = Some set -> (i < N)%nat ->
  (forall d k x r s1, all_entries g ss N = d ++ (k, x) :: r -> J d s1 ->
     (exists s2, f k x s1 = Ret tt s2 /\ J (d ++ [(k, x)]) s2 /\
       (view s2 = view s1 \/ exists y, HashMap_remove hm k (view s1) = Ret y (view s2))) \/ f k x s1 = Undef) ->
  J (all_entries g ss i) s1 -> slots_left h g ss i s1 ->
  (exists s2, set_iterate set f s1 = Ret tt s2 /\ J (all_entries g ss (Datatypes.S i)) s2 /\ slots_left h g ss (Datatypes.S i) s2) \/
  set_iterate set f s1 = Undef /\ stuck_turn f J (all_entries g ss N).
Proof.
  intros Hsh [Hsz (ss' & Hss' & Hlen & Hex & Hinj & Hr & _)] HM Hhm Hss Hset HiN Hf HJ1 (g1 & Hsh1 & Hm1 & Hg1).
  assert (ss' = ss) as -> by congruence. rewrite all_entries_S. unfold set_iterate. destruct (Hex _ _ Hset) as [->|[l Hl]].
  { left. exists s1. split; [done|]. split.
    - unfold bucket_entries. rewrite Hset. simpl. by rewrite (forest_NULL _ _ _ _ _ _ _ Hsh), app_nil_r.
    - exists g1. split_and!; try done. intros j s' Hj. apply Hg1. lia. }
  assert (g1 !! set = Some l) as Hl1 by (rewrite <- Hl; apply (Hg1 i); [lia|done]).
  destruct (forest_object _ _ _ _ _ _ _ _ _ Hsh1 Hl1) as (O & HO & Hs0 & Hc & _).
  pose proof (forest_length _ _ _ _ _ _ _ _ _ Hsh1 Hl1) as Hll.
  destruct (Z.eqb_spec set NULL) as [|_]; [done|].
  rewrite (bind_Ret _ _ _ _ _ (lift_Ret _ _ _ _ (load_set_ok _ _ _ HO))), put_view. mon.
  assert (bucket_entries g ss i = entries l) as Hbe by (unfold bucket_entries; rewrite Hset; simpl; by rewrite Hl).
  destruct (all_entries_prefix g ss i N HiN) as [r Hord]. rewrite Hbe in *.
  destruct (iterate_loop_ok f J (all_entries g ss N) hm Hhm Hf set Mo l [] (all_entries g ss i) r
    (set_head O) s1 g1 (node_fuel (view s1))) as [(s2 & g2 & H1 & H2 & H3 & H4 & H5)|Hu]; try done; [..|by right].
  - intros e He. destruct (Hr i e) as [Hre _]; [by exists set, l|].
    unfold bucket. rewrite Hre. repeat zcase; [lia|by eapply sets_at_lookup].
  - by rewrite Hm1.
  - unfold node_fuel. lia.
  - left. exists s2. split; [done|]. split; [done|]. exists g2. split_and!; [done|by rewrite H4|].
    intros j s' Hj Hs'. rewrite H5; [apply (Hg1 j); [lia|done]|].
    intros ->. rewrite (Hinj _ _ _ Hset Hs' Hs0) in Hj. lia.
Qed.

Lemma HashMap_iterate_tries_ok {S} `{L : Lens S mheap} (s : S) ms hm m (f : Z -> ptr -> M S unit) :
  rep (view s) ms -> ms !! hm = Some m ->
  exists order, order ≡ₚ map_to_list m /\
  forall J : list (Z * ptr) -> S -> Prop,
    J [] s ->
    (forall d k x r s1, order = d ++ (k, x) :: r -> J d s1 ->
       (exists s2, f k x s1 = Ret tt s2 /\ J (d ++ [(k, x)]) s2 /\
         (view s2 = view s1 \/ exists y, HashMap_remove hm k (view s1) = Ret y (view s2))) \/ f k x s1 = Undef) ->
    (exists s', HashMap_iterate hm f s = Ret tt s' /\ J order s') \/ HashMap_iterate hm f s = Undef /\ stuck_turn f J order.
Proof.
  intros Hrep Hm.
  destruct (mrep_lookup _ _ _ _ Hrep Hm) as (g & M & Hsh & Hms & HM & Hhm & Hok).
  pose proof Hok as [Hsz (ss & Hss & Hlen & _)].
  set (N := Z.to_nat (hm_size M)). exists (all_entries g ss N).
  split; [by eapply all_entries_perm|]. intros J HJ Hf.
  unfold HashMap_iterate. destruct (Z.eqb_spec hm NULL) as [|_]; [done|].
  rewrite (bind_Ret _ _ _ _ _ (lift_Ret _ _ _ _ (load_map_ok _ _ _ HM))), put_view. fold N.
  pose (P := fun (d : list nat) (s1 : S) => J (all_entries g ss (length d)) s1 /\ slots_left (view s) g ss (length d) s1).
  match goal with |- context [foldM ?F _] => set (body := F) end.
  destruct (foldM_tries body P (stuck_turn f J (all_entries g ss N)) (seq 0 N) s) as [(s' & Hs' & HP)|Hu]; [| |left; exists s'|by right].
  - split; [done|]. by exists g.
  - intros d i rest s1 Hseq [HJ1 Hleft].
    assert (seq 0 N !! length d = Some i) as [Hi HiN]%lookup_seq by (rewrite Hseq; by apply list_lookup_middle).
    cbn in Hi. subst i. destruct (lookup_lt_is_Some_2 ss (length d)) as [set Hset]; [lia|].
    pose proof Hleft as (g1 & _ & Hm1 & _).
    unfold body. rewrite (bind_Ret _ _ _ _ _ (lift_Ret _ _ _ _ (load_map_ok (view s1) hm M ltac:(by rewrite Hm1)))), put_view.
    step_rd (sets_at_lookup _ _ _ _ Hss Hset).
    destruct (iterate_slot_ok (view s) g M m hm ss (length d) set N f J s1) as [(s2 & H1 & H2 & H3)|Hu]; try done; [|by right].
    left. exists s2. unfold P. by rewrite length_app, Nat.add_1_r.
  - destruct HP as [HP _]. by rewrite length_seq in HP.
Qed.

(** ** Creation *)

(** A new empty set is in nobody's array. *)
Lemma map_ok_fresh g M m p : map_ok g M m -> g !! p = None -> map_ok (<[p := []]> g) M m.
Proof.
  intros [Hsz (ss & Hss & Hlen & Hex & Hinj & Hr & Hm)] Hp.
  assert (forall j e, in_bucket (<[p:=[]]> g) ss j e <-> in_bucket g ss j e) as Hb.
  { intros j e. split; intros (s & l & Hs & Hl & He); exists s, l; split_and!; try done.
    - apply lookup_insert_Some in Hl as [[_ <-]|[_ ?]]; [by apply elem_of_nil in He|done].
    - rewrite lookup_insert_ne; [done|]. intros <-. congruence. }
  split; [done|]. exists ss. split_and!; try done.
  - intros i s [?|?]%Hex; [by left|right]. rewrite lookup_insert_is_Some.
    destruct (decide (p = s)); auto.
  - intros i e He%Hb. by apply Hr.
  - intros k x. rewrite Hm. by setoid_rewrite Hb.
Qed.

(** An array whose sets are all missing or empty is an empty map. *)
Lemma map_ok_empty g n ss : 0 < n -> Z.of_nat (length ss) = n ->
  (forall i s, ss !! i = Some s -> s = NULL \/ g !! s = Some []) ->
  (forall i j s, ss !! i = Some s -> ss !! j = Some s -> s <> NULL -> i = j) ->
  g !! NULL = None -> map_ok g (mkMap n (Some ss)) ∅.
Proof.
  intros Hn Hlen Hex Hinj H0.
  assert (forall i e, ~ in_bucket g ss i e) as Hno.
  { intros i e (s & l & Hs & Hl & He). destruct (Hex _ _ Hs) as [->|Hl']; [congruence|].
    rewrite Hl in Hl'. injection Hl' as ->. by apply elem_of_nil in He. }
  split; [done|]. exists ss. split_and!; try done.
  - intros i s Hs. destruct (Hex _ _ Hs) as [->|Hl]; [by left|right; eauto].
  - by intros i e He%Hno.
  - intros k x. rewrite lookup_empty. split; [done|]. by intros (i & He%Hno).
Qed.

(** No map owns a set that is not there. *)
Lemma owns_fresh h g ms hx Mx p : maps_ok h g ms -> mh_maps h !! hx = Some Mx -> g !! p = None -> ~ owns Mx p.
Proof.
  intros [Hd _ Hmk _] HMx Hfr (Hp & sx & Hsx & [j Hj]%list_elem_of_lookup).
  destruct (proj1 (Hd hx) (mk_is_Some _ _ HMx)) as [mx Hmx].
  destruct (Hmk _ _ _ HMx Hmx) as [_ (sy & Hsy & _ & Hex & _)]. simplify_eq.
  destruct (Hex _ _ Hj) as [?|[? ?]]; congruence.
Qed.

(** Filling one slot of an empty map with a fresh set. *)
Lemma maps_ok_slot h h' g ms hm n ss i p :
  maps_ok h g (<[hm := ∅]> ms) -> mh_maps h !! hm = Some (mkMap n (Some ss)) ->
  (forall j s, ss !! j = Some s -> s = NULL \/ g !! s = Some []) ->
  g !! NULL = None -> p <> NULL -> g !! p = None ->
  mh_maps h' = <[hm := mkMap n (Some (<[i := p]> ss))]> (mh_maps h) ->
  brk_addr (mh_arena h) <= brk_addr (mh_arena h') ->
  maps_ok h' (<[p := []]> g) (<[hm := ∅]> ms).
Proof.
  intros Hms HM Hss H0 Hp Hfr Hmaps Hbrk. pose proof Hms as [Hd Ha Hmk Hdj].
  destruct (Hmk _ _ _ HM (lookup_insert_eq _ _ _)) as [Hsz (ss' & [= <-] & Hlen & _ & Hinj & _)].
  assert (forall j, ss !! j <> Some p) as Hnew.
  { intros j Hj. destruct (Hss _ _ Hj); congruence. }
  assert (forall hx Mx s, mh_maps h' !! hx = Some Mx -> owns Mx s ->
    hx = hm /\ s = p \/ exists My, mh_maps h !! hx = Some My /\ owns My s) as Hback.
  { intros hx Mx s. rewrite Hmaps.
    intros [[<- <-]|[_ Hx]]%lookup_insert_Some Hown; [|right; by exists Mx].
    destruct Hown as (Hsn & sx & [= <-] & [j Hj]%list_elem_of_lookup).
    apply list_lookup_insert_Some in Hj as [(_ & -> & _)|[_ Hj]]; [by left|right].
    exists (mkMap n (Some ss)). split; [done|]. split; [done|]. exists ss.
    split; [done|]. by eapply list_elem_of_lookup_2. }
  assert (forall hx Mx, mh_maps h !! hx = Some Mx -> ~ owns Mx p) as Hown by (intros hx Mx HMx; by eapply owns_fresh).
  split.
  - intros hx. rewrite Hmaps, lookup_insert_is_Some, Hd, lookup_insert_is_Some. naive_solver.
  - intros hx. rewrite Hmaps.
    intros [<-|[_ Hi]]%lookup_insert_is_Some; [apply mk_is_Some, Ha in HM|apply Ha in Hi]; lia.
  - intros hx Mx mx. rewrite Hmaps. intros [[<- <-]|[Hne HMx]]%lookup_insert_Some.
    + rewrite lookup_insert_eq. intros [= <-]. apply map_ok_empty; [done|by rewrite length_insert|..].
      * intros j s [(-> & -> & _)|[_ Hs]]%list_lookup_insert_Some.
        -- right. by rewrite lookup_insert_eq.
        -- destruct (Hss _ _ Hs) as [|Hs']; [by left|right]. rewrite lookup_insert_ne; [done|].
           intros <-. by apply (Hnew j).
      * intros j j' s [(-> & -> & _)|[_ Hs]]%list_lookup_insert_Some
          [(-> & Hpp & _)|[_ Hs']]%list_lookup_insert_Some Hne; simplify_eq; try done.
        -- by apply Hnew in Hs'.
        -- by apply Hnew in Hs.
        -- by eapply Hinj.
      * by rewrite lookup_insert_ne.
    + intros Hmx. apply map_ok_fresh; [|done]. by eapply Hmk.
  - intros h1 h2 M1 M2 s H1 H2 Ho1 Ho2.
    destruct (Hback _ _ _ H1 Ho1) as [[-> ->]|(My1 & HM1 & HO1)],
      (Hback _ _ _ H2 Ho2) as [[-> Hs]|(My2 & HM2 & HO2)]; subst; try done.
    + by destruct (Hown _ _ HM2).
    + by destruct (Hown _ _ HM1).
    + by eapply Hdj.
Qed.

(** The state of the loop of [HashMap_new] after some turns: the new map is
    there, empty, and the slots already filled hold fresh sets. *)
Definition new_inv (h0 : mheap) (ms : gmap ptr (gmap Z ptr)) (hm n : Z) (d : list nat) (h : mheap) : Prop :=
  exists g ss, shape h g /\ maps_ok h g (<[hm := ∅]> ms) /\
    mh_maps h = <[hm := mkMap n (Some ss)]> (mh_maps h0) /\
    Z.of_nat (length ss) = n /\
    (forall i s, ss !! i = Some s -> s = NULL \/ g !! s = Some []) /\
    (forall i s, (length d <= i)%nat -> ss !! i = Some s -> s = NULL) /\
    (plenty (mh_arena h0) -> plenty (mh_arena h) /\
       forall i, (i < length d)%nat -> ss !! i <> Some NULL).

Lemma new_slot_ok h0 ms hm n d i h : 0 < n -> (i < Z.to_nat n)%nat -> i = length d ->
  new_inv h0 ms hm n d h ->
  exists h', new_slot hm i h = Ret tt h' /\ new_inv h0 ms hm n (d ++ [i]) h'.
Proof.
  intros Hn Hi Hid (g & ss & Hsh & Hms & Hmaps & Hlen & Hss & Hrest & Hpl).
  destruct (lookup_lt_is_Some_2 ss i) as [s0 Hs0]; [lia|].
  assert (s0 = NULL) as -> by (eapply Hrest; [|done]; lia).
  assert (mh_maps h !! hm = Some (mkMap n (Some ss))) as HM by by rewrite Hmaps, lookup_insert_eq.
  unfold new_slot, set_new.
  destruct (mheap_malloc 4 h g _ Hsh Hms) as (p & a & Hml & Hpla & Hsh' & Hms' & Hp).
  rewrite !bind_assoc. step Hml. unfold set_map, new_inv. rewrite length_app. simpl.
  destruct (Z.eqb_spec p NULL) as [->|Hp0].
  - mon. erewrite bind_Ret by (apply load_map_ok; simpl; exact HM). simpl. mon.
    step_rd Hs0. eexists. split; [done|].
    exists g, ss. rewrite (list_insert_id ss i NULL Hs0). simpl.
    rewrite (insert_id (mh_maps h)) by done. split_and!; try done.
    + intros j s Hj. apply Hrest. lia.
    + intros Hpl0. destruct Hp as [[_ Hnp]|?]; [|lia]. by destruct Hnp, Hpl.
  - destruct Hp as [[-> _]|[-> Hlt]]; [done|].
    destruct (forest_new _ _ _ _ (brk_addr a) _ _ _ (mkSet NULL) Hsh) as [Hfr Hnew];
      [lia|done|constructor|].
    unfold set_set. mon. erewrite bind_Ret by (apply load_map_ok; simpl; exact HM). simpl. mon.
    step_rd Hs0. eexists. split; [done|].
    exists (<[brk_addr (mh_arena h) := []]> g), (<[i := brk_addr (mh_arena h)]> ss). simpl.
    rewrite length_insert. split_and!; try done.
    + eapply (maps_ok_slot h); try done; [by eapply forest_NULL|simpl; lia].
    + by rewrite Hmaps, insert_insert_eq.
    + intros j s [(-> & -> & _)|[_ Hs]]%list_lookup_insert_Some; [right; by rewrite lookup_insert_eq|].
      destruct (Hss _ _ Hs) as [|Hs']; [by left|right]. rewrite lookup_insert_ne; [done|]. congruence.
    + intros j s Hj [(-> & _ & _)|[_ Hs]]%list_lookup_insert_Some; [lia|]. eapply Hrest; [|done]. lia.
    + intros Hpl0. destruct (Hpl Hpl0) as [Hpl1 Hnn]. split; [by apply Hpla|].
      intros j Hj [(-> & ? & _)|[Hne Hs]]%list_lookup_insert_Some; [congruence|].
      eapply (Hnn j); [lia|done].
Qed.

Lemma new_inv_start h a h1 g ms hm n :
  0 < n -> shape (with_arena a h) g -> maps_ok (with_arena a h) g ms ->
  h1 = mkMheap a (mh_nodes h) (mh_sets h)
         (<[hm := mkMap n (Some (replicate (Z.to_nat n) NULL))]> (mh_maps h)) ->
  0 < hm -> hm < brk_addr a -> (plenty (mh_arena h) -> plenty a) ->
  new_inv h ms hm n [] h1.
Proof.
  intros Hn Hsh2 Hms2 -> Hhm Hlt Hpl.
  exists g, (replicate (Z.to_nat n) NULL). rewrite length_replicate. split_and!; simpl; try done.
  - destruct Hms2 as [Hd Ha Hmk Hdj]; simpl in *. split; simpl.
    + intros hx. by rewrite !lookup_insert_is_Some, Hd.
    + intros hx [<-|[_ Hi]]%lookup_insert_is_Some; [lia|by apply Ha].
    + intros hx Mx mx [[<- <-]|[Hne HMx]]%lookup_insert_Some.
      * rewrite lookup_insert_eq. intros [= <-]. apply map_ok_empty; [done|..].
        -- rewrite length_replicate. lia.
        -- intros i s [-> _]%lookup_replicate_1. by left.
        -- by intros i j s [-> _]%lookup_replicate_1.
        -- by eapply forest_NULL.
      * rewrite lookup_insert_ne by done. by apply Hmk.
    + assert (forall hx Mx s, <[hm:=mkMap n (Some (replicate (Z.to_nat n) NULL))]> (mh_maps h) !! hx = Some Mx ->
        owns Mx s -> mh_maps h !! hx = Some Mx) as Hback.
      { intros hx Mx s [[<- <-]|[_ ?]]%lookup_insert_Some; [|done].
        intros (Hs & sx & [= <-] & Hin%elem_of_replicate). naive_solver. }
      intros h1' h2' M1 M2 s H1 H2 Ho1 Ho2. eapply (Hdj h1' h2' M1 M2 s); eauto.
  - lia.
  - intros i s [-> _]%lookup_replicate_1. by left.
  - by intros i s _ [-> _]%lookup_replicate_1.
  - intros Hpa. split; [by apply Hpl|]. intros i Hi. lia.
Qed.

Lemma HashMap_new_ok h ms n : 0 < n -> rep h ms ->
  (~ plentiful h /\ HashMap_new n h = Undef) \/
  exists p h', HashMap_new n h = Ret p h' /\ (plentiful h -> plentiful h') /\
    (p = NULL /\ ~ plentiful h /\ rep h' ms \/
     p <> NULL /\ ms !! p = None /\ rep h' (<[p := ∅]> ms)).
Proof.
  intros Hn (g & Hsh & Hms). unfold HashMap_new.
  destruct (mheap_malloc 8 h g ms Hsh Hms) as (hm & a & Hml & Hpl & Hsh1 & Hms1 & Hp). step Hml.
  destruct (Z.eqb_spec hm NULL) as [->|Hhm].
  { right. exists NULL, (with_arena a h). split; [done|].
    split; [by intros [Hpa Hnn]; split; [by apply Hpl|]|].
    left. destruct Hp as [[_ Hnp]|?]; [|lia]. split_and!; [done|by intros [? _]|by exists g]. }
  destruct Hp as [[-> _]|[Hpe Hlt]]; [done|].
  destruct (mheap_malloc (n * 4) _ g ms Hsh1 Hms1) as (arr & a2 & Hml2 & Hpl2 & Hsh2 & Hms2 & Hp2).
  step Hml2. unfold set_map. mon. simpl. destruct (Z.eqb_spec arr NULL) as [->|Harr].
  { left. destruct Hp2 as [[_ Hnp]|?]; [|lia]. split; [intros [Hpa _]; by apply Hnp, Hpl|].
    destruct (Z.to_nat n) as [|n'] eqn:E; [lia|]. simpl. unfold new_slot, set_new, with_arena.
    rewrite !bind_assoc. simpl.
    match goal with |- context [bind (lift (malloc 4)) _ ?h2] =>
      assert (exists p a3, lift (malloc 4) h2 = Ret p (with_arena a3 h2)) as (p3 & a3 & Hml3) end.
    { unfold lift. simpl. unfold malloc. destruct (fails a2) as [|[]]; eauto. }
    step Hml3. destruct (p3 =? NULL); unfold set_set; mon;
      (erewrite bind_Ret by (apply load_map_ok; simpl; apply lookup_insert_eq)); done. }
  right. destruct Hp2 as [[-> _]|[Harre Hlt2]]; [done|]. simpl in Harre.
  match goal with |- context [bind (foldM _ _) _ ?h2] => set (h1 := h2) end.
  assert (new_inv h ms hm n [] h1) as Hinv.
  { eapply (new_inv_start _ a2); try done; simpl; [lia|lia|]. intros Hpa. by apply Hpl2, Hpl. }
  destruct (foldM_ind (new_slot hm) (new_inv h ms hm n) (seq 0 (Z.to_nat n)) h1)
    as (h' & Hf & (g' & ss & Hsh' & Hms' & Hmaps & Hlen & _ & _ & Hpl')); [done| |].
  - intros d i rest h2 Hseq Hinv2.
    assert (seq 0 (Z.to_nat n) !! length d = Some i) as Hat%lookup_seq by (rewrite Hseq; by apply list_lookup_middle).
    apply new_slot_ok; [done|lia|lia|done].
  - step Hf. exists hm, h'. split; [done|]. split.
    + intros [Hpa Hnn]. destruct (Hpl' Hpa) as [Hpa' Hnn']. split; [done|].
      intros hx Mx sx. rewrite Hmaps. intros [[<- <-]|[_ HMx]]%lookup_insert_Some Hsx.
      * injection Hsx as <-. intros [j Hj]%list_elem_of_lookup.
        apply (Hnn' j); [|done]. rewrite length_seq. apply lookup_lt_Some in Hj. lia.
      * by eapply Hnn.
    + right. split; [done|]. split; [|by exists g'].
      apply eq_None_not_Some. intros Hi%(mo_dom _ _ _ Hms)%(mo_addr _ _ _ Hms). lia.
Qed.

(** ** Deletion *)

Lemma set_delete_loop_ok {S} `{L : Lens S mheap} l : forall p (s : S) fuel,
  chain sn_next (mh_nodes (view s)) p l NULL -> (length l < fuel)%nat ->
  exists ns, set_delete_loop fuel p None s =
      Ret tt (put (mkMheap (mh_arena (view s)) ns (mh_sets (view s)) (mh_maps (view s))) s) /\
    (forall a, ns !! a = if decide (a ∈ l.*1) then None else mh_nodes (view s) !! a).
Proof.
  induction l as [|[a n] l IH]; intros p s fuel Hc Hlen;
    (destruct fuel as [|fuel]; [simpl in Hlen; lia|]); simpl.
  - simpl in Hc. subst p. simpl. exists (mh_nodes (view s)). split.
    + replace (mkMheap _ _ _ _) with (view s) by by destruct (view s).
      unfold ret. by rewrite put_view.
    + done.
  - pose proof (chain_NoDup _ _ _ _ Hc) as Hnd. simpl in Hnd. apply NoDup_cons in Hnd as [Hal Hnd].
    simpl in Hc. destruct Hc as (-> & Ha & Hn & Hc).
    destruct (Z.eqb_spec a NULL) as [|_]; [done|].
    rewrite (bind_Ret _ _ _ _ _ (lift_Ret _ _ _ _ (set_load_node_ok _ _ _ Hn))), put_view. mon.
    rewrite (bind_Ret _ _ _ _ _ (lift_Ret _ _ _ _ (set_load_node_ok _ _ _ Hn))), put_view.
    step (lift_Ret _ _ _ _ (set_free_node_ok _ _ _ Hn)).
    match goal with |- context [set_delete_loop _ _ _ ?s1] =>
      destruct (IH (sn_next n) s1 fuel) as (ns & Hl & Hns) end.
    + rewrite view_put. simpl. by apply chain_delete.
    + simpl in Hlen. lia.
    + exists ns. rewrite Hl, view_put, put_put. simpl. split; [done|]. intros b.
      rewrite Hns, view_put. simpl. destruct (decide (b = a)) as [->|Hne].
      * rewrite lookup_delete_eq. repeat case_decide; try done; set_solver.
      * rewrite lookup_delete_ne by done.
        repeat case_decide; try done; set_solver.
Qed.

Lemma set_delete_ok {S} `{L : Lens S mheap} (s : S) g set l :
  shape (view s) g -> g !! set = Some l ->
  exists h', set_delete set None s = Ret tt (put h' s) /\ shape h' (delete set g) /\
    mh_maps h' = mh_maps (view s) /\ mh_arena h' = mh_arena (view s).
Proof.
  intros Hsh Hl. pose proof (forest_length _ _ _ _ _ _ _ _ _ Hsh Hl) as Hlen.
  destruct (forest_object _ _ _ _ _ _ _ _ _ Hsh Hl) as (O & HO & Hs0 & Hc & _).
  unfold set_delete. destruct (Z.eqb_spec set NULL) as [|_]; [done|].
  rewrite (bind_Ret _ _ _ _ _ (lift_Ret _ _ _ _ (load_set_ok _ _ _ HO))), put_view. mon.
  destruct (set_delete_loop_ok l (set_head O) s (node_fuel (view s)) Hc) as (ns & Hd & Hns);
    [unfold node_fuel; lia|].
  step Hd. eexists. split.
  { erewrite lift_Ret by (eapply free_set_ok; rewrite view_put; simpl; exact HO).
    by rewrite put_put. }
  rewrite view_put. simpl. split_and!; [|done..].
  rewrite <- (delete_insert_eq (mh_sets (view s)) set (mkSet NULL)), <- (delete_insert_eq g set []).
  apply forest_free. eapply forest_update; try done; simpl.
  - constructor.
  - intros a Ha _. rewrite Hns. by rewrite decide_False.
  - intros a Ha. by apply elem_of_nil in Ha.
  - intros a Ha. rewrite Hns in Ha. case_decide; [by destruct Ha|]. by apply (fo_node _ _ _ _ _ _ _ Hsh).
Qed.

(** The first sets of [ss] are deleted, the others are not. *)
Definition slots_deleted (h : mheap) (g : gmap ptr nodes) (ss : list ptr) (n : nat) (h1 : mheap) (g1 : gmap ptr nodes) : Prop :=
  shape h1 g1 /\ mh_maps h1 = mh_maps h /\ mh_arena h1 = mh_arena h /\
  (forall p l, g1 !! p = Some l -> g !! p = Some l) /\
  (forall p, is_Some (g !! p) -> (forall j, (j < n)%nat -> ss !! j <> Some p) -> g1 !! p = g !! p).

(** A turn of the loop of [HashMap_delete]. *)
Lemma delete_slot_ok {S} `{L : Lens S mheap} (s : S) h g M m ss i set h1 g1 : shape h g -> map_ok g M m -> hm_sets M = Some ss ->
  ss !! i = Some set -> slots_deleted h g ss i h1 g1 ->
  exists h2 g2, set_delete set None (put h1 s) = Ret tt (put h2 s) /\ slots_deleted h g ss (i + 1) h2 g2.
Proof.
  intros Hsh [_ (ss' & Hss' & _ & Hex & Hinj & _ & _)] Hss Hset (Hsh1 & Hm1 & Ha1 & Hsub & Hkeep).
  assert (ss' = ss) as -> by congruence. clear Hss'. destruct (Hex _ _ Hset) as [->|Hl].
  { exists h1, g1. split; [done|]. split_and!; try done. intros p Hp Hj. apply Hkeep; [done|]. intros j Hj'. apply Hj. lia. }
  assert (exists l, g1 !! set = Some l) as [l Hl1].
  { rewrite Hkeep; [done..|]. intros j Hj Hj'.
    assert (set <> NULL) by (intros ->; rewrite (forest_NULL _ _ _ _ _ _ _ Hsh) in Hl; by destruct Hl).
    pose proof (Hinj _ _ _ Hset Hj'). lia. }
  destruct (set_delete_ok (put h1 s) g1 set l) as (h2 & Hd2 & Hsh2 & Hm2 & Ha2); [by rewrite view_put|done|].
  rewrite put_put in Hd2. rewrite view_put in Hm2, Ha2. exists h2, (delete set g1). split; [done|].
  split_and!; [done|congruence|congruence| |].
  - intros p l' [_ Hp]%lookup_delete_Some. by apply Hsub.
  - intros p Hp Hj. rewrite lookup_delete_ne; [apply Hkeep; [done|]; intros j Hj'; apply Hj; lia|].
    intros ->. by apply (Hj i); [lia|].
Qed.

(** When all sets of a map are deleted, the other maps have theirs. *)
Lemma map_ok_deleted h g ms hm hx M Mx ss mx h1 g1 : shape h g -> maps_ok h g ms ->
  mh_maps h !! hm = Some M -> mh_maps h !! hx = Some Mx -> hm <> hx -> hm_sets M = Some ss ->
  slots_deleted h g ss (length ss) h1 g1 -> map_ok g Mx mx -> map_ok g1 Mx mx.
Proof.
  intros Hsh Hms HM HMx Hne Hss (_ & _ & _ & Hsub & Hkeep) [Hsz (sx & Hsx & Hlen & Hex & Hinj & Hr & Hm)].
  assert (forall j p, sx !! j = Some p -> is_Some (g !! p) -> g1 !! p = g !! p) as Hsame.
  { intros j p Hp Hi. apply Hkeep; [done|]. intros j' _ Hj'. apply Hne.
    assert (p <> NULL) by (intros ->; rewrite (forest_NULL _ _ _ _ _ _ _ Hsh) in Hi; by destruct Hi).
    eapply (mo_disj _ _ _ Hms hm hx M Mx p); try done; split; try done; eexists; split; try done; by eapply list_elem_of_lookup_2. }
  assert (forall i e, in_bucket g1 sx i e <-> in_bucket g sx i e) as Hb.
  { intros i e. split; intros (p & l & Hp & Hl & He); exists p, l; split_and!; try done; [by apply Hsub|].
    rewrite (Hsame _ _ Hp); eauto. }
  split; [done|]. exists sx. split_and!; try done.
  - intros i p Hp. destruct (Hex _ _ Hp) as [|Hi]; [by left|right]. by rewrite (Hsame _ _ Hp).
  - intros i e He%Hb. by apply Hr.
  - intros k x. rewrite Hm. by setoid_rewrite Hb.
Qed.

Lemma maps_ok_deleted h g ms hm M ss h1 g1 : shape h g -> maps_ok h g ms -> mh_maps h !! hm = Some M -> hm_sets M = Some ss ->
  slots_deleted h g ss (length ss) h1 g1 ->
  maps_ok (mkMheap (mh_arena h1) (mh_nodes h1) (mh_sets h1) (delete hm (mh_maps h1))) g1 (delete hm ms).
Proof.
  intros Hsh Hms HM Hss Hdel. pose proof Hdel as (_ & Hm1 & Ha1 & _). pose proof Hms as [Hd Ha Hmk Hdj].
  split; simpl; rewrite ?Hm1, ?Ha1.
  - intros hx. by rewrite !lookup_delete_is_Some, Hd.
  - intros hx [_ Hi]%lookup_delete_is_Some. by apply Ha.
  - intros hx Mx mx [Hne HMx]%lookup_delete_Some [_ Hmx]%lookup_delete_Some. eapply (map_ok_deleted h g ms hm hx); try done. by eapply Hmk.
  - intros h1' h2' M1 M2 p [_ H1]%lookup_delete_Some [_ H2]%lookup_delete_Some. by eapply Hdj.
Qed.

Lemma HashMap_delete_ok {S} `{L : Lens S mheap} (s : S) ms hm m :
  rep (view s) ms -> ms !! hm = Some m ->
  exists h', HashMap_delete hm None s = Ret tt (put h' s) /\
    (plentiful (view s) -> plentiful h') /\ rep h' (delete hm ms).
Proof.
  intros Hrep Hm.
  destruct (mrep_lookup _ _ _ _ Hrep Hm) as (g & M & Hsh & Hms & HM & Hhm & Hok).
  pose proof Hok as [Hsz (ss & Hss & Hlen & _)].
  unfold HashMap_delete. destruct (Z.eqb_spec hm NULL) as [|_]; [done|].
  rewrite (bind_Ret _ _ _ _ _ (lift_Ret _ _ _ _ (load_map_ok _ _ _ HM))), put_view.
  pose (P := fun (d : list nat) s1 => exists h1 g1, s1 = put h1 s /\ slots_deleted (view s) g ss (length d) h1 g1).
  match goal with |- context [foldM ?F _] => set (body := F) end.
  destruct (foldM_ind body P (seq 0 (Z.to_nat (hm_size M))) s) as (s1 & Hs1 & (h1 & g1 & -> & Hdel)).
  - exists (view s), g. rewrite put_view. done.
  - intros d i rest s1 Hseq (h1 & g1 & -> & Hdel).
    assert (seq 0 (Z.to_nat (hm_size M)) !! length d = Some i) as [Hi HiN]%lookup_seq by (rewrite Hseq; by apply list_lookup_middle).
    cbn in Hi. subst i. destruct (lookup_lt_is_Some_2 ss (length d)) as [set Hset]; [lia|].
    destruct (delete_slot_ok s _ _ _ _ _ _ _ _ _ Hsh Hok Hss Hset Hdel) as (h2 & g2 & Hd2 & Hdel2).
    exists (put h2 s). split; [|exists h2, g2; split; [done|]; by rewrite length_app].
    unfold body. erewrite bind_Ret by (apply lift_Ret, (load_map_ok _ _ M); rewrite view_put, (proj1 (proj2 Hdel)); exact HM).
    by rewrite (put_view (put h1 s)), (bind_rd _ _ _ _ (sets_at_lookup _ _ _ _ Hss Hset)).
  - step Hs1. pose proof Hdel as (Hsh1 & Hm1 & Ha1 & _). rewrite length_seq, <- Hlen, Nat2Z.id in Hdel.
    eexists. split.
    { erewrite lift_Ret by (unfold free_map; erewrite bind_Ret by (apply (load_map_ok _ _ M); by rewrite view_put, Hm1); reflexivity).
      by rewrite put_put. }
    rewrite view_put. split; [|exists g1; split; [exact Hsh1|by apply (maps_ok_deleted (view s) g ms hm M ss)]].
    intros [Hpa Hnn]. split; simpl; [by rewrite Ha1|]. intros hx Mx sx. rewrite Hm1. intros [_ HMx]%lookup_delete_Some. by apply Hnn with (1 := HMx).
Qed.

End laws.

End HashMapShape.

(** * The implementation of the interface *)

#[export] Instance map_impl `{Hardware} : MapOps mheap := {|
  HashMap_new := HashMapImpl.HashMap_new;
  HashMap_insert := HashMapImpl.HashMap_insert;
  HashMap_find := HashMapImpl.HashMap_find;
  HashMap_remove := HashMapImpl.HashMap_remove;
  HashMap_iterate := @HashMapImpl.HashMap_iterate;
  HashMap_delete := @HashMapImpl.HashMap_delete
|}.

#[export] Program Instance map_impl_laws `{Hardware} : MapLaws mheap := {|
  m_rep := HashMapShape.rep;
  m_plenty := HashMapShape.plentiful
|}.
Next Obligation. intros ?. apply HashMapShape.rep_NULL. Qed.
Next Obligation. intros ?. apply HashMapShape.rep_item. Qed.
Next Obligation. intros ? h ms n. apply HashMapShape.HashMap_new_ok. Qed.
Next Obligation. done. Qed.
Next Obligation. intros ? hm k h. simpl. unfold HashMapImpl.HashMap_insert. by rewrite andb_false_r. Qed.
Next Obligation. intros ? h ms hm m k x y. apply HashMapShape.HashMap_insert_old_ok. Qed.
Next Obligation. intros ? h ms hm m k x. apply HashMapShape.HashMap_insert_new_ok. Qed.
Next Obligation. done. Qed.
Next Obligation. intros ? h ms hm m k. apply HashMapShape.HashMap_find_ok. Qed.
Next Obligation. done. Qed.
Next Obligation. intros ? h ms hm m k. apply HashMapShape.HashMap_remove_ok. Qed.
Next Obligation. done. Qed.
Next Obligation. intros ? S L s ms hm m f. apply HashMapShape.HashMap_iterate_tries_ok. Qed.
Next Obligation. done. Qed.
Next Obligation. intros ? S L s ms hm m. apply HashMapShape.HashMap_delete_ok. Qed.
