(* ===== verification/FrameList.v ===== *)
(** The physical frames of KernelDataStructures/FrameList/FrameList.c.

    The state [fl] is the array of [frame_t] (absent while [FrameList] is
    NULL) with the allocator it came from.  The abstract view of the array is
    a finite set, [free_pfns]: [getFrame] takes one page frame number out of
    it and [freeFrame] puts one back. *)

From stdpp Require Import base gmap list.
From S2P Require Import Prelude Hardware.

(** [struct frame]: [pfn] has 24 bits, [isFree] one. *)
Record frame_t := mkFrame { pfn : Z; isFree : Z }.

Record fl := mkFl { fl_arena : arena; fl_frames : option (list frame_t) }.

#[export] Program Instance fl_lens : Lens fl arena := {|
  view := fl_arena; put a f := mkFl a (fl_frames f) |}.
Solve All Obligations with first [done | by intros [] ].

Section code.
Context `{Hardware}.

(** The frame at physical address [frameAddr], in [initFrameList]. *)
Definition init_frame (frameAddr currKernelBrk : Z) : frame_t :=
  mkFrame (bits 24 (Z.shiftr frameAddr PAGESHIFT))
    (if (frameAddr <? currKernelBrk)
        || ((KERNEL_STACK_BASE <=? frameAddr) && (frameAddr <? KERNEL_STACK_LIMIT))
     then 0 else 1).

(** The loop of [initFrameList]. *)
Fixpoint init_frames (n : nat) (frameAddr currKernelBrk : Z) : list frame_t :=
  match n with
  | O => []
  | S n' => init_frame frameAddr currKernelBrk
              :: init_frames n' (frameAddr + PAGESIZE) currKernelBrk
  end.

Definition initFrameList (numFrames currKernelBrk : Z) : M fl Z :=
  let! p := lift (malloc (4 * numFrames)) in
  if p =? NULL then modify (fun f => mkFl (fl_arena f) None) ;;; ret ERROR else
  modify (fun f => mkFl (fl_arena f)
    (Some (init_frames (Z.to_nat numFrames) PMEM_BASE currKernelBrk))) ;;;
  ret 0.

(** The loop of [getFrame], at frame [i].  The frame is read before [i] is
    compared to [numFrames]. *)
Fixpoint getFrame_loop (fuel i : nat) (numFrames : Z) (frames : list frame_t) : M fl (option Z) :=
  match fuel with
  | O => undef
  | S fuel' =>
    let! currFrame := rd (frames !! i) in
    if isFree currFrame =? 0 then
      if numFrames <=? Z.of_nat i then ret None
      else getFrame_loop fuel' (S i) numFrames frames
    else
      modify (fun f => mkFl (fl_arena f) (Some (<[i := mkFrame (pfn currFrame) 0]> frames))) ;;;
      ret (Some (pfn currFrame))
  end.

(** [getFrame] returns [Some pfn] for a return value 0 with [pfn] stored
    through [pfnp], and [None] for [ERROR]. *)
Definition getFrame (numFrames : Z) : M fl (option Z) :=
  let! frames := gets fl_frames in
  match frames with
  | None => ret None
  | Some frames => getFrame_loop (S (length frames)) 0 numFrames frames
  end.

(** The loop of [freeFrame], for [i] from [i] on, [n] turns left. *)
Fixpoint freeFrame_loop (n i : nat) (p : Z) (frames : list frame_t) : M fl unit :=
  match n with
  | O => ret tt
  | S n' =>
    let! currFrame := rd (frames !! i) in
    if pfn currFrame =? p then
      modify (fun f => mkFl (fl_arena f) (Some (<[i := mkFrame (pfn currFrame) 1]> frames)))
    else freeFrame_loop n' (S i) p frames
  end.

Definition freeFrame (numFrames : Z) (p : Z) : M fl unit :=
  let! frames := gets fl_frames in
  match frames with
  | None => if numFrames <=? 0 then ret tt else undef
  | Some frames => freeFrame_loop (Z.to_nat numFrames) 0 p frames
  end.

Definition freeFrameList : M fl unit := modify (fun f => mkFl (fl_arena f) None).

End code.

(** * The abstract view *)

Implicit Types frames : list frame_t.

(** All page frame numbers, and those of the free frames. *)
Definition pfns (frames : list frame_t) : gset Z := list_to_set (pfn <$> frames).
Definition free_pfns (frames : list frame_t) : gset Z :=
  list_to_set (pfn <$> filter (fun fr => isFree fr <> 0) frames).

(** The array has [numFrames] frames with different numbers; [all] are their
    numbers and [avail] those of the free ones. *)
Record fl_rep (f : fl) (numFrames : Z) (all avail : gset Z) : Prop := {
  fr_frames : exists frames, fl_frames f = Some frames /\
    Z.of_nat (length frames) = numFrames /\ NoDup (pfn <$> frames) /\
    all = pfns frames /\ avail = free_pfns frames
}.

Lemma elem_of_pfns frames p : p ∈ pfns frames <-> exists i fr, frames !! i = Some fr /\ pfn fr = p.
Proof.
  unfold pfns. rewrite elem_of_list_to_set, list_elem_of_fmap. split.
  - intros (fr & -> & [i Hi]%list_elem_of_lookup). by exists i, fr.
  - intros (i & fr & Hi & <-). exists fr. split; [done|]. by eapply list_elem_of_lookup_2.
Qed.

Lemma elem_of_free_pfns frames p :
  p ∈ free_pfns frames <-> exists i fr, frames !! i = Some fr /\ pfn fr = p /\ isFree fr <> 0.
Proof.
  unfold free_pfns. rewrite elem_of_list_to_set, list_elem_of_fmap. split.
  - intros (fr & -> & [Hfr [i Hi]%list_elem_of_lookup]%list_elem_of_filter). by exists i, fr.
  - intros (i & fr & Hi & <- & Hfr). exists fr. split; [done|]. apply list_elem_of_filter.
    split; [done|]. by eapply list_elem_of_lookup_2.
Qed.

Lemma free_pfns_subset frames : free_pfns frames ⊆ pfns frames.
Proof. intros p (i & fr & ? & ? & ?)%elem_of_free_pfns. apply elem_of_pfns. by exists i, fr. Qed.

(** Rewriting the flag of one frame. *)
Lemma pfns_insert frames i fr b : frames !! i = Some fr ->
  pfn <$> <[i := mkFrame (pfn fr) b]> frames = pfn <$> frames.
Proof.
  intros Hi. rewrite list_fmap_insert. simpl. apply list_insert_id. by rewrite list_lookup_fmap, Hi.
Qed.

Lemma free_pfns_insert frames i fr b p : frames !! i = Some fr -> NoDup (pfn <$> frames) ->
  p ∈ free_pfns (<[i := mkFrame (pfn fr) b]> frames) <->
    if decide (p = pfn fr) then b <> 0 else p ∈ free_pfns frames.
Proof.
  intros Hi Hnd. rewrite elem_of_free_pfns. pose proof (lookup_lt_Some _ _ _ Hi).
  assert (forall j fr', frames !! j = Some fr' -> pfn fr' = pfn fr -> j = i) as Hinj.
  { intros j fr' Hj Hp. eapply NoDup_lookup; [exact Hnd|by rewrite list_lookup_fmap, Hj|].
    rewrite list_lookup_fmap, Hi. simpl. by rewrite Hp. }
  case_decide as Hp.
  - subst p. split.
    + intros (j & fr' & Hj & Hpj & Hfr). destruct (decide (i = j)) as [<-|Hne].
      * rewrite list_lookup_insert_eq in Hj by done. by simplify_eq/=.
      * rewrite list_lookup_insert_ne in Hj by done. by destruct Hne, (Hinj _ _ Hj Hpj).
    + intros Hb. eexists i, _. rewrite list_lookup_insert_eq by done. done.
  - rewrite elem_of_free_pfns.
    split; intros (j & fr' & Hj & <- & Hfr); exists j, fr'; split_and!; try done.
    + destruct (decide (i = j)) as [<-|Hne].
      * rewrite list_lookup_insert_eq in Hj by done. by simplify_eq/=.
      * by rewrite list_lookup_insert_ne in Hj.
    + rewrite list_lookup_insert_ne; [done|]. intros <-. by simplify_eq.
Qed.

Section laws.
Context `{HL : HardwareLaws}.

Lemma getFrame_loop_free numFrames frames f i fr : fl_frames f = Some frames ->
  Z.of_nat (length frames) <= numFrames ->
  frames !! i = Some fr -> isFree fr <> 0 ->
  (forall j fr', (j < i)%nat -> frames !! j = Some fr' -> isFree fr' = 0) ->
  forall fuel j, (j <= i)%nat -> (i - j < fuel)%nat ->
  getFrame_loop fuel j numFrames frames f =
    Ret (Some (pfn fr)) (mkFl (fl_arena f) (Some (<[i := mkFrame (pfn fr) 0]> frames))).
Proof.
  intros Hf Hn Hi Hfr Hbefore fuel. pose proof (lookup_lt_Some _ _ _ Hi).
  induction fuel as [|fuel IH]; intros j Hj Hfuel; [lia|]. simpl.
  destruct (decide (j = i)) as [->|Hne].
  - step_rd Hi. by destruct (Z.eqb_spec (isFree fr) 0).
  - destruct (lookup_lt_is_Some_2 frames j) as [fr' Hj']; [lia|].
    rewrite (bind_rd _ _ _ _ Hj'). rewrite (Hbefore j fr') by (done || lia).
    destruct (Z.eqb_spec 0 0); [|done]. destruct (Z.leb_spec numFrames (Z.of_nat j)); [lia|].
    apply IH; lia.
Qed.

Lemma getFrame_loop_full numFrames frames f :
  Z.of_nat (length frames) = numFrames ->
  (forall i fr, frames !! i = Some fr -> isFree fr = 0) ->
  forall fuel j, (j <= length frames)%nat -> getFrame_loop fuel j numFrames frames f = Undef.
Proof.
  intros Hn Hfull fuel. induction fuel as [|fuel IH]; intros j Hj; [done|]. simpl.
  destruct (frames !! j) as [fr|] eqn:Hjl; [|done]. apply lookup_lt_Some in Hjl as Hlt.
  unfold rd. mon. rewrite (Hfull _ _ Hjl). simpl.
  destruct (Z.leb_spec numFrames (Z.of_nat j)); [lia|]. apply IH. lia.
Qed.

(** The first free frame of an array, if it has one. *)
Lemma first_free frames : free_pfns frames <> ∅ ->
  exists i fr, frames !! i = Some fr /\ isFree fr <> 0 /\
    forall j fr', (j < i)%nat -> frames !! j = Some fr' -> isFree fr' = 0.
Proof.
  induction frames as [|fr frames IH]; [done|]. intros Hne.
  destruct (decide (isFree fr = 0)) as [H0|H0].
  - destruct IH as (i & fr' & Hi & Hfr' & Hb).
    { intros He. apply Hne. unfold free_pfns in *. rewrite filter_cons_False; [done|]. tauto. }
    exists (S i), fr'. split; [done|]. split; [done|]. intros [|j] fr'' Hj Hl; [by simplify_eq/=|].
    apply (Hb j); [lia|done].
  - exists O, fr. split; [done|]. split; [done|]. intros j fr' Hj. lia.
Qed.

(** [getFrame] hands out a free frame, which is then taken; no other frame
    changes. *)
Lemma getFrame_ok f n all avail : fl_rep f n all avail -> avail <> ∅ ->
  exists p f', getFrame n f = Ret (Some p) f' /\ p ∈ avail /\
    fl_rep f' n all (avail ∖ {[p]}) /\ fl_arena f' = fl_arena f.
Proof.
  intros [(frames & Hf & Hlen & Hnd & -> & ->)] Hne.
  destruct (first_free frames Hne) as (i & fr & Hi & Hfr & Hb). unfold getFrame. mon. rewrite Hf.
  rewrite (getFrame_loop_free n frames f i fr) by (done || lia || apply lookup_lt_Some in Hi; lia).
  eexists _, _. split; [done|]. split; [apply elem_of_free_pfns; by exists i, fr|]. split; [|done].
  split. exists (<[i := mkFrame (pfn fr) 0]> frames).
  rewrite length_insert, (pfns_insert _ _ _ _ Hi). split_and!; try done.
  - unfold pfns. by rewrite (pfns_insert _ _ _ _ Hi).
  - apply set_eq. intros p.
    rewrite free_pfns_insert, elem_of_difference, elem_of_singleton by done.
    case_decide; naive_solver.
Qed.

(** With no free frame left, [getFrame] reads beyond the end of the array: its
    [ERROR] return is never reached with all frames taken. *)
Lemma getFrame_full f n all : fl_rep f n all ∅ -> getFrame n f = Undef.
Proof.
  intros [(frames & Hf & Hlen & Hnd & _ & Hempty)]. unfold getFrame. mon. rewrite Hf.
  apply getFrame_loop_full; [done| |lia]. intros i fr Hi.
  destruct (decide (isFree fr = 0)); [done|].
  assert (pfn fr ∈ free_pfns frames) as Hin by (apply elem_of_free_pfns; by exists i, fr).
  rewrite <- Hempty in Hin. by apply not_elem_of_empty in Hin.
Qed.

Lemma freeFrame_loop_ok frames f p : fl_frames f = Some frames -> NoDup (pfn <$> frames) ->
  forall n j, (j + n = length frames)%nat ->
  (forall i fr, (i < j)%nat -> frames !! i = Some fr -> pfn fr <> p) ->
  exists frames', freeFrame_loop n j p frames f = Ret tt (mkFl (fl_arena f) (Some frames')) /\
    ((p ∉ pfns frames) /\ frames' = frames \/
     exists i fr, frames !! i = Some fr /\ pfn fr = p /\ frames' = <[i := mkFrame (pfn fr) 1]> frames).
Proof.
  intros Hf Hnd n. induction n as [|n IH]; intros j Hj Hb; simpl.
  - exists frames. split; [destruct f; simpl in *; by rewrite Hf|]. left. split; [|done].
    intros (i & fr & Hi & Hp)%elem_of_pfns. apply (Hb i fr); [|done..]. apply lookup_lt_Some in Hi. lia.
  - destruct (lookup_lt_is_Some_2 frames j) as [fr Hfr]; [lia|]. step_rd Hfr.
    destruct (Z.eqb_spec (pfn fr) p) as [Hp|Hp].
    + eexists. split; [done|]. right. by exists j, fr.
    + apply IH; [lia|]. intros i fr' Hi Hl. destruct (decide (i = j)) as [->|]; [by simplify_eq|].
      apply (Hb i); [lia|done].
Qed.

(** [freeFrame] makes a frame free again; a number that is no frame's is
    ignored. *)
Lemma freeFrame_ok f n all avail p : fl_rep f n all avail ->
  exists f', freeFrame n p f = Ret tt f' /\ fl_arena f' = fl_arena f /\
    fl_rep f' n all (if decide (p ∈ all) then avail ∪ {[p]} else avail).
Proof.
  intros [(frames & Hf & Hlen & Hnd & -> & ->)]. unfold freeFrame. mon. rewrite Hf.
  destruct (freeFrame_loop_ok frames f p Hf Hnd (Z.to_nat n) 0) as (frames' & -> & Hcase); [lia|lia|].
  eexists. split; [done|]. split; [done|].
  destruct Hcase as [[Hni ->]|(i & fr & Hi & <- & ->)]; case_decide as Hin; try done.
  - split. by exists frames.
  - split. exists (<[i := mkFrame (pfn fr) 1]> frames).
    rewrite length_insert, (pfns_insert _ _ _ _ Hi). split_and!; try done.
    + unfold pfns. by rewrite (pfns_insert _ _ _ _ Hi).
    + apply set_eq. intros p. rewrite free_pfns_insert, elem_of_union, elem_of_singleton by done.
      case_decide; naive_solver lia.
  - exfalso. apply Hin, elem_of_pfns. by exists i, fr.
Qed.

(** ** The initial array *)

Lemma init_frames_lookup n a b i :
  init_frames n a b !! i =
    if decide (i < n)%nat then Some (init_frame (a + Z.of_nat i * PAGESIZE) b) else None.
Proof.
  revert a i. induction n as [|n IH]; intros a i; simpl; [done|].
  destruct i as [|i]; simpl.
  - f_equal. f_equal. lia.
  - rewrite IH. repeat case_decide; try lia; [|done]. f_equal. f_equal. lia.
Qed.

Lemma init_frames_length n a b : length (init_frames n a b) = n.
Proof. revert a. induction n as [|n IH]; intros a; simpl; [done|]. by rewrite IH. Qed.

Lemma init_frame_pfn a i b : 0 <= a -> a mod PAGESIZE = 0 -> 0 <= i ->
  pfn (init_frame (a + i * PAGESIZE) b) = (a / PAGESIZE + i) mod 2 ^ 24.
Proof.
  intros Ha Hal Hi. pose proof PAGESIZE_pos. unfold init_frame, bits. cbn [pfn].
  rewrite shiftr_page, Z.div_add by lia. done.
Qed.

Lemma init_frames_NoDup n a b : 0 <= a -> a mod PAGESIZE = 0 -> Z.of_nat n <= 2 ^ 24 ->
  NoDup (pfn <$> init_frames n a b).
Proof.
  intros Ha Hal Hn. apply NoDup_alt. intros i j p.
  rewrite !list_lookup_fmap, !init_frames_lookup. repeat case_decide; try done.
  cbn [fmap option_fmap option_map]. rewrite !init_frame_pfn by lia.
  intros [= <-] [= Heq].
  assert ((a / PAGESIZE + Z.of_nat j - (a / PAGESIZE + Z.of_nat i)) mod 2 ^ 24 = 0) as Hd.
  { rewrite Zminus_mod, Heq, Z.sub_diag. apply Z.mod_0_l. lia. }
  apply Z.mod_divide in Hd as [q Hq]; [|lia]. nia.
Qed.

(** After [initFrameList], the frames below the kernel's break and those of
    the kernel stack are taken, all others are free. *)
Lemma initFrameList_ok f n b : 0 < brk_addr (fl_arena f) -> plenty (fl_arena f) ->
  0 <= n <= 2 ^ 24 -> 0 <= PMEM_BASE -> PMEM_BASE mod PAGESIZE = 0 ->
  exists f' all avail, initFrameList n b f = Ret 0 f' /\ plenty (fl_arena f') /\
    fl_rep f' n all avail /\
    (forall p, p ∈ avail <-> exists i, 0 <= i < n /\
      p = (PMEM_BASE / PAGESIZE + i) mod 2 ^ 24 /\
      b <= PMEM_BASE + i * PAGESIZE /\
      ~ (KERNEL_STACK_BASE <= PMEM_BASE + i * PAGESIZE < KERNEL_STACK_LIMIT)) /\
    (forall p, p ∈ all <-> exists i, 0 <= i < n /\ p = (PMEM_BASE / PAGESIZE + i) mod 2 ^ 24).
Proof.
  intros Hpos Hpl Hn Hb Hal. unfold initFrameList.
  destruct (malloc_spec (4 * n) (fl_arena f) Hpos) as (p & a & Hm & Hpl' & _ & Hp).
  erewrite bind_Ret by (apply lift_Ret; exact Hm).
  destruct Hp as [(_ & _ & []%(fun H => H Hpl))|[-> _]].
  destruct (Z.eqb_spec (brk_addr (fl_arena f)) NULL); [lia|]. mon.
  eexists _, _, _. split; [done|]. split; [by apply Hpl'|]. split.
  - split. eexists. split; [done|]. rewrite init_frames_length. split; [lia|].
    split; [apply init_frames_NoDup; lia|done].
  - split; intros p; [rewrite elem_of_free_pfns|rewrite elem_of_pfns].
    all: setoid_rewrite init_frames_lookup; split.
    + intros (i & fr & Hi & <- & Hfr). case_decide; [|done]. injection Hi as <-.
      exists (Z.of_nat i). rewrite init_frame_pfn by lia. split; [lia|]. split; [done|].
      unfold init_frame in Hfr. cbn [isFree] in Hfr. repeat zcase; cbn in Hfr; try done; lia.
    + intros (i & Hi & -> & Hbi & Hst).
      eexists (Z.to_nat i), _. rewrite decide_True by lia. rewrite Z2Nat.id by lia.
      split; [done|]. split; [apply init_frame_pfn; lia|].
      unfold init_frame. cbn [isFree]. repeat zcase; cbn; lia.
    + intros (i & fr & Hi & <-). case_decide; [|done]. injection Hi as <-. exists (Z.of_nat i). rewrite init_frame_pfn by lia. split; [lia|done].
    + intros (i & Hi & ->). eexists (Z.to_nat i), _. rewrite decide_True by lia. rewrite Z2Nat.id by lia. split; [done|apply init_frame_pfn; lia].
Qed.

End laws.
