(* ===== verification/PageTable.v ===== *)
(** Page tables and the MMU registers: KernelDataStructures/PageTable/PageTable.c.

    A page table is an array of [MAX_PT_LEN] entries in kernel memory; the
    state [pt] maps the address of every allocated entry to its content, so
    that the pointer arithmetic of the code ([ptep++], [ptep - base]) is the
    arithmetic of addresses, and an access outside an array is undefined.  It
    also has the registers the kernel reads back, and the list of the values
    written to [REG_TLB_FLUSH], the latest last. *)

From stdpp Require Import base gmap list.
From S2P Require Import Prelude Hardware.

(** [struct pte] of hardware.h. *)
Record pte := mkPte { pte_valid : Z; pte_prot : Z; pte_pfn : Z }.

Record pt := mkPt {
  pt_arena : arena;
  ptes : gmap ptr pte;
  REG_PTBR0 : Z;
  REG_PTLR0 : Z;
  REG_PTBR1 : Z;
  REG_PTLR1 : Z;
  REG_VM_ENABLE : Z;
  tlb_flushes : list Z
}.

#[export] Program Instance pt_lens : Lens pt arena := {|
  view := pt_arena;
  put a t := mkPt a (ptes t) (REG_PTBR0 t) (REG_PTLR0 t) (REG_PTBR1 t) (REG_PTLR1 t)
               (REG_VM_ENABLE t) (tlb_flushes t) |}.
Solve All Obligations with first [done | by intros [] ].

Definition with_ptes (m : gmap ptr pte) (t : pt) : pt :=
  mkPt (pt_arena t) m (REG_PTBR0 t) (REG_PTLR0 t) (REG_PTBR1 t) (REG_PTLR1 t)
    (REG_VM_ENABLE t) (tlb_flushes t).
(** [WriteRegister(REG_TLB_FLUSH, v)] and [WriteRegister(REG_PTBR1, v)]. *)
Definition with_flush (v : Z) (t : pt) : pt :=
  mkPt (pt_arena t) (ptes t) (REG_PTBR0 t) (REG_PTLR0 t) (REG_PTBR1 t) (REG_PTLR1 t)
    (REG_VM_ENABLE t) (tlb_flushes t ++ [v]).
Definition with_PTBR1 (v : Z) (t : pt) : pt :=
  mkPt (pt_arena t) (ptes t) (REG_PTBR0 t) (REG_PTLR0 t) v (REG_PTLR1 t)
    (REG_VM_ENABLE t) (tlb_flushes t).

Definition load_pte (p : ptr) : M pt pte := fun t =>
  match ptes t !! p with Some e => Ret e t | None => Undef end.
(** An assignment to members of [*p], which must be allocated. *)
Definition store_pte (p : ptr) (e : pte) : M pt unit :=
  load_pte p ;;; modify (fun t => with_ptes (<[p := e]> (ptes t)) t).

(** A value as an [int]. *)
Definition s32 (x : Z) : Z := let y := u32 x in if y <? 2 ^ 31 then y else y - 2 ^ 32.

Section code.
Context `{Hardware}.

(** [ptep + n]. *)
Definition pte_at (base : ptr) (n : Z) : ptr := base + n * PTE_SIZE.

(** [MAX_PT_LEN] as the bound of a loop. *)
Definition PT_LEN : nat := Z.to_nat MAX_PT_LEN.

(** The entries of a new table, from [base]: the loop of
    [initializeRegionPageTable]. *)
Fixpoint init_entries (n : nat) (ptep : ptr) (m : gmap ptr pte) : gmap ptr pte :=
  match n with
  | O => m
  | S n' => init_entries n' (pte_at ptep 1) (<[ptep := mkPte 0 PROT_NONE 0]> m)
  end.

(** Returns the status and the pointer stored through [pageTablep]. *)
Definition initializeRegionPageTable : M pt (Z * ptr) :=
  let! table := lift (malloc (PTE_SIZE * MAX_PT_LEN)) in
  if table =? NULL then ret (ERROR, NULL) else
  modify (fun t => with_ptes (init_entries PT_LEN table (ptes t)) t) ;;;
  ret (SUCCESS, table).

Definition getVirtualAddr (ptep : ptr) : M pt Z :=
  let ptep_int := u32 ptep in
  let! r0PtBase := gets REG_PTBR0 in
  let! len0 := gets REG_PTLR0 in
  let r0PtLimit := u32 (r0PtBase + len0 * PTE_SIZE) in
  let! r1PtBase := gets REG_PTBR1 in
  let! len1 := gets REG_PTLR1 in
  let r1PtLimit := u32 (r1PtBase + len1 * PTE_SIZE) in
  if (r0PtBase <=? ptep_int) && (ptep_int <? r0PtLimit) then
    let vpn := (ptep_int - r0PtBase) / PTE_SIZE in
    ret (Z.shiftl vpn PAGESHIFT)
  else if (r1PtBase <=? ptep_int) && (ptep_int <? r1PtLimit) then
    let vpn := (ptep_int - r1PtBase) / PTE_SIZE + MAX_PT_LEN in
    ret (Z.shiftl vpn PAGESHIFT)
  else ret ERROR.

Definition setPageTableEntryNoFlush (ptep : ptr) (valid prot pfn : Z) : M pt unit :=
  store_pte ptep (mkPte (bits 1 valid) (bits PTE_PROT_BITS prot) (bits PTE_PFN_BITS pfn)).

Definition setPageTableEntry (ptep : ptr) (valid prot pfn : Z) : M pt unit :=
  setPageTableEntryNoFlush ptep valid prot pfn ;;;
  let! virtualAddr := getVirtualAddr ptep in
  if virtualAddr =? ERROR then Halt else
  modify (with_flush (u32 virtualAddr)).

Definition invalidatePageTableEntry (ptep : ptr) : M pt unit :=
  let! e := load_pte ptep in
  store_pte ptep (mkPte 0 (pte_prot e) (pte_pfn e)) ;;;
  let! vm := gets REG_VM_ENABLE in
  if vm =? 1 then
    let! virtualAddr := getVirtualAddr ptep in
    if virtualAddr =? ERROR then Halt else
    modify (with_flush (u32 virtualAddr))
  else ret tt.

Definition getAddressRegion (addr : ptr) : Z :=
  let intAddr := u32 addr in
  if (VMEM_1_BASE <=? intAddr) && (intAddr <? VMEM_1_LIMIT) then 1
  else if (VMEM_0_BASE <=? intAddr) && (intAddr <? VMEM_0_LIMIT) then 0
  else -1.

(** [Some prot] for SUCCESS with [prot] stored, [None] for ERROR. *)
Definition getAddressProt (addr : ptr) (region : Z) : M pt (option Z) :=
  let! base0 := gets REG_PTBR0 in
  let! base1 := gets REG_PTBR1 in
  match (if region =? 0 then Some (KERNEL_BASE_VPN, base0)
         else if region =? 1 then Some (USER_BASE_VPN, base1) else None) with
  | None => ret None
  | Some (baseVpn, ptBase) =>
    let addrVpn := u32 (Z.shiftr (s32 addr) PAGESHIFT) in
    let! e := load_pte (pte_at ptBase (addrVpn - baseVpn)) in
    ret (Some (pte_prot e))
  end.

End code.

(** * Tables and registers in order *)

Section laws.
Context `{HL : HardwareLaws}.

(** The entry [i] of the table at [base]. *)
Definition entry (t : pt) (base : ptr) (i : Z) : option pte := ptes t !! pte_at base i.

(** A whole table is allocated at [base]. *)
Definition table (t : pt) (base : ptr) : Prop :=
  0 < base /\ base + MAX_PT_LEN * PTE_SIZE < 2 ^ 32 /\
  forall i, 0 <= i < MAX_PT_LEN -> is_Some (entry t base i).

Definition apart (b1 b2 : ptr) : Prop :=
  b1 + MAX_PT_LEN * PTE_SIZE <= b2 \/ b2 + MAX_PT_LEN * PTE_SIZE <= b1.

(** Virtual memory is on, with table [t0] for region 0 and [t1] for region 1. *)
Record vm_on (t : pt) (t0 t1 : ptr) : Prop := {
  vm_enable : REG_VM_ENABLE t = 1;
  vm_base0 : REG_PTBR0 t = t0;
  vm_len0 : REG_PTLR0 t = MAX_PT_LEN;
  vm_base1 : REG_PTBR1 t = t1;
  vm_len1 : REG_PTLR1 t = MAX_PT_LEN;
  vm_table0 : table t t0;
  vm_table1 : table t t1;
  vm_apart : apart t0 t1
}.

(** The part of it that concerns region 0. *)
Record vm0_on (t : pt) (t0 : ptr) : Prop := {
  vm0_enable : REG_VM_ENABLE t = 1;
  vm0_base : REG_PTBR0 t = t0;
  vm0_len : REG_PTLR0 t = MAX_PT_LEN;
  vm0_table : table t t0
}.

Lemma vm_on_vm0 t t0 t1 : vm_on t t0 t1 -> vm0_on t t0.
Proof. by intros [????????]. Qed.

Lemma pte_at_inj b i j : pte_at b i = pte_at b j -> i = j.
Proof. unfold pte_at. pose proof PTE_SIZE_pos. nia. Qed.

Lemma pte_at_apart b1 b2 i j : apart b1 b2 -> 0 <= i < MAX_PT_LEN -> 0 <= j < MAX_PT_LEN ->
  pte_at b1 i <> pte_at b2 j.
Proof. unfold pte_at, apart. pose proof PTE_SIZE_pos. nia. Qed.

Lemma pte_at_add b i j : pte_at (pte_at b i) j = pte_at b (i + j).
Proof. unfold pte_at. lia. Qed.

(** Where the entry [i] of a table lies. *)
Lemma pte_at_bounds t b i : table t b -> 0 <= i < MAX_PT_LEN ->
  b <= pte_at b i /\ pte_at b i < b + MAX_PT_LEN * PTE_SIZE /\
  u32 (pte_at b i) = pte_at b i /\ (pte_at b i - b) / PTE_SIZE = i.
Proof.
  intros (Hpos & Hlim & _) Hi. unfold pte_at. pose proof PTE_SIZE_pos as Hs. split_and!.
  - nia.
  - nia.
  - apply Z.mod_small. nia.
  - replace (b + i * PTE_SIZE - b) with (i * PTE_SIZE) by lia. apply Z.div_mul. lia.
Qed.

Lemma vpn_range vpn : 0 <= vpn < 2 * MAX_PT_LEN -> 0 <= vpn * PAGESIZE < 2 ^ 31.
Proof. pose proof VMEM_1_LIMIT_int. rewrite VMEM_1_LIMIT_eq in *. pose proof PAGESIZE_pos. nia. Qed.

(** [getVirtualAddr] inverts the page tables: the address of the page an
    entry maps. *)
Lemma getVirtualAddr_r0 t t0 i : vm0_on t t0 -> 0 <= i < MAX_PT_LEN ->
  getVirtualAddr (pte_at t0 i) t = Ret (i * PAGESIZE) t.
Proof.
  intros [Hen H0 Hl0 Ht0] Hi. unfold getVirtualAddr. mon. rewrite H0, Hl0.
  destruct (pte_at_bounds _ _ _ Ht0 Hi) as (Hb1 & Hb2 & -> & ->). destruct Ht0 as (? & ? & _).
  rewrite (u32_small (t0 + _)) by (pose proof PTE_SIZE_pos; nia).
  destruct (Z.leb_spec t0 (pte_at t0 i)), (Z.ltb_spec (pte_at t0 i) (t0 + MAX_PT_LEN * PTE_SIZE)); try lia.
  simpl. by rewrite shiftl_page.
Qed.

Lemma getVirtualAddr_r1 t t0 t1 i : vm_on t t0 t1 -> 0 <= i < MAX_PT_LEN ->
  getVirtualAddr (pte_at t1 i) t = Ret (VMEM_1_BASE + i * PAGESIZE) t.
Proof.
  intros [Hen H0 Hl0 H1 Hl1 Ht0 Ht1 Hap] Hi. unfold getVirtualAddr. mon. rewrite H0, Hl0, H1, Hl1.
  destruct (pte_at_bounds _ _ _ Ht1 Hi) as (Hb1 & Hb2 & -> & ->).
  destruct Ht0 as (? & ? & _), Ht1 as (? & ? & _). pose proof PTE_SIZE_pos.
  rewrite !u32_small by nia.
  destruct (Z.leb_spec t1 (pte_at t1 i)), (Z.ltb_spec (pte_at t1 i) (t1 + MAX_PT_LEN * PTE_SIZE)); try lia.
  assert ((t0 <=? pte_at t1 i) && (pte_at t1 i <? t0 + MAX_PT_LEN * PTE_SIZE) = false) as ->.
  { unfold apart in Hap. repeat zcase; try done; lia. }
  simpl. rewrite shiftl_page, VMEM_1_BASE_eq. unfold ret. f_equal. lia.
Qed.

Lemma store_pte_ok t p e : is_Some (ptes t !! p) ->
  store_pte p e t = Ret tt (with_ptes (<[p := e]> (ptes t)) t).
Proof. intros [e' He]. unfold store_pte, load_pte, bind. by rewrite He. Qed.

(** Rewriting an entry keeps the tables and registers in order. *)
Lemma table_insert t p e b : table t b -> table (with_ptes (<[p := e]> (ptes t)) t) b.
Proof.
  intros (? & ? & Ht). split_and!; try done. intros i Hi. unfold entry. simpl.
  rewrite lookup_insert_is_Some. destruct (decide (p = pte_at b i)); [by left|right].
  split; [done|]. by apply Ht.
Qed.

Lemma vm_on_insert t t0 t1 p e : vm_on t t0 t1 -> vm_on (with_ptes (<[p := e]> (ptes t)) t) t0 t1.
Proof. intros [????????]. split; try done; by apply table_insert. Qed.

Lemma vm0_on_insert t t0 p e : vm0_on t t0 -> vm0_on (with_ptes (<[p := e]> (ptes t)) t) t0.
Proof. intros [????]. split; try done; by apply table_insert. Qed.

Lemma vm_on_flush t t0 t1 v : vm_on t t0 t1 -> vm_on (with_flush v t) t0 t1.
Proof. by intros [????????]. Qed.

(** What [setPageTableEntry] does to an entry of one of the two current
    tables: the entry is rewritten and the translation of its page, at
    [base + i * PAGESIZE], is flushed. *)
Definition set_entry (t : pt) (p va valid prot pfn : Z) : pt :=
  with_flush va (with_ptes
    (<[p := mkPte (bits 1 valid) (bits PTE_PROT_BITS prot) (bits PTE_PFN_BITS pfn)]> (ptes t)) t).

Lemma vm0_on_set_entry t t0 p va v pr f : vm0_on t t0 -> vm0_on (set_entry t p va v pr f) t0.
Proof. intros Hvm. by destruct (vm0_on_insert _ _ p (mkPte (bits 1 v) (bits PTE_PROT_BITS pr) (bits PTE_PFN_BITS f)) Hvm). Qed.

Lemma vm_on_set_entry t t0 t1 p va v pr f : vm_on t t0 t1 -> vm_on (set_entry t p va v pr f) t0 t1.
Proof. intros. by apply vm_on_flush, vm_on_insert. Qed.

Lemma setPageTableEntry_va t p va valid prot pfn :
  is_Some (ptes t !! p) -> 0 <= va < 2 ^ 31 ->
  (forall e, getVirtualAddr p (with_ptes (<[p := e]> (ptes t)) t) =
     Ret va (with_ptes (<[p := e]> (ptes t)) t)) ->
  setPageTableEntry p valid prot pfn t = Ret tt (set_entry t p va valid prot pfn).
Proof.
  intros Hp Hva Hget. unfold setPageTableEntry, setPageTableEntryNoFlush.
  step (store_pte_ok _ _ (mkPte (bits 1 valid) (bits PTE_PROT_BITS prot) (bits PTE_PFN_BITS pfn)) Hp).
  step (Hget (mkPte (bits 1 valid) (bits PTE_PROT_BITS prot) (bits PTE_PFN_BITS pfn))).
  pose proof ERROR_neg. destruct (Z.eqb_spec va ERROR); [lia|]. unfold modify, set_entry.
  by rewrite u32_small by lia.
Qed.

Lemma setPageTableEntry_r1 t t0 t1 i valid prot pfn :
  vm_on t t0 t1 -> 0 <= i < MAX_PT_LEN ->
  setPageTableEntry (pte_at t1 i) valid prot pfn t =
    Ret tt (set_entry t (pte_at t1 i) (VMEM_1_BASE + i * PAGESIZE) valid prot pfn).
Proof.
  intros Hvm Hi. pose proof (vpn_range (MAX_PT_LEN + i)). apply setPageTableEntry_va.
  - by apply (vm_table1 _ _ _ Hvm).
  - rewrite VMEM_1_BASE_eq. lia.
  - intros e. eapply getVirtualAddr_r1; [by apply vm_on_insert|done].
Qed.

Lemma setPageTableEntry_r0 t t0 i valid prot pfn :
  vm0_on t t0 -> 0 <= i < MAX_PT_LEN ->
  setPageTableEntry (pte_at t0 i) valid prot pfn t =
    Ret tt (set_entry t (pte_at t0 i) (i * PAGESIZE) valid prot pfn).
Proof.
  intros Hvm Hi. pose proof (vpn_range i). apply setPageTableEntry_va.
  - by apply (vm0_table _ _ Hvm).
  - lia.
  - intros e. apply getVirtualAddr_r0; [by apply vm0_on_insert|done].
Qed.

(** [t'] is [t] after some entries, all of them at addresses in [P], were
    rewritten. *)
Record pt_upd (P : ptr -> Prop) (t t' : pt) : Prop := {
  upd_arena : pt_arena t' = pt_arena t;
  upd_enable : REG_VM_ENABLE t' = REG_VM_ENABLE t;
  upd_base0 : REG_PTBR0 t' = REG_PTBR0 t;
  upd_len0 : REG_PTLR0 t' = REG_PTLR0 t;
  upd_base1 : REG_PTBR1 t' = REG_PTBR1 t;
  upd_len1 : REG_PTLR1 t' = REG_PTLR1 t;
  upd_ptes a : ~ P a -> ptes t' !! a = ptes t !! a;
  upd_dom a : is_Some (ptes t' !! a) <-> is_Some (ptes t !! a)
}.

Lemma pt_upd_refl P t : pt_upd P t t.
Proof. by split. Qed.

Lemma pt_upd_trans P t1 t2 t3 : pt_upd P t1 t2 -> pt_upd P t2 t3 -> pt_upd P t1 t3.
Proof.
  intros H12 H23. pose proof H12 as []. pose proof H23 as []. split; try congruence.
  - intros a Ha. by rewrite (upd_ptes _ _ _ H23), (upd_ptes _ _ _ H12).
  - intros a. by rewrite (upd_dom _ _ _ H23), (upd_dom _ _ _ H12).
Qed.

Lemma pt_upd_weaken (P Q : ptr -> Prop) t t' : (forall a, P a -> Q a) -> pt_upd P t t' -> pt_upd Q t t'.
Proof. intros HPQ []. split; auto. Qed.

Lemma pt_upd_set_entry (P : ptr -> Prop) t p va v pr f : P p -> is_Some (ptes t !! p) ->
  pt_upd P t (set_entry t p va v pr f).
Proof.
  intros Hp Hs. split; try done; simpl.
  - intros a Ha. apply lookup_insert_ne. by intros ->.
  - intros a. rewrite lookup_insert_is_Some'. naive_solver.
Qed.

Lemma pt_upd_table P t t' b : pt_upd P t t' -> table t b -> table t' b.
Proof. intros Hu (? & ? & Ht). split_and!; try done. intros i Hi. by apply (upd_dom _ _ _ Hu), Ht. Qed.

Lemma pt_upd_vm0 P t t' t0 : pt_upd P t t' -> vm0_on t t0 -> vm0_on t' t0.
Proof. intros Hu []. pose proof Hu as []. split; try congruence. by eapply pt_upd_table. Qed.

Lemma pt_upd_vm P t t' t0 t1 : pt_upd P t t' -> vm_on t t0 t1 -> vm_on t' t0 t1.
Proof. intros Hu []. pose proof Hu as []. split; try congruence; by eapply pt_upd_table. Qed.

Definition invalidate_entry (t : pt) (p va : Z) (e : pte) : pt :=
  with_flush va (with_ptes (<[p := mkPte 0 (pte_prot e) (pte_pfn e)]> (ptes t)) t).

Lemma invalidatePageTableEntry_r1 t t0 t1 i e :
  vm_on t t0 t1 -> 0 <= i < MAX_PT_LEN -> entry t t1 i = Some e ->
  invalidatePageTableEntry (pte_at t1 i) t =
    Ret tt (invalidate_entry t (pte_at t1 i) (VMEM_1_BASE + i * PAGESIZE) e).
Proof.
  intros Hvm Hi He. pose proof (vpn_range (MAX_PT_LEN + i)). unfold invalidatePageTableEntry.
  assert (load_pte (pte_at t1 i) t = Ret e t) as Hld by (unfold load_pte, entry in *; by rewrite He).
  step Hld. step (store_pte_ok _ _ (mkPte 0 (pte_prot e) (pte_pfn e)) (mk_is_Some _ _ He)). mon.
  cbn [REG_VM_ENABLE with_ptes]. rewrite (vm_enable _ _ _ Hvm). simpl.
  step (getVirtualAddr_r1 _ _ _ i (vm_on_insert _ _ _ (pte_at t1 i) (mkPte 0 (pte_prot e) (pte_pfn e)) Hvm) Hi).
  pose proof ERROR_neg. rewrite VMEM_1_BASE_eq.
  destruct (Z.eqb_spec (MAX_PT_LEN * PAGESIZE + i * PAGESIZE) ERROR); [lia|].
  unfold modify, invalidate_entry. rewrite u32_small by lia. done.
Qed.

(** ** A new table *)

Lemma init_entries_other n base m p :
  (forall i, 0 <= i < Z.of_nat n -> p <> pte_at base i) -> init_entries n base m !! p = m !! p.
Proof.
  revert base m. induction n as [|n IH]; intros base m Hp; simpl; [done|].
  rewrite IH.
  - apply lookup_insert_ne. intros <-. apply (Hp 0); [lia|]. unfold pte_at. lia.
  - intros i Hi. rewrite pte_at_add. apply Hp. lia.
Qed.

Lemma init_entries_at n base m i : 0 <= i < Z.of_nat n ->
  init_entries n base m !! pte_at base i = Some (mkPte 0 PROT_NONE 0).
Proof.
  revert base m i. induction n as [|n IH]; intros base m i Hi; [lia|]. simpl.
  destruct (decide (i = 0)) as [->|Hne].
  - rewrite init_entries_other.
    + replace (pte_at base 0) with base by (unfold pte_at; lia). apply lookup_insert_eq.
    + intros j Hj. rewrite pte_at_add. intros Heq%pte_at_inj. lia.
  - replace (pte_at base i) with (pte_at (pte_at base 1) (i - 1)) by (rewrite pte_at_add; f_equal; lia).
    apply IH. lia.
Qed.

(** Every entry in use ends below the next address of the allocator. *)
Definition pt_wf (t : pt) : Prop :=
  0 < brk_addr (pt_arena t) /\ forall p, is_Some (ptes t !! p) -> p + PTE_SIZE <= brk_addr (pt_arena t).

Lemma pt_upd_wf P t t' : pt_upd P t t' -> pt_wf t -> pt_wf t'.
Proof.
  intros Hu [Hpos Hwf]. split; rewrite (upd_arena _ _ _ Hu); [done|]. intros p Hp. apply Hwf. by apply (upd_dom _ _ _ Hu).
Qed.

(** [initializeRegionPageTable] makes a table of invalid entries; the tables
    that exist keep theirs.  When memory is short it returns ERROR and leaves
    NULL in [*pageTablep]. *)
Lemma initializeRegionPageTable_ok t : pt_wf t ->
  exists r b t', initializeRegionPageTable t = Ret (r, b) t' /\ pt_wf t' /\
    (plenty (pt_arena t) -> plenty (pt_arena t')) /\
    (r = ERROR /\ b = NULL /\ ~ plenty (pt_arena t) /\ ptes t' = ptes t \/
     r = SUCCESS /\ b = brk_addr (pt_arena t) /\
       (forall i, 0 <= i < MAX_PT_LEN -> entry t' b i = Some (mkPte 0 PROT_NONE 0)) /\
       (forall p, p < b -> ptes t' !! p = ptes t !! p)).
Proof.
  intros [Hpos Hwf]. unfold initializeRegionPageTable.
  destruct (malloc_spec (PTE_SIZE * MAX_PT_LEN) (pt_arena t) Hpos) as (b & a & Hm & Hpl & Hle & Hb).
  erewrite bind_Ret by (apply lift_Ret; exact Hm). pose proof PTE_SIZE_pos. pose proof MAX_PT_LEN_pos.
  destruct Hb as [(-> & Hbrk & Hnp)|(-> & Hbrk)].
  - simpl. eexists _, _, _. split; [done|]. split; [|split; [done|by left]].
    split; simpl; [lia|]. rewrite Hbrk. done.
  - destruct (Z.eqb_spec (brk_addr (pt_arena t)) NULL); [lia|]. mon.
    eexists _, _, _. split; [done|]. rewrite Z.max_r in Hbrk by nia. split_and!.
    + split; simpl; [lia|]. intros p Hp.
      destruct (decide (p + PTE_SIZE <= brk_addr a)) as [|Hge]; [done|]. exfalso.
      rewrite init_entries_other in Hp; [apply Hwf in Hp; nia|].
      intros i Hi ->. unfold PT_LEN, pte_at in *. rewrite Z2Nat.id in Hi by lia. nia.
    + done.
    + right. split_and!; [done|done| |].
      * intros i Hi. apply init_entries_at. unfold PT_LEN. lia.
      * intros p Hp. simpl. apply init_entries_other. intros i Hi ->. unfold pte_at in Hp. nia.
Qed.

(** ** Regions of the address space *)

Lemma getAddressRegion_1 a : 0 <= a < 2 ^ 32 ->
  getAddressRegion a = 1 <-> VMEM_1_BASE <= a < VMEM_1_LIMIT.
Proof.
  intros Ha. unfold getAddressRegion. rewrite u32_small by done. split.
  - repeat zcase; cbn; try done; lia.
  - repeat zcase; cbn; try done; lia.
Qed.

Lemma getAddressProt_r1 t t0 t1 a : vm_on t t0 t1 -> VMEM_1_BASE <= a < VMEM_1_LIMIT ->
  exists e, entry t t1 (a / PAGESIZE - MAX_PT_LEN) = Some e /\
    getAddressProt a 1 t = Ret (Some (pte_prot e)) t.
Proof.
  intros Hvm Ha. pose proof VMEM_1_LIMIT_int. pose proof PAGESIZE_pos. pose proof MAX_PT_LEN_pos.
  rewrite VMEM_1_BASE_eq, VMEM_1_LIMIT_eq in *.
  assert (0 <= a / PAGESIZE - MAX_PT_LEN < MAX_PT_LEN) as Hi.
  { split; [apply Z.le_add_le_sub_l, Z.div_le_lower_bound; lia|].
    apply Z.lt_sub_lt_add_l, Z.div_lt_upper_bound; lia. }
  destruct (vm_table1 _ _ _ Hvm) as (_ & _ & Htab). destruct (Htab _ Hi) as [e He].
  exists e. split; [done|]. unfold getAddressProt. mon. cbn [Z.eqb].
  unfold s32. rewrite (u32_small a) by lia. cbv zeta. destruct (Z.ltb_spec a (2 ^ 31)); [|lia].
  rewrite shiftr_page, USER_BASE_VPN_eq, (vm_base1 _ _ _ Hvm), u32_small.
  2: { pose proof (Z.div_le_upper_bound a PAGESIZE a). nia. }
  assert (load_pte (pte_at t1 (a / PAGESIZE - MAX_PT_LEN)) t = Ret e t) as Hld
    by (unfold load_pte, entry in *; by rewrite He).
  simpl. by step Hld.
Qed.

End laws.
