(* ===== verification/State.v ===== *)
(** The state of the kernel: the structures of Scheduler.h, Lock.h and Pipe.h,
    the globals of Kernel.c and Scheduler.c, and physical memory.

    The kernel's functions run in the monad [K] over [kst].  The queues and
    the maps are seen through their interfaces ([QH], [MH]); all other objects
    are in stores indexed by their address, so that the pointers shared by the
    kernel's structures are shared here too, and a freed object is gone. *)

From stdpp Require Import base gmap list.
From S2P Require Import Prelude Hardware Queue HashMap FrameList PageTable.

(** The member [kctxt] of a PCB: a null pointer, a [KernelContext] that was
    allocated and not yet written, or a saved context. *)
Inductive kctxt_t := KNull | KNew | KSaved (kc : KernelContext).

(** [PCB_t].  A member that the code may read before it is written is an
    [option], [None] being an indeterminate value; the [UserContext] is held
    in place, [None] being the null pointer. *)
Record PCB_t := mkPCB {
  pid : Z;
  brk : option ptr;
  uctxt : option UserContext;
  kctxt : option kctxt_t;
  childrenMap : option ptr;
  numChildren : Z;
  parent : ptr;
  zombieQ : option ptr;
  r1PageTable : option ptr;
  numRemainingDelayTicks : Z;
  stackPfns : list (option Z)
}.

(** [zombie_t], [lock_t], [pipe_t].  The buffer of a pipe is held in place, as
    the array of its bytes, [None] being a byte that was never written. *)
Record zombie_t := mkZombie { z_pid : Z; exit_status : Z }.
Record lock_t := mkLock { ownerPcbp : ptr; lock_waitingQ : ptr }.
Record pipe_t := mkPipe { buffer : list (option Z); numBytesWritten : Z; pipe_waitingQ : ptr }.

Definition with_pid (x : Z) (p : PCB_t) : PCB_t :=
  mkPCB x (brk p) (uctxt p) (kctxt p) (childrenMap p) (numChildren p) (parent p) (zombieQ p)
    (r1PageTable p) (numRemainingDelayTicks p) (stackPfns p).
Definition with_brk (x : option ptr) (p : PCB_t) : PCB_t :=
  mkPCB (pid p) x (uctxt p) (kctxt p) (childrenMap p) (numChildren p) (parent p) (zombieQ p)
    (r1PageTable p) (numRemainingDelayTicks p) (stackPfns p).
Definition with_uctxt (x : option UserContext) (p : PCB_t) : PCB_t :=
  mkPCB (pid p) (brk p) x (kctxt p) (childrenMap p) (numChildren p) (parent p) (zombieQ p)
    (r1PageTable p) (numRemainingDelayTicks p) (stackPfns p).
Definition with_kctxt (x : kctxt_t) (p : PCB_t) : PCB_t :=
  mkPCB (pid p) (brk p) (uctxt p) (Some x) (childrenMap p) (numChildren p) (parent p) (zombieQ p)
    (r1PageTable p) (numRemainingDelayTicks p) (stackPfns p).
Definition with_childrenMap (x : ptr) (p : PCB_t) : PCB_t :=
  mkPCB (pid p) (brk p) (uctxt p) (kctxt p) (Some x) (numChildren p) (parent p) (zombieQ p)
    (r1PageTable p) (numRemainingDelayTicks p) (stackPfns p).
Definition with_numChildren (x : Z) (p : PCB_t) : PCB_t :=
  mkPCB (pid p) (brk p) (uctxt p) (kctxt p) (childrenMap p) x (parent p) (zombieQ p)
    (r1PageTable p) (numRemainingDelayTicks p) (stackPfns p).
Definition with_parent (x : ptr) (p : PCB_t) : PCB_t :=
  mkPCB (pid p) (brk p) (uctxt p) (kctxt p) (childrenMap p) (numChildren p) x (zombieQ p)
    (r1PageTable p) (numRemainingDelayTicks p) (stackPfns p).
Definition with_zombieQ (x : ptr) (p : PCB_t) : PCB_t :=
  mkPCB (pid p) (brk p) (uctxt p) (kctxt p) (childrenMap p) (numChildren p) (parent p) (Some x)
    (r1PageTable p) (numRemainingDelayTicks p) (stackPfns p).
Definition with_r1PageTable (x : ptr) (p : PCB_t) : PCB_t :=
  mkPCB (pid p) (brk p) (uctxt p) (kctxt p) (childrenMap p) (numChildren p) (parent p) (zombieQ p)
    (Some x) (numRemainingDelayTicks p) (stackPfns p).
Definition with_ticks (x : Z) (p : PCB_t) : PCB_t :=
  mkPCB (pid p) (brk p) (uctxt p) (kctxt p) (childrenMap p) (numChildren p) (parent p) (zombieQ p)
    (r1PageTable p) x (stackPfns p).
Definition with_stackPfns (x : list (option Z)) (p : PCB_t) : PCB_t :=
  mkPCB (pid p) (brk p) (uctxt p) (kctxt p) (childrenMap p) (numChildren p) (parent p) (zombieQ p)
    (r1PageTable p) (numRemainingDelayTicks p) x.

(** The objects the kernel allocates outside the modules above. *)
Record objects := mkObjects {
  o_arena : arena;
  pcbs : gmap ptr PCB_t;
  zombies : gmap ptr zombie_t;
  locks : gmap ptr lock_t;
  pipes : gmap ptr pipe_t
}.
Definition with_pcbs (x : gmap ptr PCB_t) (o : objects) : objects :=
  mkObjects (o_arena o) x (zombies o) (locks o) (pipes o).
Definition with_zombies (x : gmap ptr zombie_t) (o : objects) : objects :=
  mkObjects (o_arena o) (pcbs o) x (locks o) (pipes o).
Definition with_locks (x : gmap ptr lock_t) (o : objects) : objects :=
  mkObjects (o_arena o) (pcbs o) (zombies o) x (pipes o).
Definition with_pipes (x : gmap ptr pipe_t) (o : objects) : objects :=
  mkObjects (o_arena o) (pcbs o) (zombies o) (locks o) x.

(** The globals of Scheduler.c and Scheduler.h, and the maps of the
    synchronisation objects. *)
Record sched_t := mkSched {
  nextPid : Z;
  nextSyncId : Z;
  initPid : Z;
  currPCB : ptr;
  readyQ : ptr;
  blockedMap : ptr;
  sleepingMap : ptr;
  currTransmitters : list ptr;
  transmittingQs : list ptr;
  readingQs : list ptr;
  lockMap : ptr;
  cvarMap : ptr;
  pipeMap : ptr
}.
Definition with_nextPid (x : Z) (c : sched_t) : sched_t :=
  mkSched x (nextSyncId c) (initPid c) (currPCB c) (readyQ c) (blockedMap c) (sleepingMap c)
    (currTransmitters c) (transmittingQs c) (readingQs c) (lockMap c) (cvarMap c) (pipeMap c).
Definition with_nextSyncId (x : Z) (c : sched_t) : sched_t :=
  mkSched (nextPid c) x (initPid c) (currPCB c) (readyQ c) (blockedMap c) (sleepingMap c)
    (currTransmitters c) (transmittingQs c) (readingQs c) (lockMap c) (cvarMap c) (pipeMap c).
Definition with_initPid (x : Z) (c : sched_t) : sched_t :=
  mkSched (nextPid c) (nextSyncId c) x (currPCB c) (readyQ c) (blockedMap c) (sleepingMap c)
    (currTransmitters c) (transmittingQs c) (readingQs c) (lockMap c) (cvarMap c) (pipeMap c).
Definition with_currPCB (x : ptr) (c : sched_t) : sched_t :=
  mkSched (nextPid c) (nextSyncId c) (initPid c) x (readyQ c) (blockedMap c) (sleepingMap c)
    (currTransmitters c) (transmittingQs c) (readingQs c) (lockMap c) (cvarMap c) (pipeMap c).
Definition with_queues (rq bm sm : ptr) (c : sched_t) : sched_t :=
  mkSched (nextPid c) (nextSyncId c) (initPid c) (currPCB c) rq bm sm
    (currTransmitters c) (transmittingQs c) (readingQs c) (lockMap c) (cvarMap c) (pipeMap c).
Definition with_currTransmitters (x : list ptr) (c : sched_t) : sched_t :=
  mkSched (nextPid c) (nextSyncId c) (initPid c) (currPCB c) (readyQ c) (blockedMap c) (sleepingMap c)
    x (transmittingQs c) (readingQs c) (lockMap c) (cvarMap c) (pipeMap c).
Definition with_ttyQs (t r : list ptr) (c : sched_t) : sched_t :=
  mkSched (nextPid c) (nextSyncId c) (initPid c) (currPCB c) (readyQ c) (blockedMap c) (sleepingMap c)
    (currTransmitters c) t r (lockMap c) (cvarMap c) (pipeMap c).
Definition with_syncMaps (l c p : ptr) (sc : sched_t) : sched_t :=
  mkSched (nextPid sc) (nextSyncId sc) (initPid sc) (currPCB sc) (readyQ sc) (blockedMap sc)
    (sleepingMap sc) (currTransmitters sc) (transmittingQs sc) (readingQs sc) l c p.

(** The globals of Kernel.c and Kernel.h.  [starterKernelStack] holds the
    saved pages of a kernel stack. *)
Record globals := mkGlobals {
  kernelDataStart : ptr;
  kernelDataEnd : ptr;
  currKernelBrk : ptr;
  numFrames : Z;
  r0StackBasePtep : ptr;
  tempPtep : ptr;
  tempVAddr : ptr;
  starterKctxt : option KernelContext;
  starterKernelStack : option (list (gmap Z Z))
}.
Definition with_currKernelBrk (x : ptr) (g : globals) : globals :=
  mkGlobals (kernelDataStart g) (kernelDataEnd g) x (numFrames g) (r0StackBasePtep g) (tempPtep g)
    (tempVAddr g) (starterKctxt g) (starterKernelStack g).
Definition with_starter (k : option KernelContext) (st : option (list (gmap Z Z))) (g : globals) : globals :=
  mkGlobals (kernelDataStart g) (kernelDataEnd g) (currKernelBrk g) (numFrames g) (r0StackBasePtep g)
    (tempPtep g) (tempVAddr g) k st.

(** [ttyBuf_t] of TtyBuffer.c. *)
Record ttyBuf_t := mkTtyBuf { base : ptr; tty_numBytesWritten : Z; isLineReady : Z }.

(** The array [buffers] of TtyBuffer.c, and what was given to [TtyTransmit]:
    terminal and bytes, the latest last. *)
Record tty_t := mkTty {
  buffers : list (option ttyBuf_t);
  transmitted : list (Z * list Z)
}.

(** The state.  [k_mem] is physical memory, page frame by page frame (a byte
    never written is 0); [k_frame] is the [UserContext] on the kernel stack of
    the running process. *)
Record kst (QH MH : Type) := mkKst {
  k_qh : QH;
  k_mh : MH;
  k_fl : fl;
  k_pt : pt;
  k_obj : objects;
  k_sched : sched_t;
  k_glob : globals;
  k_mem : gmap Z (gmap Z Z);
  k_frame : UserContext;
  k_tty : tty_t
}.
Arguments mkKst {QH MH}.
Arguments k_qh {QH MH}.
Arguments k_mh {QH MH}.
Arguments k_fl {QH MH}.
Arguments k_pt {QH MH}.
Arguments k_obj {QH MH}.
Arguments k_sched {QH MH}.
Arguments k_glob {QH MH}.
Arguments k_mem {QH MH}.
Arguments k_frame {QH MH}.
Arguments k_tty {QH MH}.

Section state.
Context {QH MH : Type}.
Abbreviation kst := (kst QH MH).

Definition with_qh (x : QH) (s : kst) : kst :=
  mkKst x (k_mh s) (k_fl s) (k_pt s) (k_obj s) (k_sched s) (k_glob s) (k_mem s) (k_frame s) (k_tty s).
Definition with_mh (x : MH) (s : kst) : kst :=
  mkKst (k_qh s) x (k_fl s) (k_pt s) (k_obj s) (k_sched s) (k_glob s) (k_mem s) (k_frame s) (k_tty s).
Definition with_fl (x : fl) (s : kst) : kst :=
  mkKst (k_qh s) (k_mh s) x (k_pt s) (k_obj s) (k_sched s) (k_glob s) (k_mem s) (k_frame s) (k_tty s).
Definition with_pt (x : pt) (s : kst) : kst :=
  mkKst (k_qh s) (k_mh s) (k_fl s) x (k_obj s) (k_sched s) (k_glob s) (k_mem s) (k_frame s) (k_tty s).
Definition with_obj (x : objects) (s : kst) : kst :=
  mkKst (k_qh s) (k_mh s) (k_fl s) (k_pt s) x (k_sched s) (k_glob s) (k_mem s) (k_frame s) (k_tty s).
Definition with_sched (x : sched_t) (s : kst) : kst :=
  mkKst (k_qh s) (k_mh s) (k_fl s) (k_pt s) (k_obj s) x (k_glob s) (k_mem s) (k_frame s) (k_tty s).
Definition with_glob (x : globals) (s : kst) : kst :=
  mkKst (k_qh s) (k_mh s) (k_fl s) (k_pt s) (k_obj s) (k_sched s) x (k_mem s) (k_frame s) (k_tty s).
Definition with_mem (x : gmap Z (gmap Z Z)) (s : kst) : kst :=
  mkKst (k_qh s) (k_mh s) (k_fl s) (k_pt s) (k_obj s) (k_sched s) (k_glob s) x (k_frame s) (k_tty s).
Definition with_frame (x : UserContext) (s : kst) : kst :=
  mkKst (k_qh s) (k_mh s) (k_fl s) (k_pt s) (k_obj s) (k_sched s) (k_glob s) (k_mem s) x (k_tty s).

Definition with_tty (x : tty_t) (s : kst) : kst :=
  mkKst (k_qh s) (k_mh s) (k_fl s) (k_pt s) (k_obj s) (k_sched s) (k_glob s) (k_mem s) (k_frame s) x.

#[global] Program Instance lens_qh : Lens kst QH := {| view := k_qh; put := with_qh |}.
Solve All Obligations with first [done | by intros [] ].
#[global] Program Instance lens_mh : Lens kst MH := {| view := k_mh; put := with_mh |}.
Solve All Obligations with first [done | by intros [] ].
#[global] Program Instance lens_fl : Lens kst fl := {| view := k_fl; put := with_fl |}.
Solve All Obligations with first [done | by intros [] ].
#[global] Program Instance lens_pt : Lens kst pt := {| view := k_pt; put := with_pt |}.
Solve All Obligations with first [done | by intros [] ].
#[global] Program Instance lens_obj : Lens kst objects := {| view := k_obj; put := with_obj |}.
Solve All Obligations with first [done | by intros [] ].
#[global] Program Instance lens_sched : Lens kst sched_t := {| view := k_sched; put := with_sched |}.
Solve All Obligations with first [done | by intros [] ].
#[global] Program Instance lens_glob : Lens kst globals := {| view := k_glob; put := with_glob |}.
Solve All Obligations with first [done | by intros [] ].

(** Reading and updating globals. *)
Definition sched {A} (f : sched_t -> A) : M kst A := gets (fun s => f (k_sched s)).
Definition glob {A} (f : globals -> A) : M kst A := gets (fun s => f (k_glob s)).
Definition set_sched (f : sched_t -> sched_t) : M kst unit :=
  modify (fun s => with_sched (f (k_sched s)) s).
Definition set_glob (f : globals -> globals) : M kst unit :=
  modify (fun s => with_glob (f (k_glob s)) s).

(** Objects: reading, writing a member of an allocated object, allocating
    (the content is written at once) and freeing. *)
Definition load_pcb (p : ptr) : M kst PCB_t := fun s =>
  match pcbs (k_obj s) !! p with Some x => Ret x s | None => Undef end.
Definition set_pcb (p : ptr) (x : PCB_t) : M kst unit :=
  modify (fun s => with_obj (with_pcbs (<[p := x]> (pcbs (k_obj s))) (k_obj s)) s).
Definition update_pcb (p : ptr) (f : PCB_t -> PCB_t) : M kst unit :=
  let! x := load_pcb p in set_pcb p (f x).
Definition free_pcb (p : ptr) : M kst unit :=
  load_pcb p ;;; modify (fun s => with_obj (with_pcbs (delete p (pcbs (k_obj s))) (k_obj s)) s).

Definition load_zombie (p : ptr) : M kst zombie_t := fun s =>
  match zombies (k_obj s) !! p with Some x => Ret x s | None => Undef end.
Definition set_zombie (p : ptr) (x : zombie_t) : M kst unit :=
  modify (fun s => with_obj (with_zombies (<[p := x]> (zombies (k_obj s))) (k_obj s)) s).
Definition free_zombie (p : ptr) : M kst unit :=
  load_zombie p ;;; modify (fun s => with_obj (with_zombies (delete p (zombies (k_obj s))) (k_obj s)) s).

Definition load_lock (p : ptr) : M kst lock_t := fun s =>
  match locks (k_obj s) !! p with Some x => Ret x s | None => Undef end.
Definition set_lock (p : ptr) (x : lock_t) : M kst unit :=
  modify (fun s => with_obj (with_locks (<[p := x]> (locks (k_obj s))) (k_obj s)) s).
Definition free_lock (p : ptr) : M kst unit :=
  load_lock p ;;; modify (fun s => with_obj (with_locks (delete p (locks (k_obj s))) (k_obj s)) s).

Definition load_pipe (p : ptr) : M kst pipe_t := fun s =>
  match pipes (k_obj s) !! p with Some x => Ret x s | None => Undef end.
Definition set_pipe (p : ptr) (x : pipe_t) : M kst unit :=
  modify (fun s => with_obj (with_pipes (<[p := x]> (pipes (k_obj s))) (k_obj s)) s).
Definition free_pipe (p : ptr) : M kst unit :=
  load_pipe p ;;; modify (fun s => with_obj (with_pipes (delete p (pipes (k_obj s))) (k_obj s)) s).

#[global] Program Instance objects_lens : Lens objects arena := {|
  view := o_arena; put a o := mkObjects a (pcbs o) (zombies o) (locks o) (pipes o) |}.
Solve All Obligations with first [done | by intros [] ].

(** [malloc] for these objects. *)
Definition kmalloc (size : Z) : M kst ptr := lift (lift (A := arena) (S := objects) (malloc size)).

(** ** Memory through the MMU *)

Section mmu.
Context `{Hardware}.

(** The page frame that the virtual address [a] is mapped to, when its page is
    valid with protection [p]; any other access is fatal to the kernel. *)
Definition translate (a p : Z) : M kst Z :=
  let vpn := Z.shiftr a PAGESHIFT in
  let! t := gets k_pt in
  let! e := (if (0 <=? vpn) && (vpn <? MAX_PT_LEN) then
               lift (load_pte (pte_at (REG_PTBR0 t) vpn))
             else if (MAX_PT_LEN <=? vpn) && (vpn <? 2 * MAX_PT_LEN) then
               lift (load_pte (pte_at (REG_PTBR1 t) (vpn - MAX_PT_LEN)))
             else undef) in
  if (pte_valid e =? 1) && (Z.land (pte_prot e) p =? p) then ret (pte_pfn e) else undef.

Definition page (f : Z) (s : kst) : gmap Z Z := default ∅ (k_mem s !! f).

(** [memmove(dst, src, PAGESIZE)] for page-aligned addresses. *)
Definition copy_page (dst src : Z) : M kst unit :=
  let! f := translate src PROT_READ in
  let! f' := translate dst PROT_WRITE in
  modify (fun s => with_mem (<[f' := page f s]> (k_mem s)) s).

(** A byte of memory. *)
Definition load_byte (a : Z) : M kst Z :=
  let! f := translate a PROT_READ in
  gets (fun s => default 0 (page f s !! (a mod PAGESIZE))).
Definition store_byte (a b : Z) : M kst unit :=
  let! f := translate a PROT_WRITE in
  modify (fun s => with_mem (<[f := <[a mod PAGESIZE := b]> (page f s)]> (k_mem s)) s).

(** A byte of the running process's region 1.  A user pointer outside region
    1 would reach the kernel's own data, which is not modelled as bytes. *)
Definition user_addr (a : Z) : bool := (VMEM_1_BASE <=? a) && (a <? VMEM_1_LIMIT).
Definition read_byte (a : Z) : M kst Z := if user_addr a then load_byte a else undef.
Definition write_byte (a b : Z) : M kst unit := if user_addr a then store_byte a b else undef.
Fixpoint read_bytes (a : Z) (n : nat) : M kst (list Z) :=
  match n with
  | O => ret []
  | S n' => let! b := read_byte a in let! bs := read_bytes (a + 1) n' in ret (b :: bs)
  end.
Fixpoint write_bytes (a : Z) (bs : list Z) : M kst unit :=
  match bs with
  | [] => ret tt
  | b :: bs' => write_byte a b ;;; write_bytes (a + 1) bs'
  end.

End mmu.

(** [KernelContextSwitch(f, a, b)], called at the point [k]: the hardware
    library calls [f] with the context of the caller and resumes the context
    that [f] returns. *)
Definition KernelContextSwitch (f : KernelContext -> M kst KernelContext) (k : kcont) : M kst Z :=
  fun s =>
    match f (mkKctxt k (k_frame s)) s with
    | Ret kc s' => Switch kc s'
    | Switch kc s' => Switch kc s'
    | Halted s' => Halted s'
    | Undef => Undef
    end.

End state.

(** ** Equations *)

Section lemmas.
Context {QH MH : Type}.
Implicit Types s : kst QH MH.

(** [lift] at the components. *)
Lemma lift_qh {X} (m : M QH X) s x h : m (k_qh s) = Ret x h -> lift m s = Ret x (with_qh h s).
Proof. intros Hm. unfold lift. cbn. by rewrite Hm. Qed.
Lemma lift_mh {X} (m : M MH X) s x h : m (k_mh s) = Ret x h -> lift m s = Ret x (with_mh h s).
Proof. intros Hm. unfold lift. cbn. by rewrite Hm. Qed.
Lemma lift_fl {X} (m : M fl X) s x h : m (k_fl s) = Ret x h -> lift m s = Ret x (with_fl h s).
Proof. intros Hm. unfold lift. cbn. by rewrite Hm. Qed.
Lemma lift_pt {X} (m : M pt X) s x h : m (k_pt s) = Ret x h -> lift m s = Ret x (with_pt h s).
Proof. intros Hm. unfold lift. cbn. by rewrite Hm. Qed.

Lemma with_qh_id s : with_qh (k_qh s) s = s.
Proof. by destruct s. Qed.
Lemma with_mh_id s : with_mh (k_mh s) s = s.
Proof. by destruct s. Qed.
Lemma with_fl_id s : with_fl (k_fl s) s = s.
Proof. by destruct s. Qed.
Lemma with_pt_id s : with_pt (k_pt s) s = s.
Proof. by destruct s. Qed.

Lemma load_pcb_ok s p x : pcbs (k_obj s) !! p = Some x -> load_pcb p s = Ret x s.
Proof. unfold load_pcb. by intros ->. Qed.
Lemma load_zombie_ok s p x : zombies (k_obj s) !! p = Some x -> load_zombie p s = Ret x s.
Proof. unfold load_zombie. by intros ->. Qed.
Lemma load_lock_ok s p x : locks (k_obj s) !! p = Some x -> load_lock p s = Ret x s.
Proof. unfold load_lock. by intros ->. Qed.
Lemma load_pipe_ok s p x : pipes (k_obj s) !! p = Some x -> load_pipe p s = Ret x s.
Proof. unfold load_pipe. by intros ->. Qed.
Lemma update_pcb_ok s p f x : pcbs (k_obj s) !! p = Some x ->
  update_pcb p f s = Ret tt (with_obj (with_pcbs (<[p := f x]> (pcbs (k_obj s))) (k_obj s)) s).
Proof. intros Hp. unfold update_pcb. by step (load_pcb_ok _ _ _ Hp). Qed.
Lemma bind_sched {A B} (f : sched_t -> A) (g : A -> M (kst QH MH) B) s :
  bind (sched f) g s = g (f (k_sched s)) s.
Proof. done. Qed.
Lemma bind_glob {A B} (f : globals -> A) (g : A -> M (kst QH MH) B) s :
  bind (glob f) g s = g (f (k_glob s)) s.
Proof. done. Qed.
Lemma bind_set_sched {B} f (g : unit -> M (kst QH MH) B) s :
  bind (set_sched f) g s = g tt (with_sched (f (k_sched s)) s).
Proof. done. Qed.
Lemma bind_set_glob {B} f (g : unit -> M (kst QH MH) B) s :
  bind (set_glob f) g s = g tt (with_glob (f (k_glob s)) s).
Proof. done. Qed.
End lemmas.

(** [kmon]: as [mon], for computations of the kernel. *)
Ltac kmon :=
  repeat first
    [ rewrite bind_assoc | rewrite bind_sched | rewrite bind_glob
    | rewrite bind_set_sched | rewrite bind_set_glob
    | rewrite bind_gets | rewrite bind_modify | rewrite bind_ret ];
  cbn beta iota.
