(* ===== verification/UserMem.v ===== *)
(** User memory: buffers and integers that the kernel reads and writes through
    the page table of the running process.

    An address range is described by the places in physical memory that it is
    mapped to ([mapped]); writing and reading back ranges is then reading and
    writing at these places. *)

From stdpp Require Import base gmap list.
From S2P Require Import Prelude Hardware PageTable State.

(** An [int] in memory, least significant byte first. *)
Definition int_bytes (v : Z) : list Z :=
  let u := u32 v in
  [u mod 256; (u / 2 ^ 8) mod 256; (u / 2 ^ 16) mod 256; (u / 2 ^ 24) mod 256].
Definition bytes_int (bs : list Z) : Z :=
  s32 (foldr (fun b acc => b + 256 * acc) 0 bs).

(** A byte of physical memory, and a write of several. *)
Definition mem_get (m : gmap Z (gmap Z Z)) (l : Z * Z) : Z := default 0 (default ∅ (m !! l.1) !! l.2).
Definition mem_set (m : gmap Z (gmap Z Z)) (l : Z * Z) (b : Z) : gmap Z (gmap Z Z) :=
  <[l.1 := <[l.2 := b]> (default ∅ (m !! l.1))]> m.
Definition mem_write (m : gmap Z (gmap Z Z)) (locs : list (Z * Z)) (bs : list Z) : gmap Z (gmap Z Z) :=
  foldl (fun m lb => mem_set m lb.1 lb.2) m (zip locs bs).

Section code.
Context {QH MH : Type} `{HW : Hardware}.
Abbreviation kst := (kst QH MH).
Implicit Types s : kst.

(** [*p = v] and [*p] for an [int *p] given by the user. *)
Definition write_int (p : ptr) (v : Z) : M kst unit := write_bytes p (int_bytes v).
Definition read_int (p : ptr) : M kst Z := let! bs := read_bytes p 4 in ret (bytes_int bs).

(** The [length locs] bytes from address [a] are user memory, accessible with
    protection [prot], at the physical places [locs]. *)
Definition mapped s (a prot : Z) (locs : list (Z * Z)) : Prop :=
  forall i l, locs !! i = Some l -> user_addr (a + Z.of_nat i) = true /\
    translate (a + Z.of_nat i) prot s = Ret l.1 s /\ l.2 = (a + Z.of_nat i) mod PAGESIZE.

Lemma mapped_cons s a prot l locs : mapped s a prot (l :: locs) ->
  user_addr a = true /\ translate a prot s = Ret l.1 s /\ l.2 = a mod PAGESIZE /\
  mapped s (a + 1) prot locs.
Proof.
  intros Hm. pose proof (Hm O l eq_refl) as (H1 & H2 & H3). replace (a + Z.of_nat 0) with a in * by lia.
  split_and!; try done. intros i l' Hi. specialize (Hm (Datatypes.S i) l' Hi).
  by replace (a + 1 + Z.of_nat i) with (a + Z.of_nat (Datatypes.S i)) by lia.
Qed.

(** The translation is a function of the page tables. *)
Definition trans (t : pt) (a p : Z) : option Z :=
  let vpn := Z.shiftr a PAGESHIFT in
  e ← (if (0 <=? vpn) && (vpn <? MAX_PT_LEN) then ptes t !! pte_at (REG_PTBR0 t) vpn
    else if (MAX_PT_LEN <=? vpn) && (vpn <? 2 * MAX_PT_LEN) then
      ptes t !! pte_at (REG_PTBR1 t) (vpn - MAX_PT_LEN)
    else None);
  if (pte_valid e =? 1) && (Z.land (pte_prot e) p =? p) then Some (pte_pfn e) else None.

Lemma translate_trans s a p :
  translate a p s = match trans (k_pt s) a p with Some f => Ret f s | None => Undef end.
Proof.
  destruct s as [? ? ? t ? ? ? ? ? ?]. unfold translate, trans, bind, gets, lift, load_pte. cbn -[Z.mul Z.leb Z.ltb].
  destruct ((0 <=? Z.shiftr a PAGESHIFT) && (Z.shiftr a PAGESHIFT <? MAX_PT_LEN));
  [|destruct ((MAX_PT_LEN <=? Z.shiftr a PAGESHIFT) && (Z.shiftr a PAGESHIFT <? 2 * MAX_PT_LEN)); [|done]];
  cbn [k_pt]; (destruct (ptes t !! _) as [e|]; [|done]); cbn [mbind option_bind];
  by destruct ((pte_valid e =? 1) && (Z.land (pte_prot e) p =? p)).
Qed.

Lemma translate_pt s s' a prot f : k_pt s' = k_pt s -> translate a prot s = Ret f s ->
  translate a prot s' = Ret f s'.
Proof. rewrite !translate_trans. intros ->. destruct (trans _ _ _); [|done]. intros Heq. by inversion Heq. Qed.

Lemma mapped_pt s s' a prot locs : k_pt s' = k_pt s -> mapped s a prot locs -> mapped s' a prot locs.
Proof.
  intros Hpt Hm i l Hi. destruct (Hm i l Hi) as (? & ? & ?). split_and!; try done. by eapply translate_pt.
Qed.

Lemma mapped_app s a prot l1 l2 : mapped s a prot (l1 ++ l2) ->
  mapped s a prot l1 /\ mapped s (a + Z.of_nat (length l1)) prot l2.
Proof.
  intros Hm. split; intros i l Hi.
  - apply Hm. by apply lookup_app_l_Some.
  - rewrite <- Z.add_assoc, <- Nat2Z.inj_add. apply Hm. rewrite lookup_app_r by lia.
    by replace (length l1 + i - length l1)%nat with i by lia.
Qed.

Lemma write_bytes_ok s a locs bs : mapped s a PROT_WRITE locs -> length bs = length locs ->
  write_bytes a bs s = Ret tt (with_mem (mem_write (k_mem s) locs bs) s).
Proof.
  revert a locs s. induction bs as [|b bs IH]; intros a [|l locs] s Hm Hlen; try done.
  - cbn. by destruct s.
  - apply mapped_cons in Hm as (Hu & Htr & Ho & Hm). injection Hlen as Hlen. cbn [write_bytes].
    unfold write_byte, store_byte. rewrite Hu, bind_assoc. step Htr. mon. rewrite (IH _ locs); [|by eapply (mapped_pt s)|done].
    destruct l as [f o]. cbn in Ho |- *. by subst o.
Qed.

Lemma read_bytes_ok s a locs : mapped s a PROT_READ locs ->
  read_bytes a (length locs) s = Ret (mem_get (k_mem s) <$> locs) s.
Proof.
  revert a. induction locs as [|l locs IH]; intros a Hm; [done|].
  apply mapped_cons in Hm as (Hu & Htr & Ho & Hm). cbn [read_bytes length].
  unfold read_byte, load_byte. rewrite Hu, bind_assoc. step Htr. mon. step (IH _ Hm).
  unfold ret. cbn. unfold mem_get at 2, page. by rewrite Ho.
Qed.

End code.

Lemma mem_get_set m l b l' : mem_get (mem_set m l b) l' = if decide (l = l') then b else mem_get m l'.
Proof.
  unfold mem_get, mem_set. destruct l as [f o], l' as [f' o']. cbn.
  destruct (decide (f = f')) as [->|Hf].
  - rewrite lookup_insert_eq. cbn. destruct (decide (o = o')) as [->|Ho].
    + by rewrite lookup_insert_eq, decide_True.
    + rewrite lookup_insert_ne, decide_False by congruence. done.
  - rewrite lookup_insert_ne, decide_False by congruence. done.
Qed.

Lemma mem_get_write_ne m locs bs l : l ∉ locs -> mem_get (mem_write m locs bs) l = mem_get m l.
Proof.
  unfold mem_write. revert m bs. induction locs as [|l' locs IH]; intros m [|b bs] Hl; try done. cbn.
  rewrite IH by set_solver. rewrite mem_get_set, decide_False; [done|]. set_solver.
Qed.

(** What was written is read back; no other byte changes. *)
Lemma mem_get_write m locs bs : NoDup locs -> length bs = length locs ->
  mem_get (mem_write m locs bs) <$> locs = bs.
Proof.
  revert m bs. induction locs as [|l locs IH]; intros m [|b bs] Hnd Hlen; try done.
  apply NoDup_cons in Hnd as [Hl Hnd]. injection Hlen as Hlen.
  change (mem_write m (l :: locs) (b :: bs)) with (mem_write (mem_set m l b) locs bs).
  rewrite fmap_cons, IH by done. rewrite mem_get_write_ne, mem_get_set, decide_True by done. done.
Qed.

Lemma bytes_int_bytes v : - 2 ^ 31 <= v < 2 ^ 31 -> bytes_int (int_bytes v) = v.
Proof.
  intros Hv. unfold bytes_int, int_bytes. cbn [foldr]. set (u := u32 v).
  assert (0 <= u < 2 ^ 32) as Hu by (apply Z.mod_pos_bound; lia).
  pose proof (Z.div_mod u 256). pose proof (Z.div_mod (u / 256) 256). pose proof (Z.div_mod (u / 256 / 256) 256).
  replace (2 ^ 8) with 256 by done. replace (2 ^ 16) with (256 * 256) by done.
  replace (2 ^ 24) with (256 * 256 * 256) by done. rewrite <- !Z.div_div by lia.
  assert (u / 256 / 256 / 256 < 256) as Hlt by (repeat (apply Z.div_lt_upper_bound; [lia|]); lia).
  assert (0 <= u / 256 / 256 / 256) as Hge by (repeat (apply Z.div_pos; [|lia]); lia).
  rewrite (Z.mod_small (u / 256 / 256 / 256)) by lia.
  replace (_ + _) with u by lia.
  unfold s32, u32 in *. subst u. cbv zeta. rewrite Z.mod_mod by lia.
  destruct (decide (0 <= v)) as [Hp|Hn].
  - rewrite Z.mod_small by lia. destruct (Z.ltb_spec v (2 ^ 31)); lia.
  - replace (v mod 2 ^ 32) with (v + 2 ^ 32); [|symmetry; rewrite <- (Z.mod_add v 1) by lia; apply Z.mod_small; lia].
    destruct (Z.ltb_spec (v + 2 ^ 32) (2 ^ 31)); lia.
Qed.

Section ints.
Context {QH MH : Type} `{HW : Hardware}.
Implicit Types s : kst QH MH.

(** An [int] that was written through a user pointer is read back. *)
Lemma write_read_int s p v locs : mapped s p PROT_WRITE locs -> mapped s p PROT_READ locs ->
  NoDup locs -> length locs = 4%nat -> - 2 ^ 31 <= v < 2 ^ 31 ->
  let s' := with_mem (mem_write (k_mem s) locs (int_bytes v)) s in
  write_int p v s = Ret tt s' /\ read_int p s' = Ret v s'.
Proof.
  intros Hw Hr Hnd Hlen Hv s'. split.
  - unfold write_int. by apply write_bytes_ok.
  - assert (mapped s' p PROT_READ locs) as Hr' by by apply (mapped_pt s).
    unfold read_int. pose proof (read_bytes_ok _ _ _ Hr') as Hrd. rewrite Hlen in Hrd. step Hrd.
    subst s'. cbn [k_mem with_mem]. rewrite mem_get_write by done. by rewrite bytes_int_bytes.
Qed.
End ints.
