(* ===== verification/Scheduler.v ===== *)
(** The scheduler: KernelDataStructures/Scheduler/Scheduler.c.

    A function that gives the processor away takes, besides its C arguments,
    the point [k] of the kernel that called it: its result is then [Switch]
    with the context that the machine goes on with, and the caller's own
    context, resuming at [k], is saved in its PCB.  When that context is
    resumed, [KernelContextSwitch] returns 0 in it.

    Arguments of [TracePrintf] are not evaluated, except in [forkProcess]. *)

From stdpp Require Import base gmap list.
From S2P Require Import Prelude Hardware Queue HashMap FrameList PageTable State.

Definition CHILDREN_MAP_HASH_BUCKETS : Z := 10.
Definition BLOCKED_MAP_HASH_BUCKETS : Z := 20.
Definition SLEEPING_MAP_HASH_BUCKETS : Z := 20.

Section code.
Context {QH MH : Type} `{HW : Hardware} `{QueueOps QH} `{MapOps MH}.
Abbreviation kst := (kst QH MH).

(** [KERNEL_STACK_MAXSIZE / PAGESIZE] turns of a loop. *)
Definition stack_indices : list Z := seqZ 0 STACK_PAGES.

Definition sizeof_PCB : Z := 40 + 4 * STACK_PAGES.

(** A PCB as [malloc] returns it; the members that are not options are written
    before they are read. *)
Definition fresh_PCB : PCB_t :=
  mkPCB 0 None None None None 0 NULL None None 0 (replicate (Z.to_nat STACK_PAGES) None).

Definition set_stackPfn (i pfn : Z) (x : PCB_t) : PCB_t :=
  with_stackPfns (<[Z.to_nat i := Some pfn]> (stackPfns x)) x.
Definition stackPfn (x : PCB_t) (i : Z) : M kst Z := rd (mjoin (stackPfns x !! Z.to_nat i)).

(** ** Deleting a process *)

Definition free_zombie_t (zombiep_item : ptr) : M kst unit := free_zombie zombiep_item.

(** [free] of a page table. *)
Definition free_entries (base : ptr) : M kst unit :=
  lift (modify (fun t => with_ptes
    (foldr (fun i m => delete (pte_at base i) m) (ptes t) (seqZ 0 MAX_PT_LEN)) t)).

Definition delete_process (pcbp_item : ptr) : M kst unit :=
  if pcbp_item =? NULL then Halt else
  let! pcbp := load_pcb pcbp_item in
  rd (kctxt pcbp) ;;;
  let! childrenMap := rd (childrenMap pcbp) in
  HashMap_delete childrenMap None ;;;
  let! zombieQ := rd (zombieQ pcbp) in
  delete_q zombieQ (Some free_zombie_t) ;;;
  let! ptep := rd (r1PageTable pcbp) in
  let! n := glob numFrames in
  foldM (fun i =>
    let! e := lift (load_pte (pte_at ptep i)) in
    if pte_valid e =? 1 then lift (freeFrame n (pte_pfn e)) else ret tt) (seqZ 0 MAX_PT_LEN) ;;;
  free_entries ptep ;;;
  foldM (fun i =>
    let! pfn := stackPfn pcbp i in
    lift (freeFrame n pfn)) stack_indices ;;;
  free_pcb pcbp_item.

(** ** Initialisation *)

(** The loop of [initPCB] that gives a process its kernel stack; [false] is
    [ERROR]. *)
Fixpoint init_stack (newPCB : ptr) (js : list Z) : M kst bool :=
  match js with
  | [] => ret true
  | j :: js' =>
    let! n := glob numFrames in
    let! o := lift (getFrame n) in
    match o with
    | None => delete_process newPCB ;;; ret false
    | Some pfn => update_pcb newPCB (set_stackPfn j pfn) ;;; init_stack newPCB js'
    end
  end.

(** The pointer stored through [pcbpp], or [None] for [ERROR]. *)
Definition initPCB : M kst (option ptr) :=
  let! newPCB := kmalloc sizeof_PCB in
  if newPCB =? NULL then ret None else
  let! pid := sched nextPid in
  set_sched (with_nextPid (pid + 1)) ;;;
  let! u := kmalloc sizeof_UserContext in
  set_pcb newPCB (with_pid pid (with_uctxt (if u =? NULL then None else Some fresh_UserContext) fresh_PCB)) ;;;
  if u =? NULL then delete_process newPCB ;;; ret None else
  let! cm := lift (HashMap_new CHILDREN_MAP_HASH_BUCKETS) in
  update_pcb newPCB (with_childrenMap cm) ;;;
  if cm =? NULL then delete_process newPCB ;;; ret None else
  update_pcb newPCB (with_kctxt KNull) ;;;
  update_pcb newPCB (with_parent NULL) ;;;
  update_pcb newPCB (with_zombieQ NULL) ;;;
  let! t := lift initializeRegionPageTable in
  if fst t =? ERROR then delete_process newPCB ;;; ret None else
  update_pcb newPCB (with_r1PageTable (snd t)) ;;;
  update_pcb newPCB (with_ticks 0) ;;;
  update_pcb newPCB (with_numChildren 0) ;;;
  let! ok := init_stack newPCB stack_indices in
  ret (if ok then Some newPCB else None).

Definition initProcess : M kst (option ptr) :=
  let! o := initPCB in
  match o with
  | None => ret None
  | Some p =>
    let! rq := sched readyQ in
    let! r := lift (enq_q rq p) in
    ret (if r =? ERROR then None else Some p)
  end.

Definition initInitProcess (initR1PageTable : ptr) : M kst (option ptr) :=
  let! initPCB := kmalloc sizeof_PCB in
  if initPCB =? NULL then ret None else
  let! pid := sched nextPid in
  set_sched (with_nextPid (pid + 1)) ;;;
  set_sched (with_initPid pid) ;;;
  let! u := kmalloc sizeof_UserContext in
  set_pcb initPCB (with_pid pid (with_uctxt (if u =? NULL then None else Some fresh_UserContext) fresh_PCB)) ;;;
  if u =? NULL then ret None else
  let! kc := kmalloc sizeof_KernelContext in
  update_pcb initPCB (with_kctxt (if kc =? NULL then KNull else KNew)) ;;;
  if kc =? NULL then ret None else
  update_pcb initPCB (with_parent NULL) ;;;
  update_pcb initPCB (with_zombieQ NULL) ;;;
  update_pcb initPCB (with_r1PageTable initR1PageTable) ;;;
  update_pcb initPCB (with_ticks 0) ;;;
  update_pcb initPCB (with_numChildren 0) ;;;
  let! cm := lift (HashMap_new CHILDREN_MAP_HASH_BUCKETS) in
  update_pcb initPCB (with_childrenMap cm) ;;;
  let! currPtep := glob r0StackBasePtep in
  foldM (fun i =>
    let! e := lift (load_pte (pte_at currPtep i)) in
    update_pcb initPCB (set_stackPfn i (pte_pfn e))) stack_indices ;;;
  ret (Some initPCB).

(** One terminal's turn of the loop of [initScheduler]; [false] is [ERROR]. *)
Definition init_tty (i : Z) : M kst bool :=
  let! t := lift make_q in
  set_sched (fun c => with_ttyQs (<[Z.to_nat i := t]> (transmittingQs c)) (readingQs c) c) ;;;
  if t =? NULL then ret false else
  let! r := lift make_q in
  set_sched (fun c => with_ttyQs (transmittingQs c) (<[Z.to_nat i := r]> (readingQs c)) c) ;;;
  ret (negb (r =? NULL)).
Fixpoint init_ttys (js : list Z) : M kst Z :=
  match js with
  | [] => ret SUCCESS
  | j :: js' => let! ok := init_tty j in if ok : bool then init_ttys js' else ret ERROR
  end.

Definition initScheduler : M kst Z :=
  set_sched (with_nextPid 0) ;;;
  set_sched (with_nextSyncId 0) ;;;
  let! q := lift make_q in
  set_sched (fun c => with_queues q (blockedMap c) (sleepingMap c) c) ;;;
  if q =? NULL then ret ERROR else
  let! b := lift (HashMap_new BLOCKED_MAP_HASH_BUCKETS) in
  set_sched (fun c => with_queues (readyQ c) b (sleepingMap c) c) ;;;
  if b =? NULL then ret ERROR else
  let! m := lift (HashMap_new SLEEPING_MAP_HASH_BUCKETS) in
  set_sched (fun c => with_queues (readyQ c) (blockedMap c) m c) ;;;
  if m =? NULL then ret ERROR else
  init_ttys (seqZ 0 NUM_TERMINALS).

(** ** Kernel stacks and contexts *)

(** [memmove] of a [KernelContext] into, or out of, a process's [kctxt]. *)
Definition save_kctxt (p : ptr) (kc : KernelContext) : M kst unit :=
  let! x := load_pcb p in
  match kctxt x with
  | Some KNew | Some (KSaved _) => update_pcb p (with_kctxt (KSaved kc))
  | _ => undef
  end.
Definition read_kctxt (p : ptr) : M kst KernelContext :=
  let! x := load_pcb p in
  match kctxt x with Some (KSaved kc) => ret kc | _ => undef end.

(** The virtual address of page [i] of the kernel stack. *)
Definition stack_page (i : Z) : Z := KERNEL_STACK_BASE + i * PAGESIZE.

(** [memmove(starterKernelStack, KERNEL_STACK_BASE, KERNEL_STACK_MAXSIZE)],
    and back. *)
Fixpoint read_stack (js : list Z) : M kst (list (gmap Z Z)) :=
  match js with
  | [] => ret []
  | j :: js' =>
    let! f := translate (stack_page j) PROT_READ in
    let! pg := gets (page f) in
    let! pgs := read_stack js' in
    ret (pg :: pgs)
  end.
Definition write_stack (pages : list (gmap Z Z)) : M kst unit :=
  foldM (fun i =>
    let! pg := rd (pages !! Z.to_nat i) in
    let! f := translate (stack_page i) PROT_WRITE in
    modify (fun s => with_mem (<[f := pg]> (k_mem s)) s)) stack_indices.

Definition getStarterKernelState (currKctxt : KernelContext) : M kst KernelContext :=
  let! st := read_stack stack_indices in
  set_glob (with_starter (Some currKctxt) (Some st)) ;;;
  ret currKctxt.

Definition map_stack (p : ptr) : M kst unit :=
  let! currPtep := glob r0StackBasePtep in
  foldM (fun i =>
    let! x := load_pcb p in
    let! pfn := stackPfn x i in
    lift (setPageTableEntry (pte_at currPtep i) 1 PROT_RW pfn)) stack_indices.

(** A new process gets the starter context and the starter stack. *)
Definition start_process (p : ptr) : M kst unit :=
  let! x := load_pcb p in
  let! kp := rd (kctxt x) in
  match kp with
  | KNull =>
    let! a := kmalloc sizeof_KernelContext in
    if a =? NULL then undef else
    let! kc := glob starterKctxt in
    let! kc := rd kc in
    update_pcb p (with_kctxt (KSaved kc)) ;;;
    let! st := glob starterKernelStack in
    let! st := rd st in
    write_stack st
  | _ => ret tt
  end.

(** [WriteRegister(REG_PTBR1, currPCB->r1PageTable)], and the flush. *)
Definition switch_r1 (p : ptr) : M kst unit :=
  let! x := load_pcb p in
  let! t := rd (r1PageTable x) in
  lift (A := pt) (modify (with_PTBR1 (u32 t))) ;;;
  lift (A := pt) (modify (with_flush TLB_FLUSH_1)).

Definition switchBetween (currPcbP nextPcbP : ptr) (currKctxt : KernelContext) : M kst KernelContext :=
  (if currPcbP =? NULL then ret tt else save_kctxt currPcbP currKctxt) ;;;
  set_sched (with_currPCB nextPcbP) ;;;
  map_stack nextPcbP ;;;
  start_process nextPcbP ;;;
  switch_r1 nextPcbP ;;;
  read_kctxt nextPcbP.

Definition forkTo (childPcbP : ptr) (currKctxt : KernelContext) : M kst KernelContext :=
  let! cur := sched currPCB in
  save_kctxt cur currKctxt ;;;
  set_sched (with_currPCB childPcbP) ;;;
  let! currPtep := glob r0StackBasePtep in
  let! tpte := glob tempPtep in
  let! taddr := glob tempVAddr in
  foldM (fun i =>
    let! x := load_pcb childPcbP in
    let! pfn := stackPfn x i in
    lift (setPageTableEntry tpte 1 PROT_WRITE pfn) ;;;
    copy_page taddr (stack_page i) ;;;
    lift (setPageTableEntry (pte_at currPtep i) 1 PROT_RW pfn)) stack_indices ;;;
  lift (setPageTableEntry tpte 0 PROT_NONE 0) ;;;
  save_kctxt childPcbP currKctxt ;;;
  switch_r1 childPcbP ;;;
  read_kctxt childPcbP.

Definition execTo (currKctxt : KernelContext) : M kst KernelContext :=
  let! cur := sched currPCB in
  let! kc := glob starterKctxt in
  let! kc := rd kc in
  save_kctxt cur kc ;;;
  let! st := glob starterKernelStack in
  let! st := rd st in
  write_stack st ;;;
  read_kctxt cur.

(** ** Scheduling *)

(** The end of the blocking functions: the head of [readyQ] runs next, and
    [currPcbP] (NULL in [exitProcess]) gives it the processor. *)
Definition run_next (currPcbP : ptr) (k : kcont) : M kst Z :=
  let! rq := sched readyQ in
  let! nextPCB := lift (deq_q rq) in
  if nextPCB =? NULL then ret ERROR else
  KernelContextSwitch (switchBetween currPcbP nextPCB) k.

Definition sleepProcess (numRemainingDelayTicks : Z) (k : kcont) : M kst Z :=
  if numRemainingDelayTicks <=? 0 then ret SUCCESS else
  let! cur := sched currPCB in
  update_pcb cur (with_ticks numRemainingDelayTicks) ;;;
  let! x := load_pcb cur in
  let! sm := sched sleepingMap in
  let! r := lift (HashMap_insert sm (pid x) cur) in
  if r =? ERROR then ret ERROR else
  run_next cur k.

(** [errorCountp] points to the local variable of [tickDownSleepers]. *)
Definition tickDownSleeper (key : Z) (sleeper : ptr) : M (kst * Z) unit :=
  lift (update_pcb sleeper (fun x => with_ticks (numRemainingDelayTicks x - 1) x)) ;;;
  let! x := lift (load_pcb sleeper) in
  if numRemainingDelayTicks x <=? 0 then
    let! sm := lift (sched sleepingMap) in
    let! removed := lift (HashMap_remove sm (pid x)) in
    if removed =? NULL then modify (fun sl => (fst sl, snd sl + 1)) else
    let! rq := lift (sched readyQ) in
    let! r := lift (A := QH) (enq_q rq sleeper) in
    if r =? ERROR then modify (fun sl => (fst sl, snd sl + 1)) else ret tt
  else ret tt.

Definition tickDownSleepers : M kst Z :=
  let! sm := sched sleepingMap in
  let! res := with_local 0 (HashMap_iterate sm tickDownSleeper) in
  ret (if 0 <? snd res then ERROR else SUCCESS).

Definition kickProcess (k : kcont) : M kst Z :=
  let! rq := sched readyQ in
  if rq =? NULL then ret ERROR else
  let! hd := lift (peek_q rq) in
  if hd =? NULL then ret SUCCESS else
  let! cur := sched currPCB in
  let! r := lift (enq_q rq cur) in
  if r =? ERROR then ret ERROR else
  run_next cur k.

Definition execProcess (k : kcont) : M kst Z := KernelContextSwitch execTo k.

Definition forkProcess (childPCB : ptr) (k : kcont) : M kst Z :=
  let! child := load_pcb childPCB in   (* [TracePrintf] reads [childPCB->pid] *)
  let! cur := sched currPCB in
  if parent child =? NULL then ret ERROR else
  let! par := load_pcb (parent child) in
  let! c := load_pcb cur in
  if negb (pid par =? pid c) then ret ERROR else
  let! rq := sched readyQ in
  let! r := lift (enq_q rq cur) in
  if r =? ERROR then ret ERROR else
  KernelContextSwitch (forkTo childPCB) k.

Definition blockProcess (k : kcont) : M kst Z :=
  let! cur := sched currPCB in
  let! x := load_pcb cur in
  let! bm := sched blockedMap in
  let! r := lift (HashMap_insert bm (pid x) cur) in
  if r =? ERROR then ret ERROR else
  run_next cur k.

Definition unblockProcess (pid : Z) : M kst Z :=
  let! bm := sched blockedMap in
  if bm =? NULL then ret ERROR else
  let! unblockedPCB := lift (HashMap_remove bm pid) in
  if unblockedPCB =? NULL then ret SUCCESS else
  let! rq := sched readyQ in
  lift (enq_q rq unblockedPCB).

Definition removeParent (pid : Z) (childPCB : ptr) : M kst unit :=
  update_pcb childPCB (with_parent NULL).

(** The part of [exitProcess] that leaves a zombie with the parent; [false]
    is [ERROR]. *)
Definition leave_zombie (cur : ptr) (exit_status : Z) : M kst bool :=
  let! x := load_pcb cur in
  let parentPcbp := parent x in
  if parentPcbp =? NULL then ret true else
  let! par := load_pcb parentPcbp in
  let! zq := rd (zombieQ par) in
  let! q := (if zq =? NULL then
               let! q := lift make_q in
               update_pcb parentPcbp (with_zombieQ q) ;;; ret q
             else ret zq) in
  if q =? NULL then ret false else
  let! childZombiep := kmalloc 8 in
  if childZombiep =? NULL then undef else
  set_zombie childZombiep (mkZombie (pid x) exit_status) ;;;
  let! r := lift (enq_q q childZombiep) in
  if r =? ERROR then ret false else
  unblockProcess (pid par) ;;;
  ret true.

Definition exitProcess (exit_status : Z) : M kst Z :=
  let! cur := sched currPCB in
  let! ok := leave_zombie cur exit_status in
  if negb ok then ret ERROR else
  let! x := load_pcb cur in
  let! cm := rd (childrenMap x) in
  HashMap_iterate cm removeParent ;;;
  delete_process cur ;;;
  run_next NULL KExit.

(** ** Terminals *)

(** [a[tty_id]], which must be inside the array. *)
Definition tty_at (a : list ptr) (tty_id : Z) : M kst ptr :=
  rd (if 0 <=? tty_id then a !! Z.to_nat tty_id else None).
Definition set_currTransmitter (tty_id : Z) (p : ptr) : M kst unit :=
  let! a := sched currTransmitters in
  tty_at a tty_id ;;;
  set_sched (with_currTransmitters (<[Z.to_nat tty_id := p]> a)).

Definition isTtyTransmitAvailable (tty_id : Z) : M kst bool :=
  let! a := sched currTransmitters in
  let! p := tty_at a tty_id in
  ret (p =? NULL).

Definition blockTransmitter (tty_id : Z) (k : kcont) : M kst Z :=
  let! a := sched transmittingQs in
  let! transmittingQ := tty_at a tty_id in
  let! cur := sched currPCB in
  let! r := lift (enq_q transmittingQ cur) in
  if r =? ERROR then ret ERROR else
  run_next cur k.

Definition unblockTransmitter (tty_id : Z) : M kst Z :=
  set_currTransmitter tty_id NULL ;;;
  let! a := sched transmittingQs in
  let! transmittingQ := tty_at a tty_id in
  if transmittingQ =? NULL then ret ERROR else
  let! unblockedPCB := lift (deq_q transmittingQ) in
  if unblockedPCB =? NULL then ret SUCCESS else
  let! rq := sched readyQ in
  lift (enq_q rq unblockedPCB).

Definition waitTransmitter (tty_id : Z) (k : kcont) : M kst Z :=
  let! cur := sched currPCB in
  set_currTransmitter tty_id cur ;;;
  run_next cur k.

Definition signalTransmitter (tty_id : Z) (k : kcont) : M kst Z :=
  let! rq := sched readyQ in
  let! cur := sched currPCB in
  let! r := lift (enq_q rq cur) in
  if r =? ERROR then ret ERROR else
  let! a := sched currTransmitters in
  let! nextPCB := tty_at a tty_id in
  if nextPCB =? NULL then ret ERROR else
  KernelContextSwitch (switchBetween cur nextPCB) k.

Definition blockReader (tty_id : Z) (k : kcont) : M kst Z :=
  let! a := sched readingQs in
  let! readingQ := tty_at a tty_id in
  let! cur := sched currPCB in
  let! r := lift (enq_q readingQ cur) in
  if r =? ERROR then ret ERROR else
  run_next cur k.

Definition unblockReader (tty_id : Z) : M kst Z :=
  let! a := sched readingQs in
  let! readingQ := tty_at a tty_id in
  if readingQ =? NULL then ret ERROR else
  let! unblockedPCB := lift (deq_q readingQ) in
  if unblockedPCB =? NULL then ret SUCCESS else
  let! rq := sched readyQ in
  lift (enq_q rq unblockedPCB).

End code.
