(* ===== verification/SyncObjects.v ===== *)
(** Locks, condition variables and pipes: KernelDataStructures/SyncObjects
    (Lock.c, CVar.c, Pipe.c) and the system calls on them, KernelCalls
    (LockKernelCalls.c, CVarKernelCalls.c, PipeKernelCalls.c).

    A system call that waits in [blockProcess] inside a loop is cut at this
    point: the loop's turn ends in [Switch], and the process, once resumed,
    goes on with the function that the saved [kcont] stands for
    ([Machine.resume]).  [blockProcess] returns to its caller only with
    [ERROR]. *)

From stdpp Require Import base gmap list.
From S2P Require Import Prelude Hardware Queue HashMap FrameList PageTable State UserMem Scheduler.

(** An addition of [int]s, whose overflow is undefined. *)
Definition add_int {S} (a b : Z) : M S Z :=
  if (- 2 ^ 31 <=? a + b) && (a + b <? 2 ^ 31) then ret (a + b) else undef.

Section code.
Context {QH MH : Type} `{HW : Hardware} `{QueueOps QH} `{MapOps MH}.
Abbreviation kst := (kst QH MH).

(** ** Lock.c *)

Definition LOCK_MAP_HASH_BUCKETS : Z := 20.

Definition initLockMap : M kst Z :=
  let! m := lift (HashMap_new LOCK_MAP_HASH_BUCKETS) in
  set_sched (fun c => with_syncMaps m (cvarMap c) (pipeMap c) c) ;;;
  ret (if m =? NULL then ERROR else SUCCESS).

(** The lock object is written at once, when its queue exists; until then no
    other object points to it. *)
Definition initLock (lock_idp : ptr) : M kst Z :=
  let! lockp := kmalloc 8 in
  if lockp =? NULL then ret ERROR else
  let! q := lift make_q in
  if q =? NULL then ret ERROR else
  set_lock lockp (mkLock NULL q) ;;;
  let! id := sched nextSyncId in
  set_sched (with_nextSyncId (id + 1)) ;;;
  write_int lock_idp id ;;;
  let! m := sched lockMap in
  let! id' := read_int lock_idp in
  lift (HashMap_insert m id' lockp).

Definition getLock (lock_id : Z) : M kst ptr :=
  let! m := sched lockMap in
  lift (HashMap_find m lock_id).

Definition deleteLock (lock_id : Z) : M kst Z :=
  let! m := sched lockMap in
  let! lockp := lift (HashMap_remove m lock_id) in
  if lockp =? NULL then ret ERROR else
  let! q := lift make_q in
  let! l := load_lock lockp in
  set_lock lockp (mkLock (ownerPcbp l) q) ;;;
  if q =? NULL then ret ERROR else
  if negb (ownerPcbp l =? NULL) then ret ERROR else
  let! hd := lift (peek_q q) in
  if negb (hd =? NULL) then ret ERROR else
  delete_q q None ;;;
  free_lock lockp ;;;
  ret SUCCESS.

(** ** CVar.c *)

Definition CVAR_MAP_HASH_BUCKETS : Z := 20.

Definition initCvarMap : M kst Z :=
  let! m := lift (HashMap_new CVAR_MAP_HASH_BUCKETS) in
  set_sched (fun c => with_syncMaps (lockMap c) m (pipeMap c) c) ;;;
  ret (if m =? NULL then ERROR else SUCCESS).

Definition initCvar (cvar_idp : ptr) : M kst Z :=
  let! cvarQ := lift make_q in
  if cvarQ =? NULL then ret ERROR else
  let! id := sched nextSyncId in
  set_sched (with_nextSyncId (id + 1)) ;;;
  write_int cvar_idp id ;;;
  let! m := sched cvarMap in
  let! id' := read_int cvar_idp in
  lift (HashMap_insert m id' cvarQ).

Definition getCvar (cvar_id : Z) : M kst ptr :=
  let! m := sched cvarMap in
  lift (HashMap_find m cvar_id).

Definition deleteCvar (cvar_id : Z) : M kst Z :=
  let! m := sched cvarMap in
  let! cvarQ := lift (HashMap_remove m cvar_id) in
  if cvarQ =? NULL then ret ERROR else
  let! hd := lift (peek_q cvarQ) in
  if negb (hd =? NULL) then ret ERROR else
  delete_q cvarQ None ;;;
  ret SUCCESS.

(** ** Pipe.c *)

Definition PIPE_MAP_HASH_BUCKETS : Z := 20.
Definition PIPE_MAX_BYTES : Z := Z.quot TERMINAL_MAX_LINE 2.

Definition initPipeMap : M kst Z :=
  let! m := lift (HashMap_new PIPE_MAP_HASH_BUCKETS) in
  set_sched (fun c => with_syncMaps (lockMap c) (cvarMap c) m c) ;;;
  ret (if m =? NULL then ERROR else SUCCESS).

(** As for [initLock], the object is written once its parts exist. *)
Definition initPipe (pipe_idp : ptr) : M kst Z :=
  let! pipep := kmalloc 12 in
  if pipep =? NULL then ret ERROR else
  let! buf := kmalloc PIPE_MAX_BYTES in
  if buf =? NULL then ret ERROR else
  let! q := lift make_q in
  if q =? NULL then ret ERROR else
  set_pipe pipep (mkPipe (replicate (Z.to_nat PIPE_MAX_BYTES) None) 0 q) ;;;
  let! id := sched nextSyncId in
  set_sched (with_nextSyncId (id + 1)) ;;;
  write_int pipe_idp id ;;;
  let! m := sched pipeMap in
  let! id' := read_int pipe_idp in
  lift (HashMap_insert m id' pipep).

Definition getPipe (pipe_id : Z) : M kst ptr :=
  let! m := sched pipeMap in
  lift (HashMap_find m pipe_id).

Definition deletePipe (pipe_id : Z) : M kst Z :=
  let! m := sched pipeMap in
  let! pipep := lift (HashMap_remove m pipe_id) in
  if pipep =? NULL then ret ERROR else
  let! p := load_pipe pipep in
  if pipe_waitingQ p =? NULL then ret ERROR else
  let! hd := lift (peek_q (pipe_waitingQ p)) in
  if negb (hd =? NULL) then ret ERROR else
  delete_q (pipe_waitingQ p) None ;;;
  free_pipe pipep ;;;
  ret SUCCESS.

(** ** LockKernelCalls.c *)

Definition KernelLockInit (lock_idp : ptr) : M kst Z := initLock lock_idp.

(** The loop of [KernelAcquire], and what follows it. *)
Definition acquire_loop (lockp : ptr) : M kst Z :=
  let! l := load_lock lockp in
  let! cur := sched currPCB in
  if ownerPcbp l =? NULL then
    set_lock lockp (mkLock cur (lock_waitingQ l)) ;;;
    ret SUCCESS
  else
    let! r := lift (enq_q (lock_waitingQ l) cur) in
    if r =? ERROR then ret ERROR else
    blockProcess (KAcquire lockp).

Definition KernelAcquire (lock_id : Z) : M kst Z :=
  let! lockp := getLock lock_id in
  if lockp =? NULL then ret ERROR else acquire_loop lockp.

Definition KernelRelease (lock_id : Z) : M kst Z :=
  let! lockp := getLock lock_id in
  if lockp =? NULL then ret ERROR else
  let! l := load_lock lockp in
  let! cur := sched currPCB in
  if (ownerPcbp l =? NULL) || negb (ownerPcbp l =? cur) || (lock_waitingQ l =? NULL) then ret ERROR else
  set_lock lockp (mkLock NULL (lock_waitingQ l)) ;;;
  let! waiterPcbp := lift (deq_q (lock_waitingQ l)) in
  if waiterPcbp =? NULL then ret SUCCESS else
  let! w := load_pcb waiterPcbp in
  unblockProcess (pid w).

(** ** CVarKernelCalls.c *)

Definition KernelCvarInit (cvar_idp : ptr) : M kst Z := initCvar cvar_idp.

Definition KernelCvarWait (cvar_id lock_id : Z) : M kst Z :=
  let! cvarQ := getCvar cvar_id in
  if cvarQ =? NULL then ret ERROR else
  let! cur := sched currPCB in
  let! r := lift (enq_q cvarQ cur) in
  if r =? ERROR then ret ERROR else
  KernelRelease lock_id ;;;
  blockProcess (KCvarWait lock_id).

Definition KernelCvarSignal (cvar_id : Z) : M kst Z :=
  let! cvarQ := getCvar cvar_id in
  if cvarQ =? NULL then ret ERROR else
  let! waitingPcbp := lift (deq_q cvarQ) in
  if waitingPcbp =? NULL then ret SUCCESS else
  let! w := load_pcb waitingPcbp in
  unblockProcess (pid w).

(** The loop of [KernelCvarBroadcast].  It ends when the queue is empty; the
    fuel is any number larger than the queue's length. *)
Fixpoint broadcast_loop (fuel : nat) (cvarQ : ptr) : M kst Z :=
  match fuel with
  | O => undef
  | Datatypes.S fuel' =>
    let! waitingPcbp := lift (deq_q cvarQ) in
    if waitingPcbp =? NULL then ret SUCCESS else
    let! w := load_pcb waitingPcbp in
    let! r := unblockProcess (pid w) in
    if r =? ERROR then ret ERROR else broadcast_loop fuel' cvarQ
  end.

Definition KernelCvarBroadcast (fuel : nat) (cvar_id : Z) : M kst Z :=
  let! cvarQ := getCvar cvar_id in
  if cvarQ =? NULL then ret ERROR else broadcast_loop fuel cvarQ.

(** ** PipeKernelCalls.c *)

Definition KernelPipeInit (pipe_idp : ptr) : M kst Z := initPipe pipe_idp.

(** The end of [KernelPipeRead], once the process is at the head of the queue
    and [len] bytes are there. *)
Definition pipe_read_finish (pipep waitingQ buf : ptr) (len : Z) : M kst Z :=
  let! hd := lift (deq_q waitingQ) in
  if hd =? NULL then ret ERROR else
  let! p := load_pipe pipep in
  let! bs := rd (if len <=? Z.of_nat (length (buffer p)) then mapM id (take (Z.to_nat len) (buffer p)) else None) in
  write_bytes buf bs ;;;
  let! p := load_pipe pipep in
  let numRemainingBytes := numBytesWritten p - len in
  set_pipe pipep (mkPipe (buffer p) numRemainingBytes (pipe_waitingQ p)) ;;;
  (if 0 <? numRemainingBytes then
     let moved := take (Z.to_nat numRemainingBytes) (drop (Z.to_nat len) (buffer p)) in
     set_pipe pipep (mkPipe (moved ++ drop (length moved) (buffer p)) numRemainingBytes (pipe_waitingQ p)) ;;;
     let! nextWaiterPcbp := lift (peek_q waitingQ) in
     if nextWaiterPcbp =? NULL then ret len else
     let! w := load_pcb nextWaiterPcbp in
     let! r := unblockProcess (pid w) in
     ret (if r =? ERROR then ERROR else len)
   else ret len).

(** The waiting loop of [KernelPipeRead], and what follows it. *)
Definition pipe_read_loop (pipep waitingQ buf : ptr) (len : Z) : M kst Z :=
  let! p := load_pipe pipep in
  if numBytesWritten p <? len then blockProcess (KPipeReadBytes pipep waitingQ buf len)
  else pipe_read_finish pipep waitingQ buf len.

Definition KernelPipeRead (pipe_id : Z) (buf : ptr) (len : Z) : M kst Z :=
  if len <? 0 then ret ERROR else
  if len =? 0 then ret SUCCESS else
  let! pipep := getPipe pipe_id in
  if pipep =? NULL then ret ERROR else
  let! p := load_pipe pipep in
  let waitingQ := pipe_waitingQ p in
  if waitingQ =? NULL then ret ERROR else
  let! cur := sched currPCB in
  let! r := lift (enq_q waitingQ cur) in
  if r =? ERROR then ret ERROR else
  let! hd := lift (peek_q waitingQ) in
  if negb (hd =? cur) then blockProcess (KPipeReadTurn pipep waitingQ buf len)
  else pipe_read_loop pipep waitingQ buf len.

Definition KernelPipeWrite (pipe_id : Z) (buf : ptr) (len : Z) : M kst Z :=
  if len <? 0 then ret ERROR else
  if len =? 0 then ret SUCCESS else
  let! pipep := getPipe pipe_id in
  if pipep =? NULL then ret ERROR else
  let! p := load_pipe pipep in
  let! total := add_int (numBytesWritten p) len in
  if PIPE_MAX_BYTES <? total then ret ERROR else
  let! bs := read_bytes buf (Z.to_nat len) in
  let n := Z.to_nat (numBytesWritten p) in
  set_pipe pipep (mkPipe (take n (buffer p) ++ (Some <$> bs) ++ drop (n + length bs) (buffer p))
                    total (pipe_waitingQ p)) ;;;
  let! nextWaiterPcbp := lift (peek_q (pipe_waitingQ p)) in
  if nextWaiterPcbp =? NULL then ret len else
  let! w := load_pcb nextWaiterPcbp in
  let! r := unblockProcess (pid w) in
  ret (if r =? ERROR then ERROR else len).

End code.
