(* ===== verification/LoadProgram.v ===== *)
(** Loading programs: LoadProgram.c.

    The Linux calls ([open], [lseek], [read]) and [LoadInfo] are not part of
    the repository: they are the parameters of the class [FileSystem].  The
    strings [name] and [args] are given by their bytes, without the final
    zero; the caller reads them from memory ([GeneralCalls.read_string]), which
    [LoadProgram] itself does before it touches region 1. *)

From stdpp Require Import base gmap list.
From S2P Require Import Prelude Hardware Queue HashMap FrameList PageTable State UserMem Scheduler.

(** [struct load_info] of load_info.h. *)
Record load_info := mkLoadInfo {
  entry : Z;
  t_vaddr : Z; t_npg : Z; t_faddr : Z;
  id_vaddr : Z; id_npg : Z; id_faddr : Z; id_end : Z;
  ud_npg : Z; ud_end : Z
}.

(** [open_file] gives a file or fails; [LoadInfo] fails for a file that is not
    in the format; [read_file fd off n] is the bytes that [lseek] to [off] and
    [read] of [n] bytes return, [n] of them or fewer. *)
Class FileSystem := {
  file : Type;
  open_file : list Z -> option file;
  LoadInfo : file -> option load_info;
  read_file : file -> Z -> Z -> list Z
}.

Section code.
Context {QH MH : Type} `{HW : Hardware} `{FS : FileSystem}.
Abbreviation kst := (kst QH MH).

(** A write through [proc->uctxt]. *)
Definition update_uctxt (proc : ptr) (f : UserContext -> UserContext) : M kst unit :=
  let! x := load_pcb proc in
  match uctxt x with
  | Some u => update_pcb proc (with_uctxt (Some (f u)))
  | None => undef
  end.
Definition set_sp (sp : Z) (u : UserContext) : UserContext :=
  mkUctxt (uc_code u) (uc_addr u) (uc_pc u) sp (uc_ebp u) (uc_regs u).
Definition set_ebp (ebp : Z) (u : UserContext) : UserContext :=
  mkUctxt (uc_code u) (uc_addr u) (uc_pc u) (uc_sp u) ebp (uc_regs u).
Definition set_pc (pc : Z) (u : UserContext) : UserContext :=
  mkUctxt (uc_code u) (uc_addr u) pc (uc_sp u) (uc_ebp u) (uc_regs u).

(** The loops that map [n] new frames from [ptep] on; [false]: no frame. *)
Fixpoint alloc_pages (n : nat) (ptep : ptr) : M kst bool :=
  match n with
  | O => ret true
  | S n' =>
    let! nf := glob numFrames in
    let! o := lift (getFrame nf) in
    match o with
    | None => ret false
    | Some pfn => lift (setPageTableEntry ptep 1 PROT_RW pfn) ;;; alloc_pages n' (pte_at ptep 1)
    end
  end.

(** The loop that throws away the old region 1. *)
Definition free_region1 (base : ptr) : M kst unit :=
  foldM (fun i =>
    let! e := lift (load_pte (pte_at base i)) in
    if pte_valid e =? 1 then
      let! nf := glob numFrames in
      lift (freeFrame nf (pte_pfn e)) ;;;
      lift (invalidatePageTableEntry (pte_at base i))
    else ret tt) (seqZ 0 MAX_PT_LEN).

(** The loop that makes the text read-only. *)
Definition protect_text (n : Z) (ptep : ptr) : M kst unit :=
  foldM (fun i =>
    let! e := lift (load_pte (pte_at ptep i)) in
    lift (setPageTableEntry (pte_at ptep i) (pte_valid e) PROT_RX (pte_pfn e))) (seqZ 0 n).

(** The argument strings and the pointers to them: the last loop. *)
Fixpoint write_args (cp cpp : Z) (args : list (list Z)) : M kst Z :=
  match args with
  | [] => ret cpp
  | a :: args' =>
    write_int cpp cp ;;;
    write_bytes cp (a ++ [0]) ;;;
    write_args (cp + Z.of_nat (length a) + 1) (cpp + 4) args'
  end.

Definition args_size (args : list (list Z)) : Z :=
  foldr (fun a n => Z.of_nat (length a) + 1 + n) 0 args.
Definition args_base (cp argcount : Z) : Z :=
  Z.land (cp - (argcount + 3 + POST_ARGV_NULL_SPACE) * 4) (Z.lnot 7).

(** The layout of the new address space: the first pages of text and data, the
    number of pages of data, and from the top of region 1 down the argument
    strings, the vector of pointers to them, and the stack pointer. *)
Definition text_pg1 (li : load_info) : Z := Z.shiftr (t_vaddr li - VMEM_1_BASE) PAGESHIFT.
Definition data_pg1 (li : load_info) : Z := Z.shiftr (id_vaddr li - VMEM_1_BASE) PAGESHIFT.
Definition data_npg (li : load_info) : Z := id_npg li + ud_npg li.
Definition args_cp (args : list (list Z)) : Z := VMEM_1_LIMIT - args_size args.
Definition args_cpp (args : list (list Z)) : Z := args_base (args_cp args) (Z.of_nat (length args)).
Definition args_sp (args : list (list Z)) : Z := args_cpp args - INITIAL_STACK_FRAME_SIZE.
Definition stack_npg (args : list (list Z)) : Z :=
  Z.shiftr (VMEM_1_LIMIT - DOWN_TO_PAGE (args_sp args)) PAGESHIFT.

(** The old region 1 is thrown away, and the pages of the new program are
    mapped; [false]: no frame. *)
Definition map_program (proc base : ptr) (li : load_info) (args : list (list Z)) : M kst bool :=
  free_region1 base ;;;
  let! ok := alloc_pages (Z.to_nat (t_npg li)) (pte_at base (text_pg1 li)) in
  if negb ok then ret false else
  let! ok := alloc_pages (Z.to_nat (data_npg li)) (pte_at base (data_pg1 li)) in
  if negb ok then ret false else
  update_pcb proc (with_brk (Some (VMEM_1_BASE + (data_npg li + t_npg li) * PAGESIZE))) ;;;
  alloc_pages (Z.to_nat (stack_npg args)) (pte_at base (MAX_PT_LEN - stack_npg args)).

(** [lseek] and [read] of [npg] pages of the file at [faddr] to [vaddr];
    [false]: the file ends before. *)
Definition read_segment (fd : file) (vaddr npg faddr : Z) : M kst bool :=
  let segment_size := Z.shiftl npg PAGESHIFT in
  let bytes := read_file fd faddr segment_size in
  write_bytes vaddr bytes ;;;
  ret (Z.of_nat (length bytes) =? segment_size).

(** The argument list on the new stack. *)
Definition build_args (args : list (list Z)) : M kst unit :=
  let cpp := args_cpp args in
  write_bytes cpp (replicate (Z.to_nat (VMEM_1_LIMIT - cpp)) 0) ;;;
  write_int cpp (Z.of_nat (length args)) ;;;
  let! cpp := write_args (args_cp args) (cpp + 4) args in
  write_int cpp NULL ;;;
  write_int (cpp + 4) NULL.

Definition LoadProgram (name : list Z) (args : list (list Z)) (proc : ptr) : M kst Z :=
  match open_file name with
  | None => ret ERROR
  | Some fd =>
  match LoadInfo fd with
  | None => ret (-1)
  | Some li =>
  if entry li <? VMEM_1_BASE then ret ERROR else
  if MAX_PT_LEN <=? stack_npg args + data_pg1 li + data_npg li then ret ERROR else
  update_uctxt proc (set_sp (args_sp args)) ;;;
  update_uctxt proc (set_ebp (args_sp args)) ;;;
  let! argbuf := kmalloc (args_size args) in
  if argbuf =? NULL then ret KILL else
  let! x := load_pcb proc in
  let! base := rd (r1PageTable x) in
  let! ok := map_program proc base li args in
  if negb ok then ret KILL else
  let! ok := read_segment fd (t_vaddr li) (t_npg li) (t_faddr li) in
  if negb ok then ret KILL else
  let! ok := read_segment fd (id_vaddr li) (id_npg li) (id_faddr li) in
  if negb ok then ret KILL else
  protect_text (t_npg li) (pte_at base (text_pg1 li)) ;;;
  write_bytes (id_end li) (replicate (Z.to_nat (ud_end li - id_end li)) 0) ;;;
  update_uctxt proc (set_pc (entry li)) ;;;
  build_args args ;;;
  ret SUCCESS
  end end.

(** [DoIdle] is given by its address. *)
Definition LoadIdle (DoIdle : Z) (idlePCB : ptr) : M kst Z :=
  let! x := load_pcb idlePCB in
  let! base := rd (r1PageTable x) in
  let! nf := glob numFrames in
  let! o := lift (getFrame nf) in
  match o with
  | None => ret ERROR
  | Some pfn =>
    lift (setPageTableEntryNoFlush (pte_at base (MAX_PT_LEN - 1)) 1 PROT_RW pfn) ;;;
    let cp2 := args_base VMEM_1_LIMIT 0 - INITIAL_STACK_FRAME_SIZE in
    update_uctxt idlePCB (set_sp cp2) ;;;
    update_uctxt idlePCB (set_pc DoIdle) ;;;
    update_uctxt idlePCB (set_ebp cp2) ;;;
    ret SUCCESS
  end.

End code.
