(* ===== verification/GeneralCalls.v ===== *)
(** The system calls of KernelCalls/GeneralKernelCalls.c, and [SetKernelBrk]
    and [SetKernelData] of Kernel.c.

    The calls that wait are cut as in SyncObjects: what a resumed process goes
    on with is a function of its own ([fork_return], [wait_finish]). *)

From stdpp Require Import base gmap list.
From S2P Require Import Prelude Hardware Queue HashMap FrameList PageTable State UserMem Scheduler SyncObjects LoadProgram.

Section code.
Context {QH MH : Type} `{HW : Hardware} `{QueueOps QH} `{MapOps MH} `{FS : FileSystem}.
Abbreviation kst := (kst QH MH).

(** ** Checking user pointers *)

(** The page table entry of an address and the first page number beyond its
    region: the beginning of [isValidBuffer] and [isValidString]. *)
Definition first_pte (vpn : Z) : M kst (option (ptr * Z)) :=
  let! base0 := gets (fun s => REG_PTBR0 (k_pt s)) in
  let! base1 := gets (fun s => REG_PTBR1 (k_pt s)) in
  if vpn <? MAX_PT_LEN then ret (Some (pte_at base0 (vpn - KERNEL_BASE_VPN), MAX_PT_LEN))
  else if vpn <? 2 * MAX_PT_LEN then ret (Some (pte_at base1 (vpn - USER_BASE_VPN), 2 * MAX_PT_LEN))
  else ret None.

(** The loop of [isValidBuffer]; each turn takes a page from [remainingLen]. *)
Fixpoint buffer_loop (fuel : nat) (currPtep : ptr) (remainingLen prot : Z) : M kst bool :=
  if 0 <? remainingLen then
    match fuel with
    | O => undef
    | S fuel' =>
      let! e := lift (load_pte currPtep) in
      if negb (pte_valid e =? 1) then ret false else
      if negb (Z.land (pte_prot e) prot =? prot) then ret false else
      buffer_loop fuel' (pte_at currPtep 1) (remainingLen - PAGESIZE) prot
    end
  else ret true.

Definition isValidBuffer (buffer : ptr) (len prot : Z) : M kst bool :=
  if buffer =? NULL then ret false else
  if len <=? 0 then ret true else
  let! o := first_pte (Z.shiftr (u32 buffer) PAGESHIFT) in
  match o with
  | None => ret false
  | Some (currPtep, _) => buffer_loop (S (Z.to_nat (len / PAGESIZE))) currPtep len prot
  end.

(** The inner loop of [isValidString]: is there a zero in the [n] bytes from
    [c] on? *)
Fixpoint scan_bytes (n : nat) (c : Z) : M kst bool :=
  match n with
  | O => ret false
  | S n' => let! b := read_byte c in if b =? 0 then ret true else scan_bytes n' (c + 1)
  end.

(** The outer loop; [currPtep] stays the same from page to page. *)
Fixpoint string_loop (n : nat) (currPtep : ptr) (currCharp nextPageBase : Z) : M kst bool :=
  match n with
  | O => ret false
  | S n' =>
    let! e := lift (load_pte currPtep) in
    if negb (pte_valid e =? 1) || negb (Z.land (pte_prot e) PROT_READ =? PROT_READ) then ret false else
    let! found := scan_bytes (Z.to_nat (nextPageBase - currCharp)) currCharp in
    if found : bool then ret true else
    string_loop n' currPtep (Z.max currCharp nextPageBase) (nextPageBase + PAGESIZE)
  end.

Definition isValidString (string : ptr) : M kst bool :=
  if string =? NULL then ret false else
  let firstPageBase := DOWN_TO_PAGE (u32 string) in
  let firstPageVpn := Z.shiftr firstPageBase PAGESHIFT in
  let! o := first_pte firstPageVpn in
  match o with
  | None => ret false
  | Some (currPtep, maxVpn) =>
    string_loop (Z.to_nat (maxVpn - firstPageVpn)) currPtep string (firstPageBase + PAGESIZE)
  end.

(** The bytes of a string, up to its zero. *)
Fixpoint string_bytes (fuel : nat) (c : Z) : M kst (list Z) :=
  match fuel with
  | O => undef
  | S fuel' =>
    let! b := read_byte c in
    if b =? 0 then ret [] else
    let! bs := string_bytes fuel' (c + 1) in ret (b :: bs)
  end.
Definition read_string (c : ptr) : M kst (list Z) := string_bytes (Z.to_nat (VMEM_1_LIMIT - c)) c.

(** ** Processes *)

(** One page of the loop of [KernelFork]; [false]: no frame. *)
Definition fork_copy_page (parentPt childPt : ptr) (i : Z) : M kst bool :=
  let! e := lift (load_pte (pte_at parentPt i)) in
  if pte_valid e =? 1 then
    let! nf := glob numFrames in
    let! o := lift (getFrame nf) in
    match o with
    | None => ret false
    | Some pfn =>
      let! tpte := glob tempPtep in
      let! taddr := glob tempVAddr in
      lift (setPageTableEntry tpte 1 PROT_WRITE pfn) ;;;
      copy_page taddr (VMEM_1_BASE + i * PAGESIZE) ;;;
      lift (setPageTableEntryNoFlush (pte_at childPt i) 1 (pte_prot e) pfn) ;;;
      ret true
    end
  else ret true.
Fixpoint fork_copy (parentPt childPt : ptr) (pages : list Z) : M kst bool :=
  match pages with
  | [] => ret true
  | i :: pages' =>
    let! ok := fork_copy_page parentPt childPt i in
    if ok : bool then fork_copy parentPt childPt pages' else ret false
  end.

(** The pages of region 1, [addr = VMEM_1_BASE + i * PAGESIZE]. *)
Definition region1_pages : list Z := seqZ 0 (Z.quot (VMEM_1_LIMIT - VMEM_1_BASE) PAGESIZE).

(** After [forkProcess], in the parent or in the child. *)
Definition fork_return (parentPCB childPCB : ptr) : M kst Z :=
  let! cur := sched currPCB in
  let! c := load_pcb cur in
  let! p := load_pcb parentPCB in
  let! ch := load_pcb childPCB in
  ret (if pid c =? pid p then pid ch else if pid c =? pid ch then SUCCESS else ERROR).

(** [KernelFork] from the copy of region 1 on. *)
Definition fork_rest (childPCB childPt parentPt parentPCB : ptr) : M kst Z :=
  let! ok := fork_copy parentPt childPt region1_pages in
  if negb ok then ret ERROR else
  let! tpte := glob tempPtep in
  lift (setPageTableEntry tpte 0 PROT_NONE 0) ;;;
  update_pcb childPCB (with_parent parentPCB) ;;;
  let! p := load_pcb parentPCB in
  let! c := load_pcb childPCB in
  let! cm := rd (childrenMap p) in
  lift (HashMap_insert cm (pid c) childPCB) ;;;
  update_pcb parentPCB (fun p => with_numChildren (u32 (numChildren p + 1)) p) ;;;
  let! r := forkProcess childPCB (KFork parentPCB childPCB) in
  if r =? ERROR then ret ERROR else
  fork_return parentPCB childPCB.

Definition KernelFork : M kst Z :=
  let! parentPCB := sched currPCB in
  let! o := initPCB in
  match o with
  | None => ret ERROR
  | Some childPCB =>
    let! a := kmalloc sizeof_KernelContext in
    update_pcb childPCB (with_kctxt (if a =? NULL then KNull else KNew)) ;;;
    let! p := load_pcb parentPCB in
    let! u := rd (uctxt p) in
    update_pcb childPCB (with_uctxt (Some u)) ;;;
    update_pcb childPCB (with_brk (brk p)) ;;;
    let! parentPt := rd (r1PageTable p) in
    let! c := load_pcb childPCB in
    let! childPt := rd (r1PageTable c) in
    fork_rest childPCB childPt parentPt parentPCB
  end.

Definition KernelExit (status : Z) : M kst unit :=
  let! cur := sched currPCB in
  let! x := load_pcb cur in
  let! ip := sched initPid in
  if pid x =? ip then Halt else
  let! r := exitProcess status in
  if r =? ERROR then Halt else ret tt.

(** The strings of [argvec], each checked; [None]: one is not valid. *)
Fixpoint exec_args (fuel : nat) (argvec : ptr) : M kst (option (list (list Z))) :=
  match fuel with
  | O => undef
  | S fuel' =>
    let! a := read_int argvec in
    let a := u32 a in
    if a =? NULL then ret (Some []) else
    let! ok := isValidString a in
    if negb ok then ret None else
    let! rest := exec_args fuel' (argvec + 4) in
    match rest with
    | None => ret None
    | Some args => let! bs := read_string a in ret (Some (bs :: args))
    end
  end.

Definition KernelExec (filename argvec : ptr) : M kst Z :=
  let! ok := isValidString filename in
  if negb ok then ret ERROR else
  let! o := exec_args (Z.to_nat (VMEM_1_LIMIT - argvec)) argvec in
  match o with
  | None => ret ERROR
  | Some args =>
    let! name := read_string filename in
    let! cur := sched currPCB in
    let! loadProgramStatus := LoadProgram name args cur in
    (if loadProgramStatus =? KILL then KernelExit ERROR else ret tt) ;;;
    if loadProgramStatus =? ERROR then ret ERROR else
    let! r := execProcess KExec in
    if r =? ERROR then ret ERROR else ret SUCCESS
  end.

(** [KernelWait] from the point where the process is running and has an
    exited child. *)
Definition wait_finish (status_ptr : ptr) : M kst Z :=
  let! cur := sched currPCB in
  let! x := load_pcb cur in
  let! zq := rd (zombieQ x) in
  let! childZombiep := lift (deq_q zq) in
  if childZombiep =? NULL then ret ERROR else
  let! z := load_zombie childZombiep in
  write_int status_ptr (exit_status z) ;;;
  free_zombie childZombiep ;;;
  ret (z_pid z).

Definition KernelWait (status_ptr : ptr) : M kst Z :=
  if negb (getAddressRegion status_ptr =? 1) then ret ERROR else
  let! o := lift (getAddressProt status_ptr 1) in
  if negb (match o with Some prot => prot =? PROT_RW | None => false end) then ret ERROR else
  let! cur := sched currPCB in
  let! x := load_pcb cur in
  if numChildren x <=? 0 then ret ERROR else
  let! zq := rd (zombieQ x) in
  let! hd := lift (peek_q zq) in
  if hd =? NULL then
    let! r := blockProcess (KWait status_ptr) in
    if r =? ERROR then Halt else wait_finish status_ptr
  else wait_finish status_ptr.

Definition KernelGetPid : M kst Z :=
  let! cur := sched currPCB in
  let! x := load_pcb cur in
  ret (pid x).

(** ** The break *)

(** The loops of [KernelBrk] and [SetKernelBrk]: [n] pages, from [ptep] on,
    are given back, or mapped to new frames ([false]: no frame). *)
Fixpoint brk_free (n : nat) (ptep : ptr) : M kst unit :=
  match n with
  | O => ret tt
  | S n' =>
    let! e := lift (load_pte ptep) in
    let! nf := glob numFrames in
    lift (freeFrame nf (pte_pfn e)) ;;;
    lift (invalidatePageTableEntry ptep) ;;;
    brk_free n' (pte_at ptep 1)
  end.
Definition brk_alloc (n : nat) (ptep : ptr) : M kst bool := alloc_pages n ptep.

(** Both functions from the comparison of the page numbers on: [base] is the
    entry of page 0 of the region's table, counted from [baseVpn].  [false] is
    [ERROR]. *)
Definition move_brk (base : ptr) (baseVpn addr_ui currBrk_ui : Z) : M kst bool :=
  let addrVpn := Z.shiftr addr_ui PAGESHIFT in
  let currBrkVpn := Z.shiftr currBrk_ui PAGESHIFT in
  if addrVpn <? currBrkVpn then
    let currVpn := if DOWN_TO_PAGE addr_ui =? addr_ui then addrVpn else addrVpn + 1 in
    let last := if DOWN_TO_PAGE currBrk_ui =? currBrk_ui then currBrkVpn - 1 else currBrkVpn in
    brk_free (Z.to_nat (last - currVpn + 1)) (pte_at base (currVpn - baseVpn)) ;;;
    ret true
  else if addrVpn =? currBrkVpn then
    let targetPtep := pte_at base (addrVpn - baseVpn) in
    if (addr_ui <? currBrk_ui) && (DOWN_TO_PAGE addr_ui =? addr_ui) then
      brk_free 1 targetPtep ;;; ret true
    else if (currBrk_ui <? addr_ui) && (DOWN_TO_PAGE currBrk_ui =? currBrk_ui) then
      brk_alloc 1 targetPtep
    else ret true
  else
    let currVpn := if DOWN_TO_PAGE currBrk_ui =? currBrk_ui then currBrkVpn else currBrkVpn + 1 in
    let last := if DOWN_TO_PAGE addr_ui =? addr_ui then addrVpn - 1 else addrVpn in
    brk_alloc (Z.to_nat (last - currVpn + 1)) (pte_at base (currVpn - baseVpn)).

Definition KernelBrk (addr : ptr) : M kst Z :=
  if negb (getAddressRegion addr =? 1) then ret ERROR else
  let! cur := sched currPCB in
  let! x := load_pcb cur in
  let! currBrk := rd (brk x) in
  let! r1PageTable := rd (r1PageTable x) in
  let! ok := move_brk r1PageTable USER_BASE_VPN (u32 addr) (u32 currBrk) in
  if negb ok then ret ERROR else
  update_pcb cur (with_brk (Some addr)) ;;;
  ret SUCCESS.

Definition SetKernelData (_KernelDataStart _KernelDataEnd : ptr) : M kst unit :=
  set_glob (fun g => mkGlobals _KernelDataStart _KernelDataEnd _KernelDataEnd (numFrames g)
    (r0StackBasePtep g) (tempPtep g) (tempVAddr g) (starterKctxt g) (starterKernelStack g)).

Definition SetKernelBrk (addr : ptr) : M kst Z :=
  let! isVM := gets (fun s => REG_VM_ENABLE (k_pt s)) in
  let! currBrk := glob currKernelBrk in
  let! dataEnd := glob kernelDataEnd in
  let addr_ui := u32 addr in
  if KERNEL_STACK_BASE <=? addr_ui then ret ERROR else
  if addr_ui <? dataEnd then ret ERROR else
  let! ok := (if isVM =? 1 then
                let! r0PageTable := gets (fun s => REG_PTBR0 (k_pt s)) in
                move_brk r0PageTable KERNEL_BASE_VPN addr_ui (u32 currBrk)
              else ret true) in
  if negb ok then ret ERROR else
  set_glob (with_currKernelBrk addr) ;;;
  ret SUCCESS.

(** ** The others *)

Definition KernelDelay (clock_ticks : Z) : M kst Z :=
  if clock_ticks =? 0 then ret SUCCESS else
  if clock_ticks <? 0 then ret ERROR else
  let! r := sleepProcess clock_ticks KDelay in
  if r =? ERROR then ret ERROR else ret SUCCESS.

Definition KernelReclaim (id : Z) : M kst Z :=
  let! l := getLock id in
  if negb (l =? NULL) then deleteLock id else
  let! c := getCvar id in
  if negb (c =? NULL) then deleteCvar id else
  let! p := getPipe id in
  if negb (p =? NULL) then deletePipe id else
  ret ERROR.

End code.
