(* ===== verification/Tty.v ===== *)
(** Terminals: KernelDataStructures/TtyBuffer/TtyBuffer.c and
    KernelCalls/TtyKernelCalls.c.

    The line that [TtyReceive] delivers comes from the terminal: its bytes and
    the value [TtyReceive] returns are arguments of [writeBuffer].  What is
    given to [TtyTransmit] is recorded in the state. *)

From stdpp Require Import base gmap list.
From S2P Require Import Prelude Hardware Queue HashMap FrameList PageTable State UserMem Scheduler GeneralCalls.

Section code.
Context {QH MH : Type} `{HW : Hardware} `{QueueOps QH} `{MapOps MH}.
Abbreviation kst := (kst QH MH).

(** ** TtyBuffer.c *)

Definition TOTAL_READ_BUFFER_PAGES : Z := 1.
Definition TTY_READ_BUFFER_SIZE : Z := Z.quot (TOTAL_READ_BUFFER_PAGES * PAGESIZE) NUM_TERMINALS.

Definition set_buffer (i : Z) (b : ttyBuf_t) : M kst unit :=
  modify (fun s => with_tty (mkTty (<[Z.to_nat i := Some b]> (buffers (k_tty s))) (transmitted (k_tty s))) s).

(** [buffers[tty_id]], dereferenced. *)
Definition load_buffer (tty_id : Z) : M kst ttyBuf_t :=
  let! t := gets k_tty in
  rd (if 0 <=? tty_id then mjoin (buffers t !! Z.to_nat tty_id) else None).

(** The loop over the terminals, from [i] on; [false] is [ERROR]. *)
Fixpoint init_ttyBufs (n : nat) (i currBufferBase : Z) : M kst bool :=
  match n with
  | O => ret true
  | S n' =>
    let! ttyBuf := kmalloc 12 in
    if ttyBuf =? NULL then ret false else
    set_buffer i (mkTtyBuf currBufferBase 0 0) ;;;
    init_ttyBufs n' (i + 1) (currBufferBase + TTY_READ_BUFFER_SIZE)
  end.

Definition initBuffers : M kst Z :=
  let! taddr := glob tempVAddr in
  let! tpte := glob tempPtep in
  let totalBufferBase := taddr - TOTAL_READ_BUFFER_PAGES * PAGESIZE in
  foldM (fun pageCount =>
    let! nf := glob numFrames in
    let! o := lift (getFrame nf) in
    match o with
    | None => Halt
    | Some pfn => lift (setPageTableEntry (pte_at tpte (- TOTAL_READ_BUFFER_PAGES + pageCount)) 1 PROT_RW pfn)
    end) (seqZ 0 TOTAL_READ_BUFFER_PAGES) ;;;
  let! ok := init_ttyBufs (Z.to_nat NUM_TERMINALS) 0 totalBufferBase in
  ret (if ok then SUCCESS else ERROR).

(** Bytes of the kernel's buffer page. *)
Fixpoint load_bytes (a : Z) (n : nat) : M kst (list Z) :=
  match n with
  | O => ret []
  | S n' => let! b := load_byte a in let! bs := load_bytes (a + 1) n' in ret (b :: bs)
  end.
Fixpoint store_bytes (a : Z) (bs : list Z) : M kst unit :=
  match bs with
  | [] => ret tt
  | b :: bs' => store_byte a b ;;; store_bytes (a + 1) bs'
  end.

(** [TtyReceive] returned [lenWithNull], after it stored [line]. *)
Definition writeBuffer (tty_id lenWithNull : Z) (line : list Z) : M kst Z :=
  let! ttyBuf := load_buffer tty_id in
  store_bytes (base ttyBuf) line ;;;
  (if 0 <? lenWithNull then
     set_buffer tty_id (mkTtyBuf (base ttyBuf) (lenWithNull - 1) 1) ;;;
     unblockReader tty_id ;;; ret tt
   else set_buffer tty_id (mkTtyBuf (base ttyBuf) 0 0)) ;;;
  ret SUCCESS.

Definition readBuffer (tty_id : Z) (buf : ptr) (len : Z) : M kst Z :=
  let! ttyBuf := load_buffer tty_id in
  if isLineReady ttyBuf =? 0 then blockReader tty_id (KTtyRead tty_id buf len) else
  if len <? tty_numBytesWritten ttyBuf then
    let! bs := load_bytes (base ttyBuf) (Z.to_nat len) in
    write_bytes buf bs ;;;
    let numRemainingBytes := tty_numBytesWritten ttyBuf - len in
    let! rest := load_bytes (base ttyBuf + len) (Z.to_nat numRemainingBytes) in
    store_bytes (base ttyBuf) rest ;;;
    set_buffer tty_id (mkTtyBuf (base ttyBuf) numRemainingBytes (isLineReady ttyBuf)) ;;;
    let! r := unblockReader tty_id in
    ret (if r =? ERROR then ERROR else len)
  else
    let bytes_read := tty_numBytesWritten ttyBuf in
    let! bs := load_bytes (base ttyBuf) (Z.to_nat bytes_read) in
    write_bytes buf bs ;;;
    set_buffer tty_id (mkTtyBuf (base ttyBuf) 0 0) ;;;
    ret bytes_read.

(** ** TtyKernelCalls.c *)

Definition TtyTransmit (tty_id : Z) (bs : list Z) : M kst unit :=
  modify (fun s => with_tty (mkTty (buffers (k_tty s)) (transmitted (k_tty s) ++ [(tty_id, bs)])) s).

(** The transmitting loop of [KernelTtyWrite], and what follows it; [r0Buf]
    is the content of the kernel's copy.  The result of [waitTransmitter] is
    not looked at: if it fails, the next batch follows at once. *)
Fixpoint tty_write_loop (fuel : nat) (tty_id : Z) (r0Buf : list Z) (bytesTransmitted : Z) : M kst Z :=
  let len := Z.of_nat (length r0Buf) in
  if bytesTransmitted <? len then
    match fuel with
    | O => undef
    | S fuel' =>
      let batchSize := Z.min TERMINAL_MAX_LINE (len - bytesTransmitted) in
      TtyTransmit tty_id (take (Z.to_nat batchSize) (drop (Z.to_nat bytesTransmitted) r0Buf)) ;;;
      waitTransmitter tty_id (KTtyWait tty_id r0Buf (bytesTransmitted + batchSize)) ;;;
      tty_write_loop fuel' tty_id r0Buf (bytesTransmitted + batchSize)
    end
  else
    unblockTransmitter tty_id ;;;
    ret len.

(** The loop that waits for the terminal.  [blockTransmitter] returns only
    with [ERROR], and then the loop turns for ever. *)
Definition tty_write_start (tty_id : Z) (r0Buf : list Z) : M kst Z :=
  let! avail := isTtyTransmitAvailable tty_id in
  if avail : bool then tty_write_loop (S (length r0Buf)) tty_id r0Buf 0
  else blockTransmitter tty_id (KTtyBlock tty_id r0Buf) ;;; undef.

Definition KernelTtyWrite (tty_id : Z) (buf : ptr) (len : Z) : M kst Z :=
  if u32 buf <? VMEM_1_BASE then ret ERROR else
  if len <? 0 then ret ERROR else
  if len =? 0 then ret SUCCESS else
  let! ok := isValidBuffer buf len PROT_READ in
  if negb ok then ret ERROR else
  let! r0Buf := kmalloc len in
  if r0Buf =? NULL then undef else
  let! bs := read_bytes buf (Z.to_nat len) in
  tty_write_start tty_id bs.

Definition KernelTtyRead (tty_id : Z) (buf : ptr) (len : Z) : M kst Z :=
  if u32 buf <? VMEM_1_BASE then ret ERROR else
  if len <? 0 then ret ERROR else
  if len =? 0 then ret SUCCESS else
  let! ok := isValidBuffer buf len PROT_WRITE in
  if negb ok then ret ERROR else
  readBuffer tty_id buf len.

End code.
