(* ===== verification/Machine.v ===== *)
(** The trap handlers of TrapHandlers/TrapHandlers.c, [KernelStart] of
    Kernel.c, and the machine that runs them: a trap runs its handler, and
    when a handler gives the processor to another process, that process goes
    on with what it was doing inside the kernel, until some process returns
    to user mode. *)

From stdpp Require Import base gmap list.
From S2P Require Import Prelude Hardware Queue HashMap FrameList PageTable State UserMem Scheduler.
From S2P Require Import SyncObjects LoadProgram GeneralCalls Tty.

Section code.
Context {QH MH : Type} `{HW : Hardware} `{QueueOps QH} `{MapOps MH} `{FS : FileSystem}.
Abbreviation kst := (kst QH MH).

(** ** TrapHandlers.c *)

(** [(uctxt->regs)[0] = (u_long) return_code]. *)
Definition set_return (return_code : Z) : M kst unit :=
  modify (fun s => let u := k_frame s in
    with_frame (mkUctxt (uc_code u) (uc_addr u) (uc_pc u) (uc_sp u) (uc_ebp u)
                  (<[O := u32 return_code]> (uc_regs u))) s).

(** The case of the [switch]. *)
Definition decode (code : Z) : option yalnix_call := find (fun c => YALNIX c =? code) all_calls.

(** [fuel] bounds the waiters a broadcast wakes. *)
Definition dispatch (fuel : nat) (c : yalnix_call) (regs : list Z) : M kst Z :=
  let! r0 := rd (regs !! 0%nat) in
  let! r1 := rd (regs !! 1%nat) in
  let! r2 := rd (regs !! 2%nat) in
  match c with
  | FORK => KernelFork
  | EXEC => KernelExec (u32 r0) (u32 r1)
  | EXIT => KernelExit (s32 r0) ;;; ret 0
  | WAIT => KernelWait (u32 r0)
  | GETPID => KernelGetPid
  | BRK => KernelBrk (u32 r0)
  | DELAY => KernelDelay (s32 r0)
  | RECLAIM => KernelReclaim (s32 r0)
  | TTY_READ => KernelTtyRead (s32 r0) (u32 r1) (s32 r2)
  | TTY_WRITE => KernelTtyWrite (s32 r0) (u32 r1) (s32 r2)
  | LOCK_INIT => KernelLockInit (u32 r0)
  | LOCK_ACQUIRE => KernelAcquire (s32 r0)
  | LOCK_RELEASE => KernelRelease (s32 r0)
  | CVAR_INIT => KernelCvarInit (u32 r0)
  | CVAR_SIGNAL => KernelCvarSignal (s32 r0)
  | CVAR_BROADCAST => KernelCvarBroadcast fuel (s32 r0)
  | CVAR_WAIT => KernelCvarWait (s32 r0) (s32 r1)
  | PIPE_INIT => KernelPipeInit (u32 r0)
  | PIPE_READ => KernelPipeRead (s32 r0) (u32 r1) (s32 r2)
  | PIPE_WRITE => KernelPipeWrite (s32 r0) (u32 r1) (s32 r2)
  end.

Definition handleTrapKernel (fuel : nat) : M kst unit :=
  let! uctxt := gets k_frame in
  match decode (uc_code uctxt) with
  | None => Halt
  | Some c => let! return_code := dispatch fuel c (uc_regs uctxt) in set_return return_code
  end.

Definition handleTrapClock : M kst unit :=
  let! r := tickDownSleepers in
  if r =? ERROR then Halt else
  let! r := kickProcess KClock in
  if r =? ERROR then Halt else ret tt.

Definition handleTrapIllegal : M kst unit := KernelExit ERROR.

(** The loop of [handleTrapMemory]: [n] pages, from entry [i] downwards. *)
Fixpoint grow_stack (n : nat) (currPageTable : ptr) (i : Z) : M kst unit :=
  match n with
  | O => ret tt
  | S n' =>
    let! e := lift (load_pte (pte_at currPageTable i)) in
    (if pte_valid e =? 0 then
       let! nf := glob numFrames in
       let! o := lift (getFrame nf) in
       match o with
       | None => KernelExit ERROR ;;; undef
       | Some pfn => lift (setPageTableEntry (pte_at currPageTable i) 1 PROT_RW pfn)
       end
     else ret tt) ;;;
    grow_stack n' currPageTable (i - 1)
  end.

Definition handleTrapMemory : M kst unit :=
  let! uctxt := gets k_frame in
  let! cur := sched currPCB in
  let! x := load_pcb cur in
  let! b := rd (brk x) in
  let targetPageNumber := Z.shiftr (u32 (uc_addr uctxt)) PAGESHIFT in
  let breakPageNumber := Z.shiftr (u32 b) PAGESHIFT in
  (if targetPageNumber <=? breakPageNumber + 1 then KernelExit ERROR else ret tt) ;;;
  let! currPageTable := rd (r1PageTable x) in
  let topPage := Z.shiftr (VMEM_1_LIMIT - PAGESIZE) PAGESHIFT in
  grow_stack (Z.to_nat (topPage - targetPageNumber + 1)) currPageTable (MAX_PT_LEN - 1).

Definition handleTrapMath : M kst unit := KernelExit ERROR.

(** [lenWithNull] and [line]: what [TtyReceive] will deliver. *)
Definition handleTtyReceive (lenWithNull : Z) (line : list Z) : M kst unit :=
  let! uctxt := gets k_frame in
  let! r := writeBuffer (uc_code uctxt) lenWithNull line in
  if r =? ERROR then Halt else ret tt.

Definition handleTtyTransmit : M kst unit :=
  let! uctxt := gets k_frame in
  let! r := signalTransmitter (uc_code uctxt) KTtySignal in
  if r =? ERROR then Halt else ret tt.

Definition handleTrapDisk : M kst unit := Halt.
Definition handleNothing : M kst unit := Halt.

(** The interrupt vector, as [KernelStart] fills it. *)
Inductive trap :=
| TRAP_KERNEL | TRAP_CLOCK | TRAP_ILLEGAL | TRAP_MEMORY | TRAP_MATH
| TRAP_TTY_RECEIVE (lenWithNull : Z) (line : list Z) | TRAP_TTY_TRANSMIT | TRAP_DISK
| TRAP_OTHER.
Definition interruptVectorArray (fuel : nat) (t : trap) : M kst unit :=
  match t with
  | TRAP_KERNEL => handleTrapKernel fuel
  | TRAP_CLOCK => handleTrapClock
  | TRAP_ILLEGAL => handleTrapIllegal
  | TRAP_MEMORY => handleTrapMemory
  | TRAP_MATH => handleTrapMath
  | TRAP_TTY_RECEIVE n line => handleTtyReceive n line
  | TRAP_TTY_TRANSMIT => handleTtyTransmit
  | TRAP_DISK => handleTrapDisk
  | TRAP_OTHER => handleNothing
  end.

(** ** Processes that go on inside the kernel *)

(** The end of [KernelStart]. *)
Definition start_finish : M kst unit :=
  let! cur := sched currPCB in
  let! x := load_pcb cur in
  let! u := rd (uctxt x) in
  modify (with_frame u).

(** What a process resumed at the point [k] does. *)
Definition resume (k : kcont) : M kst unit :=
  match k with
  | KStart => start_finish
  | KClock | KTtySignal => ret tt
  | KDelay => set_return SUCCESS
  | KExit | KExec => undef
  | KFork parentPCB childPCB => let! r := fork_return parentPCB childPCB in set_return r
  | KWait status_ptr => let! r := wait_finish status_ptr in set_return r
  | KAcquire lockp => let! r := acquire_loop lockp in set_return r
  | KCvarWait lock_id => let! r := KernelAcquire lock_id in set_return r
  | KPipeReadTurn pipep q buf len | KPipeReadBytes pipep q buf len =>
    let! r := pipe_read_loop pipep q buf len in set_return r
  | KTtyBlock tty_id bs => let! r := tty_write_start tty_id bs in set_return r
  | KTtyWait tty_id bs n => let! r := tty_write_loop (S (length bs)) tty_id bs n in set_return r
  | KTtyRead tty_id buf len => let! r := readBuffer tty_id buf len in set_return r
  end.

(** The machine goes on with the contexts it is given, until a process
    returns to user mode; [None]: more than [n] switches. *)
Fixpoint settle (n : nat) (o : outcome kst unit) : option (outcome kst unit) :=
  match o with
  | Switch kc s =>
    match n with
    | O => None
    | S n' => settle n' (resume (kc_resume kc) (with_frame (kc_frame kc) s))
    end
  | _ => Some o
  end.

(** The trap [t] in the running process, whose user context is [u]. *)
Definition deliver (fuel n : nat) (t : trap) (u : UserContext) (s : kst) : option (outcome kst unit) :=
  settle n (interruptVectorArray fuel t (with_frame u s)).

(** ** KernelStart *)

(** The page at [addr] of the first table for region 0, where [_start] and
    [_brk] are [kernelDataStart] and [currKernelBrk]; [None]: not used. *)
Definition r0_prot (addr _start _brk : Z) : option Z :=
  if addr + PAGESIZE <=? _start then Some PROT_RX
  else if addr + PAGESIZE <=? _brk then Some PROT_RW
  else if KERNEL_STACK_BASE <? addr + PAGESIZE then Some PROT_RW
  else None.

Definition fill_r0 (r0PageTable _start _brk : Z) : M kst unit :=
  foldM (fun i =>
    let addr := VMEM_BASE + i * PAGESIZE in
    match r0_prot addr _start _brk with
    | None => ret tt
    | Some prot => lift (setPageTableEntryNoFlush (pte_at r0PageTable i) 1 prot (Z.shiftr addr PAGESHIFT))
    end) (seqZ 0 (Z.quot (VMEM_0_LIMIT - VMEM_BASE) PAGESIZE)).

Definition enable_vm (r0PageTable initR1PageTable : ptr) : M kst unit :=
  lift (A := pt) (modify (fun t => mkPt (pt_arena t) (ptes t) (u32 r0PageTable) (u32 MAX_PT_LEN)
    (u32 initR1PageTable) (u32 MAX_PT_LEN) 1 (tlb_flushes t))).

Definition set_addresses (r0PageTable : ptr) : M kst unit :=
  set_glob (fun g => mkGlobals (kernelDataStart g) (kernelDataEnd g) (currKernelBrk g) (numFrames g)
    (pte_at r0PageTable (KERNEL_STACK_BASE_VPN - KERNEL_BASE_VPN))
    (pte_at r0PageTable (KERNEL_STACK_BASE_VPN - KERNEL_BASE_VPN - 1))
    (KERNEL_STACK_BASE - PAGESIZE) (starterKctxt g) (starterKernelStack g)).

Definition set_numFrames (n : Z) : M kst unit :=
  set_glob (fun g => mkGlobals (kernelDataStart g) (kernelDataEnd g) (currKernelBrk g) n
    (r0StackBasePtep g) (tempPtep g) (tempVAddr g) (starterKctxt g) (starterKernelStack g)).

(** [if (m == ERROR) Halt();] *)
Definition or_halt (m : M kst Z) : M kst unit := let! r := m in if r =? ERROR then Halt else ret tt.
Definition or_halt_ptr (m : M kst (option ptr)) : M kst ptr :=
  let! r := m in match r with Some p => ret p | None => Halt end.

(** The bytes of "init". *)
Definition default_args : list (list Z) := [[105; 110; 105; 116]].

(** The first part: the page tables, the frames; the two tables.  The break is
    read before [initFrameList] allocates the array. *)
Definition start_frame_list (pmem_size : Z) : M kst (ptr * ptr) :=
  let! t := lift initializeRegionPageTable in
  if fst t =? ERROR then Halt else
  let r0PageTable := snd t in
  let! t := lift initializeRegionPageTable in
  if fst t =? ERROR then Halt else
  let initR1PageTable := snd t in
  let numFrames := pmem_size / PAGESIZE in
  set_numFrames numFrames ;;;
  let! kbrk := glob currKernelBrk in
  or_halt (lift (initFrameList numFrames kbrk)) ;;;
  ret (r0PageTable, initR1PageTable).

(** Virtual memory; the break is read again. *)
Definition start_vm (r0PageTable initR1PageTable : ptr) : M kst unit :=
  let! kstart := glob kernelDataStart in
  let! kbrk := glob currKernelBrk in
  fill_r0 r0PageTable kstart kbrk ;;;
  enable_vm r0PageTable initR1PageTable ;;;
  set_addresses r0PageTable.

Definition start_memory (pmem_size : Z) : M kst (ptr * ptr) :=
  let! tables := start_frame_list pmem_size in
  start_vm (fst tables) (snd tables) ;;;
  ret tables.

(** The second part: the modules. *)
Definition start_modules : M kst unit :=
  or_halt initBuffers ;;;
  or_halt initLockMap ;;;
  or_halt initCvarMap ;;;
  or_halt initPipeMap ;;;
  or_halt initScheduler.

(** The end: init becomes the running process, and the state of its kernel
    stack and its context that of every process to come. *)
Definition start_init (initPCB : ptr) : M kst unit :=
  set_sched (with_currPCB initPCB) ;;;
  let! st := kmalloc KERNEL_STACK_MAXSIZE in
  if st =? NULL then Halt else
  let! kc := kmalloc sizeof_KernelContext in
  if kc =? NULL then Halt else
  or_halt (KernelContextSwitch getStarterKernelState KStart).

Definition KernelStart (DoIdle : Z) (cmd_args : list (list Z)) (pmem_size : Z) : M kst unit :=
  let! tables := start_memory pmem_size in
  start_modules ;;;
  let! idlePCB := or_halt_ptr initProcess in
  or_halt (LoadIdle DoIdle idlePCB) ;;;
  let cmd_args := match cmd_args with [] => default_args | _ => cmd_args end in
  let! initPCB := or_halt_ptr (initInitProcess (snd tables)) in
  let! name := rd (head cmd_args) in
  let! r := LoadProgram name cmd_args initPCB in
  if negb (r =? SUCCESS) then Halt else
  start_init initPCB.

End code.
