(* ===== verification/UserPrograms.v ===== *)
(** User programs: init.c, three of the programs of test/ and the idle loop [DoIdle] of
    LoadProgram.c, as interaction trees over what user code can do: a system
    call, an access to its memory, a pause.

    The user library, [TtyPrintf], [malloc], [free] and [rand], is not in the
    repository: it is the class [UserLibrary].  Where the compiler puts the
    variables whose address is taken, and the string literals, is the class
    [UserLayout]; all other variables are values.  Strings are written as in
    the source, with the escapes of C.  [Exit] does not return: a branch that
    ends in it is not followed by what C has behind the branch. *)

From Stdlib Require Import ZArith List Ascii String.
From S2P Require Import Prelude Hardware.
From ITree Require Import ITree.
Import ITreeNotations.
#[local] Open Scope itree_scope.
#[local] Open Scope string_scope.
#[local] Open Scope Z_scope.
Import ListNotations.

Variant userE : Type -> Type :=
| Syscall (c : yalnix_call) (args : list Z) : userE Z
| Load (a : Z) : userE Z
| Store (a b : Z) : userE unit
| Pause : userE unit.

Abbreviation user := (itree userE).

Definition DoIdle : user unit := ITree.forever (ITree.trigger Pause).

(** The stubs of yalnix.h. *)
Definition syscall (c : yalnix_call) (args : list Z) : user Z := ITree.trigger (Syscall c args).
Definition Fork : user Z := syscall FORK [].
Definition Exec (filename argvec : Z) : user Z := syscall EXEC [filename; argvec].
Definition Exit (status : Z) : user Z := syscall EXIT [status].
Definition Wait (status_ptr : Z) : user Z := syscall WAIT [status_ptr].
Definition GetPid : user Z := syscall GETPID [].
Definition Brk (addr : Z) : user Z := syscall BRK [addr].
Definition Delay (clock_ticks : Z) : user Z := syscall DELAY [clock_ticks].
Definition Reclaim (id : Z) : user Z := syscall RECLAIM [id].
Definition TtyRead (tty_id buf len : Z) : user Z := syscall TTY_READ [tty_id; buf; len].
Definition TtyWrite (tty_id buf len : Z) : user Z := syscall TTY_WRITE [tty_id; buf; len].
Definition LockInit (lock_idp : Z) : user Z := syscall LOCK_INIT [lock_idp].
Definition Acquire (lock_id : Z) : user Z := syscall LOCK_ACQUIRE [lock_id].
Definition Release (lock_id : Z) : user Z := syscall LOCK_RELEASE [lock_id].
Definition CvarInit (cvar_idp : Z) : user Z := syscall CVAR_INIT [cvar_idp].
Definition CvarSignal (cvar_id : Z) : user Z := syscall CVAR_SIGNAL [cvar_id].
Definition CvarWait (cvar_id lock_id : Z) : user Z := syscall CVAR_WAIT [cvar_id; lock_id].
Definition PipeInit (pipe_idp : Z) : user Z := syscall PIPE_INIT [pipe_idp].
Definition PipeRead (pipe_id buf len : Z) : user Z := syscall PIPE_READ [pipe_id; buf; len].
Definition PipeWrite (pipe_id buf len : Z) : user Z := syscall PIPE_WRITE [pipe_id; buf; len].

(** An [int] in memory. *)
Definition load_int (a : Z) : user Z :=
  b0 <- ITree.trigger (Load a) ;; b1 <- ITree.trigger (Load (a + 1)) ;;
  b2 <- ITree.trigger (Load (a + 2)) ;; b3 <- ITree.trigger (Load (a + 3)) ;;
  Ret (let u := b0 + 256 * (b1 + 256 * (b2 + 256 * b3)) in if u <? 2 ^ 31 then u else u - 2 ^ 32).
Fixpoint store_bytes (a : Z) (bs : list Z) : user unit :=
  match bs with
  | [] => Ret tt
  | b :: bs' => ITree.trigger (Store a b) ;; store_bytes (a + 1) bs'
  end.
Definition store_int (a v : Z) : user unit :=
  let u := u32 v in
  store_bytes a [u mod 256; (u / 256) mod 256; (u / 65536) mod 256; (u / 16777216) mod 256].

(** The arguments of a format are [int]s, or addresses of strings. *)
Class UserLibrary := {
  TtyPrintf (tty_id : Z) (format : string) (args : list Z) : user unit;
  malloc (size : Z) : user Z;
  free (p : Z) : user unit;
  rand : user Z;
  (** [assert], of a condition without side effects *)
  assert (b : bool) : user unit
}.
(** [local_at x i]: [x] in the call of a recursive function with [i]. *)
Class UserLayout := {
  local : string -> Z;
  local_at : string -> Z -> Z;
  literal : string -> Z
}.

(** The codes of characters. *)
Definition char_code (c : ascii) : Z := Z.of_nat (nat_of_ascii c).

(** A double quote. *)
Definition dq : string := String (ascii_of_nat 34) EmptyString.

(** [for (i = from; i < to; i++)]. *)
Fixpoint for_loop (n : nat) (i : Z) (body : Z -> user unit) : user unit :=
  match n with
  | O => Ret tt
  | S n' => body i ;; for_loop n' (i + 1) body
  end.

(** ** init.c *)

Module Init.
Definition DELAY_LENGTH : Z := 1.
Definition MALLOC_SIZE : Z := 1024.
Definition PIPE_READ_SIZE : Z := 20.
Definition TTY_READ_SIZE : Z := 10.
Definition PARENT_DELAY_LENGTH : Z := 2.
Definition CHILD_DELAY_LENGTH : Z := 1.
Definition PARENT_EXIT_STATUS : Z := 20.
Definition CHILD_EXIT_STATUS : Z := PARENT_EXIT_STATUS + 10.
Definition GRANDCHILD_EXIT_STATUS : Z := CHILD_EXIT_STATUS + 10.
Definition ORPHAN_TEST_GRANDCHILD_DELAY_LENGTH : Z := 3.
Definition ORPHAN_TEST_PARENT_DELAY_LENGTH : Z := ORPHAN_TEST_GRANDCHILD_DELAY_LENGTH + 2.
Definition ORPHAN_TEST_CHILD_EXIT_STATUS : Z := CHILD_EXIT_STATUS + 5.
Definition ORPHAN_TEST_GRANDCHILD_EXIT_STATUS : Z := GRANDCHILD_EXIT_STATUS + 5.
Definition EXEC_TEST : string := "./test/exectest".

Section code.
Context `{HW : Hardware} `{UL : UserLibrary} `{LY : UserLayout}.

Definition lock_id : user Z := load_int (local "lock_id").
Definition cvar_id : user Z := load_int (local "cvar_id").
Definition pipe_id : user Z := load_int (local "pipe_id").
Definition status : user Z := load_int (local "status").

(** The loop [while (condition == 0)] of the child. *)
Definition await_condition (pid : Z) : user unit :=
  ITree.iter (fun condition =>
    if condition =? 0 then
      c <- cvar_id ;; l <- lock_id ;;
      TtyPrintf 0 "condition == %d, so child (pid = %d) calling CvarWait(%d, %d)...\n" [condition; pid; c; l] ;;
      CvarWait c l ;;
      Ret (inl (condition + 1))
    else Ret (inr tt)) 0.

(** The turn of the loop over the terminals, for the one [i]. *)
Definition try_terminal (pid buffer i : Z) : user unit :=
  TtyPrintf i "Terminal %d, give me (pid = %d) something to read (%d characters):\n" [i; pid; TTY_READ_SIZE] ;;
  num_read <- TtyRead i buffer TTY_READ_SIZE ;;
  ITree.trigger (Store (buffer + num_read) 0) ;;
  TtyPrintf i "TtyRead said I read %d bytes, and I read the following:\n%s\n" [num_read; buffer].

Definition grandchild : user unit :=
  pid <- GetPid ;;
  TtyPrintf 0 "grandchild (pid = %d) is going to test other tty's...\n" [pid] ;;
  buffer <- malloc TERMINAL_MAX_LINE ;;
  for_loop (Z.to_nat (NUM_TERMINALS - 1)) 1 (try_terminal pid buffer) ;;
  free buffer ;;
  Exit GRANDCHILD_EXIT_STATUS ;;
  Ret tt.

(** The child, when it has forked the grandchild. *)
Definition child_waits (grandchildPid : Z) : user unit :=
  pid <- GetPid ;;
  TtyPrintf 0 "child (pid = %d) is waiting on grandchild (pid = %d)...\n" [pid; grandchildPid] ;;
  Wait (local "status") ;;
  st <- status ;;
  TtyPrintf 0 "child (pid = %d) resumed from waiting, grandchild (pid = %d) status = %d\n" [pid; grandchildPid; st] ;;
  TtyPrintf 0 "child (pid = %d) is calling Exec()...\n" [pid] ;;
  store_int (local "argvec") (literal EXEC_TEST) ;;
  store_int (local "argvec" + 4) NULL ;;
  Exec (literal EXEC_TEST) (local "argvec") ;;
  TtyPrintf 0 "In init; somehow the code past exec is getting executed; child (pid = %d) exiting with status code = %d...\n"
    [pid; CHILD_EXIT_STATUS] ;;
  Exit CHILD_EXIT_STATUS ;;
  Ret tt.

Definition first_string : string := "1234567890".
Definition second_string : string := "abcdefghijklmnopqrstuvwxyz".

Definition child : user unit :=
  pid <- GetPid ;;
  l <- lock_id ;;
  TtyPrintf 0 "child (pid = %d) is trying to acquire lock %d...\n" [pid; l] ;;
  Acquire l ;;
  TtyPrintf 0 "child (pid = %d) has acquired lock %d...\n" [pid; l] ;;
  TtyPrintf 0 "child (pid = %d) calling Delay(%d) after acquiring lock.\n" [pid; CHILD_DELAY_LENGTH] ;;
  Delay CHILD_DELAY_LENGTH ;;
  await_condition pid ;;
  TtyPrintf 0 "condition != 0, so child (pid = %d) is proceeding...\n" [pid] ;;
  TtyPrintf 0 "child (pid = %d) is releasing lock %d...\n" [pid; l] ;;
  Release l ;;
  p <- pipe_id ;;
  TtyPrintf 0 ("child writing 10 bytes, " ++ dq ++ "%s" ++ dq ++ ", fewer than expected bytes (%d) to pipe %d\n")
    [literal first_string; PIPE_READ_SIZE; p] ;;
  PipeWrite p (literal first_string) 10 ;;
  TtyPrintf 0 ("child writing 26 more bytes, " ++ dq ++ "%s" ++ dq
      ++ "; now pipe %d has 36 bytes, more than the expected length (%d bytes)\n")
    [literal second_string; p; PIPE_READ_SIZE] ;;
  PipeWrite p (literal second_string) 26 ;;
  TtyPrintf 0 "child is delaying for another %d ticks so the parent can print the read bytes\n" [CHILD_DELAY_LENGTH] ;;
  Delay CHILD_DELAY_LENGTH ;;
  TtyPrintf 0 "child (pid = %d) is calling Fork()...\n" [pid] ;;
  pid <- Fork ;;
  if 0 =? pid then grandchild else child_waits pid.

(** The parent, until the lock, the condition variable and the pipe are gone.
    The order of the calls among the arguments of [TtyPrintf] is left open by
    C; they are made from left to right. *)
Definition parent_part (pid : Z) : user unit :=
  l <- lock_id ;; c <- cvar_id ;; p <- pipe_id ;;
  TtyPrintf 0 "parent is trying to acquire lock %d...\n" [l] ;;
  Acquire l ;;
  TtyPrintf 0 "parent has acquired lock %d...\n" [l] ;;
  TtyPrintf 0 "parent calling Delay(%d) after forking & acquiring lock.\n" [PARENT_DELAY_LENGTH] ;;
  Delay PARENT_DELAY_LENGTH ;;
  TtyPrintf 0 "parent is releasing lock %d...\n" [l] ;;
  Release l ;;
  TtyPrintf 0 "parent signaling cvar %d...\n" [c] ;;
  CvarSignal c ;;
  TtyPrintf 0 "parent trying to read %d bytes from pipe %d... (currently there should be nothing in the pipe, and the next time the child wakes up, it will write something into it)\n"
    [PIPE_READ_SIZE; p] ;;
  buf <- malloc (PIPE_READ_SIZE + 1) ;;
  lenRead <- PipeRead p buf PIPE_READ_SIZE ;;
  ITree.trigger (Store (buf + lenRead) 0) ;;
  TtyPrintf 0 "parent just read %d characters:\n%s\n" [lenRead; buf] ;;
  free buf ;;
  rc <- Wait (local "status") ;;
  TtyPrintf 0 "parent calling Wait(), rc = %d\n" [rc] ;;
  st <- status ;;
  TtyPrintf 0 "parent resumed from Wait(), child (pid = %d) status = %d\n" [pid; st] ;;
  rl <- Reclaim l ;; rc <- Reclaim c ;; rp <- Reclaim p ;;
  TtyPrintf 0 "parent calling Reclaim on the lock (%d, rc = %d), cvar (%d, rc = %d), and pipe (%d, rc = %d)\n" [l; rl; c; rc; p; rp] ;;
  TtyPrintf 0 "now parent tries to acquire the lock %d again, and the return code should be %d\n" [l; ERROR] ;;
  ra <- Acquire l ;;
  TtyPrintf 0 "the return code is %d\n" [ra].

(** The orphan test. *)
Definition orphan_grandchild : user unit :=
  pid <- GetPid ;;
  TtyPrintf 0 "Orphan-test grandchild (pid = %d) calling Delay(%d) so orphan-test child can exit first\n"
    [pid; ORPHAN_TEST_GRANDCHILD_DELAY_LENGTH] ;;
  Delay ORPHAN_TEST_GRANDCHILD_DELAY_LENGTH ;;
  TtyPrintf 0 "Orphan-test grandchild (pid = %d) exiting (if this line is printed, grandchild was not orphan-collected)\n" [pid] ;;
  Exit ORPHAN_TEST_GRANDCHILD_EXIT_STATUS ;;
  Ret tt.
Definition orphan_child : user unit :=
  pid <- GetPid ;;
  TtyPrintf 0 "Orphan-test child (pid = %d) calling Fork()...\n" [pid] ;;
  pid <- Fork ;;
  if 0 =? pid then orphan_grandchild else
  pid <- GetPid ;;
  TtyPrintf 0 "Orphan-test child (pid = %d) exiting immediately after Fork()\n" [pid] ;;
  Exit ORPHAN_TEST_CHILD_EXIT_STATUS ;;
  Ret tt.
Definition orphan_test (pid : Z) : user unit :=
  TtyPrintf 0 "init now testing what happens when a parent exits before child does (orphans should keep running). Since init exiting will halt Yalnix, we test this on its child and grandchild.\n" [] ;;
  TtyPrintf 0 "parent calling Fork()...\n" [pid] ;;
  pid <- Fork ;;
  if 0 =? pid then orphan_child else
  pid <- GetPid ;;
  TtyPrintf 0 "parent (pid = %d) calling Wait()\n" [pid] ;;
  Wait (local "status") ;;
  TtyPrintf 0 "parent (pid = %d) resumed from Wait(); calling Delay(%d) so Yalnix doesn't halt until grandchild has a chance to resume.\n"
    [pid; ORPHAN_TEST_PARENT_DELAY_LENGTH] ;;
  Delay ORPHAN_TEST_PARENT_DELAY_LENGTH ;;
  TtyPrintf 0 "parent (pid = %d) exiting with status = %d\n" [pid; PARENT_EXIT_STATUS] ;;
  Exit PARENT_EXIT_STATUS ;;
  Ret tt.

Definition main : user unit :=
  TtyPrintf 0 "init calling GetPid()...\n" [] ;;
  pid <- GetPid ;;
  TtyPrintf 0 "init's pid: %d\n" [pid] ;;
  TtyPrintf 0 "init calling Delay(%d)...\n" [DELAY_LENGTH] ;;
  Delay DELAY_LENGTH ;;
  TtyPrintf 0 "malloc'ing %d bytes to trigger Brk()...\n" [MALLOC_SIZE] ;;
  allocated_memory <- malloc MALLOC_SIZE ;;
  TtyPrintf 0 "free'ing the %d bytes just allocated... \n" [MALLOC_SIZE] ;;
  free allocated_memory ;;
  TtyPrintf 0 "init initializing lock...\n" [] ;;
  LockInit (local "lock_id") ;;
  l <- lock_id ;;
  TtyPrintf 0 "lock id = %d...\n" [l] ;;
  TtyPrintf 0 "init initializing cvar...\n" [] ;;
  CvarInit (local "cvar_id") ;;
  c <- cvar_id ;;
  TtyPrintf 0 "cvar id = %d...\n" [c] ;;
  TtyPrintf 0 "init initializing pipe...\n" [] ;;
  PipeInit (local "pipe_id") ;;
  p <- pipe_id ;;
  TtyPrintf 0 "pipe id = %d...\n" [p] ;;
  TtyPrintf 0 "init calling Fork()...\n" [] ;;
  pid <- Fork ;;
  if 0 =? pid then child else
  parent_part pid ;;
  orphan_test pid.
End code.
End Init.

(** ** test/exectest.c *)

Module Exectest.
Definition ITERATIONS : nat := 2.
Definition DELAY_LENGTH : Z := 3.
Definition EXIT_STATUS : Z := 50.
Definition READ_SIZE : Z := 15.

Section code.
Context `{HW : Hardware} `{UL : UserLibrary} `{LY : UserLayout}.

Definition try_terminal (pid buffer i : Z) : user unit :=
  TtyPrintf i "In execTest; Terminal %d, give me (pid = %d) something to read (%d characters):\n" [i; pid; READ_SIZE] ;;
  num_read <- TtyRead i buffer READ_SIZE ;;
  ITree.trigger (Store (buffer + num_read) 0) ;;
  TtyPrintf i "TtyRead said I read %d bytes, and I read the following:\n%s\n" [num_read; buffer].

Definition main : user unit :=
  pid <- GetPid ;;
  for_loop ITERATIONS 0 (fun i =>
    TtyPrintf 0 "In execTest; iteration = %d, about to delay with ticks = %d\n" [i; DELAY_LENGTH] ;;
    Delay DELAY_LENGTH ;;
    Ret tt) ;;
  buffer <- malloc TERMINAL_MAX_LINE ;;
  for_loop (Z.to_nat (NUM_TERMINALS - 1)) 1 (try_terminal pid buffer) ;;
  free buffer ;;
  Exit EXIT_STATUS ;;
  Ret tt.
End code.
End Exectest.

(** ** test/zero.c: a write to the text, which is read-only *)

Module Zero.
Definition main : user unit := store_int 0x100000 0 ;; Exit 0 ;; Ret tt.
End Zero.

(** ** test/bigstack.c: a buffer larger than the stack of a new program *)

Module Bigstack.
Section code.
Context `{LY : UserLayout}.

(** The second loop only prints to the trace. *)
Definition main : user unit :=
  for_loop (10 * 1024) 0 (fun i => ITree.trigger (Store (local "big_buffer" + i) 97)) ;;
  for_loop 20 0 (fun j => ITree.trigger (Load (local "big_buffer" + 512 * j)) ;; Ret tt) ;;
  Exit 0 ;;
  Ret tt.
End code.
End Bigstack.
