(* ===== verification/StressTests.v ===== *)
(** The stress tests of test/, forktest.c and torture.c, as interaction trees
    like those of UserPrograms. *)

From Stdlib Require Import ZArith List Ascii String.
From S2P Require Import Prelude Hardware UserPrograms.
From ITree Require Import ITree.
Import ITreeNotations.
#[local] Open Scope itree_scope.
#[local] Open Scope string_scope.
#[local] Open Scope Z_scope.
Import ListNotations.

(** ** test/forktest.c: two processes that use up stack and heap in a recursion *)

Module Forktest.
Section code.
Context `{UL : UserLibrary} `{LY : UserLayout}.

Fixpoint recurse (who : Z) (i : nat) : user unit :=
  let waste := local_at "waste" (Z.of_nat i) in
  mem <- malloc 2048 ;;
  for_loop 1024 0 (fun j => ITree.trigger (Store (waste + j) (char_code "a"))) ;;
  TtyPrintf 1 "%s %d\n" [who; Z.of_nat i] ;;
  match i with
  | O => TtyPrintf 1 "Done with recursion\n" []
  | S i' => recurse who i'
  end.

Definition main : user unit :=
  pid <- Fork ;;
  (if pid =? 0 then recurse (literal "child") 33 else recurse (literal "parent") 33) ;;
  Exit 0 ;;
  Ret tt.
End code.
End Forktest.

(** ** test/torture.c: six processes that never end *)

Module Torture.
Section code.
Context `{HW : Hardware} `{UL : UserLibrary} `{LY : UserLayout}.

(** [while (1)], and what follows such a loop. *)
Definition endless (body : user unit) : user unit := ITree.forever body.
Definition not_here (tty_id : Z) (message : string) : user unit :=
  TtyPrintf tty_id message [] ;; Exit (-1) ;; Ret tt.

Definition Bouncer (cvar mutex : Z) : user unit :=
  TtyPrintf 1 "Bouncer here\n" [] ;;
  endless (
    TtyPrintf 1 "Waiting for ping..." [] ;;
    Acquire mutex ;;
    CvarWait cvar mutex ;;
    Release mutex ;;
    TtyPrintf 1 "boing!\n" []) ;;
  not_here 1 "*** SHOULDN'T BE HERE!!!\n".

Definition jokes : list string :=
  ["Hey!  Hey!  You remember that time when...\n";
   "Hi!  I'm that annoying guy that all the other processes hate!\n";
   "Hehehehehehehehehehe!\n";
   "Why did the chicken cross the road?  Ha ha...\n";
   "42!!!\n";
   "Get it?  42?  Get it?  Huh?  Hey, you're not listening...\n";
   "You know what would be a really scary Halloween costume?\n";
   "A null pointer!  Ha ha ha.\n";
   "My while loop is over, so I'm goint to repeat all my lame jokes now.\n"].
Fixpoint tell (l : list string) : user unit :=
  match l with
  | [] => Ret tt
  | joke :: l' => TtyPrintf 1 joke [] ;; Delay 1 ;; tell l'
  end.
Definition ThatAnnoyingGuy : user unit :=
  endless (tell jokes) ;;
  not_here 1 "*** I SHOULDN'T BE HERE!!!\n".

Definition MallocMan : user unit :=
  endless (
    r <- rand ;;
    let npg := Z.rem r 21 in
    TtyPrintf 2 "MallocMan: malloc'ing %d pages\n" [npg] ;;
    ptr <- malloc (PAGESIZE * npg) ;;
    Delay 3 ;;
    TtyPrintf 2 "MallocMan: freeing the stuff I just malloc'ed\n" [] ;;
    free ptr) ;;
  not_here 1 "*** I SHOULDN'T BE HERE!!!\n".

Definition SonarGuy (cvar mutex : Z) : user unit :=
  TtyPrintf 0 "SonarGuy here (my job is to signal Bouncer)\n" [] ;;
  endless (
    TtyPrintf 0 "Signaling Bouncer..." [] ;;
    Delay 2 ;;
    Acquire mutex ;;
    CvarSignal cvar ;;
    Release mutex ;;
    TtyPrintf 0 "ping!\n" []) ;;
  not_here 1 "*** I SHOULDN'T BE HERE!!!\n".

(** [ch = c; TtyWrite(3, &ch, 1)]. *)
Definition write_char (c : Z) : user unit :=
  ITree.trigger (Store (local "ch") c) ;; TtyWrite 3 (local "ch") 1 ;; Ret tt.
Definition garbage_word : user unit :=
  r <- rand ;;
  for_loop (Z.to_nat (Z.rem r 13)) 0 (fun _ => r <- rand ;; write_char (char_code "a" + Z.rem r 26)).
Definition GarbageMan : user unit :=
  store_bytes (local "punc") [char_code "."; char_code "!"; char_code "?"; char_code ";"; char_code ":"; 0] ;;
  TtyPrintf 3 "Hi, I'm the garbage man!\n" [] ;;
  Delay 6 ;;
  TtyPrintf 3 "All I do is spew garbage!  Watch!\n" [] ;;
  endless (
    r <- rand ;;
    let sentLen := Z.rem r 8 in
    r <- rand ;;
    Delay (Z.rem r 7) ;;
    for_loop (Z.to_nat sentLen) 0 (fun i =>
      garbage_word ;;
      if i <? sentLen - 1 then write_char (char_code " ") else Ret tt) ;;
    r <- rand ;;
    TtyWrite 3 (local "punc" + Z.rem r 5) 1 ;;
    write_char (char_code " ")) ;;
  not_here 1 "*** I SHOULDN'T BE HERE!!!\n".

(** [do TtyRead(0, buf, 100); while (buf[0] != 'g' || buf[1] != 'o')]. *)
Definition await_go : user unit :=
  ITree.iter (fun _ =>
    TtyRead 0 (local "buf") 100 ;;
    b0 <- ITree.trigger (Load (local "buf")) ;;
    if negb (b0 =? char_code "g") then Ret (inl tt) else
    b1 <- ITree.trigger (Load (local "buf" + 1)) ;;
    if negb (b1 =? char_code "o") then Ret (inl tt) else Ret (inr tt)) tt.

(** [pid = Fork(); if (pid == 0) f();]. *)
Definition fork_to (f : user unit) : user unit :=
  pid <- Fork ;; if pid =? 0 then f else Ret tt.
(** [f(cvar, mutex)]. *)
Definition with_ids (f : Z -> Z -> user unit) : user unit :=
  cvar <- load_int (local "cvar") ;; mutex <- load_int (local "mutex") ;; f cvar mutex.

Definition main : user unit :=
  r <- CvarInit (local "cvar") ;;
  assert (negb (r =? ERROR)) ;;
  r <- LockInit (local "mutex") ;;
  assert (negb (r =? ERROR)) ;;
  TtyPrintf 0 "Enter 'go' to go:\n" [] ;;
  await_go ;;
  fork_to (with_ids Bouncer) ;;
  fork_to ThatAnnoyingGuy ;;
  fork_to (with_ids SonarGuy) ;;
  fork_to MallocMan ;;
  fork_to GarbageMan ;;
  endless (
    Delay 100 ;;
    TtyPrintf 0 "Parent woke up; going back to sleep\n" []) ;;
  TtyPrintf 0 "*** I SHOULDN'T BE HERE!!!\n" [].
End code.
End Torture.
