(* ===== verification/UserRun.v ===== *)
(** User programs on the kernel: a machine in user mode whose running process
    is an interaction tree.

    The code of a process is found by its program counter, as the kernel saves
    and restores it: where a system call is made, the counter is the address
    of what comes after the call, and the process goes on there when the
    kernel returns to it, with register 0 as the result.  So [Fork] makes two
    processes go on at the same place, and [Exec] makes one go on at the entry
    point of its new program.  While the idle process pauses, the terminals
    and the clock interrupt it. *)

From stdpp Require Import base gmap list.
From S2P Require Import Prelude Hardware Queue HashMap PageTable State Scheduler LoadProgram Machine UserPrograms.

Section machine.
Context {QH MH : Type} `{HW : Hardware} `{QO : QueueOps QH} `{MO : MapOps MH} `{FS : FileSystem}.
Abbreviation kst := (kst QH MH).
Implicit Types s : kst.
Abbreviation observe := ITree.Core.ITreeDefinition.observe.
Abbreviation RetF := ITree.Core.ITreeDefinition.RetF.
Abbreviation TauF := ITree.Core.ITreeDefinition.TauF.
Abbreviation VisF := ITree.Core.ITreeDefinition.VisF.

(** The kernel, the code at each address, the next free address for code, and
    what the running process does. *)
Record umachine := mkU {
  u_kernel : kst;
  u_code : gmap Z (Z -> user unit);
  u_next : Z;
  u_prog : user unit
}.

(** It goes on; the kernel has halted; anything else. *)
Inductive status := Running (w : umachine) | Stopped s | Stuck.

(** The lines that are typed at the terminals; whether the clock ticks after
    every system call, and not only while the idle process pauses. *)
Context (input : Z -> list Z) (ticks : bool).

(** What interrupts the idle process: a terminal that has transmitted, else a
    line for a terminal that somebody reads from, else the clock. *)
Definition transmits s (i : Z) : bool :=
  match currTransmitters (k_sched s) !! Z.to_nat i with Some p => negb (p =? NULL) | None => false end.
Definition is_read s (i : Z) : bool :=
  match readingQs (k_sched s) !! Z.to_nat i with
  | Some q => match peek_q q (k_qh s) with Ret p _ => negb (p =? NULL) | _ => false end
  | None => false
  end.
Definition terminals : list Z := seqZ 0 NUM_TERMINALS.
Definition interrupt s : trap * Z :=
  match filter (fun i => transmits s i = true) terminals, filter (fun i => is_read s i = true) terminals with
  | i :: _, _ => (TRAP_TTY_TRANSMIT, i)
  | [], i :: _ => (TRAP_TTY_RECEIVE (Z.of_nat (length (input i)) + 1) (input i), i)
  | [], [] => (TRAP_CLOCK, 0)
  end.

(** The process that runs after a trap. *)
Definition back (o : option (outcome kst unit)) (code : gmap Z (Z -> user unit)) (next : Z) : status :=
  match o with
  | Some (Ret _ s) =>
    match code !! uc_pc (k_frame s), uc_regs (k_frame s) with
    | Some f, r :: _ => Running (mkU s code next (f (s32 r)))
    | _, _ => Stuck
    end
  | Some (Halted s) => Stopped s
  | _ => Stuck
  end.

(** The user context of the running process at a trap with the given code,
    address, counter and registers. *)
Definition at_trap s (code addr pc : Z) (regs : list Z) : UserContext :=
  mkUctxt code addr pc (uc_sp (k_frame s)) (uc_ebp (k_frame s)) regs.

(** [fuel] and [n] are those of [deliver]. *)
Section step.
Context (fuel n : nat) (w : umachine).
Let s := u_kernel w.

(** The running process makes a trap, and goes on with [f]. *)
Definition traps (t : trap) (u : UserContext) (f : Z -> user unit) : status :=
  back (deliver fuel n t u s) (<[u_next w := f]> (u_code w)) (u_next w + 4).

(** An access to memory, by the byte; one that page tables do not allow is a
    trap, and is then tried again. *)
Definition accesses {A} (a : Z) (m : M kst A) (k : A -> user unit) (again : user unit) : status :=
  match m s with
  | Ret x s' => Running (mkU s' (u_code w) (u_next w) (k x))
  | _ => traps TRAP_MEMORY (at_trap s 0 a (u_next w) (uc_regs (k_frame s))) (fun _ => again)
  end.

(** A tick of the clock before the running process goes on. *)
Definition preempts (st : status) : status :=
  match st with
  | Running w' =>
    let s' := u_kernel w' in
    if ticks then
      back (deliver fuel n TRAP_CLOCK (at_trap s' 0 0 (u_next w') (uc_regs (k_frame s'))) s')
        (<[u_next w' := fun _ => u_prog w']> (u_code w')) (u_next w' + 4)
    else st
  | _ => st
  end.

Definition ustep : status :=
  match observe (u_prog w) with
  | RetF _ => Stuck
  | TauF p => Running (mkU s (u_code w) (u_next w) p)
  | VisF e k =>
    match e in userE X return (X -> user unit) -> status with
    | Syscall c args => fun k =>
      preempts (traps TRAP_KERNEL (at_trap s (YALNIX c) 0 (u_next w) (args ++ replicate (8 - length args) 0)) k)
    | Load a => fun k => accesses a (read_byte a) k (u_prog w)
    | Store a b => fun k => accesses a (write_byte a b) k (u_prog w)
    | Pause => fun k =>
      let (t, code) := interrupt s in traps t (at_trap s code 0 (u_next w) (uc_regs (k_frame s))) (fun _ => k tt)
    end k
  end.
End step.

(** A run of at most [steps] steps: it is still going on, the kernel has
    halted, or it is stuck in the state given. *)
Inductive ending := Going (w : umachine) | Halting s | Undefined_at (w : umachine).
Fixpoint urun (fuel n : nat) (steps : nat) (w : umachine) : ending :=
  match steps with
  | O => Going w
  | S steps' =>
    match ustep fuel n w with
    | Running w' => urun fuel n steps' w'
    | Stopped s => Halting s
    | Stuck => Undefined_at w
    end
  end.

(** The system call that the running process makes next. *)
Definition asks (w : umachine) : option (yalnix_call * list Z) :=
  match observe (u_prog w) with
  | VisF (Syscall c args) _ => Some (c, args)
  | _ => None
  end.

End machine.
