(* ===== verification/UserLib.v ===== *)
(** A user library, a layout and a file system for the programs of
    UserPrograms.  None of it is code of the repository: it is one example
    instance of the parameters, made up for the test runs of UserTests, and no
    property depends on it. *)

From Stdlib Require Import ZArith List Ascii String DecimalString.
From S2P Require Import Prelude Hardware LoadProgram UserPrograms StressTests.
From ITree Require Import ITree.
Import ITreeNotations.
Import ListNotations.
#[local] Open Scope itree_scope.
#[local] Open Scope Z_scope.

Fixpoint codes (s : string) : list Z :=
  match s with EmptyString => [] | String c s' => char_code c :: codes s' end.
Definition decimal (n : Z) : list Z := codes (NilZero.string_of_int (Z.to_int n)).

(** The string at the address [a], of at most [n] bytes. *)
Fixpoint load_string (n : nat) (a : Z) : user (list Z) :=
  match n with
  | O => Ret []
  | S n' =>
    b <- ITree.trigger (Load a) ;;
    if b =? 0 then Ret [] else bs <- load_string n' (a + 1) ;; Ret (b :: bs)
  end.

(** The bytes of a format: the conversions d and s, and the escape for a new
    line; 37 is the percent sign, 92 the backslash. *)
Fixpoint render (format : list Z) (args : list Z) : user (list Z) :=
  match format with
  | 37 :: 100 :: f => bs <- render f (tl args) ;; Ret (decimal (hd 0 args) ++ bs)
  | 37 :: 115 :: f =>
    str <- load_string 1024 (hd 0 args) ;; bs <- render f (tl args) ;; Ret (str ++ bs)
  | 92 :: 110 :: f => bs <- render f args ;; Ret (10 :: bs)
  | c :: f => bs <- render f args ;; Ret (c :: bs)
  | [] => Ret []
  end.

(** The library formats into a buffer on the stack, has its heap at the
    initial break, and the state of its random numbers in the last bytes of the
    page of data. *)
Definition print_buffer : Z := 0x1fe400.
Definition heap : Z := 0x104000.
Definition seed : Z := 0x103ff0.
#[export] Instance user_library : UserLibrary := {|
  TtyPrintf tty_id format args :=
    bs <- render (codes format) args ;;
    store_bytes print_buffer bs ;;
    TtyWrite tty_id print_buffer (Z.of_nat (List.length bs)) ;;
    Ret tt;
  malloc size := Brk (heap + Z.max 0x2000 size) ;; Ret heap;
  free p := Ret tt;
  rand :=
    x <- load_int seed ;;
    let x := (1103515245 * x + 12345) mod 2 ^ 31 in
    store_int seed x ;;
    Ret (x / 2 ^ 16);
  assert b := if b then Ret tt else Exit 134 ;; Ret tt
|}.

(** Variables and literals by name. *)
Fixpoint position (s : string) (l : list string) : Z :=
  match l with [] => 0 | x :: l' => if String.eqb s x then 0 else 1 + position s l' end.
Definition variables : list string := ["lock_id"; "cvar_id"; "pipe_id"; "status"; "argvec"; "cvar"; "mutex"; "punc"; "ch"; "buf"]%string.
Definition literals : list string := [Init.EXEC_TEST; Init.first_string; Init.second_string; "child"; "parent"]%string.
#[export] Instance user_layout : UserLayout := {|
  local x := if String.eqb x "big_buffer" then 0x1fb000 else 0x1fe100 + 16 * position x variables;
  local_at x i := 0x1fc000 - 1024 * (34 - i);
  literal x := 0x102000 + 32 * position x literals
|}.

(** Both programs have a page of text and one of data, that begins with the
    literals; they start at different places. *)
Definition padded (n : nat) (bs : list Z) : list Z := firstn n (bs ++ repeat 0 n).
Definition data : list Z := flat_map (fun s => padded 32 (codes s)) literals.
Definition entry_of (exectest : bool) : Z := if exectest then 0x100060 else 0x100040.
#[export] Instance user_files : FileSystem := {|
  file := bool;
  open_file name := if list_eq_dec Z.eq_dec name (codes "init"%string) then Some false
    else if list_eq_dec Z.eq_dec name (codes Init.EXEC_TEST) then Some true else None;
  LoadInfo exectest := Some (mkLoadInfo (entry_of exectest) 0x100000 1 0 0x102000 1 0x2000 0x104000 0 0x104000);
  read_file _ off n := padded (Z.to_nat n) (if off =? 0x2000 then data else [])
|}.

(** A text with the escape for a new line, as bytes. *)
Fixpoint unescape (bs : list Z) : list Z :=
  match bs with
  | 92 :: 110 :: bs' => 10 :: unescape bs'
  | b :: bs' => b :: unescape bs'
  | [] => []
  end.
Definition text (s : string) : list Z := unescape (codes s).
