(* ===== verification/Keeps.v ===== *)
(** Invariants through computations: [keeps I J m Q] says that [m], started in
    a state with [I], ends with [I] and a result with [Q] when it returns, and
    with [J] when it gives the processor away or halts.  The rules for the
    monad, and the interface that promises it of the functions with callbacks
    of Queue and HashMap. *)

From stdpp Require Import base gmap list.
From S2P Require Import Prelude Hardware Queue HashMap.

Definition keeps {S A} (I J : S -> Prop) (m : M S A) (Q : A -> Prop) : Prop := forall s, I s ->
  match m s with
  | Ret a s' => I s' /\ Q a
  | Switch _ s' | Halted s' => J s'
  | Undef => True
  end.

(** From a state with [P]; [keeps] is the case [P = I]. *)
Definition leads {S A} (P I J : S -> Prop) (m : M S A) (Q : A -> Prop) : Prop := forall s, P s ->
  match m s with
  | Ret a s' => I s' /\ Q a
  | Switch _ s' | Halted s' => J s'
  | Undef => True
  end.

(** How a computation ends: it returns, gives the processor away or halts. *)
Definition ends_in {S A} (r : outcome S A) (s' : S) : Prop :=
  match r with Ret _ s1 | Switch _ s1 | Halted s1 => s1 = s' | Undef => False end.

(** Any result. *)
Abbreviation any := (fun _ => True).

Section rules.
Context {S : Type} (I J : S -> Prop).

Lemma keeps_ret {A} (a : A) (Q : A -> Prop) : Q a -> keeps I J (ret a) Q.
Proof. intros Hq s Hs. done. Qed.

Lemma keeps_bind {A B} (m : M S A) (f : A -> M S B) Q R : keeps I J m Q -> (forall a, Q a -> keeps I J (f a) R) ->
  keeps I J (bind m f) R.
Proof. intros Hm Hf s Hs. specialize (Hm s Hs). unfold bind. destruct (m s); [|done..]. destruct Hm. by apply Hf. Qed.

Lemma keeps_ext {A} (m m' : M S A) (Q : A -> Prop) : (forall s, m s = m' s) -> keeps I J m' Q -> keeps I J m Q.
Proof. intros Heq Hm s. rewrite Heq. apply Hm. Qed.

Lemma keeps_weaken {A} (m : M S A) (Q R : A -> Prop) : keeps I J m Q -> (forall a, Q a -> R a) -> keeps I J m R.
Proof. intros Hm Hqr s Hs. specialize (Hm s Hs). destruct (m s); [|done..]. naive_solver. Qed.

Lemma keeps_any {A} (m : M S A) (Q : A -> Prop) : keeps I J m Q -> keeps I J m any.
Proof. intros Hm. by eapply keeps_weaken. Qed.

Lemma keeps_ends_in {A} (m : M S A) (Q : A -> Prop) s s' : keeps I I m Q -> I s -> ends_in (m s) s' -> I s'.
Proof. intros Hm Hs. specialize (Hm s Hs). destruct (m s); cbn; [|by intros <-..|done]. by destruct Hm; intros <-. Qed.

Lemma leads_bind {A B} P (m : M S A) (f : A -> M S B) Q R : keeps P J m Q -> (forall a, Q a -> leads P I J (f a) R) ->
  leads P I J (bind m f) R.
Proof. intros Hm Hf s Hs. specialize (Hm s Hs). unfold bind. destruct (m s); [|done..]. destruct Hm. by apply Hf. Qed.

Lemma leads_then {A B} P (m : M S A) (f : A -> M S B) Q R : leads P I J m Q -> (forall a, Q a -> keeps I J (f a) R) ->
  leads P I J (bind m f) R.
Proof. intros Hm Hf s Hs. specialize (Hm s Hs). unfold bind. destruct (m s); [|done..]. destruct Hm. by apply Hf. Qed.

Lemma leads_keeps {A} (P : S -> Prop) (m : M S A) Q : (forall s, P s -> I s) -> keeps I J m Q -> leads P I J m Q.
Proof. intros Hw Hm s Hs. apply Hm, Hw, Hs. Qed.

Lemma keeps_undef {A} (Q : A -> Prop) : keeps I J undef Q.
Proof. done. Qed.

Lemma keeps_gets {A} (f : S -> A) (Q : A -> Prop) : (forall s, I s -> Q (f s)) -> keeps I J (gets f) Q.
Proof. intros Hf s Hs. split; auto. Qed.

Lemma keeps_modify (f : S -> S) : (forall s, I s -> I (f s)) -> keeps I J (modify f) any.
Proof. intros Hf s Hs. split; auto. Qed.

Lemma keeps_rd {A} (o : option A) : keeps I J (rd o) (fun a => o = Some a).
Proof. by destruct o. Qed.

Lemma keeps_foldM {X} (f : X -> M S unit) l : (forall x, x ∈ l -> keeps I J (f x) any) -> keeps I J (foldM f l) any.
Proof.
  induction l as [|x l IH]; intros Hf; [by apply keeps_ret|]. eapply keeps_bind; [apply Hf, list_elem_of_here|].
  intros _ _. apply IH. intros y Hy. by apply Hf, list_elem_of_further.
Qed.

(** A computation on a part of the state. *)
Lemma keeps_lift {A X} `{Lens S A} (K : A -> Prop) (m : M A X) Q : (forall s, I s -> K (view s)) ->
  (forall s a, I s -> K a -> I (put a s)) -> (forall s, I s -> J s) -> keeps K K m Q -> keeps I J (lift m) Q.
Proof.
  intros Hv Hp Hj Hm s Hs. specialize (Hm (view s) (Hv s Hs)). unfold lift. destruct (m (view s)); [|auto..|done]. naive_solver.
Qed.

(** On a part that the invariant does not look at. *)
Lemma keeps_lift_other {A X} `{Lens S A} (m : M A X) : (forall s a, I s -> I (put a s)) -> (forall s, I s -> J s) ->
  keeps I J (lift m) any.
Proof. intros Hp Hj. apply (keeps_lift any); [done|auto|done|]. intros a _. by destruct (m a). Qed.
End rules.

Lemma keeps_with_local {S B A} (I J : S -> Prop) (b : B) (m : M (S * B) A) Q :
  keeps (fun sl => I (fst sl)) (fun sl => J (fst sl)) m Q -> keeps I J (with_local b m) (fun r => Q (fst r)).
Proof. intros Hm s Hs. specialize (Hm (s, b) Hs). unfold with_local. by destruct (m (s, b)) as [? []|? []|[]|]. Qed.

(** ** Callbacks *)

(** [delete_q], [HashMap_iterate] and [HashMap_delete] change their own heap,
    and otherwise do what the callback does. *)
Class QueueRuns (QH : Type) `{QueueOps QH} := {
  delete_q_keeps {S} `{Lens S QH} (I J : S -> Prop) q (f : option (ptr -> M S unit)) :
    (forall s a, I s -> I (put a s)) -> (forall s, I s -> J s) ->
    (forall g, f = Some g -> forall x, keeps I J (g x) any) -> keeps I J (delete_q q f) any
}.

Class MapRuns (MH : Type) `{MapOps MH} := {
  HashMap_iterate_keeps {S} `{Lens S MH} (I J : S -> Prop) hm (f : Z -> ptr -> M S unit) :
    (forall s a, I s -> I (put a s)) -> (forall s, I s -> J s) ->
    (forall k x, keeps I J (f k x) any) -> keeps I J (HashMap_iterate hm f) any;
  HashMap_delete_keeps {S} `{Lens S MH} (I J : S -> Prop) hm (f : option (ptr -> M S unit)) :
    (forall s a, I s -> I (put a s)) -> (forall s, I s -> J s) ->
    (forall g, f = Some g -> forall x, keeps I J (g x) any) -> keeps I J (HashMap_delete hm f) any
}.

(** One step of a proof of [keeps]: along the computation. *)
Ltac keep_step :=
  first
    [ lazymatch goal with |- forall _, _ => intro end
    | apply keeps_ret; exact Logic.I
    | apply keeps_undef
    | eapply keeps_any, keeps_rd
    | by apply keeps_gets
    | apply keeps_foldM
    | by apply keeps_lift_other
    | match goal with
      | |- keeps _ _ (bind _ _) _ => eapply (keeps_bind _ _ _ _ any)
      | |- keeps _ _ (if ?b then _ else _) _ => destruct b
      | |- keeps _ _ (match ?o with _ => _ end) _ => destruct o
      end ].

Section queue.
Import QueueImpl.
Context `{Hardware}.

Lemma delete_q_loop_keeps {S} `{Lens S qheap} (I J : S -> Prop) (f : option (ptr -> M S unit)) :
  (forall s a, I s -> I (put a s)) -> (forall s, I s -> J s) -> (forall g, f = Some g -> forall x, keeps I J (g x) any) ->
  forall fuel q, keeps I J (delete_q_loop fuel q f) any.
Proof.
  intros Hp Hj Hf fuel. induction fuel as [|fuel IH]; intros q; [apply keeps_undef|]. cbn [delete_q_loop].
  repeat keep_step; [by apply Hf|apply IH].
Qed.

#[export] Instance queue_runs : QueueRuns qheap.
Proof.
  split. intros S L I J q f Hp Hj Hf. cbn. unfold delete_q. repeat keep_step. by apply delete_q_loop_keeps.
Qed.
End queue.

Section map.
Import SetImpl HashMapImpl.
Context `{Hardware}.

Lemma set_iterate_loop_keeps {S} `{Lens S mheap} (I J : S -> Prop) (f : Z -> ptr -> M S unit) :
  (forall s a, I s -> I (put a s)) -> (forall s, I s -> J s) -> (forall k x, keeps I J (f k x) any) ->
  forall fuel node, keeps I J (set_iterate_loop fuel node f) any.
Proof.
  intros Hp Hj Hf fuel. induction fuel as [|fuel IH]; intros node; [apply keeps_undef|]. cbn [set_iterate_loop].
  repeat keep_step; [apply Hf|apply IH].
Qed.

Lemma set_delete_loop_keeps {S} `{Lens S mheap} (I J : S -> Prop) (f : option (ptr -> M S unit)) :
  (forall s a, I s -> I (put a s)) -> (forall s, I s -> J s) -> (forall g, f = Some g -> forall x, keeps I J (g x) any) ->
  forall fuel node, keeps I J (set_delete_loop fuel node f) any.
Proof.
  intros Hp Hj Hf fuel. induction fuel as [|fuel IH]; intros node; [apply keeps_undef|]. cbn [set_delete_loop].
  repeat keep_step; [by apply Hf|apply IH].
Qed.

#[export] Instance map_runs : MapRuns mheap.
Proof.
  split; intros S L I J hm f Hp Hj Hf; cbn; unfold HashMap_iterate, HashMap_delete, set_iterate, set_delete; repeat keep_step.
  - by apply set_iterate_loop_keeps.
  - by apply set_delete_loop_keeps.
Qed.
End map.
