(* ===== verification/Stable.v ===== *)
(** Invariants that survive the parts of the kernel that do not manage
    memory.  [Steady L I J] lists what such an invariant [I] must be stable
    under, the locks apart, and [Stable L I J] adds any change of locks; [J] is
    what holds after a context switch.  With [L = Some a] the invariant may
    rely on the buffers of pipes and terminals, the latter from the address
    [a] on, and on the contexts in PCBs; with [L = None] it knows nothing of
    them.  Every system call and handler but those that make, load, grow or end
    a process then keeps [I]; those on locks need [Stable]. *)

From stdpp Require Import base gmap list.
From S2P Require Import Prelude Hardware Queue HashMap FrameList PageTable State UserMem Scheduler SyncObjects LoadProgram GeneralCalls Tty Machine.
From S2P Require Import Keeps.

(** A change of a PCB that leaves its space and its context alone. *)
Definition same_kind (y x : PCB_t) : Prop :=
  r1PageTable y = r1PageTable x /\ stackPfns y = stackPfns x /\ kctxt y = kctxt x.

(** A pipe holds as many bytes as it says, and has room for no more than its
    buffer. *)
Record pipe_fits `{Hardware} (x : pipe_t) : Prop := {
  pf_buffer : Z.of_nat (length (buffer x)) = PIPE_MAX_BYTES;
  pf_count : 0 <= numBytesWritten x <= PIPE_MAX_BYTES;
  pf_bytes : Forall is_Some (take (Z.to_nat (numBytesWritten x)) (buffer x))
}.
(** The buffer of the terminal [i] is in its place and holds a line at most,
    and nothing when no line is ready. *)
Record buffer_fits `{Hardware} (a i : Z) (b : ttyBuf_t) : Prop := {
  bf_base : base b = a + i * TTY_READ_BUFFER_SIZE;
  bf_count : 0 <= tty_numBytesWritten b < TERMINAL_MAX_LINE;
  bf_flag : isLineReady b = 0 /\ tty_numBytesWritten b = 0 \/ isLineReady b = 1
}.
(** The lengths that a process holds in the kernel were checked. *)
Definition kcont_fits (k : kcont) : Prop :=
  match k with
  | KPipeReadTurn _ _ _ len | KPipeReadBytes _ _ _ len | KTtyRead _ _ len => 0 < len
  | _ => True
  end.

Section limits.
Context `{Hardware} (L : option Z).
Definition pipe_ok (x : pipe_t) : Prop := L <> None -> pipe_fits x.
Definition buffer_ok (i : Z) (b : ttyBuf_t) : Prop := match L with Some a => buffer_fits a i b | None => True end.
Definition kcont_ok (k : kcont) : Prop := L <> None -> kcont_fits k.
Definition kctxt_ok (x : PCB_t) : Prop := match kctxt x with Some (KSaved kc) => kcont_ok (kc_resume kc) | _ => True end.
(** [TtyReceive] delivers at most as much as it was asked for. *)
Definition line_ok (lenWithNull : Z) : Prop := L <> None -> lenWithNull <= TERMINAL_MAX_LINE.
End limits.

Class Steady {QH MH : Type} `{Hardware} (L : option Z) (I J : kst QH MH -> Prop) := {
  st_out s : I s -> J s;
  st_qh h s : I s -> I (with_qh h s);
  st_mh h s : I s -> I (with_mh h s);
  st_sched c s : I s -> I (with_sched c s);
  st_frame u s : I s -> I (with_frame u s);
  st_arena a s : brk_addr (o_arena (k_obj s)) <= brk_addr a -> I s -> I (with_obj (put a (k_obj s)) s);
  st_zombies z s : I s -> I (with_obj (with_zombies z (k_obj s)) s);
  st_pcb p x y s : pcbs (k_obj s) !! p = Some x -> same_kind y x -> I s ->
    I (with_obj (with_pcbs (<[p := y]> (pcbs (k_obj s))) (k_obj s)) s);
  st_kctxt p x kc s : pcbs (k_obj s) !! p = Some x -> kcont_ok L (kc_resume kc) -> I s ->
    I (with_obj (with_pcbs (<[p := with_kctxt (KSaved kc) x]> (pcbs (k_obj s))) (k_obj s)) s);
  st_starter kc s : I s -> starterKctxt (k_glob s) = Some kc -> kcont_ok L (kc_resume kc);
  st_pipe_get p x s : I s -> pipes (k_obj s) !! p = Some x -> pipe_ok L x;
  st_pipe_set p x s : I s -> pipe_ok L x -> I (with_obj (with_pipes (<[p := x]> (pipes (k_obj s))) (k_obj s)) s);
  st_pipe_free p s : I s -> I (with_obj (with_pipes (delete p (pipes (k_obj s))) (k_obj s)) s);
  st_buffer_get i b s : I s -> buffers (k_tty s) !! Z.to_nat i = Some (Some b) -> 0 <= i -> buffer_ok L i b;
  st_buffer_set i b s : I s -> 0 <= i -> buffer_ok L i b ->
    I (with_tty (mkTty (<[Z.to_nat i := Some b]> (buffers (k_tty s))) (transmitted (k_tty s))) s);
  st_transmitted t s : I s -> I (with_tty (mkTty (buffers (k_tty s)) t) s);
  st_mem m s : I s -> I (with_mem m s)
}.

(** It does not look at the locks either. *)
Class Stable {QH MH : Type} `{Hardware} (L : option Z) (I J : kst QH MH -> Prop) := {
  st_steady :: Steady L I J;
  st_locks l s : I s -> I (with_obj (with_locks l (k_obj s)) s)
}.

(** The context switch itself. *)
Class Switching {QH MH : Type} `{Hardware} (L : option Z) (I J : kst QH MH -> Prop) :=
  st_switch cur n kc : kcont_ok L (kc_resume kc) -> keeps I J (switchBetween cur n kc) any.

Create HintDb keeps.
Create HintDb keeps_val.

(** [keep]: along the computation, with the lemmas of the two databases. *)
Ltac kstep :=
  first
    [ solve [eauto 4 with keeps typeclass_instances nocore]
    | match goal with |- keeps _ _ (bind _ _) _ => eapply keeps_bind; [solve [eauto 4 with keeps_val typeclass_instances nocore]|] end
    | keep_step ].
Ltac keep := repeat kstep.

(** Memory, for any invariant that does not look at it. *)
Section memory.
Context {QH MH : Type} `{HW : Hardware} {I J : kst QH MH -> Prop}.

Lemma translate_mem a p : keeps I J (translate a p) any.
Proof. intros s Hs. rewrite translate_trans. by destruct (trans _ _ _). Qed.
Lemma load_byte_mem a : keeps I J (load_byte a) any.
Proof. eapply keeps_bind; [apply translate_mem|]. intros f _. by apply keeps_gets. Qed.

Context (Hmem : forall m s, I s -> I (with_mem m s)).
Lemma store_byte_mem a b : keeps I J (store_byte a b) any.
Proof. eapply keeps_bind; [apply translate_mem|]. intros f _. apply keeps_modify. intros s. apply Hmem. Qed.
Lemma write_byte_mem a b : keeps I J (write_byte a b) any.
Proof. unfold write_byte. destruct (user_addr a); [apply store_byte_mem|apply keeps_undef]. Qed.
Lemma write_bytes_mem bs : forall a, keeps I J (write_bytes a bs) any.
Proof.
  induction bs as [|b bs IH]; intros a; [by apply keeps_ret|]. cbn [write_bytes]. eapply keeps_bind; [apply write_byte_mem|]. intros _ _.
  apply IH.
Qed.
End memory.

Section primitives.
Context {QH MH : Type} `{HW : Hardware} `{QO : QueueOps QH} `{MO : MapOps MH} {L : option Z} {I J : kst QH MH -> Prop} `{SI : !Steady L I J}.
Abbreviation kst := (kst QH MH).
Implicit Types s : kst.

Lemma halt_keeps {A} (Q : A -> Prop) : keeps I J Halt Q.
Proof. intros s Hs. by apply st_out. Qed.
Lemma sched_keeps {A} (f : sched_t -> A) : keeps I J (sched f) any.
Proof. by apply keeps_gets. Qed.
Lemma glob_keeps {A} (f : globals -> A) : keeps I J (glob f) any.
Proof. by apply keeps_gets. Qed.
Lemma set_sched_keeps f : keeps I J (set_sched f) any.
Proof. apply keeps_modify. intros s. apply st_sched. Qed.
Lemma lift_q_keeps {A} (m : M QH A) : keeps I J (lift m) any.
Proof. apply keeps_lift_other; [intros s a; apply st_qh|intros s; apply st_out]. Qed.
Lemma lift_m_keeps {A} (m : M MH A) : keeps I J (lift m) any.
Proof. apply keeps_lift_other; [intros s a; apply st_mh|intros s; apply st_out]. Qed.
Lemma malloc_grows n (a a' : arena) x : malloc n a = Ret x a' -> brk_addr a <= brk_addr a'.
Proof. unfold malloc. destruct (fails a) as [|[] fs]; intros [= _ <-]; cbn; lia. Qed.
Lemma kmalloc_keeps n : keeps I J (kmalloc n) any.
Proof.
  intros s Hs. unfold kmalloc, lift. cbn [view lens_obj objects_lens]. destruct (malloc n (o_arena (k_obj s))) as [x a|kc a|a|] eqn:Hm; [|..|done].
  - split; [apply (st_arena a); [by eapply malloc_grows|done]|done].
  - unfold malloc in Hm. by destruct (fails _) as [|[] ?].
  - unfold malloc in Hm. by destruct (fails _) as [|[] ?].
Qed.
Lemma load_pcb_keeps p : keeps I J (load_pcb p) any.
Proof. intros s Hs. unfold load_pcb. by destruct (_ !! _). Qed.
Lemma load_zombie_keeps p : keeps I J (load_zombie p) any.
Proof. intros s Hs. unfold load_zombie. by destruct (_ !! _). Qed.
Lemma load_lock_keeps p : keeps I J (load_lock p) any.
Proof. intros s Hs. unfold load_lock. by destruct (_ !! _). Qed.
Lemma load_pipe_keeps p : keeps I J (load_pipe p) (pipe_ok L).
Proof. intros s Hs. unfold load_pipe. destruct (_ !! _) eqn:Hp; [|done]. split; [done|]. by eapply st_pipe_get. Qed.
Lemma update_pcb_keeps p f : (forall x, same_kind (f x) x) -> keeps I J (update_pcb p f) any.
Proof.
  intros Hf s Hs. unfold update_pcb, load_pcb, bind, set_pcb, modify. destruct (_ !! _) eqn:Hp; [|done]. split; [|done]. by eapply st_pcb.
Qed.
Lemma update_kctxt_keeps p kc : kcont_ok L (kc_resume kc) -> keeps I J (update_pcb p (with_kctxt (KSaved kc))) any.
Proof.
  intros Hk s Hs. unfold update_pcb, load_pcb, bind, set_pcb, modify. destruct (_ !! _) eqn:Hp; [|done]. split; [|done]. by eapply st_kctxt.
Qed.
Lemma starter_keeps {A} (m : KernelContext -> M kst A) Q : (forall kc, kcont_ok L (kc_resume kc) -> keeps I J (m kc) Q) ->
  keeps I J (let! kc := glob starterKctxt in let! kc := rd kc in m kc) Q.
Proof.
  intros Hm s Hs. unfold bind, glob, gets, rd. destruct (starterKctxt _) as [kc|] eqn:Hk; [|done]. apply Hm; [|done]. by eapply st_starter.
Qed.
Lemma set_zombie_keeps p z : keeps I J (set_zombie p z) any.
Proof. apply keeps_modify. intros s. apply st_zombies. Qed.
Lemma free_zombie_keeps p : keeps I J (free_zombie p) any.
Proof. eapply keeps_bind; [apply load_zombie_keeps|]. intros _ _. apply keeps_modify. intros s. apply st_zombies. Qed.
Lemma set_pipe_keeps p x : pipe_ok L x -> keeps I J (set_pipe p x) any.
Proof. intros Hx. apply keeps_modify. intros s Hs. by apply st_pipe_set. Qed.
Lemma free_pipe_keeps p : keeps I J (free_pipe p) any.
Proof. eapply keeps_bind; [eapply keeps_any, load_pipe_keeps|]. intros _ _. apply keeps_modify. intros s. apply st_pipe_free. Qed.

(** ** Memory *)

Lemma load_byte_keeps a : keeps I J (load_byte a) any.
Proof. apply load_byte_mem. Qed.
Lemma store_byte_keeps a b : keeps I J (store_byte a b) any.
Proof. apply store_byte_mem, st_mem. Qed.
Lemma read_byte_keeps a : keeps I J (read_byte a) any.
Proof. unfold read_byte. destruct (user_addr a); [apply load_byte_keeps|apply keeps_undef]. Qed.
Lemma write_byte_keeps a b : keeps I J (write_byte a b) any.
Proof. apply write_byte_mem, st_mem. Qed.
Lemma write_bytes_keeps bs a : keeps I J (write_bytes a bs) any.
Proof. apply write_bytes_mem, st_mem. Qed.
Lemma read_bytes_length n : forall a, keeps I J (read_bytes a n) (fun bs => length bs = n).
Proof.
  induction n as [|n IH]; intros a; [by apply keeps_ret|]. cbn [read_bytes]. eapply keeps_bind; [apply read_byte_keeps|]. intros b _.
  eapply keeps_bind; [apply IH|]. intros bs Hbs. apply keeps_ret. cbn. by f_equal.
Qed.
Lemma read_bytes_keeps n a : keeps I J (read_bytes a n) any.
Proof. eapply keeps_any, read_bytes_length. Qed.
Lemma write_int_keeps p v : keeps I J (write_int p v) any.
Proof. apply write_bytes_keeps. Qed.
Lemma read_int_keeps p : keeps I J (read_int p) any.
Proof. eapply keeps_bind; [apply read_bytes_keeps|]. intros bs _. by apply keeps_ret. Qed.
Lemma translate_keeps a p : keeps I J (translate a p) any.
Proof. apply translate_mem. Qed.
Lemma load_bytes_keeps n : forall a, keeps I J (load_bytes a n) any.
Proof.
  induction n as [|n IH]; intros a; [by apply keeps_ret|]. cbn [load_bytes]. eapply keeps_bind; [apply load_byte_keeps|]. intros b _.
  eapply keeps_bind; [apply IH|]. intros bs _. by apply keeps_ret.
Qed.
Lemma store_bytes_keeps bs : forall a, keeps I J (store_bytes a bs) any.
Proof.
  induction bs as [|b bs IH]; intros a; [by apply keeps_ret|]. cbn [store_bytes]. eapply keeps_bind; [apply store_byte_keeps|]. intros _ _.
  apply IH.
Qed.

(** Reading page tables changes nothing. *)
Lemma lift_load_pte_keeps p : keeps I J (lift (load_pte p)) any.
Proof.
  intros s Hs. unfold lift, load_pte. cbn [view lens_pt]. destruct (_ !! _); [|done]. cbn. by rewrite with_pt_id.
Qed.
Lemma getAddressProt_keeps a r : keeps I J (lift (getAddressProt a r)) any.
Proof.
  intros s Hs. unfold lift, getAddressProt, load_pte, bind, gets. cbn [view lens_pt].
  assert (with_pt (k_pt s) s = s) as Hid by apply with_pt_id.
  destruct (r =? 0); [|destruct (r =? 1)]; cbn; try (destruct (_ !! _); [|done]); cbn; by rewrite Hid.
Qed.
End primitives.

#[export] Hint Resolve halt_keeps sched_keeps glob_keeps set_sched_keeps lift_q_keeps lift_m_keeps kmalloc_keeps load_pcb_keeps
  load_zombie_keeps load_lock_keeps set_zombie_keeps free_zombie_keeps free_pipe_keeps translate_keeps
  load_byte_keeps store_byte_keeps read_byte_keeps write_byte_keeps read_bytes_keeps write_bytes_keeps load_bytes_keeps
  store_bytes_keeps write_int_keeps read_int_keeps lift_load_pte_keeps getAddressProt_keeps : keeps.
#[export] Hint Resolve load_pipe_keeps : keeps_val.
#[export] Hint Extern 1 (kcont_ok _ _) => first [assumption|by intros ?] : keeps.

(** ** The functions *)

Section functions.
Context {QH MH : Type} `{HL : HardwareLaws} `{QO : QueueOps QH} `{MO : MapOps MH} `{QR : !QueueRuns QH} `{MR : !MapRuns MH}
  `{FS : FileSystem} {L : option Z} {I J : kst QH MH -> Prop} `{SI : !Steady L I J} `{SW : !Switching L I J}.
Abbreviation kst := (kst QH MH).
Implicit Types s : kst.

Lemma KernelContextSwitch_keeps f k : (forall kc, kc_resume kc = k -> keeps I J (f kc) any) -> keeps I J (KernelContextSwitch f k) any.
Proof.
  intros Hf s Hs. unfold KernelContextSwitch. specialize (Hf (mkKctxt k (k_frame s)) eq_refl s Hs). destruct (f _ s); [|done..].
  apply st_out, Hf.
Qed.
Lemma switch_keeps cur n k : kcont_ok L k -> keeps I J (KernelContextSwitch (switchBetween cur n) k) any.
Proof. intros Hk. apply KernelContextSwitch_keeps. intros kc <-. by apply st_switch. Qed.
Hint Resolve switch_keeps : keeps.

Lemma run_next_keeps cur k : kcont_ok L k -> keeps I J (run_next cur k) any.
Proof. intros Hk. unfold run_next. keep. Qed.
Lemma tty_at_keeps a i : keeps I J (tty_at a i) any.
Proof. eapply keeps_any, keeps_rd. Qed.
Hint Resolve run_next_keeps tty_at_keeps : keeps.

Lemma sleepProcess_keeps n k : kcont_ok L k -> keeps I J (sleepProcess n k) any.
Proof. intros Hk. unfold sleepProcess. keep. by apply update_pcb_keeps. Qed.
Lemma kickProcess_keeps k : kcont_ok L k -> keeps I J (kickProcess k) any.
Proof. intros Hk. unfold kickProcess. keep. Qed.
Lemma blockProcess_keeps k : kcont_ok L k -> keeps I J (blockProcess k) any.
Proof. intros Hk. unfold blockProcess. keep. Qed.
Lemma unblockProcess_keeps k : keeps I J (unblockProcess k) any.
Proof. unfold unblockProcess. keep. Qed.
Lemma set_currTransmitter_keeps i p : keeps I J (set_currTransmitter i p) any.
Proof. unfold set_currTransmitter. keep. Qed.
Lemma isTtyTransmitAvailable_keeps i : keeps I J (isTtyTransmitAvailable i) any.
Proof. unfold isTtyTransmitAvailable. keep. Qed.
Hint Resolve sleepProcess_keeps kickProcess_keeps blockProcess_keeps unblockProcess_keeps set_currTransmitter_keeps
  isTtyTransmitAvailable_keeps : keeps.
Lemma blockTransmitter_keeps i k : kcont_ok L k -> keeps I J (blockTransmitter i k) any.
Proof. intros Hk. unfold blockTransmitter. keep. Qed.
Lemma unblockTransmitter_keeps i : keeps I J (unblockTransmitter i) any.
Proof. unfold unblockTransmitter. keep. Qed.
Lemma waitTransmitter_keeps i k : kcont_ok L k -> keeps I J (waitTransmitter i k) any.
Proof. intros Hk. unfold waitTransmitter. keep. Qed.
Lemma signalTransmitter_keeps i k : kcont_ok L k -> keeps I J (signalTransmitter i k) any.
Proof. intros Hk. unfold signalTransmitter. keep. Qed.
Lemma blockReader_keeps i k : kcont_ok L k -> keeps I J (blockReader i k) any.
Proof. intros Hk. unfold blockReader. keep. Qed.
Lemma unblockReader_keeps i : keeps I J (unblockReader i) any.
Proof. unfold unblockReader. keep. Qed.
Hint Resolve blockTransmitter_keeps unblockTransmitter_keeps waitTransmitter_keeps signalTransmitter_keeps blockReader_keeps
  unblockReader_keeps : keeps.

(** The sleepers: the local variable that the callback counts in is no part
    of the invariant. *)
Lemma lift_fst_keeps {A} (m : M kst A) Q : keeps I J m Q -> keeps (fun sl : kst * Z => I (fst sl)) (fun sl => J (fst sl)) (lift m) Q.
Proof. intros Hm [s b] Hs. specialize (Hm s Hs). unfold lift. cbn. destruct (m s); done. Qed.

Lemma tickDownSleeper_keeps k p : keeps (fun sl : kst * Z => I (fst sl)) (fun sl => J (fst sl)) (tickDownSleeper k p) any.
Proof.
  unfold tickDownSleeper. eapply keeps_bind; [by apply lift_fst_keeps, update_pcb_keeps|]. intros _ _.
  eapply keeps_bind; [by apply lift_fst_keeps, load_pcb_keeps|]. intros x _. destruct (_ <=? 0); [|by apply keeps_ret].
  eapply keeps_bind; [by apply lift_fst_keeps, sched_keeps|]. intros sm _. eapply keeps_bind; [apply keeps_lift_other|].
  - intros [s b] h Hs. by apply (st_mh h).
  - intros [s b]. apply st_out.
  - intros r _. destruct (r =? NULL); [by apply keeps_modify|]. eapply keeps_bind; [by apply lift_fst_keeps, sched_keeps|].
    intros rq _. eapply keeps_bind; [apply keeps_lift_other|].
    + intros [s b] h Hs. by apply (st_qh h).
    + intros [s b]. apply st_out.
    + intros e _. destruct (e =? ERROR); [by apply keeps_modify|by apply keeps_ret].
Qed.
Lemma tickDownSleepers_keeps : keeps I J tickDownSleepers any.
Proof.
  unfold tickDownSleepers. kstep; [kstep|]. intros sm _. eapply keeps_bind; [eapply keeps_any, keeps_with_local|].
  - apply HashMap_iterate_keeps; [intros [s b] h Hs; by apply (st_mh h)|intros [s b]; apply st_out|apply tickDownSleeper_keeps].
  - keep.
Qed.
Hint Resolve tickDownSleepers_keeps : keeps.

(** *** Locks, condition variables, pipes *)

Lemma getLock_keeps i : keeps I J (getLock i) any.
Proof. unfold getLock. keep. Qed.
Lemma getCvar_keeps i : keeps I J (getCvar i) any.
Proof. unfold getCvar. keep. Qed.
Lemma getPipe_keeps i : keeps I J (getPipe i) any.
Proof. unfold getPipe. keep. Qed.
Lemma initCvar_keeps p : keeps I J (initCvar p) any.
Proof. unfold initCvar. keep. Qed.
Lemma fresh_pipe_ok q : pipe_ok L (mkPipe (replicate (Z.to_nat PIPE_MAX_BYTES) None) 0 q).
Proof.
  intros _. assert (0 <= PIPE_MAX_BYTES) by (pose proof TERMINAL_MAX_LINE_pos; apply Z.quot_pos; lia).
  split; cbn; [rewrite length_replicate; lia|lia|by rewrite take_0].
Qed.
Lemma initPipe_keeps p : keeps I J (initPipe p) any.
Proof. unfold initPipe. keep. apply set_pipe_keeps, fresh_pipe_ok. Qed.
Lemma delete_q_none_keeps q : keeps I J (delete_q q None) any.
Proof. apply delete_q_keeps; [intros s h; apply st_qh|intros s; apply st_out|done]. Qed.
Hint Resolve getLock_keeps getCvar_keeps getPipe_keeps initCvar_keeps initPipe_keeps delete_q_none_keeps : keeps.
Lemma deleteCvar_keeps i : keeps I J (deleteCvar i) any.
Proof. unfold deleteCvar. keep. Qed.
Lemma deletePipe_keeps i : keeps I J (deletePipe i) any.
Proof. unfold deletePipe. keep. Qed.
Hint Resolve deleteCvar_keeps deletePipe_keeps : keeps.
Lemma KernelCvarSignal_keeps i : keeps I J (KernelCvarSignal i) any.
Proof. unfold KernelCvarSignal. keep. Qed.
Lemma broadcast_loop_keeps n q : keeps I J (broadcast_loop n q) any.
Proof. induction n as [|n IH]; [apply keeps_undef|]. cbn [broadcast_loop]. keep. Qed.
Hint Resolve broadcast_loop_keeps : keeps.
Lemma KernelCvarBroadcast_keeps n i : keeps I J (KernelCvarBroadcast n i) any.
Proof. unfold KernelCvarBroadcast. keep. Qed.
Hint Resolve KernelCvarSignal_keeps KernelCvarBroadcast_keeps : keeps.

(** A pipe after its first [n] bytes were taken, and after [bs] was written
    to it. *)
Lemma pipe_taken_ok x n q : pipe_ok L x -> (L <> None -> 0 < n) -> n <= numBytesWritten x ->
  let moved := take (Z.to_nat (numBytesWritten x - n)) (drop (Z.to_nat n) (buffer x)) in
  pipe_ok L (mkPipe (buffer x) (numBytesWritten x - n) q) /\
  pipe_ok L (mkPipe (moved ++ drop (length moved) (buffer x)) (numBytesWritten x - n) q).
Proof.
  intros Hx Hn Hle moved. set (r := numBytesWritten x - n) in *. assert (r = numBytesWritten x - n) as Hr by done.
  split; intros HL0; specialize (Hn HL0); destruct (Hx HL0) as [Hb Hc Hs]; split; cbn [buffer numBytesWritten]; try lia.
  - eapply Forall_take with (n := Z.to_nat r) in Hs. by rewrite take_take, Nat.min_l in Hs by lia.
  - assert (length moved = Z.to_nat r) as Hm by (unfold moved; rewrite length_take, length_drop; lia).
    rewrite length_app, length_drop, Hm. lia.
  - assert (length moved = Z.to_nat r) as Hm by (unfold moved; rewrite length_take, length_drop; lia).
    rewrite <- Hm at 1. rewrite take_app_length. unfold moved. rewrite take_drop_commute.
    replace (Z.to_nat n + Z.to_nat r)%nat with (Z.to_nat (numBytesWritten x)) by lia. by apply Forall_drop.
Qed.

Lemma pipe_written_ok x bs n q : pipe_ok L x -> 0 < n -> length bs = Z.to_nat n -> numBytesWritten x + n <= PIPE_MAX_BYTES ->
  let k := Z.to_nat (numBytesWritten x) in
  pipe_ok L (mkPipe (take k (buffer x) ++ (Some <$> bs) ++ drop (k + length bs) (buffer x)) (numBytesWritten x + n) q).
Proof.
  intros Hx Hn Hlen Hmax k HL0. destruct (Hx HL0) as [Hb Hc Hs].
  assert (length (take k (buffer x)) = k) as Hk by (rewrite length_take; lia). split; cbn [buffer numBytesWritten]; [|lia|].
  - rewrite !length_app, length_fmap, length_drop, Hk. lia.
  - rewrite (assoc_L (++)), take_app_length'; [|rewrite length_app, length_fmap, Hk; lia].
    apply Forall_app. split; [done|]. apply Forall_fmap, Forall_true. by eexists.
Qed.

(** The end of a read, when the bytes are there. *)
Definition has_bytes (p : ptr) (n : Z) s : Prop := I s /\ exists x, pipes (k_obj s) !! p = Some x /\ n <= numBytesWritten x.

Lemma pipe_read_finish_leads p q buf n : (L <> None -> 0 < n) -> leads (has_bytes p n) I J (pipe_read_finish p q buf n) any.
Proof.
  intros Hn. assert (keeps (has_bytes p n) J (load_pipe p) (fun x => pipe_ok L x /\ n <= numBytesWritten x)) as Hload.
  { intros s Hs. unfold load_pipe. pose proof Hs as [HI (x & Hx & Hle)]. rewrite Hx. split; [done|]. split; [by eapply st_pipe_get|done]. }
  unfold pipe_read_finish. eapply (leads_bind _ _ _ _ _ any).
  { apply keeps_lift_other; [intros s a [HI Hp]; split; [by apply st_qh|done]|intros s [HI _]; by apply st_out]. }
  intros hd _. destruct (hd =? NULL); [apply leads_keeps; [by intros s []|by apply keeps_ret]|].
  eapply leads_bind; [exact Hload|]. intros x _. eapply (leads_bind _ _ _ _ _ any); [eapply keeps_any, keeps_rd|]. intros bs _.
  eapply (leads_bind _ _ _ _ _ any); [apply write_bytes_mem; intros m s [HI Hp]; split; [by apply st_mem|done]|]. intros _ _.
  eapply leads_bind; [exact Hload|]. intros y [Hy Hle]. apply leads_keeps; [by intros s []|].
  destruct (pipe_taken_ok y n (pipe_waitingQ y) Hy Hn Hle) as [H1 H2].
  kstep; [by apply set_pipe_keeps|]. intros _ _. destruct (0 <? _); [|by apply keeps_ret]. kstep; [by apply set_pipe_keeps|]. keep.
Qed.
Lemma pipe_read_loop_keeps p q buf n : (L <> None -> 0 < n) -> keeps I J (pipe_read_loop p q buf n) any.
Proof.
  intros Hn s Hs. unfold pipe_read_loop, bind, load_pipe. destruct (pipes (k_obj s) !! p) as [x|] eqn:Hx; [|done].
  destruct (Z.ltb_spec (numBytesWritten x) n); [by apply blockProcess_keeps|]. apply pipe_read_finish_leads; [done|]. split; [done|]. eauto.
Qed.
Lemma KernelPipeRead_keeps i buf n : keeps I J (KernelPipeRead i buf n) any.
Proof.
  unfold KernelPipeRead. destruct (Z.ltb_spec n 0); [by apply keeps_ret|]. destruct (Z.eqb_spec n 0); [by apply keeps_ret|].
  assert (0 < n) by lia. keep; apply pipe_read_loop_keeps; by intros _.
Qed.
Lemma KernelPipeWrite_keeps i buf n : keeps I J (KernelPipeWrite i buf n) any.
Proof.
  unfold KernelPipeWrite, add_int. destruct (Z.ltb_spec n 0); [by apply keeps_ret|]. destruct (Z.eqb_spec n 0); [by apply keeps_ret|].
  kstep; [kstep|]. intros p _. destruct (p =? NULL); [by apply keeps_ret|].
  eapply keeps_bind; [apply load_pipe_keeps|]. intros x Hx. eapply (keeps_bind _ _ _ _ (fun t => t = numBytesWritten x + n)).
  { destruct (_ && _); [by apply keeps_ret|apply keeps_undef]. }
  intros total ->. destruct (Z.ltb_spec PIPE_MAX_BYTES (numBytesWritten x + n)); [by apply keeps_ret|].
  eapply keeps_bind; [apply read_bytes_length|]. intros bs Hbs. eapply (keeps_bind _ _ _ _ any); [|keep].
  apply set_pipe_keeps, pipe_written_ok; [done|lia|done|lia].
Qed.
Hint Resolve KernelPipeRead_keeps KernelPipeWrite_keeps : keeps.

(** *** General calls *)

Lemma first_pte_keeps v : keeps I J (first_pte v) any.
Proof. unfold first_pte. keep. Qed.
Lemma buffer_loop_keeps n : forall p len prot, keeps I J (buffer_loop n p len prot) any.
Proof. induction n as [|n IH]; intros p len prot; cbn [buffer_loop]; keep. Qed.
Lemma scan_bytes_keeps n : forall c, keeps I J (scan_bytes n c) any.
Proof. induction n as [|n IH]; intros c; cbn [scan_bytes]; keep. Qed.
Hint Resolve first_pte_keeps buffer_loop_keeps scan_bytes_keeps : keeps.
Lemma isValidBuffer_keeps b n p : keeps I J (isValidBuffer b n p) any.
Proof. unfold isValidBuffer. keep. Qed.
Lemma string_loop_keeps n : forall p c b, keeps I J (string_loop n p c b) any.
Proof. induction n as [|n IH]; intros p c b; cbn [string_loop]; keep. Qed.
Hint Resolve isValidBuffer_keeps string_loop_keeps : keeps.
Lemma isValidString_keeps a : keeps I J (isValidString a) any.
Proof. unfold isValidString. keep. Qed.
Hint Resolve isValidString_keeps : keeps.
Lemma wait_finish_keeps a : keeps I J (wait_finish a) any.
Proof. unfold wait_finish. keep. Qed.
Hint Resolve wait_finish_keeps : keeps.
Lemma KernelWait_keeps a : keeps I J (KernelWait a) any.
Proof. unfold KernelWait. keep. Qed.
Lemma KernelGetPid_keeps : keeps I J KernelGetPid any.
Proof. unfold KernelGetPid. keep. Qed.
Lemma KernelDelay_keeps n : keeps I J (KernelDelay n) any.
Proof. unfold KernelDelay. keep. Qed.
Hint Resolve KernelWait_keeps KernelGetPid_keeps KernelDelay_keeps : keeps.

(** *** Terminals *)

Lemma set_buffer_keeps i b : 0 <= i -> buffer_ok L i b -> keeps I J (set_buffer i b) any.
Proof. intros Hi Hb. apply keeps_modify. intros s Hs. by apply st_buffer_set. Qed.
Lemma load_buffer_keeps i : keeps I J (load_buffer i) (fun b => 0 <= i /\ buffer_ok L i b).
Proof.
  intros s Hs. unfold load_buffer, bind, gets. destruct (Z.leb_spec 0 i); [|done]. destruct (buffers _ !! _) as [[b|]|] eqn:Hb; [|done..].
  split; [done|]. split; [done|]. by eapply st_buffer_get.
Qed.
Lemma TtyTransmit_keeps i bs : keeps I J (TtyTransmit i bs) any.
Proof. apply keeps_modify. intros s. apply st_transmitted. Qed.
Hint Resolve TtyTransmit_keeps : keeps.
(** Another line, or a part of it, in the same place. *)
Lemma buffer_ok_count i b n f : buffer_ok L i b -> (L <> None -> 0 <= n < TERMINAL_MAX_LINE) -> f = 0 /\ n = 0 \/ f = 1 ->
  buffer_ok L i (mkTtyBuf (base b) n f).
Proof. unfold buffer_ok. destruct L as [w|]; [|done]. intros [Hb _ _] Hn Hf. split; [done|by apply Hn|done]. Qed.
Lemma writeBuffer_keeps i n line : line_ok L n -> keeps I J (writeBuffer i n line) any.
Proof.
  intros Hn. pose proof TERMINAL_MAX_LINE_pos. unfold writeBuffer. eapply keeps_bind; [apply load_buffer_keeps|]. intros b [Hi Hb]. kstep; [keep|]. intros _ _.
  eapply (keeps_bind _ _ _ _ any); [|keep]. destruct (Z.ltb_spec 0 n).
  - kstep; [apply set_buffer_keeps, buffer_ok_count; auto|keep]. intros HL0. specialize (Hn HL0). lia.
  - apply set_buffer_keeps, buffer_ok_count; auto. lia.
Qed.
Lemma readBuffer_keeps i buf n : (L <> None -> 0 < n) -> keeps I J (readBuffer i buf n) any.
Proof.
  intros Hn. pose proof TERMINAL_MAX_LINE_pos. unfold readBuffer. eapply keeps_bind; [apply load_buffer_keeps|]. intros b [Hi Hb].
  destruct (Z.eqb_spec (isLineReady b) 0); [by apply blockReader_keeps|].
  assert (L <> None -> 0 <= tty_numBytesWritten b < TERMINAL_MAX_LINE) as Hc.
  { unfold buffer_ok in Hb. destruct L; [by destruct Hb|done]. }
  destruct (Z.ltb_spec n (tty_numBytesWritten b)); keep.
  - apply set_buffer_keeps; [done|]. unfold buffer_ok in *. destruct L as [w|]; [|done]. destruct Hb as [Hb1 Hb2 Hb3]. specialize (Hn ltac:(done)).
    split; cbn; [done|lia|]. right. by destruct Hb3 as [[]|].
  - apply set_buffer_keeps, buffer_ok_count; auto. lia.
Qed.
Lemma tty_write_loop_keeps n : forall i bs k, keeps I J (tty_write_loop n i bs k) any.
Proof. induction n as [|n IH]; intros i bs k; cbn [tty_write_loop]; keep. Qed.
Hint Resolve tty_write_loop_keeps : keeps.
Lemma tty_write_start_keeps i bs : keeps I J (tty_write_start i bs) any.
Proof. unfold tty_write_start. keep. Qed.
Hint Resolve tty_write_start_keeps : keeps.
Lemma KernelTtyWrite_keeps i buf n : keeps I J (KernelTtyWrite i buf n) any.
Proof. unfold KernelTtyWrite. keep. Qed.
Lemma KernelTtyRead_keeps i buf n : keeps I J (KernelTtyRead i buf n) any.
Proof.
  unfold KernelTtyRead. destruct (_ <? VMEM_1_BASE); [by apply keeps_ret|]. destruct (Z.ltb_spec n 0); [by apply keeps_ret|].
  destruct (Z.eqb_spec n 0); [by apply keeps_ret|]. keep. apply readBuffer_keeps. lia.
Qed.

(** *** Handlers *)

Lemma set_return_keeps r : keeps I J (set_return r) any.
Proof. apply keeps_modify. intros s. apply st_frame. Qed.
Lemma handleTrapClock_keeps : keeps I J handleTrapClock any.
Proof. unfold handleTrapClock. keep. Qed.
Lemma handleTtyReceive_keeps n line : line_ok L n -> keeps I J (handleTtyReceive n line) any.
Proof. intros Hl. unfold handleTtyReceive. keep. by apply writeBuffer_keeps. Qed.
Lemma handleTtyTransmit_keeps : keeps I J handleTtyTransmit any.
Proof. unfold handleTtyTransmit. keep. Qed.
End functions.

(** ** The functions that change locks *)

Section locks.
Context {QH MH : Type} `{HL : HardwareLaws} `{QO : QueueOps QH} `{MO : MapOps MH} `{QR : !QueueRuns QH} `{MR : !MapRuns MH}
  `{FS : FileSystem} {L : option Z} {I J : kst QH MH -> Prop} `{SI : !Stable L I J} `{SW : !Switching L I J}.
Abbreviation kst := (kst QH MH).
Implicit Types s : kst.

Hint Resolve getLock_keeps getCvar_keeps getPipe_keeps delete_q_none_keeps blockProcess_keeps unblockProcess_keeps deleteCvar_keeps deletePipe_keeps : keeps.

Lemma set_lock_keeps p l : keeps I J (set_lock p l) any.
Proof. apply keeps_modify. intros s. apply st_locks. Qed.
Lemma free_lock_keeps p : keeps I J (free_lock p) any.
Proof. eapply keeps_bind; [apply load_lock_keeps|]. intros _ _. apply keeps_modify. intros s. apply st_locks. Qed.
Hint Resolve set_lock_keeps free_lock_keeps : keeps.
Lemma initLock_keeps p : keeps I J (initLock p) any.
Proof. unfold initLock. keep. Qed.
Lemma deleteLock_keeps i : keeps I J (deleteLock i) any.
Proof. unfold deleteLock. keep. Qed.
Lemma acquire_loop_keeps p : keeps I J (acquire_loop p) any.
Proof. unfold acquire_loop. keep. Qed.
Hint Resolve deleteLock_keeps acquire_loop_keeps : keeps.
Lemma KernelAcquire_keeps i : keeps I J (KernelAcquire i) any.
Proof. unfold KernelAcquire. keep. Qed.
Lemma KernelRelease_keeps i : keeps I J (KernelRelease i) any.
Proof. unfold KernelRelease. keep. Qed.
Hint Resolve KernelAcquire_keeps KernelRelease_keeps : keeps.
Lemma KernelCvarWait_keeps i l : keeps I J (KernelCvarWait i l) any.
Proof. unfold KernelCvarWait. keep. Qed.
Lemma KernelReclaim_keeps i : keeps I J (KernelReclaim i) any.
Proof. unfold KernelReclaim. keep. Qed.
End locks.

(** ** Traps and resumed processes *)

(** The calls that manage memory. *)
Definition moves_memory (c : yalnix_call) : bool := match c with FORK | EXEC | EXIT | BRK => true | _ => false end.

(** A trap that does not manage memory, in the state [s]; a line from a
    terminal is not longer than what was asked for, where [L] looks at it. *)
Definition quiet_trap {QH MH} `{Hardware} (L : option Z) (t : trap) (s : kst QH MH) : Prop :=
  match t with
  | TRAP_KERNEL => forall c, decode (uc_code (k_frame s)) = Some c -> moves_memory c = false
  | TRAP_TTY_RECEIVE n _ => line_ok L n
  | TRAP_ILLEGAL | TRAP_MATH | TRAP_MEMORY => False
  | _ => True
  end.

(** The calls that change locks, and the processes that go on inside one. *)
Definition uses_locks (c : yalnix_call) : bool :=
  match c with LOCK_INIT | LOCK_ACQUIRE | LOCK_RELEASE | CVAR_WAIT | RECLAIM => true | _ => false end.
Definition locking (k : kcont) : bool := match k with KAcquire _ | KCvarWait _ => true | _ => false end.

Section steady.
Context {QH MH : Type} `{HL : HardwareLaws} `{QO : QueueOps QH} `{MO : MapOps MH} `{QR : !QueueRuns QH} `{MR : !MapRuns MH}
  `{FS : FileSystem} {L : option Z} {I J : kst QH MH -> Prop} `{SI : !Steady L I J} `{SW : !Switching L I J}.
Abbreviation kst := (kst QH MH).
Implicit Types s : kst.

Hint Resolve KernelWait_keeps KernelGetPid_keeps KernelDelay_keeps KernelTtyRead_keeps KernelTtyWrite_keeps
  initCvar_keeps initPipe_keeps KernelCvarSignal_keeps KernelCvarBroadcast_keeps KernelPipeRead_keeps KernelPipeWrite_keeps : keeps.

Lemma dispatch_steady fuel c regs : moves_memory c = false -> uses_locks c = false -> keeps I J (dispatch fuel c regs) any.
Proof.
  intros Hc Hl. unfold dispatch, KernelCvarInit, KernelPipeInit. do 3 (kstep; [kstep|]; intros ? _). destruct c; try done; keep.
Qed.

Hint Resolve set_return_keeps wait_finish_keeps pipe_read_loop_keeps tty_write_start_keeps tty_write_loop_keeps readBuffer_keeps : keeps.

Lemma resume_steady k : kcont_ok L k -> locking k = false -> keeps I J (resume k) any.
Proof.
  intros Hok Hk. destruct k; try done; cbn [resume]; unfold start_finish, fork_return; keep.
  all: try (apply pipe_read_loop_keeps || apply readBuffer_keeps); try done. apply keeps_modify. intros s. apply st_frame.
Qed.
End steady.

Section traps.
Context {QH MH : Type} `{HL : HardwareLaws} `{QO : QueueOps QH} `{MO : MapOps MH} `{QR : !QueueRuns QH} `{MR : !MapRuns MH}
  `{FS : FileSystem} {L : option Z} {I J : kst QH MH -> Prop} `{SI : !Stable L I J} `{SW : !Switching L I J}.
Abbreviation kst := (kst QH MH).
Implicit Types s : kst.

Hint Resolve KernelReclaim_keeps initLock_keeps KernelAcquire_keeps KernelRelease_keeps KernelCvarWait_keeps : keeps.

Lemma dispatch_keeps fuel c regs : moves_memory c = false -> keeps I J (dispatch fuel c regs) any.
Proof.
  intros Hc. destruct (uses_locks c) eqn:Hl; [|by eapply dispatch_steady].
  unfold dispatch, KernelLockInit. do 3 (kstep; [kstep|]; intros ? _). destruct c; try done; keep.
Qed.

Hint Resolve handleTrapClock_keeps handleTtyTransmit_keeps set_return_keeps dispatch_keeps : keeps.

Lemma trap_keeps fuel t s : quiet_trap L t s -> I s -> match interruptVectorArray fuel t s with
  Ret _ s' => I s' | Switch _ s' | Halted s' => J s' | Undef => True end.
Proof.
  intros Ht Hs.
  assert (forall m : M kst unit, keeps I J m any -> match m s with Ret _ s' => I s' | Switch _ s' | Halted s' => J s' | Undef => True end) as Hk.
  { intros m Hm. specialize (Hm s Hs). by destruct (m s) as [a s'|k s'|s'|]; [apply Hm|..]. }
  destruct t; try done; cbn [interruptVectorArray]; try (apply Hk; keep; by apply handleTtyReceive_keeps); try (by apply st_out).
  unfold handleTrapKernel. cbn [quiet_trap] in Ht. unfold bind at 1, gets at 1. destruct (decode _) as [c|]; [|by apply st_out].
  apply Hk. keep. by apply dispatch_keeps, Ht.
Qed.

Hint Resolve acquire_loop_keeps : keeps.

Lemma resume_keeps k : kcont_ok L k -> keeps I J (resume k) any.
Proof.
  intros Hok.
  destruct (locking k) eqn:Hk; [|by eapply resume_steady]. destruct k; try done; cbn [resume]; keep.
Qed.
End traps.
