(* ===== verification/Managed.v ===== *)
(** Invariants that survive the management of memory too: processes are made,
    loaded, grow and end.  [Managed L I J] lists what else such an invariant
    must be stable under; every system call and handler but those that change
    locks then keeps it. *)

From stdpp Require Import base gmap list.
From S2P Require Import Prelude Hardware Queue HashMap FrameList PageTable State UserMem Scheduler SyncObjects LoadProgram GeneralCalls Tty Machine.
From S2P Require Import Keeps Stable.

(** The operations on page tables, frames, PCBs and the kernel stack. *)
Class Managed {QH MH : Type} `{Hardware} (L : option Z) (I J : kst QH MH -> Prop) := {
  mg_steady :: Steady L I J;
  mg_setNoFlush p v pr f : keeps I J (lift (setPageTableEntryNoFlush p v pr f)) any;
  mg_set p v pr f : keeps I J (lift (setPageTableEntry p v pr f)) any;
  mg_invalidate p : keeps I J (lift (invalidatePageTableEntry p)) any;
  mg_new_table : keeps I J (lift initializeRegionPageTable) any;
  mg_free_table b : keeps I J (free_entries b) any;
  mg_PTBR1 v : keeps I J (lift (A := pt) (modify (with_PTBR1 (u32 v)))) any;
  mg_flush v : keeps I J (lift (A := pt) (modify (with_flush v))) any;
  mg_getFrame n : keeps I J (lift (getFrame n)) any;
  mg_freeFrame n p : keeps I J (lift (freeFrame n p)) any;
  mg_set_pcb p x : kctxt_ok L x -> keeps I J (set_pcb p x) any;
  mg_update_pcb p f : (forall x, kctxt_ok L x -> kctxt_ok L (f x)) -> keeps I J (update_pcb p f) any;
  mg_free_pcb p : keeps I J (free_pcb p) any;
  mg_copy_page d a : keeps I J (copy_page d a) any;
  mg_restore : keeps I J (let! st := glob starterKernelStack in let! st := rd st in write_stack st) any
}.

#[export] Hint Resolve mg_setNoFlush mg_set mg_invalidate mg_new_table mg_free_table mg_PTBR1 mg_flush mg_getFrame mg_freeFrame mg_free_pcb
  mg_copy_page mg_restore : keeps.
#[export] Hint Extern 1 (keeps _ _ (set_pcb _ _) _) => by apply mg_set_pcb : keeps.
#[export] Hint Extern 1 (keeps _ _ (update_pcb _ _) _) =>
  apply mg_update_pcb; intros ? ?; first [assumption|done|unfold kctxt_ok; cbn; by destruct (_ =? _)] : keeps.

(** ** The functions *)

Section managed.
Context {QH MH : Type} `{HL : HardwareLaws} `{QO : QueueOps QH} `{MO : MapOps MH} `{QR : !QueueRuns QH} `{MR : !MapRuns MH}
  `{FS : FileSystem} {L : option Z} {I J : kst QH MH -> Prop} `{MI : !Managed L I J}.
Abbreviation kst := (kst QH MH).
Implicit Types s : kst.
Abbreviation safe m := (keeps I J m any).

(** ** Making and deleting processes *)

Lemma HashMap_delete_managed m : safe (HashMap_delete m None).
Proof. by apply HashMap_delete_keeps; [intros s h; apply st_mh|intros s; apply st_out|..]. Qed.
Lemma delete_zombies_managed q : safe (delete_q q (Some free_zombie_t)).
Proof. apply delete_q_keeps; [intros s h; apply st_qh|intros s; apply st_out|]. intros g [= <-] x. apply free_zombie_keeps. Qed.
Lemma removeParents_managed cm : safe (HashMap_iterate cm removeParent).
Proof. apply HashMap_iterate_keeps; [intros s h; apply st_mh|intros s; apply st_out|]. intros k x. unfold removeParent. keep. Qed.
Hint Resolve HashMap_delete_managed delete_zombies_managed removeParents_managed : keeps.

Lemma delete_process_managed p : safe (delete_process p).
Proof. unfold delete_process, stackPfn. keep. Qed.
Hint Resolve delete_process_managed : keeps.
Lemma init_stack_managed p js : safe (init_stack p js).
Proof. induction js as [|j js IH]; cbn [init_stack]; keep. Qed.
Hint Resolve init_stack_managed : keeps.
Lemma initPCB_managed : safe initPCB.
Proof. unfold initPCB. keep. Qed.
Hint Resolve initPCB_managed : keeps.
Lemma initProcess_managed : safe initProcess.
Proof. unfold initProcess. keep. Qed.
Lemma initInitProcess_managed t : safe (initInitProcess t).
Proof. unfold initInitProcess. keep. Qed.
Lemma init_ttys_managed js : safe (init_ttys js).
Proof. induction js as [|j js IH]; cbn [init_ttys]; unfold init_tty; keep. Qed.
Hint Resolve init_ttys_managed : keeps.
Lemma initScheduler_managed : safe initScheduler.
Proof. unfold initScheduler. keep. Qed.

(** ** Context switches *)

Lemma save_kctxt_managed p kc : kcont_ok L (kc_resume kc) -> safe (save_kctxt p kc).
Proof. intros Hk. unfold save_kctxt. keep. Qed.
Lemma read_kctxt_managed p : safe (read_kctxt p).
Proof. unfold read_kctxt. keep. Qed.
Lemma map_stack_managed p : safe (map_stack p).
Proof. unfold map_stack, stackPfn. keep. Qed.
Lemma start_process_managed p : safe (start_process p).
Proof.
  unfold start_process. do 2 (kstep; [keep|]; intros ? _). case_match; [|by apply keeps_ret..]. kstep; [keep|]. intros kp _.
  destruct (kp =? NULL); [apply keeps_undef|]. apply starter_keeps. intros kc Hk. kstep; [by apply update_kctxt_keeps|]. keep.
Qed.
Hint Resolve save_kctxt_managed read_kctxt_managed map_stack_managed start_process_managed : keeps.
Lemma switch_r1_managed p : safe (switch_r1 p).
Proof. unfold switch_r1. keep. Qed.
Hint Resolve switch_r1_managed : keeps.

#[export] Instance managed_switching : Switching (QH := QH) (MH := MH) L I J.
Proof. intros cur n kc Hk. unfold switchBetween. keep. Qed.

Lemma forkTo_managed p kc : kcont_ok L (kc_resume kc) -> safe (forkTo p kc).
Proof. intros Hk. unfold forkTo, stackPfn. keep. Qed.
Lemma execTo_managed kc : kcont_ok L (kc_resume kc) -> safe (execTo kc).
Proof.
  intros Hk. unfold execTo. kstep; [keep|]. intros a _. apply starter_keeps. intros kc' Hk'. kstep; [keep|]. intros _ _.
  apply (keeps_ext _ _ _ (bind (let! st := glob starterKernelStack in let! st := rd st in write_stack st) (fun _ => read_kctxt a))).
  - intros s. unfold bind. destruct (glob starterKernelStack s) as [st s1| | |]; [|done..]. by destruct (rd st s1).
  - kstep; [apply mg_restore|]. keep.
Qed.
Hint Resolve HashMap_delete_managed delete_zombies_managed removeParents_managed delete_process_managed initPCB_managed initProcess_managed
  initInitProcess_managed initScheduler_managed forkTo_managed execTo_managed : keeps.
Hint Resolve run_next_keeps unblockProcess_keeps isValidString_keeps : keeps.

(** ** Exit *)

Lemma leave_zombie_managed p e : safe (leave_zombie p e).
Proof. unfold leave_zombie. keep. Qed.
Hint Resolve leave_zombie_managed : keeps.
Lemma exitProcess_managed e : safe (exitProcess e).
Proof. unfold exitProcess. keep. Qed.
Hint Resolve exitProcess_managed : keeps.
Lemma KernelExit_managed e : safe (KernelExit e).
Proof. unfold KernelExit. keep. Qed.
Hint Resolve KernelExit_managed : keeps.

(** ** Fork *)

Lemma fork_copy_managed a b js : safe (fork_copy a b js).
Proof. induction js as [|j js IH]; cbn [fork_copy]; unfold fork_copy_page; keep. Qed.
Lemma forkProcess_managed p k : kcont_ok L k -> safe (forkProcess p k).
Proof. intros Hk. unfold forkProcess. keep. apply KernelContextSwitch_keeps. intros kc <-. by apply forkTo_managed. Qed.
Lemma fork_return_managed p c : safe (fork_return p c).
Proof. unfold fork_return. keep. Qed.
Hint Resolve fork_copy_managed forkProcess_managed fork_return_managed : keeps.
Lemma fork_rest_managed c t t' p : safe (fork_rest c t t' p).
Proof. unfold fork_rest. keep. Qed.
Hint Resolve fork_rest_managed : keeps.
Lemma KernelFork_managed : safe KernelFork.
Proof. unfold KernelFork. keep. Qed.

(** ** Exec *)

Lemma alloc_pages_managed n : forall p, safe (alloc_pages n p).
Proof. induction n as [|n IH]; intros p; cbn [alloc_pages]; keep. Qed.
Lemma update_uctxt_managed p f : safe (update_uctxt p f).
Proof. unfold update_uctxt. keep. Qed.
Lemma free_region1_managed b : safe (free_region1 b).
Proof. unfold free_region1. keep. Qed.
Lemma protect_text_managed n p : safe (protect_text n p).
Proof. unfold protect_text. keep. Qed.
Hint Resolve alloc_pages_managed update_uctxt_managed free_region1_managed protect_text_managed : keeps.
Lemma map_program_managed p b li args : safe (map_program p b li args).
Proof. unfold map_program. keep. Qed.
Lemma read_segment_managed fd a n o : safe (read_segment fd a n o).
Proof. unfold read_segment. keep. Qed.
Lemma write_args_managed args : forall cp cpp, safe (write_args cp cpp args).
Proof. induction args as [|a args IH]; intros cp cpp; cbn [write_args]; keep. Qed.
Hint Resolve write_args_managed : keeps.
Lemma build_args_managed args : safe (build_args args).
Proof. unfold build_args. keep. Qed.
Hint Resolve map_program_managed read_segment_managed build_args_managed : keeps.
Lemma LoadProgram_managed name args p : safe (LoadProgram name args p).
Proof. unfold LoadProgram. keep. Qed.
Hint Resolve LoadProgram_managed : keeps.

Lemma string_bytes_managed n : forall c, safe (string_bytes n c).
Proof. induction n as [|n IH]; intros c; cbn [string_bytes]; keep. Qed.
Hint Resolve string_bytes_managed : keeps.
Lemma exec_args_managed n : forall a, safe (exec_args n a).
Proof. induction n as [|n IH]; intros a; cbn [exec_args]; keep. Qed.
Hint Resolve exec_args_managed : keeps.
Lemma execProcess_managed k : kcont_ok L k -> safe (execProcess k).
Proof. intros Hk. apply KernelContextSwitch_keeps. intros kc <-. by apply execTo_managed. Qed.
Hint Resolve execProcess_managed : keeps.
Lemma KernelExec_managed fn av : safe (KernelExec fn av).
Proof. unfold KernelExec. keep. Qed.

Hint Resolve KernelExit_managed KernelFork_managed KernelExec_managed : keeps.

(** ** The break and the stack *)

Lemma brk_free_managed n : forall p, safe (brk_free n p).
Proof. induction n as [|n IH]; intros p; cbn [brk_free]; keep. Qed.
Hint Resolve brk_free_managed : keeps.
Lemma move_brk_managed b v a c : safe (move_brk b v a c).
Proof. unfold move_brk, brk_alloc. keep. Qed.
Hint Resolve move_brk_managed : keeps.
Lemma KernelBrk_managed a : safe (KernelBrk a).
Proof. unfold KernelBrk. keep. Qed.
Lemma grow_stack_managed n : forall t i, safe (grow_stack n t i).
Proof. induction n as [|n IH]; intros t i; cbn [grow_stack]; keep. Qed.
Hint Resolve grow_stack_managed KernelBrk_managed : keeps.
Lemma handleTrapMemory_managed : safe handleTrapMemory.
Proof. unfold handleTrapMemory. keep. Qed.

(** ** Traps *)

(** A terminal delivers at most as much as it was asked for. *)
Definition trap_line_ok (t : trap) : Prop := match t with TRAP_TTY_RECEIVE n _ => line_ok L n | _ => True end.

Lemma dispatch_managed fuel c regs : uses_locks c = false -> keeps I J (dispatch fuel c regs) any.
Proof.
  intros Hl. destruct (moves_memory c) eqn:Hc; [|by eapply dispatch_steady].
  unfold dispatch. do 3 (kstep; [keep|]; intros ? _). destruct c; try done; keep.
Qed.
Hint Resolve set_return_keeps handleTrapClock_keeps handleTtyTransmit_keeps handleTrapMemory_managed : keeps.

Lemma trap_managed fuel t : t <> TRAP_KERNEL -> trap_line_ok t -> keeps I J (interruptVectorArray fuel t) any.
Proof.
  intros Hk Ht. destruct t; try done; cbn [interruptVectorArray]; unfold handleTrapIllegal, handleTrapMath, handleTrapDisk, handleNothing; keep.
  by apply handleTtyReceive_keeps.
Qed.
End managed.

#[export] Hint Resolve alloc_pages_managed update_uctxt_managed LoadProgram_managed initProcess_managed initInitProcess_managed
  initScheduler_managed move_brk_managed : keeps.
