(* ===== verification/Buffers.v ===== *)
(** The buffers of pipes and terminals: what keeps them from being overrun, and
    that the start of the kernel establishes it and every trap and every
    process that goes on keeps it. *)

From stdpp Require Import base gmap list relations.
From S2P Require Import Prelude Hardware Queue HashMap FrameList PageTable State UserMem Scheduler SyncObjects LoadProgram GeneralCalls Tty Machine.
From S2P Require Import Keeps Stable Managed.

(** Where [initBuffers] puts the buffers: below the kernel stack and the
    temporary page. *)
Definition buffer_page `{Hardware} : Z := KERNEL_STACK_BASE - PAGESIZE - TOTAL_READ_BUFFER_PAGES * PAGESIZE.

(** The buffers fit, and so does what a process goes on with that gave the
    processor away; with [T], [KernelStart] has set the addresses. *)
Record buffers_ok {QH MH} `{Hardware} (T : Prop) (s : kst QH MH) : Prop := {
  bo_pipes : map_Forall (fun _ => pipe_fits) (pipes (k_obj s));
  bo_ttys i b : buffers (k_tty s) !! Z.to_nat i = Some (Some b) -> 0 <= i -> buffer_fits buffer_page i b;
  bo_saved : map_Forall (fun _ => kctxt_ok (Some buffer_page)) (pcbs (k_obj s));
  bo_starter kc : starterKctxt (k_glob s) = Some kc -> kcont_fits (kc_resume kc);
  bo_temp : T -> tempVAddr (k_glob s) = KERNEL_STACK_BASE - PAGESIZE
}.

Section invariant.
Context {QH MH : Type} `{HL : HardwareLaws} `{QO : QueueOps QH} `{MO : MapOps MH}.
Abbreviation kst := (kst QH MH).
Implicit Types s : kst.

(** It does not look at the rest of the state. *)
Lemma buffers_ok_ext (T T' : Prop) s s' : pipes (k_obj s') = pipes (k_obj s) -> buffers (k_tty s') = buffers (k_tty s) ->
  pcbs (k_obj s') = pcbs (k_obj s) -> starterKctxt (k_glob s') = starterKctxt (k_glob s) -> (T' -> tempVAddr (k_glob s') = KERNEL_STACK_BASE - PAGESIZE) ->
  buffers_ok T s -> buffers_ok T' s'.
Proof. intros Hp Hb Hx Hk Ht []. split; [by rewrite Hp|by rewrite Hb|by rewrite Hx|by rewrite Hk|done]. Qed.
Lemma buffers_ok_same T s s' : pipes (k_obj s') = pipes (k_obj s) -> buffers (k_tty s') = buffers (k_tty s) ->
  pcbs (k_obj s') = pcbs (k_obj s) -> k_glob s' = k_glob s -> buffers_ok T s -> buffers_ok T s'.
Proof. intros Hp Hb Hx Hg Hs. apply (buffers_ok_ext T T s); rewrite ?Hg; try done. apply Hs. Qed.
Lemma buffers_ok_out T s : buffers_ok T s -> buffers_ok False s.
Proof. by apply buffers_ok_ext. Qed.

Context (T : Prop).
Abbreviation I := (buffers_ok (QH := QH) (MH := MH) T).
Abbreviation J := (buffers_ok (QH := QH) (MH := MH) False).

Lemma buffers_ok_pcb p x s : kctxt_ok (Some buffer_page) x -> I s -> I (with_obj (with_pcbs (<[p := x]> (pcbs (k_obj s))) (k_obj s)) s).
Proof. intros Hx []. split; try done. by apply map_Forall_insert_2. Qed.
Lemma kcont_fits_ok k : kcont_ok (Some buffer_page) k <-> kcont_fits k.
Proof. unfold kcont_ok. naive_solver. Qed.

#[export] Instance buffers_stable : Stable (Some buffer_page) I J.
Proof.
  split; [split|]; try (intros; by eapply buffers_ok_same; [..|eassumption]).
  - intros s. apply buffers_ok_out.
  - intros p x y s Hx (_ & _ & Hk) Hs. apply buffers_ok_pcb; [|done]. unfold kctxt_ok. rewrite Hk. by apply (bo_saved T s Hs p x).
  - intros p x kc s Hx Hk. by apply buffers_ok_pcb.
  - intros kc s Hs Hk. apply kcont_fits_ok. by eapply bo_starter.
  - intros p x s Hs Hx _. by apply (bo_pipes T s Hs p x).
  - intros p x s [] Hx. split; try done. apply map_Forall_insert_2; [by apply Hx|done].
  - intros p s []. split; try done. by apply map_Forall_delete.
  - intros i b s [] Hi Hb. split; try done. cbn. intros j c Hj H0. destruct (decide (Z.to_nat i = Z.to_nat j)) as [Heq|].
    + rewrite Heq, list_lookup_insert_Some in Hj. destruct Hj as [(_ & [= <-] & _)|[? _]]; [|done]. by replace j with i by lia.
    + rewrite list_lookup_insert_ne in Hj by done. auto.
Qed.

Lemma buffers_pt {A} (m : M pt A) : keeps I J (lift m) any.
Proof. apply keeps_lift_other; [intros s t; by apply buffers_ok_same|apply buffers_ok_out]. Qed.
Lemma buffers_fl {A} (m : M fl A) : keeps I J (lift m) any.
Proof. apply keeps_lift_other; [intros s t; by apply buffers_ok_same|apply buffers_ok_out]. Qed.
Hint Resolve buffers_pt buffers_fl : keeps.

#[export] Instance buffers_managed : Managed (Some buffer_page) I J.
Proof.
  split; [exact st_steady|intros; auto with keeps..].
  - apply buffers_pt.
  - apply keeps_modify. intros s. by apply buffers_ok_pcb.
  - intros s Hs. unfold update_pcb, load_pcb, bind, set_pcb, modify. destruct (pcbs _ !! p) as [x|] eqn:Hx; [|done]. split; [|done].
    apply buffers_ok_pcb; [|done]. apply H0. by apply (bo_saved T s Hs p x).
  - unfold free_pcb. eapply keeps_bind; [apply load_pcb_keeps|]. intros _ _. apply keeps_modify. intros s []. split; try done. by apply map_Forall_delete.
  - unfold copy_page. keep. apply keeps_modify. intros s. apply st_mem.
  - unfold write_stack. keep. apply keeps_modify. intros s. apply st_mem.
Qed.
End invariant.

(** ** Turns *)

Section machine.
Context {QH MH : Type} `{HW : Hardware} `{QO : QueueOps QH} `{MO : MapOps MH} `{FS : FileSystem}.
Abbreviation kst := (kst QH MH).

(** [TtyReceive] gives at most as much as it was asked for. *)
Definition line_fits (t : trap) : Prop := match t with TRAP_TTY_RECEIVE n _ => n <= TERMINAL_MAX_LINE | _ => True end.

(** The running process, until it is in user mode again, gives the processor
    away or halts: user code and a trap; the rest of what it was doing in the
    kernel, as its PCB says; the end of [KernelStart]. *)
Inductive kernel_turn : kst -> kst -> Prop :=
| kt_trap fuel t u m s s' : line_fits t -> ends_in (interruptVectorArray fuel t (with_frame u (with_mem m s))) s' -> kernel_turn s s'
| kt_resume u x kc s s' : pcbs (k_obj s) !! currPCB (k_sched s) = Some x -> kctxt x = Some (KSaved kc) ->
    ends_in (resume (kc_resume kc) (with_frame u s)) s' -> kernel_turn s s'
| kt_start u s s' : ends_in (resume KStart (with_frame u s)) s' -> kernel_turn s s'.
End machine.

Section turns.
Context {QH MH : Type} `{HL : HardwareLaws} `{QO : QueueOps QH} `{MO : MapOps MH} `{QR : !QueueRuns QH} `{MR : !MapRuns MH}
  `{FS : FileSystem}.
Abbreviation kst := (kst QH MH).
Abbreviation fit := (buffers_ok (QH := QH) (MH := MH) False).
Abbreviation safe m := (keeps fit fit m any).

Lemma dispatch_fits fuel c regs : safe (dispatch fuel c regs).
Proof. destruct (uses_locks c) eqn:Hl; [by apply dispatch_keeps; destruct c|by apply dispatch_managed]. Qed.
Hint Resolve dispatch_fits set_return_keeps : keeps.

Lemma trap_fits fuel t : line_fits t -> safe (interruptVectorArray fuel t).
Proof.
  intros Ht. destruct t; try (by apply trap_managed; [|try intros ?]). cbn [interruptVectorArray]. unfold handleTrapKernel. keep.
Qed.

Lemma kernel_turn_fits s s' : kernel_turn s s' -> fit s -> fit s'.
Proof.
  intros [fuel t u m ? ? Ht Hrun|u x kc ? ? Hx Hk Hrun|u ? ? Hrun] Hs.
  - eapply (keeps_ends_in _ _ any); [by apply trap_fits| |exact Hrun]. by apply st_frame, st_mem.
  - eapply (keeps_ends_in _ _ any); [apply resume_keeps| |exact Hrun]; [|by apply st_frame].
    pose proof (bo_saved _ _ Hs _ _ Hx) as Hok. unfold kctxt_ok in Hok. by rewrite Hk in Hok.
  - eapply (keeps_ends_in _ _ any); [apply resume_keeps| |exact Hrun]; [by intros ?|by apply st_frame].
Qed.
Lemma kernel_turns_fit s s' : rtc kernel_turn s s' -> fit s -> fit s'.
Proof. induction 1 as [|s s1 s2 Hstep _ IH]; [done|]. intros Hs. by eapply IH, kernel_turn_fits. Qed.
End turns.

(** ** The start of the kernel *)

Section start.
Context {QH MH : Type} `{HL : HardwareLaws} `{QO : QueueOps QH} `{MO : MapOps MH} `{QR : !QueueRuns QH} `{MR : !MapRuns MH}
  `{FS : FileSystem}.
Abbreviation kst := (kst QH MH).
Abbreviation fit := (buffers_ok (QH := QH) (MH := MH)).
(** Before the addresses are set, and from then on. *)
Abbreviation early m := (keeps (fit False) (fit False) m any).
Abbreviation safe m := (keeps (fit True) (fit False) m any).
Hint Resolve buffers_pt buffers_fl : keeps.

Lemma or_halt_keeps I J (m : M kst Z) : (forall s, I s -> J s) -> keeps I J m any -> keeps I J (or_halt m) any.
Proof. intros Hj Hm. unfold or_halt. eapply keeps_bind; [done|]. intros r _. destruct (r =? ERROR); [intros s; apply Hj|by apply keeps_ret]. Qed.
Lemma or_halt_safe (m : M kst Z) : safe m -> safe (or_halt m).
Proof. apply or_halt_keeps, buffers_ok_out. Qed.
Lemma or_halt_ptr_safe (m : M kst (option ptr)) : safe m -> safe (or_halt_ptr m).
Proof. intros Hm. unfold or_halt_ptr. eapply keeps_bind; [done|]. keep. Qed.

(** The part before the buffers. *)
Lemma start_frame_list_early n : early (start_frame_list n).
Proof.
  unfold start_frame_list, set_numFrames, or_halt. keep. apply keeps_modify. intros s Hs. eapply (buffers_ok_ext _ _ s); try done.
Qed.
Lemma start_vm_leads a b : leads (fit False) (fit True) (fit False) (start_vm a b) any.
Proof.
  unfold start_vm. do 2 (eapply (leads_bind _ _ _ _ _ any); [by apply keeps_gets|]; intros ? _). eapply (leads_bind _ _ _ _ _ any); [unfold fill_r0; keep|].
  intros _ _. eapply (leads_bind _ _ _ _ _ any); [unfold enable_vm; keep|]. intros _ _ s Hs. cbn. split; [|done]. by apply (buffers_ok_ext False True s).
Qed.

(** The buffers of the terminals. *)
Lemma init_ttyBufs_safe n : forall i, 0 <= i -> safe (init_ttyBufs n i (buffer_page + i * TTY_READ_BUFFER_SIZE)).
Proof.
  pose proof TERMINAL_MAX_LINE_pos. induction n as [|n IH]; intros i Hi; cbn [init_ttyBufs]; [by apply keeps_ret|]. kstep; [keep|].
  intros p _. destruct (p =? NULL); [by apply keeps_ret|]. kstep.
  - apply set_buffer_keeps; [done|]. split; cbn; [done|lia|by left].
  - intros _ _. replace (_ + TTY_READ_BUFFER_SIZE) with (buffer_page + (i + 1) * TTY_READ_BUFFER_SIZE) by lia. apply IH. lia.
Qed.
Lemma initBuffers_safe : safe initBuffers.
Proof.
  unfold initBuffers. eapply (keeps_bind _ _ _ _ (fun a => a = KERNEL_STACK_BASE - PAGESIZE)); [apply keeps_gets; intros s Hs; by apply Hs|].
  intros a ->. kstep; [keep|]. intros tp _. kstep; [keep|]. intros _ _. change (KERNEL_STACK_BASE - PAGESIZE - _) with buffer_page.
  eapply (keeps_bind _ _ _ _ any); [|keep]. rewrite <- (Z.add_0_r buffer_page). by apply (init_ttyBufs_safe _ 0).
Qed.
Hint Resolve initBuffers_safe : keeps.

Lemma start_modules_safe : safe start_modules.
Proof. unfold start_modules, initLockMap, initCvarMap, initPipeMap. repeat (first [apply or_halt_safe|kstep]). Qed.
Lemma LoadIdle_safe d p : safe (LoadIdle d p).
Proof. unfold LoadIdle. keep. Qed.
Lemma read_stack_safe js : safe (read_stack js).
Proof. induction js as [|j js IH]; cbn [read_stack]; keep. Qed.
Hint Resolve start_modules_safe or_halt_safe or_halt_ptr_safe LoadIdle_safe read_stack_safe : keeps.
Lemma getStarterKernelState_safe u : safe (getStarterKernelState (mkKctxt KStart u)).
Proof.
  unfold getStarterKernelState. kstep; [keep|]. intros st _. kstep; [|keep].
  apply keeps_modify. intros s []. split; try done. by intros kc [= <-].
Qed.
Lemma start_init_safe p : safe (start_init p).
Proof.
  unfold start_init. keep. apply or_halt_safe, KernelContextSwitch_keeps. intros [k u] Hk. cbn in Hk. subst k. apply getStarterKernelState_safe.
Qed.
Hint Resolve start_init_safe : keeps.

Lemma KernelStart_fits d args n : leads (fit False) (fit True) (fit False) (KernelStart d args n) any.
Proof.
  unfold KernelStart, start_memory. intros s Hs. unfold bind at 1 2 3. pose proof (start_frame_list_early n s Hs) as H1.
  destruct (start_frame_list n s) as [tb s1| | |]; [|done..]. destruct H1 as [H1 _].
  pose proof (start_vm_leads (fst tb) (snd tb) s1 H1) as H2. destruct (start_vm _ _ s1) as [[] s2| | |]; [|done..]. destruct H2 as [H2 _].
  cbn. revert s2 H2. change (safe (start_modules ;;;
    let! idlePCB := or_halt_ptr initProcess in or_halt (LoadIdle d idlePCB) ;;;
    let! initPCB := or_halt_ptr (initInitProcess (snd tb)) in
    let! name := rd (head (match args with [] => default_args | _ => args end)) in
    let! r := LoadProgram name (match args with [] => default_args | _ => args end) initPCB in
    if negb (r =? SUCCESS) then Halt else start_init initPCB)). keep.
Qed.
End start.
