(* ===== verification/Ownership.v ===== *)
(** Who owns a lock, in a run of the kernel: nothing but the owner's own calls
    takes a lock away, and nothing but the call of the running process that
    finds it free gives it to somebody. *)

From stdpp Require Import base gmap list relations.
From S2P Require Import Prelude Hardware Queue HashMap FrameList PageTable State UserMem Scheduler SyncObjects LoadProgram GeneralCalls Tty Machine.
From S2P Require Import Keeps Stable Managed.

(** The owner of the lock object at [lockp]: NULL when it is free; [None] when
    there is no such object (any more). *)
Definition owner {QH MH} (lockp : ptr) (s : kst QH MH) : option ptr := ownerPcbp <$> locks (k_obj s) !! lockp.

(** [W] holds of the owner of the lock object at [lockp], an object that was made. *)
Definition lock_in {QH MH} (lockp : ptr) (W : option ptr -> Prop) (s : kst QH MH) : Prop :=
  lockp < brk_addr (o_arena (k_obj s)) /\ W (owner lockp s).

(** What the running process [c] may do in a turn that starts with [V] and
    ends with [W]: take a lock that is free, release one that it has; or delete
    one that was free. *)
Record fair (c : ptr) (V W : option ptr -> Prop) : Prop := {
  fair_start o : V o -> W o;
  fair_take : W (Some NULL) -> W (Some c);
  fair_release : W (Some c) -> c <> NULL -> W (Some NULL);
  fair_delete : V (Some NULL) -> V None
}.

(** The computation [m], started in a state with [P], ends in one with [R]. *)
Definition runs {S A} (P R : S -> Prop) (m : M S A) : Prop := forall s, P s ->
  match m s with Ret _ s' | Switch _ s' | Halted s' => R s' | Undef => True end.

Lemma runs_ends_in {S A} (P R : S -> Prop) (m : M S A) s s' : runs P R m -> P s -> ends_in (m s) s' -> R s'.
Proof. intros Hm Hs. specialize (Hm s Hs). by destruct (m s); cbn; [intros <-..|done]. Qed.

Section rules.
Context {S : Type} (P R : S -> Prop).

Lemma runs_bind {A B} (m : M S A) (f : A -> M S B) Q : keeps P R m Q -> (forall a, Q a -> runs P R (f a)) -> runs P R (bind m f).
Proof. intros Hm Hf s Hs. specialize (Hm s Hs). unfold bind. destruct (m s); [|done..]. destruct Hm. by apply Hf. Qed.
Lemma runs_then {A B} (m : M S A) (f : A -> M S B) : runs P R m -> (forall a, keeps R R (f a) any) -> runs P R (bind m f).
Proof.
  intros Hm Hf s Hs. specialize (Hm s Hs). unfold bind. destruct (m s) as [a s1| | |]; [|done..].
  specialize (Hf a s1 Hm). by destruct (f a s1); [apply Hf|..].
Qed.
Lemma runs_keeps {A} (m : M S A) (Q : A -> Prop) : (forall s, P s -> R s) -> keeps R R m Q -> runs P R m.
Proof. intros Hw Hm s Hs. specialize (Hm s (Hw s Hs)). destruct (m s); [by destruct Hm|done..]. Qed.
End rules.

Section locks.
Context {QH MH : Type} `{HL : HardwareLaws} `{QO : QueueOps QH} `{MO : MapOps MH} `{QR : !QueueRuns QH} `{MR : !MapRuns MH}
  `{FS : FileSystem}.
Abbreviation kst := (kst QH MH).
Implicit Types s : kst.
Context (lockp : ptr) (W : option ptr -> Prop).
Abbreviation I := (lock_in (QH := QH) (MH := MH) lockp W).

(** It depends on the locks alone. *)
Lemma lock_in_ext s s' : o_arena (k_obj s') = o_arena (k_obj s) -> locks (k_obj s') = locks (k_obj s) -> I s -> I s'.
Proof. unfold lock_in, owner. by intros -> ->. Qed.

#[export] Instance lock_steady : Steady None I I.
Proof.
  split; try done; [|by intros ? ? ? _ ?..]. intros a s Ha [Hb HW]. split; [cbn; lia|done].
Qed.

Lemma lock_pt {A} (m : M pt A) : keeps I I (lift m) any.
Proof. by apply keeps_lift_other. Qed.
Lemma lock_fl {A} (m : M fl A) : keeps I I (lift m) any.
Proof. by apply keeps_lift_other. Qed.
Hint Resolve lock_pt lock_fl : keeps.

#[export] Instance lock_managed : Managed None I I.
Proof.
  split; [exact lock_steady|intros; auto with keeps..].
  - by apply keeps_lift_other.
  - by apply keeps_modify.
  - intros s Hs. unfold update_pcb, load_pcb, bind, set_pcb, modify. by destruct (pcbs _ !! p).
  - intros s Hs. unfold free_pcb, load_pcb, bind, modify. by destruct (pcbs _ !! p).
  - unfold copy_page. keep. by apply keeps_modify.
  - unfold write_stack. keep. by apply keeps_modify.
Qed.

(** ** The locks themselves *)

Lemma load_lock_owner p : keeps I I (load_lock p) (fun l => p = lockp -> W (Some (ownerPcbp l))).
Proof.
  intros s Hs. unfold load_lock. destruct (locks _ !! p) as [l|] eqn:Hl; [|done]. split; [done|]. intros ->. destruct Hs as [_ HW].
  unfold owner in HW. by rewrite Hl in HW.
Qed.
Lemma set_lock_owner p l : (p = lockp -> W (Some (ownerPcbp l))) -> keeps I I (set_lock p l) any.
Proof.
  intros Hl. apply keeps_modify. intros s [Hb HW]. split; [done|]. unfold owner. cbn. destruct (decide (p = lockp)) as [->|Hne].
  - rewrite lookup_insert_eq. by apply Hl.
  - by rewrite lookup_insert_ne.
Qed.
Lemma free_lock_owner p : (p = lockp -> W None) -> keeps I I (free_lock p) any.
Proof.
  intros Hl. unfold free_lock. keep. apply keeps_modify. intros s [Hb HW]. split; [done|]. unfold owner. cbn. destruct (decide (p = lockp)) as [->|Hne].
  - rewrite lookup_delete_eq. by apply Hl.
  - by rewrite lookup_delete_ne.
Qed.

(** A new lock is a new object. *)
Lemma kmalloc_new n : keeps I I (kmalloc n) (fun p => p = NULL \/ p <> lockp).
Proof.
  intros s Hs. unfold kmalloc, lift, malloc. cbn [view lens_obj objects_lens]. pose proof Hs as [Hb HW].
  destruct (fails _) as [|[] ?]; (split; [split; [cbn; lia|done]|]); [right; lia|by left|right; lia].
Qed.
Lemma initLock_owner p : keeps I I (initLock p) any.
Proof.
  unfold initLock. eapply keeps_bind; [apply kmalloc_new|]. intros l Hl. destruct (Z.eqb_spec l NULL); [by apply keeps_ret|].
  keep. apply set_lock_owner. naive_solver.
Qed.

Lemma deleteLock_owner i : (W (Some NULL) -> W None) -> keeps I I (deleteLock i) any.
Proof.
  intros Hdel. unfold deleteLock. do 2 (kstep; [keep|]; intros ? _). destruct (_ =? NULL); [by apply keeps_ret|].
  kstep; [keep|]. intros q _. eapply keeps_bind; [apply load_lock_owner|]. intros l Hl.
  eapply (keeps_bind _ _ _ _ any); [by apply set_lock_owner|]. intros _ _. destruct (q =? NULL); [by apply keeps_ret|].
  destruct (Z.eqb_spec (ownerPcbp l) NULL) as [Ho|]; [|by apply keeps_ret]. cbn [negb]. keep; [by apply delete_q_none_keeps|].
  apply free_lock_owner. intros Hp. apply Hdel. rewrite <- Ho. auto.
Qed.
Hint Resolve deleteLock_owner getLock_keeps getCvar_keeps getPipe_keeps deleteCvar_keeps deletePipe_keeps : keeps.
Lemma KernelReclaim_owner i : (W (Some NULL) -> W None) -> keeps I I (KernelReclaim i) any.
Proof. intros Hdel. unfold KernelReclaim. keep. Qed.
End locks.

(** ** The calls of the process [c] *)

Section calls.
Context {QH MH : Type} `{HL : HardwareLaws} `{QO : QueueOps QH} `{MO : MapOps MH} `{QR : !QueueRuns QH} `{MR : !MapRuns MH}
  `{FS : FileSystem}.
Abbreviation kst := (kst QH MH).
Implicit Types s : kst.
Context (lockp : ptr) (V W : option ptr -> Prop) (c : ptr) (Hfair : fair c V W).
Abbreviation I := (lock_in (QH := QH) (MH := MH) lockp W).

(** [c] runs. *)
Definition lock_of s : Prop := lock_in lockp V s /\ currPCB (k_sched s) = c.

Lemma lock_of_in s : lock_of s -> I s.
Proof. intros [[Hb HV] _]. split; [done|]. by apply (fair_start _ _ _ Hfair). Qed.
Lemma sched_of {A} (f : sched_t -> A) : keeps lock_of I (sched f) any.
Proof. by apply keeps_gets. Qed.
Lemma curr_of : keeps lock_of I (sched currPCB) (fun p => p = c).
Proof. apply keeps_gets. by intros s []. Qed.
Lemma lift_q_of {A} (m : M QH A) : keeps lock_of I (lift m) any.
Proof. by apply keeps_lift_other; [|apply lock_of_in]. Qed.
Lemma lift_m_of {A} (m : M MH A) : keeps lock_of I (lift m) any.
Proof. by apply keeps_lift_other; [|apply lock_of_in]. Qed.
Lemma load_lock_of p : keeps lock_of I (load_lock p) (fun l => p = lockp -> W (Some (ownerPcbp l))).
Proof.
  intros s [Hs Hc]. pose proof (load_lock_owner lockp W p s (lock_of_in s (conj Hs Hc))) as Hl. revert Hl. unfold load_lock. destruct (_ !! p); [|done]. by intros [_ Hl].
Qed.
Lemma find_of i f : keeps lock_of I (let! m := sched f in lift (HashMap_find m i)) any.
Proof. eapply keeps_bind; [apply sched_of|]. intros m _. apply lift_m_of. Qed.
Lemma runs_in {A} (m : M kst A) Q : keeps I I m Q -> runs lock_of I m.
Proof. apply runs_keeps, lock_of_in. Qed.
Lemma runs_ret {A} (a : A) : runs lock_of I (ret a).
Proof. by apply (runs_in _ any), keeps_ret. Qed.

Lemma acquire_loop_runs p : runs lock_of I (acquire_loop p).
Proof.
  unfold acquire_loop. eapply runs_bind; [apply load_lock_of|]. intros l Hl. eapply runs_bind; [apply curr_of|]. intros ? ->.
  destruct (Z.eqb_spec (ownerPcbp l) NULL) as [Ho|].
  - eapply (runs_in _ any), (keeps_bind _ _ _ _ any); [|by intros; apply keeps_ret]. apply set_lock_owner. intros Hp. cbn.
    apply (fair_take _ _ _ Hfair). rewrite <- Ho. auto.
  - apply (runs_in _ any). keep. apply blockProcess_keeps; auto with keeps nocore.
Qed.
Lemma KernelAcquire_runs i : runs lock_of I (KernelAcquire i).
Proof.
  unfold KernelAcquire. eapply runs_bind; [apply find_of|]. intros p _. destruct (p =? NULL); [apply runs_ret|apply acquire_loop_runs].
Qed.
Lemma KernelRelease_runs i : runs lock_of I (KernelRelease i).
Proof.
  unfold KernelRelease. eapply runs_bind; [apply find_of|]. intros p _. destruct (p =? NULL); [apply runs_ret|].
  eapply runs_bind; [apply load_lock_of|]. intros l Hl. eapply runs_bind; [apply curr_of|]. intros ? ->.
  destruct (Z.eqb_spec (ownerPcbp l) NULL) as [|Hn]; [apply runs_ret|]. destruct (Z.eqb_spec (ownerPcbp l) c) as [Ho|]; [|apply runs_ret].
  cbn [orb negb]. destruct (_ =? NULL); [apply runs_ret|]. apply (runs_in _ any). eapply (keeps_bind _ _ _ _ any).
  - apply set_lock_owner. intros Hp. cbn. specialize (Hl Hp). rewrite Ho in Hl, Hn. by apply (fair_release _ _ _ Hfair).
  - keep. apply unblockProcess_keeps.
Qed.
Lemma KernelCvarWait_runs i j : runs lock_of I (KernelCvarWait i j).
Proof.
  unfold KernelCvarWait. eapply runs_bind; [apply find_of|]. intros q _. destruct (q =? NULL); [apply runs_ret|].
  eapply runs_bind; [apply curr_of|]. intros ? ->. eapply runs_bind; [apply lift_q_of|]. intros r _. destruct (r =? ERROR); [apply runs_ret|].
  eapply runs_then; [apply KernelRelease_runs|]. intros _. apply blockProcess_keeps; auto with keeps nocore.
Qed.

Lemma KernelReclaim_runs i : runs lock_of I (KernelReclaim i).
Proof.
  intros s Hs. pose proof (KernelReclaim_owner lockp V i (fair_delete _ _ _ Hfair) s (proj1 Hs)) as Hd.
  assert (forall s', lock_in lockp V s' -> I s') as Hw by (intros s' [Hb HV]; split; [done|by apply (fair_start _ _ _ Hfair)]).
  destruct (KernelReclaim i s); [apply Hw, Hd|exact (Hw _ Hd)..|done].
Qed.

Lemma dispatch_runs fuel call regs : runs lock_of I (dispatch fuel call regs).
Proof.
  destruct (uses_locks call) eqn:Hl; [|by eapply runs_in, dispatch_managed].
  unfold dispatch, KernelLockInit. do 3 (eapply runs_bind; [eapply keeps_any, keeps_rd|]; intros ? _). destruct call; try done;
    auto using KernelAcquire_runs, KernelRelease_runs, KernelCvarWait_runs, KernelReclaim_runs. eapply runs_in, initLock_owner.
Qed.
Lemma trap_runs fuel t : runs lock_of I (interruptVectorArray fuel t).
Proof.
  destruct t; try (eapply runs_in, (trap_managed (L := None)); try done; by intros ?). cbn [interruptVectorArray].
  unfold handleTrapKernel. eapply (runs_bind _ _ _ _ any); [by apply keeps_gets|]. intros u _.
  destruct (decode _) as [call|]; [|intros s Hs; by apply lock_of_in]. eapply runs_then; [apply dispatch_runs|]. intros r. apply set_return_keeps.
Qed.
Lemma resume_runs k : runs lock_of I (resume k).
Proof.
  destruct (locking k) eqn:Hk; [|eapply runs_in, resume_steady; [by intros ?|done]].
  destruct k; try done; cbn [resume]; (eapply runs_then; [|intros r; apply set_return_keeps]);
    [apply acquire_loop_runs|apply KernelAcquire_runs].
Qed.
End calls.

(** ** Turns *)

Section turns.
Context {QH MH : Type} `{HW : Hardware} `{QO : QueueOps QH} `{MO : MapOps MH} `{FS : FileSystem}.
Abbreviation kst := (kst QH MH).

(** What the process that runs does until it returns to user mode, gives the
    processor away or halts: user code, which changes memory and registers,
    and a trap; or the rest of what it was doing in the kernel. *)
Inductive turn : kst -> kst -> Prop :=
| turn_trap fuel t u m s s' : ends_in (interruptVectorArray fuel t (with_frame u (with_mem m s))) s' -> turn s s'
| turn_resume k u s s' : ends_in (resume k (with_frame u s)) s' -> turn s s'.

(** A turn of another process than [p]. *)
Definition turn_of_other (p : ptr) (s s' : kst) : Prop := currPCB (k_sched s) <> p /\ turn s s'.
End turns.

Section ownership.
Context {QH MH : Type} `{HL : HardwareLaws} `{QO : QueueOps QH} `{MO : MapOps MH} `{QR : !QueueRuns QH} `{MR : !MapRuns MH}
  `{FS : FileSystem}.
Abbreviation kst := (kst QH MH).
Implicit Types s : kst.

Lemma turn_lock lockp V W s s' : fair (currPCB (k_sched s)) V W -> turn s s' -> lock_in lockp V s -> lock_in lockp W s'.
Proof.
  intros Hf Hturn. destruct Hturn as [fuel t u m s s' Hrun|k u s s' Hrun]; intros Hs.
  - apply (runs_ends_in _ _ _ _ _ (trap_runs lockp V W _ Hf fuel t)) in Hrun; [done|]. by split.
  - apply (runs_ends_in _ _ _ _ _ (resume_runs lockp V W _ Hf k)) in Hrun; [done|]. by split.
Qed.
(** Properties of the owner that no turn changes. *)
Lemma turns_lock lockp W (T : kst -> kst -> Prop) s s' : (forall s s', T s s' -> turn s s' /\ fair (currPCB (k_sched s)) W W) ->
  rtc T s s' -> lock_in lockp W s -> lock_in lockp W s'.
Proof. intros HT. induction 1 as [|s s1 s2 Hstep _ IH]; [done|]. intros Hs. destruct (HT _ _ Hstep). by eapply IH, turn_lock. Qed.

Lemma fair_owned p c : p <> NULL -> c <> p -> fair c (fun o => o = Some p) (fun o => o = Some p).
Proof. intros Hp Hc. split; [done|intros [=]..]; done. Qed.
Lemma fair_owner p : p <> NULL -> fair p (fun o => o = Some p) (fun o => o = Some p \/ o = Some NULL).
Proof. intros Hp. split; [auto..|]. by intros [=]. Qed.
Lemma fair_free c : fair c (fun o => o = Some NULL \/ o = None) (fun o => o = Some NULL \/ o = Some c \/ o = None).
Proof. split; naive_solver. Qed.
Lemma fair_gone c : fair c (fun o => o = None) (fun o => o = None).
Proof. by split. Qed.

(** A lock that somebody has is not acquired. *)
Lemma blockProcess_ERROR k : keeps (S := kst) any any (blockProcess k) (fun r => r = ERROR).
Proof.
  unfold blockProcess, run_next.
  assert (forall f kc, keeps (S := kst) any any (KernelContextSwitch f kc) (fun r : Z => r = ERROR)) as Hswitch.
  { intros f kc s _. unfold KernelContextSwitch. by destruct (f _ s). }
  assert (forall p, keeps (S := kst) any any (load_pcb p) any) as Hload by (intros p s _; unfold load_pcb; by destruct (_ !! _)).
  repeat (first [by apply keeps_ret|apply Hswitch|apply Hload|keep_step]).
Qed.
Lemma acquire_loop_owned lockp p s s' : p <> NULL -> owner lockp s = Some p -> acquire_loop lockp s <> Ret SUCCESS s'.
Proof.
  intros Hp Ho. unfold owner in Ho. destruct (locks _ !! _) as [l|] eqn:Hl; [|done]. cbn in Ho. injection Ho as Ho.
  unfold acquire_loop, load_lock. unfold bind at 1. rewrite Hl. unfold bind at 1, sched, gets.
  destruct (Z.eqb_spec (ownerPcbp l) NULL); [by subst p|]. intros Hrun.
  assert (keeps (S := kst) any any (let! r := lift (enq_q (lock_waitingQ l) (currPCB (k_sched s))) in
    if r =? ERROR then ret ERROR else blockProcess (KAcquire lockp)) (fun r => r = ERROR)) as Hk.
  { repeat (first [by apply keeps_ret|apply blockProcess_ERROR|keep_step]). }
  specialize (Hk s Logic.I). rewrite Hrun in Hk. destruct Hk as [_ Hk]. pose proof ERROR_neg. unfold SUCCESS in Hk. lia.
Qed.
End ownership.
