(* ===== verification/SwitchLaws.v ===== *)
(** What the context switches of Scheduler.c do: the kernel stack and the
    region 1 of the next process are mapped, the contexts are saved and
    restored, a new process starts from the starter state. *)

From stdpp Require Import base gmap list.
From S2P Require Import Prelude Hardware Queue HashMap FrameList PageTable State Scheduler.

Section pages.
Context `{HL : HardwareLaws}.

Lemma KERNEL_STACK_BASE_VPN_eq : KERNEL_STACK_BASE_VPN = MAX_PT_LEN - STACK_PAGES.
Proof.
  unfold KERNEL_STACK_BASE_VPN. rewrite shiftr_page, KERNEL_STACK_BASE_eq, KERNEL_STACK_LIMIT_eq,
    VMEM_0_LIMIT_eq, KERNEL_STACK_pages.
  pose proof PAGESIZE_pos. rewrite <- Z.mul_sub_distr_r. apply Z.div_mul. lia.
Qed.

Lemma stack_vpn_range i : 0 <= i < STACK_PAGES -> 0 <= KERNEL_STACK_BASE_VPN + i < MAX_PT_LEN.
Proof. rewrite KERNEL_STACK_BASE_VPN_eq. pose proof KERNEL_STACK_room. lia. Qed.

Lemma stack_page_eq i : stack_page i = (KERNEL_STACK_BASE_VPN + i) * PAGESIZE.
Proof.
  unfold stack_page. rewrite KERNEL_STACK_BASE_VPN_eq, KERNEL_STACK_BASE_eq, KERNEL_STACK_LIMIT_eq,
    VMEM_0_LIMIT_eq, KERNEL_STACK_pages. lia.
Qed.

Lemma elem_of_stack_indices i : i ∈ stack_indices <-> 0 <= i < STACK_PAGES.
Proof. unfold stack_indices. rewrite elem_of_seqZ. lia. Qed.

Lemma stack_indices_turn d i r : stack_indices = d ++ i :: r ->
  0 <= i < STACK_PAGES /\ (forall j, j ∈ d -> 0 <= j < i).
Proof.
  intros Heq. split.
  - apply elem_of_stack_indices. rewrite Heq. set_solver.
  - intros j [n Hn]%list_elem_of_lookup. unfold stack_indices in Heq.
    assert (seqZ 0 STACK_PAGES !! n = Some j) as Hj.
    { rewrite Heq. by apply lookup_app_l_Some. }
    assert (seqZ 0 STACK_PAGES !! length d = Some i) as Hi.
    { rewrite Heq, lookup_app_r, Nat.sub_diag by lia. done. }
    apply lookup_lt_Some in Hn. apply lookup_seqZ in Hj, Hi. lia.
Qed.

(** The protection of the kernel stack allows reads and writes. *)
Lemma PROT_RW_bits : bits PTE_PROT_BITS PROT_RW = PROT_RW.
Proof. unfold bits. apply Z.mod_small. pose proof PROT_RW_fits. lia. Qed.
Lemma PROT_RW_read : Z.land PROT_RW PROT_READ = PROT_READ.
Proof. unfold PROT_RW. apply Z.bits_inj'. intros n _. rewrite Z.land_spec, Z.lor_spec. by repeat destruct (Z.testbit _ _). Qed.
Lemma PROT_RW_write : Z.land PROT_RW PROT_WRITE = PROT_WRITE.
Proof. unfold PROT_RW. apply Z.bits_inj'. intros n _. rewrite Z.land_spec, Z.lor_spec. by repeat destruct (Z.testbit _ _). Qed.

Lemma PROT_WRITE_bits : Z.land (bits PTE_PROT_BITS PROT_WRITE) PROT_WRITE = PROT_WRITE.
Proof.
  unfold bits. pose proof PTE_BITS_pos as [? _]. rewrite <- Z.land_ones by lia.
  rewrite <- PROT_RW_write at 1. rewrite <- PROT_RW_bits at 1. unfold bits.
  rewrite <- Z.land_ones by lia. apply Z.bits_inj'. intros n _. rewrite !Z.land_spec.
  rewrite <- PROT_RW_write at 3. rewrite <- PROT_RW_bits. unfold bits.
  rewrite <- Z.land_ones by lia. rewrite !Z.land_spec. by repeat destruct (Z.testbit _ _).
Qed.
End pages.

(** ** The kernel's view of the MMU *)

Section mmu.
Context {QH MH : Type} `{HL : HardwareLaws}.
Implicit Types s : kst QH MH.

(** The entry of page [i] of the kernel stack. *)
Definition stack_pte (t0 : ptr) (i : Z) : ptr := pte_at t0 (KERNEL_STACK_BASE_VPN + i).
Definition in_stack (t0 : ptr) (a : ptr) : Prop := exists i, 0 <= i < STACK_PAGES /\ a = stack_pte t0 i.

(** Virtual memory is on with table [t0] for region 0, and the globals that
    [KernelStart] computes point into it. *)
Record mmu_ok (s : kst QH MH) (t0 : ptr) : Prop := {
  mmu_vm : vm0_on (k_pt s) t0;
  mmu_base : r0StackBasePtep (k_glob s) = pte_at t0 KERNEL_STACK_BASE_VPN;
  mmu_temp : tempPtep (k_glob s) = pte_at t0 (KERNEL_STACK_BASE_VPN - 1);
  mmu_taddr : tempVAddr (k_glob s) = (KERNEL_STACK_BASE_VPN - 1) * PAGESIZE
}.

(** The process with PCB [x] has the page frames [fs] for its kernel stack. *)
Definition has_stack (x : PCB_t) (fs : list Z) : Prop :=
  stackPfns x = Some <$> fs /\ Z.of_nat (length fs) = STACK_PAGES /\
  Forall (fun f => 0 <= f < 2 ^ PTE_PFN_BITS) fs /\ NoDup fs.

(** The kernel stack is mapped to the frames [fs]. *)
Definition stack_mapped (t : pt) (t0 : ptr) (fs : list Z) : Prop :=
  forall i, 0 <= i < STACK_PAGES -> exists f, fs !! Z.to_nat i = Some f /\
    ptes t !! stack_pte t0 i = Some (mkPte 1 PROT_RW f).

Lemma stackPfn_ok s x fs i : has_stack x fs -> 0 <= i < STACK_PAGES ->
  exists f, fs !! Z.to_nat i = Some f /\ 0 <= f < 2 ^ PTE_PFN_BITS /\ stackPfn x i s = Ret f s.
Proof.
  intros (Hx & Hlen & Hf & _) Hi. destruct (lookup_lt_is_Some_2 fs (Z.to_nat i)) as [f Hl]; [lia|].
  exists f. split; [done|]. split; [by eapply Forall_lookup_1 in Hf|].
  unfold stackPfn. by rewrite Hx, list_lookup_fmap, Hl.
Qed.

Lemma stack_pte_at t0 i : pte_at (pte_at t0 KERNEL_STACK_BASE_VPN) i = stack_pte t0 i.
Proof. apply pte_at_add. Qed.

Lemma stack_pte_inj t0 i j : stack_pte t0 i = stack_pte t0 j -> i = j.
Proof. intros ?%pte_at_inj. lia. Qed.

Lemma stack_pte_is_Some t t0 i : vm0_on t t0 -> 0 <= i < STACK_PAGES -> is_Some (ptes t !! stack_pte t0 i).
Proof. intros Hvm Hi. by apply (vm0_table _ _ Hvm), stack_vpn_range. Qed.

Lemma set_stack_entry t t0 i f : vm0_on t t0 -> 0 <= i < STACK_PAGES ->
  setPageTableEntry (stack_pte t0 i) 1 PROT_RW f t =
    Ret tt (set_entry t (stack_pte t0 i) (stack_page i) 1 PROT_RW f).
Proof.
  intros Hvm Hi. rewrite stack_page_eq. by apply setPageTableEntry_r0, stack_vpn_range.
Qed.

(** The entries of a table other than that of region 0 when the kernel stack
    changes. *)
Lemma in_stack_other t0 b i t t' : pt_upd (in_stack t0) t t' -> apart t0 b -> 0 <= i < MAX_PT_LEN -> entry t' b i = entry t b i.
Proof.
  intros Hu Hap Hi. apply (upd_ptes _ _ _ Hu). intros (j & Hj & Heq). revert Heq. pose proof (stack_vpn_range j Hj).
  apply pte_at_apart; [unfold apart in *; lia|done|done].
Qed.

Lemma bits_small n x : 0 <= x < 2 ^ n -> bits n x = x.
Proof. apply Z.mod_small. Qed.

(** [map_stack]: the kernel stack's virtual pages go to the process's frames,
    and no other entry changes. *)
Lemma map_stack_ok s p x t0 fs : mmu_ok s t0 -> pcbs (k_obj s) !! p = Some x -> has_stack x fs ->
  exists t', map_stack p s = Ret tt (with_pt t' s) /\ pt_upd (in_stack t0) (k_pt s) t' /\
    stack_mapped t' t0 fs.
Proof.
  intros [Hvm Hbase _ _] Hp Hfs. unfold map_stack. kmon. rewrite Hbase.
  loop (fun d s1 => exists t', s1 = with_pt t' s /\
    pt_upd (in_stack t0) (k_pt s) t' /\ forall i, i ∈ d -> exists f, fs !! Z.to_nat i = Some f /\
      ptes t' !! stack_pte t0 i = Some (mkPte 1 PROT_RW f))
    as (s' & Hrun & t' & -> & Hupd & Hall); [| |rewrite Hrun].
  - exists (k_pt s). split; [by destruct s|]. split; [apply pt_upd_refl|]. set_solver.
  - intros d i r s1 Heq (t1 & -> & Hupd & Hall). apply stack_indices_turn in Heq as [Hi Hd].
    step (load_pcb_ok (with_pt t1 s) _ _ Hp).
    destruct (stackPfn_ok (with_pt t1 s) x fs i Hfs Hi) as (f & Hf & Hfr & Hrd). step Hrd.
    rewrite stack_pte_at. pose proof (pt_upd_vm0 _ _ _ _ Hupd Hvm) as Hvm1.
    erewrite (lift_Ret _ (with_pt t1 s)) by (by apply set_stack_entry).
    eexists. split; [done|]. eexists. split; [done|]. split.
    + eapply pt_upd_trans; [done|]. apply pt_upd_set_entry; [by exists i|]. by apply stack_pte_is_Some.
    + intros j [Hj| ->%list_elem_of_singleton]%elem_of_app.
      * destruct (Hall _ Hj) as (fj & ? & ?). exists fj. split; [done|]. cbn.
        rewrite lookup_insert_ne; [done|]. intros ?%stack_pte_inj. apply Hd in Hj. lia.
      * exists f. split; [done|]. cbn. rewrite lookup_insert_eq, PROT_RW_bits, (bits_small _ f) by done. done.
  - exists t'. split; [done|]. split; [done|]. intros i Hi. apply Hall. by apply elem_of_stack_indices.
Qed.

(** Reads and writes of the kernel stack reach the mapped frames. *)
Lemma translate_stack s t0 fs i p : mmu_ok s t0 -> stack_mapped (k_pt s) t0 fs ->
  0 <= i < STACK_PAGES -> Z.land PROT_RW p = p ->
  exists f, fs !! Z.to_nat i = Some f /\ translate (stack_page i) p s = Ret f s.
Proof.
  intros [Hvm _ _ _] Hmap Hi Hp. destruct (Hmap _ Hi) as (f & Hf & He). exists f. split; [done|].
  unfold translate. kmon. rewrite stack_page_eq, shiftr_page, Z.div_mul by (pose proof PAGESIZE_pos; lia).
  pose proof (stack_vpn_range _ Hi).
  destruct (Z.leb_spec 0 (KERNEL_STACK_BASE_VPN + i)), (Z.ltb_spec (KERNEL_STACK_BASE_VPN + i) MAX_PT_LEN); try lia.
  cbn [andb]. rewrite (vm0_base _ _ Hvm). fold (stack_pte t0 i).
  assert (load_pte (stack_pte t0 i) (k_pt s) = Ret (mkPte 1 PROT_RW f) (k_pt s)) as Hld
    by (unfold load_pte; by rewrite He).
  erewrite bind_Ret by (by apply lift_Ret). cbn. rewrite Hp, Z.eqb_refl. by destruct s.
Qed.

(** [write_stack] fills the mapped frames with the given pages. *)
Lemma write_stack_ok s t0 fs st : mmu_ok s t0 -> stack_mapped (k_pt s) t0 fs ->
  NoDup fs -> Z.of_nat (length fs) = STACK_PAGES -> length st = length fs ->
  exists m, write_stack st s = Ret tt (with_mem m s) /\
    (forall f, f ∉ fs -> m !! f = k_mem s !! f) /\
    (forall i f pg, fs !! i = Some f -> st !! i = Some pg -> m !! f = Some pg).
Proof.
  intros Hmmu Hmap Hnd Hlen Hst. unfold write_stack.
  loop (fun d s1 => exists m, s1 = with_mem m s /\
    (forall f, f ∉ fs -> m !! f = k_mem s !! f) /\
    (forall i f pg, i ∈ d -> fs !! Z.to_nat i = Some f -> st !! Z.to_nat i = Some pg -> m !! f = Some pg)) as (s' & Hrun & m & -> & Hout & Hin); [| |rewrite Hrun].
  - exists (k_mem s). split; [by destruct s|]. split; [done|]. set_solver.
  - intros d i r s1 Heq (m & -> & Hout & Hin). apply stack_indices_turn in Heq as [Hi Hd].
    destruct (lookup_lt_is_Some_2 st (Z.to_nat i)) as [pg Hpg]; [lia|]. step_rd Hpg.
    destruct (translate_stack (with_mem m s) t0 fs i PROT_WRITE) as (f & Hf & Htr);
      [by destruct Hmmu|done|done|apply PROT_RW_write|]. step Htr.
    eexists. split; [done|]. exists (<[f := pg]> m). split; [done|]. split.
    + intros g Hg. rewrite lookup_insert_ne; [by apply Hout|]. intros ->.
      apply Hg. by eapply list_elem_of_lookup_2.
    + intros j g pg' Hj Hg Hpg'. apply elem_of_app in Hj as [Hj| ->%list_elem_of_singleton].
      * rewrite lookup_insert_ne; [by eapply Hin|]. intros ->.
        assert (Z.to_nat i = Z.to_nat j) by (by eapply NoDup_lookup). apply Hd in Hj. lia.
      * simplify_eq. apply lookup_insert_eq.
  - exists m. split; [done|]. split; [done|]. intros i f pg Hf Hpg. apply (Hin (Z.of_nat i)).
    + apply elem_of_stack_indices. apply lookup_lt_Some in Hf. lia.
    + by rewrite Nat2Z.id.
    + by rewrite Nat2Z.id.
Qed.

Lemma switch_r1_ok s p x r1 : pcbs (k_obj s) !! p = Some x -> r1PageTable x = Some r1 ->
  0 <= r1 < 2 ^ 32 ->
  switch_r1 p s = Ret tt (with_pt (with_flush TLB_FLUSH_1 (with_PTBR1 r1 (k_pt s))) s).
Proof.
  intros Hp Hr1 Hb. unfold switch_r1. step (load_pcb_ok _ _ _ Hp). step_rd Hr1.
  by rewrite u32_small.
Qed.

(** ** [malloc] for the kernel's objects *)

(** The allocator of the kernel's objects has not run out, and every PCB lies
    below its next address. *)
Record mem_ok (s : kst QH MH) : Prop := {
  mem_plenty : plenty (o_arena (k_obj s));
  mem_pos : 0 < brk_addr (o_arena (k_obj s));
  mem_pcbs p : is_Some (pcbs (k_obj s) !! p) -> 0 < p < brk_addr (o_arena (k_obj s))
}.

(** [s] with another state of that allocator. *)
Definition with_arena (a : arena) (s : kst QH MH) : kst QH MH := with_obj (put a (k_obj s)) s.

Lemma kmalloc_ok s n : mem_ok s ->
  exists p a, kmalloc n s = Ret p (with_arena a s) /\ p <> NULL /\ pcbs (k_obj s) !! p = None /\
    p < brk_addr a /\ brk_addr (o_arena (k_obj s)) <= brk_addr a /\ plenty a.
Proof.
  intros [Hpl Hpos Hlt]. destruct (malloc_spec n _ Hpos) as (p & a & Hm & Hpl' & Hle & Hp).
  exists p, a. split.
  - unfold kmalloc, lift. cbn. by rewrite Hm.
  - destruct Hp as [(_ & _ & [])|[-> Hb]]; [done|]. split_and!; try (done || lia || auto).
    apply eq_None_not_Some. intros Hs%Hlt. lia.
Qed.

Lemma mem_ok_arena s a : mem_ok s -> plenty a -> brk_addr (o_arena (k_obj s)) <= brk_addr a ->
  mem_ok (with_arena a s).
Proof. intros [Hpl Hpos Hlt] Ha Hle. split; cbn; [done|lia|]. intros p Hp%Hlt. lia. Qed.

(** ** [switchBetween] *)

(** The starter state was saved by [KernelStart]. *)
Definition starter_ok (s : kst QH MH) : Prop :=
  exists kc st, starterKctxt (k_glob s) = Some kc /\ starterKernelStack (k_glob s) = Some st /\
    Z.of_nat (length st) = STACK_PAGES.

(** The context in which the process with PCB [x] goes on: its own, or the
    starter context if it never ran. *)
Definition next_kctxt (s : kst QH MH) (x : PCB_t) (kc : KernelContext) : Prop :=
  kctxt x = Some (KSaved kc) \/
  kctxt x = Some KNull /\ starterKctxt (k_glob s) = Some kc /\ mem_ok s /\ starter_ok s.

(** The PCBs after the context [kcur] was saved in that of [cur]. *)
Definition saved (cur : ptr) (kcur : KernelContext) (m : gmap ptr PCB_t) : gmap ptr PCB_t :=
  if cur =? NULL then m else alter (with_kctxt (KSaved kcur)) cur m.

(** The state [s'] after the processor went from [cur], suspended in [kcur],
    to [next], whose PCB was [x] and which goes on in [kc] on the stack frames
    [fs]. *)
Record switched (t0 : ptr) (s : kst QH MH) (cur : ptr) (kcur : KernelContext)
    (next : ptr) (x : PCB_t) (kc : KernelContext) (fs : list Z) (s' : kst QH MH) : Prop := {
  sw_sched : k_sched s' = with_currPCB next (k_sched s);
  sw_pcbs : pcbs (k_obj s') = <[next := with_kctxt (KSaved kc) x]> (saved cur kcur (pcbs (k_obj s)));
  sw_zombies : zombies (k_obj s') = zombies (k_obj s);
  sw_locks : locks (k_obj s') = locks (k_obj s);
  sw_pipes : pipes (k_obj s') = pipes (k_obj s);
  sw_brk : brk_addr (o_arena (k_obj s)) <= brk_addr (o_arena (k_obj s'));
  sw_plenty : plenty (o_arena (k_obj s)) -> plenty (o_arena (k_obj s'));
  sw_qh : k_qh s' = k_qh s;
  sw_mh : k_mh s' = k_mh s;
  sw_fl : k_fl s' = k_fl s;
  sw_glob : k_glob s' = k_glob s;
  sw_pt : exists t' r1, pt_upd (in_stack t0) (k_pt s) t' /\ r1PageTable x = Some r1 /\
    k_pt s' = with_flush TLB_FLUSH_1 (with_PTBR1 r1 t');
  sw_mapped : stack_mapped (k_pt s') t0 fs;
  sw_mem_other f : f ∉ fs -> k_mem s' !! f = k_mem s !! f;
  sw_mem_old : kctxt x = Some (KSaved kc) -> k_mem s' = k_mem s;
  sw_mem_new : kctxt x = Some KNull -> forall st i f pg, starterKernelStack (k_glob s) = Some st ->
    fs !! i = Some f -> st !! i = Some pg -> k_mem s' !! f = Some pg;
  sw_tty : k_tty s' = k_tty s
}.

(** [start_process] leaves a process that has run alone, and gives a new one
    the starter context and the starter stack. *)
Lemma start_process_ok s t0 p x kc fs : mmu_ok s t0 -> stack_mapped (k_pt s) t0 fs ->
  has_stack x fs -> pcbs (k_obj s) !! p = Some x -> next_kctxt s x kc ->
  exists m a, start_process p s =
      Ret tt (with_mem m (with_obj (with_pcbs (<[p := with_kctxt (KSaved kc) x]> (pcbs (k_obj s)))
                                      (put a (k_obj s))) s)) /\
    brk_addr (o_arena (k_obj s)) <= brk_addr a /\ (plenty (o_arena (k_obj s)) -> plenty a) /\
    (forall f, f ∉ fs -> m !! f = k_mem s !! f) /\
    (kctxt x = Some (KSaved kc) -> m = k_mem s) /\
    (kctxt x = Some KNull -> forall st i f pg, starterKernelStack (k_glob s) = Some st ->
       fs !! i = Some f -> st !! i = Some pg -> m !! f = Some pg).
Proof.
  intros Hmmu Hmap (_ & Hlen & _ & Hnd) Hp Hkc. unfold start_process.
  step (load_pcb_ok _ _ _ Hp). destruct Hkc as [Hkc|(Hkc & Hsk & Hmem & kc' & st & Hsk' & Hst & Hstl)].
  - step_rd Hkc. exists (k_mem s), (o_arena (k_obj s)). split.
    + rewrite insert_id; [by destruct s as [? ? ? ? [] ? ? ? ? ?]|].
      rewrite Hp. destruct x. cbn in *. by rewrite Hkc.
    + split_and!; try done. by rewrite Hkc.
  - simplify_eq. step_rd Hkc. destruct (kmalloc_ok s sizeof_KernelContext Hmem) as (q & a & Hm & Hq & _ & _ & Hle & Hpl).
    step Hm. destruct (Z.eqb_spec q NULL); [done|]. kmon. cbn [k_glob with_arena with_obj]. step_rd Hsk.
    step (update_pcb_ok (with_arena a s) p (with_kctxt (KSaved kc)) x Hp). kmon.
    cbn [k_glob with_arena with_obj]. step_rd Hst.
    match goal with |- context [write_stack st ?s1] =>
      destruct (write_stack_ok s1 t0 fs st) as (m & -> & Hout & Hin); [by destruct Hmmu|done|done|done|lia|] end.
    exists m, a. split; [done|]. split_and!; try done.
    + by rewrite Hkc.
    + intros _ st' i f pg Hst'. simplify_eq. apply Hin.
Qed.

(** A context can be saved in [kctxt]: memory was allocated for it. *)
Definition has_kctxt (x : PCB_t) : Prop := kctxt x = Some KNew \/ exists kc, kctxt x = Some (KSaved kc).

Lemma save_kctxt_ok s p x kc : pcbs (k_obj s) !! p = Some x -> has_kctxt x ->
  save_kctxt p kc s =
    Ret tt (with_obj (with_pcbs (alter (with_kctxt (KSaved kc)) p (pcbs (k_obj s))) (k_obj s)) s).
Proof.
  intros Hp Hx. unfold save_kctxt. step (load_pcb_ok _ _ _ Hp).
  rewrite (alter_alt_Some _ _ _ _ Hp).
  destruct Hx as [-> |[kc' ->]]; apply (update_pcb_ok _ _ _ _ Hp).
Qed.

Lemma read_kctxt_ok s p x kc : pcbs (k_obj s) !! p = Some x -> kctxt x = Some (KSaved kc) ->
  read_kctxt p s = Ret kc s.
Proof. intros Hp Hx. unfold read_kctxt. step (load_pcb_ok _ _ _ Hp). by rewrite Hx. Qed.

Lemma lookup_saved_ne cur kcur m p : p <> cur -> saved cur kcur m !! p = m !! p.
Proof. intros. unfold saved. case_match; [done|]. by rewrite lookup_alter_ne. Qed.

(** [switchBetween] saves the caller's context and gives the processor, the
    kernel stack and region 1 to the next process. *)
Lemma switchBetween_ok s t0 cur kcur next x kc fs r1 :
  mmu_ok s t0 -> cur <> next ->
  (cur <> NULL -> exists xc, pcbs (k_obj s) !! cur = Some xc /\ has_kctxt xc) ->
  pcbs (k_obj s) !! next = Some x -> has_stack x fs -> next_kctxt s x kc ->
  r1PageTable x = Some r1 -> 0 <= r1 < 2 ^ 32 ->
  exists s', switchBetween cur next kcur s = Ret kc s' /\ switched t0 s cur kcur next x kc fs s'.
Proof.
  intros Hmmu Hne Hcur Hx Hfs Hkc Hr1 Hr1b. unfold switchBetween.
  assert ((if cur =? NULL then ret tt else save_kctxt cur kcur) s =
    Ret tt (with_obj (with_pcbs (saved cur kcur (pcbs (k_obj s))) (k_obj s)) s)) as Hsave.
  { unfold saved. destruct (Z.eqb_spec cur NULL) as [|Hnz]; [by destruct s as [? ? ? ? [] ? ? ? ? ?]|].
    destruct (Hcur Hnz) as (xc & Hxc & Hk). by eapply save_kctxt_ok. }
  step Hsave. kmon. set (s1 := with_sched _ _).
  assert (pcbs (k_obj s1) !! next = Some x) as Hx1 by (cbn; by rewrite lookup_saved_ne).
  assert (mmu_ok s1 t0) as Hmmu1 by (by destruct Hmmu).
  destruct (map_stack_ok s1 next x t0 fs Hmmu1 Hx1 Hfs) as (t' & Hms & Hupd & Hmap). step Hms.
  assert (mmu_ok (with_pt t' s1) t0) as Hmmu2.
  { destruct Hmmu1. split; try done. by eapply pt_upd_vm0. }
  assert (next_kctxt (with_pt t' s1) x kc) as Hkc2.
  { destruct Hkc as [?|(? & ? & Hmem & Hst)]; [by left|right]. split_and!; try done.
    destruct Hmem as [? ? Hlt]. split; cbn; [done..|]. intros p Hp. apply Hlt.
    unfold saved in Hp. case_match; [done|]. by rewrite lookup_alter_is_Some in Hp. }
  destruct (start_process_ok (with_pt t' s1) t0 next x kc fs Hmmu2 Hmap Hfs Hx1 Hkc2)
    as (m & a & Hsp & Hbrk & Hpl & Hout & Hold & Hnew). step Hsp.
  match goal with |- context [bind (switch_r1 next) _ ?s3] =>
    assert (pcbs (k_obj s3) !! next = Some (with_kctxt (KSaved kc) x)) as Hx3 by apply lookup_insert_eq;
    pose proof (switch_r1_ok s3 next _ r1 Hx3 Hr1 Hr1b) as Hr end.
  step Hr. eexists. split; [by eapply read_kctxt_ok|].
  split; try done. by exists t', r1.
Qed.

(** [execTo] starts the running process again from the starter state, on the
    kernel stack that is mapped. *)
Lemma execTo_ok s t0 fs cur xc kcur kc : mmu_ok s t0 -> starter_ok s ->
  starterKctxt (k_glob s) = Some kc ->
  currPCB (k_sched s) = cur -> pcbs (k_obj s) !! cur = Some xc -> has_kctxt xc ->
  has_stack xc fs -> stack_mapped (k_pt s) t0 fs ->
  exists m, execTo kcur s = Ret kc (with_mem m (with_obj (with_pcbs
      (alter (with_kctxt (KSaved kc)) cur (pcbs (k_obj s))) (k_obj s)) s)) /\
    (forall f, f ∉ fs -> m !! f = k_mem s !! f) /\
    (forall st i f pg, starterKernelStack (k_glob s) = Some st -> fs !! i = Some f ->
       st !! i = Some pg -> m !! f = Some pg).
Proof.
  intros Hmmu (kc' & st & Hk & Hst & Hlen) Hk' <- Hxc Hhk (_ & Hfl & _ & Hnd) Hmap.
  assert (kc' = kc) as -> by congruence.
  unfold execTo. kmon. step_rd Hk. step (save_kctxt_ok _ _ _ kc Hxc Hhk). kmon.
  cbn [k_glob with_obj]. step_rd Hst.
  match goal with |- context [bind (write_stack st) _ ?s1] =>
    destruct (write_stack_ok s1 t0 fs st) as (m & Hw & Hout & Hin); [by destruct Hmmu|done|done|done|lia|] end.
  step Hw. exists m. split; [|split; [done|]].
  - eapply read_kctxt_ok; [cbn; by rewrite lookup_alter_eq, Hxc|done].
  - intros st' i f pg Hst'. simplify_eq. apply Hin.
Qed.

(** ** [forkTo] *)

(** The temporary page below the kernel stack. *)
Definition temp_pte (t0 : ptr) : ptr := pte_at t0 (KERNEL_STACK_BASE_VPN - 1).

Lemma temp_vpn_range : 0 <= KERNEL_STACK_BASE_VPN - 1 < MAX_PT_LEN.
Proof. rewrite KERNEL_STACK_BASE_VPN_eq. pose proof KERNEL_STACK_room. lia. Qed.

Lemma temp_pte_ne t0 i : 0 <= i -> temp_pte t0 <> stack_pte t0 i.
Proof. intros Hi ?%pte_at_inj. lia. Qed.

(** A page of region 0 with a valid entry. *)
Lemma translate_r0 s t0 vpn p e : vm0_on (k_pt s) t0 -> 0 <= vpn < MAX_PT_LEN ->
  ptes (k_pt s) !! pte_at t0 vpn = Some e -> pte_valid e = 1 -> Z.land (pte_prot e) p = p ->
  translate (vpn * PAGESIZE) p s = Ret (pte_pfn e) s.
Proof.
  intros Hvm Hi He Hv Hp. unfold translate. kmon.
  rewrite shiftr_page, Z.div_mul by (pose proof PAGESIZE_pos; lia).
  destruct (Z.leb_spec 0 vpn), (Z.ltb_spec vpn MAX_PT_LEN); try lia.
  cbn [andb]. rewrite (vm0_base _ _ Hvm).
  assert (load_pte (pte_at t0 vpn) (k_pt s) = Ret e (k_pt s)) as Hld by (unfold load_pte; by rewrite He).
  erewrite bind_Ret by (by apply lift_Ret). cbv beta. rewrite Hv, Hp, !Z.eqb_refl. by destruct s.
Qed.

(** One turn of the loop of [forkTo], for the page [i] of the stack: its
    content goes from the frame it is mapped to into [f], which it is then
    mapped to. *)
Definition fork_page (t0 : ptr) (f i : Z) : M (kst QH MH) unit :=
  lift (setPageTableEntry (temp_pte t0) 1 PROT_WRITE f) ;;;
  copy_page ((KERNEL_STACK_BASE_VPN - 1) * PAGESIZE) (stack_page i) ;;;
  lift (setPageTableEntry (pte_at (pte_at t0 KERNEL_STACK_BASE_VPN) i) 1 PROT_RW f).

Definition in_fork (t0 a : ptr) : Prop := a = temp_pte t0 \/ in_stack t0 a.

Lemma fork_page_ok s t0 f f0 i : vm0_on (k_pt s) t0 -> 0 <= i < STACK_PAGES ->
  0 <= f < 2 ^ PTE_PFN_BITS -> ptes (k_pt s) !! stack_pte t0 i = Some (mkPte 1 PROT_RW f0) ->
  exists t', fork_page t0 f i s = Ret tt (with_mem (<[f := page f0 s]> (k_mem s)) (with_pt t' s)) /\
    pt_upd (in_fork t0) (k_pt s) t' /\
    ptes t' !! stack_pte t0 i = Some (mkPte 1 PROT_RW f) /\
    (forall j, j <> i -> 0 <= j -> ptes t' !! stack_pte t0 j = ptes (k_pt s) !! stack_pte t0 j).
Proof.
  intros Hvm Hi Hf He. pose proof temp_vpn_range as Htr. unfold fork_page. rewrite stack_pte_at.
  erewrite bind_Ret by (apply (lift_Ret _ s); by apply setPageTableEntry_r0). cbv beta.
  set (t1 := set_entry _ _ _ _ _ _).
  assert (pt_upd (in_fork t0) (k_pt s) t1) as Hu1.
  { apply pt_upd_set_entry; [by left|]. by apply (vm0_table _ _ Hvm). }
  pose proof (pt_upd_vm0 _ _ _ _ Hu1 Hvm) as Hvm1.
  assert (ptes t1 !! stack_pte t0 i = Some (mkPte 1 PROT_RW f0)) as He1.
  { cbn. rewrite lookup_insert_ne; [done|]. apply temp_pte_ne. lia. }
  unfold copy_page. kmon.
  assert (translate (stack_page i) PROT_READ (put t1 s) = Ret f0 (put t1 s)) as Hs1.
  { rewrite stack_page_eq. apply (translate_r0 (put t1 s) t0 _ _ (mkPte 1 PROT_RW f0));
      [done|by apply stack_vpn_range|done|done|apply PROT_RW_read]. }
  step Hs1. kmon. assert (translate ((KERNEL_STACK_BASE_VPN - 1) * PAGESIZE) PROT_WRITE (put t1 s) = Ret f (put t1 s)) as Hs2.
  { rewrite <- (bits_small _ f) by done.
    apply (translate_r0 (put t1 s) t0 _ _ (mkPte (bits 1 1) (bits PTE_PROT_BITS PROT_WRITE) (bits PTE_PFN_BITS f)));
      [done|done| |done|apply PROT_WRITE_bits].
    cbn. apply lookup_insert_eq. }
  step Hs2. kmon. erewrite (lift_Ret (A := pt)) by (by apply set_stack_entry). cbn [put lens_pt].
  eexists. split; [done|]. split; [|split].
  - eapply pt_upd_trans; [done|]. apply pt_upd_set_entry; [right; by exists i|].
    by apply stack_pte_is_Some.
  - cbn. rewrite lookup_insert_eq, PROT_RW_bits, (bits_small _ f) by done. done.
  - intros j Hj Hj0. cbn. rewrite lookup_insert_ne by (intros ?%stack_pte_inj; congruence).
    rewrite lookup_insert_ne; [done|]. by apply temp_pte_ne.
Qed.

(** The state after [forkTo]: both processes have the context [kcur], the
    child runs on its own stack frames [fs], which are a copy of the parent's
    [fs0]. *)
Record forked (t0 : ptr) (s : kst QH MH) (cur : ptr) (kcur : KernelContext)
    (child : ptr) (x : PCB_t) (fs fs0 : list Z) (s' : kst QH MH) : Prop := {
  fk_sched : k_sched s' = with_currPCB child (k_sched s);
  fk_obj : k_obj s' = with_pcbs (alter (with_kctxt (KSaved kcur)) child
    (alter (with_kctxt (KSaved kcur)) cur (pcbs (k_obj s)))) (k_obj s);
  fk_qh : k_qh s' = k_qh s;
  fk_mh : k_mh s' = k_mh s;
  fk_fl : k_fl s' = k_fl s;
  fk_glob : k_glob s' = k_glob s;
  fk_pt : exists t' r1, pt_upd (in_fork t0) (k_pt s) t' /\ r1PageTable x = Some r1 /\
    k_pt s' = with_flush TLB_FLUSH_1 (with_PTBR1 r1 t');
  fk_mapped : stack_mapped (k_pt s') t0 fs;
  fk_temp : exists e, ptes (k_pt s') !! temp_pte t0 = Some e /\ pte_valid e = 0;
  fk_mem_other f : f ∉ fs -> k_mem s' !! f = k_mem s !! f;
  fk_mem i f f0 : fs !! i = Some f -> fs0 !! i = Some f0 -> k_mem s' !! f = Some (page f0 s)
}.

(** The loop of [forkTo]. *)
Lemma fork_stack_ok s t0 fs fs0 child x : vm0_on (k_pt s) t0 ->
  pcbs (k_obj s) !! child = Some x -> has_stack x fs ->
  stack_mapped (k_pt s) t0 fs0 -> (forall f, f ∈ fs -> f ∉ fs0) ->
  exists t' m, foldM (fun i => let! x := load_pcb child in let! f := stackPfn x i in fork_page t0 f i)
      stack_indices s = Ret tt (with_mem m (with_pt t' s)) /\
    pt_upd (in_fork t0) (k_pt s) t' /\ stack_mapped t' t0 fs /\
    (forall f, f ∉ fs -> m !! f = k_mem s !! f) /\
    (forall i f f0, fs !! i = Some f -> fs0 !! i = Some f0 -> m !! f = Some (page f0 s)).
Proof.
  intros Hvm Hx Hfs Hmap Hdisj.
  loop (fun d s1 => exists t' m, s1 = with_mem m (with_pt t' s) /\
    pt_upd (in_fork t0) (k_pt s) t' /\
    (forall i, 0 <= i < STACK_PAGES -> exists f, (if decide (i ∈ d) then fs else fs0) !! Z.to_nat i = Some f /\
      ptes t' !! stack_pte t0 i = Some (mkPte 1 PROT_RW f)) /\
    (forall f, f ∉ fs -> m !! f = k_mem s !! f) /\
    (forall i f f0, i ∈ d -> fs !! Z.to_nat i = Some f -> fs0 !! Z.to_nat i = Some f0 -> m !! f = Some (page f0 s)))
    as (s' & Hrun & t' & m & -> & Hupd & Hall & Hout & Hin); [| |rewrite Hrun].
  - exists (k_pt s), (k_mem s). split; [by destruct s|]. split; [apply pt_upd_refl|].
    split; [exact Hmap|]. set_solver.
  - intros d i r s1 Heq (t1 & m & -> & Hupd & Hall & Hout & Hin). apply stack_indices_turn in Heq as [Hi Hd].
    set (s1 := with_mem m (with_pt t1 s)).
    step (load_pcb_ok s1 _ _ Hx). destruct (stackPfn_ok s1 x fs i Hfs Hi) as (f & Hf & Hfr & Hrd). step Hrd.
    destruct (Hall i Hi) as (f0 & Hf0 & He). rewrite decide_False in Hf0 by (intros Hid; apply Hd in Hid; lia).
    destruct (fork_page_ok s1 t0 f f0 i (pt_upd_vm0 _ _ _ _ Hupd Hvm) Hi Hfr He) as (t2 & Hfp & Hu2 & He2 & Hoth).
    destruct Hfs as (_ & Hlen & _ & Hnd). exists (with_mem (<[f := page f0 s1]> m) (with_pt t2 s)).
    split; [exact Hfp|]. exists t2, (<[f := page f0 s1]> m). split; [done|]. split; [by eapply pt_upd_trans|].
    assert (page f0 s1 = page f0 s) as ->.
    { unfold page. cbn. rewrite Hout; [done|]. intros Hin0. apply (Hdisj _ Hin0). by eapply list_elem_of_lookup_2. }
    split_and!.
    + intros j Hj. destruct (decide (j = i)) as [->|Hne].
      * exists f. rewrite decide_True by set_solver. done.
      * rewrite Hoth by (done || lia). rewrite (decide_ext (j ∈ d ++ [i]) (j ∈ d)) by set_solver. by apply Hall.
    + intros g Hg. rewrite lookup_insert_ne; [by apply Hout|]. intros ->. apply Hg. by eapply list_elem_of_lookup_2.
    + intros j g g0 Hj Hg Hg0. apply elem_of_app in Hj as [Hj| ->%list_elem_of_singleton].
      * rewrite lookup_insert_ne; [by eapply Hin|]. intros ->.
        assert (Z.to_nat i = Z.to_nat j) by (by eapply NoDup_lookup). apply Hd in Hj. lia.
      * simplify_eq. apply lookup_insert_eq.
  - exists t', m. split; [done|]. split; [done|]. destruct Hfs as (_ & Hlen & _). split_and!; [| done|].
    + intros i Hi. specialize (Hall i Hi). by rewrite decide_True in Hall by by apply elem_of_stack_indices.
    + intros i f f0 Hf Hf0. apply (Hin (Z.of_nat i)); [|by rewrite Nat2Z.id..].
      apply elem_of_stack_indices. apply lookup_lt_Some in Hf. lia.
Qed.

Lemma forkTo_ok s t0 cur xc kcur child x fs fs0 r1 : mmu_ok s t0 ->
  currPCB (k_sched s) = cur -> cur <> child ->
  pcbs (k_obj s) !! cur = Some xc -> has_kctxt xc -> stack_mapped (k_pt s) t0 fs0 ->
  pcbs (k_obj s) !! child = Some x -> has_kctxt x -> has_stack x fs ->
  r1PageTable x = Some r1 -> 0 <= r1 < 2 ^ 32 -> (forall f, f ∈ fs -> f ∉ fs0) ->
  exists s', forkTo child kcur s = Ret kcur s' /\ forked t0 s cur kcur child x fs fs0 s'.
Proof.
  intros [Hvm Hb Ht Ha] <- Hne Hxc Hkc Hmap Hx Hkx Hfs Hr1 Hr1b Hdisj. unfold forkTo. kmon.
  step (save_kctxt_ok _ _ _ kcur Hxc Hkc). kmon. cbn [k_glob with_sched with_obj]. rewrite Hb, Ht, Ha.
  set (s1 := with_sched _ _). pose proof temp_vpn_range as Htr.
  assert (pcbs (k_obj s1) !! child = Some x) as Hx1 by (cbn; by rewrite lookup_alter_ne).
  destruct (fork_stack_ok s1 t0 fs fs0 child x Hvm Hx1 Hfs Hmap Hdisj)
    as (t' & m & Hrun & Hupd & Hmapped & Hout & Hin).
  unfold fork_page, temp_pte in Hrun. step Hrun.
  erewrite bind_Ret by (apply (lift_Ret (A := pt)); apply setPageTableEntry_r0; [by eapply pt_upd_vm0|done]).
  cbn beta. set (t2 := set_entry _ _ _ _ _ _). set (s2 := put t2 _).
  assert (pcbs (k_obj s2) !! child = Some x) as Hx2 by done.
  step (save_kctxt_ok _ _ _ kcur Hx2 Hkx). set (s3 := with_obj _ s2).
  assert (pcbs (k_obj s3) !! child = Some (with_kctxt (KSaved kcur) x)) as Hx3
    by (change (alter (with_kctxt (KSaved kcur)) child (pcbs (k_obj s2)) !! child =
          Some (with_kctxt (KSaved kcur) x)); by rewrite lookup_alter_eq, Hx2).
  step (switch_r1_ok s3 _ _ r1 Hx3 Hr1 Hr1b). eexists. split; [by eapply read_kctxt_ok|].
  split; try done.
  - exists t2, r1. split; [|done]. eapply pt_upd_trans; [done|].
    apply pt_upd_set_entry; [by left|]. apply (upd_dom _ _ _ Hupd). by apply (vm0_table _ _ Hvm).
  - intros i Hi. destruct (Hmapped i Hi) as (f & ? & ?). exists f. split; [done|]. cbn.
    rewrite lookup_insert_ne; [done|]. apply temp_pte_ne. lia.
  - eexists. split; [apply lookup_insert_eq|done].
Qed.

End mmu.
