(* ===== verification/SchedView.v ===== *)
(** The abstract scheduler: which process runs, which are ready, blocked and
    asleep, and what the operations of Scheduler.c mean on this view.

    Every operation moves processes between these places and loses or
    duplicates none ([places]). *)

From stdpp Require Import base gmap list.
From S2P Require Import Prelude Hardware State.

Record sview := mkView {
  v_run : ptr;
  v_ready : list ptr;
  v_blocked : gmap Z ptr;
  v_sleeping : gmap Z ptr
}.

(** All processes the scheduler knows, by the place where it keeps them. *)
Definition places (v : sview) : list ptr :=
  v_run v :: v_ready v ++ (map_to_list (v_blocked v)).*2 ++ (map_to_list (v_sleeping v)).*2.

(** The running process, with pid [k], blocks; it goes to sleep; it is kicked
    into the ready queue. *)
Definition v_block (k : Z) (v : sview) : option sview :=
  match v_ready v with
  | n :: r => Some (mkView n r (<[k := v_run v]> (v_blocked v)) (v_sleeping v))
  | [] => None
  end.
Definition v_sleep (k : Z) (v : sview) : option sview :=
  match v_ready v with
  | n :: r => Some (mkView n r (v_blocked v) (<[k := v_run v]> (v_sleeping v)))
  | [] => None
  end.
Definition v_kick (v : sview) : option sview :=
  match v_ready v with
  | n :: r => Some (mkView n (r ++ [v_run v]) (v_blocked v) (v_sleeping v))
  | [] => None
  end.

(** The process with pid [k] is made ready, if it is blocked. *)
Definition v_unblock (k : Z) (v : sview) : sview :=
  match v_blocked v !! k with
  | Some p => mkView (v_run v) (v_ready v ++ [p]) (delete k (v_blocked v)) (v_sleeping v)
  | None => v
  end.

(** The sleepers in [woken] are made ready, in this order. *)
Definition v_wake (woken : list (Z * ptr)) (v : sview) : sview :=
  mkView (v_run v) (v_ready v ++ woken.*2) (v_blocked v)
    (foldr (fun kp m => delete kp.1 m) (v_sleeping v) woken).

(** The running process has exited. *)
Definition v_exit (v : sview) : option sview :=
  match v_ready v with
  | n :: r => Some (mkView n r (v_blocked v) (v_sleeping v))
  | [] => None
  end.

(** The running process forks the process [c], which runs next. *)
Definition v_fork (c : ptr) (v : sview) : sview :=
  mkView c (v_ready v ++ [v_run v]) (v_blocked v) (v_sleeping v).

(** * Conservation of processes *)

Lemma map_to_list_insert_snd (m : gmap Z ptr) k p : m !! k = None ->
  (map_to_list (<[k := p]> m)).*2 ≡ₚ p :: (map_to_list m).*2.
Proof. intros Hk. by rewrite map_to_list_insert. Qed.

Lemma map_to_list_delete_snd (m : gmap Z ptr) k p : m !! k = Some p ->
  (map_to_list m).*2 ≡ₚ p :: (map_to_list (delete k m)).*2.
Proof. intros Hk. by rewrite <- (map_to_list_delete m k p Hk). Qed.

Lemma v_block_places k v v' : v_blocked v !! k = None -> v_block k v = Some v' -> places v' ≡ₚ places v.
Proof.
  destruct v as [run [|n r] b sl]; intros Hk Hv; [done|]. injection Hv as <-. unfold places. cbn in *.
  rewrite map_to_list_insert_snd by done. solve_Permutation.
Qed.

Lemma v_sleep_places k v v' : v_sleeping v !! k = None -> v_sleep k v = Some v' -> places v' ≡ₚ places v.
Proof.
  destruct v as [run [|n r] b sl]; intros Hk Hv; [done|]. injection Hv as <-. unfold places. cbn in *.
  rewrite map_to_list_insert_snd by done. solve_Permutation.
Qed.

Lemma v_kick_places v v' : v_kick v = Some v' -> places v' ≡ₚ places v.
Proof.
  destruct v as [run [|n r] b sl]; intros Hv; [done|]. injection Hv as <-. unfold places. cbn in *.
  solve_Permutation.
Qed.

Lemma v_unblock_places k v : places (v_unblock k v) ≡ₚ places v.
Proof.
  unfold v_unblock. destruct (v_blocked v !! k) as [p|] eqn:Hk; [|done].
  unfold places. cbn. rewrite (map_to_list_delete_snd _ _ _ Hk). solve_Permutation.
Qed.

Lemma v_exit_places v v' : v_exit v = Some v' -> places v ≡ₚ v_run v :: places v'.
Proof.
  destruct v as [run [|n r] b sl]; intros Hv; [done|]. injection Hv as <-. unfold places. cbn.
  solve_Permutation.
Qed.

Lemma v_fork_places c v : places (v_fork c v) ≡ₚ c :: places v.
Proof. unfold places. cbn. solve_Permutation. Qed.

Lemma lookup_delete_woken (woken : list (Z * ptr)) (m : gmap Z ptr) k :
  foldr (fun kp m => delete kp.1 m) m woken !! k = if decide (k ∈ woken.*1) then None else m !! k.
Proof.
  induction woken as [|[k' p] woken IH]; cbn [foldr fmap list_fmap fst].
  - by rewrite decide_False by set_solver.
  - destruct (decide (k' = k)) as [->|Hne].
    + rewrite lookup_delete_eq, decide_True; [done|set_solver].
    + rewrite lookup_delete_ne, IH by done. case_decide; case_decide; set_solver.
Qed.

Lemma v_wake_snoc woken kp v : v_wake [kp] (v_wake woken v) = v_wake (woken ++ [kp]) v.
Proof.
  unfold v_wake. cbn [v_run v_ready v_blocked v_sleeping]. f_equal.
  - by rewrite fmap_app, (assoc_L (++)).
  - change (delete kp.1 (foldr (fun kp m => delete kp.1 m) (v_sleeping v) woken) =
      foldr (fun kp m => delete kp.1 m) (v_sleeping v) (woken ++ [kp])).
    apply map_eq. intros k. rewrite lookup_delete_woken, fmap_app, lookup_delete, lookup_delete_woken. cbn.
    repeat case_decide; set_solver.
Qed.

Lemma v_wake_nil v : v_wake [] v = v.
Proof. destruct v. unfold v_wake. cbn. by rewrite app_nil_r. Qed.

Lemma v_wake_places woken v : NoDup woken.*1 ->
  (forall k p, (k, p) ∈ woken -> v_sleeping v !! k = Some p) -> places (v_wake woken v) ≡ₚ places v.
Proof.
  intros Hnd Hin.
  assert ((map_to_list (v_sleeping v)).*2 ≡ₚ
    woken.*2 ++ (map_to_list (foldr (fun kp m => delete kp.1 m) (v_sleeping v) woken)).*2) as Hp.
  { induction woken as [|[k p] woken IH]; [done|]. cbn -[map_to_list] in *.
    apply NoDup_cons in Hnd as [Hk Hnd]. rewrite IH by set_solver.
    rewrite (map_to_list_delete_snd (foldr _ _ woken) k p); [solve_Permutation|].
    rewrite lookup_delete_woken, decide_False by done. apply Hin. set_solver. }
  unfold places. cbn -[map_to_list]. rewrite Hp. solve_Permutation.
Qed.

(** * The processes are in order *)

(** The pids of the processes that exist. *)
Definition pids (m : gmap ptr PCB_t) : gmap ptr Z := pid <$> m.

(** Every process is at one place at most, exists, and the maps hold it under
    its pid; pids are different and not negative. *)
Record procs_ok (ps : gmap ptr Z) (v : sview) : Prop := {
  po_nodup : NoDup (places v);
  po_dom p : p ∈ places v -> is_Some (ps !! p);
  po_blocked k p : v_blocked v !! k = Some p -> ps !! p = Some k;
  po_sleeping k p : v_sleeping v !! k = Some p -> ps !! p = Some k;
  po_inj p q k : ps !! p = Some k -> ps !! q = Some k -> p = q;
  po_pos p k : ps !! p = Some k -> 0 <= k
}.

Lemma blocked_in_places v k p : v_blocked v !! k = Some p -> p ∈ places v.
Proof.
  intros Hk%elem_of_map_to_list. unfold places. rewrite elem_of_cons, !elem_of_app. right. right. left.
  apply list_elem_of_fmap. by exists (k, p).
Qed.
Lemma sleeping_in_places v k p : v_sleeping v !! k = Some p -> p ∈ places v.
Proof.
  intros Hk%elem_of_map_to_list. unfold places. rewrite elem_of_cons, !elem_of_app. right. right. right.
  apply list_elem_of_fmap. by exists (k, p).
Qed.
Lemma run_in_places v : v_run v ∈ places v.
Proof. unfold places. set_solver. Qed.
Lemma ready_in_places v p : p ∈ v_ready v -> p ∈ places v.
Proof. unfold places. set_solver. Qed.

Section procs.
Context (ps : gmap ptr Z) (v : sview) (Hok : procs_ok ps v).

(** The running process is neither blocked nor asleep nor ready. *)
Lemma run_not_blocked k : ps !! v_run v = Some k -> v_blocked v !! k = None.
Proof.
  intros Hk. apply eq_None_not_Some. intros [p Hp]. pose proof (po_blocked _ _ Hok _ _ Hp) as Hpk.
  assert (p = v_run v) as -> by (by eapply po_inj).
  pose proof (po_nodup _ _ Hok) as Hnd. unfold places in Hnd. apply NoDup_cons in Hnd as [Hni _].
  apply Hni. rewrite !elem_of_app. right. left. apply list_elem_of_fmap.
  exists (k, v_run v). split; [done|]. by apply elem_of_map_to_list.
Qed.
Lemma run_not_sleeping k : ps !! v_run v = Some k -> v_sleeping v !! k = None.
Proof.
  intros Hk. apply eq_None_not_Some. intros [p Hp]. pose proof (po_sleeping _ _ Hok _ _ Hp) as Hpk.
  assert (p = v_run v) as -> by (by eapply po_inj).
  pose proof (po_nodup _ _ Hok) as Hnd. unfold places in Hnd. apply NoDup_cons in Hnd as [Hni _].
  apply Hni. rewrite !elem_of_app. right. right. apply list_elem_of_fmap.
  exists (k, v_run v). split; [done|]. by apply elem_of_map_to_list.
Qed.
Lemma run_not_ready : v_run v ∉ v_ready v.
Proof.
  pose proof (po_nodup _ _ Hok) as Hnd. unfold places in Hnd. apply NoDup_cons in Hnd as [Hni _].
  intros Hin. apply Hni. rewrite elem_of_app. by left.
Qed.

Lemma procs_ok_perm v' : places v' ≡ₚ places v ->
  (forall k p, v_blocked v' !! k = Some p -> ps !! p = Some k) ->
  (forall k p, v_sleeping v' !! k = Some p -> ps !! p = Some k) -> procs_ok ps v'.
Proof.
  intros Hp Hb Hs. destruct Hok. split; try done.
  - by rewrite Hp.
  - intros p. rewrite Hp. auto.
Qed.

Lemma procs_ok_block k v' : ps !! v_run v = Some k -> v_block k v = Some v' -> procs_ok ps v'.
Proof.
  intros Hk Hv. apply procs_ok_perm.
  - eapply v_block_places; [by apply run_not_blocked|done].
  - unfold v_block in Hv. destruct (v_ready v); [done|]. simplify_eq/=.
    intros j p [[<- <-]|[_ Hj]]%lookup_insert_Some; [done|]. by eapply po_blocked.
  - unfold v_block in Hv. destruct (v_ready v); [done|]. simplify_eq/=. apply (po_sleeping _ _ Hok).
Qed.

Lemma procs_ok_sleep k v' : ps !! v_run v = Some k -> v_sleep k v = Some v' -> procs_ok ps v'.
Proof.
  intros Hk Hv. apply procs_ok_perm.
  - eapply v_sleep_places; [by apply run_not_sleeping|done].
  - unfold v_sleep in Hv. destruct (v_ready v); [done|]. simplify_eq/=. apply (po_blocked _ _ Hok).
  - unfold v_sleep in Hv. destruct (v_ready v); [done|]. simplify_eq/=.
    intros j p [[<- <-]|[_ Hj]]%lookup_insert_Some; [done|]. by eapply po_sleeping.
Qed.

Lemma procs_ok_kick v' : v_kick v = Some v' -> procs_ok ps v'.
Proof.
  intros Hv. apply procs_ok_perm.
  - by apply v_kick_places.
  - unfold v_kick in Hv. destruct (v_ready v); [done|]. simplify_eq/=. apply (po_blocked _ _ Hok).
  - unfold v_kick in Hv. destruct (v_ready v); [done|]. simplify_eq/=. apply (po_sleeping _ _ Hok).
Qed.

Lemma procs_ok_unblock k : procs_ok ps (v_unblock k v).
Proof.
  apply procs_ok_perm; [apply v_unblock_places| |]; unfold v_unblock; case_match; cbn;
    try apply (po_blocked _ _ Hok); try apply (po_sleeping _ _ Hok).
  intros j p [_ Hj]%lookup_delete_Some. by eapply po_blocked.
Qed.

Lemma procs_ok_wake woken : NoDup woken.*1 ->
  (forall k p, (k, p) ∈ woken -> v_sleeping v !! k = Some p) -> procs_ok ps (v_wake woken v).
Proof.
  intros Hnd Hin. apply procs_ok_perm; [by apply v_wake_places|apply (po_blocked _ _ Hok)|].
  cbn. intros k p. rewrite lookup_delete_woken. case_decide; [done|]. apply (po_sleeping _ _ Hok).
Qed.

Lemma procs_ok_exit v' : v_exit v = Some v' -> procs_ok (delete (v_run v) ps) v'.
Proof.
  intros Hv. pose proof (v_exit_places _ _ Hv) as Hpl. destruct Hok as [Hnd Hdom Hb Hs Hinj Hpos].
  rewrite Hpl in Hnd. apply NoDup_cons in Hnd as [Hni Hnd].
  assert (forall p, p ∈ places v' -> p <> v_run v) as Hne by (intros p ? ->; done).
  assert (v_blocked v' = v_blocked v /\ v_sleeping v' = v_sleeping v) as [Hb' Hs'].
  { unfold v_exit in Hv. destruct (v_ready v); [done|]. by simplify_eq/=. }
  split; [done|..].
  - intros p Hp. rewrite lookup_delete_ne by (intros He; by apply (Hne p)).
    apply Hdom. rewrite Hpl. set_solver.
  - intros k p Hk. rewrite lookup_delete_ne; [by apply (Hb k); rewrite <- Hb'|]. intros He.
    apply (Hne p); [|done]. apply elem_of_map_to_list in Hk. unfold places. rewrite elem_of_cons, !elem_of_app.
    right. right. left. apply list_elem_of_fmap. by exists (k, p).
  - intros k p Hk. rewrite lookup_delete_ne; [by apply (Hs k); rewrite <- Hs'|]. intros He.
    apply (Hne p); [|done]. apply elem_of_map_to_list in Hk. unfold places. rewrite elem_of_cons, !elem_of_app.
    right. right. right. apply list_elem_of_fmap. by exists (k, p).
  - intros p q k [_ Hp]%lookup_delete_Some [_ Hq]%lookup_delete_Some. by eapply Hinj.
  - intros p k [_ Hp]%lookup_delete_Some. by eapply Hpos.
Qed.

(** The number of processes the scheduler keeps. *)
Lemma blocked_run_ne k p : v_blocked v !! k = Some p -> p <> v_run v.
Proof.
  intros Hk ->. pose proof (po_blocked _ _ Hok _ _ Hk) as Hp.
  by rewrite (run_not_blocked _ Hp) in Hk.
Qed.
End procs.

(** Members of a PCB other than its pid do not matter. *)
Lemma pids_insert m p x x' : m !! p = Some x -> pid x' = pid x -> pids (<[p := x']> m) = pids m.
Proof.
  intros Hp Hx. unfold pids. rewrite fmap_insert, Hx. apply insert_id. by rewrite lookup_fmap, Hp.
Qed.
Lemma pids_alter m p f : (forall x, pid (f x) = pid x) -> pids (alter f p m) = pids m.
Proof.
  intros Hf. apply map_eq. intros q. unfold pids. rewrite !lookup_fmap, lookup_alter.
  case_decide; [subst|done]. destruct (m !! _); cbn; [by rewrite Hf|done].
Qed.
Lemma lookup_pids m p k : pids m !! p = Some k <-> exists x, m !! p = Some x /\ pid x = k.
Proof. unfold pids. rewrite lookup_fmap. destruct (m !! p); naive_solver. Qed.
