(* ===== verification/SchedLaws.v ===== *)
(** The functions of Scheduler.c implement the abstract scheduler of
    SchedView, and keep the kernel's invariant [kernel_ok].

    The theorems are proved against the interfaces of the queues and maps, for
    every implementation that satisfies their laws. *)

From stdpp Require Import base gmap list.
From S2P Require Import Prelude Hardware Queue HashMap FrameList PageTable State Scheduler SwitchLaws SchedView.

(** The state with one PCB, or one lock or pipe, rewritten. *)
Definition upd_pcb {QH MH} (p : ptr) (x : PCB_t) (s : kst QH MH) : kst QH MH :=
  with_obj (with_pcbs (<[p := x]> (pcbs (k_obj s))) (k_obj s)) s.
Definition upd_lock {QH MH} (p : ptr) (x : lock_t) (s : kst QH MH) : kst QH MH :=
  with_obj (with_locks (<[p := x]> (locks (k_obj s))) (k_obj s)) s.
Definition upd_pipe {QH MH} (p : ptr) (x : pipe_t) (s : kst QH MH) : kst QH MH :=
  with_obj (with_pipes (<[p := x]> (pipes (k_obj s))) (k_obj s)) s.

Section laws.
Context {QH MH : Type} `{HL : HardwareLaws} `{QO : QueueOps QH} `{MO : MapOps MH}
  `{QL : !QueueLaws QH} `{ML : !MapLaws MH}.
Abbreviation kst := (kst QH MH).
Implicit Types s : kst.

(** ** The invariant *)

(** The members of a PCB are in order: a kernel stack, an allocated page table
    for region 1 that is not that of region 0. *)
Record pcb_ok (t : pt) (t0 : ptr) (x : PCB_t) : Prop := {
  pk_stack : exists fs, has_stack x fs;
  pk_r1 : exists r1, r1PageTable x = Some r1 /\ table t r1 /\ apart t0 r1;
  pk_children : is_Some (childrenMap x);
  pk_zombies : is_Some (zombieQ x)
}.

(** The machine and the PCBs: only the running process's context is live, all
    other processes have a saved context or none yet. *)
Record sys_ok (s : kst) (t0 : ptr) : Prop := {
  so_mmu : mmu_ok s t0;
  so_mem : mem_ok s;
  so_starter : starter_ok s;
  so_pcb p x : pcbs (k_obj s) !! p = Some x -> pcb_ok (k_pt s) t0 x;
  so_kctxt p x : pcbs (k_obj s) !! p = Some x -> p <> currPCB (k_sched s) ->
    kctxt x = Some KNull \/ exists kc, kctxt x = Some (KSaved kc)
}.

(** The running process has its kernel stack and its region 1 mapped. *)
Definition running_ok (s : kst) (t0 : ptr) : Prop :=
  exists x fs r1, pcbs (k_obj s) !! currPCB (k_sched s) = Some x /\ has_kctxt x /\
    has_stack x fs /\ stack_mapped (k_pt s) t0 fs /\
    r1PageTable x = Some r1 /\ REG_PTBR1 (k_pt s) = r1.

(** The scheduler's globals, queues and maps show the view [v]; [qs] and [ms]
    are all the queues and maps of the kernel. *)
Record sched_rep (s : kst) (qs : gmap ptr (list ptr)) (ms : gmap ptr (gmap Z ptr)) (v : sview) : Prop := {
  sr_q : q_rep (k_qh s) qs;
  sr_m : m_rep (k_mh s) ms;
  sr_qplenty : q_plenty (k_qh s);
  sr_mplenty : m_plenty (k_mh s);
  sr_run : currPCB (k_sched s) = v_run v;
  sr_ready : qs !! readyQ (k_sched s) = Some (v_ready v);
  sr_blocked : ms !! blockedMap (k_sched s) = Some (v_blocked v);
  sr_sleeping : ms !! sleepingMap (k_sched s) = Some (v_sleeping v);
  sr_maps : blockedMap (k_sched s) <> sleepingMap (k_sched s)
}.

(** The invariant of the kernel. *)
Record kernel_ok (s : kst) (t0 : ptr) (qs : gmap ptr (list ptr)) (ms : gmap ptr (gmap Z ptr))
    (v : sview) : Prop := {
  ko_sys : sys_ok s t0;
  ko_running : running_ok s t0;
  ko_sched : sched_rep s qs ms v;
  ko_procs : procs_ok (pids (pcbs (k_obj s))) v
}.

(** ** Framing *)

(** [sys_ok] does not look at the queues, the maps, the frames, the contents
    of memory. *)
Lemma sys_ok_ext s s' t0 : k_pt s' = k_pt s -> pcbs (k_obj s') = pcbs (k_obj s) ->
  o_arena (k_obj s') = o_arena (k_obj s) -> k_glob s' = k_glob s ->
  currPCB (k_sched s') = currPCB (k_sched s) -> sys_ok s t0 -> sys_ok s' t0.
Proof.
  intros Hpt Hobj Ha Hg Hc [[] [] Hst Hp Hk].
  split; [split; congruence|split; rewrite ?Hobj, ?Ha; done| |rewrite Hpt, Hobj; done|rewrite Hobj, Hc; done].
  unfold starter_ok in *. by rewrite Hg.
Qed.
Lemma running_ok_ext s s' t0 : k_pt s' = k_pt s -> pcbs (k_obj s') = pcbs (k_obj s) ->
  currPCB (k_sched s') = currPCB (k_sched s) -> running_ok s t0 -> running_ok s' t0.
Proof. intros Hpt Hobj Hc. unfold running_ok. by rewrite Hpt, Hobj, Hc. Qed.

(** Two PCBs that agree on the members the invariant looks at. *)
Definition same_process (x y : PCB_t) : Prop :=
  pid x = pid y /\ kctxt x = kctxt y /\ stackPfns x = stackPfns y /\ r1PageTable x = r1PageTable y /\
  childrenMap x = childrenMap y /\ is_Some (zombieQ x).

Lemma has_stack_ext x y fs : stackPfns x = stackPfns y -> has_stack y fs -> has_stack x fs.
Proof. unfold has_stack. by intros ->. Qed.

Lemma pcb_ok_ext t t0 x y : same_process x y -> pcb_ok t t0 y -> pcb_ok t t0 x.
Proof.
  intros (_ & _ & Hst & Hr & Hc & Hz) [[fs Hfs] Hr1 Hcm _]. split; [|by rewrite Hr|by rewrite Hc|done].
  exists fs. by eapply has_stack_ext.
Qed.

Lemma pcb_ok_upd P t t' t0 x : pt_upd P t t' -> pcb_ok t t0 x -> pcb_ok t' t0 x.
Proof.
  intros Hu [? (r1 & ? & ? & ?) ? ?]. split; try done. exists r1. split_and!; try done. by eapply pt_upd_table.
Qed.

Lemma sys_ok_upd_pcb s t0 p x y : sys_ok s t0 -> pcbs (k_obj s) !! p = Some y -> same_process x y ->
  sys_ok (upd_pcb p x s) t0.
Proof.
  intros [[] [? ? Hlt] Hst Hp Hk] Hy Hxy. split; [by split| |done|..].
  - split; cbn; [done..|]. intros q [->|[_ Hq]]%lookup_insert_is_Some; [by apply Hlt; exists y|by apply Hlt].
  - cbn. intros q z [[<- <-]|[_ Hq]]%lookup_insert_Some; [|by eapply Hp].
    eapply pcb_ok_ext; [done|]. by eapply Hp.
  - cbn. intros q z [[<- <-]|[_ Hq]]%lookup_insert_Some Hne; [|by eapply Hk].
    destruct Hxy as (_ & -> & _). by eapply Hk.
Qed.

Lemma running_ok_upd_pcb s t0 p x y : running_ok s t0 -> pcbs (k_obj s) !! p = Some y ->
  same_process x y -> running_ok (upd_pcb p x s) t0.
Proof.
  intros (z & fs & r1 & Hz & Hkc & Hfs & Hmap & Hr1 & Hreg) Hy (_ & Hk & Hst & Hr & _).
  destruct (decide (p = currPCB (k_sched s))) as [->|Hne].
  - simplify_eq. exists x, fs, (REG_PTBR1 (k_pt s)). split; [apply lookup_insert_eq|].
    split_and!; try done; [by unfold has_kctxt; rewrite Hk|by eapply has_stack_ext|congruence].
  - exists z, fs, r1. split; [cbn; by rewrite lookup_insert_ne|done].
Qed.

(** ** Running the next process *)

(** What is left of the caller when [next] gets the processor: [s] is the
    state in which the caller gave it away at the point [k]. *)
Definition gave (t0 : ptr) (s : kst) (cur : ptr) (k : kcont) (next : ptr) (kc : KernelContext) (s' : kst) : Prop :=
  exists x fs, pcbs (k_obj s) !! next = Some x /\ next_kctxt s x kc /\ has_stack x fs /\
    switched t0 s cur (mkKctxt k (k_frame s)) next x kc fs s'.

Lemma mem_ok_switched t0 s cur kcur next x kc fs s' : mem_ok s -> is_Some (pcbs (k_obj s) !! next) ->
  switched t0 s cur kcur next x kc fs s' -> mem_ok s'.
Proof.
  intros [Hpl Hpos Hlt] Hn Hsw. pose proof (sw_brk _ _ _ _ _ _ _ _ _ Hsw) as Hbrk. split.
  - by apply (sw_plenty _ _ _ _ _ _ _ _ _ Hsw).
  - lia.
  - intros p. rewrite (sw_pcbs _ _ _ _ _ _ _ _ _ Hsw).
    intros [->|[_ Hp]]%lookup_insert_is_Some; [apply Hlt in Hn; lia|].
    assert (is_Some (pcbs (k_obj s) !! p)) as ?%Hlt; [|lia].
    unfold saved in Hp. case_match; [done|]. by apply lookup_alter_is_Some in Hp.
Qed.

Lemma lookup_saved m cur kcur p x : saved cur kcur m !! p = Some x ->
  exists y, m !! p = Some y /\
    (x = y /\ (p <> cur \/ cur = NULL) \/ p = cur /\ x = with_kctxt (KSaved kcur) y).
Proof.
  unfold saved. destruct (Z.eqb_spec cur NULL); [by exists x; auto|].
  rewrite lookup_alter_Some. naive_solver.
Qed.

Lemma sys_ok_switched t0 s cur kcur next x kc fs s' : sys_ok s t0 ->
  pcbs (k_obj s) !! next = Some x -> has_stack x fs ->
  (cur = NULL /\ pcbs (k_obj s) !! currPCB (k_sched s) = None \/ cur = currPCB (k_sched s)) ->
  switched t0 s cur kcur next x kc fs s' -> sys_ok s' t0 /\ running_ok s' t0.
Proof.
  intros [[Hvm Hb Ht Ha] Hmem Hst Hp Hk] Hx Hfs Hcur Hsw.
  pose proof Hsw as [Hsched Hpcbs _ _ _ _ _ _ _ _ Hglob (t' & r1 & Hupd & Hr1 & Hpt) Hmapped _ _ _ _].
  assert (forall y, pcb_ok (k_pt s) t0 y -> pcb_ok (k_pt s') t0 y) as Hpk.
  { intros y Hy. rewrite Hpt. destruct (pcb_ok_upd _ _ _ _ _ Hupd Hy) as [? ? ? ?]. by split. }
  split.
  - split.
    + split; [|congruence..]. rewrite Hpt. destruct (pt_upd_vm0 _ _ _ _ Hupd Hvm). by split.
    + eapply mem_ok_switched; [done|by exists x|done].
    + unfold starter_ok in *. by rewrite Hglob.
    + intros p y. rewrite Hpcbs. intros [[<- <-]|[_ Hy]]%lookup_insert_Some.
      * apply Hpk. by destruct (Hp _ _ Hx).
      * apply Hpk. apply lookup_saved in Hy as (z & Hz & [[-> _]|[-> ->]]); [by eapply Hp|].
        by destruct (Hp _ _ Hz).
    + intros p y. rewrite Hpcbs, Hsched. cbn. intros [[<- <-]|[_ Hy]]%lookup_insert_Some Hne; [done|].
      apply lookup_saved in Hy as (z & Hz & [[-> Hpc]|[-> ->]]); [|by right; eexists].
      destruct (decide (p = currPCB (k_sched s))) as [->|Hne']; [|by eapply Hk].
      destruct Hcur as [[_ Hnone]| ->]; [by simplify_eq|]. exfalso.
      destruct Hpc as [|Hz0]; [done|]. pose proof (mem_pcbs _ Hmem _ (mk_is_Some _ _ Hz)). lia.
  - exists (with_kctxt (KSaved kc) x), fs, r1. rewrite Hpcbs, Hsched. cbn.
    rewrite lookup_insert_eq. split_and!; try done; [right; by eexists|by rewrite Hpt].
Qed.

Lemma pids_switched t0 s cur kcur next x kc fs s' : pcbs (k_obj s) !! next = Some x -> next <> cur ->
  switched t0 s cur kcur next x kc fs s' -> pids (pcbs (k_obj s')) = pids (pcbs (k_obj s)).
Proof.
  intros Hx Hne Hsw. rewrite (sw_pcbs _ _ _ _ _ _ _ _ _ Hsw).
  rewrite (pids_insert _ _ x) by (try rewrite lookup_saved_ne; done).
  unfold saved. case_match; [done|]. by apply pids_alter.
Qed.

(** The context of a process that is not running. *)
Lemma next_kctxt_ok s t0 n x : sys_ok s t0 -> pcbs (k_obj s) !! n = Some x -> n <> currPCB (k_sched s) ->
  exists kc, next_kctxt s x kc.
Proof.
  intros Hok Hx Hn. destruct (so_kctxt _ _ Hok _ _ Hx Hn) as [Hk|[kc Hk]]; [|by exists kc; left].
  destruct (so_starter _ _ Hok) as (kc & st & Hkc & Hst). exists kc. right.
  split_and!; [done|done|apply Hok|apply Hok].
Qed.

(** Who gives the processor away: the running process, or one that was just
    deleted ([exitProcess]). *)
Definition giver (s : kst) (t0 cur : ptr) : Prop :=
  cur = NULL /\ pcbs (k_obj s) !! currPCB (k_sched s) = None \/
  cur = currPCB (k_sched s) /\ running_ok s t0.

Lemma switch_ok s t0 cur k n x : sys_ok s t0 -> giver s t0 cur ->
  pcbs (k_obj s) !! n = Some x -> n <> currPCB (k_sched s) ->
  exists kc s', KernelContextSwitch (switchBetween cur n) k s = Switch kc s' /\
    sys_ok s' t0 /\ running_ok s' t0 /\ pids (pcbs (k_obj s')) = pids (pcbs (k_obj s)) /\
    gave t0 s cur k n kc s'.
Proof.
  intros Hok Hcur Hx Hn. pose proof (mem_pcbs _ (so_mem _ _ Hok) _ (mk_is_Some _ _ Hx)) as Hnpos.
  assert (cur <> n) as Hne by (destruct Hcur as [[-> _]|[-> _]]; [lia|done]).
  destruct (so_pcb _ _ Hok _ _ Hx) as [[fs Hfs] (r1 & Hr1 & (Hr1p & Hr1l & _) & _) _ _].
  destruct (next_kctxt_ok s t0 n x Hok Hx Hn) as [kc Hkc].
  destruct (switchBetween_ok s t0 cur (mkKctxt k (k_frame s)) n x kc fs r1) as (s' & Hrun & Hsw); try done.
  { apply Hok. }
  { intros Hnz. destruct Hcur as [[-> _]|[-> (xc & _ & _ & Hxc & Hk & _)]]; [done|]. by exists xc. }
  { pose proof MAX_PT_LEN_pos. pose proof PTE_SIZE_pos. nia. }
  exists kc, s'. split; [unfold KernelContextSwitch; by rewrite Hrun|].
  assert (cur = NULL /\ pcbs (k_obj s) !! currPCB (k_sched s) = None \/ cur = currPCB (k_sched s)) as Hcur'
    by (destruct Hcur as [?|[? _]]; auto).
  destruct (sys_ok_switched t0 s cur _ n x kc fs s' Hok Hx Hfs Hcur' Hsw) as [Hok' Hrok].
  split; [done|]. split; [done|]. split; [|by exists x, fs].
  eapply pids_switched; [done| |done]. congruence.
Qed.

Lemma sched_rep_switched t0 s cur k n kc s' qs ms v : gave t0 s cur k n kc s' ->
  sched_rep s qs ms v -> sched_rep s' qs ms (mkView n (v_ready v) (v_blocked v) (v_sleeping v)).
Proof.
  intros (x & fs & _ & _ & _ & [Hsched _ _ _ _ _ _ Hq Hm _ _ _ _ _ _ _ _]) [].
  split; rewrite ?Hq, ?Hm, ?Hsched; done.
Qed.

(** [sched_rep] does not look at the objects, the machine, memory. *)
Lemma sched_rep_ext s s' qs ms v : k_qh s' = k_qh s -> k_mh s' = k_mh s -> k_sched s' = k_sched s ->
  sched_rep s qs ms v -> sched_rep s' qs ms v.
Proof. intros Hq Hm Hc []. split; rewrite ?Hq, ?Hm, ?Hc; done. Qed.

(** A change of the queue heap that leaves the ready queue with [l]. *)
Lemma sched_rep_qh s qs ms v h qs' l : sched_rep s qs ms v -> q_rep h qs' -> q_plenty h ->
  qs' !! readyQ (k_sched s) = Some l ->
  sched_rep (with_qh h s) qs' ms (mkView (v_run v) l (v_blocked v) (v_sleeping v)).
Proof. intros [] ???. by split. Qed.

Lemma sched_rep_readyQ_ne s qs ms v : sched_rep s qs ms v -> readyQ (k_sched s) <> NULL.
Proof.
  intros Hs He. pose proof (sr_ready _ _ _ _ Hs) as Hr. rewrite He in Hr.
  by rewrite (q_rep_NULL _ _ (sr_q _ _ _ _ Hs)) in Hr.
Qed.

(** The head of the ready queue runs next. *)
Lemma run_next_ok s t0 qs ms v cur k n r : sys_ok s t0 -> giver s t0 cur -> sched_rep s qs ms v ->
  v_ready v = n :: r -> is_Some (pcbs (k_obj s) !! n) -> n <> currPCB (k_sched s) ->
  exists kc s' h, run_next cur k s = Switch kc s' /\ sys_ok s' t0 /\ running_ok s' t0 /\
    sched_rep s' (<[readyQ (k_sched s) := r]> qs) ms (mkView n r (v_blocked v) (v_sleeping v)) /\
    pids (pcbs (k_obj s')) = pids (pcbs (k_obj s)) /\
    gave t0 (with_qh h s) cur k n kc s'.
Proof.
  intros Hok Hcur Hrep Hready [x Hx] Hn. pose proof (sr_ready _ _ _ _ Hrep) as Hq. rewrite Hready in Hq.
  destruct (deq_q_cons _ _ _ _ _ (sr_q _ _ _ _ Hrep) Hq) as (h & Hdeq & Hpl & Hqr).
  unfold run_next. kmon. erewrite bind_Ret by (by apply lift_qh). cbv beta.
  pose proof (mem_pcbs _ (so_mem _ _ Hok) _ (mk_is_Some _ _ Hx)) as Hnpos.
  destruct (Z.eqb_spec n NULL); [lia|].
  assert (sys_ok (with_qh h s) t0) as Hok' by (by apply (sys_ok_ext s)).
  assert (giver (with_qh h s) t0 cur) as Hcur'.
  { destruct Hcur as [?|[? ?]]; [by left|right]. split; [done|]. by apply (running_ok_ext s). }
  destruct (switch_ok (with_qh h s) t0 cur k n x Hok' Hcur' Hx Hn) as (kc & s' & Hsw & Hs' & Hrun' & Hpids & Hgave).
  exists kc, s', h. split; [exact Hsw|]. split; [done|]. split; [done|]. split; [|done].
  eapply (sched_rep_switched _ _ _ _ _ _ _ _ _ (mkView _ r _ _)); [done|].
  eapply sched_rep_qh; [done|done|by apply Hpl, (sr_qplenty _ _ _ _ Hrep)|apply lookup_insert_eq].
Qed.

Lemma run_next_empty s qs ms v cur k : sched_rep s qs ms v -> v_ready v = [] -> run_next cur k s = Ret ERROR s.
Proof.
  intros Hrep Hready. pose proof (sr_ready _ _ _ _ Hrep) as Hq. rewrite Hready in Hq.
  unfold run_next. kmon. erewrite bind_Ret by (apply lift_qh, (deq_q_nil _ _ _ (sr_q _ _ _ _ Hrep) Hq)).
  cbv beta. cbn. by destruct s.
Qed.

(** ** The functions *)

Lemma running_lookup s t0 qs ms v : kernel_ok s t0 qs ms v ->
  exists x, pcbs (k_obj s) !! v_run v = Some x /\ 0 <= pid x.
Proof.
  intros [_ (x & fs & r1 & Hx & _) Hs Hp]. rewrite (sr_run _ _ _ _ Hs) in Hx. exists x. split; [done|].
  eapply (po_pos _ _ Hp (v_run v)). apply lookup_pids. by exists x.
Qed.

Lemma places_lookup s t0 qs ms v p : kernel_ok s t0 qs ms v -> p ∈ places v ->
  is_Some (pcbs (k_obj s) !! p).
Proof.
  intros Hok Hp. apply (po_dom _ _ (ko_procs _ _ _ _ _ Hok)) in Hp as [k Hk].
  apply lookup_pids in Hk as (x & Hx & _). by exists x.
Qed.

Lemma ready_head s t0 qs ms v n r : kernel_ok s t0 qs ms v -> v_ready v = n :: r ->
  is_Some (pcbs (k_obj s) !! n) /\ n <> currPCB (k_sched s).
Proof.
  intros Hok Hr. assert (n ∈ v_ready v) as Hin by (rewrite Hr; set_solver). split.
  - eapply places_lookup; [done|]. by eapply ready_in_places.
  - rewrite (sr_run _ _ _ _ (ko_sched _ _ _ _ _ Hok)). intros ->.
    by apply (run_not_ready _ _ (ko_procs _ _ _ _ _ Hok)).
Qed.

(** A change of the map heap. *)
Lemma sched_rep_mh s qs ms v h ms' b sl : sched_rep s qs ms v -> m_rep h ms' -> m_plenty h ->
  ms' !! blockedMap (k_sched s) = Some b -> ms' !! sleepingMap (k_sched s) = Some sl ->
  sched_rep (with_mh h s) qs ms' (mkView (v_run v) (v_ready v) b sl).
Proof. intros [] ????. by split. Qed.

Lemma kernel_ok_switch s s' t0 qs' ms' v' : sys_ok s' t0 -> running_ok s' t0 ->
  sched_rep s' qs' ms' v' -> pids (pcbs (k_obj s')) = pids (pcbs (k_obj s)) ->
  procs_ok (pids (pcbs (k_obj s))) v' -> kernel_ok s' t0 qs' ms' v'.
Proof. intros ??? Hp ?. split; try done. by rewrite Hp. Qed.

(** The running process, already put somewhere else, gives the processor to
    the head of the ready queue. *)
Lemma leave_ok s t0 qs ms cur n r b sl k : sys_ok s t0 -> running_ok s t0 ->
  sched_rep s qs ms (mkView cur (n :: r) b sl) -> n <> cur ->
  procs_ok (pids (pcbs (k_obj s))) (mkView n r b sl) ->
  exists kc s' h, run_next cur k s = Switch kc s' /\
    kernel_ok s' t0 (<[readyQ (k_sched s) := r]> qs) ms (mkView n r b sl) /\
    gave t0 (with_qh h s) cur k n kc s'.
Proof.
  intros Hsys Hrun Hrep Hne Hp. pose proof (sr_run _ _ _ _ Hrep) as Hcur. cbn in Hcur.
  destruct (po_dom _ _ Hp n) as [kn Hkn]; [apply (run_in_places (mkView n r b sl))|].
  apply lookup_pids in Hkn as (x & Hx & _).
  destruct (run_next_ok s t0 qs ms (mkView cur (n :: r) b sl) cur k n r)
    as (kc & s' & h & Hrn & Hsys' & Hrun' & Hrep' & Hpids & Hgave);
    [done|by right|done|done|by exists x|congruence|].
  exists kc, s', h. split; [done|]. split; [|done]. split; try done. by rewrite Hpids.
Qed.

(** Queueing does not fail while memory is plentiful. *)
Lemma enq_ok s qs ms v q l p : sched_rep s qs ms v -> qs !! q = Some l ->
  exists h, lift (enq_q q p) s = Ret 0 (with_qh h s) /\ q_plenty h /\ q_rep h (<[q := l ++ [p]]> qs).
Proof.
  intros Hs Hq. destruct (enq_q_spec _ _ _ _ p (sr_q _ _ _ _ Hs) Hq) as (r & h & Henq & Hpl & Hr).
  exists h. destruct Hr as [(_ & Hnp & _)|[-> Hqr]]; [by destruct Hnp; apply (sr_qplenty _ _ _ _ Hs)|].
  split; [by apply lift_qh|]. split; [by apply Hpl, (sr_qplenty _ _ _ _ Hs)|done].
Qed.

(** The running process can be put into a map under its pid. *)
Lemma insert_running_ok s t0 qs ms v x mp m : kernel_ok s t0 qs ms v ->
  pcbs (k_obj s) !! v_run v = Some x -> ms !! mp = Some m -> m !! pid x = None ->
  exists h, lift (HashMap_insert mp (pid x) (v_run v)) s = Ret 0 (with_mh h s) /\ m_plenty h /\
    m_rep h (<[mp := <[pid x := v_run v]> m]> ms).
Proof.
  intros [Hsys _ Hs Hp] Hx Hmp Hm.
  assert (0 <= pid x) as Hpos by (eapply (po_pos _ _ Hp (v_run v)), lookup_pids; by exists x).
  pose proof (mem_pcbs _ (so_mem _ _ Hsys) _ (mk_is_Some _ _ Hx)) as Hxpos.
  destruct (HashMap_insert_new _ _ _ _ (pid x) (v_run v) (sr_m _ _ _ _ Hs) Hmp Hpos Hm)
    as (r & h & Hins & Hpl & Hr); [lia|].
  exists h. destruct Hr as [(_ & Hnp & _)|[-> Hm']]; [by destruct Hnp; apply (sr_mplenty _ _ _ _ Hs)|].
  split; [by apply lift_mh|]. split; [by apply Hpl, (sr_mplenty _ _ _ _ Hs)|done].
Qed.

(** The first half of [blockProcess]. *)
Lemma block_enter_ok s t0 qs ms v x : kernel_ok s t0 qs ms v -> pcbs (k_obj s) !! v_run v = Some x ->
  exists h, (forall k, blockProcess k s = run_next (v_run v) k (with_mh h s)) /\
    v_blocked v !! pid x = None /\
    sched_rep (with_mh h s) qs (<[blockedMap (k_sched s) := <[pid x := v_run v]> (v_blocked v)]> ms)
      (mkView (v_run v) (v_ready v) (<[pid x := v_run v]> (v_blocked v)) (v_sleeping v)).
Proof.
  intros Hok Hx. pose proof Hok as [_ _ Hs Hp].
  assert (v_blocked v !! pid x = None) as Hnb by (eapply run_not_blocked, lookup_pids; [done|by exists x]).
  destruct (insert_running_ok _ _ _ _ _ _ _ _ Hok Hx (sr_blocked _ _ _ _ Hs) Hnb) as (h & Hins & Hpl & Hm).
  exists h. split; [|split; [done|]].
  - intros k. unfold blockProcess. kmon. rewrite (sr_run _ _ _ _ Hs). step (load_pcb_ok _ _ _ Hx). kmon.
    step Hins. by rewrite eqb_0_ERROR.
  - eapply sched_rep_mh; [done..|apply lookup_insert_eq|].
    rewrite lookup_insert_ne by apply (sr_maps _ _ _ _ Hs). apply (sr_sleeping _ _ _ _ Hs).
Qed.

(** [blockProcess] with a process that is ready. *)
Lemma blockProcess_ok s t0 qs ms v x k v' : kernel_ok s t0 qs ms v ->
  pcbs (k_obj s) !! v_run v = Some x -> v_block (pid x) v = Some v' ->
  exists kc s' h m, blockProcess k s = Switch kc s' /\
    kernel_ok s' t0 (<[readyQ (k_sched s) := v_ready v']> qs)
      (<[blockedMap (k_sched s) := v_blocked v']> ms) v' /\
    gave t0 (with_qh h (with_mh m s)) (v_run v) k (v_run v') kc s'.
Proof.
  intros Hok Hx Hv. pose proof Hok as [Hsys Hrun Hs Hp].
  destruct (block_enter_ok _ _ _ _ _ _ Hok Hx) as (m & -> & _ & Hrep).
  assert (pids (pcbs (k_obj s)) !! v_run v = Some (pid x)) as Hpid by (apply lookup_pids; by exists x).
  pose proof (procs_ok_block _ _ Hp _ _ Hpid Hv) as Hp'. pose proof (run_not_ready _ _ Hp) as Hnr.
  unfold v_block in Hv. destruct (v_ready v) as [|nx rest]; [done|]. injection Hv as <-.
  assert (nx <> v_run v) as Hne by set_solver.
  assert (sys_ok (with_mh m s) t0) as Hsys' by by apply (sys_ok_ext s).
  assert (running_ok (with_mh m s) t0) as Hrun' by by apply (running_ok_ext s).
  destruct (leave_ok _ _ _ _ _ _ _ _ _ k Hsys' Hrun' Hrep Hne Hp') as (kc & s' & h & Hrn & Hok' & Hgave).
  by exists kc, s', h, m.
Qed.

(** With nobody ready, [blockProcess] fails, after it has put the caller,
    which goes on running, into [blockedMap]. *)
Lemma blockProcess_idle s t0 qs ms v x k : kernel_ok s t0 qs ms v ->
  pcbs (k_obj s) !! v_run v = Some x -> v_ready v = [] ->
  exists h, blockProcess k s = Ret ERROR (with_mh h s) /\
    sched_rep (with_mh h s) qs (<[blockedMap (k_sched s) := <[pid x := v_run v]> (v_blocked v)]> ms)
      (mkView (v_run v) [] (<[pid x := v_run v]> (v_blocked v)) (v_sleeping v)).
Proof.
  intros Hok Hx Hready. destruct (block_enter_ok _ _ _ _ _ _ Hok Hx) as (h & -> & _ & Hrep).
  rewrite Hready in Hrep. exists h. split; [|done]. by eapply run_next_empty.
Qed.

(** [kickProcess] with a process that is ready, and with none. *)
Lemma kickProcess_ok s t0 qs ms v k v' : kernel_ok s t0 qs ms v -> v_kick v = Some v' ->
  exists kc s' h, kickProcess k s = Switch kc s' /\
    kernel_ok s' t0 (<[readyQ (k_sched s) := v_ready v']> qs) ms v' /\
    gave t0 (with_qh h s) (v_run v) k (v_run v') kc s'.
Proof.
  intros Hok Hv. pose proof Hok as [Hsys Hrun Hs Hp]. unfold kickProcess. kmon.
  pose proof (sched_rep_readyQ_ne _ _ _ _ Hs) as Hqne. destruct (Z.eqb_spec (readyQ (k_sched s)) NULL); [done|].
  pose proof (procs_ok_kick _ _ Hp _ Hv) as Hp'. pose proof (run_not_ready _ _ Hp) as Hnr.
  unfold v_kick in Hv. destruct (v_ready v) as [|nx rest] eqn:Hready; [done|]. injection Hv as <-.
  pose proof (sr_ready _ _ _ _ Hs) as Hq. rewrite Hready in Hq.
  erewrite bind_Ret by (apply lift_qh, (peek_q_spec _ _ _ _ (sr_q _ _ _ _ Hs) Hq)). cbv beta.
  rewrite with_qh_id. change (default NULL (head (nx :: rest))) with nx.
  destruct (ready_head _ _ _ _ _ _ _ Hok Hready) as [[xn Hxn] Hne].
  pose proof (mem_pcbs _ (so_mem _ _ Hsys) _ (mk_is_Some _ _ Hxn)). destruct (Z.eqb_spec nx NULL); [lia|].
  kmon. rewrite (sr_run _ _ _ _ Hs).
  destruct (enq_ok _ _ _ _ _ _ (v_run v) Hs Hq) as (h & Henq & Hpl & Hqr). step Henq. rewrite eqb_0_ERROR.
  assert (nx <> v_run v) as Hne' by set_solver.
  assert (sys_ok (with_qh h s) t0) as Hsys' by by apply (sys_ok_ext s).
  assert (running_ok (with_qh h s) t0) as Hrun' by by apply (running_ok_ext s).
  pose proof (sched_rep_qh _ _ _ _ _ _ _ Hs Hqr Hpl (lookup_insert_eq _ _ _)) as Hrep.
  destruct (leave_ok _ _ _ _ _ _ _ _ _ k Hsys' Hrun' Hrep Hne' Hp') as (kc & s' & hq & Hrn & Hok' & Hgave).
  exists kc, s', hq. split; [done|]. split; [|done]. cbn in Hok'. by rewrite insert_insert_eq in Hok'.
Qed.

Lemma kickProcess_idle s t0 qs ms v k : kernel_ok s t0 qs ms v -> v_ready v = [] ->
  kickProcess k s = Ret SUCCESS s.
Proof.
  intros [_ _ Hs _] Hready. unfold kickProcess. kmon.
  pose proof (sched_rep_readyQ_ne _ _ _ _ Hs) as Hqne. destruct (Z.eqb_spec (readyQ (k_sched s)) NULL); [done|].
  pose proof (sr_ready _ _ _ _ Hs) as Hq. rewrite Hready in Hq.
  erewrite bind_Ret by (apply lift_qh, (peek_q_spec _ _ _ _ (sr_q _ _ _ _ Hs) Hq)). cbv beta. cbn.
  by destruct s.
Qed.

(** ** Sleeping *)

Lemma update_pcb_upd s p f x : pcbs (k_obj s) !! p = Some x ->
  update_pcb p f s = Ret tt (upd_pcb p (f x) s).
Proof. apply update_pcb_ok. Qed.

Lemma same_process_ticks t0 pt x n : pcb_ok pt t0 x -> same_process (with_ticks n x) x.
Proof. intros []. by repeat split. Qed.

(** Rewriting a PCB without touching what the invariant looks at. *)
Lemma kernel_ok_upd_pcb s t0 qs ms v p x y : kernel_ok s t0 qs ms v ->
  pcbs (k_obj s) !! p = Some y -> same_process x y -> kernel_ok (upd_pcb p x s) t0 qs ms v.
Proof.
  intros [Hsys Hrun Hs Hp] Hy Hxy. split.
  - by eapply sys_ok_upd_pcb.
  - by eapply running_ok_upd_pcb.
  - by apply (sched_rep_ext s).
  - cbn. rewrite (pids_insert _ _ y); [done|done|apply Hxy].
Qed.

(** A process that does not run is to go on elsewhere. *)
Lemma kernel_ok_parked s t0 qs ms v p y kc : kernel_ok s t0 qs ms v -> pcbs (k_obj s) !! p = Some y -> p <> currPCB (k_sched s) ->
  kernel_ok (upd_pcb p (with_kctxt (KSaved kc) y) s) t0 qs ms v.
Proof.
  intros [[[] [? ? Hlt] Hst Hp Hk] (z & fs & r1 & Hz & Hrun) Hs Hpr] Hy Hne. split.
  - split; [by split| |done|..].
    + split; cbn; [done..|]. intros q [->|[_ Hq]]%lookup_insert_is_Some; [by apply Hlt; exists y|by apply Hlt].
    + cbn. intros q x [[<- <-]|[_ Hq]]%lookup_insert_Some; [|by eapply Hp]. by destruct (Hp _ _ Hy).
    + cbn. intros q x [[<- <-]|[_ Hq]]%lookup_insert_Some Hqn; [right; by eexists|by eapply Hk].
  - exists z, fs, r1. split; [cbn; by rewrite lookup_insert_ne|done].
  - by apply (sched_rep_ext s).
  - cbn. by rewrite (pids_insert _ _ y).
Qed.

(** [sleepProcess] with a process that is ready. *)
Lemma sleepProcess_ok s t0 qs ms v x n k v' : kernel_ok s t0 qs ms v -> 0 < n ->
  pcbs (k_obj s) !! v_run v = Some x -> v_sleep (pid x) v = Some v' ->
  exists kc s' h m, sleepProcess n k s = Switch kc s' /\
    kernel_ok s' t0 (<[readyQ (k_sched s) := v_ready v']> qs)
      (<[sleepingMap (k_sched s) := v_sleeping v']> ms) v' /\
    gave t0 (with_qh h (with_mh m (upd_pcb (v_run v) (with_ticks n x) s))) (v_run v) k (v_run v') kc s'.
Proof.
  intros Hok Hn Hx Hv. pose proof Hok as [Hsys0 _ Hs0 Hp0].
  pose proof (so_pcb _ _ Hsys0 _ _ Hx) as Hpx.
  assert (kernel_ok (upd_pcb (v_run v) (with_ticks n x) s) t0 qs ms v) as Hok1
    by (eapply kernel_ok_upd_pcb; [done..|by eapply same_process_ticks]).
  unfold sleepProcess. destruct (Z.leb_spec n 0); [lia|]. kmon. rewrite (sr_run _ _ _ _ Hs0).
  step (update_pcb_upd _ _ (with_ticks n) _ Hx).
  set (s1 := upd_pcb _ _ s) in *. pose proof Hok1 as [Hsys Hrun Hs Hp].
  assert (pcbs (k_obj s1) !! v_run v = Some (with_ticks n x)) as Hx1 by apply lookup_insert_eq.
  assert (pids (pcbs (k_obj s1)) !! v_run v = Some (pid x)) as Hpid by (apply lookup_pids; by eexists).
  pose proof (run_not_sleeping _ _ Hp _ Hpid) as Hns.
  step (load_pcb_ok _ _ _ Hx1). kmon. change (pid x) with (pid (with_ticks n x)).
  destruct (insert_running_ok _ _ _ _ _ _ _ _ Hok1 Hx1 (sr_sleeping _ _ _ _ Hs) Hns) as (m & Hins & Hpl & Hm).
  step Hins. rewrite eqb_0_ERROR.
  pose proof (procs_ok_sleep _ _ Hp _ _ Hpid Hv) as Hp'. pose proof (run_not_ready _ _ Hp) as Hnr.
  assert (sched_rep (with_mh m s1) qs (<[sleepingMap (k_sched s1) := <[pid x := v_run v]> (v_sleeping v)]> ms)
    (mkView (v_run v) (v_ready v) (v_blocked v) (<[pid x := v_run v]> (v_sleeping v)))) as Hrep.
  { eapply sched_rep_mh; [done..| |apply lookup_insert_eq].
    rewrite lookup_insert_ne; [apply (sr_blocked _ _ _ _ Hs)|]. apply not_eq_sym, (sr_maps _ _ _ _ Hs). }
  unfold v_sleep in Hv. destruct (v_ready v) as [|nx rest]; [done|]. injection Hv as <-.
  assert (nx <> v_run v) as Hne by set_solver.
  assert (sys_ok (with_mh m s1) t0) as Hsys' by by apply (sys_ok_ext s1).
  assert (running_ok (with_mh m s1) t0) as Hrun' by by apply (running_ok_ext s1).
  destruct (leave_ok _ _ _ _ _ _ _ _ _ k Hsys' Hrun' Hrep Hne Hp') as (kc & s' & h & Hrn & Hok' & Hgave).
  by exists kc, s', h, m.
Qed.

Lemma sleepProcess_now n k s : n <= 0 -> sleepProcess n k s = Ret SUCCESS s.
Proof. intros Hn. unfold sleepProcess. by destruct (Z.leb_spec n 0); [|lia]. Qed.

(** ** Waking processes *)

(** Adding a process to the end of the ready queue. *)
Lemma enq_ready_ok s qs ms v p : sched_rep s qs ms v ->
  exists h, lift (enq_q (readyQ (k_sched s)) p) s = Ret 0 (with_qh h s) /\
    sched_rep (with_qh h s) (<[readyQ (k_sched s) := v_ready v ++ [p]]> qs) ms
      (mkView (v_run v) (v_ready v ++ [p]) (v_blocked v) (v_sleeping v)).
Proof.
  intros Hs. destruct (enq_ok _ _ _ _ _ _ p Hs (sr_ready _ _ _ _ Hs)) as (h & Henq & Hpl & Hqr).
  exists h. split; [done|]. by eapply sched_rep_qh; [| | |apply lookup_insert_eq].
Qed.

(** Any change of the scheduler's queues and maps that keeps the processes in
    order. *)
Lemma kernel_ok_moved s h m t0 qs ms v qs' ms' v' : kernel_ok s t0 qs ms v ->
  sched_rep (with_qh h (with_mh m s)) qs' ms' v' -> procs_ok (pids (pcbs (k_obj s))) v' ->
  kernel_ok (with_qh h (with_mh m s)) t0 qs' ms' v'.
Proof.
  intros [] ??. split; [by apply (sys_ok_ext s)|by apply (running_ok_ext s)|done|done].
Qed.

Lemma unblockProcess_ok s t0 qs ms v k : kernel_ok s t0 qs ms v -> 0 <= k ->
  exists h m, unblockProcess k s = Ret 0 (with_qh h (with_mh m s)) /\
    kernel_ok (with_qh h (with_mh m s)) t0 (<[readyQ (k_sched s) := v_ready (v_unblock k v)]> qs)
      (<[blockedMap (k_sched s) := v_blocked (v_unblock k v)]> ms) (v_unblock k v).
Proof.
  intros Hok Hk. pose proof Hok as [Hsys Hrun Hs Hp]. pose proof (procs_ok_unblock _ _ Hp k) as Hp'.
  unfold unblockProcess. kmon.
  destruct (Z.eqb_spec (blockedMap (k_sched s)) NULL) as [He|_].
  { pose proof (sr_blocked _ _ _ _ Hs) as Hb. rewrite He in Hb.
    by rewrite (m_rep_NULL _ _ (sr_m _ _ _ _ Hs)) in Hb. }
  destruct (HashMap_remove_spec _ _ _ _ k (sr_m _ _ _ _ Hs) (sr_blocked _ _ _ _ Hs) Hk) as (m & Hrem & Hpl & Hm).
  erewrite bind_Ret by (by apply lift_mh). cbv beta.
  assert (sched_rep (with_mh m s) qs (<[blockedMap (k_sched s) := delete k (v_blocked v)]> ms)
    (mkView (v_run v) (v_ready v) (delete k (v_blocked v)) (v_sleeping v))) as Hrep.
  { eapply sched_rep_mh; [done|done|by apply Hpl, (sr_mplenty _ _ _ _ Hs)|apply lookup_insert_eq|].
    rewrite lookup_insert_ne by apply (sr_maps _ _ _ _ Hs). apply (sr_sleeping _ _ _ _ Hs). }
  unfold v_unblock in *. destruct (v_blocked v !! k) as [p|] eqn:Hbk; cbn [default].
  - pose proof (m_rep_item _ _ _ _ _ _ (sr_m _ _ _ _ Hs) (sr_blocked _ _ _ _ Hs) Hbk) as Hpn. cbn.
    destruct (Z.eqb_spec p NULL); [done|].
    destruct (enq_ready_ok _ _ _ _ p Hrep) as (h & Henq & Hrep'). kmon. exists h, m.
    split; [exact Henq|]. eapply kernel_ok_moved; [done|exact Hrep'|done].
  - cbn. exists (k_qh s), m. split; [by destruct s|].
    rewrite (insert_id qs) by apply (sr_ready _ _ _ _ Hs). eapply kernel_ok_moved; [done| |done].
    apply (sched_rep_ext (with_mh m s)); [done..|]. rewrite (delete_id _ _ Hbk) in Hrep. by destruct v.
Qed.

(** ** The clock *)

(** One tick of a sleeper, and whether it was its last. *)
Definition tick (x : PCB_t) : PCB_t := with_ticks (numRemainingDelayTicks x - 1) x.
Definition expires (m : gmap ptr PCB_t) (p : ptr) : bool :=
  match m !! p with Some x => numRemainingDelayTicks x <=? 1 | None => false end.
(** The sleepers, in the order [order], that wake up. *)
Definition woken (m : gmap ptr PCB_t) (order : list (Z * ptr)) : list (Z * ptr) :=
  filter (fun kp => expires m kp.2 = true) order.
(** The PCBs after the processes in [l] had a tick. *)
Definition tick_all (l : list ptr) (m : gmap ptr PCB_t) : gmap ptr PCB_t := foldl (fun m p => alter tick p m) m l.

Lemma tick_all_snoc l p m : tick_all (l ++ [p]) m = alter tick p (tick_all l m).
Proof. unfold tick_all. by rewrite foldl_app. Qed.

Lemma lookup_tick_all_ne l p m : p ∉ l -> tick_all l m !! p = m !! p.
Proof.
  induction l as [|q l IH] using rev_ind; intros Hp; [done|].
  rewrite tick_all_snoc, lookup_alter_ne by set_solver. apply IH. set_solver.
Qed.

Lemma lookup_tick_all l p m : NoDup l -> p ∈ l -> tick_all l m !! p = tick <$> m !! p.
Proof.
  induction l as [|q l IH] using rev_ind; intros Hnd Hp; [by apply not_elem_of_nil in Hp|].
  apply NoDup_app in Hnd as (Hnd & Hq & _). rewrite tick_all_snoc.
  destruct (decide (p = q)) as [->|Hne].
  - rewrite lookup_alter_eq, lookup_tick_all_ne; [done|]. intros Hin. by apply (Hq q Hin), list_elem_of_singleton.
  - rewrite lookup_alter_ne by done. apply IH; [done|]. set_solver.
Qed.

Lemma woken_snoc m d kp : woken m (d ++ [kp]) = if expires m kp.2 then woken m d ++ [kp] else woken m d.
Proof.
  unfold woken. rewrite filter_app. destruct (expires m kp.2) eqn:He.
  - by rewrite filter_cons_True.
  - rewrite filter_cons_False by (by rewrite He). by rewrite app_nil_r.
Qed.

(** A tick of the sleeper [p], whose pid is [k]. *)
Lemma tickDownSleeper_ok s t0 qs ms v k p x : kernel_ok s t0 qs ms v ->
  v_sleeping v !! k = Some p -> pcbs (k_obj s) !! p = Some x ->
  exists h m, let s' := with_qh h (with_mh m (upd_pcb p (tick x) s)) in
    let v' := if numRemainingDelayTicks x <=? 1 then v_wake [(k, p)] v else v in
    tickDownSleeper k p (s, 0) = Ret tt (s', 0) /\
    kernel_ok s' t0 (<[readyQ (k_sched s) := v_ready v']> qs)
      (<[sleepingMap (k_sched s) := v_sleeping v']> ms) v' /\
    (m = k_mh s \/ exists y, HashMap_remove (sleepingMap (k_sched s)) k (k_mh s) = Ret y m).
Proof.
  intros Hok0 Hsl Hx. pose proof Hok0 as [Hsys0 _ Hs0 Hp0].
  assert (kernel_ok (upd_pcb p (tick x) s) t0 qs ms v) as Hok.
  { eapply kernel_ok_upd_pcb; [done..|]. eapply same_process_ticks, (so_pcb _ _ Hsys0 _ _ Hx). }
  assert (pid x = k) as Hpid.
  { apply (po_sleeping _ _ Hp0), lookup_pids in Hsl as (y & ? & ?). by simplify_eq. }
  assert (0 <= k) as Hk0 by (by eapply (po_pos _ _ Hp0 p), (po_sleeping _ _ Hp0)).
  unfold tickDownSleeper. unfold lift at 1. cbn [view fst lens_fst lens_refl].
  unfold bind at 1. cbn [view fst put lens_fst lens_refl snd].
  rewrite (update_pcb_upd _ _ (fun x => with_ticks (numRemainingDelayTicks x - 1) x) _ Hx).
  change (with_ticks (numRemainingDelayTicks x - 1) x) with (tick x).
  set (s1 := upd_pcb p (tick x) s) in *. pose proof Hok as [Hsys _ Hs Hp].
  assert (pcbs (k_obj s1) !! p = Some (tick x)) as Hx1 by apply lookup_insert_eq.
  unfold lift at 1, bind at 1. cbn [view fst put lens_fst lens_refl snd].
  rewrite (load_pcb_ok _ _ _ Hx1). cbn [numRemainingDelayTicks tick with_ticks].
  replace (numRemainingDelayTicks x - 1 <=? 0) with (numRemainingDelayTicks x <=? 1) by (repeat zcase; lia).
  destruct (numRemainingDelayTicks x <=? 1).
  - (* it wakes up *)
    destruct (HashMap_remove_spec _ _ _ _ k (sr_m _ _ _ _ Hs) (sr_sleeping _ _ _ _ Hs) Hk0)
      as (m & Hrem & Hpl & Hm). rewrite Hsl in Hrem. cbn in Hrem.
    pose proof (m_rep_item _ _ _ _ _ _ (sr_m _ _ _ _ Hs) (sr_sleeping _ _ _ _ Hs) Hsl) as Hpn.
    assert (sched_rep (with_mh m s1) qs (<[sleepingMap (k_sched s) := delete k (v_sleeping v)]> ms)
      (mkView (v_run v) (v_ready v) (v_blocked v) (delete k (v_sleeping v)))) as Hrep.
    { eapply (sched_rep_mh s1); [done|done|by apply Hpl, (sr_mplenty _ _ _ _ Hs)| |apply lookup_insert_eq].
      rewrite lookup_insert_ne; [apply (sr_blocked _ _ _ _ Hs)|]. apply not_eq_sym, (sr_maps _ _ _ _ Hs). }
    destruct (enq_ready_ok _ _ _ _ p Hrep) as (h & Henq & Hrep').
    exists h, m. cbv zeta. split; [|split; [|right; by exists p]].
    + unfold lift, bind, sched, gets. cbn. rewrite Hpid. cbn in Hrem. rewrite Hrem. cbn.
      destruct (Z.eqb_spec p NULL); [done|]. cbn.
      unfold lift in Henq. cbn in Henq. destruct (enq_q _ p (k_qh s)) as [r h'| | |]; [|done..].
      injection Henq as -> ->. by rewrite eqb_0_ERROR.
    + eapply kernel_ok_moved; [done|exact Hrep'|].
      apply (procs_ok_wake _ _ Hp [(k, p)]); [apply NoDup_singleton|]. set_solver.
  - exists (k_qh s), (k_mh s). cbv zeta. split; [|split; [|by left]].
    + by destruct s.
    + rewrite (insert_id qs) by apply (sr_ready _ _ _ _ Hs0).
      rewrite (insert_id ms) by apply (sr_sleeping _ _ _ _ Hs0).
      eapply kernel_ok_moved; [done| |done]. by apply (sched_rep_ext s1).
Qed.

Lemma sleeping_nodup ps v : procs_ok ps v -> NoDup (map_to_list (v_sleeping v)).*2.
Proof.
  intros [Hnd _ _ _ _ _]. unfold places in Hnd. apply NoDup_cons in Hnd as [_ Hnd].
  apply NoDup_app in Hnd as (_ & _ & Hnd). by apply NoDup_app in Hnd as (_ & _ & Hnd).
Qed.

Lemma elem_of_woken m d k p : (k, p) ∈ woken m d -> (k, p) ∈ d.
Proof. unfold woken. by intros [_ Hin]%list_elem_of_filter. Qed.

(** [s] once the sleepers in [d] had their tick, with some heaps of queues and
    maps. *)
Definition ticked (s : kst) (d : list (Z * ptr)) (h : QH) (m : MH) : kst :=
  with_qh h (with_mh m (with_obj (with_pcbs (tick_all d.*2 (pcbs (k_obj s))) (k_obj s)) s)).

(** [tickDownSleepers] ticks every sleeper once; those whose last tick it was
    join the ready queue, in the order in which the map is iterated. *)
Lemma tickDownSleepers_ok s t0 qs ms v : kernel_ok s t0 qs ms v ->
  exists order h m, let s' := ticked s order h m in
    let v' := v_wake (woken (pcbs (k_obj s)) order) v in
    order ≡ₚ map_to_list (v_sleeping v) /\
    tickDownSleepers s = Ret SUCCESS s' /\
    kernel_ok s' t0 (<[readyQ (k_sched s) := v_ready v']> qs)
      (<[sleepingMap (k_sched s) := v_sleeping v']> ms) v'.
Proof.
  intros Hok. pose proof Hok as [Hsys _ Hs Hp]. unfold tickDownSleepers. kmon. unfold with_local, bind at 1.
  assert (m_rep (view (s, 0)) ms) as Hm by apply (sr_m _ _ _ _ Hs).
  destruct (HashMap_iterate_spec _ _ _ _ tickDownSleeper Hm (sr_sleeping _ _ _ _ Hs)) as (order & Hord & Hit).
  assert (NoDup order.*1) as Hnd1 by (rewrite Hord; apply NoDup_fst_map_to_list).
  assert (NoDup order.*2) as Hnd2 by (rewrite Hord; by eapply sleeping_nodup).
  destruct (Hit (fun d sl => exists h m, sl = (ticked s d h m, 0) /\
    let v' := v_wake (woken (pcbs (k_obj s)) d) v in
    kernel_ok (ticked s d h m) t0 (<[readyQ (k_sched s) := v_ready v']> qs)
      (<[sleepingMap (k_sched s) := v_sleeping v']> ms) v')) as (sl & Hrun & h & m & -> & Hok').
  - exists (k_qh s), (k_mh s). unfold ticked. cbn [tick_all foldl fmap list_fmap].
    split; [by destruct s as [? ? ? ? [] ? ? ? ? ?]|]. cbv zeta. rewrite v_wake_nil.
    rewrite (insert_id qs) by apply (sr_ready _ _ _ _ Hs). rewrite (insert_id ms) by apply (sr_sleeping _ _ _ _ Hs).
    by destruct s as [? ? ? ? [] ? ? ? ? ?].
  - intros d k p r sl Heq (h & m & -> & Hokd). cbv zeta in Hokd. set (s1 := ticked s d h m) in *.
    set (v1 := v_wake _ v) in *.
    assert (k ∉ d.*1 /\ p ∉ d.*2) as [Hkd Hpd].
    { rewrite Heq, fmap_app in Hnd1, Hnd2. apply NoDup_app in Hnd1 as (_ & Hd1 & _).
      apply NoDup_app in Hnd2 as (_ & Hd2 & _). cbn in Hd1, Hd2. set_solver. }
    assert (v_sleeping v !! k = Some p) as Hsl.
    { apply elem_of_map_to_list. rewrite <- Hord, Heq. set_solver. }
    assert (v_sleeping v1 !! k = Some p) as Hsl1.
    { cbn. rewrite lookup_delete_woken, decide_False; [done|]. intros Hin. apply Hkd.
      apply list_elem_of_fmap in Hin as ([k' p'] & -> & Hin). apply elem_of_woken in Hin.
      apply list_elem_of_fmap. by exists (k', p'). }
    destruct (places_lookup _ _ _ _ _ p Hok) as [x Hx]; [by eapply sleeping_in_places|].
    assert (pcbs (k_obj s1) !! p = Some x) as Hx1 by (cbn; by rewrite lookup_tick_all_ne).
    destruct (tickDownSleeper_ok _ _ _ _ _ _ _ _ Hokd Hsl1 Hx1) as (h' & m' & Htick & Hok' & Hrem).
    exists (ticked s (d ++ [(k, p)]) h' m', 0).
    assert (with_qh h' (with_mh m' (upd_pcb p (tick x) s1)) = ticked s (d ++ [(k, p)]) h' m') as He.
    { unfold ticked, upd_pcb. rewrite fmap_app. cbn [fmap list_fmap snd]. rewrite tick_all_snoc.
      rewrite (alter_alt_Some _ _ _ _ Hx1). done. }
    rewrite He in Htick, Hok'. split; [done|]. split; [|exact Hrem]. exists h', m'. split; [done|].
    cbv zeta. rewrite woken_snoc. cbn [snd]. unfold expires. rewrite Hx.
    cbn [k_sched ticked with_qh with_mh with_obj s1] in Hok'. rewrite !insert_insert_eq in Hok'.
    destruct (numRemainingDelayTicks x <=? 1); [|exact Hok'].
    unfold v1 in Hok'. by rewrite v_wake_snoc in Hok'.
  - exists order, h, m. cbv zeta. split; [done|]. split; [|exact Hok']. by rewrite Hrun.
Qed.

(** ** Other queues *)

(** Changes that [kernel_ok] does not look at: the other objects, physical
    memory, the other globals of the scheduler. *)
Lemma kernel_ok_ext s s' t0 qs ms v : k_pt s' = k_pt s -> pcbs (k_obj s') = pcbs (k_obj s) ->
  o_arena (k_obj s') = o_arena (k_obj s) -> k_glob s' = k_glob s ->
  k_sched s' = k_sched s -> k_qh s' = k_qh s -> k_mh s' = k_mh s ->
  kernel_ok s t0 qs ms v -> kernel_ok s' t0 qs ms v.
Proof.
  intros Hpt Hp Ha Hg Hc Hq Hm []. split.
  - apply (sys_ok_ext s); congruence.
  - apply (running_ok_ext s); congruence.
  - by apply (sched_rep_ext s).
  - by rewrite Hp.
Qed.

(** More memory for the kernel's objects. *)
Lemma kernel_ok_arena s t0 qs ms v a : kernel_ok s t0 qs ms v -> plenty a -> brk_addr (o_arena (k_obj s)) <= brk_addr a ->
  kernel_ok (with_arena a s) t0 qs ms v.
Proof.
  intros [[Hmmu Hmem Hst Hpcb Hkc] Hrun Hs Hp] Ha Hle.
  split; [|by apply (running_ok_ext s)|by apply (sched_rep_ext s)|done].
  split; try done; [by destruct Hmmu|by apply mem_ok_arena].
Qed.

(** A queue other than the ready queue. *)
Lemma kernel_ok_queue s t0 qs ms v q h l : kernel_ok s t0 qs ms v -> q <> readyQ (k_sched s) ->
  q_plenty h -> q_rep h (<[q := l]> qs) -> kernel_ok (with_qh h s) t0 (<[q := l]> qs) ms v.
Proof.
  intros [Hsys Hrun Hs Hp] Hq Hpl Hr. split; [by apply (sys_ok_ext s)|by apply (running_ok_ext s)| |done].
  destruct v. eapply (sched_rep_qh s _ _ _ _ _ _ Hs); [done..|].
  rewrite lookup_insert_ne by done. apply (sr_ready _ _ _ _ Hs).
Qed.

(** The running process joins a queue. *)
Lemma enq_other_ok s t0 qs ms v q l p : kernel_ok s t0 qs ms v -> q <> readyQ (k_sched s) ->
  qs !! q = Some l -> exists h, lift (enq_q q p) s = Ret 0 (with_qh h s) /\
    kernel_ok (with_qh h s) t0 (<[q := l ++ [p]]> qs) ms v.
Proof.
  intros Hok Hq Hl. destruct (enq_ok _ _ _ _ _ _ p (ko_sched _ _ _ _ _ Hok) Hl) as (h & Henq & Hpl & Hr).
  exists h. split; [done|]. by apply kernel_ok_queue.
Qed.

(** The first process leaves a queue. *)
Lemma deq_other_ok s t0 qs ms v q p l : kernel_ok s t0 qs ms v -> q <> readyQ (k_sched s) ->
  qs !! q = Some (p :: l) -> exists h, lift (deq_q q) s = Ret p (with_qh h s) /\
    kernel_ok (with_qh h s) t0 (<[q := l]> qs) ms v.
Proof.
  intros Hok Hq Hl. pose proof (ko_sched _ _ _ _ _ Hok) as Hs.
  destruct (deq_q_cons _ _ _ _ _ (sr_q _ _ _ _ Hs) Hl) as (h & Hdeq & Hpl & Hr).
  exists h. split; [by apply lift_qh|]. apply kernel_ok_queue; [done|done| |done].
  by apply Hpl, (sr_qplenty _ _ _ _ Hs).
Qed.

Lemma deq_empty_ok s t0 qs ms v q : kernel_ok s t0 qs ms v -> qs !! q = Some [] ->
  lift (deq_q q) s = Ret NULL s.
Proof.
  intros Hok Hl. rewrite <- (with_qh_id s) at 2. apply lift_qh.
  by eapply deq_q_nil, Hl; apply (ko_sched _ _ _ _ _ Hok).
Qed.

Lemma peek_ok s t0 qs ms v q l : kernel_ok s t0 qs ms v -> qs !! q = Some l ->
  lift (peek_q q) s = Ret (default NULL (head l)) s.
Proof.
  intros Hok Hl. rewrite <- (with_qh_id s) at 2. apply lift_qh.
  by eapply peek_q_spec, Hl; apply (ko_sched _ _ _ _ _ Hok).
Qed.

Lemma find_ok s t0 qs ms v hm m k : kernel_ok s t0 qs ms v -> ms !! hm = Some m -> 0 <= k ->
  lift (HashMap_find hm k) s = Ret (default NULL (m !! k)) s.
Proof.
  intros Hok Hm Hk. rewrite <- (with_mh_id s) at 2. apply lift_mh.
  eapply HashMap_find_spec; [|done|done]. apply (ko_sched _ _ _ _ _ Hok).
Qed.

End laws.
