(* ===== verification/SyncLaws.v ===== *)
(** What the system calls on locks, condition variables and pipes do, on every
    branch, for a kernel in order. *)

From stdpp Require Import base gmap list.
From S2P Require Import Prelude Hardware Queue HashMap FrameList PageTable State UserMem Scheduler.
From S2P Require Import SyncObjects SwitchLaws SchedView SchedLaws.

Section laws.
Context {QH MH : Type} `{HL : HardwareLaws} `{QO : QueueOps QH} `{MO : MapOps MH}
  `{QL : !QueueLaws QH} `{ML : !MapLaws MH}.
Abbreviation kst := (kst QH MH).
Implicit Types s : kst.

(** The queues and maps after the view changed from [v] to [v'] by an
    unblocking, or by a blocking. *)
Definition moved_q s (qs : gmap ptr (list ptr)) (v' : sview) := <[readyQ (k_sched s) := v_ready v']> qs.
Definition moved_m s (ms : gmap ptr (gmap Z ptr)) (v' : sview) := <[blockedMap (k_sched s) := v_blocked v']> ms.

(** Waking the process [w], given by its PCB. *)
Lemma wake_ok s t0 qs ms v w x : kernel_ok s t0 qs ms v -> pcbs (k_obj s) !! w = Some x ->
  exists h m, (let! y := load_pcb w in unblockProcess (pid y)) s = Ret 0 (with_qh h (with_mh m s)) /\
    kernel_ok (with_qh h (with_mh m s)) t0 (moved_q s qs (v_unblock (pid x) v))
      (moved_m s ms (v_unblock (pid x) v)) (v_unblock (pid x) v).
Proof.
  intros Hok Hx. step (load_pcb_ok _ _ _ Hx). apply unblockProcess_ok; [done|].
  eapply (po_pos _ _ (ko_procs _ _ _ _ _ Hok) w), lookup_pids. by exists x.
Qed.

(** ** Locks *)

(** The lock [id] is the object [lockp], owned by [owner] (NULL: free), with
    the processes [ws] waiting in its queue [q]. *)
Record lock_is s (qs : gmap ptr (list ptr)) (ms : gmap ptr (gmap Z ptr))
    (id : Z) (lockp owner q : ptr) (ws : list ptr) : Prop := {
  li_map : exists lm, ms !! lockMap (k_sched s) = Some lm /\ lm !! id = Some lockp;
  li_id : 0 <= id;
  li_lock : locks (k_obj s) !! lockp = Some (mkLock owner q);
  li_queue : qs !! q = Some ws;
  li_other : q <> readyQ (k_sched s)
}.

Lemma getLock_ok s t0 qs ms v id lockp owner q ws : kernel_ok s t0 qs ms v ->
  lock_is s qs ms id lockp owner q ws -> getLock id s = Ret lockp s /\ lockp <> NULL /\ q <> NULL.
Proof.
  intros Hok [(lm & Hlm & Hid) Hpos _ Hq _]. pose proof (ko_sched _ _ _ _ _ Hok) as Hs. split_and!.
  - unfold getLock. kmon. rewrite (find_ok _ _ _ _ _ _ _ id Hok Hlm Hpos). by rewrite Hid.
  - by eapply m_rep_item; [apply (sr_m _ _ _ _ Hs)| |].
  - intros ->. by rewrite (q_rep_NULL _ _ (sr_q _ _ _ _ Hs)) in Hq.
Qed.

Lemma getLock_none s t0 qs ms v id lm : kernel_ok s t0 qs ms v ->
  ms !! lockMap (k_sched s) = Some lm -> 0 <= id -> lm !! id = None -> getLock id s = Ret NULL s.
Proof.
  intros Hok Hlm Hpos Hid. unfold getLock. kmon. rewrite (find_ok _ _ _ _ _ _ _ id Hok Hlm Hpos).
  by rewrite Hid.
Qed.

(** A free lock is taken. *)
Lemma acquire_loop_free s lockp q : locks (k_obj s) !! lockp = Some (mkLock NULL q) ->
  acquire_loop lockp s = Ret SUCCESS (upd_lock lockp (mkLock (currPCB (k_sched s)) q) s).
Proof. intros Hl. unfold acquire_loop. by step (load_lock_ok _ _ _ Hl). Qed.

(** At a lock that is taken, the caller joins the waiters and blocks, to
    look at the lock again when it is resumed. *)
Lemma acquire_loop_busy s t0 qs ms v x lockp owner q ws v' : kernel_ok s t0 qs ms v ->
  locks (k_obj s) !! lockp = Some (mkLock owner q) -> owner <> NULL ->
  qs !! q = Some ws -> q <> readyQ (k_sched s) ->
  pcbs (k_obj s) !! v_run v = Some x -> v_block (pid x) v = Some v' ->
  exists kc s' h m, acquire_loop lockp s = Switch kc s' /\
    kernel_ok s' t0 (moved_q s (<[q := ws ++ [v_run v]]> qs) v') (moved_m s ms v') v' /\
    gave t0 (with_qh h (with_mh m s)) (v_run v) (KAcquire lockp) (v_run v') kc s'.
Proof.
  intros Hok Hl Hne Hq Hqr Hx Hv. unfold acquire_loop. step (load_lock_ok _ _ _ Hl). kmon. cbn [ownerPcbp lock_waitingQ].
  destruct (Z.eqb_spec owner NULL); [done|]. rewrite (sr_run _ _ _ _ (ko_sched _ _ _ _ _ Hok)).
  destruct (enq_other_ok _ _ _ _ _ _ _ (v_run v) Hok Hqr Hq) as (h0 & Henq & Hok0). step Henq. rewrite eqb_0_ERROR.
  destruct (blockProcess_ok _ _ _ _ _ x (KAcquire lockp) v' Hok0 Hx Hv) as (kc & s' & h & m & Hb & Hok' & Hg).
  by exists kc, s', h, m.
Qed.

(** Releasing the caller's lock when nobody waits. *)
Lemma KernelRelease_free s t0 qs ms v id lockp q : kernel_ok s t0 qs ms v ->
  lock_is s qs ms id lockp (v_run v) q [] ->
  KernelRelease id s = Ret SUCCESS (upd_lock lockp (mkLock NULL q) s) /\
  kernel_ok (upd_lock lockp (mkLock NULL q) s) t0 qs ms v.
Proof.
  intros Hok Hli. destruct (getLock_ok _ _ _ _ _ _ _ _ _ _ Hok Hli) as (Hget & Hlp & Hqn).
  assert (kernel_ok (upd_lock lockp (mkLock NULL q) s) t0 qs ms v) as Hok' by by apply (kernel_ok_ext s).
  split; [|done]. destruct (running_lookup _ _ _ _ _ Hok) as (x & Hx & _).
  pose proof (mem_pcbs _ (so_mem _ _ (ko_sys _ _ _ _ _ Hok)) _ (mk_is_Some _ _ Hx)) as Hr.
  unfold KernelRelease. step Hget. destruct (Z.eqb_spec lockp NULL); [done|].
  step (load_lock_ok _ _ _ (li_lock _ _ _ _ _ _ _ _ Hli)). kmon. cbn [ownerPcbp lock_waitingQ].
  rewrite (sr_run _ _ _ _ (ko_sched _ _ _ _ _ Hok)).
  destruct (Z.eqb_spec (v_run v) NULL); [lia|]. rewrite Z.eqb_refl. destruct (Z.eqb_spec q NULL); [done|].
  cbn [orb negb]. unfold set_lock. kmon.
  erewrite bind_Ret by (eapply (deq_empty_ok (upd_lock lockp (mkLock NULL q) s));
    [done|apply (li_queue _ _ _ _ _ _ _ _ Hli)]). done.
Qed.

(** Releasing the caller's lock when [w] waits first: the lock is free, [w]
    leaves the queue and is made ready. *)
Lemma KernelRelease_handoff s t0 qs ms v id lockp q w ws xw : kernel_ok s t0 qs ms v ->
  lock_is s qs ms id lockp (v_run v) q (w :: ws) -> pcbs (k_obj s) !! w = Some xw ->
  exists h m, let s' := with_qh h (with_mh m (upd_lock lockp (mkLock NULL q) s)) in
    let v' := v_unblock (pid xw) v in
    KernelRelease id s = Ret 0 s' /\
    kernel_ok s' t0 (moved_q s (<[q := ws]> qs) v') (moved_m s ms v') v'.
Proof.
  intros Hok Hli Hw. destruct (getLock_ok _ _ _ _ _ _ _ _ _ _ Hok Hli) as (Hget & Hlp & Hqn).
  assert (kernel_ok (upd_lock lockp (mkLock NULL q) s) t0 qs ms v) as Hok1 by by apply (kernel_ok_ext s).
  destruct (running_lookup _ _ _ _ _ Hok) as (x & Hx & _).
  pose proof (mem_pcbs _ (so_mem _ _ (ko_sys _ _ _ _ _ Hok)) _ (mk_is_Some _ _ Hx)) as Hr.
  pose proof (mem_pcbs _ (so_mem _ _ (ko_sys _ _ _ _ _ Hok)) _ (mk_is_Some _ _ Hw)) as Hwp.
  destruct (deq_other_ok _ _ _ _ _ _ _ _ Hok1 (li_other _ _ _ _ _ _ _ _ Hli) (li_queue _ _ _ _ _ _ _ _ Hli))
    as (h1 & Hdeq & Hok2).
  destruct (wake_ok _ _ _ _ _ w xw Hok2 Hw) as (h & m & Hwake & Hok3).
  exists h, m. split; [|exact Hok3].
  unfold KernelRelease. step Hget. destruct (Z.eqb_spec lockp NULL); [done|].
  step (load_lock_ok _ _ _ (li_lock _ _ _ _ _ _ _ _ Hli)). kmon. cbn [ownerPcbp lock_waitingQ].
  rewrite (sr_run _ _ _ _ (ko_sched _ _ _ _ _ Hok)).
  destruct (Z.eqb_spec (v_run v) NULL); [lia|]. rewrite Z.eqb_refl. destruct (Z.eqb_spec q NULL); [done|].
  cbn [orb negb]. unfold set_lock. kmon. fold (upd_lock lockp (mkLock NULL q) s). step Hdeq.
  destruct (Z.eqb_spec w NULL); [lia|]. exact Hwake.
Qed.

(** A process that does not own the lock cannot release it. *)
Lemma KernelRelease_denied s t0 qs ms v id lockp owner q ws : kernel_ok s t0 qs ms v ->
  lock_is s qs ms id lockp owner q ws -> owner <> v_run v -> KernelRelease id s = Ret ERROR s.
Proof.
  intros Hok Hli Hne. destruct (getLock_ok _ _ _ _ _ _ _ _ _ _ Hok Hli) as (Hget & Hlp & Hqn).
  unfold KernelRelease. step Hget. destruct (Z.eqb_spec lockp NULL); [done|].
  step (load_lock_ok _ _ _ (li_lock _ _ _ _ _ _ _ _ Hli)). kmon. cbn [ownerPcbp lock_waitingQ].
  rewrite (sr_run _ _ _ _ (ko_sched _ _ _ _ _ Hok)).
  destruct (Z.eqb_spec owner (v_run v)); [done|]. cbn [negb]. by rewrite orb_true_r.
Qed.

(** ** Condition variables *)

(** The condition variable [id] is the queue [q] of the waiting processes [ws]. *)
Record cvar_is s (qs : gmap ptr (list ptr)) (ms : gmap ptr (gmap Z ptr))
    (id : Z) (q : ptr) (ws : list ptr) : Prop := {
  ci_map : exists cm, ms !! cvarMap (k_sched s) = Some cm /\ cm !! id = Some q;
  ci_id : 0 <= id;
  ci_queue : qs !! q = Some ws;
  ci_other : q <> readyQ (k_sched s)
}.

Lemma getCvar_ok s t0 qs ms v id q ws : kernel_ok s t0 qs ms v ->
  cvar_is s qs ms id q ws -> getCvar id s = Ret q s /\ q <> NULL.
Proof.
  intros Hok [(lm & Hlm & Hid) Hpos Hq _]. pose proof (ko_sched _ _ _ _ _ Hok) as Hs. split.
  - unfold getCvar. kmon. rewrite (find_ok _ _ _ _ _ _ _ id Hok Hlm Hpos). by rewrite Hid.
  - intros ->. by rewrite (q_rep_NULL _ _ (sr_q _ _ _ _ Hs)) in Hq.
Qed.

(** A signal with nobody waiting is lost. *)
Lemma KernelCvarSignal_empty s t0 qs ms v id q : kernel_ok s t0 qs ms v ->
  cvar_is s qs ms id q [] -> KernelCvarSignal id s = Ret SUCCESS s.
Proof.
  intros Hok Hc. destruct (getCvar_ok _ _ _ _ _ _ _ _ Hok Hc) as [Hget Hq].
  unfold KernelCvarSignal. step Hget. destruct (Z.eqb_spec q NULL); [done|].
  by step (deq_empty_ok _ _ _ _ _ _ Hok (ci_queue _ _ _ _ _ _ Hc)).
Qed.

(** A signal makes the first waiter ready, and no other. *)
Lemma KernelCvarSignal_first s t0 qs ms v id q w ws xw : kernel_ok s t0 qs ms v ->
  cvar_is s qs ms id q (w :: ws) -> pcbs (k_obj s) !! w = Some xw ->
  exists h m, let s' := with_qh h (with_mh m s) in let v' := v_unblock (pid xw) v in
    KernelCvarSignal id s = Ret 0 s' /\
    kernel_ok s' t0 (moved_q s (<[q := ws]> qs) v') (moved_m s ms v') v'.
Proof.
  intros Hok Hc Hw. destruct (getCvar_ok _ _ _ _ _ _ _ _ Hok Hc) as [Hget Hq].
  pose proof (mem_pcbs _ (so_mem _ _ (ko_sys _ _ _ _ _ Hok)) _ (mk_is_Some _ _ Hw)) as Hwp.
  destruct (deq_other_ok _ _ _ _ _ _ _ _ Hok (ci_other _ _ _ _ _ _ Hc) (ci_queue _ _ _ _ _ _ Hc))
    as (h1 & Hdeq & Hok2).
  destruct (wake_ok _ _ _ _ _ w xw Hok2 Hw) as (h & m & Hwake & Hok3).
  exists h, m. split; [|exact Hok3]. unfold KernelCvarSignal. step Hget. destruct (Z.eqb_spec q NULL); [done|].
  step Hdeq. destruct (Z.eqb_spec w NULL); [lia|]. exact Hwake.
Qed.

(** The view after the processes with the pids [ks] were unblocked in turn. *)
Definition v_unblock_all (ks : list Z) (v : sview) : sview := foldl (fun v k => v_unblock k v) v ks.

(** [ws] are processes, with the pids [ks]. *)
Definition with_pids s (ws : list ptr) (ks : list Z) : Prop :=
  Forall2 (fun w k => pids (pcbs (k_obj s)) !! w = Some k) ws ks.

Lemma broadcast_loop_ok ws : forall fuel s t0 qs ms v q ks, kernel_ok s t0 qs ms v ->
  qs !! q = Some ws -> q <> readyQ (k_sched s) -> with_pids s ws ks -> (length ws < fuel)%nat ->
  exists h m, let s' := with_qh h (with_mh m s) in let v' := v_unblock_all ks v in
    broadcast_loop fuel q s = Ret SUCCESS s' /\
    kernel_ok s' t0 (moved_q s (<[q := []]> qs) v') (moved_m s ms v') v'.
Proof.
  induction ws as [|w ws IH]; intros [|fuel] s t0 qs ms v q ks Hok Hq Hqr Hks Hfuel; cbn in Hfuel; try lia;
    cbn [broadcast_loop].
  - inversion Hks; subst. exists (k_qh s), (k_mh s). cbn [v_unblock_all foldl]. rewrite with_mh_id, with_qh_id.
    step (deq_empty_ok _ _ _ _ _ _ Hok Hq). split; [done|]. unfold moved_q, moved_m.
    pose proof (ko_sched _ _ _ _ _ Hok) as Hs.
    rewrite (insert_id qs q) by done. rewrite (insert_id qs) by apply (sr_ready _ _ _ _ Hs).
    by rewrite (insert_id ms) by apply (sr_blocked _ _ _ _ Hs).
  - inversion Hks as [|? k ? ks' Hk Hks']; subst.
    pose proof Hk as Hk'. apply lookup_pids in Hk' as (xw & Hw & Hpid).
    pose proof (mem_pcbs _ (so_mem _ _ (ko_sys _ _ _ _ _ Hok)) _ (mk_is_Some _ _ Hw)) as Hwp.
    destruct (deq_other_ok _ _ _ _ _ _ _ _ Hok Hqr Hq) as (h1 & Hdeq & Hok2). step Hdeq.
    destruct (Z.eqb_spec w NULL); [lia|].
    destruct (wake_ok _ _ _ _ _ w xw Hok2 Hw) as (h2 & m2 & Hwake & Hok3).
    rewrite <- bind_assoc. step Hwake. rewrite eqb_0_ERROR. rewrite Hpid in Hok3.
    destruct (IH fuel _ _ _ _ _ q ks' Hok3) as (h & m & Hrun & Hok4);
      [|done|done|lia|].
    { unfold moved_q. cbn. by rewrite lookup_insert_ne, lookup_insert_eq. }
    exists h, m. split; [exact Hrun|]. unfold moved_q, moved_m in *. cbn in Hok4 |- *.
    rewrite insert_insert_eq in Hok4. rewrite (insert_insert_ne _ q) in Hok4 by done.
    by rewrite !insert_insert_eq in Hok4.
Qed.

(** A broadcast makes all waiters ready, in the order in which they wait. *)
(** What a release or a signal does to the waiters [ws]: the first is ready. *)
Definition released_view s (ws : list ptr) (v : sview) : sview :=
  match ws with
  | w :: _ => match pcbs (k_obj s) !! w with Some x => v_unblock (pid x) v | None => v end
  | [] => v
  end.

(** Signalling, whether anybody waits or not. *)
Lemma KernelCvarSignal_ok s t0 qs ms v id q ws : kernel_ok s t0 qs ms v -> cvar_is s qs ms id q ws ->
  Forall (fun w => is_Some (pcbs (k_obj s) !! w)) ws ->
  exists s', let v' := released_view s ws v in KernelCvarSignal id s = Ret SUCCESS s' /\
    kernel_ok s' t0 (moved_q s (<[q := tail ws]> qs) v') (moved_m s ms v') v'.
Proof.
  intros Hok Hc Hws. pose proof (ko_sched _ _ _ _ _ Hok) as Hs. destruct ws as [|w ws].
  - exists s. cbv zeta. split; [by eapply KernelCvarSignal_empty|]. unfold moved_q, moved_m. cbn [released_view tail].
    rewrite (insert_id qs q) by apply Hc. rewrite (insert_id qs) by apply (sr_ready _ _ _ _ Hs).
    by rewrite (insert_id ms) by apply (sr_blocked _ _ _ _ Hs).
  - apply Forall_cons in Hws as [[xw Hxw] _].
    destruct (KernelCvarSignal_first _ _ _ _ _ _ _ _ _ _ Hok Hc Hxw) as (h & m & Hrun & Hok').
    eexists. cbv zeta. split; [exact Hrun|]. cbn [released_view tail]. by rewrite Hxw.
Qed.

(** Blocked processes that are made ready line up in this order. *)
Lemma v_unblock_all_ready ks ws v : NoDup ks -> Forall2 (fun k w => v_blocked v !! k = Some w) ks ws ->
  v_ready (v_unblock_all ks v) = v_ready v ++ ws.
Proof.
  revert ws v. induction ks as [|k ks IH]; intros ws v Hnd Hall; [by apply Forall2_nil_inv_l in Hall as ->; rewrite app_nil_r|].
  apply Forall2_cons_inv_l in Hall as (w & ws' & Hw & Hall & ->). apply NoDup_cons in Hnd as [Hk Hnd].
  cbn. unfold v_unblock_all in IH. rewrite (IH ws').
  - unfold v_unblock. rewrite Hw. cbn. by rewrite <- (assoc_L (++)).
  - done.
  - apply Forall2_same_length_lookup in Hall as [Hlen Hall]. apply Forall2_same_length_lookup. split; [done|].
    intros i k' w' Hk' Hw'. unfold v_unblock. rewrite Hw. cbn. rewrite lookup_delete_ne; [by apply (Hall i)|].
    intros ->. apply Hk. by eapply list_elem_of_lookup_2.
Qed.

Lemma KernelCvarBroadcast_ok s t0 qs ms v id q ws ks fuel : kernel_ok s t0 qs ms v ->
  cvar_is s qs ms id q ws -> with_pids s ws ks -> (length ws < fuel)%nat ->
  exists h m, let s' := with_qh h (with_mh m s) in let v' := v_unblock_all ks v in
    KernelCvarBroadcast fuel id s = Ret SUCCESS s' /\
    kernel_ok s' t0 (moved_q s (<[q := []]> qs) v') (moved_m s ms v') v'.
Proof.
  intros Hok Hc Hks Hfuel. destruct (getCvar_ok _ _ _ _ _ _ _ _ Hok Hc) as [Hget Hq].
  destruct (broadcast_loop_ok ws fuel s t0 qs ms v q ks) as (h & m & Hrun & Hok'); try done; [apply Hc..|].
  exists h, m. split; [|exact Hok']. unfold KernelCvarBroadcast. step Hget.
  destruct (Z.eqb_spec q NULL); [done|]. exact Hrun.
Qed.

(** Waiting on a condition variable: the caller joins its queue, the lock is
    released and, nobody waiting for it, free; then the caller blocks, to
    acquire the lock again when it is resumed. *)
Lemma KernelCvarWait_ok s t0 qs ms v x id q ws lock_id lockp lq v' : kernel_ok s t0 qs ms v ->
  cvar_is s qs ms id q ws -> lock_is s qs ms lock_id lockp (v_run v) lq [] -> lq <> q ->
  pcbs (k_obj s) !! v_run v = Some x -> v_block (pid x) v = Some v' ->
  exists kc s' h m, KernelCvarWait id lock_id s = Switch kc s' /\
    kernel_ok s' t0 (moved_q s (<[q := ws ++ [v_run v]]> qs) v') (moved_m s ms v') v' /\
    gave t0 (with_qh h (with_mh m (upd_lock lockp (mkLock NULL lq) s)))
      (v_run v) (KCvarWait lock_id) (v_run v') kc s'.
Proof.
  intros Hok Hc Hli Hne Hx Hv. destruct (getCvar_ok _ _ _ _ _ _ _ _ Hok Hc) as [Hget Hq].
  unfold KernelCvarWait. step Hget. destruct (Z.eqb_spec q NULL); [done|]. kmon.
  rewrite (sr_run _ _ _ _ (ko_sched _ _ _ _ _ Hok)).
  destruct (enq_other_ok _ _ _ _ _ _ _ (v_run v) Hok (ci_other _ _ _ _ _ _ Hc) (ci_queue _ _ _ _ _ _ Hc))
    as (h0 & Henq & Hok0). step Henq. rewrite eqb_0_ERROR.
  assert (lock_is (with_qh h0 s) (<[q := ws ++ [v_run v]]> qs) ms lock_id lockp (v_run v) lq []) as Hli'.
  { destruct Hli. split; try done. by rewrite lookup_insert_ne. }
  destruct (KernelRelease_free _ _ _ _ _ _ _ _ Hok0 Hli') as [Hrel Hok1]. step Hrel.
  destruct (blockProcess_ok _ _ _ _ _ x (KCvarWait lock_id) v' Hok1 Hx Hv) as (kc & s' & h & m & Hb & Hok' & Hg).
  exists kc, s', h, m. done.
Qed.

(** ** Pipes *)

(** The pipe object [x] holds the bytes [bs], the oldest first. *)
Definition pipe_holds (x : pipe_t) (bs : list Z) : Prop :=
  Z.of_nat (length (buffer x)) = PIPE_MAX_BYTES /\
  numBytesWritten x = Z.of_nat (length bs) /\
  take (length bs) (buffer x) = Some <$> bs.

(** The pipe [id] is the object [pipep], holds [bs], and the readers [ws] wait
    in its queue [q]. *)
Record pipe_is s (qs : gmap ptr (list ptr)) (ms : gmap ptr (gmap Z ptr))
    (id : Z) (pipep : ptr) (x : pipe_t) (bs : list Z) (q : ptr) (ws : list ptr) : Prop := {
  pi_map : exists pm, ms !! pipeMap (k_sched s) = Some pm /\ pm !! id = Some pipep;
  pi_id : 0 <= id;
  pi_pipe : pipes (k_obj s) !! pipep = Some x;
  pi_holds : pipe_holds x bs;
  pi_q : pipe_waitingQ x = q;
  pi_queue : qs !! q = Some ws;
  pi_other : q <> readyQ (k_sched s)
}.

Lemma PIPE_MAX_BYTES_int : 0 < PIPE_MAX_BYTES < 2 ^ 31.
Proof.
  unfold PIPE_MAX_BYTES. pose proof TERMINAL_MAX_LINE_pos. rewrite Z.quot_div_nonneg by lia.
  split; [apply Z.div_str_pos; lia|]. apply Z.div_lt_upper_bound; lia.
Qed.

Lemma pipe_holds_length x bs : pipe_holds x bs -> Z.of_nat (length bs) <= PIPE_MAX_BYTES.
Proof.
  intros (Hl & _ & Ht). apply (f_equal length) in Ht. rewrite length_take, length_fmap in Ht. lia.
Qed.

Lemma getPipe_ok s t0 qs ms v id pipep x bs q ws : kernel_ok s t0 qs ms v ->
  pipe_is s qs ms id pipep x bs q ws -> getPipe id s = Ret pipep s /\ pipep <> NULL /\ q <> NULL.
Proof.
  intros Hok [(lm & Hlm & Hid) Hpos _ _ _ Hq _]. pose proof (ko_sched _ _ _ _ _ Hok) as Hs. split_and!.
  - unfold getPipe. kmon. rewrite (find_ok _ _ _ _ _ _ _ id Hok Hlm Hpos). by rewrite Hid.
  - by eapply m_rep_item; [apply (sr_m _ _ _ _ Hs)| |].
  - intros ->. by rewrite (q_rep_NULL _ _ (sr_q _ _ _ _ Hs)) in Hq.
Qed.

(** The object after [data] was appended. *)
Definition pipe_append (x : pipe_t) (bs data : list Z) : pipe_t :=
  mkPipe (take (length bs) (buffer x) ++ (Some <$> data) ++ drop (length bs + length data) (buffer x))
    (Z.of_nat (length bs) + Z.of_nat (length data)) (pipe_waitingQ x).

Lemma pipe_append_holds x bs data : pipe_holds x bs ->
  Z.of_nat (length bs) + Z.of_nat (length data) <= PIPE_MAX_BYTES ->
  pipe_holds (pipe_append x bs data) (bs ++ data).
Proof.
  intros (Hl & Hn & Ht) Hfit. unfold pipe_holds, pipe_append. cbn [buffer numBytesWritten]. split_and!.
  - rewrite !length_app, length_take, length_fmap, length_drop. lia.
  - rewrite length_app. lia.
  - rewrite Ht, fmap_app, (assoc_L (++)), <- fmap_app. rewrite take_app_le by (rewrite length_fmap; lia).
    apply take_ge. by rewrite length_fmap.
Qed.

(** A write that fits: the bytes of the user's buffer are appended, and the
    first waiting reader, if any, is made ready. *)
Lemma KernelPipeWrite_ok s t0 qs ms v id pipep x bs q ws buf locs : kernel_ok s t0 qs ms v ->
  pipe_is s qs ms id pipep x bs q ws -> mapped s buf PROT_READ locs -> locs <> [] ->
  Z.of_nat (length bs) + Z.of_nat (length locs) <= PIPE_MAX_BYTES ->
  Forall (fun w => is_Some (pcbs (k_obj s) !! w)) ws ->
  exists h m v', let data := mem_get (k_mem s) <$> locs in
    let s' := with_qh h (with_mh m (upd_pipe pipep (pipe_append x bs data) s)) in
    KernelPipeWrite id buf (Z.of_nat (length locs)) s = Ret (Z.of_nat (length locs)) s' /\
    pipe_holds (pipe_append x bs data) (bs ++ data) /\
    match head ws with
    | Some w => exists xw, pcbs (k_obj s) !! w = Some xw /\ v' = v_unblock (pid xw) v
    | None => v' = v
    end /\
    kernel_ok s' t0 (moved_q s qs v') (moved_m s ms v') v'.
Proof.
  intros Hok Hpi Hmap Hne Hfit Hws. destruct (getPipe_ok _ _ _ _ _ _ _ _ _ _ _ Hok Hpi) as (Hget & Hp & Hq).
  pose proof PIPE_MAX_BYTES_int as Hmax. pose proof (pi_holds _ _ _ _ _ _ _ _ _ Hpi) as Hh.
  pose proof Hh as (Hl & Hn & Ht). set (data := mem_get (k_mem s) <$> locs).
  assert (length data = length locs) as Hld by apply length_fmap.
  assert (0 < Z.of_nat (length locs)) as Hpos by (destruct locs; cbn; [done|lia]).
  set (s1 := upd_pipe pipep (pipe_append x bs data) s).
  assert (kernel_ok s1 t0 qs ms v) as Hok1 by by apply (kernel_ok_ext s).
  assert (forall B (f : ptr -> M kst B), bind (lift (peek_q q)) f s1 = f (default NULL (head ws)) s1) as Hpeek.
  { intros B f. by step (peek_ok _ _ _ _ _ _ _ Hok1 (pi_queue _ _ _ _ _ _ _ _ _ Hpi)). }
  assert (KernelPipeWrite id buf (Z.of_nat (length locs)) s =
    (let! nw := lift (peek_q q) in
     if nw =? NULL then ret (Z.of_nat (length locs)) else
     let! w := load_pcb nw in let! r := unblockProcess (pid w) in
     ret (if r =? ERROR then ERROR else Z.of_nat (length locs))) s1) as ->.
  { unfold KernelPipeWrite. destruct (Z.ltb_spec (Z.of_nat (length locs)) 0); [lia|].
    destruct (Z.eqb_spec (Z.of_nat (length locs)) 0); [lia|]. step Hget.
    destruct (Z.eqb_spec pipep NULL); [done|]. step (load_pipe_ok _ _ _ (pi_pipe _ _ _ _ _ _ _ _ _ Hpi)).
    unfold add_int. rewrite Hn.
    destruct (Z.leb_spec (-2 ^ 31) (Z.of_nat (length bs) + Z.of_nat (length locs))); [|lia].
    destruct (Z.ltb_spec (Z.of_nat (length bs) + Z.of_nat (length locs)) (2 ^ 31)); [|lia]. cbn [andb]. mon.
    destruct (Z.ltb_spec PIPE_MAX_BYTES (Z.of_nat (length bs) + Z.of_nat (length locs))); [lia|].
    rewrite Nat2Z.id. step (read_bytes_ok _ _ _ Hmap). rewrite Nat2Z.id. fold data. unfold set_pipe. kmon.
    unfold s1, upd_pipe, pipe_append. rewrite Hld, (pi_q _ _ _ _ _ _ _ _ _ Hpi). done. }
  rewrite Hpeek. destruct ws as [|w ws]; cbn [head default].
  - exists (k_qh s), (k_mh s), v. cbv zeta. split; [by destruct s|]. split; [apply pipe_append_holds; [done|lia]|].
    split; [done|]. unfold moved_q, moved_m. pose proof (ko_sched _ _ _ _ _ Hok) as Hs.
    rewrite (insert_id qs) by apply (sr_ready _ _ _ _ Hs). rewrite (insert_id ms) by apply (sr_blocked _ _ _ _ Hs).
    by apply (kernel_ok_ext s).
  - apply Forall_cons in Hws as [[xw Hw] _].
    pose proof (mem_pcbs _ (so_mem _ _ (ko_sys _ _ _ _ _ Hok)) _ (mk_is_Some _ _ Hw)) as Hwp.
    destruct (wake_ok _ _ _ _ _ w xw Hok1 Hw) as (h & m & Hwake & Hok3).
    exists h, m, (v_unblock (pid xw) v). cbv zeta. split; [|split; [apply pipe_append_holds; [done|lia]|]].
    + change (Datatypes.id w) with w. destruct (Z.eqb_spec w NULL); [lia|]. rewrite <- bind_assoc. step Hwake.
      by rewrite eqb_0_ERROR.
    + split; [by exists xw|]. exact Hok3.
Qed.

(** A write that does not fit is refused and changes nothing. *)
Lemma KernelPipeWrite_full s t0 qs ms v id pipep x bs q ws buf len : kernel_ok s t0 qs ms v ->
  pipe_is s qs ms id pipep x bs q ws -> 0 < len ->
  PIPE_MAX_BYTES < Z.of_nat (length bs) + len < 2 ^ 31 -> KernelPipeWrite id buf len s = Ret ERROR s.
Proof.
  intros Hok Hpi Hlen Hfull. destruct (getPipe_ok _ _ _ _ _ _ _ _ _ _ _ Hok Hpi) as (Hget & Hp & Hq).
  pose proof PIPE_MAX_BYTES_int as Hmax. pose proof (pi_holds _ _ _ _ _ _ _ _ _ Hpi) as (Hl & Hn & Ht).
  unfold KernelPipeWrite. destruct (Z.ltb_spec len 0); [lia|]. destruct (Z.eqb_spec len 0); [lia|]. step Hget.
  destruct (Z.eqb_spec pipep NULL); [done|]. step (load_pipe_ok _ _ _ (pi_pipe _ _ _ _ _ _ _ _ _ Hpi)).
  unfold add_int. rewrite Hn. destruct (Z.leb_spec (-2 ^ 31) (Z.of_nat (length bs) + len)); [|lia].
  destruct (Z.ltb_spec (Z.of_nat (length bs) + len) (2 ^ 31)); [|lia]. cbn [andb]. mon.
  by destruct (Z.ltb_spec PIPE_MAX_BYTES (Z.of_nat (length bs) + len)); [|lia].
Qed.

(** The check of the length overflows an [int] when the pipe is not empty and
    the length given by the user is near the largest [int]. *)
Lemma KernelPipeWrite_overflow s t0 qs ms v id pipep x bs q ws buf len : kernel_ok s t0 qs ms v ->
  pipe_is s qs ms id pipep x bs q ws -> 0 < len < 2 ^ 31 -> 2 ^ 31 <= Z.of_nat (length bs) + len ->
  KernelPipeWrite id buf len s = Undef.
Proof.
  intros Hok Hpi Hlen Hfull. destruct (getPipe_ok _ _ _ _ _ _ _ _ _ _ _ Hok Hpi) as (Hget & Hp & Hq).
  pose proof (pi_holds _ _ _ _ _ _ _ _ _ Hpi) as (Hl & Hn & Ht).
  unfold KernelPipeWrite. destruct (Z.ltb_spec len 0); [lia|]. destruct (Z.eqb_spec len 0); [lia|]. step Hget.
  destruct (Z.eqb_spec pipep NULL); [done|]. step (load_pipe_ok _ _ _ (pi_pipe _ _ _ _ _ _ _ _ _ Hpi)).
  unfold add_int. rewrite Hn. destruct (Z.ltb_spec (Z.of_nat (length bs) + len) (2 ^ 31)); [lia|].
  by rewrite andb_false_r.
Qed.

(** The object after the first [len] of its bytes were read. *)
Definition pipe_take (x : pipe_t) (bs : list Z) (len : nat) : pipe_t :=
  let rest := Some <$> drop len bs in
  mkPipe (match rest with [] => buffer x | _ => rest ++ drop (length rest) (buffer x) end)
    (Z.of_nat (length bs) - Z.of_nat len) (pipe_waitingQ x).

Lemma pipe_take_holds x bs len : pipe_holds x bs -> (len <= length bs)%nat ->
  pipe_holds (pipe_take x bs len) (drop len bs).
Proof.
  intros (Hl & Hn & Ht) Hle. pose proof (f_equal length Ht) as Htl. rewrite length_take, length_fmap in Htl.
  unfold pipe_holds, pipe_take. cbn [buffer numBytesWritten].
  assert (length (Some <$> drop len bs) = (length bs - len)%nat) as Hr by by rewrite length_fmap, length_drop.
  destruct (drop len bs) as [|b r] eqn:Hd; cbn [fmap list_fmap] in *.
  - split_and!; [done| |done]. cbn. cbn in Hr. lia.
  - rewrite <- fmap_cons, <- Hd in *. split_and!.
    + rewrite length_app, length_drop, Hr. lia.
    + rewrite length_drop. lia.
    + rewrite take_app_le by (rewrite Hr, length_drop; lia). apply take_ge. rewrite Hr, length_drop. lia.
Qed.

(** The stored bytes, read back. *)
Lemma mapM_id_Some (l : list Z) : mapM (M := option) id (Some <$> l) = Some l.
Proof. induction l as [|b l IH]; [done|]. cbn. by rewrite IH. Qed.

Lemma pipe_holds_take x bs len : pipe_holds x bs -> (len <= length bs)%nat ->
  mapM (M := option) id (take len (buffer x)) = Some (take len bs) /\
  take (length bs - len) (drop len (buffer x)) = Some <$> drop len bs.
Proof.
  intros (_ & _ & Ht) Hle. split.
  - rewrite <- mapM_id_Some. f_equal. rewrite fmap_take, <- Ht, take_take. f_equal. lia.
  - rewrite fmap_drop, <- Ht. rewrite skipn_firstn_comm. done.
Qed.

(** Who is woken by a read that leaves bytes for [ws]. *)
Definition read_wakes s (bs : list Z) (len : nat) (ws : list ptr) (v v' : sview) : Prop :=
  match ws with
  | w :: _ => if decide (len < length bs)%nat
              then exists xw, pcbs (k_obj s) !! w = Some xw /\ v' = v_unblock (pid xw) v
              else v' = v
  | [] => v' = v
  end.

(** The queue is looked at for the next reader, who is made ready. *)
Lemma wake_reader_ok s t0 qs ms v bs len q ws (n : Z) : kernel_ok s t0 qs ms v -> qs !! q = Some ws ->
  (len < length bs)%nat -> Forall (fun w => is_Some (pcbs (k_obj s) !! w)) ws ->
  exists h m v', (let! w := lift (peek_q q) in
      if w =? NULL then ret n else
      let! x := load_pcb w in
      let! r := unblockProcess (pid x) in
      ret (if r =? ERROR then ERROR else n)) s = Ret n (with_qh h (with_mh m s)) /\
    read_wakes s bs len ws v v' /\ kernel_ok (with_qh h (with_mh m s)) t0 (moved_q s qs v') (moved_m s ms v') v'.
Proof.
  intros Hok Hq Hlt Hws. erewrite bind_Ret by (eapply peek_ok; [done|exact Hq]). cbv beta. destruct ws as [|w ws].
  - exists (k_qh s), (k_mh s), v. split; [by destruct s|]. split; [done|].
    unfold moved_q, moved_m. pose proof (ko_sched _ _ _ _ _ Hok) as Hs.
    rewrite (insert_id qs) by apply (sr_ready _ _ _ _ Hs). rewrite (insert_id ms) by apply (sr_blocked _ _ _ _ Hs). by destruct s.
  - apply Forall_cons in Hws as [[xw Hw] _].
    pose proof (mem_pcbs _ (so_mem _ _ (ko_sys _ _ _ _ _ Hok)) _ (mk_is_Some _ _ Hw)) as Hwp.
    destruct (wake_ok _ _ _ _ _ w xw Hok Hw) as (h & m & Hwake & Hok').
    exists h, m, (v_unblock (pid xw) v). split; [|split; [|exact Hok']].
    + change (default NULL (head (w :: ws))) with w. destruct (Z.eqb_spec w NULL); [lia|].
      rewrite <- bind_assoc. step Hwake. by rewrite eqb_0_ERROR.
    + unfold read_wakes. rewrite decide_True by lia. by exists xw.
Qed.

(** The object that the code makes of the bytes that remain. *)
Lemma pipe_take_some x bs len : (len < length bs)%nat -> let rest := Some <$> drop len bs in
  mkPipe (rest ++ drop (length rest) (buffer x)) (Z.of_nat (length bs) - Z.of_nat len) (pipe_waitingQ x) = pipe_take x bs len.
Proof.
  intros Hlt rest. unfold pipe_take. cbv zeta. fold rest. assert (length rest <> 0%nat) by (unfold rest; rewrite length_fmap, length_drop; lia).
  by destruct rest.
Qed.
Lemma pipe_take_none x bs len : (length bs <= len)%nat ->
  mkPipe (buffer x) (Z.of_nat (length bs) - Z.of_nat len) (pipe_waitingQ x) = pipe_take x bs len.
Proof. intros Hle. unfold pipe_take. by rewrite drop_ge. Qed.

(** The end of a read, for a reader at the head of the queue and enough bytes:
    the first [len] bytes go to the user's buffer, the others stay, and if
    there are any, the next reader is made ready. *)
Lemma pipe_read_finish_ok s t0 qs ms v pid0 pipep x bs q w0 ws buf locs : kernel_ok s t0 qs ms v ->
  pipe_is s qs ms pid0 pipep x bs q (w0 :: ws) -> w0 <> NULL ->
  mapped s buf PROT_WRITE locs -> (length locs <= length bs)%nat ->
  Forall (fun w => is_Some (pcbs (k_obj s) !! w)) ws ->
  exists h m v', let s' := with_qh h (with_mh m (upd_pipe pipep (pipe_take x bs (length locs))
      (with_mem (mem_write (k_mem s) locs (take (length locs) bs)) s))) in
    pipe_read_finish pipep q buf (Z.of_nat (length locs)) s = Ret (Z.of_nat (length locs)) s' /\
    pipe_holds (pipe_take x bs (length locs)) (drop (length locs) bs) /\
    read_wakes s bs (length locs) ws v v' /\
    kernel_ok s' t0 (moved_q s (<[q := ws]> qs) v') (moved_m s ms v') v'.
Proof.
  intros Hok Hpi Hw0 Hmap Hle Hws. pose proof (pi_holds _ _ _ _ _ _ _ _ _ Hpi) as Hh. pose proof Hh as (Hl & Hn & Ht).
  pose proof (pipe_holds_length _ _ Hh) as Hmax. destruct (pipe_holds_take _ _ _ Hh Hle) as [Hrd Hmv].
  destruct (deq_other_ok _ _ _ _ _ _ _ _ Hok (pi_other _ _ _ _ _ _ _ _ _ Hpi) (pi_queue _ _ _ _ _ _ _ _ _ Hpi))
    as (h1 & Hdeq & Hok1).
  unfold pipe_read_finish. step Hdeq. destruct (Z.eqb_spec w0 NULL); [done|].
  assert (pipes (k_obj (with_qh h1 s)) !! pipep = Some x) as Hx by apply (pi_pipe _ _ _ _ _ _ _ _ _ Hpi).
  step (load_pipe_ok _ _ _ Hx). rewrite Nat2Z.id.
  destruct (Z.leb_spec (Z.of_nat (length locs)) (Z.of_nat (length (buffer x)))); [|lia]. step_rd Hrd.
  assert (length (take (length locs) bs) = length locs) as Htl by (rewrite length_take; lia).
  assert (mapped (with_qh h1 s) buf PROT_WRITE locs) as Hmap1 by by apply (mapped_pt s).
  step (write_bytes_ok _ _ _ _ Hmap1 Htl). set (s2 := with_mem _ (with_qh h1 s)).
  assert (pipes (k_obj s2) !! pipep = Some x) as Hx2 by done. step (load_pipe_ok _ _ _ Hx2).
  rewrite Hn. unfold set_pipe. kmon.
  assert (pipe_holds (pipe_take x bs (length locs)) (drop (length locs) bs)) as Hholds by by apply pipe_take_holds.
  destruct (Z.ltb_spec 0 (Z.of_nat (length bs) - Z.of_nat (length locs))) as [Hpos|Hnone].
  - (* bytes remain *)
    kmon. rewrite ?Nat2Z.id.
    replace (Z.to_nat (Z.of_nat (length bs) - Z.of_nat (length locs))) with (length bs - length locs)%nat by lia.
    rewrite Hmv, pipe_take_some by lia. cbn [k_obj with_obj with_pipes pipes o_arena pcbs zombies locks].
    set (s4 := with_obj _ (with_obj _ s2)).
    assert (s4 = upd_pipe pipep (pipe_take x bs (length locs)) s2) as -> by (unfold s4, upd_pipe; by rewrite insert_insert_eq).
    assert (kernel_ok (upd_pipe pipep (pipe_take x bs (length locs)) s2) t0 (<[q := ws]> qs) ms v) as Hok4
      by by apply (kernel_ok_ext (with_qh h1 s)).
    destruct (wake_reader_ok _ _ _ _ _ bs (length locs) q ws (Z.of_nat (length locs)) Hok4) as (h & m & v' & Hrun & Hwakes & Hok5);
      [apply lookup_insert_eq|lia|done|].
    exists h, m, v'. cbv zeta. split; [exact Hrun|]. split; [done|]. split; [exact Hwakes|exact Hok5].
  - (* nothing remains *)
    rewrite pipe_take_none by lia. exists h1, (k_mh s), v. cbv zeta. split; [by destruct s|]. split; [done|]. split.
    + unfold read_wakes. destruct ws; [done|]. rewrite decide_False by lia. done.
    + unfold moved_q, moved_m. pose proof (ko_sched _ _ _ _ _ Hok1) as Hs.
      rewrite (insert_id (<[q := ws]> qs)) by apply (sr_ready _ _ _ _ Hs). rewrite (insert_id ms) by apply (sr_blocked _ _ _ _ Hs).
      by apply (kernel_ok_ext (with_qh h1 s)).
Qed.

(** The first half of a read: the caller is in the queue. *)
Lemma KernelPipeRead_enter s t0 qs ms v pid0 pipep x bs q ws buf len : kernel_ok s t0 qs ms v ->
  pipe_is s qs ms pid0 pipep x bs q ws -> 0 < len ->
  exists h, KernelPipeRead pid0 buf len s =
      (if negb (default NULL (head (ws ++ [v_run v])) =? v_run v)
       then blockProcess (KPipeReadTurn pipep q buf len)
       else pipe_read_loop pipep q buf len) (with_qh h s) /\
    kernel_ok (with_qh h s) t0 (<[q := ws ++ [v_run v]]> qs) ms v /\
    pipe_is (with_qh h s) (<[q := ws ++ [v_run v]]> qs) ms pid0 pipep x bs q (ws ++ [v_run v]).
Proof.
  intros Hok Hpi Hlen. destruct (getPipe_ok _ _ _ _ _ _ _ _ _ _ _ Hok Hpi) as (Hget & Hp & Hq).
  destruct (enq_other_ok _ _ _ _ _ _ _ (v_run v) Hok (pi_other _ _ _ _ _ _ _ _ _ Hpi) (pi_queue _ _ _ _ _ _ _ _ _ Hpi))
    as (h & Henq & Hok1).
  exists h. split; [|split; [done|]].
  - unfold KernelPipeRead. destruct (Z.ltb_spec len 0); [lia|]. destruct (Z.eqb_spec len 0); [lia|]. step Hget.
    destruct (Z.eqb_spec pipep NULL); [done|]. step (load_pipe_ok _ _ _ (pi_pipe _ _ _ _ _ _ _ _ _ Hpi)).
    rewrite (pi_q _ _ _ _ _ _ _ _ _ Hpi). destruct (Z.eqb_spec q NULL); [done|]. kmon.
    rewrite (sr_run _ _ _ _ (ko_sched _ _ _ _ _ Hok)). step Henq. rewrite eqb_0_ERROR.
    erewrite bind_Ret by (eapply peek_ok; [done|apply lookup_insert_eq]). done.
  - destruct Hpi. split; try done. apply lookup_insert_eq.
Qed.

(** A reader that finds others waiting blocks behind them. *)
Lemma KernelPipeRead_turn s t0 qs ms v xr pid0 pipep x bs q w ws buf len v' : kernel_ok s t0 qs ms v ->
  pipe_is s qs ms pid0 pipep x bs q (w :: ws) -> 0 < len -> w <> v_run v ->
  pcbs (k_obj s) !! v_run v = Some xr -> v_block (pid xr) v = Some v' ->
  exists kc s' h m, KernelPipeRead pid0 buf len s = Switch kc s' /\
    kernel_ok s' t0 (moved_q s (<[q := w :: ws ++ [v_run v]]> qs) v') (moved_m s ms v') v' /\
    gave t0 (with_qh h (with_mh m s)) (v_run v) (KPipeReadTurn pipep q buf len) (v_run v') kc s'.
Proof.
  intros Hok Hpi Hlen Hne Hx Hv.
  destruct (KernelPipeRead_enter _ _ _ _ _ _ _ _ _ _ _ buf len Hok Hpi Hlen) as (h0 & -> & Hok1 & _).
  change (default NULL (head ((w :: ws) ++ [v_run v]))) with w. destruct (Z.eqb_spec w (v_run v)); [done|]. cbn [negb].
  destruct (blockProcess_ok _ _ _ _ _ xr (KPipeReadTurn pipep q buf len) v' Hok1 Hx Hv) as (kc & s' & h & m & Hb & Hok' & Hg).
  by exists kc, s', h, m.
Qed.

(** A reader alone that finds too few bytes blocks until it is woken. *)
Lemma KernelPipeRead_wait s t0 qs ms v xr pid0 pipep x bs q buf len v' : kernel_ok s t0 qs ms v ->
  pipe_is s qs ms pid0 pipep x bs q [] -> 0 < len -> Z.of_nat (length bs) < len ->
  pcbs (k_obj s) !! v_run v = Some xr -> v_block (pid xr) v = Some v' ->
  exists kc s' h m, KernelPipeRead pid0 buf len s = Switch kc s' /\
    kernel_ok s' t0 (moved_q s (<[q := [v_run v]]> qs) v') (moved_m s ms v') v' /\
    gave t0 (with_qh h (with_mh m s)) (v_run v) (KPipeReadBytes pipep q buf len) (v_run v') kc s'.
Proof.
  intros Hok Hpi Hlen Hfew Hx Hv.
  destruct (KernelPipeRead_enter _ _ _ _ _ _ _ _ _ _ _ buf len Hok Hpi Hlen) as (h0 & -> & Hok1 & Hpi1).
  change (default NULL (head ([] ++ [v_run v]))) with (v_run v). rewrite Z.eqb_refl. cbn [negb].
  unfold pipe_read_loop. step (load_pipe_ok _ _ _ (pi_pipe _ _ _ _ _ _ _ _ _ Hpi1)).
  pose proof (pi_holds _ _ _ _ _ _ _ _ _ Hpi1) as (_ & Hn & _). rewrite Hn.
  destruct (Z.ltb_spec (Z.of_nat (length bs)) len); [|lia].
  destruct (blockProcess_ok _ _ _ _ _ xr (KPipeReadBytes pipep q buf len) v' Hok1 Hx Hv) as (kc & s' & h & m & Hb & Hok' & Hg).
  by exists kc, s', h, m.
Qed.

(** A reader alone that finds enough bytes gets them at once. *)
Lemma KernelPipeRead_now s t0 qs ms v pid0 pipep x bs q buf locs : kernel_ok s t0 qs ms v ->
  pipe_is s qs ms pid0 pipep x bs q [] -> locs <> [] -> (length locs <= length bs)%nat ->
  mapped s buf PROT_WRITE locs ->
  exists h m, let s' := with_qh h (with_mh m (upd_pipe pipep (pipe_take x bs (length locs))
      (with_mem (mem_write (k_mem s) locs (take (length locs) bs)) s))) in
    KernelPipeRead pid0 buf (Z.of_nat (length locs)) s = Ret (Z.of_nat (length locs)) s' /\
    pipe_holds (pipe_take x bs (length locs)) (drop (length locs) bs) /\
    kernel_ok s' t0 qs ms v.
Proof.
  intros Hok Hpi Hne Hle Hmap.
  assert (0 < Z.of_nat (length locs)) as Hlen by (destruct locs; cbn; [done|lia]).
  destruct (KernelPipeRead_enter _ _ _ _ _ _ _ _ _ _ _ buf _ Hok Hpi Hlen) as (h0 & -> & Hok1 & Hpi1).
  change (default NULL (head ([] ++ [v_run v]))) with (v_run v). rewrite Z.eqb_refl. cbn [negb].
  unfold pipe_read_loop. step (load_pipe_ok _ _ _ (pi_pipe _ _ _ _ _ _ _ _ _ Hpi1)).
  pose proof (pi_holds _ _ _ _ _ _ _ _ _ Hpi1) as (_ & Hn & _). rewrite Hn.
  destruct (Z.ltb_spec (Z.of_nat (length bs)) (Z.of_nat (length locs))); [lia|].
  destruct (running_lookup _ _ _ _ _ Hok) as (xr & Hxr & _).
  pose proof (mem_pcbs _ (so_mem _ _ (ko_sys _ _ _ _ _ Hok)) _ (mk_is_Some _ _ Hxr)) as Hr.
  assert (v_run v <> NULL) as Hrn by lia.
  assert (mapped (with_qh h0 s) buf PROT_WRITE locs) as Hmap1 by by apply (mapped_pt s).
  destruct (pipe_read_finish_ok _ _ _ _ _ _ _ _ _ _ _ _ buf locs Hok1 Hpi1 Hrn Hmap1 Hle (Forall_nil_2 _))
    as (h & m & v' & Hrun & Hholds & Hv' & Hok').
  cbn [read_wakes] in Hv'. subst v'. exists h, m. cbv zeta in *. split; [exact Hrun|]. split; [done|].
  unfold moved_q, moved_m in Hok'. cbn [k_sched with_qh] in Hok'. pose proof (ko_sched _ _ _ _ _ Hok) as Hs.
  rewrite insert_insert_eq, (insert_id qs q) in Hok' by apply (pi_queue _ _ _ _ _ _ _ _ _ Hpi).
  rewrite (insert_id qs) in Hok' by apply (sr_ready _ _ _ _ Hs).
  by rewrite (insert_id ms) in Hok' by apply (sr_blocked _ _ _ _ Hs).
Qed.

End laws.
