(* ===== verification/Steps.v ===== *)
(** The scheduler as a state machine: runs of its operations on the kernel's
    state, and the abstract machine they implement.

    An operation is one call of a function of Scheduler.c by the running
    process or by a trap handler.  A run records the contexts the machine is
    switched to. *)

From stdpp Require Import base gmap list.
From S2P Require Import Prelude Hardware Queue HashMap FrameList PageTable State Scheduler SwitchLaws SchedView SchedLaws.

Inductive kop :=
| OBlock (k : kcont)
| OSleep (n : Z) (k : kcont)
| OKick (k : kcont)
| OTick
| OUnblock (key : Z).

(** Where the caller of the operation is resumed. *)
Definition resumes_at (o : kop) : option kcont :=
  match o with OBlock k | OSleep _ k | OKick k => Some k | OTick | OUnblock _ => None end.

(** * The abstract machine *)

(** Places, pids, and the ticks each process still has to sleep. *)
Record astate := mkAstate { a_view : sview; a_pids : gmap ptr Z; a_ticks : gmap ptr Z }.

(** A sleeper's counter after a tick; whether it expires with it. *)
Definition tick_down (sl : gmap Z ptr) (tk : gmap ptr Z) : gmap ptr Z :=
  map_imap (fun p n => Some (if decide (p ∈ (map_to_list sl).*2) then n - 1 else n)) tk.
Definition last_tick (tk : gmap ptr Z) (p : ptr) : bool :=
  match tk !! p with Some n => n <=? 1 | None => false end.
Definition wakers (tk : gmap ptr Z) (order : list (Z * ptr)) : list (Z * ptr) :=
  filter (fun kp => last_tick tk kp.2 = true) order.

Inductive astep : kop -> astate -> astate -> Prop :=
| a_block k v ps tk i v' : ps !! v_run v = Some i -> v_block i v = Some v' ->
    astep (OBlock k) (mkAstate v ps tk) (mkAstate v' ps tk)
| a_sleep n k v ps tk i v' : 0 < n -> ps !! v_run v = Some i -> v_sleep i v = Some v' ->
    astep (OSleep n k) (mkAstate v ps tk) (mkAstate v' ps (<[v_run v := n]> tk))
| a_sleep_now n k a : n <= 0 -> astep (OSleep n k) a a
| a_kick k v ps tk v' : v_kick v = Some v' -> astep (OKick k) (mkAstate v ps tk) (mkAstate v' ps tk)
| a_kick_alone k a : v_ready (a_view a) = [] -> astep (OKick k) a a
| a_tick v ps tk order : order ≡ₚ map_to_list (v_sleeping v) ->
    astep OTick (mkAstate v ps tk) (mkAstate (v_wake (wakers tk order) v) ps (tick_down (v_sleeping v) tk))
| a_unblock k v ps tk : 0 <= k -> astep (OUnblock k) (mkAstate v ps tk) (mkAstate (v_unblock k v) ps tk).

(** * Runs *)

Section runs.
Context {QH MH : Type} `{HL : HardwareLaws} `{QO : QueueOps QH} `{MO : MapOps MH}
  `{QL : !QueueLaws QH} `{ML : !MapLaws MH}.
Abbreviation kst := (kst QH MH).
Implicit Types s : kst.

Definition exec (o : kop) : M kst Z :=
  match o with
  | OBlock k => blockProcess k
  | OSleep n k => sleepProcess n k
  | OKick k => kickProcess k
  | OTick => tickDownSleepers
  | OUnblock key => unblockProcess key
  end.

(** One operation that succeeds, and the context it switches to. *)
Definition kstep (o : kop) (s : kst) : option (option KernelContext * kst) :=
  match exec o s with
  | Ret r s' => if r =? SUCCESS then Some (None, s') else None
  | Switch kc s' => Some (Some kc, s')
  | _ => None
  end.

(** The idle process never waits, and pids are not negative. *)
Definition allowed (idle : ptr) (o : kop) (s : kst) : bool :=
  match o with
  | OBlock _ => negb (currPCB (k_sched s) =? idle)
  | OSleep n _ => (n <=? 0) || negb (currPCB (k_sched s) =? idle)
  | OUnblock key => 0 <=? key
  | OKick _ | OTick => true
  end.

(** A run of operations, with the processes and contexts switched to. *)
Fixpoint run_ops (idle : ptr) (os : list kop) (s : kst) : option (list (ptr * KernelContext) * kst) :=
  match os with
  | [] => Some ([], s)
  | o :: os' =>
    if allowed idle o s then
      match kstep o s with
      | None => None
      | Some (l, s1) =>
        match run_ops idle os' s1 with
        | None => None
        | Some (log, s2) =>
          Some (match l with Some kc => (currPCB (k_sched s1), kc) :: log | None => log end, s2)
        end
      end
    else None
  end.

(** The concrete state [s] implements the abstract state [a]; the process
    [idle] is running or ready. *)
Definition implements (t0 idle : ptr) (s : kst) (a : astate) : Prop :=
  (exists qs ms, kernel_ok s t0 qs ms (a_view a)) /\
  a_pids a = pids (pcbs (k_obj s)) /\
  a_ticks a = numRemainingDelayTicks <$> pcbs (k_obj s) /\
  idle ∈ v_run (a_view a) :: v_ready (a_view a).

(** The process [p] is suspended in the context [kc]. *)
Definition parked (p : ptr) (kc : KernelContext) (s : kst) : Prop :=
  currPCB (k_sched s) <> p /\ exists x, pcbs (k_obj s) !! p = Some x /\ kctxt x = Some (KSaved kc).

(** ** A switch *)

Lemma gave_proj {A} (f : PCB_t -> A) t0 s cur k n kc s' : (forall x kc, f (with_kctxt kc x) = f x) ->
  cur <> n -> gave t0 s cur k n kc s' -> f <$> pcbs (k_obj s') = f <$> pcbs (k_obj s).
Proof.
  intros Hf Hne (x & fs & Hx & _ & _ & Hsw). rewrite (sw_pcbs _ _ _ _ _ _ _ _ _ Hsw).
  apply map_eq. intros p. rewrite !lookup_fmap. destruct (decide (p = n)) as [->|Hp].
  - rewrite lookup_insert_eq, Hx. cbn. by rewrite Hf.
  - rewrite lookup_insert_ne by done. unfold saved. case_match; [done|].
    destruct (decide (p = cur)) as [->|Hpc]; [rewrite lookup_alter_eq|by rewrite lookup_alter_ne].
    destruct (_ !! cur); [|done]. cbn. by rewrite Hf.
Qed.

(** The caller is parked, the next process resumes where it was parked, the
    others stay parked. *)
Lemma gave_caller t0 s cur k n kc s' x : cur <> n -> cur <> NULL -> pcbs (k_obj s) !! cur = Some x ->
  gave t0 s cur k n kc s' -> parked cur (mkKctxt k (k_frame s)) s'.
Proof.
  intros Hne Hnz Hx (y & fs & Hy & _ & _ & Hsw). split.
  - by rewrite (sw_sched _ _ _ _ _ _ _ _ _ Hsw).
  - rewrite (sw_pcbs _ _ _ _ _ _ _ _ _ Hsw), lookup_insert_ne by done. unfold saved.
    destruct (Z.eqb_spec cur NULL); [done|]. rewrite lookup_alter_eq, Hx. by eexists.
Qed.

Lemma gave_parked t0 s cur k n kc s' p kp : cur <> p -> gave t0 s cur k n kc s' ->
  (exists x, pcbs (k_obj s) !! p = Some x /\ kctxt x = Some (KSaved kp)) ->
  if decide (p = n) then kc = kp else parked p kp s'.
Proof.
  intros Hne (y & fs & Hy & Hkc & _ & Hsw) (x & Hx & Hk). case_decide as Hpn.
  - subst p. simplify_eq. destruct Hkc as [Hkc|[Hkc _]]; congruence.
  - split; [by rewrite (sw_sched _ _ _ _ _ _ _ _ _ Hsw)|]. exists x. split; [|done].
    rewrite (sw_pcbs _ _ _ _ _ _ _ _ _ Hsw), lookup_insert_ne by done. unfold saved.
    case_match; [done|]. by rewrite lookup_alter_ne.
Qed.

(** ** One operation *)

(** The saved contexts. *)
Definition ctxts (s : kst) : gmap ptr (option kctxt_t) := kctxt <$> pcbs (k_obj s).

(** What an operation [o] that begins in [s] does to the contexts. *)
Definition ctxt_step (t0 : ptr) (o : kop) (s : kst) (l : option KernelContext) (s' : kst) : Prop :=
  match l with
  | None => ctxts s' = ctxts s /\ currPCB (k_sched s') = currPCB (k_sched s)
  | Some kc => exists k s0, resumes_at o = Some k /\ k_frame s0 = k_frame s /\ ctxts s0 = ctxts s /\
      currPCB (k_sched s) <> currPCB (k_sched s') /\
      gave t0 s0 (currPCB (k_sched s)) k (currPCB (k_sched s')) kc s'
  end.

Definition step_spec (t0 idle : ptr) (o : kop) (s : kst) (a : astate) : Prop :=
  exists l s' a', kstep o s = Some (l, s') /\ astep o a a' /\ implements t0 idle s' a' /\ ctxt_step t0 o s l s'.

Lemma kstep_switch o s kc s' : exec o s = Switch kc s' -> kstep o s = Some (Some kc, s').
Proof. unfold kstep. by intros ->. Qed.
Lemma kstep_ret o s s' : exec o s = Ret SUCCESS s' -> kstep o s = Some (None, s').
Proof. unfold kstep. by intros ->. Qed.

(** An operation that switches: [s0] is the state in which it did. *)
Lemma switching_spec t0 idle o s s0 s' v v' ps tk k kc qs ms qs' ms' :
  kernel_ok s t0 qs ms v -> exec o s = Switch kc s' -> resumes_at o = Some k ->
  kernel_ok s' t0 qs' ms' v' -> gave t0 s0 (v_run v) k (v_run v') kc s' ->
  k_frame s0 = k_frame s -> ctxts s0 = ctxts s -> v_run v <> v_run v' ->
  pids (pcbs (k_obj s0)) = ps -> numRemainingDelayTicks <$> pcbs (k_obj s0) = tk ->
  astep o (mkAstate v (pids (pcbs (k_obj s))) (numRemainingDelayTicks <$> pcbs (k_obj s))) (mkAstate v' ps tk) ->
  idle ∈ v_run v' :: v_ready v' ->
  step_spec t0 idle o s (mkAstate v (pids (pcbs (k_obj s))) (numRemainingDelayTicks <$> pcbs (k_obj s))).
Proof.
  intros Hok Hrun Hk Hok' Hg Hf Hc Hne <- <- Ha Hid. eexists (Some kc), s', _.
  split; [by apply kstep_switch|]. split; [exact Ha|]. split.
  - split; [by exists qs', ms'|]. split; [|split; [|exact Hid]]; symmetry; by eapply gave_proj.
  - exists k, s0. rewrite (sr_run _ _ _ _ (ko_sched _ _ _ _ _ Hok)), (sr_run _ _ _ _ (ko_sched _ _ _ _ _ Hok')).
    done.
Qed.

(** The head of the ready queue is not the running process. *)
Lemma head_ne s t0 qs ms v n r : kernel_ok s t0 qs ms v -> v_ready v = n :: r -> v_run v <> n.
Proof.
  intros Hok Hr <-. eapply run_not_ready; [apply (ko_procs _ _ _ _ _ Hok)|]. rewrite Hr. set_solver.
Qed.

Lemma idle_ready idle (v : sview) : idle ∈ v_run v :: v_ready v -> v_run v <> idle ->
  exists n r, v_ready v = n :: r /\ idle ∈ v_ready v.
Proof. intros Hid Hne. destruct (v_ready v) as [|n r]; set_solver. Qed.

Lemma block_spec t0 idle s a k : implements t0 idle s a -> allowed idle (OBlock k) s = true ->
  step_spec t0 idle (OBlock k) s a.
Proof.
  destruct a as [v ps tk]. intros ((qs & ms & Hok) & Hps & Htk & Hid) Hal. cbn in Hok, Hps, Htk, Hid. subst ps tk.
  cbn in Hal. rewrite (sr_run _ _ _ _ (ko_sched _ _ _ _ _ Hok)) in Hal. apply negb_true_iff, Z.eqb_neq in Hal.
  destruct (idle_ready _ _ Hid Hal) as (n & r & Hr & Hidr).
  destruct (running_lookup _ _ _ _ _ Hok) as (x & Hx & _).
  assert (v_block (pid x) v = Some (mkView n r (<[pid x := v_run v]> (v_blocked v)) (v_sleeping v))) as Hb
    by (unfold v_block; by rewrite Hr).
  destruct (blockProcess_ok _ _ _ _ _ _ k _ Hok Hx Hb) as (kc & s' & h & m & Hrun & Hok' & Hg).
  eapply (switching_spec t0 idle _ s (with_qh h (with_mh m s))); try done; [by eapply head_ne| |].
  - econstructor; [|done]. apply lookup_pids. by exists x.
  - cbn. by rewrite <- Hr.
Qed.

Lemma sleep_spec t0 idle s a n k : implements t0 idle s a -> allowed idle (OSleep n k) s = true ->
  step_spec t0 idle (OSleep n k) s a.
Proof.
  destruct a as [v ps tk]. intros Himp Hal. pose proof Himp as ((qs & ms & Hok) & Hps & Htk & Hid).
  cbn in Hok, Hps, Htk, Hid. subst ps tk. cbn in Hal. destruct (Z.leb_spec n 0) as [Hn|Hn].
  { exists None, s, (mkAstate v (pids (pcbs (k_obj s))) (numRemainingDelayTicks <$> pcbs (k_obj s))).
    split; [apply kstep_ret; by apply sleepProcess_now|]. by split; [constructor|]. }
  rewrite (sr_run _ _ _ _ (ko_sched _ _ _ _ _ Hok)) in Hal. apply negb_true_iff, Z.eqb_neq in Hal.
  destruct (idle_ready _ _ Hid Hal) as (m & r & Hr & Hidr).
  destruct (running_lookup _ _ _ _ _ Hok) as (x & Hx & _).
  assert (v_sleep (pid x) v = Some (mkView m r (v_blocked v) (<[pid x := v_run v]> (v_sleeping v)))) as Hb
    by (unfold v_sleep; by rewrite Hr).
  destruct (sleepProcess_ok _ _ _ _ _ _ n k _ Hok Hn Hx Hb) as (kc & s' & h & mm & Hrun & Hok' & Hg).
  eapply (switching_spec t0 idle (OSleep n k) s _ _ _ _ _ _ _ _ _ _ _ _ Hok Hrun eq_refl Hok' Hg); try done.
  - unfold ctxts. cbn. rewrite fmap_insert, insert_id; [done|]. by rewrite lookup_fmap, Hx.
  - by eapply head_ne.
  - cbn. rewrite (pids_insert _ _ x); [|done|done]. rewrite fmap_insert. econstructor; [done| |done].
    apply lookup_pids. by exists x.
  - cbn. by rewrite <- Hr.
Qed.

Lemma kick_spec t0 idle s a k : implements t0 idle s a -> step_spec t0 idle (OKick k) s a.
Proof.
  destruct a as [v ps tk]. intros Himp. pose proof Himp as ((qs & ms & Hok) & Hps & Htk & Hid).
  cbn in Hok, Hps, Htk, Hid. subst ps tk. destruct (v_ready v) as [|n r] eqn:Hr.
  { exists None, s, (mkAstate v (pids (pcbs (k_obj s))) (numRemainingDelayTicks <$> pcbs (k_obj s))).
    split; [apply kstep_ret; by eapply kickProcess_idle|]. by split; [constructor|]. }
  assert (v_kick v = Some (mkView n (r ++ [v_run v]) (v_blocked v) (v_sleeping v))) as Hb
    by (unfold v_kick; by rewrite Hr).
  destruct (kickProcess_ok _ _ _ _ _ k _ Hok Hb) as (kc & s' & h & Hrun & Hok' & Hg).
  eapply (switching_spec t0 idle (OKick k) s _ _ _ _ _ _ _ _ _ _ _ _ Hok Hrun eq_refl Hok' Hg); try done.
  - by eapply head_ne.
  - by constructor.
  - cbn. set_solver.
Qed.

Lemma unblock_spec t0 idle s a k : implements t0 idle s a -> allowed idle (OUnblock k) s = true ->
  step_spec t0 idle (OUnblock k) s a.
Proof.
  destruct a as [v ps tk]. intros ((qs & ms & Hok) & Hps & Htk & Hid) Hk%Z.leb_le. cbn in Hok, Hps, Htk, Hid.
  destruct (unblockProcess_ok _ _ _ _ _ k Hok Hk) as (h & m & Hrun & Hok').
  exists None, (with_qh h (with_mh m s)), (mkAstate (v_unblock k v) ps tk).
  split; [by apply kstep_ret|]. split; [by constructor|]. split; [|done].
  split; [by eexists _, _|]. split; [done|]. split; [done|]. cbn. unfold v_unblock.
  destruct (v_blocked v !! k); [cbn; set_solver|done].
Qed.

(** *** The clock *)

Lemma wakers_woken m order : wakers (numRemainingDelayTicks <$> m) order = woken m order.
Proof.
  unfold wakers, woken. apply list_filter_iff. intros [k p]. unfold last_tick, expires. cbn.
  rewrite lookup_fmap. by destruct (m !! p).
Qed.

Lemma tick_down_all m sl order : NoDup order.*2 -> order ≡ₚ map_to_list sl ->
  numRemainingDelayTicks <$> tick_all order.*2 m = tick_down sl (numRemainingDelayTicks <$> m).
Proof.
  intros Hnd Hord. assert (forall p, p ∈ order.*2 <-> p ∈ (map_to_list sl).*2) as Hin
    by (intros p; by rewrite Hord).
  apply map_eq. intros p. unfold tick_down. rewrite map_lookup_imap, !lookup_fmap.
  destruct (decide (p ∈ order.*2)) as [Hp|Hp].
  - rewrite lookup_tick_all by done. apply Hin in Hp. destruct (m !! p); [|done].
    cbn -[map_to_list]. by rewrite decide_True.
  - rewrite lookup_tick_all_ne by done. rewrite Hin in Hp. destruct (m !! p); [|done].
    cbn -[map_to_list]. by rewrite decide_False.
Qed.

Lemma ctxts_tick_all l m : kctxt <$> tick_all l m = kctxt <$> m.
Proof.
  revert m. induction l as [|p l IH]; intros m; [done|]. cbn. unfold tick_all in IH. rewrite IH.
  apply map_eq. intros q. rewrite !lookup_fmap, lookup_alter. case_decide; [|done].
  subst. by destruct (m !! q).
Qed.
Lemma pids_tick_all l m : pids (tick_all l m) = pids m.
Proof.
  revert m. induction l as [|p l IH]; intros m; [done|]. cbn. unfold tick_all in IH. rewrite IH.
  by apply pids_alter.
Qed.

Lemma tick_spec t0 idle s a : implements t0 idle s a -> step_spec t0 idle OTick s a.
Proof.
  destruct a as [v ps tk]. intros ((qs & ms & Hok) & Hps & Htk & Hid). cbn in Hok, Hps, Htk, Hid. subst ps tk.
  destruct (tickDownSleepers_ok _ _ _ _ _ Hok) as (order & h & m & Hord & Hrun & Hok').
  assert (NoDup order.*2) as Hnd by (rewrite Hord; eapply sleeping_nodup, Hok).
  eexists None, _, _. split; [apply kstep_ret; exact Hrun|]. split; [by constructor|]. split.
  - split; [rewrite <- wakers_woken in Hok'; by eexists _, _|]. cbn. rewrite pids_tick_all. split; [done|].
    rewrite (tick_down_all _ (v_sleeping v)) by done.
    split; [done|set_solver].
  - split; [|done]. apply ctxts_tick_all.
Qed.

(** Every allowed operation succeeds and implements the abstract machine. *)
Lemma kstep_ok t0 idle o s a : implements t0 idle s a -> allowed idle o s = true -> step_spec t0 idle o s a.
Proof.
  destruct o; eauto using block_spec, sleep_spec, kick_spec, tick_spec, unblock_spec.
Qed.

(** ** Runs *)

Lemma run_ops_cons idle o os s log s' : run_ops idle (o :: os) s = Some (log, s') ->
  allowed idle o s = true /\ exists l s1 log', kstep o s = Some (l, s1) /\ run_ops idle os s1 = Some (log', s') /\
    log = match l with Some kc => (currPCB (k_sched s1), kc) :: log' | None => log' end.
Proof.
  cbn [run_ops]. destruct (allowed idle o s); [|done]. destruct (kstep o s) as [[l s1]|]; [|done].
  destruct (run_ops idle os s1) as [[log' s2]|] eqn:Hr; [|done]. intros [= <- <-]. split; [done|].
  by exists l, s1, log'.
Qed.

(** The invariant rule for runs. *)
Lemma run_ops_ind t0 idle (P : list kop -> astate -> Prop) :
  (forall d o s a a', P d a -> implements t0 idle s a -> astep o a a' -> P (d ++ [o]) a') ->
  forall os s a log s', implements t0 idle s a -> P [] a -> run_ops idle os s = Some (log, s') ->
  exists a', implements t0 idle s' a' /\ P os a'.
Proof.
  intros Hstep. enough (forall os d s a log s', implements t0 idle s a -> P d a -> run_ops idle os s = Some (log, s') ->
    exists a', implements t0 idle s' a' /\ P (d ++ os) a') as Hgen by (intros os; apply (Hgen os [])).
  induction os as [|o os IH]; intros d s a log s' Hi HP Hrun.
  - injection Hrun as <- <-. rewrite app_nil_r. by exists a.
  - apply run_ops_cons in Hrun as (Hal & l & s1 & log' & Hk & Hrun & _).
    destruct (kstep_ok _ _ _ _ _ Hi Hal) as (l' & s1' & a' & Hk' & Ha & Hi' & _). simplify_eq.
    rewrite cons_middle, (assoc_L (++)). eapply IH; [done| |done]. by eapply Hstep.
Qed.

Lemma implements_procs t0 idle s a : implements t0 idle s a -> procs_ok (a_pids a) (a_view a).
Proof. intros ((qs & ms & Hok) & -> & _). apply Hok. Qed.

(** No process is lost or made. *)
Lemma astep_places o a a' : procs_ok (a_pids a) (a_view a) -> astep o a a' ->
  places (a_view a') ≡ₚ places (a_view a) /\ a_pids a' = a_pids a.
Proof.
  intros Hok Ha. split; [|by destruct Ha].
  destruct Ha as [| | | | |v ps tk order Hord|]; cbn in *; try done.
  - eapply v_block_places; [|done]. by eapply run_not_blocked.
  - eapply v_sleep_places; [|done]. by eapply run_not_sleeping.
  - by eapply v_kick_places.
  - apply v_wake_places.
    + apply (sublist_NoDup _ order.*1); [rewrite Hord; apply NoDup_fst_map_to_list|].
      apply fmap_sublist, sublist_filter.
    + intros k p Hin%list_elem_of_filter. apply elem_of_map_to_list. rewrite <- Hord. apply Hin.
  - apply v_unblock_places.
Qed.

Lemma run_ops_kicks t0 idle k i : forall s a p, implements t0 idle s a -> v_ready (a_view a) !! i = Some p ->
  exists log s', run_ops idle (replicate (S i) (OKick k)) s = Some (log, s') /\ currPCB (k_sched s') = p.
Proof.
  induction i as [|i IH]; intros s a p Hi Hp;
    destruct (kstep_ok t0 idle (OKick k) s a Hi eq_refl) as (l & s1 & a1 & Hk & Ha & Hi1 & _);
    cbn [replicate run_ops allowed]; rewrite Hk; inversion Ha as [| | |? v ps tk v' Hv| ? ? He| |]; subst;
    try (by rewrite He in Hp); unfold v_kick in Hv; cbn in Hp; destruct (v_ready v) as [|n r]; try done;
    injection Hv as <-; cbn in Hp.
  - destruct Hi1 as ((qs & ms & Hok) & _). eexists _, s1. split; [done|].
    rewrite (sr_run _ _ _ _ (ko_sched _ _ _ _ _ Hok)). cbn. congruence.
  - destruct (IH s1 _ p Hi1) as (log & s2 & Hrun & Hc).
    { cbn. rewrite lookup_app_l; [done|]. by eapply lookup_lt_Some. }
    eexists _, s2. by cbn in Hrun; rewrite Hrun.
Qed.

(** *** Sleepers *)

Definition is_tick (o : kop) : bool := match o with OTick => true | _ => false end.
Definition count_ticks (os : list kop) : Z := Z.of_nat (length (filter (fun o => is_tick o = true) os)).

Lemma count_ticks_snoc d o : count_ticks (d ++ [o]) = count_ticks d + if is_tick o then 1 else 0.
Proof. unfold count_ticks. rewrite filter_app, length_app. rewrite Nat2Z.inj_add. by destruct o. Qed.

Definition asleep (i : Z) (p : ptr) (n : Z) (a : astate) : Prop :=
  v_sleeping (a_view a) !! i = Some p /\ a_ticks a !! p = Some n.

Lemma asleep_tick_down i p n v tk : v_sleeping v !! i = Some p -> tk !! p = Some n ->
  tick_down (v_sleeping v) tk !! p = Some (n - 1).
Proof.
  intros Hi Hn. unfold tick_down. rewrite map_lookup_imap, Hn. cbn -[map_to_list]. rewrite decide_True; [done|].
  apply elem_of_map_to_list in Hi. apply list_elem_of_fmap. by exists (i, p).
Qed.

Lemma in_wakers tk v order i p n : order ≡ₚ map_to_list (v_sleeping v) -> v_sleeping v !! i = Some p ->
  tk !! p = Some n -> (i ∈ (wakers tk order).*1 <-> n <= 1) /\ (n <= 1 -> p ∈ (wakers tk order).*2).
Proof.
  intros Hord Hi Hn. assert ((i, p) ∈ order) as Hin by (rewrite Hord; by apply elem_of_map_to_list).
  assert (n <= 1 -> (i, p) ∈ wakers tk order) as Hw.
  { intros Hle. apply list_elem_of_filter. split; [|done]. unfold last_tick. cbn. rewrite Hn. by apply Z.leb_le. }
  split; [split|].
  - intros ([i' p'] & -> & Hin')%list_elem_of_fmap. apply list_elem_of_filter in Hin' as [Hl Hin'].
    rewrite Hord, elem_of_map_to_list in Hin'. cbn in *. simplify_eq. unfold last_tick in Hl. rewrite Hn in Hl.
    by apply Z.leb_le.
  - intros Hle. apply list_elem_of_fmap. exists (i, p). auto.
  - intros Hle. apply list_elem_of_fmap. exists (i, p). auto.
Qed.

(** A sleeper stays asleep until its last tick, and is ready then. *)
Lemma astep_asleep o a a' i p n : procs_ok (a_pids a) (a_view a) -> astep o a a' -> asleep i p n a ->
  match o with
  | OTick => if decide (n <= 1) then p ∈ v_ready (a_view a') /\ v_sleeping (a_view a') !! i = None
             else asleep i p (n - 1) a'
  | _ => asleep i p n a'
  end.
Proof.
  intros Hok Ha [Hi Hn]. destruct Ha as [k v ps tk j v' Hj Hv|n' k v ps tk j v' Hn' Hj Hv| |k v ps tk v' Hv| |v ps tk order Hord|k v ps tk Hk];
    cbn in Hok, Hi, Hn; try done.
  - unfold v_block in Hv. destruct (v_ready v); [done|]. by injection Hv as <-.
  - pose proof (run_not_sleeping _ _ Hok _ Hj) as Hne.
    unfold v_sleep in Hv. destruct (v_ready v); [done|]. injection Hv as <-. split; cbn.
    + rewrite lookup_insert_ne by (intros ->; congruence). done.
    + apply (po_sleeping _ _ Hok) in Hi as Hpi. rewrite lookup_insert_ne by congruence. done.
  - unfold v_kick in Hv. destruct (v_ready v); [done|]. by injection Hv as <-.
  - destruct (in_wakers tk v order i p n Hord Hi Hn) as [Hw Hw2].
    case_decide as Hle; [split|split]; cbn.
    + apply elem_of_app. right. by apply Hw2.
    + rewrite lookup_delete_woken. by rewrite decide_True by by apply Hw.
    + rewrite lookup_delete_woken. by rewrite decide_False by by rewrite Hw.
    + by eapply asleep_tick_down.
  - unfold asleep. cbn. unfold v_unblock. by destruct (v_blocked v !! k).
Qed.

(** *** Suspended processes *)

Lemma parked_ctxts p kc s : parked p kc s <-> currPCB (k_sched s) <> p /\ ctxts s !! p = Some (Some (KSaved kc)).
Proof.
  unfold parked, ctxts. rewrite lookup_fmap_Some. split; intros [? (x & ? & ?)]; split; try done; exists x; auto.
Qed.

Lemma ctxt_step_parked t0 o s l s' p kp : ctxt_step t0 o s l s' -> parked p kp s ->
  match l with
  | Some kc => if decide (p = currPCB (k_sched s')) then kc = kp else parked p kp s'
  | None => parked p kp s'
  end.
Proof.
  intros Hs [Hne Hp]%parked_ctxts. destruct l as [kc|].
  - destruct Hs as (k & s0 & _ & _ & Hc & Hn & Hg). eapply gave_parked; [done|done|].
    rewrite <- Hc in Hp. by apply lookup_fmap_Some in Hp as (x & ? & ?); exists x.
  - destruct Hs as [Hc Hr]. apply parked_ctxts. by rewrite Hc, Hr.
Qed.

Lemma ctxt_step_caller t0 o s kc s' k t0' idle a : ctxt_step t0 o s (Some kc) s' -> resumes_at o = Some k ->
  implements t0' idle s a -> parked (currPCB (k_sched s)) (mkKctxt k (k_frame s)) s'.
Proof.
  intros (k' & s0 & Hk & Hf & Hc & Hne & Hg) Hk' ((qs & ms & Hok) & _). rewrite Hk in Hk'. injection Hk' as ->.
  rewrite <- Hf. destruct (ko_running _ _ _ _ _ Hok) as (x & fs & r1 & Hx & _).
  assert (is_Some (ctxts s0 !! currPCB (k_sched s))) as [c Hc0]
    by (rewrite Hc; unfold ctxts; rewrite lookup_fmap, Hx; by eexists).
  apply lookup_fmap_Some in Hc0 as (x0 & _ & Hx0). eapply gave_caller; [done| |done|done].
  pose proof (mem_pcbs _ (so_mem _ _ (ko_sys _ _ _ _ _ Hok)) _ (mk_is_Some _ _ Hx)) as Hpos.
  intros Heq; rewrite Heq in Hpos; lia.
Qed.

Lemma parked_run t0 idle p kp os : forall s a log s' l1 kc l2, implements t0 idle s a -> parked p kp s ->
  run_ops idle os s = Some (log, s') -> log = l1 ++ (p, kc) :: l2 -> p ∉ l1.*1 -> kc = kp.
Proof.
  induction os as [|o os IH]; intros s a log s' l1 kc l2 Hi Hp Hrun Hlog Hni.
  { injection Hrun as <- <-. by destruct l1. }
  apply run_ops_cons in Hrun as (Hal & l & s1 & log' & Hk & Hrun & ->).
  destruct (kstep_ok _ _ _ _ _ Hi Hal) as (l' & s1' & a' & Hk' & _ & Hi' & Hc). simplify_eq.
  pose proof (ctxt_step_parked _ _ _ _ _ _ _ Hc Hp) as Hp'. destruct l as [kc'|]; [|by eapply IH].
  destruct l1 as [|[q kq] l1]; simplify_eq/=.
  - by rewrite decide_True in Hp'.
  - rewrite decide_False in Hp' by set_solver. eapply (IH s1 _ _ _ l1); try done. set_solver.
Qed.

End runs.
