(* ===== verification/PipeLaws.v ===== *)
(** Pipes as streams: what a run of the kernel does to the bytes of a pipe. *)

From stdpp Require Import base gmap list.
From S2P Require Import Prelude Hardware Queue HashMap FrameList State UserMem Scheduler SyncObjects LoadProgram GeneralCalls Tty Machine PageTable.
From S2P Require Import SwitchLaws SchedView SchedLaws SyncLaws Steps.

Section laws.
Context {QH MH : Type} `{HL : HardwareLaws} `{QO : QueueOps QH} `{MO : MapOps MH}
  `{QL : !QueueLaws QH} `{ML : !MapLaws MH} `{FS : FileSystem}.
Abbreviation kst := (kst QH MH).
Implicit Types s : kst.

(** The object [pipep] holds [bs]. *)
Definition pipe_at s (pipep : ptr) (bs : list Z) : Prop := exists x, pipes (k_obj s) !! pipep = Some x /\ pipe_holds x bs.

Lemma pipe_holds_det x bs bs' : pipe_holds x bs -> pipe_holds x bs' -> bs = bs'.
Proof.
  intros (_ & Hn & Ht) (_ & Hn' & Ht'). assert (length bs = length bs') as Hl by lia. rewrite Hl, Ht' in Ht. by apply (inj (fmap Some)) in Ht.
Qed.

Lemma pipe_at_is s qs ms id pipep x bs q ws bs' : pipe_is s qs ms id pipep x bs q ws -> pipe_at s pipep bs' -> bs' = bs.
Proof. intros [_ _ Hx Hh _ _ _] (y & Hy & Hh'). assert (y = x) as -> by congruence. by eapply pipe_holds_det. Qed.

(** ** The object after a call *)

Lemma pipe_written s t0 qs ms v id pipep x bs q ws buf locs s' : kernel_ok s t0 qs ms v -> pipe_is s qs ms id pipep x bs q ws ->
  mapped s buf PROT_READ locs -> locs <> [] -> Z.of_nat (length locs) < 2 ^ 31 -> Forall (fun w => is_Some (pcbs (k_obj s) !! w)) ws ->
  KernelPipeWrite id buf (Z.of_nat (length locs)) s = Ret (Z.of_nat (length locs)) s' ->
  pipe_at s' pipep (bs ++ (mem_get (k_mem s) <$> locs)).
Proof.
  intros Hok Hp Hm Hne Hint Hws Hrun. assert (0 < Z.of_nat (length locs)) as Hpos by (destruct locs; cbn; [done|lia]).
  destruct (Z.leb_spec (Z.of_nat (length bs) + Z.of_nat (length locs)) PIPE_MAX_BYTES) as [Hfit|Hfull].
  - destruct (KernelPipeWrite_ok _ _ _ _ _ _ _ _ _ _ _ _ _ Hok Hp Hm Hne Hfit Hws) as (h & m & v' & Hrun' & Hh & _).
    rewrite Hrun' in Hrun. injection Hrun as <-. eexists. split; [apply lookup_insert_eq|exact Hh].
  - destruct (Z.lt_ge_cases (Z.of_nat (length bs) + Z.of_nat (length locs)) (2 ^ 31)) as [Hlt|Hge].
    + rewrite (KernelPipeWrite_full _ _ _ _ _ _ _ _ _ _ _ _ _ Hok Hp) in Hrun by lia. injection Hrun as He _. pose proof ERROR_neg. lia.
    + by rewrite (KernelPipeWrite_overflow _ _ _ _ _ _ _ _ _ _ _ _ _ Hok Hp) in Hrun by lia.
Qed.

Lemma pipe_was_read s t0 qs ms v id pipep x bs q buf locs s' : kernel_ok s t0 qs ms v -> pipe_is s qs ms id pipep x bs q [] ->
  mapped s buf PROT_WRITE locs -> locs <> [] -> NoDup locs -> (length locs <= length bs)%nat ->
  KernelPipeRead id buf (Z.of_nat (length locs)) s = Ret (Z.of_nat (length locs)) s' ->
  pipe_at s' pipep (drop (length locs) bs) /\ mem_get (k_mem s') <$> locs = take (length locs) bs.
Proof.
  intros Hok Hp Hm Hne Hnd Hle Hrun. destruct (KernelPipeRead_now _ _ _ _ _ _ _ _ _ _ _ _ Hok Hp Hne Hle Hm) as (h & m & Hrun' & Hh & _).
  rewrite Hrun' in Hrun. injection Hrun as <-. split; [eexists; split; [apply lookup_insert_eq|exact Hh]|].
  apply mem_get_write; [done|]. rewrite length_take. lia.
Qed.

(** A write while nobody waits: the pipe with the bytes added. *)
Lemma pipe_write_alone s t0 qs ms v id pipep x bs q buf locs : kernel_ok s t0 qs ms v -> pipe_is s qs ms id pipep x bs q [] ->
  mapped s buf PROT_READ locs -> locs <> [] -> Z.of_nat (length bs) + Z.of_nat (length locs) <= PIPE_MAX_BYTES ->
  let data := mem_get (k_mem s) <$> locs in
  exists s1, KernelPipeWrite id buf (Z.of_nat (length locs)) s = Ret (Z.of_nat (length locs)) s1 /\ kernel_ok s1 t0 qs ms v /\
    pipe_is s1 qs ms id pipep (pipe_append x bs data) (bs ++ data) q [] /\ k_pt s1 = k_pt s /\ k_mem s1 = k_mem s.
Proof.
  intros Hok Hp Hm Hne Hfit data. pose proof (ko_sched _ _ _ _ _ Hok) as Hs.
  destruct (KernelPipeWrite_ok _ _ _ _ _ _ _ _ _ _ _ _ _ Hok Hp Hm Hne Hfit (Forall_nil_2 _)) as (h & m & v' & Hrun & Hh & Hv & Hok').
  cbn [head] in Hv. subst v'. eexists. split; [exact Hrun|]. unfold moved_q, moved_m in Hok'.
  rewrite (insert_id qs) in Hok' by apply (sr_ready _ _ _ _ Hs). rewrite (insert_id ms) in Hok' by apply (sr_blocked _ _ _ _ Hs).
  split; [done|]. split; [|done]. destruct Hp. split; try done. apply lookup_insert_eq.
Qed.

(** A reader that was blocked goes on. *)
Definition reading (k : kcont) (pipep q buf : ptr) (len : Z) : Prop := k = KPipeReadTurn pipep q buf len \/ k = KPipeReadBytes pipep q buf len.

Lemma pipe_reader_went_on s t0 qs ms v id pipep x bs q ws buf locs k s' : kernel_ok s t0 qs ms v -> pipe_is s qs ms id pipep x bs q (v_run v :: ws) ->
  mapped s buf PROT_WRITE locs -> NoDup locs -> (length locs <= length bs)%nat -> Forall (fun w => is_Some (pcbs (k_obj s) !! w)) ws ->
  reading k pipep q buf (Z.of_nat (length locs)) -> resume k s = Ret tt s' ->
  pipe_at s' pipep (drop (length locs) bs) /\ mem_get (k_mem s') <$> locs = take (length locs) bs.
Proof.
  intros Hok Hp Hm Hnd Hle Hws Hk Hrun. destruct (running_lookup _ _ _ _ _ Hok) as (xr & Hxr & _).
  assert (v_run v <> NULL) as Hrn by (pose proof (mem_pcbs _ (so_mem _ _ (ko_sys _ _ _ _ _ Hok)) _ (mk_is_Some _ _ Hxr)); lia).
  destruct (pipe_read_finish_ok _ _ _ _ _ _ _ _ _ _ _ _ buf locs Hok Hp Hrn Hm Hle Hws) as (h & m & v' & Hfin & Hh & _).
  assert (pipe_read_loop pipep q buf (Z.of_nat (length locs)) s = pipe_read_finish pipep q buf (Z.of_nat (length locs)) s) as Hloop.
  { unfold pipe_read_loop. step (load_pipe_ok _ _ _ (pi_pipe _ _ _ _ _ _ _ _ _ Hp)).
    pose proof (pi_holds _ _ _ _ _ _ _ _ _ Hp) as (_ & Hn & _). rewrite Hn. destruct (Z.ltb_spec (Z.of_nat (length bs)) (Z.of_nat (length locs))); [lia|done]. }
  cbv zeta in Hfin. rewrite <- Hloop in Hfin.
  assert (resume k s = set_return (Z.of_nat (length locs)) (with_qh h (with_mh m (upd_pipe pipep (pipe_take x bs (length locs))
    (with_mem (mem_write (k_mem s) locs (take (length locs) bs)) s))))) as Hres by (destruct Hk as [-> | ->]; cbn [resume]; by step Hfin).
  rewrite Hres in Hrun. injection Hrun as <-. split; [eexists; split; [apply lookup_insert_eq|exact Hh]|].
  apply mem_get_write; [done|]. rewrite length_take. lia.
Qed.

(** A reader that blocks, behind others or for want of bytes, takes nothing. *)
Lemma pipe_reader_waits s t0 qs ms v xr id pipep x bs q ws buf len v' kc s' : kernel_ok s t0 qs ms v -> pipe_is s qs ms id pipep x bs q ws ->
  0 < len -> v_run v ∉ ws -> ws <> [] \/ Z.of_nat (length bs) < len -> pcbs (k_obj s) !! v_run v = Some xr -> v_block (pid xr) v = Some v' ->
  KernelPipeRead id buf len s = Switch kc s' -> pipes (k_obj s') = pipes (k_obj s).
Proof.
  intros Hok Hp Hlen Hni Hwhy Hx Hv Hrun. destruct ws as [|w ws].
  - destruct Hwhy as [?|Hfew]; [done|].
    destruct (KernelPipeRead_wait _ _ _ _ _ _ _ _ _ _ _ buf _ _ Hok Hp Hlen Hfew Hx Hv) as (kc' & s2 & h & m & Hrun' & _ & Hg).
    rewrite Hrun' in Hrun. injection Hrun as _ <-. destruct Hg as (y & fs & _ & _ & _ & Hsw). by rewrite (sw_pipes _ _ _ _ _ _ _ _ _ Hsw).
  - assert (w <> v_run v) as Hw by set_solver.
    destruct (KernelPipeRead_turn _ _ _ _ _ _ _ _ _ _ _ w ws buf _ v' Hok Hp Hlen Hw Hx Hv) as (kc' & s2 & h & m & Hrun' & _ & Hg).
    rewrite Hrun' in Hrun. injection Hrun as _ <-. destruct Hg as (y & fs & _ & _ & _ & Hsw). by rewrite (sw_pipes _ _ _ _ _ _ _ _ _ Hsw).
Qed.

(** ** Runs *)

(** The readers [ws] exist. *)
Definition readers s (ws : list ptr) : Prop := Forall (fun w => is_Some (pcbs (k_obj s) !! w)) ws.

(** One event in the life of the pipe [id], whose object is [pipep]: the
    bytes written to it and the bytes that a reader has in its buffer
    afterwards. A write and a read at once; a read that has to wait; a reader
    that goes on, with enough bytes; and anything that leaves the object
    alone. *)
Inductive pipe_event (id pipep : Z) s : list Z -> list Z -> kst -> Prop :=
| pe_write t0 qs ms v x bs q ws buf locs s' : kernel_ok s t0 qs ms v -> pipe_is s qs ms id pipep x bs q ws -> readers s ws ->
    mapped s buf PROT_READ locs -> locs <> [] -> Z.of_nat (length locs) < 2 ^ 31 ->
    KernelPipeWrite id buf (Z.of_nat (length locs)) s = Ret (Z.of_nat (length locs)) s' ->
    pipe_event id pipep s (mem_get (k_mem s) <$> locs) [] s'
| pe_read t0 qs ms v x bs q buf locs s' : kernel_ok s t0 qs ms v -> pipe_is s qs ms id pipep x bs q [] ->
    mapped s buf PROT_WRITE locs -> locs <> [] -> NoDup locs -> (length locs <= length bs)%nat ->
    KernelPipeRead id buf (Z.of_nat (length locs)) s = Ret (Z.of_nat (length locs)) s' ->
    pipe_event id pipep s [] (mem_get (k_mem s') <$> locs) s'
| pe_wait t0 qs ms v xr x bs q ws buf len v' kc s' : kernel_ok s t0 qs ms v -> pipe_is s qs ms id pipep x bs q ws ->
    0 < len -> v_run v ∉ ws -> ws <> [] \/ Z.of_nat (length bs) < len -> pcbs (k_obj s) !! v_run v = Some xr -> v_block (pid xr) v = Some v' ->
    KernelPipeRead id buf len s = Switch kc s' -> pipe_event id pipep s [] [] s'
| pe_go_on t0 qs ms v x bs q ws buf locs k s' : kernel_ok s t0 qs ms v -> pipe_is s qs ms id pipep x bs q (v_run v :: ws) -> readers s ws ->
    mapped s buf PROT_WRITE locs -> NoDup locs -> (length locs <= length bs)%nat ->
    reading k pipep q buf (Z.of_nat (length locs)) -> resume k s = Ret tt s' ->
    pipe_event id pipep s [] (mem_get (k_mem s') <$> locs) s'
| pe_other s' : pipes (k_obj s') !! pipep = pipes (k_obj s) !! pipep -> pipe_event id pipep s [] [] s'.

(** A run: all that was written, and all that was read. *)
Inductive pipe_run (id pipep : Z) : kst -> list Z -> list Z -> kst -> Prop :=
| pr_nil s : pipe_run id pipep s [] [] s
| pr_cons s w r s1 ws rs s2 : pipe_event id pipep s w r s1 -> pipe_run id pipep s1 ws rs s2 -> pipe_run id pipep s (w ++ ws) (r ++ rs) s2.

Lemma pipe_event_stream id pipep s w r s' bs : pipe_event id pipep s w r s' -> pipe_at s pipep bs ->
  exists bs', pipe_at s' pipep bs' /\ bs ++ w = r ++ bs'.
Proof.
  intros He Hat. destruct He as [t0 qs ms v x b q ws buf locs s' Hok Hp Hws Hm Hne Hint Hrun|t0 qs ms v x b q buf locs s' Hok Hp Hm Hne Hnd Hle Hrun|
    t0 qs ms v xr x b q ws buf len v' kc s' Hok Hp Hlen Hni Hwhy Hx Hv Hrun|t0 qs ms v x b q ws buf locs k s' Hok Hp Hws Hm Hnd Hle Hk Hrun|s' Heq].
  - rewrite (pipe_at_is _ _ _ _ _ _ _ _ _ _ Hp Hat). eexists. split; [by eapply pipe_written|done].
  - rewrite (pipe_at_is _ _ _ _ _ _ _ _ _ _ Hp Hat). destruct (pipe_was_read _ _ _ _ _ _ _ _ _ _ _ _ _ Hok Hp Hm Hne Hnd Hle Hrun) as [Hat' ->].
    eexists. split; [done|]. by rewrite take_drop, app_nil_r.
  - exists bs. split; [|by rewrite app_nil_r]. unfold pipe_at. by erewrite pipe_reader_waits.
  - rewrite (pipe_at_is _ _ _ _ _ _ _ _ _ _ Hp Hat).
    destruct (pipe_reader_went_on _ _ _ _ _ _ _ _ _ _ _ _ _ _ _ Hok Hp Hm Hnd Hle Hws Hk Hrun) as [Hat' ->].
    eexists. split; [done|]. by rewrite take_drop, app_nil_r.
  - exists bs. split; [|by rewrite app_nil_r]. unfold pipe_at. by rewrite Heq.
Qed.

Lemma pipe_run_stream id pipep s ws rs s' : pipe_run id pipep s ws rs s' -> forall bs, pipe_at s pipep bs ->
  exists bs', pipe_at s' pipep bs' /\ bs ++ ws = rs ++ bs'.
Proof.
  induction 1 as [s|s w r s1 ws rs s2 He _ IH]; intros bs Hat; [exists bs; by rewrite app_nil_r|].
  destruct (pipe_event_stream _ _ _ _ _ _ _ He Hat) as (b1 & Hat1 & Heq). destruct (IH b1 Hat1) as (b2 & Hat2 & Heq2).
  exists b2. split; [done|]. by rewrite (assoc_L (++) bs), Heq, <- (assoc_L (++)), Heq2, (assoc_L (++)).
Qed.
End laws.
