(* ===== verification/ForkLaws.v ===== *)
(** [forkProcess] for a kernel in order: the new process joins it and runs, as
    a copy of its parent inside the kernel. *)

From stdpp Require Import base gmap list.
From S2P Require Import Prelude Hardware Queue HashMap FrameList PageTable State Scheduler SwitchLaws.
From S2P Require Import SchedView SchedLaws Steps.

(** A new process [c] with pid [k] joins the processes of a view. *)
Lemma procs_ok_fork (ps : gmap ptr Z) (v : sview) c k : procs_ok ps v -> ps !! c = None -> 0 <= k ->
  (forall p j, ps !! p = Some j -> j <> k) -> procs_ok (<[c := k]> ps) (v_fork c v).
Proof.
  intros [Hnd Hdom Hb Hs Hinj Hpos] Hc Hk Hfresh.
  assert (forall p j, ps !! p = Some j -> <[c := k]> ps !! p = Some j) as Hmono
    by (intros p j Hp; rewrite lookup_insert_ne; [done|intros ->; congruence]).
  assert (c ∉ places v) as Hni by (intros Hin; apply Hdom in Hin; rewrite Hc in Hin; by destruct Hin).
  pose proof (v_fork_places c v) as Hpl. split.
  - rewrite Hpl. by apply NoDup_cons.
  - intros p. rewrite Hpl. intros [->|Hp]%elem_of_cons; [rewrite lookup_insert_eq; by eexists|].
    destruct (Hdom _ Hp) as [j Hj]. exists j. by apply Hmono.
  - intros j p Hj. by apply Hmono, Hb.
  - intros j p Hj. by apply Hmono, Hs.
  - intros p q j Hp Hq. apply lookup_insert_Some in Hp as [[<- <-]|[Hcp Hp]], Hq as [[<- Hq]|[Hcq Hq]]; try done.
    + by destruct (Hfresh _ _ Hq).
    + subst j. by destruct (Hfresh _ _ Hp).
    + by eapply Hinj.
  - intros p j [[<- <-]|[_ Hp]]%lookup_insert_Some; [done|by eapply Hpos].
Qed.

Section laws.
Context {QH MH : Type} `{HL : HardwareLaws} `{QO : QueueOps QH} `{MO : MapOps MH}
  `{QL : !QueueLaws QH} `{ML : !MapLaws MH}.
Abbreviation kst := (kst QH MH).
Implicit Types s : kst.

(** [s] without the process [child], which is being made. *)
Definition without (child : ptr) (s : kst) : kst :=
  with_obj (with_pcbs (delete child (pcbs (k_obj s))) (k_obj s)) s.

(** The process [child] as [KernelFork] has it when it calls [forkProcess]:
    its members are there, its pid is new, it has the running process as its
    parent and a kernel stack of its own. *)
Record new_child (s : kst) (t0 : ptr) (v : sview) (child : ptr) (x : PCB_t) (fs fs0 : list Z) : Prop := {
  nc_pcb : pcbs (k_obj s) !! child = Some x;
  nc_addr : 0 < child < brk_addr (o_arena (k_obj s));
  nc_ok : pcb_ok (k_pt s) t0 x;
  nc_kctxt : has_kctxt x;
  nc_pid : 0 <= pid x;
  nc_fresh p y : p <> child -> pcbs (k_obj s) !! p = Some y -> pid y <> pid x;
  nc_parent : parent x = v_run v;
  nc_stack : has_stack x fs;
  nc_mapped : stack_mapped (k_pt s) t0 fs0;
  nc_disjoint f : f ∈ fs -> f ∉ fs0
}.

Lemma pids_without s child x : pcbs (k_obj s) !! child = Some x ->
  pids (pcbs (k_obj s)) = <[child := pid x]> (pids (pcbs (k_obj (without child s)))).
Proof.
  intros Hx. unfold pids. cbn. rewrite <- fmap_insert, insert_delete_eq, insert_id by done. done.
Qed.

Lemma pids_forked t0 s cur kcur child x fs fs0 s' : forked t0 s cur kcur child x fs fs0 s' ->
  pids (pcbs (k_obj s')) = pids (pcbs (k_obj s)).
Proof.
  intros Hf. rewrite (fk_obj _ _ _ _ _ _ _ _ _ Hf). cbn. rewrite !pids_alter; done.
Qed.

(** The invariant of the machine after the fork. *)
Lemma sys_ok_forked s t0 v child x fs fs0 kcur s' : sys_ok (without child s) t0 ->
  currPCB (k_sched s) = v_run v -> v_run v <> child ->
  new_child s t0 v child x fs fs0 -> forked t0 s (v_run v) kcur child x fs fs0 s' -> sys_ok s' t0 /\ running_ok s' t0.
Proof.
  intros [[Hvm Hb Ht Ha] [Hpl Hpos Hlt] Hst Hp Hk] Hcur Hne Hc Hf. cbn in *.
  pose proof Hf as [Hsched Hobj _ _ _ Hglob (t' & r1 & Hupd & Hr1 & Hpt) Hmapped _ _ _].
  assert (forall y, pcb_ok (k_pt s) t0 y -> pcb_ok (k_pt s') t0 (with_kctxt (KSaved kcur) y)) as Hpk.
  { intros y Hy. rewrite Hpt. destruct (pcb_ok_upd _ _ _ _ _ Hupd Hy) as [? ? ? ?]. by split. }
  assert (forall y, pcb_ok (k_pt s) t0 y -> pcb_ok (k_pt s') t0 y) as Hpk'.
  { intros y Hy. rewrite Hpt. destruct (pcb_ok_upd _ _ _ _ _ Hupd Hy) as [? ? ? ?]. by split. }
  assert (forall p y, pcbs (k_obj s) !! p = Some y -> pcb_ok (k_pt s) t0 y) as Hall.
  { intros p y Hy. destruct (decide (p = child)) as [->|Hpc].
    - rewrite (nc_pcb _ _ _ _ _ _ _ Hc) in Hy. injection Hy as <-. apply Hc.
    - apply (Hp p). by rewrite lookup_delete_ne. }
  split; [split|].
  - split; [|congruence..]. rewrite Hpt. destruct (pt_upd_vm0 _ _ _ _ Hupd Hvm). by split.
  - split; rewrite Hobj; cbn; [done..|]. intros p Hs%lookup_alter_is_Some%lookup_alter_is_Some.
    destruct (decide (p = child)) as [->|Hpc]; [apply Hc|]. apply Hlt. by rewrite lookup_delete_ne.
  - unfold starter_ok in *. by rewrite Hglob.
  - intros p y. rewrite Hobj. cbn. rewrite lookup_alter_Some.
    intros [(<- & z & Hz & ->)|[_ Hz]]; rewrite lookup_alter_Some in Hz;
      destruct Hz as [(<- & z' & Hz & ->)|[_ Hz]]; [done| | |];
      try exact (Hpk _ (Hall _ _ Hz)).
    exact (Hpk' _ (Hall _ _ Hz)).
  - intros p y. rewrite Hobj, Hsched. cbn. intros [(<- & z & Hz & ->)|[Hpc Hz]]%lookup_alter_Some Hnc; [done|].
    apply lookup_alter_Some in Hz as [(_ & z' & Hz & ->)|[Hpr Hz]]; [right; by eexists|].
    apply (Hk p); [by rewrite lookup_delete_ne|congruence].
  - exists (with_kctxt (KSaved kcur) x), fs, r1. rewrite Hobj, Hsched. cbn.
    rewrite lookup_alter_eq, lookup_alter_ne by done. rewrite (nc_pcb _ _ _ _ _ _ _ Hc).
    split_and!; try done; [right; by eexists|apply Hc|by rewrite Hpt].
Qed.

Lemma forkProcess_ok s t0 qs ms v child x fs fs0 k : kernel_ok (without child s) t0 qs ms v ->
  new_child s t0 v child x fs fs0 ->
  exists s' h, forkProcess child k s = Switch (mkKctxt k (k_frame s)) s' /\
    kernel_ok s' t0 (<[readyQ (k_sched s) := v_ready v ++ [v_run v]]> qs) ms (v_fork child v) /\
    forked t0 (with_qh h s) (v_run v) (mkKctxt k (k_frame s)) child x fs fs0 s'.
Proof.
  intros [Hsys Hrun Hs Hprocs] Hc. pose proof (sr_run _ _ _ _ Hs) as Hcur. cbn in Hcur.
  destruct Hrun as (y & fs1 & r1 & Hy & Hky & _). cbn in Hy. rewrite Hcur in Hy.
  assert (v_run v <> child) as Hne by (intros <-; by rewrite lookup_delete_eq in Hy).
  rewrite lookup_delete_ne in Hy by done.
  pose proof (mem_pcbs _ (so_mem _ _ Hsys) (v_run v)) as Hb. cbn in Hb. rewrite lookup_delete_ne, Hy in Hb by done.
  destruct (Hb (mk_is_Some _ _ eq_refl)) as [Hpos _].
  destruct (enq_ok (without child s) qs ms v (readyQ (k_sched s)) (v_ready v) (v_run v) Hs (sr_ready _ _ _ _ Hs))
    as (h & Henq & Hpl & Hq).
  assert (lift (enq_q (readyQ (k_sched s)) (v_run v)) s = Ret 0 (with_qh h s)) as Henq'.
  { unfold lift in *. cbn in Henq |- *. by destruct (enq_q _ _ (k_qh s)); simplify_eq. }
  unfold forkProcess. step (load_pcb_ok _ _ _ (nc_pcb _ _ _ _ _ _ _ Hc)). kmon. rewrite Hcur, (nc_parent _ _ _ _ _ _ _ Hc).
  destruct (Z.eqb_spec (v_run v) NULL); [lia|]. step (load_pcb_ok _ _ _ Hy). step (load_pcb_ok _ _ _ Hy).
  rewrite Z.eqb_refl. cbn [negb]. kmon. step Henq'. rewrite eqb_0_ERROR.
  destruct (nc_ok _ _ _ _ _ _ _ Hc) as [_ (r & Hr & (Hrp & Hrl & _) & _) _ _].
  destruct (forkTo_ok (with_qh h s) t0 (v_run v) y (mkKctxt k (k_frame s)) child x fs fs0 r) as (s' & Hfork & Hf);
    try done; try apply Hc.
  { destruct (so_mmu _ _ Hsys). by split. }
  { pose proof MAX_PT_LEN_pos. pose proof PTE_SIZE_pos. nia. }
  exists s', h. split; [unfold KernelContextSwitch; change (k_frame (with_qh h s)) with (k_frame s); by rewrite Hfork|]. split; [|done].
  assert (new_child (with_qh h s) t0 v child x fs fs0) as Hc' by (destruct Hc; by split).
  destruct (sys_ok_forked (with_qh h s) t0 v child x fs fs0 (mkKctxt k (k_frame s)) s') as [Hsys' Hrun'];
    [by apply (sys_ok_ext (without child s))|done..|].
  split; [done|done| |].
  - destruct Hf as [Hsched _ Hqh Hmh _ _ _ _ _ _ _]. destruct Hs. cbn in *. cbn in Hq.
    split; rewrite ?Hqh, ?Hmh, ?Hsched; try done; cbn; by rewrite ?lookup_insert_eq.
  - rewrite (pids_forked _ _ _ _ _ _ _ _ _ Hf). cbn. rewrite (pids_without s child x) by apply Hc.
    apply procs_ok_fork; [done| |apply Hc|].
    + unfold pids. cbn. by rewrite lookup_fmap, lookup_delete_eq.
    + intros p j (z & Hz & <-)%lookup_pids. cbn in Hz. apply lookup_delete_Some in Hz as [Hpc Hz].
      exact (nc_fresh _ _ _ _ _ _ _ Hc p z (not_eq_sym Hpc) Hz).
Qed.

End laws.
