(* ===== verification/CopyLaws.v ===== *)
(** The copy of region 1 in [KernelFork]: every page of the parent goes, with
    its protection, into a frame of its own that was free. *)

From stdpp Require Import base gmap sets list.
From S2P Require Import Prelude Hardware Queue HashMap FrameList PageTable State UserMem Scheduler.
From S2P Require Import SwitchLaws GeneralCalls.

(** The entries of a table for region 1 are in order: valid pages can be read,
    their protection fits its field, and their frames are not free. *)
Definition space_ok `{Hardware} (t : pt) (base : ptr) (avail : gset Z) : Prop :=
  forall i e, 0 <= i < MAX_PT_LEN -> entry t base i = Some e -> pte_valid e = 1 ->
    Z.land (pte_prot e) PROT_READ = PROT_READ /\ 0 <= pte_prot e < 2 ^ PTE_PROT_BITS /\
    pte_pfn e ∉ avail.

(** The frame numbers fit the field of a page table entry. *)
Definition frames_fit `{Hardware} (all : gset Z) : Prop := forall f, f ∈ all -> 0 <= f < 2 ^ PTE_PFN_BITS.

(** The pages among [ps] that are valid in the table at [base]. *)
Definition valid_page `{Hardware} (t : pt) (base : ptr) (i : Z) : bool :=
  match entry t base i with Some e => pte_valid e =? 1 | None => false end.
Definition valid_pages `{Hardware} (t : pt) (base : ptr) (ps : list Z) : list Z :=
  filter (fun i => valid_page t base i = true) ps.

(** [t] maps page [i] of the table at [base] to [f], as page [i] of [t1] in
    [t'] is mapped, and the frame has the content of that page. *)
Definition page_copied {QH MH} `{Hardware} (s : kst QH MH) (t1 tc : ptr) (t' : pt)
    (m : gmap Z (gmap Z Z)) (i f : Z) : Prop :=
  exists e, entry (k_pt s) t1 i = Some e /\
    entry t' tc i = Some (mkPte 1 (pte_prot e) f) /\ m !! f = Some (page (pte_pfn e) s).

Section laws.
Context {QH MH : Type} `{HL : HardwareLaws} `{QO : QueueOps QH} `{MO : MapOps MH}.
Abbreviation kst := (kst QH MH).
Implicit Types s : kst.

(** A page of region 1 with a valid entry. *)
Lemma translate_r1 s t0 t1 i p e : vm_on (k_pt s) t0 t1 -> 0 <= i < MAX_PT_LEN ->
  entry (k_pt s) t1 i = Some e -> pte_valid e = 1 -> Z.land (pte_prot e) p = p ->
  translate (VMEM_1_BASE + i * PAGESIZE) p s = Ret (pte_pfn e) s.
Proof.
  intros Hvm Hi He Hv Hp. rewrite translate_trans. unfold trans.
  assert (Z.shiftr (VMEM_1_BASE + i * PAGESIZE) PAGESHIFT = MAX_PT_LEN + i) as ->.
  { rewrite shiftr_page, VMEM_1_BASE_eq, <- Z.mul_add_distr_r.
    apply Z.div_mul. pose proof PAGESIZE_pos. lia. }
  destruct (Z.leb_spec 0 (MAX_PT_LEN + i)), (Z.ltb_spec (MAX_PT_LEN + i) MAX_PT_LEN),
    (Z.leb_spec MAX_PT_LEN (MAX_PT_LEN + i)), (Z.ltb_spec (MAX_PT_LEN + i) (2 * MAX_PT_LEN)); try lia.
  cbn [andb]. rewrite (vm_base1 _ _ _ Hvm). replace (MAX_PT_LEN + i - MAX_PT_LEN) with i by lia.
  unfold entry in He. rewrite He. cbn. by rewrite Hv, Hp, !Z.eqb_refl.
Qed.

(** What one turn of the copy loop may rewrite. *)
Definition in_copy (t0 tc : ptr) (ps : list Z) (a : ptr) : Prop :=
  a = temp_pte t0 \/ exists i, i ∈ ps /\ a = pte_at tc i.

Lemma in_copy_weaken t0 tc ps js a : (forall i, i ∈ ps -> i ∈ js) -> in_copy t0 tc ps a -> in_copy t0 tc js a.
Proof. intros Hsub [->|(i & Hi & ->)]; [by left|right]. exists i. auto. Qed.

Lemma in_copy_entry t0 tc ps b i : apart b tc -> apart b t0 -> (forall j, j ∈ ps -> 0 <= j < MAX_PT_LEN) ->
  0 <= i < MAX_PT_LEN -> ~ in_copy t0 tc ps (pte_at b i).
Proof.
  intros Hc H0 His Hi [Heq|(j & Hj & Heq)].
  - revert Heq. apply pte_at_apart; [done|done|apply temp_vpn_range].
  - revert Heq. apply pte_at_apart; [done|done|]. by apply His.
Qed.

(** The tables of a fork: the current ones and the child's, all apart. *)
Record fork_tables (s : kst) (t0 t1 tc : ptr) : Prop := {
  ft_vm : vm_on (k_pt s) t0 t1;
  ft_child : table (k_pt s) tc;
  ft_apart0 : apart tc t0;
  ft_apart1 : apart tc t1;
  ft_temp : tempPtep (k_glob s) = temp_pte t0;
  ft_taddr : tempVAddr (k_glob s) = (KERNEL_STACK_BASE_VPN - 1) * PAGESIZE
}.

Lemma fork_tables_upd s t0 t1 tc P t' s' : fork_tables s t0 t1 tc -> pt_upd P (k_pt s) t' ->
  k_pt s' = t' -> k_glob s' = k_glob s -> fork_tables s' t0 t1 tc.
Proof.
  intros [] Hu <- Hg. split; rewrite ?Hg; try done; [by eapply pt_upd_vm|by eapply pt_upd_table].
Qed.

Lemma fork_copy_page_skip s t0 t1 tc i e : fork_tables s t0 t1 tc -> entry (k_pt s) t1 i = Some e ->
  pte_valid e <> 1 -> fork_copy_page t1 tc i s = Ret true s.
Proof.
  intros Hft He Hv. unfold fork_copy_page.
  assert (load_pte (pte_at t1 i) (k_pt s) = Ret e (k_pt s)) as Hld by (unfold load_pte, entry in *; by rewrite He).
  step (lift_pt _ s _ _ Hld). rewrite with_pt_id. by destruct (Z.eqb_spec (pte_valid e) 1).
Qed.

(** One valid page is copied. *)
Lemma fork_copy_page_ok s t0 t1 tc nf all avail i e : fork_tables s t0 t1 tc ->
  numFrames (k_glob s) = nf -> fl_rep (k_fl s) nf all avail -> avail ⊆ all -> avail <> ∅ -> frames_fit all ->
  0 <= i < MAX_PT_LEN -> entry (k_pt s) t1 i = Some e -> pte_valid e = 1 ->
  Z.land (pte_prot e) PROT_READ = PROT_READ -> 0 <= pte_prot e < 2 ^ PTE_PROT_BITS ->
  exists f f1 t', fork_copy_page t1 tc i s =
      Ret true (with_mem (<[f := page (pte_pfn e) s]> (k_mem s)) (with_pt t' (with_fl f1 s))) /\
    f ∈ avail /\ fl_rep f1 nf all (avail ∖ {[f]}) /\ pt_upd (in_copy t0 tc [i]) (k_pt s) t' /\
    entry t' tc i = Some (mkPte 1 (pte_prot e) f).
Proof.
  intros Hft Hnf Hfl Hsub Hne Hfit Hi He Hv Hrd Hpr.
  destruct (getFrame_ok _ _ _ _ Hfl Hne) as (f & f1 & Hg & Hf & Hfl1 & _).
  pose proof (Hfit f (Hsub _ Hf)) as Hff. pose proof temp_vpn_range as Htr.
  assert (load_pte (pte_at t1 i) (k_pt s) = Ret e (k_pt s)) as Hld by (unfold load_pte, entry in *; by rewrite He).
  unfold fork_copy_page. step (lift_pt _ s _ _ Hld). rewrite with_pt_id, Hv. cbn [Z.eqb Pos.eqb]. kmon.
  rewrite Hnf. step (lift_fl _ s _ _ Hg). kmon. cbn [k_glob with_fl].
  rewrite (ft_temp _ _ _ _ Hft), (ft_taddr _ _ _ _ Hft). pose proof (vm_on_vm0 _ _ _ (ft_vm _ _ _ _ Hft)) as Hvm0.
  set (s1 := with_fl f1 s).
  pose proof (setPageTableEntry_r0 (k_pt s1) t0 (KERNEL_STACK_BASE_VPN - 1) 1 PROT_WRITE f Hvm0 Htr) as Hset.
  unfold temp_pte at 1. step (lift_pt _ s1 _ _ Hset). set (t2 := set_entry _ _ _ _ _ _). set (s2 := with_pt t2 s1).
  assert (pt_upd (in_copy t0 tc [i]) (k_pt s) t2) as Hu2.
  { apply pt_upd_set_entry; [by left|]. by apply (vm0_table _ _ Hvm0). }
  assert (entry t2 t1 i = Some e) as He2.
  { unfold entry. rewrite (upd_ptes _ _ _ Hu2); [done|]. apply in_copy_entry; try done.
    - pose proof (ft_apart1 _ _ _ _ Hft). unfold apart in *. lia.
    - pose proof (vm_apart _ _ _ (ft_vm _ _ _ _ Hft)). unfold apart in *. lia.
    - by intros j ->%list_elem_of_singleton. }
  unfold copy_page. kmon.
  step (translate_r1 s2 t0 t1 i PROT_READ e (pt_upd_vm _ _ _ _ _ Hu2 (ft_vm _ _ _ _ Hft)) Hi He2 Hv Hrd).
  assert (translate ((KERNEL_STACK_BASE_VPN - 1) * PAGESIZE) PROT_WRITE s2 = Ret f s2) as Hs2.
  { rewrite <- (bits_small PTE_PFN_BITS f) by done.
    apply (translate_r0 s2 t0 _ _ (mkPte (bits 1 1) (bits PTE_PROT_BITS PROT_WRITE) (bits PTE_PFN_BITS f)));
      [by eapply pt_upd_vm0|done| |done|apply PROT_WRITE_bits].
    cbn. apply lookup_insert_eq. }
  kmon. step Hs2. kmon.
  assert (is_Some (ptes t2 !! pte_at tc i)) as Hs
    by (apply (upd_dom _ _ _ Hu2); by apply (ft_child _ _ _ _ Hft)).
  unfold setPageTableEntryNoFlush.
  match goal with |- context [bind (lift (store_pte ?p ?x)) _ ?s3] =>
    step (lift_pt _ s3 _ _ (store_pte_ok t2 p x Hs)) end.
  exists f, f1, (with_ptes (<[pte_at tc i := mkPte 1 (pte_prot e) f]> (ptes t2)) t2).
  split; [|split_and!; [done|done| |unfold entry; apply lookup_insert_eq]].
  - unfold ret. do 3 f_equal. rewrite (bits_small PTE_PROT_BITS), (bits_small PTE_PFN_BITS) by done. done.
  - eapply pt_upd_trans; [done|]. split; try done; cbn.
    + intros a Ha. rewrite lookup_insert_ne; [done|]. intros <-. apply Ha. right. exists i.
      by rewrite list_elem_of_singleton.
    + intros a. rewrite lookup_insert_is_Some'. naive_solver.
Qed.
(** A rewriting of the child's entries leaves the parent's pages alone. *)
Lemma in_copy_keeps s t0 t1 tc ps t' i : fork_tables s t0 t1 tc -> (forall j, j ∈ ps -> 0 <= j < MAX_PT_LEN) ->
  pt_upd (in_copy t0 tc ps) (k_pt s) t' -> 0 <= i < MAX_PT_LEN -> entry t' t1 i = entry (k_pt s) t1 i.
Proof.
  intros Hft Hps Hu Hi. apply (upd_ptes _ _ _ Hu), in_copy_entry; try done.
  - pose proof (ft_apart1 _ _ _ _ Hft). unfold apart in *. lia.
  - pose proof (vm_apart _ _ _ (ft_vm _ _ _ _ Hft)). unfold apart in *. lia.
Qed.

Lemma valid_pages_cons t b i ps :
  valid_pages t b (i :: ps) = if valid_page t b i then i :: valid_pages t b ps else valid_pages t b ps.
Proof. unfold valid_pages. rewrite filter_cons. case_decide as Hv; [by rewrite Hv|by destruct (valid_page t b i)]. Qed.

Lemma elem_of_valid_pages t b ps i : i ∈ valid_pages t b ps <-> valid_page t b i = true /\ i ∈ ps.
Proof. unfold valid_pages. by rewrite list_elem_of_filter. Qed.

Lemma valid_pages_ext t t' b ps : (forall i, i ∈ ps -> entry t' b i = entry t b i) ->
  valid_pages t' b ps = valid_pages t b ps.
Proof.
  induction ps as [|i ps IH]; intros He; [done|]. rewrite !valid_pages_cons, IH by set_solver.
  unfold valid_page. by rewrite He by set_solver.
Qed.

Lemma page_copied_frame s t1 tc t' t'' m m' i f : page_copied s t1 tc t' m i f ->
  entry t'' tc i = entry t' tc i -> m' !! f = m !! f -> page_copied s t1 tc t'' m' i f.
Proof. intros (e & H1 & H2 & H3) He Hm. exists e. by rewrite He, Hm. Qed.

(** What the copy loop has done for the pages [ps], with the frames [l]. *)
Record copied (s : kst) (t0 t1 tc : ptr) (nf : Z) (all avail : gset Z) (ps : list Z) (l : list (Z * Z))
    (t' : pt) (f' : fl) (m : gmap Z (gmap Z Z)) : Prop := {
  cp_pages : l.*1 = valid_pages (k_pt s) t1 ps;
  cp_nodup : NoDup l.*2;
  cp_avail : list_to_set l.*2 ⊆ avail;
  cp_fl : fl_rep f' nf all (avail ∖ list_to_set l.*2);
  cp_pt : pt_upd (in_copy t0 tc (valid_pages (k_pt s) t1 ps)) (k_pt s) t';
  cp_copied i f : (i, f) ∈ l -> page_copied s t1 tc t' m i f;
  cp_mem f : f ∉ l.*2 -> m !! f = k_mem s !! f
}.

(** One page, and then the others. *)
Lemma copied_cons s t0 t1 tc nf all avail i ps e f f1 t2 l t' f' m :
  (forall j, j ∈ i :: ps -> 0 <= j < MAX_PT_LEN) -> i ∉ ps -> fork_tables s t0 t1 tc -> space_ok (k_pt s) t1 avail ->
  entry (k_pt s) t1 i = Some e -> pte_valid e = 1 -> f ∈ avail -> pt_upd (in_copy t0 tc [i]) (k_pt s) t2 ->
  entry t2 tc i = Some (mkPte 1 (pte_prot e) f) ->
  copied (with_mem (<[f := page (pte_pfn e) s]> (k_mem s)) (with_pt t2 (with_fl f1 s))) t0 t1 tc nf all (avail ∖ {[f]}) ps l t' f' m ->
  copied s t0 t1 tc nf all avail (i :: ps) ((i, f) :: l) t' f' m.
Proof.
  intros Hps Hi Hft Hsp He Hv Hf Hu Hc [Hpg Hndl Hsubl Hfl' Hpt Hcp Hmem]. cbn in Hpg, Hsubl, Hpt, Hcp, Hmem.
  assert (forall j, 0 <= j < MAX_PT_LEN -> entry t2 t1 j = entry (k_pt s) t1 j) as Hent.
  { intros j Hj. eapply in_copy_keeps; [done| |done|done]. intros k ->%list_elem_of_singleton. apply Hps. set_solver. }
  rewrite (valid_pages_ext (k_pt s)) in Hpg, Hpt by (intros j Hj; apply Hent, Hps; set_solver).
  assert (f ∉ l.*2) as Hfl2 by (intros Hin; assert (f ∈ avail ∖ {[f]}) by (apply Hsubl, elem_of_list_to_set; done); set_solver).
  assert (valid_page (k_pt s) t1 i = true) as Hvp by (unfold valid_page; by rewrite He, Hv).
  split; rewrite ?valid_pages_cons, ?Hvp; cbn.
  - by rewrite Hpg.
  - by apply NoDup_cons.
  - set_solver.
  - by rewrite <- difference_difference_l_L.
  - eapply pt_upd_trans; (eapply pt_upd_weaken; [|done]); intros a; apply in_copy_weaken; set_solver.
  - intros j g [[= -> ->]|Hin]%elem_of_cons.
    + exists e. split; [done|]. rewrite (Hmem f Hfl2), lookup_insert_eq. split; [|done].
      rewrite <- Hc. unfold entry. apply (upd_ptes _ _ _ Hpt). intros [Heq|(j & Hj & Heq)].
      * revert Heq. apply pte_at_apart; [apply Hft|apply Hps; set_solver|apply temp_vpn_range].
      * apply pte_at_inj in Heq as ->. by apply elem_of_valid_pages in Hj as [_ Hj].
    + destruct (Hcp j g Hin) as (e' & He' & Hc' & Hm'). cbn in He', Hm'.
      assert (j ∈ valid_pages (k_pt s) t1 ps) as [Hvj Hj]%elem_of_valid_pages by (rewrite <- Hpg; apply list_elem_of_fmap; by exists (j, g)).
      rewrite Hent in He' by (apply Hps; set_solver). exists e'. split; [done|]. split; [done|]. rewrite Hm'.
      f_equal. unfold page. cbn. rewrite lookup_insert_ne; [done|]. intros ->.
      unfold valid_page in Hvj. rewrite He' in Hvj. apply Z.eqb_eq in Hvj.
      destruct (Hsp j e') as (_ & _ & ?); try done. apply Hps. set_solver.
  - intros g Hg. rewrite Hmem by set_solver. apply lookup_insert_ne. set_solver.
Qed.

Lemma fork_copy_ok t0 t1 tc nf all ps : forall s avail, NoDup ps -> (forall i, i ∈ ps -> 0 <= i < MAX_PT_LEN) ->
  fork_tables s t0 t1 tc -> numFrames (k_glob s) = nf -> fl_rep (k_fl s) nf all avail -> avail ⊆ all ->
  frames_fit all -> space_ok (k_pt s) t1 avail -> (length (valid_pages (k_pt s) t1 ps) <= size avail)%nat ->
  exists l t' f' m, fork_copy t1 tc ps s = Ret true (with_mem m (with_pt t' (with_fl f' s))) /\
    copied s t0 t1 tc nf all avail ps l t' f' m.
Proof.
  induction ps as [|i ps IH]; intros s avail Hnd Hps Hft Hnf Hfl Hsub Hfit Hsp Hlen.
  { exists [], (k_pt s), (k_fl s), (k_mem s). split; [by destruct s|]. cbn.
    split; cbn; try done; first [apply NoDup_nil_2|by rewrite difference_empty_L|apply pt_upd_refl|set_solver]. }
  apply NoDup_cons in Hnd as [Hi Hnd]. assert (0 <= i < MAX_PT_LEN) as Hir by (apply Hps; set_solver).
  destruct (vm_table1 _ _ _ (ft_vm _ _ _ _ Hft)) as (_ & _ & Htab). destruct (Htab i Hir) as [e He].
  assert (valid_page (k_pt s) t1 i = (pte_valid e =? 1)) as Hvp by (unfold valid_page; by rewrite He).
  cbn [fork_copy]. rewrite valid_pages_cons, Hvp in Hlen. destruct (Z.eqb_spec (pte_valid e) 1) as [Hv|Hv].
  - destruct (Hsp i e Hir He Hv) as (Hrd & Hpr & Hav). cbn in Hlen.
    assert (avail <> ∅) as Hne by (intros ->; rewrite size_empty in Hlen; lia).
    destruct (fork_copy_page_ok s t0 t1 tc nf all avail i e) as (f & f1 & t2 & Hrun & Hf & Hfl1 & Hu & Hc); try done.
    step Hrun. set (s1 := with_mem _ _).
    assert (forall j, 0 <= j < MAX_PT_LEN -> entry (k_pt s1) t1 j = entry (k_pt s) t1 j) as Hent.
    { intros j Hj. eapply in_copy_keeps; [done| |done|done]. by intros k ->%list_elem_of_singleton. }
    destruct (IH s1 (avail ∖ {[f]})) as (l & t' & f' & m & Hrun' & Hcp); try done; [set_solver|by eapply fork_tables_upd|set_solver| | |].
    { intros j e' Hj. rewrite Hent by done. intros He' Hv'. destruct (Hsp j e' Hj He' Hv') as (? & ? & ?).
      split; [done|]. split; [done|]. set_solver. }
    { rewrite (valid_pages_ext (k_pt s)) by (intros j Hj; apply Hent, Hps; set_solver). rewrite size_difference, size_singleton by set_solver. lia. }
    exists ((i, f) :: l), t', f', m. split; [exact Hrun'|]. by eapply copied_cons.
  - step (fork_copy_page_skip s t0 t1 tc i e Hft He Hv).
    destruct (IH s avail) as (l & t' & f' & m & Hrun' & [Hpg Hndl Hsubl Hfl' Hpt Hcp Hmem]); try done; [set_solver|].
    exists l, t', f', m. split; [exact Hrun'|].
    assert (valid_pages (k_pt s) t1 (i :: ps) = valid_pages (k_pt s) t1 ps) as Hvs
      by (rewrite valid_pages_cons, Hvp; by destruct (Z.eqb_spec (pte_valid e) 1)).
    split; by rewrite ?Hvs.
Qed.
End laws.
