(* ===== verification/InitLaws.v ===== *)
(** Making a process: [initPCB] gives it a PCB, maps, a page table and a kernel
    stack of its own. *)

From stdpp Require Import base gmap sets list.
From S2P Require Import Prelude Hardware Queue HashMap FrameList PageTable State Scheduler.
From S2P Require Import SwitchLaws SchedView SchedLaws CopyLaws.

Lemma fl_rep_subset `{Hardware} f n all avail : fl_rep f n all avail -> avail ⊆ all.
Proof. intros [(frames & _ & _ & _ & -> & ->)]. apply free_pfns_subset. Qed.

(** The registers do not change when a table is made. *)
Lemma initializeRegionPageTable_regs `{HW : Hardware} t r t' : initializeRegionPageTable t = Ret r t' ->
  REG_VM_ENABLE t' = REG_VM_ENABLE t /\ REG_PTBR0 t' = REG_PTBR0 t /\ REG_PTLR0 t' = REG_PTLR0 t /\
  REG_PTBR1 t' = REG_PTBR1 t /\ REG_PTLR1 t' = REG_PTLR1 t.
Proof.
  unfold initializeRegionPageTable. intros (p & t1 & Hm & Hr)%bind_inv. unfold lift in Hm.
  destruct (malloc _ _) as [q a| | |]; try done. injection Hm as _ <-.
  destruct (p =? NULL); [by injection Hr as _ <-|]. unfold bind, modify in Hr. by injection Hr as _ <-.
Qed.

(** The list of a process's stack frames, half filled. *)
Definition half_stack (fs : list Z) (n : nat) : list (option Z) := (Some <$> fs) ++ replicate n None.

Lemma half_stack_insert fs n f : <[length fs := Some f]> (half_stack fs (S n)) = half_stack (fs ++ [f]) n.
Proof.
  unfold half_stack. rewrite insert_app_r_alt, length_fmap, Nat.sub_diag by (by rewrite length_fmap).
  cbn. rewrite fmap_app, <- (assoc_L (++)). done.
Qed.

Section laws.
Context {QH MH : Type} `{HL : HardwareLaws} `{QO : QueueOps QH} `{MO : MapOps MH}
  `{QL : !QueueLaws QH} `{ML : !MapLaws MH}.
Abbreviation kst := (kst QH MH).
Implicit Types s : kst.

(** [malloc] returns the next address. *)
Lemma kmalloc_next s n : mem_ok s ->
  exists a, kmalloc n s = Ret (brk_addr (o_arena (k_obj s))) (with_arena a s) /\
    pcbs (k_obj s) !! brk_addr (o_arena (k_obj s)) = None /\
    brk_addr (o_arena (k_obj s)) < brk_addr a /\ plenty a.
Proof.
  intros [Hpl Hpos Hlt]. destruct (malloc_spec n _ Hpos) as (p & a & Hm & Hpl' & Hle & Hp).
  destruct Hp as [(_ & _ & [])|[-> Hb]]; [done|]. exists a.
  split; [unfold kmalloc, lift; cbn; by rewrite Hm|]. split_and!; [|lia|auto].
  apply eq_None_not_Some. intros Hs%Hlt. lia.
Qed.

Lemma mem_ok_new s p x : mem_ok s -> 0 < p < brk_addr (o_arena (k_obj s)) -> mem_ok (upd_pcb p x s).
Proof.
  intros [Hpl Hpos Hlt] Hp. split; cbn; [done..|]. intros q [->|[_ Hq]]%lookup_insert_is_Some; [lia|by apply Hlt].
Qed.

Lemma bind_set_pcb {B} p x (k : unit -> M kst B) s : bind (set_pcb p x) k s = k tt (upd_pcb p x s).
Proof. done. Qed.

Lemma upd_pcb_twice p x y s : upd_pcb p y (upd_pcb p x s) = upd_pcb p y s.
Proof. unfold upd_pcb, with_obj, with_pcbs. cbn. by rewrite insert_insert_eq. Qed.

Lemma bind_update_upd {B} p f x (k : unit -> M kst B) s :
  bind (update_pcb p f) k (upd_pcb p x s) = k tt (upd_pcb p (f x) s).
Proof.
  assert (pcbs (k_obj (upd_pcb p x s)) !! p = Some x) as Hp by apply lookup_insert_eq.
  rewrite (bind_Ret _ _ _ _ _ (update_pcb_upd _ _ f _ Hp)). by rewrite upd_pcb_twice.
Qed.

(** The loop that gives a process its stack frames. *)
Lemma init_stack_ok p nf all n : forall s fs0 y avail, numFrames (k_glob s) = nf ->
  fl_rep (k_fl s) nf all avail -> (n <= size avail)%nat -> stackPfns y = half_stack fs0 n ->
  exists fs f', init_stack p (seqZ (Z.of_nat (length fs0)) (Z.of_nat n)) (upd_pcb p y s) =
      Ret true (upd_pcb p (with_stackPfns (Some <$> fs0 ++ fs) y) (with_fl f' s)) /\
    length fs = n /\ NoDup fs /\ list_to_set fs ⊆ avail /\ fl_rep f' nf all (avail ∖ list_to_set fs).
Proof.
  induction n as [|n IH]; intros s fs0 y avail Hnf Hfl Hn Hy.
  - exists [], (k_fl s). cbn [seqZ init_stack]. rewrite with_fl_id, app_nil_r. split.
    + unfold half_stack in Hy. rewrite app_nil_r in Hy. rewrite <- Hy. by destruct y.
    + cbn. rewrite difference_empty_L. split_and!; try done. apply NoDup_nil_2.
  - destruct (getFrame_ok _ _ _ _ Hfl) as (f & f1 & Hg & Hf & Hfl1 & _); [intros ->; rewrite size_empty in Hn; lia|].
    rewrite seqZ_cons by lia. cbn [init_stack]. kmon. change (k_glob (upd_pcb p y s)) with (k_glob s). rewrite Hnf.
    step (lift_fl _ (upd_pcb p y s) _ _ Hg).
    change (with_fl f1 (upd_pcb p y s)) with (upd_pcb p y (with_fl f1 s)). rewrite bind_update_upd.
    destruct (IH (with_fl f1 s) (fs0 ++ [f]) (set_stackPfn (Z.of_nat (length fs0)) f y) (avail ∖ {[f]}))
      as (fs & f' & Hrun & Hlen & Hnd & Hsub & Hfl'); [done|done| | |].
    { rewrite size_difference, size_singleton by set_solver. lia. }
    { unfold set_stackPfn. cbn. by rewrite Nat2Z.id, Hy, half_stack_insert. }
    exists (f :: fs), f'. rewrite length_app in Hrun. cbn [length] in Hrun.
    replace (Z.succ (Z.of_nat (length fs0))) with (Z.of_nat (length fs0 + 1)) by lia.
    replace (Z.pred (Z.of_nat (S n))) with (Z.of_nat n) by lia. split.
    + rewrite Hrun, <- (assoc_L (++)). done.
    + cbn. rewrite <- difference_difference_l_L. split_and!; [lia|apply NoDup_cons; set_solver|set_solver|done].
Qed.

(** ** [initPCB] *)

(** What a new process needs: memory, a page table's room in the address
    space, and frames for its kernel stack. *)
Record can_init (s : kst) (ms : gmap ptr (gmap Z ptr)) (all avail : gset Z) : Prop := {
  ci_mem : mem_ok s;
  ci_maps : m_rep (k_mh s) ms;
  ci_mplenty : m_plenty (k_mh s);
  ci_pt : pt_wf (k_pt s);
  ci_ptplenty : plenty (pt_arena (k_pt s));
  ci_room : brk_addr (pt_arena (k_pt s)) + MAX_PT_LEN * PTE_SIZE < 2 ^ 32;
  ci_fl : fl_rep (k_fl s) (numFrames (k_glob s)) all avail;
  ci_frames : (Z.to_nat STACK_PAGES <= size avail)%nat
}.

(** The PCB of a new process. *)
Definition new_pcb (pid : Z) (cm tb : ptr) (fs : list Z) : PCB_t :=
  mkPCB pid None (Some fresh_UserContext) (Some KNull) (Some cm) 0 NULL (Some NULL) (Some tb) 0 (Some <$> fs).

(** A new table of invalid entries at [tb]; all else is as it was. *)
Record new_table (t : pt) (tb : ptr) (t' : pt) : Prop := {
  nt_base : tb = brk_addr (pt_arena t);
  nt_new i : 0 <= i < MAX_PT_LEN -> entry t' tb i = Some (mkPte 0 PROT_NONE 0);
  nt_old p : p < tb -> ptes t' !! p = ptes t !! p;
  nt_wf : pt_wf t';
  nt_plenty : plenty (pt_arena t');
  nt_regs : REG_VM_ENABLE t' = REG_VM_ENABLE t /\ REG_PTBR0 t' = REG_PTBR0 t /\ REG_PTLR0 t' = REG_PTLR0 t /\
    REG_PTBR1 t' = REG_PTBR1 t /\ REG_PTLR1 t' = REG_PTLR1 t
}.

(** The new process and its parts. *)
Record pcb_made (s : kst) (ms : gmap ptr (gmap Z ptr)) (all avail : gset Z) (p cm tb : ptr) (fs : list Z)
    (a : arena) (h : MH) (t' : pt) (f' : fl) : Prop := {
  pm_addr : p = brk_addr (o_arena (k_obj s)) /\ 0 < p < brk_addr a /\ pcbs (k_obj s) !! p = None;
  pm_arena : plenty a;
  pm_maps : m_rep h (<[cm := ∅]> ms) /\ m_plenty h /\ cm <> NULL /\ ms !! cm = None;
  pm_table : new_table (k_pt s) tb t';
  pm_stack : Z.of_nat (length fs) = STACK_PAGES /\ NoDup fs /\ list_to_set fs ⊆ avail;
  pm_fl : fl_rep f' (numFrames (k_glob s)) all (avail ∖ list_to_set fs)
}.

(** The state in which the new process lies. *)
Definition initialised (a : arena) (h : MH) (t' : pt) (f' : fl) (s : kst) : kst :=
  with_sched (with_nextPid (nextPid (k_sched s) + 1) (k_sched s)) (with_fl f' (with_pt t' (with_mh h (with_arena a s)))).

Lemma initPCB_ok s ms all avail : can_init s ms all avail ->
  exists p cm tb fs a h t' f', initPCB s = Ret (Some p)
      (upd_pcb p (new_pcb (nextPid (k_sched s)) cm tb fs) (initialised a h t' f' s)) /\
    pcb_made s ms all avail p cm tb fs a h t' f'.
Proof.
  intros [Hmem Hm Hmp Hwf Hptp Hroom Hfl Hn]. pose proof KERNEL_STACK_room as HSP.
  pose proof (mem_pos _ Hmem) as Hpos. unfold initPCB.
  destruct (kmalloc_next s sizeof_PCB Hmem) as (a1 & Hm1 & Hp & Hb1 & Ha1). set (p := brk_addr (o_arena (k_obj s))) in *. step Hm1.
  destruct (Z.eqb_spec p NULL); [lia|]. kmon. set (s1 := with_sched _ _).
  assert (mem_ok s1) as Hmem1 by (by destruct (mem_ok_arena s a1 Hmem Ha1 ltac:(lia))).
  destruct (kmalloc_next s1 sizeof_UserContext Hmem1) as (a & Hm2 & _ & Hb2 & Ha). step Hm2.
  pose proof (mem_pos _ Hmem1). set (u := brk_addr (o_arena (k_obj s1))) in *.
  destruct (Z.eqb_spec u NULL); [lia|]. rewrite bind_set_pcb.
  destruct (HashMap_new_spec (k_mh s) ms CHILDREN_MAP_HASH_BUCKETS ltac:(done) Hm) as [[]|(cm & h & Hcm & Hhp & Hc)]; [done|].
  destruct Hc as [(_ & [] & _)|(Hcmz & Hcmn & Hrep)]; [done|].
  match goal with |- context [bind (lift (HashMap_new _)) _ (upd_pcb p ?y ?s2)] =>
    step (lift_mh _ (upd_pcb p y s2) _ _ Hcm);
    change (with_mh h (upd_pcb p y s2)) with (upd_pcb p y (with_mh h s2)) end.
  rewrite bind_update_upd. destruct (Z.eqb_spec cm NULL); [done|]. rewrite !bind_update_upd.
  destruct (initializeRegionPageTable_ok (k_pt s) Hwf) as (r & tb & t' & Ht & Hwf' & Htp & Hcase).
  destruct Hcase as [(_ & _ & [] & _)|(-> & Htb & Hnew & Hold)]; [done|].
  pose proof (initializeRegionPageTable_regs _ _ _ Ht) as Hregs.
  match goal with |- context [bind (lift initializeRegionPageTable) _ (upd_pcb p ?y ?s2)] =>
    step (lift_pt _ (upd_pcb p y s2) _ _ Ht);
    change (with_pt t' (upd_pcb p y s2)) with (upd_pcb p y (with_pt t' s2)) end.
  cbn [fst snd]. change SUCCESS with 0. rewrite eqb_0_ERROR, !bind_update_upd.
  match goal with |- context [bind (init_stack p _) _ (upd_pcb p ?y ?s2)] =>
    destruct (init_stack_ok p _ all (Z.to_nat STACK_PAGES) s2 [] y avail eq_refl Hfl Hn eq_refl)
      as (fs & f' & Hst & Hlen & Hnd & Hsub & Hfl') end.
  cbn [length] in Hst. rewrite Z2Nat.id in Hst by lia. step Hst.
  exists p, cm, tb, fs, a, h, t', f'. split; [done|]. split; try done.
  - change u with (brk_addr a1) in Hb2. split_and!; try done; lia.
  - split; [done|]. split; [by apply Hhp|done].
  - split; try done. by apply Htp.
  - split; [lia|done].
Qed.
End laws.
