(* ===== verification/ForkCall.v ===== *)
(** The whole of [KernelFork] for a kernel in order: a new process is made,
    region 1 and the kernel stack are copied into frames that were free, and
    the child runs. *)

From stdpp Require Import base gmap sets list.
From S2P Require Import Prelude Hardware Queue HashMap FrameList PageTable State Scheduler.
From S2P Require Import SwitchLaws SchedView SchedLaws Steps ForkLaws GeneralCalls CopyLaws InitLaws.

(** [t'] has the entries and registers of [t], apart from the entry of the
    temporary page and from tables that [t] does not have. *)
Record pt_kept `{Hardware} (t0 : ptr) (t t' : pt) : Prop := {
  kt_enable : REG_VM_ENABLE t' = REG_VM_ENABLE t;
  kt_base0 : REG_PTBR0 t' = REG_PTBR0 t;
  kt_len0 : REG_PTLR0 t' = REG_PTLR0 t;
  kt_base1 : REG_PTBR1 t' = REG_PTBR1 t;
  kt_len1 : REG_PTLR1 t' = REG_PTLR1 t;
  kt_ptes a : a <> temp_pte t0 -> is_Some (ptes t !! a) -> ptes t' !! a = ptes t !! a;
  kt_dom a : is_Some (ptes t !! a) -> is_Some (ptes t' !! a)
}.

Section laws.
Context {QH MH : Type} `{HL : HardwareLaws} `{QO : QueueOps QH} `{MO : MapOps MH}
  `{QL : !QueueLaws QH} `{ML : !MapLaws MH}.
Abbreviation kst := (kst QH MH).
Implicit Types s : kst.

Lemma region1_pages_eq : region1_pages = seqZ 0 MAX_PT_LEN.
Proof.
  unfold region1_pages. rewrite VMEM_1_BASE_eq, VMEM_1_LIMIT_eq. pose proof PAGESIZE_pos. pose proof MAX_PT_LEN_pos.
  replace (2 * MAX_PT_LEN * PAGESIZE - MAX_PT_LEN * PAGESIZE) with (MAX_PT_LEN * PAGESIZE) by lia.
  by rewrite Z.quot_mul by lia.
Qed.

(** ** Tables that stay *)

Lemma pt_kept_table t0 t t' b : pt_kept t0 t t' -> table t b -> table t' b.
Proof. intros Hk (? & ? & Ht). split_and!; try done. intros i Hi. by apply (kt_dom _ _ _ Hk), Ht. Qed.

Lemma pt_kept_vm t0 t t' a b : pt_kept t0 t t' -> vm_on t a b -> vm_on t' a b.
Proof. intros Hk []. pose proof Hk as []. split; try congruence; by eapply pt_kept_table. Qed.

Lemma pt_kept_stack t0 t t' fs : pt_kept t0 t t' -> stack_mapped t t0 fs -> stack_mapped t' t0 fs.
Proof.
  intros Hk Hm i Hi. destruct (Hm i Hi) as (f & Hf & He). exists f. split; [done|].
  rewrite (kt_ptes _ _ _ Hk); [done| |by eexists]. apply not_eq_sym, temp_pte_ne. lia.
Qed.

Lemma pt_kept_pcb t0 t t' x : pt_kept t0 t t' -> pcb_ok t t0 x -> pcb_ok t' t0 x.
Proof.
  intros Hk [? (r1 & ? & ? & ?) ? ?]. split; try done. exists r1. split_and!; try done. by eapply pt_kept_table.
Qed.

Lemma pt_kept_new t0 t tb t' : new_table t tb t' -> pt_wf t -> pt_kept t0 t t'.
Proof.
  intros [-> Hnew Hold _ _ (? & ? & ? & ? & ?)] [_ Hwf]. pose proof PTE_SIZE_pos. split; try done.
  - intros a _ Ha. apply Hold. apply Hwf in Ha. lia.
  - intros a Ha. rewrite Hold; [done|]. apply Hwf in Ha. lia.
Qed.

Lemma pt_kept_upd t0 t t' t'' P : pt_kept t0 t t' -> pt_upd P t' t'' ->
  (forall a, is_Some (ptes t !! a) -> P a -> a = temp_pte t0) -> pt_kept t0 t t''.
Proof.
  intros [] [_ ? ? ? ? ? Hsame Hdom] HP. split; try congruence.
  - intros a Ha Hs. rewrite Hsame; [auto|]. intros Hpa. by apply Ha, HP.
  - intros a Hs. apply Hdom. auto.
Qed.

(** The new table lies behind all tables there are. *)
Lemma new_table_apart t tb t' b : new_table t tb t' -> pt_wf t -> table t b -> apart b tb.
Proof.
  intros Hn [_ Hwf] (_ & _ & Ht). left. rewrite (nt_base _ _ _ Hn). pose proof PTE_SIZE_pos. pose proof MAX_PT_LEN_pos.
  specialize (Hwf (pte_at b (MAX_PT_LEN - 1))). unfold pte_at, entry in *. specialize (Ht (MAX_PT_LEN - 1)).
  assert (b + (MAX_PT_LEN - 1) * PTE_SIZE + PTE_SIZE <= brk_addr (pt_arena t)) by (apply Hwf, Ht; lia). lia.
Qed.

Lemma new_table_table t tb t' : new_table t tb t' -> pt_wf t ->
  brk_addr (pt_arena t) + MAX_PT_LEN * PTE_SIZE < 2 ^ 32 -> table t' tb.
Proof.
  intros Hn [Hpos _] Hroom. pose proof (nt_base _ _ _ Hn) as ->. split; [done|]. split; [done|].
  intros i Hi. rewrite (nt_new _ _ _ Hn i Hi). by eexists.
Qed.

(** ** A state that differs in what the invariant allows *)

(** [s'] is [s] with a newly allocated rest: more memory, more maps, more page
    tables; the running process's PCB may differ in what the invariant does
    not look at. *)
Record grown (s : kst) (t0 : ptr) (p : ptr) (x : PCB_t) (s' : kst) : Prop := {
  gr_pt : pt_kept t0 (k_pt s) (k_pt s');
  gr_pcbs : pcbs (k_obj s') = <[p := x]> (pcbs (k_obj s));
  gr_brk : brk_addr (o_arena (k_obj s)) <= brk_addr (o_arena (k_obj s'));
  gr_plenty : plenty (o_arena (k_obj s'));
  gr_glob : k_glob s' = k_glob s;
  gr_qh : k_qh s' = k_qh s;
  gr_cur : currPCB (k_sched s') = currPCB (k_sched s);
  gr_ready : readyQ (k_sched s') = readyQ (k_sched s);
  gr_blocked : blockedMap (k_sched s') = blockedMap (k_sched s);
  gr_sleeping : sleepingMap (k_sched s') = sleepingMap (k_sched s)
}.

Lemma kernel_ok_grown s t0 qs ms v x y s' ms' : kernel_ok s t0 qs ms v -> grown s t0 (v_run v) x s' ->
  pcbs (k_obj s) !! v_run v = Some y -> same_process x y -> m_rep (k_mh s') ms' -> m_plenty (k_mh s') ->
  (forall hm, hm = blockedMap (k_sched s) \/ hm = sleepingMap (k_sched s) -> ms' !! hm = ms !! hm) ->
  kernel_ok s' t0 qs ms' v.
Proof.
  intros [[[Hvm Hb Ht Ha] [Hpl Hpos Hlt] Hst Hp Hk] Hrun Hs Hprocs] [Hpt Hpcbs Hbrk Hpl' Hglob Hqh Hcur Hr Hbl Hsl]
    Hy Hxy Hm Hmp Hms.
  split; [split| | |].
  - split; rewrite ?Hglob; try done. pose proof Hpt as []. destruct Hvm. split; try congruence. by eapply pt_kept_table.
  - split; [done|lia|]. intros p. rewrite Hpcbs. intros Hin.
    assert (is_Some (pcbs (k_obj s) !! p)) as ?%Hlt; [|lia].
    apply lookup_insert_is_Some in Hin as [<-|[_ ?]]; [by exists y|done].
  - unfold starter_ok in *. by rewrite Hglob.
  - intros p z. rewrite Hpcbs. intros [[<- <-]|[_ Hz]]%lookup_insert_Some; (eapply pt_kept_pcb; [done|]).
    + eapply pcb_ok_ext; [done|]. by eapply Hp.
    + by eapply Hp.
  - intros p z. rewrite Hpcbs, Hcur. intros [[<- <-]|[_ Hz]]%lookup_insert_Some Hne; [|by eapply Hk].
    by destruct Hne; rewrite (sr_run _ _ _ _ Hs).
  - destruct Hrun as (z & fs & r1 & Hz & Hkc & Hfs & Hmap & Hr1 & Hreg).
    rewrite (sr_run _ _ _ _ Hs) in Hz. simplify_eq. destruct Hxy as (_ & Hxk & Hxs & Hxr & _).
    exists x, fs, (REG_PTBR1 (k_pt s)). rewrite Hcur, Hpcbs, (sr_run _ _ _ _ Hs), lookup_insert_eq.
    split_and!; try done; [by unfold has_kctxt; rewrite Hxk|by eapply has_stack_ext| |congruence|apply Hpt].
    by eapply pt_kept_stack.
  - destruct Hs. split; rewrite ?Hqh, ?Hcur, ?Hr, ?Hbl, ?Hsl; try done; rewrite Hms by auto; done.
  - rewrite Hpcbs, (pids_insert _ _ y); [done|done|apply Hxy].
Qed.
(** ** [KernelFork] *)

(** What a fork needs: the running process [xp] with its page table [t1], its
    map of children [cm], and enough memory, of all kinds, for one more
    process. *)
Record can_fork (s : kst) (t0 t1 : ptr) (qs : gmap ptr (list ptr)) (ms : gmap ptr (gmap Z ptr)) (v : sview)
    (xp : PCB_t) (u : UserContext) (cm : ptr) (m : gmap Z ptr) (all avail : gset Z) : Prop := {
  cf_ok : kernel_ok s t0 qs ms v;
  cf_vm : vm_on (k_pt s) t0 t1;
  cf_pcb : pcbs (k_obj s) !! v_run v = Some xp /\ uctxt xp = Some u /\ r1PageTable xp = Some t1;
  cf_children : childrenMap xp = Some cm /\ ms !! cm = Some m /\
    cm <> blockedMap (k_sched s) /\ cm <> sleepingMap (k_sched s);
  cf_pids p y : pcbs (k_obj s) !! p = Some y -> pid y < nextPid (k_sched s);
  cf_keys : m !! nextPid (k_sched s) = None;
  cf_init : can_init s ms all avail;
  cf_fit : frames_fit all;
  cf_space : space_ok (k_pt s) t1 avail;
  cf_size : (Z.to_nat STACK_PAGES + length (valid_pages (k_pt s) t1 region1_pages) <= size avail)%nat;
  cf_stack fs f : has_stack xp fs -> f ∈ fs -> f ∉ avail
}.

(** The child's PCB, and the parent's after the fork. *)
Definition child_pcb (n : Z) (xp : PCB_t) (parentPCB cmc tc : ptr) (fs : list Z) : PCB_t :=
  with_parent parentPCB (with_brk (brk xp) (with_uctxt (uctxt xp) (with_kctxt KNew (new_pcb n cmc tc fs)))).
Definition parent_pcb (xp : PCB_t) : PCB_t := with_numChildren (u32 (numChildren xp + 1)) xp.

(** The state [s'] in which [KernelFork] calls [forkProcess]. *)
Record fork_ready (s : kst) (t0 t1 : ptr) (ms : gmap ptr (gmap Z ptr)) (v : sview) (xp : PCB_t) (cm : ptr)
    (m : gmap Z ptr) (all avail : gset Z) (c cmc tc : ptr) (fs : list Z) (l : list (Z * Z)) (s' : kst) : Prop := {
  fr_addr : 0 < c < brk_addr (o_arena (k_obj s')) /\ pcbs (k_obj s) !! c = None;
  fr_child : pcbs (k_obj s') !! c = Some (child_pcb (nextPid (k_sched s)) xp (v_run v) cmc tc fs);
  fr_grown : grown s t0 (v_run v) (parent_pcb xp) (without c s');
  fr_maps : m_rep (k_mh s') (<[cm := <[nextPid (k_sched s) := c]> m]> (<[cmc := ∅]> ms)) /\ m_plenty (k_mh s') /\ ms !! cmc = None;
  fr_table : table (k_pt s') tc /\ apart t0 tc /\ apart t1 tc /\ forall b, table (k_pt s) b -> apart b tc;
  fr_stack : Z.of_nat (length fs) = STACK_PAGES /\ NoDup (fs ++ l.*2) /\ list_to_set (fs ++ l.*2) ⊆ avail;
  fr_fl : fl_rep (k_fl s') (numFrames (k_glob s)) all (avail ∖ list_to_set (fs ++ l.*2));
  fr_pages : l.*1 = valid_pages (k_pt s) t1 region1_pages;
  fr_copied i f : (i, f) ∈ l -> page_copied s t1 tc (k_pt s') (k_mem s') i f;
  fr_invalid i : 0 <= i < MAX_PT_LEN -> i ∉ l.*1 -> entry (k_pt s') tc i = Some (mkPte 0 PROT_NONE 0);
  fr_mem f : f ∉ l.*2 -> k_mem s' !! f = k_mem s !! f;
  fr_frame : k_frame s' = k_frame s;
  fr_next : nextPid (k_sched s') = nextPid (k_sched s) + 1;
  fr_pt : pt_wf (k_pt s') /\ plenty (pt_arena (k_pt s'))
}.

(** The tables of the fork once the child has its own. *)
Lemma fork_tables_new s t0 t1 tc t' s1 : mmu_ok s t0 -> vm_on (k_pt s) t0 t1 -> pt_wf (k_pt s) ->
  brk_addr (pt_arena (k_pt s)) + MAX_PT_LEN * PTE_SIZE < 2 ^ 32 -> new_table (k_pt s) tc t' ->
  k_pt s1 = t' -> k_glob s1 = k_glob s -> fork_tables s1 t0 t1 tc.
Proof.
  intros Hmmu Hvm Hwf Hroom Hn Hpt Hg. rewrite <- Hpt in Hn. destruct Hmmu as [_ _ Ht Ha]. split; rewrite ?Hg; try done.
  - apply (pt_kept_vm t0 (k_pt s)); [by eapply pt_kept_new|done].
  - by eapply new_table_table.
  - destruct (new_table_apart _ _ _ _ Hn Hwf (vm_table0 _ _ _ Hvm)); [by right|by left].
  - destruct (new_table_apart _ _ _ _ Hn Hwf (vm_table1 _ _ _ Hvm)); [by right|by left].
Qed.

(** A table that is kept has its entries. *)
Lemma pt_kept_entry t0 t t' b i : pt_kept t0 t t' -> table t b -> apart t0 b -> 0 <= i < MAX_PT_LEN ->
  entry t' b i = entry t b i.
Proof.
  intros Hk (_ & _ & Ht) Hap Hi. apply (kt_ptes _ _ _ Hk); [|by apply Ht].
  intros Heq. symmetry in Heq. revert Heq. apply pte_at_apart; [done|apply temp_vpn_range|done].
Qed.

Lemma space_ok_ext t t' b avail avail' : (forall i, 0 <= i < MAX_PT_LEN -> entry t' b i = entry t b i) ->
  avail' ⊆ avail -> space_ok t b avail -> space_ok t' b avail'.
Proof.
  intros He Hsub Hsp i e Hi. rewrite He by done. intros H1 H2. destruct (Hsp i e Hi H1 H2) as (? & ? & ?).
  split; [done|]. split; [done|]. set_solver.
Qed.

Lemma pt_kept_copied t0 tc s t' t'' ps : pt_kept t0 (k_pt s) t' -> new_table (k_pt s) tc t' -> pt_wf (k_pt s) ->
  (forall i, i ∈ ps -> 0 <= i < MAX_PT_LEN) -> pt_upd (in_copy t0 tc ps) t' t'' -> pt_kept t0 (k_pt s) t''.
Proof.
  intros Hk Hn [_ Hwf] Hps Hu. eapply pt_kept_upd; [done|done|]. intros a Ha [->|(i & Hi & ->)]; [done|].
  apply Hwf in Ha. rewrite (nt_base _ _ _ Hn) in Ha. unfold pte_at in Ha. pose proof PTE_SIZE_pos.
  apply Hps in Hi. nia.
Qed.

(** ** The run of [KernelFork] up to [forkProcess] *)

Lemma bind_load_upd {B} p x (k : PCB_t -> M kst B) s :
  bind (load_pcb p) k (upd_pcb p x s) = k x (upd_pcb p x s).
Proof.
  assert (pcbs (k_obj (upd_pcb p x s)) !! p = Some x) as Hp by apply lookup_insert_eq.
  by rewrite (bind_Ret _ _ _ _ _ (load_pcb_ok _ _ _ Hp)).
Qed.

Lemma KernelFork_start s t0 t1 qs ms v xp u cm m all avail : can_fork s t0 t1 qs ms v xp u cm m all avail ->
  exists c cmc tc fs a h t' f' a', pcb_made s ms all avail c cmc tc fs a h t' f' /\
    KernelFork s = fork_rest c tc t1 (v_run v)
      (upd_pcb c (with_brk (brk xp) (with_uctxt (Some u) (with_kctxt KNew (new_pcb (nextPid (k_sched s)) cmc tc fs))))
        (initialised a' h t' f' s)) /\ plenty a' /\ brk_addr a < brk_addr a'.
Proof.
  intros [Hok Hvm (Hxp & Hu & Hr1) (Hcm & Hm & Hcmb & Hcms) Hpids Hkeys Hinit Hfit Hsp Hsize Hstack].
  destruct (initPCB_ok s ms all avail Hinit) as (c & cmc & tc & fs & a & h & t' & f' & Hrun & Hpm).
  pose proof Hpm as [(Hceq & Hcpos & Hcn) Ha (Hrep & Hplh & _ & Hcmn) Htab (Hlen & Hnd & Hsub) Hfl].
  pose proof (sr_run _ _ _ _ (ko_sched _ _ _ _ _ Hok)) as Hcur.
  assert (v_run v <> c) as Hne by (intros <-; congruence).
  unfold KernelFork. kmon. rewrite Hcur. step Hrun. set (n := nextPid (k_sched s)) in *.
  set (x := new_pcb n cmc tc fs). set (B := initialised a h t' f' s).
  assert (mem_ok B) as HmB.
  { destruct (mem_ok_arena s a (ci_mem _ _ _ _ Hinit) Ha); [lia|by split]. }
  destruct (kmalloc_next (upd_pcb c x B) sizeof_KernelContext) as (a' & Hm2 & _ & Hb & Hpa); [by apply mem_ok_new|].
  step Hm2. pose proof (mem_pos _ HmB).
  destruct (Z.eqb_spec (brk_addr (o_arena (k_obj (upd_pcb c x B)))) NULL); [change (brk_addr (o_arena (k_obj B)) = 0) in e; lia|].
  change (with_arena a' (upd_pcb c x B)) with (upd_pcb c x (initialised a' h t' f' s)).
  rewrite bind_update_upd. 
  exists c, cmc, tc, fs, a, h, t', f', a'. split; [done|]. split; [|done].
  assert (pcbs (k_obj (upd_pcb c (with_kctxt KNew x) (initialised a' h t' f' s))) !! v_run v = Some xp) as Hp
    by (cbn; by rewrite lookup_insert_ne).
  step (load_pcb_ok _ _ _ Hp). step_rd Hu. rewrite !bind_update_upd. step_rd Hr1.
  rewrite bind_load_upd. done.
Qed.

(** The end state of [fork_rest] before it calls [forkProcess]. *)
Definition fork_state (parentPCB : ptr) (xp : PCB_t) (c : ptr) (x : PCB_t) (h : MH) (t' : pt) (f' : fl)
    (m : gmap Z (gmap Z Z)) (s : kst) : kst :=
  with_mh h (upd_pcb parentPCB (parent_pcb xp) (upd_pcb c (with_parent parentPCB x)
    (with_mem m (with_pt t' (with_fl f' s))))).

Lemma fork_rest_run s c x tc parentPCB xp t0 t1 nf all avail cm mp ms : pcbs (k_obj s) !! parentPCB = Some xp ->
  c <> parentPCB -> c <> NULL -> childrenMap xp = Some cm -> 
  m_rep (k_mh s) ms -> m_plenty (k_mh s) -> ms !! cm = Some mp -> 0 <= pid x -> mp !! pid x = None ->
  fork_tables s t0 t1 tc -> numFrames (k_glob s) = nf -> fl_rep (k_fl s) nf all avail ->
  frames_fit all -> space_ok (k_pt s) t1 avail ->
  (length (valid_pages (k_pt s) t1 region1_pages) <= size avail)%nat ->
  exists l t2 t' f' h m, copied s t0 t1 tc nf all avail region1_pages l t2 f' m /\
    t' = set_entry t2 (temp_pte t0) ((KERNEL_STACK_BASE_VPN - 1) * PAGESIZE) 0 PROT_NONE 0 /\
    m_rep h (<[cm := <[pid x := c]> mp]> ms) /\ m_plenty h /\
    fork_rest c tc t1 parentPCB (upd_pcb c x s) =
      (let! r := forkProcess c (KFork parentPCB c) in
       if r =? ERROR then ret ERROR else fork_return parentPCB c) (fork_state parentPCB xp c x h t' f' m s).
Proof.
  intros Hxp Hne Hc0 Hcm Hrep Hpl Hm Hpid Hfresh Hft Hnf Hfl Hfit Hsp Hsize.
  assert (fork_tables (upd_pcb c x s) t0 t1 tc) as Hft' by (destruct Hft; by split).
  destruct (fork_copy_ok t0 t1 tc nf all region1_pages (upd_pcb c x s) avail) as (l & t2 & f' & m & Hrun & Hcp);
    try done; [rewrite region1_pages_eq; apply NoDup_seqZ| |by eapply fl_rep_subset|].
  { intros i. by rewrite region1_pages_eq, elem_of_seqZ. }
  destruct (HashMap_insert_new (k_mh s) ms cm mp (pid x) c) as (r & h & Hins & Hplh & [(_ & [] & _)|(-> & Hrep')]); try done.
  exists l, t2, (set_entry t2 (temp_pte t0) ((KERNEL_STACK_BASE_VPN - 1) * PAGESIZE) 0 PROT_NONE 0), f', h, m.
  split; [destruct Hcp; by split|]. split; [done|]. split; [done|]. split; [auto|].
  unfold fork_rest. step Hrun. cbn [negb]. kmon. 
  set (s1 := with_mem _ _). change (k_glob s1) with (k_glob s). rewrite (ft_temp _ _ _ _ Hft).
  assert (vm0_on (k_pt s1) t0) as Hvm by (eapply pt_upd_vm0; [apply Hcp|]; by eapply vm_on_vm0, Hft).
  step (lift_pt _ s1 _ _ (setPageTableEntry_r0 (k_pt s1) t0 _ 0 PROT_NONE 0 Hvm temp_vpn_range)).
  set (t3 := set_entry _ _ _ _ _ _).
  change (with_pt t3 s1) with (upd_pcb c x (with_mem m (with_pt t3 (with_fl f' s)))).
  rewrite bind_update_upd. set (s2 := upd_pcb _ _ _).
  assert (pcbs (k_obj s2) !! parentPCB = Some xp) as Hxp2 by (cbn; by rewrite lookup_insert_ne).
  step (load_pcb_ok _ _ _ Hxp2). unfold s2 at 1. rewrite bind_load_upd. fold s2. step_rd Hcm.
  step (lift_mh _ s2 _ _ Hins).
  assert (pcbs (k_obj (with_mh h s2)) !! parentPCB = Some xp) as Hxp3 by done.
  step (update_pcb_upd _ _ (fun p => with_numChildren (u32 (numChildren p + 1)) p) _ Hxp3). done.
Qed.

(** The page tables when the child is about to run. *)
Lemma fork_tables_end s t0 t1 tc tA t2 ps : mmu_ok s t0 -> vm_on (k_pt s) t0 t1 -> pt_wf (k_pt s) ->
  brk_addr (pt_arena (k_pt s)) + MAX_PT_LEN * PTE_SIZE < 2 ^ 32 -> new_table (k_pt s) tc tA ->
  (forall i, i ∈ ps -> 0 <= i < MAX_PT_LEN) -> pt_upd (in_copy t0 tc ps) tA t2 ->
  let t3 := set_entry t2 (temp_pte t0) ((KERNEL_STACK_BASE_VPN - 1) * PAGESIZE) 0 PROT_NONE 0 in
  pt_kept t0 (k_pt s) t3 /\ table t3 tc /\ apart t0 tc /\ apart t1 tc /\
  forall i, 0 <= i < MAX_PT_LEN -> entry t3 tc i = entry t2 tc i.
Proof.
  intros Hmmu Hvm Hwf Hroom Hn Hps Hu t3.
  pose proof (pt_kept_new t0 _ _ _ Hn Hwf) as Hk. pose proof (pt_kept_copied _ _ s _ _ _ Hk Hn Hwf Hps Hu) as Hk2.
  assert (is_Some (ptes t2 !! temp_pte t0)) as Ht.
  { apply (upd_dom _ _ _ Hu), (kt_dom _ _ _ Hk). apply (vm_table0 _ _ _ Hvm), temp_vpn_range. }
  assert (pt_upd (fun a => a = temp_pte t0) t2 t3) as Hu3 by (by apply pt_upd_set_entry).
  assert (apart t0 tc) as Ha0 by (eapply new_table_apart; [done|done|apply Hvm]).
  split; [|split; [|split; [done|split]]].
  - eapply pt_kept_upd; [done|done|auto].
  - eapply pt_upd_table; [done|]. eapply pt_upd_table; [done|]. by eapply new_table_table.
  - eapply new_table_apart; [done|done|apply Hvm].
  - intros i Hi. apply (upd_ptes _ _ _ Hu3). apply pte_at_apart; [|done|apply temp_vpn_range].
    unfold apart in *. lia.
Qed.

(** The entries of pages that the copy did not touch are as in a new table. *)
Lemma entry_untouched t0 tc tA t2 t ps i : new_table t tc tA -> apart t0 tc -> pt_upd (in_copy t0 tc ps) tA t2 ->
  0 <= i < MAX_PT_LEN -> i ∉ ps -> entry t2 tc i = Some (mkPte 0 PROT_NONE 0).
Proof.
  intros Hn Ha Hu Hi Hni. unfold entry. rewrite (upd_ptes _ _ _ Hu); [by apply (nt_new _ _ _ Hn)|].
  intros [Heq|(j & Hj & Heq)].
  - revert Heq. apply pte_at_apart; [unfold apart in *; lia|done|apply temp_vpn_range].
  - by apply pte_at_inj in Heq as ->.
Qed.

Lemma KernelFork_ready s t0 t1 qs ms v xp u cm m all avail : can_fork s t0 t1 qs ms v xp u cm m all avail ->
  exists c cmc tc fs l s', fork_ready s t0 t1 ms v xp cm m all avail c cmc tc fs l s' /\
    KernelFork s = (let! r := forkProcess c (KFork (v_run v) c) in
      if r =? ERROR then ret ERROR else fork_return (v_run v) c) s'.
Proof.
  intros Hcan. pose proof Hcan as [Hok Hvm (Hxp & Hu & Hr1) (Hcm & Hm & Hcmb & Hcms) Hpids Hkeys Hinit Hfit Hsp Hsize Hstack].
  destruct (KernelFork_start _ _ _ _ _ _ _ _ _ _ _ _ Hcan) as (c & cmc & tc & fs & a & h & tA & fA & a' & Hpm & Hrun & Ha' & Hbrk).
  destruct Hpm as [(Hceq & Hcpos & Hcn) Ha (Hrep & Hplh & _ & Hcmn) Htab (Hlen & Hnd & Hsub) Hfl].
  destruct Hinit as [Hmem _ _ Hwf _ Hroom Hfl0 _]. pose proof (ko_sys _ _ _ _ _ Hok) as Hsys.
  pose proof (so_mmu _ _ Hsys) as Hmmu. set (n := nextPid (k_sched s)) in *. set (s1 := initialised a' h tA fA s) in *.
  assert (c <> v_run v) as Hne by (intros ->; congruence).
  assert (0 <= n) as Hn.
  { assert (0 <= pid xp); [|specialize (Hpids _ _ Hxp); lia].
    apply (po_pos _ _ (ko_procs _ _ _ _ _ Hok) (v_run v)). apply lookup_pids. by exists xp. }
  assert (forall i, 0 <= i < MAX_PT_LEN -> entry tA t1 i = entry (k_pt s) t1 i) as Hent.
  { intros i Hi. eapply pt_kept_entry; [by eapply pt_kept_new|apply Hvm..|done]. }
  assert (valid_pages tA t1 region1_pages = valid_pages (k_pt s) t1 region1_pages) as Hvp.
  { apply valid_pages_ext. intros i. rewrite region1_pages_eq, elem_of_seqZ. intros Hi. apply Hent. lia. }
  destruct (fork_rest_run s1 c (with_brk (brk xp) (with_uctxt (Some u) (with_kctxt KNew (new_pcb n cmc tc fs)))) tc
    (v_run v) xp t0 t1 (numFrames (k_glob s)) all (avail ∖ list_to_set fs) cm m (<[cmc := ∅]> ms)) 
    as (l & t2 & t3 & f' & hC & mem & Hcp & -> & HrepC & HplC & Hrest); try done; [lia| |by eapply fork_tables_new|by eapply space_ok_ext; [| |done]; [done|set_solver]| |].
  { rewrite lookup_insert_ne; [done|]. intros ->. congruence. }
  { change (k_pt s1) with tA. rewrite Hvp, size_difference, size_list_to_set by done. lia. }
  rewrite Hrest in Hrun. rewrite <- Hu in Hrun.
  destruct Hcp as [Hpg Hndl Hsubl Hfl' Hpt Hcpd Hmems].
  change (k_pt s1) with tA in *. rewrite Hvp in *.
  assert (forall i, i ∈ valid_pages (k_pt s) t1 region1_pages -> 0 <= i < MAX_PT_LEN) as Hdom.
  { intros i [_ Hi]%elem_of_valid_pages. rewrite region1_pages_eq, elem_of_seqZ in Hi. lia. }
  destruct (fork_tables_end s t0 t1 tc tA t2 (valid_pages (k_pt s) t1 region1_pages)) as (Hk & Htc & Ha0 & Ha1 & He3); try done.
  exists c, cmc, tc, fs, l. eexists. split; [|exact Hrun]. cbn in Hsubl. split; cbn.
  - split; [|done]. lia.
  - rewrite lookup_insert_ne, lookup_insert_eq by done. done.
  - split; cbn; try done; [|lia]. rewrite delete_insert_ne, delete_insert_eq, delete_id by done. done.
  - split; [|done]. done.
  - split; [done|]. split; [done|]. split; [done|]. intros b Hb. by eapply new_table_apart.
  - split; [done|]. split; [|rewrite list_to_set_app_L; set_solver].
    apply NoDup_app. split; [done|]. split; [|done]. intros f Hf Hf'.
    assert (f ∈ avail ∖ list_to_set fs) by (by apply Hsubl, elem_of_list_to_set). set_solver.
  - by rewrite list_to_set_app_L, <- difference_difference_l_L.
  - done.
  - intros i f Hin. assert (0 <= i < MAX_PT_LEN) as Hi by (apply Hdom; rewrite <- Hpg; apply list_elem_of_fmap; by exists (i, f)).
    destruct (Hcpd i f Hin) as (e & He & He2 & Hm2). exists e. rewrite <- Hent by done. split; [done|]. split; [|exact Hm2]. rewrite He3 by done. exact He2.
  - intros i Hi Hni. rewrite He3 by done. rewrite Hpg in Hni. by eapply (entry_untouched t0).
  - done.
  - done.
  - done.
  - assert (is_Some (ptes t2 !! temp_pte t0)) as Hs
      by (apply (upd_dom _ _ _ Hpt), (kt_dom t0 _ _ (pt_kept_new t0 _ _ _ Htab Hwf)), (vm_table0 _ _ _ Hvm), temp_vpn_range).
    split; [|rewrite (upd_arena _ _ _ Hpt); apply (nt_plenty _ _ _ Htab)].
    eapply pt_upd_wf, pt_upd_wf, (nt_wf _ _ _ Htab); [|exact Hpt]. by apply (pt_upd_set_entry (fun a => a = temp_pte t0)).
Qed.

(** ** [forkProcess] and after *)

(** The child that [KernelFork] hands to [forkProcess]. *)
Lemma fork_ready_child s t0 t1 qs ms v xp u cm m all avail c cmc tc fs l s' :
  can_fork s t0 t1 qs ms v xp u cm m all avail -> fork_ready s t0 t1 ms v xp cm m all avail c cmc tc fs l s' ->
  exists fs0, new_child s' t0 v c (child_pcb (nextPid (k_sched s)) xp (v_run v) cmc tc fs) fs fs0.
Proof.
  intros [Hok Hvm (Hxp & Hu & Hr1) Hch Hpids Hkeys Hinit Hfit Hsp Hsize Hstack].
  intros [(Hc1 & Hc2) Hch' [Hk Hpcbs _ _ _ _ _ _ _ _] _ (Htc & Ha0 & _) (Hlen & Hnd & Hsub) _ _ _ _ _ _].
  destruct (ko_running _ _ _ _ _ Hok) as (x & fs0 & r1 & Hx & _ & Hfs0 & Hmap & _).
  rewrite (sr_run _ _ _ _ (ko_sched _ _ _ _ _ Hok)), Hxp in Hx. injection Hx as <-.
  assert (0 <= nextPid (k_sched s)) as Hn.
  { destruct (running_lookup _ _ _ _ _ Hok) as (y & Hy & Hpos). rewrite Hxp in Hy. injection Hy as <-.
    specialize (Hpids _ _ Hxp). lia. }
  assert (forall f, f ∈ fs -> f ∈ avail) as Hav by (intros f Hf; apply Hsub; set_solver).
  assert (has_stack (child_pcb (nextPid (k_sched s)) xp (v_run v) cmc tc fs) fs) as Hst.
  { split_and!; [done|done| |by apply NoDup_app in Hnd as [? _]]. apply Forall_forall. intros f Hf.
    apply Hfit, (fl_rep_subset _ _ _ _ (ci_fl _ _ _ _ Hinit)). auto. }
  exists fs0. split; try done.
  - split; [by exists fs| |by eexists|by eexists]. by exists tc.
  - by left.
  - intros p y Hpc Hy. assert (pcbs (k_obj (without c s')) !! p = Some y) as Hy' by (cbn; by rewrite lookup_delete_ne).
    rewrite Hpcbs in Hy'. assert (pid y < nextPid (k_sched s)); [|cbn; lia].
    apply lookup_insert_Some in Hy' as [[<- <-]|[_ Hy']]; [by apply (Hpids _ _ Hxp)|by eapply Hpids].
  - by eapply (pt_kept_stack t0 (k_pt s)).
  - intros f Hf Hf0. by eapply Hstack; [| |apply Hav].
Qed.

(** The kernel is in order, but for the child. *)
Lemma fork_ready_ok s t0 t1 qs ms v xp u cm m all avail c cmc tc fs l s' :
  can_fork s t0 t1 qs ms v xp u cm m all avail -> fork_ready s t0 t1 ms v xp cm m all avail c cmc tc fs l s' ->
  kernel_ok (without c s') t0 qs (<[cm := <[nextPid (k_sched s) := c]> m]> (<[cmc := ∅]> ms)) v.
Proof.
  intros [Hok Hvm (Hxp & Hu & Hr1) (Hcm & Hm & Hcmb & Hcms) _ _ _ _ _ _ _] Hf.
  destruct Hf as [_ _ Hgr (Hrep & Hpl & Hcmc) _ _ _ _ _ _ _ _].
  eapply (kernel_ok_grown _ _ _ _ _ _ xp); [done|done|done| |done|done|].
  { repeat split. exact (pk_zombies _ _ _ (so_pcb _ _ (ko_sys _ _ _ _ _ Hok) _ _ Hxp)). }
  pose proof (ko_sched _ _ _ _ _ Hok) as Hs.
  intros hm Hhm. rewrite !lookup_insert_ne; [done| |].
  - intros ->. destruct Hhm as [->| ->]; [rewrite (sr_blocked _ _ _ _ Hs) in Hcmc|rewrite (sr_sleeping _ _ _ _ Hs) in Hcmc]; done.
  - intros ->. by destruct Hhm.
Qed.

(** The entries of a table other than that of region 0 during the switch. *)
Lemma forked_entry t0 s cur kcur child x fs fs0 s' b i : forked t0 s cur kcur child x fs fs0 s' -> apart t0 b ->
  0 <= i < MAX_PT_LEN -> entry (k_pt s') b i = entry (k_pt s) b i.
Proof.
  intros Hf Hap Hi. destruct (fk_pt _ _ _ _ _ _ _ _ _ Hf) as (t' & r1 & Hu & _ & ->). cbn.
  transitivity (entry t' b i); [done|]. apply (upd_ptes _ _ _ Hu).
  assert (apart b t0) as Hap' by (unfold apart in *; lia).
  intros [Heq|(j & Hj & Heq)]; revert Heq; (apply pte_at_apart; [done|done|]); [apply temp_vpn_range|by apply stack_vpn_range].
Qed.

Lemma fork_return_child s p c x y : currPCB (k_sched s) = c -> pcbs (k_obj s) !! p = Some x ->
  pcbs (k_obj s) !! c = Some y -> pid x <> pid y -> fork_return p c s = Ret SUCCESS s.
Proof.
  intros Hcur Hx Hy Hne. unfold fork_return. kmon. rewrite Hcur.
  step (load_pcb_ok _ _ _ Hy). step (load_pcb_ok _ _ _ Hx). step (load_pcb_ok _ _ _ Hy).
  destruct (Z.eqb_spec (pid y) (pid x)); [congruence|]. by rewrite Z.eqb_refl.
Qed.

Lemma fork_return_parent s p c x y : currPCB (k_sched s) = p -> pcbs (k_obj s) !! p = Some x ->
  pcbs (k_obj s) !! c = Some y -> fork_return p c s = Ret (pid y) s.
Proof.
  intros Hcur Hx Hy. unfold fork_return. kmon. rewrite Hcur.
  step (load_pcb_ok _ _ _ Hx). step (load_pcb_ok _ _ _ Hx). step (load_pcb_ok _ _ _ Hy).
  by rewrite Z.eqb_refl.
Qed.

(** The whole call: [s1] is the state in which the child gets the processor. *)
Lemma KernelFork_run s t0 t1 qs ms v xp u cm m all avail : can_fork s t0 t1 qs ms v xp u cm m all avail ->
  exists c cmc tc fs fs0 l s1 s' h, let kc := mkKctxt (KFork (v_run v) c) (k_frame s) in
    KernelFork s = Switch kc s' /\ v_run v <> c /\
    fork_ready s t0 t1 ms v xp cm m all avail c cmc tc fs l s1 /\
    (exists qs', kernel_ok s' t0 qs' (<[cm := <[nextPid (k_sched s) := c]> m]> (<[cmc := ∅]> ms)) (v_fork c v)) /\
    forked t0 (with_qh h s1) (v_run v) kc c (child_pcb (nextPid (k_sched s)) xp (v_run v) cmc tc fs) fs fs0 s'.
Proof.
  intros Hcan. destruct (KernelFork_ready s t0 t1 qs ms v xp u cm m all avail Hcan) as (c & cmc & tc & fs & l & s1 & Hr & Hrun).
  pose proof (fork_ready_ok s t0 t1 qs ms v xp u cm m all avail c cmc tc fs l s1 Hcan Hr) as Hok1.
  destruct (fork_ready_child s t0 t1 qs ms v xp u cm m all avail c cmc tc fs l s1 Hcan Hr) as (fs0 & Hc).
  destruct (forkProcess_ok s1 t0 qs _ v c _ fs fs0 (KFork (v_run v) c) Hok1 Hc) as (s' & h & Hfork & Hok' & Hf).
  rewrite (fr_frame _ _ _ _ _ _ _ _ _ _ _ _ _ _ _ _ Hr) in *.
  exists c, cmc, tc, fs, fs0, l, s1, s', h. cbn zeta. split; [by rewrite Hrun; unfold bind; rewrite Hfork|].
  split; [|split; [done|split; [by eexists|exact Hf]]].
  intros <-. destruct (cf_pcb _ _ _ _ _ _ _ _ _ _ _ _ Hcan) as (Hxp & _). pose proof (proj2 (fr_addr _ _ _ _ _ _ _ _ _ _ _ _ _ _ _ _ Hr)). congruence.
Qed.
End laws.
