(* ===== verification/CallLaws.v ===== *)
(** What the system calls of GeneralKernelCalls.c do: the break, the checks of
    user pointers, [Wait]. *)

From stdpp Require Import base gmap sets list.
From S2P Require Import Prelude Hardware Queue HashMap FrameList State UserMem Scheduler.
From S2P Require Import SyncObjects LoadProgram GeneralCalls Tty PageTable SwitchLaws SchedView SchedLaws.

(** The entries [i] to [i + n - 1] of a table. *)
Definition pages_of `{Hardware} (base : ptr) (i : Z) (n : nat) (a : ptr) : Prop :=
  exists j, i <= j < i + Z.of_nat n /\ a = pte_at base j.

(** The number of the first page that begins at the address [a] or later. *)
Definition page_up `{Hardware} (a : Z) : Z := (a + PAGESIZE - 1) / PAGESIZE.

Section laws.
Context {QH MH : Type} `{HL : HardwareLaws} `{QO : QueueOps QH} `{MO : MapOps MH}.
Abbreviation kst := (kst QH MH).
Implicit Types s : kst.

(** ** Mapping and unmapping pages *)

Lemma pages_of_S base i n a : pages_of base i (S n) a <-> a = pte_at base i \/ pages_of base (i + 1) n a.
Proof.
  unfold pages_of. split.
  - intros (j & Hj & ->). destruct (decide (j = i)) as [->|]; [by left|right]. exists j. split; [lia|done].
  - intros [->|(j & Hj & ->)]; [exists i|exists j]; split; (lia || done).
Qed.

Lemma bits_RW : bits PTE_PROT_BITS PROT_RW = PROT_RW.
Proof. pose proof PROT_RW_fits. apply Z.mod_small. lia. Qed.

(** [n] new pages from entry [i] on are mapped to different free frames. *)
Lemma alloc_pages_ok n t0 t1 nf all : forall s i avail, vm_on (k_pt s) t0 t1 -> 0 <= i -> i + Z.of_nat n <= MAX_PT_LEN ->
  numFrames (k_glob s) = nf -> fl_rep (k_fl s) nf all avail -> (n <= size avail)%nat ->
  exists fs t' f', alloc_pages n (pte_at t1 i) s = Ret true (with_pt t' (with_fl f' s)) /\
    length fs = n /\ NoDup fs /\ list_to_set fs ⊆ avail /\ fl_rep f' nf all (avail ∖ list_to_set fs) /\
    pt_upd (pages_of t1 i n) (k_pt s) t' /\
    forall j f, fs !! j = Some f ->
      entry t' t1 (i + Z.of_nat j) = Some (mkPte 1 PROT_RW (bits PTE_PFN_BITS f)).
Proof.
  induction n as [|n IH]; intros s i avail Hvm Hi Hlen Hnf Hfl Hn.
  - exists [], (k_pt s), (k_fl s). rewrite with_fl_id, with_pt_id. cbn. rewrite difference_empty_L.
    split_and!; try done; first [apply NoDup_nil_2|apply pt_upd_refl].
  - destruct (getFrame_ok _ _ _ _ Hfl) as (p & f1 & Hg & Hp & Hfl1 & _); [intros ->; rewrite size_empty in Hn; lia|].
    cbn [alloc_pages]. kmon. rewrite Hnf. step (lift_fl _ _ _ _ Hg).
    pose proof (setPageTableEntry_r1 (k_pt s) t0 t1 i 1 PROT_RW p Hvm ltac:(lia)) as Hset.
    set (s1 := with_fl f1 s). step (lift_pt _ s1 _ _ Hset). set (s2 := with_pt _ s1).
    destruct (IH s2 (i + 1) (avail ∖ {[p]})) as (fs & t' & f' & Hrun & Hl & Hnd & Hsub & Hfl' & Hupd & Hent);
      [by apply vm_on_set_entry|lia|lia|done|done|rewrite size_difference by set_solver; rewrite size_singleton; lia|].
    exists (p :: fs), t', f'. rewrite pte_at_add. split; [exact Hrun|].
    split_and!; [cbn; lia|apply NoDup_cons; set_solver|set_solver|cbn; by rewrite <- difference_difference_l_L| |].
    + eapply pt_upd_trans; [|eapply pt_upd_weaken, Hupd; intros a Ha; apply pages_of_S; by right].
      apply pt_upd_set_entry; [apply pages_of_S; by left|]. apply (vm_table1 _ _ _ Hvm). lia.
    + intros [|j] f Hf; cbn in Hf.
      * injection Hf as <-. rewrite Z.add_0_r. unfold entry. rewrite (upd_ptes _ _ _ Hupd).
        -- cbn. by rewrite lookup_insert_eq, bits_RW.
        -- intros (k & Hk & Heq%pte_at_inj). lia.
      * replace (i + Z.of_nat (S j)) with (i + 1 + Z.of_nat j) by lia. by apply Hent.
Qed.

(** With too few frames the last [getFrame] runs past the end of the array. *)
Lemma alloc_pages_full n t0 t1 nf all : forall s i avail, vm_on (k_pt s) t0 t1 -> 0 <= i -> i + Z.of_nat n <= MAX_PT_LEN ->
  numFrames (k_glob s) = nf -> fl_rep (k_fl s) nf all avail -> (size avail < n)%nat -> alloc_pages n (pte_at t1 i) s = Undef.
Proof.
  induction n as [|n IH]; intros s i avail Hvm Hi Hlen Hnf Hfl Hn; [lia|]. cbn [alloc_pages]. kmon. rewrite Hnf.
  destruct (decide (avail = ∅)) as [->|Hne].
  - unfold bind, lift. change (view s) with (k_fl s). by rewrite (getFrame_full _ _ _ Hfl).
  - destruct (getFrame_ok _ _ _ _ Hfl Hne) as (p & f1 & Hg & Hp & Hfl1 & _). step (lift_fl _ _ _ _ Hg).
    pose proof (setPageTableEntry_r1 (k_pt s) t0 t1 i 1 PROT_RW p Hvm ltac:(lia)) as Hset.
    set (s1 := with_fl f1 s). step (lift_pt _ s1 _ _ Hset). set (s2 := with_pt _ s1). rewrite pte_at_add.
    apply (IH s2 (i + 1) (avail ∖ {[p]})); [by apply vm_on_set_entry|lia|lia|done|done|].
    rewrite size_difference by set_solver. rewrite size_singleton. assert (size avail <> 0%nat) by (intros H0%size_empty_inv; set_solver). lia.
Qed.

(** [n] pages from entry [i] on, mapped to the frames [fs], are given back. *)
Lemma brk_free_ok fs t0 t1 nf all : forall s i avail, vm_on (k_pt s) t0 t1 -> 0 <= i ->
  i + Z.of_nat (length fs) <= MAX_PT_LEN ->
  numFrames (k_glob s) = nf -> fl_rep (k_fl s) nf all avail -> list_to_set fs ⊆ all ->
  (forall j f, fs !! j = Some f -> exists v pr, entry (k_pt s) t1 (i + Z.of_nat j) = Some (mkPte v pr f)) ->
  exists t' f', brk_free (length fs) (pte_at t1 i) s = Ret tt (with_pt t' (with_fl f' s)) /\
    fl_rep f' nf all (avail ∪ list_to_set fs) /\
    pt_upd (pages_of t1 i (length fs)) (k_pt s) t' /\
    forall j, i <= j < i + Z.of_nat (length fs) -> exists e, entry t' t1 j = Some e /\ pte_valid e = 0.
Proof.
  induction fs as [|p fs IH]; intros s i avail Hvm Hi Hlen Hnf Hfl Hsub Hent; cbn [length] in *.
  - exists (k_pt s), (k_fl s). cbn. rewrite with_fl_id, with_pt_id, union_empty_r_L.
    split_and!; try done; first [apply pt_upd_refl|lia].
  - destruct (Hent O p eq_refl) as (v & pr & He). rewrite Z.add_0_r in He.
    destruct (freeFrame_ok _ _ _ _ p Hfl) as (f1 & Hfree & _ & Hfl1). rewrite decide_True in Hfl1 by set_solver.
    cbn [brk_free]. kmon.
    assert (load_pte (pte_at t1 i) (k_pt s) = Ret (mkPte v pr p) (k_pt s)) as Hld by (unfold load_pte, entry in *; by rewrite He).
    step (lift_pt _ s _ _ Hld). rewrite with_pt_id. kmon. rewrite Hnf. cbn [pte_pfn]. step (lift_fl _ s _ _ Hfree).
    pose proof (invalidatePageTableEntry_r1 _ _ _ i _ Hvm ltac:(lia) He) as Hinv.
    set (s1 := with_fl f1 s). step (lift_pt _ s1 _ _ Hinv). set (s2 := with_pt _ s1).
    assert (pt_upd (pages_of t1 i (S (length fs))) (k_pt s) (k_pt s2)) as Hu.
    { split; try done; cbn.
      - intros a Ha. rewrite lookup_insert_ne; [done|]. intros <-. apply Ha, pages_of_S. by left.
      - intros a. rewrite lookup_insert_is_Some'. unfold entry in He. naive_solver. }
    destruct (IH s2 (i + 1) (avail ∪ {[p]})) as (t' & f' & Hrun & Hfl' & Hupd & Hall);
      [by eapply pt_upd_vm|lia|lia|done|done|set_solver| |].
    { intros j f Hf. destruct (Hent (S j) f Hf) as (v' & pr' & He'). exists v', pr'. unfold entry in *. cbn.
      rewrite lookup_insert_ne; [|intros Heq%pte_at_inj; lia].
      by replace (i + 1 + Z.of_nat j) with (i + Z.of_nat (S j)) by lia. }
    exists t', f'. rewrite pte_at_add. split; [exact Hrun|]. split; [cbn; by rewrite (assoc_L (∪))|]. split.
    + eapply pt_upd_trans; [exact Hu|]. eapply pt_upd_weaken, Hupd. intros a Ha. apply pages_of_S. by right.
    + intros j Hj. destruct (decide (j = i)) as [->|Hne]; [|apply Hall; lia].
      exists (mkPte 0 pr p). split; [|done]. unfold entry. rewrite (upd_ptes _ _ _ Hupd).
      * cbn. by rewrite lookup_insert_eq.
      * intros (k & Hk & Heq%pte_at_inj). lia.
Qed.

(** ** The break *)

(** The branches of [KernelBrk] and [SetKernelBrk] in one: the pages between
    the two breaks, each rounded up to a page, are given back or mapped. *)
Definition move_brk_spec (base : ptr) (baseVpn addr currBrk : Z) : M kst bool :=
  if page_up addr <? page_up currBrk then
    brk_free (Z.to_nat (page_up currBrk - page_up addr)) (pte_at base (page_up addr - baseVpn)) ;;; ret true
  else brk_alloc (Z.to_nat (page_up addr - page_up currBrk)) (pte_at base (page_up currBrk - baseVpn)).

Lemma page_up_cases a : 0 <= a < 2 ^ 32 ->
  page_up a = (if DOWN_TO_PAGE a =? a then Z.shiftr a PAGESHIFT else Z.shiftr a PAGESHIFT + 1).
Proof.
  intros Ha. rewrite DOWN_TO_PAGE_aligned, shiftr_page by done. unfold page_up.
  pose proof PAGESIZE_pos as HP. pose proof (Z.div_mod a PAGESIZE) as Hd. pose proof (Z.mod_pos_bound a PAGESIZE HP).
  destruct (Z.eqb_spec (a mod PAGESIZE) 0) as [Hz|Hz].
  - symmetry. apply (Z.div_unique _ _ _ (PAGESIZE - 1)); lia.
  - symmetry. apply (Z.div_unique _ _ _ (a mod PAGESIZE - 1)); lia.
Qed.

Lemma same_page a b : 0 <= a < 2 ^ 32 -> 0 <= b < 2 ^ 32 -> Z.shiftr a PAGESHIFT = Z.shiftr b PAGESHIFT -> a < b ->
  (DOWN_TO_PAGE b =? b) = false.
Proof.
  intros Ha Hb. rewrite !shiftr_page, DOWN_TO_PAGE_aligned by done. intros Heq Hlt.
  pose proof PAGESIZE_pos as HP. pose proof (Z.div_mod a PAGESIZE). pose proof (Z.div_mod b PAGESIZE).
  pose proof (Z.mod_pos_bound a PAGESIZE HP). destruct (Z.eqb_spec (b mod PAGESIZE) 0); [nia|done].
Qed.

Lemma move_brk_ok base baseVpn addr cur s : 0 <= addr < 2 ^ 32 -> 0 <= cur < 2 ^ 32 ->
  move_brk base baseVpn addr cur s = move_brk_spec base baseVpn addr cur s.
Proof.
  intros Ha Hc. unfold move_brk, move_brk_spec. rewrite (page_up_cases addr), (page_up_cases cur) by done.
  set (va := Z.shiftr addr PAGESHIFT). set (vc := Z.shiftr cur PAGESHIFT).
  destruct (Z.ltb_spec va vc) as [Hlt|Hge].
  - destruct (DOWN_TO_PAGE addr =? addr), (DOWN_TO_PAGE cur =? cur);
      match goal with |- context [if ?x <? ?y then _ else _] => destruct (Z.ltb_spec x y) end;
      try (do 2 f_equal; f_equal; lia);
      replace (vc - 1 - (va + 1) + 1) with 0 by lia; replace (vc - (va + 1)) with 0 by lia;
      try replace (va + 1 - vc) with 0 by lia; done.
  - destruct (Z.eqb_spec va vc) as [He|Hne].
    + rewrite He. destruct (Z.ltb_spec addr cur) as [H1|H1], (Z.ltb_spec cur addr) as [H2|H2]; try lia; cbn [andb].
      * rewrite (same_page addr cur Ha Hc He H1).
        destruct (DOWN_TO_PAGE addr =? addr);
          match goal with |- context [if ?x <? ?y then _ else _] => destruct (Z.ltb_spec x y) end; try lia.
        -- by replace (vc + 1 - vc) with 1 by lia.
        -- by replace (vc + 1 - (vc + 1)) with 0 by lia.
      * rewrite (same_page cur addr Hc Ha (eq_sym He) H2).
        destruct (DOWN_TO_PAGE cur =? cur);
          match goal with |- context [if ?x <? ?y then _ else _] => destruct (Z.ltb_spec x y) end; try lia.
        -- by replace (vc + 1 - vc) with 1 by lia.
        -- by replace (vc + 1 - (vc + 1)) with 0 by lia.
      * assert (addr = cur) as -> by lia. rewrite Z.ltb_irrefl, !Z.sub_diag. done.
    + destruct (DOWN_TO_PAGE addr =? addr), (DOWN_TO_PAGE cur =? cur);
      match goal with |- context [if ?x <? ?y then _ else _] => destruct (Z.ltb_spec x y) end; try lia;
      (f_equal; [f_equal; lia|done]) || (f_equal; f_equal; lia).
Qed.

(** ** [isValidBuffer] *)

(** The page of entry [i] is valid and allows [prot]. *)
Definition page_allows (t : pt) (base : ptr) (prot i : Z) : bool :=
  match entry t base i with
  | Some e => (pte_valid e =? 1) && (Z.land (pte_prot e) prot =? prot)
  | None => false
  end.

Lemma buffer_loop_ok n s t1 prot : forall fuel i rem, table (k_pt s) t1 -> 0 <= i -> i + Z.of_nat n <= MAX_PT_LEN ->
  (n <= fuel)%nat -> (Z.of_nat n - 1) * PAGESIZE < rem <= Z.of_nat n * PAGESIZE ->
  buffer_loop fuel (pte_at t1 i) rem prot s = Ret (forallb (page_allows (k_pt s) t1 prot) (seqZ i (Z.of_nat n))) s.
Proof.
  pose proof PAGESIZE_pos as HP. induction n as [|n IH]; intros fuel i rem Ht Hi Hlen Hfuel Hrem.
  - destruct fuel; cbn; (destruct (Z.ltb_spec 0 rem); [lia|done]).
  - destruct fuel as [|fuel]; [lia|]. rewrite seqZ_cons by lia. cbn [buffer_loop forallb].
    destruct (Z.ltb_spec 0 rem); [|nia]. destruct Ht as (Hb1 & Hb2 & Hent). destruct (Hent i) as [e He]; [lia|].
    assert (load_pte (pte_at t1 i) (k_pt s) = Ret e (k_pt s)) as Hld by (unfold load_pte, entry in *; by rewrite He).
    step (lift_pt _ s _ _ Hld). rewrite with_pt_id. unfold page_allows at 1. rewrite He.
    destruct (pte_valid e =? 1); [|done]. destruct (Z.land (pte_prot e) prot =? prot); [|done]. cbn [negb andb].
    rewrite pte_at_add, IH by (done || lia). do 3 f_equal; lia.
Qed.

Lemma first_pte_r1 s t0 t1 vpn : vm_on (k_pt s) t0 t1 -> MAX_PT_LEN <= vpn < 2 * MAX_PT_LEN ->
  first_pte vpn s = Ret (Some (pte_at t1 (vpn - MAX_PT_LEN), 2 * MAX_PT_LEN)) s.
Proof.
  intros Hvm Hv. unfold first_pte. kmon. rewrite (vm_base1 _ _ _ Hvm), USER_BASE_VPN_eq.
  destruct (Z.ltb_spec vpn MAX_PT_LEN), (Z.ltb_spec vpn (2 * MAX_PT_LEN)); try lia. done.
Qed.

(** A user address is an address, and its page is one of region 1. *)
Lemma region1_page a : VMEM_1_BASE <= a < VMEM_1_LIMIT -> 0 <= a < 2 ^ 32 /\ MAX_PT_LEN <= a / PAGESIZE < 2 * MAX_PT_LEN.
Proof.
  pose proof VMEM_1_LIMIT_int. pose proof PAGESIZE_pos. pose proof MAX_PT_LEN_pos.
  rewrite VMEM_1_BASE_eq, VMEM_1_LIMIT_eq in *. intros Ha. split; [nia|]. split.
  - apply Z.div_le_lower_bound; lia.
  - apply Z.div_lt_upper_bound; lia.
Qed.

Lemma page_up_bounds a : 0 < a -> 0 < page_up a /\ (page_up a - 1) * PAGESIZE < a <= page_up a * PAGESIZE.
Proof.
  intros Ha. unfold page_up. pose proof PAGESIZE_pos as HP.
  pose proof (Z.div_mod (a + PAGESIZE - 1) PAGESIZE). pose proof (Z.mod_pos_bound (a + PAGESIZE - 1) PAGESIZE HP).
  split; [apply Z.div_str_pos; lia|]. nia.
Qed.

Lemma isValidBuffer_ok s t0 t1 a len prot : vm_on (k_pt s) t0 t1 -> VMEM_1_BASE <= a < VMEM_1_LIMIT -> 0 < len ->
  a / PAGESIZE - MAX_PT_LEN + page_up len <= MAX_PT_LEN ->
  isValidBuffer a len prot s =
    Ret (forallb (page_allows (k_pt s) t1 prot) (seqZ (a / PAGESIZE - MAX_PT_LEN) (page_up len))) s.
Proof.
  intros Hvm Ha Hlen Hend. destruct (region1_page _ Ha) as [Hu Hpg]. destruct (page_up_bounds _ Hlen) as [Hn Hb].
  pose proof PAGESIZE_pos as HP. pose proof MAX_PT_LEN_pos.
  unfold isValidBuffer. destruct (Z.eqb_spec a NULL) as [->|_].
  { rewrite Z.div_0_l in Hpg by lia. lia. }
  destruct (Z.leb_spec len 0); [lia|]. rewrite u32_small, shiftr_page by done.
  step (first_pte_r1 s t0 t1 _ Hvm Hpg). rewrite <- (Z2Nat.id (page_up len)) by lia.
  apply buffer_loop_ok; [apply Hvm|lia|rewrite Z2Nat.id; lia| |rewrite Z2Nat.id; lia].
  apply Nat2Z.inj_le. rewrite Z2Nat.id, Nat2Z.inj_succ, Z2Nat.id by (lia || apply Z.div_pos; lia).
  pose proof (Z.div_mod len PAGESIZE). pose proof (Z.mod_pos_bound len PAGESIZE HP). nia.
Qed.

(** The buffer at [a] of the process with table [t1] passes the check of
    [isValidBuffer]. *)
Definition accepted (t : pt) (t0 t1 : ptr) (a len prot : Z) : Prop :=
  vm_on t t0 t1 /\ VMEM_1_BASE <= a < VMEM_1_LIMIT /\ a / PAGESIZE - MAX_PT_LEN + page_up len <= MAX_PT_LEN /\
  forallb (page_allows t t1 prot) (seqZ (a / PAGESIZE - MAX_PT_LEN) (page_up len)) = true.

Lemma accepted_ok s t0 t1 a len prot : accepted (k_pt s) t0 t1 a len prot -> 0 < len ->
  VMEM_1_BASE <= u32 a /\ isValidBuffer a len prot s = Ret true s.
Proof.
  intros (Hvm & Ha & Hend & Hall) Hlen. destruct (region1_page _ Ha) as [Hu _].
  split; [rewrite u32_small by done; lia|]. by rewrite (isValidBuffer_ok s t0 t1), Hall.
Qed.

(** ** Reading user memory *)

Lemma read_byte_cases a s : read_byte a s = Undef \/ exists b, read_byte a s = Ret b s.
Proof.
  unfold read_byte, load_byte. destruct (user_addr a); [|by left]. unfold bind. rewrite translate_trans.
  destruct (trans (k_pt s) a PROT_READ); [right|by left]. by eexists.
Qed.

Lemma read_byte_unmapped a s : trans (k_pt s) a PROT_READ = None -> read_byte a s = Undef.
Proof.
  intros Ht. unfold read_byte, load_byte. destruct (user_addr a); [|done]. unfold bind. by rewrite translate_trans, Ht.
Qed.

Lemma read_bytes_unmapped n i s : (i < n)%nat -> forall a, trans (k_pt s) (a + Z.of_nat i) PROT_READ = None ->
  read_bytes a n s = Undef.
Proof.
  revert i. induction n as [|n IH]; intros i Hi a Ht; [lia|]. cbn [read_bytes]. unfold bind.
  destruct (read_byte_cases a s) as [->|[b Hb]]; [done|]. destruct i as [|i].
  - rewrite Z.add_0_r in Ht. by rewrite read_byte_unmapped.
  - rewrite Hb, (IH i); [done|lia|]. by replace (a + 1 + Z.of_nat i) with (a + Z.of_nat (S i)) by lia.
Qed.

(** A buffer whose page count, computed without the offset in the first page,
    misses its last page. *)
Lemma KernelTtyWrite_overrun s t0 t1 tty_id a len : vm_on (k_pt s) t0 t1 -> VMEM_1_BASE <= a < VMEM_1_LIMIT -> 0 < len ->
  a / PAGESIZE - MAX_PT_LEN + page_up len <= MAX_PT_LEN ->
  forallb (page_allows (k_pt s) t1 PROT_READ) (seqZ (a / PAGESIZE - MAX_PT_LEN) (page_up len)) = true ->
  trans (k_pt s) (a + len - 1) PROT_READ = None -> KernelTtyWrite tty_id a len s = Undef.
Proof.
  intros Hvm Ha Hlen Hend Hall Ht. destruct (region1_page _ Ha) as [Hu _].
  unfold KernelTtyWrite. rewrite u32_small by done.
  destruct (Z.ltb_spec a VMEM_1_BASE), (Z.ltb_spec len 0), (Z.eqb_spec len 0); try lia.
  step (isValidBuffer_ok s t0 t1 a len PROT_READ Hvm Ha Hlen Hend). rewrite Hall. cbn [negb].
  assert (exists p s1, kmalloc len s = Ret p s1 /\ k_pt s1 = k_pt s) as (p & s1 & Hm & Hpt).
  { unfold kmalloc, lift, malloc. cbn. destruct (fails _) as [|[] fs]; by eexists _, _. }
  step Hm. destruct (p =? NULL); [done|]. unfold bind. rewrite (read_bytes_unmapped _ (Z.to_nat (len - 1))); [done|lia|].
  rewrite Hpt, Z2Nat.id by lia. by replace (a + (len - 1)) with (a + len - 1) by lia.
Qed.

(** ** [isValidString] *)

Lemma scan_bytes_none n s : forall a, (forall i, 0 <= i < Z.of_nat n -> exists b, read_byte (a + i) s = Ret b s /\ b <> 0) ->
  scan_bytes n a s = Ret false s.
Proof.
  induction n as [|n IH]; intros a Hall; [done|]. cbn [scan_bytes].
  destruct (Hall 0) as (b & Hb & Hnz); [lia|]. rewrite Z.add_0_r in Hb. step Hb.
  destruct (Z.eqb_spec b 0); [done|]. apply IH. intros i Hi.
  replace (a + 1 + i) with (a + (i + 1)) by lia. apply Hall. lia.
Qed.

Lemma scan_bytes_found n s k : forall a, 0 <= k < Z.of_nat n -> read_byte (a + k) s = Ret 0 s ->
  (forall i, 0 <= i < k -> exists b, read_byte (a + i) s = Ret b s /\ b <> 0) -> scan_bytes n a s = Ret true s.
Proof.
  revert k. induction n as [|n IH]; intros k a Hk Hz Hall; [lia|]. cbn [scan_bytes].
  destruct (decide (k = 0)) as [->|Hne].
  - rewrite Z.add_0_r in Hz. by step Hz.
  - destruct (Hall 0) as (b & Hb & Hnz); [lia|]. rewrite Z.add_0_r in Hb. step Hb.
    destruct (Z.eqb_spec b 0); [done|]. apply (IH (k - 1)); [lia| |].
    + by replace (a + 1 + (k - 1)) with (a + k) by lia.
    + intros i Hi. replace (a + 1 + i) with (a + (i + 1)) by lia. apply Hall. lia.
Qed.

(** [isValidString] up to its loop. *)
Lemma isValidString_loop s t0 t1 a : vm_on (k_pt s) t0 t1 -> VMEM_1_BASE <= a < VMEM_1_LIMIT ->
  isValidString a s = string_loop (Z.to_nat (2 * MAX_PT_LEN - a / PAGESIZE)) (pte_at t1 (a / PAGESIZE - MAX_PT_LEN)) a
    ((a / PAGESIZE + 1) * PAGESIZE) s.
Proof.
  intros Hvm Ha. destruct (region1_page _ Ha) as [Hu Hpg]. pose proof PAGESIZE_pos as HP. pose proof MAX_PT_LEN_pos.
  unfold isValidString. destruct (Z.eqb_spec a NULL) as [->|_].
  { rewrite Z.div_0_l in Hpg by lia. lia. }
  rewrite u32_small, DOWN_TO_PAGE_eq by done.
  pose proof (Z.div_mod a PAGESIZE). replace (a - a mod PAGESIZE) with (a / PAGESIZE * PAGESIZE) by lia.
  cbv zeta. rewrite shiftr_page, Z.div_mul by lia. step (first_pte_r1 s t0 t1 _ Hvm Hpg).
  do 2 f_equal; lia.
Qed.

(** The entry of an address's page, when an access to it succeeds. *)
Lemma read_byte_entry s t0 t1 a b : vm_on (k_pt s) t0 t1 -> VMEM_1_BASE <= a < VMEM_1_LIMIT -> read_byte a s = Ret b s ->
  page_allows (k_pt s) t1 PROT_READ (a / PAGESIZE - MAX_PT_LEN) = true.
Proof.
  intros Hvm Ha Hr. destruct (region1_page _ Ha) as [Hu Hpg].
  destruct (trans (k_pt s) a PROT_READ) as [f|] eqn:Ht; [|by rewrite read_byte_unmapped in Hr].
  unfold trans in Ht. rewrite shiftr_page in Ht. unfold page_allows, entry.
  destruct (Z.ltb_spec (a / PAGESIZE) MAX_PT_LEN), (Z.leb_spec MAX_PT_LEN (a / PAGESIZE)),
    (Z.ltb_spec (a / PAGESIZE) (2 * MAX_PT_LEN)); try lia. rewrite andb_false_r in Ht. cbn in Ht.
  rewrite (vm_base1 _ _ _ Hvm) in Ht. destruct (ptes (k_pt s) !! _) as [e|]; [|done]. cbn in Ht.
  by destruct ((pte_valid e =? 1) && (Z.land (pte_prot e) PROT_READ =? PROT_READ)).
Qed.

(** One turn of the loop on a page that can be read. *)
Lemma string_loop_turn s t1 n i c base found : page_allows (k_pt s) t1 PROT_READ i = true ->
  scan_bytes (Z.to_nat (base - c)) c s = Ret found s ->
  string_loop (S n) (pte_at t1 i) c base s =
    if found then Ret true s else string_loop n (pte_at t1 i) (Z.max c base) (base + PAGESIZE) s.
Proof.
  unfold page_allows. destruct (entry (k_pt s) t1 i) as [e|] eqn:He; [|done]. intros [Hv Hp]%andb_true_iff Hscan.
  assert (load_pte (pte_at t1 i) (k_pt s) = Ret e (k_pt s)) as Hld by (unfold load_pte, entry in *; by rewrite He).
  cbn [string_loop]. step (lift_pt _ s _ _ Hld). rewrite with_pt_id, Hv, Hp. cbn [negb orb]. step Hscan. by destruct found.
Qed.

Lemma page_allows_load s t1 i prot : page_allows (k_pt s) t1 prot i = true ->
  exists e, load_pte (pte_at t1 i) (k_pt s) = Ret e (k_pt s) /\ (pte_valid e =? 1) = true /\
    (Z.land (pte_prot e) prot =? prot) = true.
Proof.
  unfold page_allows, load_pte, entry. destruct (ptes (k_pt s) !! pte_at t1 i) as [e|]; [|done].
  intros [Hv Hp]%andb_true_iff. by exists e.
Qed.

(** A string that ends in its first page, whose [n] bytes from [a] on are. *)
Lemma isValidString_true s t0 t1 a n k : vm_on (k_pt s) t0 t1 -> VMEM_1_BASE <= a < VMEM_1_LIMIT ->
  (a / PAGESIZE + 1) * PAGESIZE = a + n -> 0 <= k < n -> read_byte (a + k) s = Ret 0 s ->
  (forall i, 0 <= i < k -> exists b, read_byte (a + i) s = Ret b s /\ b <> 0) -> isValidString a s = Ret true s.
Proof.
  intros Hvm Ha Hn Hk Hz Hall. destruct (region1_page _ Ha) as [_ Hpg]. rewrite (isValidString_loop s t0 t1 a Hvm Ha), Hn.
  destruct (Z.to_nat (2 * MAX_PT_LEN - a / PAGESIZE)) as [|m] eqn:Hm; [lia|].
  assert (exists b, read_byte a s = Ret b s) as [b0 Hb0].
  { destruct (decide (k = 0)) as [->|Hk0]; [rewrite Z.add_0_r in Hz; by eexists|].
    destruct (Hall 0) as (b & Hb & _); [lia|]. rewrite Z.add_0_r in Hb. by eexists. }
  pose proof (read_byte_entry s t0 t1 a b0 Hvm Ha Hb0) as Hpa.
  rewrite (string_loop_turn s t1 m _ a _ true Hpa); [done|]. replace (a + n - a) with n by lia.
  apply (scan_bytes_found _ s k); [lia|done|done].
Qed.

Lemma isValidString_false s t0 t1 a : vm_on (k_pt s) t0 t1 -> VMEM_1_BASE <= a < VMEM_1_LIMIT ->
  page_allows (k_pt s) t1 PROT_READ (a / PAGESIZE - MAX_PT_LEN) = false -> isValidString a s = Ret false s.
Proof.
  intros Hvm Ha Hpa. destruct (region1_page _ Ha) as [_ Hpg]. rewrite (isValidString_loop s t0 t1 a Hvm Ha).
  destruct (Z.to_nat (2 * MAX_PT_LEN - a / PAGESIZE)) as [|m] eqn:Hm; [lia|].
  unfold page_allows in Hpa. destruct (vm_table1 _ _ _ Hvm) as (_ & _ & Hent).
  destruct (Hent (a / PAGESIZE - MAX_PT_LEN)) as [e He]; [lia|]. rewrite He in Hpa.
  assert (load_pte (pte_at t1 (a / PAGESIZE - MAX_PT_LEN)) (k_pt s) = Ret e (k_pt s)) as Hld
    by (unfold load_pte, entry in *; by rewrite He).
  cbn [string_loop]. step (lift_pt _ s _ _ Hld). rewrite with_pt_id.
  by destruct (pte_valid e =? 1), (Z.land (pte_prot e) PROT_READ =? PROT_READ).
Qed.

Lemma isValidString_undef s t0 t1 a n : vm_on (k_pt s) t0 t1 -> VMEM_1_BASE <= a < VMEM_1_LIMIT ->
  0 < n -> (a / PAGESIZE + 1) * PAGESIZE = a + n ->
  (forall i, 0 <= i < n -> exists b, read_byte (a + i) s = Ret b s /\ b <> 0) ->
  trans (k_pt s) (a + n) PROT_READ = None -> a / PAGESIZE + 1 < 2 * MAX_PT_LEN -> isValidString a s = Undef.
Proof.
  intros Hvm Ha Hpos Hn Hall Ht Hlast. pose proof PAGESIZE_pos as HP.
  rewrite (isValidString_loop s t0 t1 a Hvm Ha), Hn.
  destruct (Z.to_nat (2 * MAX_PT_LEN - a / PAGESIZE)) as [|[|m]] eqn:Hm; [lia|lia|].
  destruct (Hall 0) as (b & Hb & _); [lia|]. rewrite Z.add_0_r in Hb.
  pose proof (read_byte_entry s t0 t1 a b Hvm Ha Hb) as Hpa.
  rewrite (string_loop_turn s t1 _ _ a _ false Hpa).
  - destruct (page_allows_load _ _ _ _ Hpa) as (e & Hld & Hv & Hp). rewrite Z.max_r by lia. cbn [string_loop].
    step (lift_pt _ s _ _ Hld). rewrite with_pt_id, Hv, Hp. cbn [negb orb].
    replace (Z.to_nat (a + n + PAGESIZE - (a + n))) with (S (Z.to_nat (PAGESIZE - 1))) by lia.
    cbn [scan_bytes]. unfold bind. by rewrite read_byte_unmapped.
  - replace (a + n - a) with n by lia. apply scan_bytes_none. intros i Hi. apply Hall. lia.
Qed.

End laws.
