(* ===== verification/TtyLaws.v ===== *)
(** Terminals: who waits for a terminal, which bytes go to it and which come
    from it. *)

From stdpp Require Import base gmap list.
From S2P Require Import Prelude Hardware Queue HashMap FrameList PageTable State UserMem Scheduler GeneralCalls Tty.
From S2P Require Import SwitchLaws SchedView SchedLaws Steps CallLaws.

Section laws.
Context {QH MH : Type} `{HL : HardwareLaws} `{QO : QueueOps QH} `{MO : MapOps MH}
  `{QL : !QueueLaws QH} `{ML : !MapLaws MH}.
Abbreviation kst := (kst QH MH).
Implicit Types s : kst.

(** ** Processes that wait for a terminal *)

(** The running process leaves for a place outside the view; the process [p]
    comes from such a place and is ready. *)
Definition v_leave (v : sview) : option sview := v_exit v.
Definition v_join (p : ptr) (v : sview) : sview :=
  mkView (v_run v) (v_ready v ++ [p]) (v_blocked v) (v_sleeping v).
(** The process [p] comes from outside the view and runs at once. *)
Definition v_signal (p : ptr) (v : sview) : sview :=
  mkView p (v_ready v ++ [v_run v]) (v_blocked v) (v_sleeping v).

Lemma procs_ok_leave ps v v' : procs_ok ps v -> v_leave v = Some v' -> procs_ok ps v' /\ v_run v ∉ places v'.
Proof.
  intros [Hnd Hdom Hb Hs Hinj Hpos] Hv. pose proof (v_exit_places _ _ Hv) as Hpl.
  rewrite Hpl in Hnd. apply NoDup_cons in Hnd as [Hni Hnd]. split; [|done].
  unfold v_leave, v_exit in Hv. destruct (v_ready v) as [|n r] eqn:Hr; [done|]. injection Hv as <-.
  split; [done| |done..]. intros p Hp. apply Hdom. rewrite Hpl. set_solver.
Qed.

Lemma procs_ok_add ps v v' p : procs_ok ps v -> p ∉ places v -> is_Some (ps !! p) -> places v' ≡ₚ p :: places v ->
  v_blocked v' = v_blocked v -> v_sleeping v' = v_sleeping v -> procs_ok ps v'.
Proof.
  intros [Hnd Hdom Hb Hs Hinj Hpos] Hp Hsome Hpl Hbl Hsl. split; rewrite ?Hbl, ?Hsl; try done.
  - rewrite Hpl. by apply NoDup_cons.
  - intros q. rewrite Hpl. intros [->|Hq]%elem_of_cons; [done|by apply Hdom].
Qed.

Lemma v_join_places p v : places (v_join p v) ≡ₚ p :: places v.
Proof. unfold places, v_join. cbn. solve_Permutation. Qed.
Lemma v_signal_places p v : places (v_signal p v) ≡ₚ p :: places v.
Proof. unfold places, v_signal. cbn. solve_Permutation. Qed.

(** The other globals of the scheduler. *)
Lemma kernel_ok_sched s t0 qs ms v c : kernel_ok s t0 qs ms v -> currPCB c = currPCB (k_sched s) ->
  readyQ c = readyQ (k_sched s) -> blockedMap c = blockedMap (k_sched s) -> sleepingMap c = sleepingMap (k_sched s) ->
  kernel_ok (with_sched c s) t0 qs ms v.
Proof.
  intros [[H1 H2 H3 H4 H5] (x & fs & r1 & Hx & Hrest) [? ? ? ? ? ? ? ? ?] Hp] Hc Hr Hb Hs.
  split; [split; [by destruct H1|by destruct H2|done|done|]| | |done].
  - intros p y Hy. cbn. rewrite Hc. by apply H5.
  - exists x, fs, r1. cbn. by rewrite Hc.
  - split; cbn; try done; by rewrite ?Hc, ?Hr, ?Hb, ?Hs.
Qed.

(** The running process leaves, and is parked; the next one runs. *)
Lemma leave_view_ok s t0 qs ms v v' k : kernel_ok s t0 qs ms v -> v_leave v = Some v' ->
  exists kc s', run_next (v_run v) k s = Switch kc s' /\
    kernel_ok s' t0 (<[readyQ (k_sched s) := v_ready v']> qs) ms v' /\
    k_sched s' = with_currPCB (v_run v') (k_sched s) /\
    parked (v_run v) (mkKctxt k (k_frame s)) s' /\ k_tty s' = k_tty s.
Proof.
  intros Hok Hv. pose proof Hok as [Hsys Hrun Hs Hp]. destruct (procs_ok_leave _ _ _ Hp Hv) as [Hp' Hni].
  assert (v_run v' <> v_run v) as Hne by (intros Heq; apply Hni; rewrite <- Heq; apply run_in_places).
  destruct (running_lookup _ _ _ _ _ Hok) as (x & Hx & _).
  pose proof (mem_pcbs _ (so_mem _ _ Hsys) _ (mk_is_Some _ _ Hx)).
  unfold v_leave, v_exit in Hv. destruct (v_ready v) as [|n r] eqn:Hr; [done|]. injection Hv as <-.
  destruct v as [run ready b sl]. cbn in *. subst ready.
  destruct (leave_ok s t0 qs ms run n r b sl k) as (kc & s' & h & Hrn & Hok' & Hg); try done.
  pose proof Hg as (y & fs & _ & _ & _ & Hsw). exists kc, s'. split; [done|]. split; [done|].
  split; [apply (sw_sched _ _ _ _ _ _ _ _ _ Hsw)|].
  split; [|apply (sw_tty _ _ _ _ _ _ _ _ _ Hsw)]. by eapply (gave_caller t0 (with_qh h s)); [|lia| |].
Qed.

(** The terminal [tty_id]: the process [cur] transmits (NULL: none), the
    processes [ws] wait in [tq] to transmit, and [rs] in [rq] for a line. *)
Record tty_is s (qs : gmap ptr (list ptr)) (tty_id : Z) (cur tq : ptr) (ws : list ptr) (rq : ptr) (rs : list ptr) : Prop := {
  ti_id : 0 <= tty_id;
  ti_cur : currTransmitters (k_sched s) !! Z.to_nat tty_id = Some cur;
  ti_tq : transmittingQs (k_sched s) !! Z.to_nat tty_id = Some tq;
  ti_writers : qs !! tq = Some ws;
  ti_tready : tq <> readyQ (k_sched s);
  ti_rq : readingQs (k_sched s) !! Z.to_nat tty_id = Some rq;
  ti_readers : qs !! rq = Some rs;
  ti_rready : rq <> readyQ (k_sched s)
}.

Lemma tty_at_ok a tty_id p s : 0 <= tty_id -> a !! Z.to_nat tty_id = Some p -> tty_at a tty_id s = Ret p s.
Proof. intros Hi Ha. unfold tty_at. destruct (Z.leb_spec 0 tty_id); [|lia]. by rewrite Ha. Qed.

(** The state with another transmitter for a terminal. *)
Definition with_transmitter (tty_id : Z) (p : ptr) s : kst :=
  with_sched (with_currTransmitters (<[Z.to_nat tty_id := p]> (currTransmitters (k_sched s))) (k_sched s)) s.

Lemma set_currTransmitter_ok s tty_id p q : 0 <= tty_id -> currTransmitters (k_sched s) !! Z.to_nat tty_id = Some q ->
  set_currTransmitter tty_id p s = Ret tt (with_transmitter tty_id p s).
Proof. intros Hi Hc. unfold set_currTransmitter. kmon. by step (tty_at_ok _ _ _ s Hi Hc). Qed.

Lemma with_transmitter_ok s t0 qs ms v tty_id p : kernel_ok s t0 qs ms v -> kernel_ok (with_transmitter tty_id p s) t0 qs ms v.
Proof. intros Hok. by apply kernel_ok_sched. Qed.

(** [waitTransmitter]: the running process is the terminal's transmitter and
    waits for it. *)
Lemma waitTransmitter_ok s t0 qs ms v v' tty_id q k : kernel_ok s t0 qs ms v -> v_leave v = Some v' ->
  0 <= tty_id -> currTransmitters (k_sched s) !! Z.to_nat tty_id = Some q ->
  exists kc s', waitTransmitter tty_id k s = Switch kc s' /\
    kernel_ok s' t0 (<[readyQ (k_sched s) := v_ready v']> qs) ms v' /\
    k_sched s' = with_currPCB (v_run v') (k_sched (with_transmitter tty_id (v_run v) s)) /\
    parked (v_run v) (mkKctxt k (k_frame s)) s' /\ k_tty s' = k_tty s.
Proof.
  intros Hok Hv Hi Hc. unfold waitTransmitter. kmon. rewrite (sr_run _ _ _ _ (ko_sched _ _ _ _ _ Hok)).
  step (set_currTransmitter_ok s tty_id (v_run v) q Hi Hc).
  apply (leave_view_ok (with_transmitter tty_id (v_run v) s)); [by apply with_transmitter_ok|done].
Qed.

(** ** [KernelTtyWrite] *)

(** One batch of the bytes [bs], from byte [n] on. *)
Definition batch (bs : list Z) (n : Z) : list Z :=
  take (Z.to_nat (Z.min TERMINAL_MAX_LINE (Z.of_nat (length bs) - n))) (drop (Z.to_nat n) bs).

Lemma batch_length bs n : 0 <= n < Z.of_nat (length bs) ->
  Z.of_nat (length (batch bs n)) = Z.min TERMINAL_MAX_LINE (Z.of_nat (length bs) - n).
Proof.
  intros Hn. pose proof TERMINAL_MAX_LINE_pos. unfold batch. rewrite length_take, length_drop. lia.
Qed.

(** A batch and the bytes that follow it. *)
Lemma batch_rest bs n : 0 <= n < Z.of_nat (length bs) ->
  batch bs n ++ drop (Z.to_nat (n + Z.of_nat (length (batch bs n)))) bs = drop (Z.to_nat n) bs.
Proof.
  intros Hn. rewrite batch_length by done. unfold batch.
  pose proof TERMINAL_MAX_LINE_pos. set (k := Z.min _ _).
  replace (Z.to_nat (n + k)) with (Z.to_nat k + Z.to_nat n)%nat by lia.
  rewrite <- skipn_skipn. apply take_drop.
Qed.

(** The loop transmits a batch and waits for the terminal. *)
Lemma tty_write_batch s t0 qs ms v v' fuel tty_id q bs n : kernel_ok s t0 qs ms v -> v_leave v = Some v' ->
  0 <= tty_id -> currTransmitters (k_sched s) !! Z.to_nat tty_id = Some q -> 0 <= n < Z.of_nat (length bs) ->
  exists kc s', tty_write_loop (Datatypes.S fuel) tty_id bs n s = Switch kc s' /\
    kernel_ok s' t0 (<[readyQ (k_sched s) := v_ready v']> qs) ms v' /\
    k_sched s' = with_currPCB (v_run v') (k_sched (with_transmitter tty_id (v_run v) s)) /\
    parked (v_run v) (mkKctxt (KTtyWait tty_id bs (n + Z.of_nat (length (batch bs n)))) (k_frame s)) s' /\
    transmitted (k_tty s') = transmitted (k_tty s) ++ [(tty_id, batch bs n)].
Proof.
  intros Hok Hv Hi Hc Hn. cbn [tty_write_loop]. destruct (Z.ltb_spec n (Z.of_nat (length bs))); [|lia].
  unfold TtyTransmit. mon. fold (batch bs n). set (s1 := with_tty _ s). rewrite batch_length by done.
  set (n' := n + _).
  destruct (waitTransmitter_ok s1 t0 qs ms v v' tty_id q (KTtyWait tty_id bs n')) as (kc & s' & Hw & Hok' & Hsch & Hpk & Htty);
    [by apply (kernel_ok_ext s)|done|done|done|].
  exists kc, s'. split; [unfold bind at 1; by rewrite Hw|]. split; [done|]. split; [done|]. split; [done|].
  by rewrite Htty.
Qed.

(** The first process of a queue becomes ready, if there is one. *)
Definition wake_first (q : ptr) : M kst Z :=
  if q =? NULL then ret ERROR else
  let! unblockedPCB := lift (deq_q q) in
  if unblockedPCB =? NULL then ret SUCCESS else
  let! rq := sched readyQ in
  lift (enq_q rq unblockedPCB).

(** The queues and the view after the first of [ws] left the queue [q]. *)
Definition first_q s (qs : gmap ptr (list ptr)) (v : sview) (q : ptr) (ws : list ptr) : gmap ptr (list ptr) :=
  match ws with [] => qs | w :: ws' => <[readyQ (k_sched s) := v_ready v ++ [w]]> (<[q := ws']> qs) end.
Definition v_first (ws : list ptr) (v : sview) : sview := match ws with [] => v | w :: _ => v_join w v end.
(** The first of [ws] is a process outside the view. *)
Definition first_waits s (v : sview) (ws : list ptr) : Prop :=
  forall w, head ws = Some w -> (w ∉ places v) /\ is_Some (pcbs (k_obj s) !! w).

Lemma wake_first_ok s t0 qs ms v q ws : kernel_ok s t0 qs ms v -> qs !! q = Some ws -> q <> readyQ (k_sched s) ->
  first_waits s v ws ->
  exists h, wake_first q s = Ret 0 (with_qh h s) /\ kernel_ok (with_qh h s) t0 (first_q s qs v q ws) ms (v_first ws v).
Proof.
  intros Hok Hq Hqr Hhead. unfold wake_first.
  destruct (Z.eqb_spec q NULL) as [->|Hnz].
  { by rewrite (q_rep_NULL _ _ (sr_q _ _ _ _ (ko_sched _ _ _ _ _ Hok))) in Hq. }
  destruct ws as [|w ws].
  - step (deq_empty_ok _ _ _ _ _ _ Hok Hq). cbn. exists (k_qh s). by rewrite with_qh_id.
  - destruct (deq_other_ok s t0 qs ms v q w ws Hok Hqr Hq) as (h & Hdeq & Hok2). step Hdeq.
    destruct (Hhead w eq_refl) as [Hni [x Hx]].
    pose proof (mem_pcbs _ (so_mem _ _ (ko_sys _ _ _ _ _ Hok)) _ (mk_is_Some _ _ Hx)). destruct (Z.eqb_spec w NULL); [lia|].
    kmon. destruct (enq_ready_ok _ _ _ _ w (ko_sched _ _ _ _ _ Hok2)) as (h' & Henq & Hrep). rewrite Henq.
    exists h'. split; [done|]. destruct Hok2 as [Hsys Hrun Hs2 Hp2].
    split; [by apply (sys_ok_ext (with_qh h s))|by apply (running_ok_ext (with_qh h s))|done|].
    eapply procs_ok_add; [exact Hp2|done| |apply v_join_places|done|done].
    exists (pid x). apply lookup_pids. by exists x.
Qed.

(** After the last batch the terminal is free, and the first process in line
    is ready. *)
Lemma tty_write_end s t0 qs ms v fuel tty_id bs n cur tq ws rq rs : kernel_ok s t0 qs ms v ->
  tty_is s qs tty_id cur tq ws rq rs -> Z.of_nat (length bs) <= n -> first_waits s v ws ->
  exists h, let s' := with_qh h (with_transmitter tty_id NULL s) in
    tty_write_loop fuel tty_id bs n s = Ret (Z.of_nat (length bs)) s' /\
    kernel_ok s' t0 (first_q s qs v tq ws) ms (v_first ws v).
Proof.
  intros Hok [Hi Hc Ht Hw Htr _ _ _] Hn Hhead. set (s1 := with_transmitter tty_id NULL s).
  destruct (wake_first_ok s1 t0 qs ms v tq ws) as (h & Hwk & Hok'); [by apply with_transmitter_ok|done..|].
  exists h. split; [|done].
  assert (unblockTransmitter tty_id s = Ret 0 (with_qh h s1)) as Hu.
  { unfold unblockTransmitter. step (set_currTransmitter_ok s tty_id NULL cur Hi Hc). kmon.
    by step (tty_at_ok (transmittingQs (k_sched s1)) tty_id tq s1 Hi Ht). }
  destruct fuel; cbn [tty_write_loop]; (destruct (Z.ltb_spec n (Z.of_nat (length bs))); [lia|]); by step Hu.
Qed.

(** [signalTransmitter]: the terminal is done with a batch; its transmitter
    runs at once, the running process is ready. *)
Lemma signalTransmitter_ok s t0 qs ms v tty_id w k : kernel_ok s t0 qs ms v -> 0 <= tty_id ->
  currTransmitters (k_sched s) !! Z.to_nat tty_id = Some w -> w ∉ places v -> is_Some (pcbs (k_obj s) !! w) ->
  exists kc s', signalTransmitter tty_id k s = Switch kc s' /\
    kernel_ok s' t0 (<[readyQ (k_sched s) := v_ready v ++ [v_run v]]> qs) ms (v_signal w v) /\
    k_sched s' = with_currPCB w (k_sched s) /\ k_tty s' = k_tty s /\
    parked (v_run v) (mkKctxt k (k_frame s)) s' /\ (forall kp, parked w kp s -> kc = kp).
Proof.
  intros Hok Hi Hc Hni [x Hx]. pose proof Hok as [Hsys Hrun Hs Hp]. unfold signalTransmitter. kmon.
  pose proof (sr_run _ _ _ _ Hs) as Hcur. rewrite Hcur.
  destruct (enq_ok _ _ _ _ _ _ (v_run v) Hs (sr_ready _ _ _ _ Hs)) as (h & Henq & Hpl & Hqr). step Henq. rewrite eqb_0_ERROR.
  kmon. set (s1 := with_qh h s). step (tty_at_ok (currTransmitters (k_sched s1)) tty_id w s1 Hi Hc).
  pose proof (mem_pcbs _ (so_mem _ _ Hsys) _ (mk_is_Some _ _ Hx)). destruct (Z.eqb_spec w NULL); [lia|].
  assert (w <> v_run v) as Hne by (intros ->; apply Hni, run_in_places).
  destruct (switch_ok s1 t0 (v_run v) k w x) as (kc & s' & Hsw & Hsys' & Hrun' & Hpids & Hg);
    [by apply (sys_ok_ext s)|right; split; [done|by apply (running_ok_ext s)]|done|cbn; congruence|].
  exists kc, s'. split; [done|]. split.
  { apply (kernel_ok_switch s1); try done.
    - eapply (sched_rep_switched _ _ _ _ _ _ _ _ _ (mkView _ _ _ _)); [done|].
      eapply sched_rep_qh; [exact Hs|done|done|apply lookup_insert_eq].
    - eapply procs_ok_add; [exact Hp|done| |apply v_signal_places|done|done]. exists (pid x). apply lookup_pids. by exists x. }
  pose proof Hg as (y & fs & _ & _ & _ & Hswd).
  split; [apply (sw_sched _ _ _ _ _ _ _ _ _ Hswd)|]. split; [apply (sw_tty _ _ _ _ _ _ _ _ _ Hswd)|]. split.
  - destruct (running_lookup _ _ _ _ _ Hok) as (z & Hz & _). pose proof (mem_pcbs _ (so_mem _ _ Hsys) _ (mk_is_Some _ _ Hz)).
    by eapply (gave_caller t0 s1); [|lia| |].
  - intros kp [_ Hkp]. pose proof (gave_parked t0 s1 (v_run v) k w kc s' w kp (not_eq_sym Hne) Hg Hkp) as Hd.
    by rewrite decide_True in Hd.
Qed.

(** A moment at which the process [w] has the processor: the kernel is in
    order, another process is ready, and the terminal is there. *)
Definition turn s (t0 : ptr) (w : ptr) (tty_id : Z) : Prop :=
  exists qs ms v cur tq ws rq rs, kernel_ok s t0 qs ms v /\ v_run v = w /\ v_ready v <> [] /\
    tty_is s qs tty_id cur tq ws rq rs /\ first_waits s v ws.

(** The rest of the system call of the process [w] that writes [bs] to the
    terminal, from byte [n] on, with what it transmits: at each turn of [w]
    the loop goes on where it was suspended; in between, anything happens. *)
Inductive delivers (t0 w : ptr) (tty_id : Z) (bs : list Z) : Z -> list (list Z) -> Prop :=
| delivers_end n s s' r : turn s t0 w tty_id ->
    tty_write_loop (Datatypes.S (length bs)) tty_id bs n s = Ret r s' ->
    delivers t0 w tty_id bs n []
| delivers_batch n n' s s' kc fr c cs : turn s t0 w tty_id ->
    tty_write_loop (Datatypes.S (length bs)) tty_id bs n s = Switch kc s' ->
    transmitted (k_tty s') = transmitted (k_tty s) ++ [(tty_id, c)] ->
    parked w (mkKctxt (KTtyWait tty_id bs n') fr) s' ->
    delivers t0 w tty_id bs n' cs -> delivers t0 w tty_id bs n (c :: cs).

Lemma tty_write_turn s t0 w tty_id bs n : turn s t0 w tty_id -> 0 <= n ->
  if decide (n < Z.of_nat (length bs)) then
    exists kc s', tty_write_loop (Datatypes.S (length bs)) tty_id bs n s = Switch kc s' /\
      transmitted (k_tty s') = transmitted (k_tty s) ++ [(tty_id, batch bs n)] /\
      parked w (mkKctxt (KTtyWait tty_id bs (n + Z.of_nat (length (batch bs n)))) (k_frame s)) s'
  else exists s', tty_write_loop (Datatypes.S (length bs)) tty_id bs n s = Ret (Z.of_nat (length bs)) s' /\ k_tty s' = k_tty s.
Proof.
  intros (qs & ms & v & cur & tq & ws & rq & rs & Hok & <- & Hr & Hti & Hw) Hn. case_decide as Hlt.
  - destruct (v_ready v) as [|p r] eqn:Hrd; [done|].
    destruct (tty_write_batch s t0 qs ms v (mkView p r (v_blocked v) (v_sleeping v)) (length bs) tty_id cur bs n)
      as (kc & s' & Hrun & _ & _ & Hpk & Htr); [done|by unfold v_leave, v_exit; rewrite Hrd|apply Hti|apply Hti|done|].
    by exists kc, s'.
  - destruct (tty_write_end s t0 qs ms v (Datatypes.S (length bs)) tty_id bs n cur tq ws rq rs) as (h & Hrun & _); try done; [lia|].
    by eexists.
Qed.

Lemma parked_inj w k k' s : parked w k s -> parked w k' s -> k = k'.
Proof. intros [_ (x & Hx & Hk)] [_ (y & Hy & Hk')]. congruence. Qed.

Lemma delivers_rest t0 w tty_id bs n cs : delivers t0 w tty_id bs n cs -> 0 <= n <= Z.of_nat (length bs) ->
  concat cs = drop (Z.to_nat n) bs /\ Forall (fun c => 0 < Z.of_nat (length c) <= TERMINAL_MAX_LINE) cs.
Proof.
  pose proof TERMINAL_MAX_LINE_pos as HT.
  induction 1 as [n s s' r Ht Hrun|n n' s s' kc fr c cs Ht Hrun Htr Hpk _ IH]; intros Hn;
    pose proof (tty_write_turn s t0 w tty_id bs n Ht (proj1 Hn)) as Hturn; case_decide as Hlt.
  - destruct Hturn as (? & ? & ? & _). congruence.
  - split; [|by apply Forall_nil_2]. cbn. rewrite drop_ge; [done|lia].
  - destruct Hturn as (kc' & s1 & Hrun' & Htr' & Hpk'). rewrite Hrun in Hrun'. injection Hrun' as <- <-.
    rewrite Htr in Htr'. apply (inj (app _)) in Htr'. injection Htr' as ->.
    pose proof (parked_inj _ _ _ _ Hpk Hpk') as Heq. injection Heq as -> _.
    pose proof (batch_length bs n (conj (proj1 Hn) Hlt)) as Hbl.
    destruct IH as [IH1 IH2]; [lia|]. split.
    + rewrite concat_cons, IH1. apply batch_rest. lia.
    + apply Forall_cons. split; [lia|done].
  - destruct Hturn as (? & Hrun' & _). congruence.
Qed.

(** ** Reading a line *)

(** The bytes from the kernel's address [a] on lie at the places [locs]. *)
Definition kmapped s (a : Z) (locs : list (Z * Z)) : Prop :=
  forall i l, locs !! i = Some l -> l.2 = (a + Z.of_nat i) mod PAGESIZE /\
    forall prot, prot = PROT_READ \/ prot = PROT_WRITE -> translate (a + Z.of_nat i) prot s = Ret l.1 s.

Lemma kmapped_drop s a locs n : kmapped s a locs -> (n <= length locs)%nat -> kmapped s (a + Z.of_nat n) (drop n locs).
Proof.
  intros Hm Hn i l Hi. rewrite lookup_drop in Hi. rewrite <- Z.add_assoc, <- Nat2Z.inj_add. by apply Hm.
Qed.

Lemma kmapped_take s a locs n : kmapped s a locs -> kmapped s a (take n locs).
Proof. intros Hm i l Hi. apply Hm. by apply lookup_take_Some in Hi as [? _]. Qed.

Lemma kmapped_pt s s' a locs : k_pt s' = k_pt s -> kmapped s a locs -> kmapped s' a locs.
Proof.
  intros Hpt Hm i l Hi. destruct (Hm i l Hi) as [Ho Ht]. split; [done|]. intros p Hp. by eapply translate_pt, Ht.
Qed.

Lemma kmapped_cons s a l locs : kmapped s a (l :: locs) ->
  l.2 = a mod PAGESIZE /\ translate a PROT_READ s = Ret l.1 s /\ translate a PROT_WRITE s = Ret l.1 s /\ kmapped s (a + 1) locs.
Proof.
  intros Hm. destruct (Hm O l eq_refl) as [Ho Ht]. replace (a + Z.of_nat 0) with a in * by lia.
  split_and!; auto. apply (kmapped_drop s a (l :: locs) 1 Hm). cbn. lia.
Qed.

Lemma load_bytes_ok s locs : forall a, kmapped s a locs ->
  load_bytes a (length locs) s = Ret (mem_get (k_mem s) <$> locs) s.
Proof.
  induction locs as [|l locs IH]; intros a Hm; [done|]. apply kmapped_cons in Hm as (Ho & Hr & _ & Hm).
  cbn [load_bytes length]. unfold load_byte. rewrite bind_assoc. step Hr. mon. step (IH _ Hm).
  unfold ret. cbn. unfold mem_get at 2, page. by rewrite Ho.
Qed.

Lemma store_bytes_ok bs : forall s a locs, kmapped s a locs -> length bs = length locs ->
  store_bytes a bs s = Ret tt (with_mem (mem_write (k_mem s) locs bs) s).
Proof.
  induction bs as [|b bs IH]; intros s a [|l locs] Hm Hlen; try done; [by destruct s|].
  apply kmapped_cons in Hm as (Ho & _ & Hw & Hm). injection Hlen as Hlen. cbn [store_bytes].
  unfold store_byte. rewrite bind_assoc. step Hw. mon. rewrite (IH _ _ locs); [|by eapply (kmapped_pt s)|done].
  destruct l as [f o]. cbn in Ho |- *. by subst o.
Qed.

(** The buffer of the terminal [tty_id], at the places [locs], holds the rest
    [line] of a line; [None]: no line is there. *)
Record buffered s (tty_id : Z) (locs : list (Z * Z)) (line : option (list Z)) : Prop := {
  bf_id : 0 <= tty_id;
  bf_buf : exists b, buffers (k_tty s) !! Z.to_nat tty_id = Some (Some (mkTtyBuf b
      (Z.of_nat (length (default [] line))) (match line with Some _ => 1 | None => 0 end))) /\ kmapped s b locs;
  bf_nodup : NoDup locs;
  bf_fits : (length (default [] line) <= length locs)%nat;
  bf_bytes : mem_get (k_mem s) <$> take (length (default [] line)) locs = default [] line
}.

Lemma load_buffer_ok s tty_id b : 0 <= tty_id -> buffers (k_tty s) !! Z.to_nat tty_id = Some (Some b) ->
  load_buffer tty_id s = Ret b s.
Proof. intros Hi Hb. unfold load_buffer. mon. destruct (Z.leb_spec 0 tty_id); [|lia]. by rewrite Hb. Qed.

Lemma unblockReader_ok s t0 qs ms v tty_id cur tq ws rq rs : kernel_ok s t0 qs ms v ->
  tty_is s qs tty_id cur tq ws rq rs -> first_waits s v rs ->
  exists h, unblockReader tty_id s = Ret 0 (with_qh h s) /\ kernel_ok (with_qh h s) t0 (first_q s qs v rq rs) ms (v_first rs v).
Proof.
  intros Hok [Hi _ _ _ _ Hr Hrs Hrr] Hhead.
  destruct (wake_first_ok s t0 qs ms v rq rs Hok Hrs Hrr Hhead) as (h & Hwk & Hok').
  exists h. split; [|done]. unfold unblockReader. kmon. by step (tty_at_ok (readingQs (k_sched s)) tty_id rq s Hi Hr).
Qed.

(** A line of [line] arrives, [TtyReceive] counts the character that ends it:
    it is in the buffer, and the first reader is ready. *)
Lemma writeBuffer_ok s t0 qs ms v tty_id cur tq ws rq rs locs old line : kernel_ok s t0 qs ms v ->
  tty_is s qs tty_id cur tq ws rq rs -> first_waits s v rs -> buffered s tty_id locs old ->
  (length line <= length locs)%nat ->
  exists s', writeBuffer tty_id (Z.of_nat (length line) + 1) line s = Ret SUCCESS s' /\
    kernel_ok s' t0 (first_q s qs v rq rs) ms (v_first rs v) /\ buffered s' tty_id locs (Some line) /\
    k_sched s' = k_sched s /\ k_pt s' = k_pt s /\ k_obj s' = k_obj s.
Proof.
  intros Hok Hti Hhead [Hi (b & Hb & Hm) Hnd _ _] Hlen. unfold writeBuffer. step (load_buffer_ok s tty_id _ Hi Hb). cbn [base].
  assert (length line = length (take (length line) locs)) as Hlt by (rewrite length_take; lia).
  step (store_bytes_ok line s b _ (kmapped_take _ _ _ (length line) Hm) Hlt).
  destruct (Z.ltb_spec 0 (Z.of_nat (length line) + 1)); [|lia]. rewrite bind_assoc. unfold set_buffer. mon.
  set (s1 := with_tty _ _). assert (kernel_ok s1 t0 qs ms v) as Hok1 by by apply (kernel_ok_ext s).
  destruct (unblockReader_ok s1 t0 qs ms v tty_id cur tq ws rq rs) as (h & Hub & Hok'); [done|by destruct Hti|done|].
  step Hub. eexists. split; [done|]. split; [exact Hok'|]. split; [|done].
  split; cbn; try done.
  - exists b. replace (Z.of_nat (length line) + 1 - 1) with (Z.of_nat (length line)) by lia. split.
    + rewrite list_lookup_insert_eq; [done|]. by eapply lookup_lt_Some.
    + by apply (kmapped_pt s).
  - apply mem_get_write; [|done]. eapply sublist_NoDup; [done|apply sublist_take].
Qed.

(** Places apart from those written keep their bytes. *)
Lemma mem_get_apart m locs bs (ls : list (Z * Z)) : (forall l, l ∈ ls -> l ∉ locs) -> mem_get (mem_write m locs bs) <$> ls = mem_get m <$> ls.
Proof. intros Hd. apply list_fmap_ext. intros i l Hl. apply mem_get_write_ne, Hd. by eapply list_elem_of_lookup_2. Qed.

Lemma bytes_take m (locs : list (Z * Z)) line k : mem_get m <$> take (length line) locs = line -> (k <= length line)%nat ->
  mem_get m <$> take k locs = take k line.
Proof.
  intros Hl Hk. transitivity (take k (mem_get m <$> take (length line) locs)); [|by rewrite Hl].
  rewrite <- fmap_take, take_take. by replace (k `min` length line)%nat with k by lia.
Qed.

Lemma bytes_drop m (locs : list (Z * Z)) line k : mem_get m <$> take (length line) locs = line ->
  mem_get m <$> drop k (take (length line) locs) = drop k line.
Proof. intros Hl. transitivity (drop k (mem_get m <$> take (length line) locs)); [by rewrite fmap_drop|by rewrite Hl]. Qed.

(** What is read: the first [len] bytes, or the whole line. *)
Definition line_rest (len : nat) (line : list Z) : option (list Z) :=
  if decide (len < length line)%nat then Some (drop len line) else None.

(** A reader who wants less than the line: the rest moves to the front of the
    buffer, and the next reader is ready. *)
Lemma readBuffer_part s t0 qs ms v tty_id cur tq ws rq rs locs line buf ulocs : kernel_ok s t0 qs ms v ->
  tty_is s qs tty_id cur tq ws rq rs -> first_waits s v rs -> buffered s tty_id locs (Some line) ->
  mapped s buf PROT_WRITE ulocs -> NoDup ulocs -> (forall l, l ∈ ulocs -> l ∉ locs) ->
  let len := length ulocs in (len < length line)%nat ->
  exists s', readBuffer tty_id buf (Z.of_nat len) s = Ret (Z.of_nat len) s' /\
    buffered s' tty_id locs (Some (drop len line)) /\ mem_get (k_mem s') <$> ulocs = take len line /\
    kernel_ok s' t0 (first_q s qs v rq rs) ms (v_first rs v) /\ k_sched s' = k_sched s /\ k_pt s' = k_pt s /\ k_obj s' = k_obj s.
Proof.
  intros Hok Hti Hhead [Hi (b & Hb & Hm) Hnd Hfit Hby] Hu Hndu Hdis len Hlt. cbn in Hb, Hfit, Hby.
  unfold readBuffer. step (load_buffer_ok s tty_id _ Hi Hb). cbn [isLineReady base tty_numBytesWritten Z.eqb].
  destruct (Z.ltb_spec (Z.of_nat len) (Z.of_nat (length line))); [|lia]. rewrite Nat2Z.id.
  assert (length (take len locs) = len) as Htl by (rewrite length_take; lia).
  pose proof (load_bytes_ok s _ b (kmapped_take _ _ _ len Hm)) as Hld. rewrite Htl in Hld. step Hld.
  rewrite (bytes_take _ _ _ _ Hby) by lia.
  step (write_bytes_ok s buf ulocs (take len line) Hu ltac:(rewrite length_take; lia)). set (s1 := with_mem _ s).
  set (tail := drop len (take (length line) locs)).
  assert (length tail = (length line - len)%nat) as Hdl by (unfold tail; rewrite length_drop, length_take; lia).
  assert (kmapped s1 (b + Z.of_nat len) tail) as Hm1.
  { apply (kmapped_pt s); [done|]. apply kmapped_drop; [by apply kmapped_take|]. rewrite length_take. lia. }
  pose proof (load_bytes_ok s1 _ _ Hm1) as Hld1. rewrite Hdl in Hld1.
  replace (Z.to_nat (Z.of_nat (length line) - Z.of_nat len)) with (length line - len)%nat by lia. step Hld1.
  assert (forall l, l ∈ locs -> l ∉ ulocs) as Hdis' by (intros l Hl Hl'; by eapply Hdis).
  assert (mem_get (k_mem s1) <$> tail = drop len line) as ->.
  { unfold s1. cbn [k_mem with_mem]. rewrite mem_get_apart; [by apply bytes_drop|].
    intros l Hl%(subseteq_drop _ _)%(subseteq_take _ _). auto. }
  assert (length (drop len line) = length (take (length line - len) locs)) as Hrl by (rewrite length_drop, length_take; lia).
  step (store_bytes_ok (drop len line) s1 b _ (kmapped_take _ _ _ (length line - len) (kmapped_pt s s1 _ _ eq_refl Hm)) Hrl).
  unfold set_buffer. mon. set (s2 := with_tty _ _).
  assert (kernel_ok s2 t0 qs ms v) as Hok2 by by apply (kernel_ok_ext s).
  destruct (unblockReader_ok s2 t0 qs ms v tty_id cur tq ws rq rs) as (h & Hub & Hok'); [done|by destruct Hti|done|].
  step Hub. rewrite eqb_0_ERROR. eexists. split; [done|]. split; [|split; [|by split]].
  - assert (length (default [] (Some (drop len line))) = (length line - len)%nat) as Hl by apply length_drop.
    split; rewrite ?Hl; [done| |done|lia|].
    + exists b. split; [|by apply (kmapped_pt s)]. cbn. rewrite list_lookup_insert_eq; [|by eapply lookup_lt_Some].
      repeat f_equal. lia.
    + pose proof (sublist_NoDup _ _ Hnd (sublist_take locs (length line - len))) as Hnd'.
      exact (mem_get_write (k_mem s1) _ _ Hnd' Hrl).
  - transitivity (mem_get (k_mem s1) <$> ulocs).
    + apply (mem_get_apart (k_mem s1) (take (length line - len) locs) (drop len line)). intros l Hl Hl'%(subseteq_take _ _). by eapply Hdis.
    + apply (mem_get_write (k_mem s)); [done|]. rewrite length_take. lia.
Qed.

(** A reader who has room for the rest of the line. *)
Lemma readBuffer_whole s t0 qs ms v tty_id locs line buf ulocs len : kernel_ok s t0 qs ms v ->
  buffered s tty_id locs (Some line) -> mapped s buf PROT_WRITE ulocs -> NoDup ulocs ->
  length ulocs = length line -> Z.of_nat (length line) <= len ->
  exists s', readBuffer tty_id buf len s = Ret (Z.of_nat (length line)) s' /\
    buffered s' tty_id locs None /\ mem_get (k_mem s') <$> ulocs = line /\
    kernel_ok s' t0 qs ms v /\ k_sched s' = k_sched s /\ k_pt s' = k_pt s /\ k_obj s' = k_obj s.
Proof.
  intros Hok [Hi (b & Hb & Hm) Hnd Hfit Hby] Hu Hndu Hul Hlen. cbn in Hb, Hfit, Hby.
  unfold readBuffer. step (load_buffer_ok s tty_id _ Hi Hb). cbn [isLineReady base tty_numBytesWritten Z.eqb].
  destruct (Z.ltb_spec len (Z.of_nat (length line))); [lia|]. rewrite Nat2Z.id.
  assert (length (take (length line) locs) = length line) as Htl by (rewrite length_take; lia).
  pose proof (load_bytes_ok s _ b (kmapped_take _ _ _ (length line) Hm)) as Hld. rewrite Htl, Hby in Hld. step Hld.
  step (write_bytes_ok s buf ulocs line Hu (eq_sym Hul)). unfold set_buffer. mon.
  eexists. split; [done|]. split; [|split; [by apply mem_get_write|split; [by apply (kernel_ok_ext s)|done]]].
  split; [done| |done|cbn; lia|done]. exists b. split; [|by apply (kmapped_pt s)].
  cbn. rewrite list_lookup_insert_eq; [done|]. by eapply lookup_lt_Some.
Qed.

(** Without a line the reader waits; the next process runs. *)
Lemma readBuffer_wait s t0 qs ms v v' tty_id cur tq ws rq rs locs buf len : kernel_ok s t0 qs ms v ->
  tty_is s qs tty_id cur tq ws rq rs -> buffered s tty_id locs None -> v_leave v = Some v' ->
  exists kc s', readBuffer tty_id buf len s = Switch kc s' /\
    kernel_ok s' t0 (<[readyQ (k_sched s) := v_ready v']> (<[rq := rs ++ [v_run v]]> qs)) ms v' /\
    parked (v_run v) (mkKctxt (KTtyRead tty_id buf len) (k_frame s)) s' /\ k_tty s' = k_tty s /\
    k_sched s' = with_currPCB (v_run v') (k_sched s).
Proof.
  intros Hok [Hi _ _ _ _ Hr Hrs Hrr] [_ (b & Hb & _) _ _ _] Hv. unfold readBuffer.
  step (load_buffer_ok s tty_id _ Hi Hb). cbn [isLineReady Z.eqb]. unfold blockReader. kmon.
  step (tty_at_ok (readingQs (k_sched s)) tty_id rq s Hi Hr). kmon.
  rewrite (sr_run _ _ _ _ (ko_sched _ _ _ _ _ Hok)).
  destruct (enq_other_ok s t0 qs ms v rq rs (v_run v) Hok Hrr Hrs) as (h & Henq & Hok1). step Henq. rewrite eqb_0_ERROR.
  destruct (leave_view_ok (with_qh h s) t0 _ ms v v' (KTtyRead tty_id buf len) Hok1 Hv) as (kc & s' & Hrn & Hok' & Hsch & Hpk & Htty).
  by exists kc, s'.
Qed.
(** The checks at the start of [KernelTtyWrite] and the copy of the bytes. *)
Lemma KernelTtyWrite_enter s t0 t1 qs ms v tty_id buf locs : kernel_ok s t0 qs ms v ->
  locs <> [] -> mapped s buf PROT_READ locs -> accepted (k_pt s) t0 t1 buf (Z.of_nat (length locs)) PROT_READ ->
  exists a, KernelTtyWrite tty_id buf (Z.of_nat (length locs)) s =
      tty_write_start tty_id (mem_get (k_mem s) <$> locs) (with_arena a s) /\ kernel_ok (with_arena a s) t0 qs ms v.
Proof.
  intros Hok Hne Hm Hacc. assert (0 < length locs)%nat as Hpos by (destruct locs; [done|cbn; lia]).
  destruct (accepted_ok s t0 t1 buf _ _ Hacc) as [Hbuf Hv]; [lia|].
  pose proof Hok as [Hsys Hrun Hs Hp]. destruct (so_mem _ _ Hsys) as [Hpl Hapos Hlt].
  destruct (kmalloc_ok s (Z.of_nat (length locs)) (so_mem _ _ Hsys)) as (p & a & Hk & Hp0 & _ & _ & Hle & Ha).
  exists a. unfold KernelTtyWrite.
  destruct (Z.ltb_spec (u32 buf) VMEM_1_BASE); [lia|]. destruct (Z.ltb_spec (Z.of_nat (length locs)) 0); [lia|].
  destruct (Z.eqb_spec (Z.of_nat (length locs)) 0); [lia|]. step Hv. cbn [negb]. step Hk.
  destruct (Z.eqb_spec p NULL); [done|]. rewrite Nat2Z.id.
  assert (mapped (with_arena a s) buf PROT_READ locs) as Hm' by by apply (mapped_pt s).
  step (read_bytes_ok _ _ _ Hm'). split; [done|].
  by apply kernel_ok_arena.
Qed.

(** The terminal is busy: the process waits for it, with its copy of the bytes. *)
Lemma tty_write_start_busy s t0 qs ms v v' tty_id cur tq ws rq rs bs : kernel_ok s t0 qs ms v ->
  tty_is s qs tty_id cur tq ws rq rs -> cur <> NULL -> v_leave v = Some v' ->
  exists kc s', tty_write_start tty_id bs s = Switch kc s' /\
    kernel_ok s' t0 (<[readyQ (k_sched s) := v_ready v']> (<[tq := ws ++ [v_run v]]> qs)) ms v' /\
    parked (v_run v) (mkKctxt (KTtyBlock tty_id bs) (k_frame s)) s' /\ k_tty s' = k_tty s /\
    k_sched s' = with_currPCB (v_run v') (k_sched s).
Proof.
  intros Hok [Hi Hc Ht Hw Htr _ _ _] Hnz Hv. unfold tty_write_start, isTtyTransmitAvailable. kmon.
  step (tty_at_ok (currTransmitters (k_sched s)) tty_id cur s Hi Hc). mon. destruct (Z.eqb_spec cur NULL); [done|].
  unfold blockTransmitter. kmon. step (tty_at_ok (transmittingQs (k_sched s)) tty_id tq s Hi Ht). kmon.
  rewrite (sr_run _ _ _ _ (ko_sched _ _ _ _ _ Hok)).
  destruct (enq_other_ok s t0 qs ms v tq ws (v_run v) Hok Htr Hw) as (h & Henq & Hok1). step Henq. rewrite eqb_0_ERROR.
  destruct (leave_view_ok (with_qh h s) t0 _ ms v v' (KTtyBlock tty_id bs) Hok1 Hv) as (kc & s' & Hrn & Hok' & Hsch & Hpk & Htty).
  exists kc, s'. split; [unfold bind; by rewrite Hrn|done].
Qed.

(** The terminal is free: the first batch goes to it. *)
Lemma tty_write_start_free s t0 qs ms v v' tty_id bs : kernel_ok s t0 qs ms v ->
  0 <= tty_id -> currTransmitters (k_sched s) !! Z.to_nat tty_id = Some NULL -> bs <> [] -> v_leave v = Some v' ->
  exists kc s', tty_write_start tty_id bs s = Switch kc s' /\
    kernel_ok s' t0 (<[readyQ (k_sched s) := v_ready v']> qs) ms v' /\
    k_sched s' = with_currPCB (v_run v') (k_sched (with_transmitter tty_id (v_run v) s)) /\
    parked (v_run v) (mkKctxt (KTtyWait tty_id bs (Z.of_nat (length (batch bs 0)))) (k_frame s)) s' /\
    transmitted (k_tty s') = transmitted (k_tty s) ++ [(tty_id, batch bs 0)].
Proof.
  intros Hok Hi Hc Hne Hv. unfold tty_write_start, isTtyTransmitAvailable. kmon.
  step (tty_at_ok (currTransmitters (k_sched s)) tty_id NULL s Hi Hc). mon. cbn [Z.eqb].
  apply (tty_write_batch s t0 qs ms v v' (length bs) tty_id NULL bs 0); try done. destruct bs; [done|cbn; lia].
Qed.

(** The buffer at [buf] of the running process can take [length ulocs] bytes;
    it lies apart from the places [locs]. *)
Record read_buffer (s : kst) (t0 t1 : ptr) (locs : list (Z * Z)) (buf : ptr) (ulocs : list (Z * Z)) : Prop := {
  rb_some : ulocs <> [];
  rb_mapped : mapped s buf PROT_WRITE ulocs;
  rb_nodup : NoDup ulocs;
  rb_apart l : l ∈ ulocs -> l ∉ locs;
  rb_accepted : accepted (k_pt s) t0 t1 buf (Z.of_nat (length ulocs)) PROT_WRITE
}.

Lemma read_buffer_pt s s' t0 t1 locs buf ulocs : k_pt s' = k_pt s -> read_buffer s t0 t1 locs buf ulocs ->
  read_buffer s' t0 t1 locs buf ulocs.
Proof. intros Hpt []. split; try done; [by eapply mapped_pt|by rewrite Hpt]. Qed.

(** [KernelTtyRead] hands a valid buffer to [readBuffer]. *)
Lemma KernelTtyRead_enter s t0 t1 tty_id locs buf ulocs : read_buffer s t0 t1 locs buf ulocs ->
  KernelTtyRead tty_id buf (Z.of_nat (length ulocs)) s = readBuffer tty_id buf (Z.of_nat (length ulocs)) s.
Proof.
  intros [Hne _ _ _ Hacc]. assert (0 < length ulocs)%nat by (destruct ulocs; [done|cbn; lia]).
  destruct (accepted_ok s t0 t1 buf _ _ Hacc) as [Hbuf Hv]; [lia|]. unfold KernelTtyRead.
  destruct (Z.ltb_spec (u32 buf) VMEM_1_BASE); [lia|]. destruct (Z.ltb_spec (Z.of_nat (length ulocs)) 0); [lia|].
  destruct (Z.eqb_spec (Z.of_nat (length ulocs)) 0); [lia|]. by step Hv.
Qed.

(** A read from a line. *)
Lemma KernelTtyRead_line s t0 t1 qs ms v tty_id cur tq ws rq rs locs buf ulocs bs : kernel_ok s t0 qs ms v ->
  tty_is s qs tty_id cur tq ws rq rs -> first_waits s v rs -> buffered s tty_id locs (Some bs) ->
  read_buffer s t0 t1 locs buf ulocs ->
  let len := length ulocs in
  exists s', KernelTtyRead tty_id buf (Z.of_nat len) s = Ret (Z.of_nat (length (take len bs))) s' /\
    mem_get (k_mem s') <$> take (length bs) ulocs = take len bs /\ buffered s' tty_id locs (line_rest len bs) /\
    (if decide (len < length bs)%nat then kernel_ok s' t0 (first_q s qs v rq rs) ms (v_first rs v)
     else kernel_ok s' t0 qs ms v) /\ k_pt s' = k_pt s /\ k_sched s' = k_sched s.
Proof.
  intros Hok Hti Hhead Hbuf Hrb len. unfold len at 1. rewrite (KernelTtyRead_enter s t0 t1 tty_id locs) by done. fold len.
  destruct Hrb as [_ Hu Hnd Hdis _]. unfold line_rest. case_decide as Hlt.
  - destruct (readBuffer_part s t0 qs ms v tty_id cur tq ws rq rs locs bs buf ulocs) as (s' & Hr & Hb & Hm & Hok' & Hs & Hpt & _); try done.
    exists s'. rewrite length_take. replace (len `min` length bs)%nat with len by lia.
    rewrite (take_ge ulocs) by (unfold len in *; lia). done.
  - assert (mapped s buf PROT_WRITE (take (length bs) ulocs)) as Hu'
      by (rewrite <- (take_drop (length bs) ulocs) in Hu; by apply mapped_app in Hu as [? _]).
    destruct (readBuffer_whole s t0 qs ms v tty_id locs bs buf (take (length bs) ulocs) (Z.of_nat len))
      as (s' & Hr & Hb & Hm & Hok' & Hs & Hpt & _); try done.
    + by apply (sublist_NoDup _ _ Hnd), sublist_take.
    + rewrite length_take. unfold len in *. lia.
    + lia.
    + exists s'. rewrite (take_ge bs) by lia. done.
Qed.
End laws.
