(* ===== verification/ExitLaws.v ===== *)
(** [exitProcess]: the process leaves a zombie with its parent, orphans its
    children and gives back everything it had; the next process runs. *)

From stdpp Require Import base gmap sets list.
From S2P Require Import Prelude Hardware Queue HashMap FrameList PageTable State Scheduler.
From S2P Require Import SwitchLaws SchedView SchedLaws Steps CopyLaws InitLaws TtyLaws.

Section laws.
Context {QH MH : Type} `{HL : HardwareLaws} `{QO : QueueOps QH} `{MO : MapOps MH}
  `{QL : !QueueLaws QH} `{ML : !MapLaws MH}.
Abbreviation kst := (kst QH MH).
Implicit Types s : kst.

(** ** The zombie *)

(** The parent [par] of the process: its zombies [zs], and the queue that
    holds them (NULL: not made yet). *)
Record is_parent s (qs : gmap ptr (list ptr)) (par : ptr) (y : PCB_t) (zq : ptr) (zs : list ptr) : Prop := {
  ip_pcb : pcbs (k_obj s) !! par = Some y;
  ip_queue : zombieQ y = Some zq;
  ip_zombies : zq = NULL /\ zs = [] \/ qs !! zq = Some zs /\ zq <> readyQ (k_sched s)
}.

(** The parent's queue, made if need be. *)
Definition parent_queue (par : ptr) (zq : ptr) : M kst ptr :=
  if zq =? NULL then let! q := lift make_q in update_pcb par (with_zombieQ q) ;;; ret q else ret zq.

Lemma parent_queue_ok s t0 qs ms v par y zq zs : kernel_ok s t0 qs ms v -> is_parent s qs par y zq zs ->
  exists q h qs', let s1 := with_qh h (upd_pcb par (with_zombieQ q y) s) in
    parent_queue par zq s = Ret q s1 /\ kernel_ok s1 t0 qs' ms v /\
    qs' !! q = Some zs /\ q <> readyQ (k_sched s) /\ q <> NULL /\
    (forall q' l, qs !! q' = Some l -> qs' !! q' = Some l) /\ (qs !! q = None \/ q = zq).
Proof.
  intros Hok [Hy Hzq Hzs]. pose proof (ko_sched _ _ _ _ _ Hok) as Hs. unfold parent_queue.
  assert (with_zombieQ zq y = y) as Hsame by (destruct y; cbn in Hzq; by rewrite Hzq).
  destruct Hzs as [[-> ->]|[Hq Hr]].
  - cbn [Z.eqb]. destruct (make_q_spec _ _ (sr_q _ _ _ _ Hs)) as (q & h & Hmk & Hpl & [(_ & Hnp & _)|(Hq0 & Hqn & Hrep)]);
      [by destruct Hnp; apply (sr_qplenty _ _ _ _ Hs)|].
    exists q, h, (<[q := []]> qs). cbn zeta.
    assert (q <> readyQ (k_sched s)) as Hqr by (intros ->; by rewrite (sr_ready _ _ _ _ Hs) in Hqn).
    step (lift_qh _ s _ _ Hmk). step (update_pcb_upd (with_qh h s) par (with_zombieQ q) y Hy).
    split; [done|]. split; [|split; [apply lookup_insert_eq|]].
    + assert (kernel_ok (with_qh h s) t0 (<[q := []]> qs) ms v) as Hok1
        by (apply kernel_ok_queue; [done|done|by apply Hpl, (sr_qplenty _ _ _ _ Hs)|done]).
      change (with_qh h (upd_pcb par (with_zombieQ q y) s)) with (upd_pcb par (with_zombieQ q y) (with_qh h s)).
      eapply kernel_ok_upd_pcb; [done|exact Hy|]. repeat split. by eexists.
    + split; [done|]. split; [done|]. split; [|by left]. intros q' l Hl. rewrite lookup_insert_ne; [done|]. intros ->. congruence.
  - destruct (Z.eqb_spec zq NULL) as [->|Hnz]; [by rewrite (q_rep_NULL _ _ (sr_q _ _ _ _ Hs)) in Hq|].
    exists zq, (k_qh s), qs. cbn zeta. rewrite Hsame.
    assert (with_qh (k_qh s) (upd_pcb par y s) = s) as ->
      by (destruct s as [? ? ? ? [] ? ? ? ? ?]; unfold upd_pcb, with_obj, with_pcbs; cbn in *; by rewrite insert_id).
    split_and!; try done. by right.
Qed.

(** The state with a zombie more. *)
Definition upd_zombie (p : ptr) (z : zombie_t) s : kst :=
  with_obj (with_zombies (<[p := z]> (zombies (k_obj s))) (k_obj s)) s.

(** What [leave_zombie] and the loop over the children keep. *)
Record exit_frame s s' : Prop := {
  ef_pt : k_pt s' = k_pt s;
  ef_fl : k_fl s' = k_fl s;
  ef_glob : k_glob s' = k_glob s;
  ef_mem : k_mem s' = k_mem s;
  ef_sched : k_sched s' = k_sched s;
  ef_frame : k_frame s' = k_frame s;
  ef_tty : k_tty s' = k_tty s
}.

(** Every zombie was allocated. *)
Definition zombies_ok s : Prop := forall z, is_Some (zombies (k_obj s) !! z) -> 0 < z < brk_addr (o_arena (k_obj s)).

(** [leave_zombie] with a parent: its pid and status are at the end of the
    parent's queue, and the parent is unblocked. *)
Lemma leave_zombie_ok s t0 qs ms v x par y zq zs status : kernel_ok s t0 qs ms v -> zombies_ok s ->
  pcbs (k_obj s) !! v_run v = Some x -> parent x = par -> par <> NULL -> is_parent s qs par y zq zs ->
  exists s' qs' q z, leave_zombie (v_run v) status s = Ret true s' /\
    kernel_ok s' t0 qs' (<[blockedMap (k_sched s) := v_blocked (v_unblock (pid y) v)]> ms) (v_unblock (pid y) v) /\
    pcbs (k_obj s') = <[par := with_zombieQ q y]> (pcbs (k_obj s)) /\
    zombies (k_obj s') = <[z := mkZombie (pid x) status]> (zombies (k_obj s)) /\ zombies (k_obj s) !! z = None /\
    qs' !! q = Some (zs ++ [z]) /\ (qs !! q = None \/ q = zq) /\ q <> NULL /\ z <> NULL /\
    (forall q' l, q' <> readyQ (k_sched s) -> q' <> q -> qs !! q' = Some l -> qs' !! q' = Some l) /\ exit_frame s s'.
Proof.
  intros Hok Hzok Hx <- Hpar Hip. pose proof Hip as [Hy Hzq _].
  destruct (parent_queue_ok s t0 qs ms v (parent x) y zq zs Hok Hip) as (q & h & qs1 & Hpq & Hok1 & Hq & Hqr & Hqn & Hkeep & Hold).
  set (s1 := with_qh h _) in *. unfold leave_zombie. step (load_pcb_ok _ _ _ Hx).
  destruct (Z.eqb_spec (parent x) NULL); [done|]. step (load_pcb_ok _ _ _ Hy). step_rd Hzq.
  change (if zq =? NULL then _ else _) with (parent_queue (parent x) zq). step Hpq.
  destruct (Z.eqb_spec q NULL); [done|].
  destruct (kmalloc_next s1 8) as (a & Hk & _ & Hb & Ha); [apply Hok1|].
  set (z := brk_addr (o_arena (k_obj s1))) in *. step Hk.
  pose proof (mem_pos _ (so_mem _ _ (ko_sys _ _ _ _ _ Hok1))) as Hz. destruct (Z.eqb_spec z NULL); [change (brk_addr (o_arena (k_obj s1)) = 0) in e; lia|].
  unfold set_zombie. kmon. set (s2 := with_obj _ _).
  assert (kernel_ok s2 t0 qs1 ms v) as Hok2.
  { apply (kernel_ok_ext (with_arena a s1)); [done..|]. apply kernel_ok_arena; [done|done|lia]. }
  destruct (enq_other_ok s2 t0 qs1 ms v q zs z Hok2 Hqr Hq) as (h2 & Henq & Hok3). step Henq. rewrite eqb_0_ERROR.
  destruct (unblockProcess_ok _ _ _ _ _ (pid y) Hok3) as (h3 & m3 & Hub & Hok4).
  { apply (po_pos _ _ (ko_procs _ _ _ _ _ Hok) (parent x)), lookup_pids. by exists y. }
  step Hub. eexists _, _, q, z. split; [done|]. split; [exact Hok4|]. split; [done|]. split; [done|].
  split; [apply eq_None_not_Some; intros Hs%Hzok; change z with (brk_addr (o_arena (k_obj s))) in Hs; lia|].
  split; [rewrite lookup_insert_ne by done; apply lookup_insert_eq|]. split; [done|]. split; [done|]. split; [lia|]. split; [|by split].
  intros q' l Hr Hne Hl. rewrite !lookup_insert_ne by done. by apply Hkeep.
Qed.

(** ** The children *)

(** The PCBs after the children in [l] lost their parent. *)
Definition orphan (l : list ptr) (ps : gmap ptr PCB_t) : gmap ptr PCB_t :=
  foldl (fun ps c => alter (with_parent NULL) c ps) ps l.

Lemma orphan_snoc l c ps : orphan (l ++ [c]) ps = alter (with_parent NULL) c (orphan l ps).
Proof. unfold orphan. by rewrite foldl_snoc. Qed.

Lemma lookup_orphan l ps p : orphan l ps !! p = (if decide (p ∈ l) then with_parent NULL else id) <$> ps !! p.
Proof.
  induction l as [|c l IH] using rev_ind; [rewrite decide_False by set_solver; change (orphan [] ps) with ps; by destruct (ps !! p)|].
  rewrite orphan_snoc. destruct (decide (c = p)) as [->|Hne].
  - rewrite lookup_alter_eq, IH, (decide_True (P := p ∈ l ++ [p])) by set_solver.
    destruct (ps !! p); [|done]. cbn. by case_decide.
  - rewrite lookup_alter_ne, IH by done. by rewrite (decide_ext (p ∈ l) (p ∈ l ++ [c])) by set_solver.
Qed.

Lemma pids_orphan l ps : pids (orphan l ps) = pids ps.
Proof. induction l as [|c l IH] using rev_ind; [done|]. by rewrite orphan_snoc, pids_alter. Qed.

(** It has no defined behaviour when a child is no more. *)
Lemma removeParents_tries s t0 qs ms v cm m : kernel_ok s t0 qs ms v -> ms !! cm = Some m ->
  ((forall k c, m !! k = Some c -> is_Some (pcbs (k_obj s) !! c)) /\
   exists l, l ≡ₚ (map_to_list m).*2 /\ let s' := with_obj (with_pcbs (orphan l (pcbs (k_obj s))) (k_obj s)) s in
     HashMap_iterate cm removeParent s = Ret tt s' /\ kernel_ok s' t0 qs ms v) \/
  ((exists k c, m !! k = Some c /\ pcbs (k_obj s) !! c = None) /\ HashMap_iterate cm removeParent s = Undef).
Proof.
  intros Hok Hm. assert (m_rep (view (A := MH) s) ms) as Hrep by apply (sr_m _ _ _ _ (ko_sched _ _ _ _ _ Hok)).
  destruct (HashMap_iterate_tries _ _ _ _ removeParent Hrep Hm) as (order & Hperm & Hit).
  assert (forall k c, m !! k = Some c <-> (k, c) ∈ order) as Hin by (intros k c; by rewrite Hperm, elem_of_map_to_list).
  set (st (d : list (Z * ptr)) := with_obj (with_pcbs (orphan d.*2 (pcbs (k_obj s))) (k_obj s)) s : kst).
  destruct (Hit (fun d s1 => s1 = st d /\ kernel_ok s1 t0 qs ms v /\ Forall (fun e => is_Some (pcbs (k_obj s) !! e.2)) d))
    as [(s' & Hrun & -> & Hok' & Hall)|[Hu (d & k & c & r & s1 & Heq & (-> & _) & Hc)]].
  - split; [|by split]. unfold st. cbn. by destruct s as [? ? ? ? [] ? ? ? ? ?].
  - intros d k c r s1 Heq (-> & Hok1 & Hd). destruct (pcbs (k_obj (st d)) !! c) as [y|] eqn:Hy;
      [left|right; unfold removeParent, update_pcb, load_pcb, bind; by rewrite Hy].
    exists (upd_pcb c (with_parent NULL y) (st d)). split; [by apply update_pcb_upd|]. split; [|by left]. split; [|split].
    + unfold st, upd_pcb. cbn in Hy |- *. rewrite fmap_app. change ([(k, c)].*2) with [c]. rewrite orphan_snoc. by rewrite (alter_alt_Some _ _ _ _ Hy).
    + eapply kernel_ok_upd_pcb; [done|done|]. repeat split. exact (pk_zombies _ _ _ (so_pcb _ _ (ko_sys _ _ _ _ _ Hok1) _ _ Hy)).
    + apply Forall_app. split; [done|]. apply Forall_singleton. cbn in Hy |- *. rewrite lookup_orphan in Hy. by destruct (_ !! c).
  - left. split; [|exists order.*2; split; [by rewrite Hperm|done]]. rewrite Forall_forall in Hall. intros k c Hkc%Hin. by apply (Hall _ Hkc).
  - right. split; [|done]. exists k, c. split; [apply Hin; rewrite Heq; set_solver|].
    unfold removeParent, update_pcb, load_pcb, bind in Hc. destruct (pcbs (k_obj (st d)) !! c) eqn:Hy; [done|].
    cbn in Hy. rewrite lookup_orphan in Hy. by destruct (_ !! c).
Qed.
Lemma removeParents_ok s t0 qs ms v cm m : kernel_ok s t0 qs ms v -> ms !! cm = Some m ->
  (forall k c, m !! k = Some c -> is_Some (pcbs (k_obj s) !! c)) ->
  exists l, l ≡ₚ (map_to_list m).*2 /\ let s' := with_obj (with_pcbs (orphan l (pcbs (k_obj s))) (k_obj s)) s in
    HashMap_iterate cm removeParent s = Ret tt s' /\ kernel_ok s' t0 qs ms v.
Proof.
  intros Hok Hm Hch. destruct (removeParents_tries s t0 qs ms v cm m Hok Hm) as [[_ ?]|[(k & c & Hc & Hn) _]]; [done|].
  destruct (Hch k c Hc). congruence.
Qed.
Lemma removeParents_undef s t0 qs ms v cm m k c : kernel_ok s t0 qs ms v -> ms !! cm = Some m ->
  m !! k = Some c -> pcbs (k_obj s) !! c = None -> HashMap_iterate cm removeParent s = Undef.
Proof.
  intros Hok Hm Hc Hn. destruct (removeParents_tries s t0 qs ms v cm m Hok Hm) as [[Hch _]|[_ ?]]; [|done].
  destruct (Hch k c Hc). congruence.
Qed.

(** ** [delete_process] *)

(** The zombies without those in [l]. *)
Definition del_zombies (l : list ptr) (zm : gmap ptr zombie_t) : gmap ptr zombie_t := foldl (fun zm z => delete z zm) zm l.

Lemma lookup_del_zombies l zm z : z ∉ l -> del_zombies l zm !! z = zm !! z.
Proof.
  intros Hz. induction l as [|y l IH] using rev_ind; [done|]. unfold del_zombies in *. rewrite foldl_snoc.
  rewrite lookup_delete_ne by set_solver. apply IH. set_solver.
Qed.

Lemma delete_zombies_ok s qs zx zs : q_rep (k_qh s) qs -> (zx = NULL /\ zs = [] \/ qs !! zx = Some zs) -> NoDup zs ->
  (forall z, z ∈ zs -> is_Some (zombies (k_obj s) !! z)) ->
  exists h, delete_q zx (Some free_zombie_t) s =
      Ret tt (with_qh h (with_obj (with_zombies (del_zombies zs (zombies (k_obj s))) (k_obj s)) s)) /\
    (q_plenty (k_qh s) -> q_plenty h) /\ q_rep h (delete zx qs).
Proof.
  intros Hrep Hq Hnd Hz. destruct Hq as [[-> ->]|Hq].
  { exists (k_qh s). rewrite delete_q_null. split; [by destruct s as [? ? ? ? [] ? ? ? ? ?]|]. split; [done|].
    by rewrite delete_id by apply (q_rep_NULL _ _ Hrep). }
  set (st h (d : list ptr) := with_qh h (with_obj (with_zombies (del_zombies d (zombies (k_obj s))) (k_obj s)) s) : kst).
  change (q_rep (view (A := QH) s) qs) in Hrep.
  destruct (delete_q_spec s qs zx zs (Some free_zombie_t) (fun d s1 => exists h, s1 = st h d) Hrep Hq)
    as (s' & Hrun & (h & ->) & Hpl & Hr).
  - exists (k_qh s). unfold st. by destruct s as [? ? ? ? [] ? ? ? ? ?].
  - intros d s1 h (h' & ->). by exists h.
  - intros d z r s1 Heq (h & ->).
    assert (is_Some (zombies (k_obj (st h d)) !! z)) as [y Hy].
    { cbn. rewrite Heq in Hnd. apply NoDup_app in Hnd as (_ & Hnd & _).
      rewrite lookup_del_zombies; [apply Hz; rewrite Heq; set_solver|]. intros Hin. apply (Hnd z Hin). set_solver. }
    exists (st h (d ++ [z])). split; [|split; [done|by exists h]].
    unfold free_zombie_t, free_zombie, load_zombie. unfold bind, modify. rewrite Hy. unfold st, del_zombies. by rewrite foldl_snoc.
  - by exists h.
Qed.

(** The frames of the valid pages among [ps]. *)
Definition frames_of (t : pt) (b : ptr) (ps : list Z) : list Z :=
  omap (fun i => match entry t b i with Some e => if pte_valid e =? 1 then Some (pte_pfn e) else None | None => None end) ps.

Lemma frames_of_snoc t b ps i : frames_of t b (ps ++ [i]) = frames_of t b ps ++ frames_of t b [i].
Proof. apply omap_app. Qed.

(** Giving back the frames [l]. *)
Definition given_back (all avail : gset Z) (l : list Z) : gset Z := avail ∪ (list_to_set l ∩ all).

Lemma given_back_nil all avail : given_back all avail [] = avail.
Proof. unfold given_back. set_solver. Qed.

Lemma given_back_app all avail l1 l2 : given_back all (given_back all avail l1) l2 = given_back all avail (l1 ++ l2).
Proof. unfold given_back. rewrite list_to_set_app_L. set_solver. Qed.

Lemma freeFrame_given f n all avail l p : fl_rep f n all (given_back all avail l) ->
  exists f', freeFrame n p f = Ret tt f' /\ fl_rep f' n all (given_back all avail (l ++ [p])).
Proof.
  intros Hf. destruct (freeFrame_ok _ _ _ _ p Hf) as (f' & Hrun & _ & Hf'). exists f'. split; [done|].
  replace (given_back all avail (l ++ [p])) with (if decide (p ∈ all) then given_back all avail l ∪ {[p]} else given_back all avail l);
    [done|]. unfold given_back. rewrite list_to_set_app_L. case_decide; set_solver.
Qed.

Lemma free_pages_ok s tb n all avail : table (k_pt s) tb -> fl_rep (k_fl s) n all avail ->
  exists f', foldM (fun i =>
      let! e := lift (load_pte (pte_at tb i)) in
      if pte_valid e =? 1 then lift (freeFrame n (pte_pfn e)) else ret tt) (seqZ 0 MAX_PT_LEN) s = Ret tt (with_fl f' s) /\
    fl_rep f' n all (given_back all avail (frames_of (k_pt s) tb (seqZ 0 MAX_PT_LEN))).
Proof.
  intros (_ & _ & Ht) Hf.
  loop (fun d s1 => exists f', s1 = with_fl f' s /\ fl_rep f' n all (given_back all avail (frames_of (k_pt s) tb d)))
    as (s' & Hrun & f' & -> & Hf'); [| |by exists f'].
  - exists (k_fl s). by rewrite with_fl_id, given_back_nil.
  - intros d i r s1 Heq (f1 & -> & Hf1). destruct (Ht i) as [e He].
    { assert (i ∈ seqZ 0 MAX_PT_LEN) as Hi%elem_of_seqZ by (rewrite Heq; set_solver). lia. }
    assert (load_pte (pte_at tb i) (k_pt s) = Ret e (k_pt s)) as Hld by (unfold load_pte, entry in *; by rewrite He).
    step (lift_pt _ (with_fl f1 s) _ _ Hld). rewrite frames_of_snoc. unfold frames_of at 2. cbn [omap list_omap]. rewrite He.
    destruct (pte_valid e =? 1).
    + destruct (freeFrame_given _ _ _ _ _ (pte_pfn e) Hf1) as (f2 & Hfr & Hf2). exists (with_fl f2 s).
      split; [exact (lift_fl _ (with_fl f1 s) _ _ Hfr)|]. by exists f2.
    + exists (with_fl f1 s). split; [done|]. exists f1. by rewrite app_nil_r.
Qed.

Lemma free_stack_ok s x fs n all avail : has_stack x fs -> fl_rep (k_fl s) n all avail ->
  exists f', foldM (fun i => let! pfn := stackPfn x i in lift (freeFrame n pfn)) stack_indices s = Ret tt (with_fl f' s) /\
    fl_rep f' n all (given_back all avail fs).
Proof.
  intros Hfs Hf. pose proof Hfs as (_ & Hlen & _).
  loop (fun d s1 => exists f', s1 = with_fl f' s /\ fl_rep f' n all (given_back all avail (take (length d) fs)))
    as (s' & Hrun & f' & -> & Hf').
  - exists (k_fl s). by rewrite with_fl_id, given_back_nil.
  - intros d i r s1 Heq (f1 & -> & Hf1). apply stack_indices_turn in Heq as Hi. destruct Hi as [Hi _].
    apply seqZ_split in Heq as [-> _]. rewrite Z.add_0_l in *.
    destruct (stackPfn_ok (with_fl f1 s) x fs _ Hfs Hi) as (g & Hg & _ & Hrd). step Hrd. rewrite Nat2Z.id in Hg.
    destruct (freeFrame_given _ _ _ _ _ g Hf1) as (f2 & Hfr & Hf2). exists (with_fl f2 s).
    split; [exact (lift_fl _ (with_fl f1 s) _ _ Hfr)|]. exists f2. split; [done|].
    rewrite length_app. cbn [length]. rewrite Nat.add_1_r, (take_S_r _ _ _ Hg). done.
  - exists f'. split; [done|]. rewrite take_ge in Hf'; [done|]. unfold stack_indices. rewrite length_seqZ. lia.
Qed.

(** The page tables without that at [b]. *)
Definition without_table (b : ptr) (t : pt) : pt :=
  with_ptes (foldr (fun i m => delete (pte_at b i) m) (ptes t) (seqZ 0 MAX_PT_LEN)) t.

Lemma lookup_without_table t b c i : apart c b -> 0 <= i < MAX_PT_LEN ->
  ptes (without_table b t) !! pte_at c i = ptes t !! pte_at c i.
Proof.
  intros Hap Hi. cbn. assert (forall j, j ∈ seqZ 0 MAX_PT_LEN -> pte_at b j <> pte_at c i) as Hne.
  { intros j Hj%elem_of_seqZ. apply pte_at_apart; [unfold apart in *; lia|lia|lia]. }
  revert Hne. induction (seqZ 0 MAX_PT_LEN) as [|j js IH]; intros Hne; [done|]. cbn.
  rewrite lookup_delete_ne by (apply Hne; set_solver). apply IH. intros k Hk. apply Hne. set_solver.
Qed.

Lemma table_without t b c : apart c b -> table t c -> table (without_table b t) c.
Proof. intros Hap (? & ? & Ht). split_and!; try done. intros i Hi. unfold entry. rewrite lookup_without_table by done. by apply Ht. Qed.

(** A process that runs and can be deleted: what it has is its own. *)
Record can_delete s (t0 : ptr) (qs : gmap ptr (list ptr)) (ms : gmap ptr (gmap Z ptr)) (v : sview) (x : PCB_t) (tb cm zx : ptr)
    (zs : list ptr) (fs : list Z) (all avail : gset Z) : Prop := {
  cd_ok : kernel_ok s t0 qs ms v;
  cd_pcb : pcbs (k_obj s) !! v_run v = Some x;
  cd_r1 : r1PageTable x = Some tb;
  cd_apart p y r : pcbs (k_obj s) !! p = Some y -> p <> v_run v -> r1PageTable y = Some r -> apart r tb;
  cd_children : childrenMap x = Some cm /\ is_Some (ms !! cm) /\ cm <> blockedMap (k_sched s) /\ cm <> sleepingMap (k_sched s);
  cd_zombies : zombieQ x = Some zx /\ (zx = NULL /\ zs = [] \/ qs !! zx = Some zs /\ zx <> readyQ (k_sched s)) /\
    NoDup zs /\ forall z, z ∈ zs -> is_Some (zombies (k_obj s) !! z);
  cd_stack : has_stack x fs;
  cd_fl : fl_rep (k_fl s) (numFrames (k_glob s)) all avail
}.

(** What is left once the running process is deleted. *)
Record deleted s (t0 : ptr) (qs : gmap ptr (list ptr)) (ms : gmap ptr (gmap Z ptr)) (v : sview) (tb cm zx : ptr)
    (zs : list ptr) (fs : list Z) (all avail : gset Z) s' : Prop := {
  dl_sys : sys_ok s' t0;
  dl_sched : sched_rep s' (delete zx qs) (delete cm ms) v;
  dl_pcbs : pcbs (k_obj s') = delete (v_run v) (pcbs (k_obj s));
  dl_zombies : zombies (k_obj s') = del_zombies zs (zombies (k_obj s));
  dl_fl : fl_rep (k_fl s') (numFrames (k_glob s)) all
    (given_back all avail (frames_of (k_pt s) tb (seqZ 0 MAX_PT_LEN) ++ fs));
  dl_pt : k_pt s' = without_table tb (k_pt s);
  dl_same : k_sched s' = k_sched s /\ k_glob s' = k_glob s /\ k_mem s' = k_mem s /\ k_frame s' = k_frame s
}.

(** The machine and the other processes do not miss what is freed. *)
Lemma sys_ok_deleted s t0 p tb s' : sys_ok s t0 -> apart t0 tb -> currPCB (k_sched s) = p ->
  (forall q y r, pcbs (k_obj s) !! q = Some y -> q <> p -> r1PageTable y = Some r -> apart r tb) ->
  k_pt s' = without_table tb (k_pt s) -> pcbs (k_obj s') = delete p (pcbs (k_obj s)) ->
  o_arena (k_obj s') = o_arena (k_obj s) -> k_glob s' = k_glob s -> k_sched s' = k_sched s -> sys_ok s' t0.
Proof.
  intros [[[Hen Hb0 Hl0 Ht0] Hb Ht Ha] [Hpl Hpos Hlt] Hst Hp Hk] Hap Hcur Hr Hpt Hpcbs Har Hg Hsch. split.
  - split; rewrite ?Hg; try done. rewrite Hpt. split; try done. by apply table_without.
  - split; rewrite ?Har; try done. intros q. rewrite Hpcbs. intros [_ Hq]%lookup_delete_is_Some. by apply Hlt.
  - unfold starter_ok in *. by rewrite Hg.
  - intros q y. rewrite Hpcbs, Hpt. intros [Hne Hy]%lookup_delete_Some.
    destruct (Hp q y Hy) as [? (r & Hyr & Htr & Hapr) ? ?]. split; try done. exists r. split; [done|]. split; [|done].
    apply table_without; [|done]. by apply (Hr q y).
  - intros q y. rewrite Hpcbs, Hsch. intros [_ Hy]%lookup_delete_Some. by apply Hk.
Qed.

Lemma delete_process_ok s t0 qs ms v x tb cm zx zs fs all avail : can_delete s t0 qs ms v x tb cm zx zs fs all avail ->
  exists s', delete_process (v_run v) s = Ret tt s' /\ deleted s t0 qs ms v tb cm zx zs fs all avail s'.
Proof.
  intros [Hok Hx Hr1 Hap (Hcm & [m Hm] & Hcb & Hcs) (Hzx & Hzq & Hznd & Hzin) Hfs Hfl].
  pose proof Hok as [Hsys _ Hs _]. destruct (so_pcb _ _ Hsys _ _ Hx) as [_ (r & Hr & Htb & Hap0) _ _]. simplify_eq.
  assert (exists k, kctxt x = Some k) as [k Hk].
  { destruct (ko_running _ _ _ _ _ Hok) as (y & fs0 & r1 & Hy & Hky & _). rewrite (sr_run _ _ _ _ Hs), Hx in Hy.
    injection Hy as <-. destruct Hky as [->|[kc ->]]; by eexists. }
  pose proof (mem_pcbs _ (so_mem _ _ Hsys) _ (mk_is_Some _ _ Hx)). unfold delete_process.
  destruct (Z.eqb_spec (v_run v) NULL); [lia|]. step (load_pcb_ok _ _ _ Hx). step_rd Hk. step_rd Hcm.
  assert (m_rep (view (A := MH) s) ms) as Hmr by apply (sr_m _ _ _ _ Hs).
  destruct (HashMap_delete_spec s ms cm m Hmr Hm) as (hm & Hdel & Hmpl & Hmr'). step Hdel. step_rd Hzx.
  set (s1 := put hm s). destruct (delete_zombies_ok s1 qs zx zs) as (hq & Hdq & Hqpl & Hqr); [apply Hs|tauto|done|done|].
  step Hdq. set (s2 := with_qh hq _). step_rd Hr1. kmon. change (numFrames (k_glob s2)) with (numFrames (k_glob s)).
  destruct (free_pages_ok s2 tb (numFrames (k_glob s)) all avail) as (f3 & Hpg & Hf3); [done|done|].
  step Hpg. set (s3 := with_fl f3 s2). unfold free_entries at 1.
  assert (lift (modify (fun t => with_ptes (foldr (fun i m => delete (pte_at tb i) m) (ptes t) (seqZ 0 MAX_PT_LEN)) t)) s3
    = Ret tt (with_pt (without_table tb (k_pt s3)) s3)) as Hfe by done.
  step Hfe. set (s4 := with_pt _ s3).
  destruct (free_stack_ok s4 x fs (numFrames (k_glob s)) all _ Hfs Hf3) as (f5 & Hst & Hf5). step Hst.
  unfold free_pcb. assert (load_pcb (v_run v) (with_fl f5 s4) = Ret x (with_fl f5 s4)) as Hl by (by apply load_pcb_ok).
  step Hl. eexists. split; [reflexivity|]. split; try done.
  - apply (sys_ok_deleted s t0 (v_run v) tb); try done. apply (sr_run _ _ _ _ Hs).
  - split; cbn; try done; try apply Hs.
    + by apply Hqpl, (sr_qplenty _ _ _ _ Hs).
    + by apply Hmpl, (sr_mplenty _ _ _ _ Hs).
    + rewrite lookup_delete_ne; [apply Hs|]. destruct Hzq as [[-> _]|[_ ?]]; [|done]. intros He.
      by apply (sched_rep_readyQ_ne _ _ _ _ Hs).
    + rewrite lookup_delete_ne by done. apply Hs.
    + rewrite lookup_delete_ne by done. apply Hs.
  - cbn. by rewrite <- given_back_app.
Qed.

(** ** [exitProcess] *)

(** The view when the running process exits and its parent, with pid [k], is
    unblocked first. *)
Definition v_wake_parent (k : option Z) (v : sview) : sview := match k with Some k => v_unblock k v | None => v end.

Lemma v_wake_parent_run k v : v_run (v_wake_parent k v) = v_run v.
Proof. destruct k as [k|]; [|done]. cbn. unfold v_unblock. by case_match. Qed.

Lemma can_delete_orphan s t0 qs ms v x tb cm zx zs fs all avail l : can_delete s t0 qs ms v x tb cm zx zs fs all avail ->
  v_run v ∉ l -> let s' := with_obj (with_pcbs (orphan l (pcbs (k_obj s))) (k_obj s)) s in
  kernel_ok s' t0 qs ms v -> can_delete s' t0 qs ms v x tb cm zx zs fs all avail.
Proof.
  intros [Hok Hx Hr Hap Hch Hz Hst Hfl] Hl s' Hok'. split; try done.
  - cbn. by rewrite lookup_orphan, Hx, decide_False.
  - intros p y r Hp Hne Hyr. cbn in Hp. rewrite lookup_orphan in Hp. apply fmap_Some in Hp as (z & Hz' & ->).
    eapply (Hap p z); [done|done|]. by case_decide.
Qed.

(** The deleted process's place goes to the next one. *)
Lemma exit_next_ok s t0 qs ms v tb cm zx zs fs all avail v' s' : deleted s t0 qs ms v tb cm zx zs fs all avail s' ->
  kernel_ok s t0 qs ms v -> v_exit v = Some v' ->
  exists kc s2, run_next NULL KExit s' = Switch kc s2 /\
    kernel_ok s2 t0 (<[readyQ (k_sched s) := v_ready v']> (delete zx qs)) (delete cm ms) v' /\
    (forall (A : Type) (f : PCB_t -> A), (forall x kc, f (with_kctxt kc x) = f x) ->
       f <$> pcbs (k_obj s2) = f <$> delete (v_run v) (pcbs (k_obj s))) /\
    zombies (k_obj s2) = del_zombies zs (zombies (k_obj s)) /\ k_fl s2 = k_fl s' /\
    (k_glob s2 = k_glob s /\ k_sched s2 = with_currPCB (v_run v') (k_sched s)) /\
    (forall p kp, p = v_run v' -> parked p kp s -> kc = kp) /\
    (forall p kp, p <> v_run v' -> p <> v_run v -> parked p kp s -> parked p kp s2) /\
    (forall b i, apart t0 b -> apart b tb -> 0 <= i < MAX_PT_LEN -> entry (k_pt s2) b i = entry (k_pt s) b i).
Proof.
  intros [Hsys Hs Hpcbs Hz Hfl Hpt (Hsch & Hg & _)] Hok Hv. pose proof Hok as [Hsys0 _ Hs0 Hp].
  pose proof (procs_ok_exit _ _ Hp _ Hv) as Hp'. pose proof Hv as Hv0.
  unfold v_exit in Hv. destruct (v_ready v) as [|n r] eqn:Hr; [done|]. injection Hv as <-.
  destruct (ready_head _ _ _ _ _ _ _ Hok Hr) as [Hn Hne]. rewrite (sr_run _ _ _ _ Hs0) in Hne.
  assert (is_Some (pcbs (k_obj s') !! n)) as Hn' by (rewrite Hpcbs, lookup_delete_ne by done; done).
  destruct (run_next_ok s' t0 (delete zx qs) (delete cm ms) v NULL KExit n r Hsys) as (kc & s2 & h & Hrn & Hsys2 & Hrun2 & Hs2 & Hpid & Hgave);
    [left; by rewrite Hpcbs, Hsch, (sr_run _ _ _ _ Hs0), lookup_delete_eq|done|done|done|by rewrite Hsch, (sr_run _ _ _ _ Hs0)|].
  exists kc, s2. split; [done|]. split; [|split; [|split; [|split; [|split; [|apply and_assoc; split]]]]].
  - split; [done|done|by rewrite <- Hsch|]. rewrite Hpid, Hpcbs. unfold pids. by rewrite fmap_delete.
  - intros A f Hf. rewrite <- Hpcbs. refine (gave_proj f t0 (with_qh h s') NULL KExit n kc s2 Hf _ Hgave).
    destruct Hn as [y Hy]. pose proof (mem_pcbs _ (so_mem _ _ Hsys0) _ (mk_is_Some _ _ Hy)). lia.
  - destruct Hgave as (y & gs & _ & _ & _ & Hsw). by rewrite (sw_zombies _ _ _ _ _ _ _ _ _ Hsw).
  - destruct Hgave as (y & gs & _ & _ & _ & Hsw). by rewrite (sw_fl _ _ _ _ _ _ _ _ _ Hsw).
  - destruct Hgave as (y & gs & _ & _ & _ & Hsw). split; [by rewrite (sw_glob _ _ _ _ _ _ _ _ _ Hsw)|].
    rewrite (sw_sched _ _ _ _ _ _ _ _ _ Hsw). cbn. by rewrite Hsch.
  - assert (forall p kp, p <> v_run v -> parked p kp s -> exists x, pcbs (k_obj (with_qh h s')) !! p = Some x /\ kctxt x = Some (KSaved kp)) as Hpk.
    { intros p kp Hpr [_ (x & Hx & Hk)]. exists x. split; [|done]. cbn. by rewrite Hpcbs, lookup_delete_ne. }
    split.
    + intros p kp -> Hpk0. cbn in Hpk0.
      pose proof (gave_parked t0 (with_qh h s') NULL KExit n kc s2 n kp) as Hd. rewrite decide_True in Hd by done. apply Hd; [|done|by apply Hpk].
      destruct Hn as [y Hy]. pose proof (mem_pcbs _ (so_mem _ _ Hsys0) _ (mk_is_Some _ _ Hy)). lia.
    + intros p kp Hpn Hpr Hpk0. pose proof (gave_parked t0 (with_qh h s') NULL KExit n kc s2 p kp) as Hd.
      rewrite decide_False in Hd by done. apply Hd; [|done|by apply Hpk].
      destruct Hpk0 as [_ (y & Hy & _)]. pose proof (mem_pcbs _ (so_mem _ _ Hsys0) _ (mk_is_Some _ _ Hy)). lia.
  - intros b i Ha Hab Hi. destruct Hgave as (y & gs & _ & _ & _ & Hsw). destruct (sw_pt _ _ _ _ _ _ _ _ _ Hsw) as (t' & r1 & Hu & _ & ->).
    transitivity (entry t' b i); [done|]. rewrite (in_stack_other _ _ _ _ _ Hu) by done. cbn. rewrite Hpt.
    unfold entry. by apply lookup_without_table.
Qed.

(** [exitProcess] after [leave_zombie]. *)
Definition exit_tail (cur : ptr) : M kst Z :=
  let! x := load_pcb cur in
  let! cm := rd (childrenMap x) in
  HashMap_iterate cm removeParent ;;;
  delete_process cur ;;;
  run_next NULL KExit.

Lemma exit_tail_ok s t0 qs ms v x tb cm m zx zs fs all avail v' : can_delete s t0 qs ms v x tb cm zx zs fs all avail ->
  ms !! cm = Some m -> (forall k c, m !! k = Some c -> c <> v_run v /\ is_Some (pcbs (k_obj s) !! c)) -> v_exit v = Some v' ->
  exists kc s', exit_tail (v_run v) s = Switch kc s' /\
    kernel_ok s' t0 (<[readyQ (k_sched s) := v_ready v']> (delete zx qs)) (delete cm ms) v' /\
    pcbs (k_obj s') !! v_run v = None /\
    (forall k c, m !! k = Some c -> parent <$> pcbs (k_obj s') !! c = Some NULL) /\
    (forall (A : Type) (f : PCB_t -> A) p, (forall x kc, f (with_kctxt kc x) = f x) -> (forall x, f (with_parent NULL x) = f x) ->
       p <> v_run v -> f <$> pcbs (k_obj s') !! p = f <$> pcbs (k_obj s) !! p) /\
    zombies (k_obj s') = del_zombies zs (zombies (k_obj s)) /\
    fl_rep (k_fl s') (numFrames (k_glob s)) all (given_back all avail (frames_of (k_pt s) tb (seqZ 0 MAX_PT_LEN) ++ fs)) /\
    ((forall kp, parked (v_run v') kp s -> kc = kp) /\
     (forall p kp, p <> v_run v' -> p <> v_run v -> parked p kp s -> parked p kp s')) /\
    (forall b i, apart t0 b -> apart b tb -> 0 <= i < MAX_PT_LEN -> entry (k_pt s') b i = entry (k_pt s) b i) /\
    (k_glob s' = k_glob s /\ k_sched s' = with_currPCB (v_run v') (k_sched s)).
Proof.
  intros Hcd Hm Hch Hv. pose proof Hcd as [Hok Hx _ _ (Hcm & _) _ _ _].
  destruct (removeParents_ok s t0 qs ms v cm m Hok Hm) as (l & Hl & Hit & Hok1); [intros k c Hc; by eapply Hch|].
  cbn zeta in Hit, Hok1. set (s1 := with_obj _ s) in *.
  assert (forall c, c ∈ l <-> exists k, m !! k = Some c) as Hlin.
  { intros c. rewrite Hl. rewrite list_elem_of_fmap. split.
    - intros ([k c'] & -> & Hkc%elem_of_map_to_list). by exists k.
    - intros (k & Hk). exists (k, c). by rewrite elem_of_map_to_list. }
  assert (v_run v ∉ l) as Hvl by (intros (k & Hk)%Hlin; by destruct (Hch _ _ Hk)).
  pose proof (can_delete_orphan s t0 qs ms v x tb cm zx zs fs all avail l Hcd Hvl Hok1) as Hcd1.
  destruct (delete_process_ok s1 t0 qs ms v x tb cm zx zs fs all avail Hcd1) as (s2 & Hdel & Hd).
  destruct (exit_next_ok s1 t0 qs ms v tb cm zx zs fs all avail v' s2 Hd Hok1 Hv) as (kc & s3 & Hrn & Hok3 & Hproj & Hz & Hfl & Hg & Hpk & Hpo & Hent).
  unfold exit_tail. step (load_pcb_ok _ _ _ Hx). step_rd Hcm. step Hit. step Hdel. exists kc, s3.
  assert (forall (A : Type) (f : PCB_t -> A) p, (forall x kc, f (with_kctxt kc x) = f x) -> p <> v_run v ->
    f <$> pcbs (k_obj s3) !! p = f <$> orphan l (pcbs (k_obj s)) !! p) as Hlk.
  { intros A f p Hf Hp. rewrite <- !lookup_fmap, (Hproj A f Hf). by rewrite lookup_fmap, lookup_delete_ne, lookup_fmap by done. }
  split; [done|]. split; [done|]. split; [|split; [|split; [|split; [done|split; [|split; [|split; [exact Hent|done]]]]]]].
  - assert (pid <$> pcbs (k_obj s3) !! v_run v = None) as Hn.
    { rewrite <- lookup_fmap, (Hproj Z pid) by done. by rewrite lookup_fmap, lookup_delete_eq. }
    by apply fmap_None in Hn.
  - intros k c Hc. destruct (Hch _ _ Hc) as [Hne [y Hy]]. rewrite (Hlk _ parent c) by done.
    rewrite lookup_orphan, Hy, decide_True by (apply Hlin; by exists k). done.
  - intros A f p Hf Hf' Hp. rewrite (Hlk A f p Hf Hp), lookup_orphan. destruct (_ !! p); [|done]. cbn.
    case_decide; cbn; by rewrite ?Hf'.
  - rewrite Hfl. apply (dl_fl _ _ _ _ _ _ _ _ _ _ _ _ _ Hd).
  - assert (forall p kp, parked p kp s -> parked p kp s1) as Hps.
    { intros p kp [Hcur (y & Hy & Hk)]. split; [done|]. cbn. rewrite lookup_orphan, Hy. cbn. eexists. split; [done|]. by case_decide. }
    split; [intros kp Hkp; by apply (Hpk _ kp eq_refl), Hps|]. intros p kp Hn Hr Hkp. by apply Hpo, Hps.
Qed.

(** The zombie does not touch what the process has. *)
Lemma can_delete_zombie s t0 qs ms v x tb cm zx zs fs all avail par y q z zb qs' ms' v' s' :
  can_delete s t0 qs ms v x tb cm zx zs fs all avail -> pcbs (k_obj s) !! par = Some y -> par <> v_run v ->
  kernel_ok s' t0 qs' ms' v' -> v_run v' = v_run v ->
  pcbs (k_obj s') = <[par := with_zombieQ q y]> (pcbs (k_obj s)) ->
  zombies (k_obj s') = <[z := zb]> (zombies (k_obj s)) -> exit_frame s s' ->
  (zx <> NULL -> qs' !! zx = qs !! zx) -> ms' !! cm = ms !! cm ->
  can_delete s' t0 qs' ms' v' x tb cm zx zs fs all avail.
Proof.
  intros [Hok Hx Hr Hap (Hcm & Hms & Hcb & Hcs) (Hzx & Hzq & Hznd & Hzin) Hst Hfl] Hy Hne Hok' Hrun Hpcbs Hz [Hpt Hf Hg _ Hsch _ _] Hq Hm.
  split; rewrite ?Hrun, ?Hpcbs, ?Hsch, ?Hg, ?Hf, ?Hm; try done.
  - by rewrite lookup_insert_ne.
  - intros p w r Hp Hpv Hw. apply lookup_insert_Some in Hp as [[<- <-]|[_ Hp]]; [by apply (Hap par y)|by apply (Hap p w)].
  - split; [done|]. split; [|split; [done|]].
    + destruct Hzq as [?|[Hzq ?]]; [by left|right]. split; [|done]. rewrite Hq; [done|].
      intros ->. by rewrite (q_rep_NULL _ _ (sr_q _ _ _ _ (ko_sched _ _ _ _ _ Hok))) in Hzq.
    + intros z' Hz'. rewrite Hz, lookup_insert_is_Some'. right. by apply Hzin.
Qed.

(** A running process [x] that can exit: what it has is its own, and its
    children are there. *)
Record can_exit s (t0 : ptr) (qs : gmap ptr (list ptr)) (ms : gmap ptr (gmap Z ptr)) (v : sview) (x : PCB_t) (tb cm : ptr)
    (m : gmap Z ptr) (zx : ptr) (zs : list ptr) (fs : list Z) (all avail : gset Z) : Prop := {
  ce_delete : can_delete s t0 qs ms v x tb cm zx zs fs all avail;
  ce_zombies : zombies_ok s;
  ce_map : ms !! cm = Some m;
  ce_children k c : m !! k = Some c -> c <> v_run v /\ is_Some (pcbs (k_obj s) !! c)
}.

(** The frames that the running process gives back. *)
Definition exit_frames s (tb : ptr) (fs : list Z) : list Z := frames_of (k_pt s) tb (seqZ 0 MAX_PT_LEN) ++ fs.

(** What makes up the space of a process. *)
Definition space_of (x : PCB_t) : option ptr * list (option Z) := (r1PageTable x, stackPfns x).

(** What holds after the exit, whether or not there is a parent. *)
Record exited s (t0 : ptr) (v : sview) (m : gmap Z ptr) (tb : ptr) (fs : list Z) (all avail : gset Z) (v' : sview)
    (kc : KernelContext) s' : Prop := {
  ex_gone : pcbs (k_obj s') !! v_run v = None;
  ex_children k c : m !! k = Some c -> parent <$> pcbs (k_obj s') !! c = Some NULL;
  ex_frames : fl_rep (k_fl s') (numFrames (k_glob s)) all (given_back all avail (exit_frames s tb fs));
  ex_next kp : parked (v_run v') kp s -> kc = kp;
  ex_parked p kp : p <> v_run v' -> p <> v_run v -> parked p kp s -> parked p kp s';
  ex_entries b i : apart t0 b -> apart b tb -> 0 <= i < MAX_PT_LEN -> entry (k_pt s') b i = entry (k_pt s) b i;
  ex_others p : p <> v_run v -> space_of <$> pcbs (k_obj s') !! p = space_of <$> pcbs (k_obj s) !! p;
  ex_glob : k_glob s' = k_glob s;
  ex_sched : k_sched s' = with_currPCB (v_run v') (k_sched s)
}.

Lemma exitProcess_orphan s t0 qs ms v x tb cm m zx zs fs all avail v' status :
  can_exit s t0 qs ms v x tb cm m zx zs fs all avail -> parent x = NULL -> v_exit v = Some v' ->
  exists kc s', exitProcess status s = Switch kc s' /\
    kernel_ok s' t0 (<[readyQ (k_sched s) := v_ready v']> (delete zx qs)) (delete cm ms) v' /\
    exited s t0 v m tb fs all avail v' kc s'.
Proof.
  intros [Hcd _ Hm Hch] Hpar Hv. pose proof Hcd as [Hok Hx _ _ _ _ _ _].
  destruct (exit_tail_ok s t0 qs ms v x tb cm m zx zs fs all avail v' Hcd Hm Hch Hv)
    as (kc & s' & Hrun & Hok' & Hgone & Hpn & Hproj & _ & Hfl & [Hpk Hpo] & Hent & Hg & Hsc).
  exists kc, s'. split; [|split; [done|split; try done; intros p Hp; by apply (Hproj _ space_of)]]. unfold exitProcess. kmon. rewrite (sr_run _ _ _ _ (ko_sched _ _ _ _ _ Hok)).
  assert (leave_zombie (v_run v) status s = Ret true s) as Hlz.
  { unfold leave_zombie. step (load_pcb_ok _ _ _ Hx). by rewrite Hpar. }
  step Hlz. exact Hrun.
Qed.

Lemma exitProcess_ok s t0 qs ms v x tb cm m zx zs fs all avail par y zq ys v' status :
  can_exit s t0 qs ms v x tb cm m zx zs fs all avail -> parent x = par -> par <> NULL -> par <> v_run v ->
  is_parent s qs par y zq ys -> (zx <> NULL -> zq <> zx) -> v_exit (v_unblock (pid y) v) = Some v' ->
  exists kc s' qs' q z, exitProcess status s = Switch kc s' /\
    kernel_ok s' t0 qs' (delete cm (<[blockedMap (k_sched s) := v_blocked v']> ms)) v' /\
    exited s t0 v m tb fs all avail v' kc s' /\
    zombieQ <$> pcbs (k_obj s') !! par = Some (Some q) /\ qs' !! q = Some (ys ++ [z]) /\
    zombies (k_obj s') !! z = Some (mkZombie (pid x) status) /\ z <> NULL /\ q <> readyQ (k_sched s').
Proof.
  intros [Hcd Hzok Hm Hch] Hpar Hpn Hpv Hip Hzz Hv. pose proof Hcd as [Hok Hx _ _ (_ & _ & Hcb & Hcs) (_ & Hzx & _ & Hzin) _ _].
  destruct (leave_zombie_ok s t0 qs ms v x par y zq ys status Hok Hzok Hx Hpar Hpn Hip)
    as (s1 & qs1 & q & z & Hlz & Hok1 & Hpcbs & Hz & Hzn & Hq & Hqo & Hqn & Hznn & Hkeep & Hfr).
  pose proof (ip_pcb _ _ _ _ _ _ Hip) as Hy.
  assert (v_run (v_unblock (pid y) v) = v_run v) as Hrun by apply (v_wake_parent_run (Some (pid y))).
  pose proof (ko_sched _ _ _ _ _ Hok) as Hs.
  assert (q <> readyQ (k_sched s)) as Hqr.
  { destruct Hqo as [Hqo| ->]; [intros ->; by rewrite (sr_ready _ _ _ _ Hs) in Hqo|].
    destruct (ip_zombies _ _ _ _ _ _ Hip) as [[? _]|[_ ?]]; congruence. }
  assert (zx <> NULL -> qs !! zx = Some zs /\ zx <> readyQ (k_sched s) /\ zx <> q) as Hzq.
  { intros Hne. destruct Hzx as [[? _]|[Hzq Hzr]]; [done|]. split; [done|]. split; [done|]. intros ->.
    destruct Hqo as [Hqo| ->]; [congruence|by apply Hzz]. }
  assert (can_delete s1 t0 qs1 (<[blockedMap (k_sched s) := v_blocked (v_unblock (pid y) v)]> ms) (v_unblock (pid y) v)
    x tb cm zx zs fs all avail) as Hcd1.
  { eapply (can_delete_zombie s t0 qs ms v _ _ _ _ _ _ _ _ par y q z); try done.
    - intros Hne. destruct (Hzq Hne) as (Hzq' & ? & ?). rewrite Hzq'. by apply Hkeep.
    - by rewrite lookup_insert_ne. }
  destruct (exit_tail_ok s1 t0 qs1 _ (v_unblock (pid y) v) x tb cm m zx zs fs all avail v' Hcd1)
    as (kc & s' & Htail & Hok' & Hgone & Hpnull & Hproj & Hzs & Hfl & [Hpk Hpo] & Hent & Hg' & Hsc'); [by rewrite lookup_insert_ne| |done|].
  { intros k c Hc. destruct (Hch _ _ Hc) as [Hne Hsome]. rewrite Hrun. split; [done|]. rewrite Hpcbs, lookup_insert_is_Some'. by right. }
  rewrite Hrun in *. destruct Hfr as [Hpt Hflq Hg _ Hsch _ _].
  assert (v_blocked v' = v_blocked (v_unblock (pid y) v)) as Hbl.
  { unfold v_exit in Hv. destruct (v_ready (v_unblock (pid y) v)); [done|]. by injection Hv as <-. }
  exists kc, s', (<[readyQ (k_sched s1) := v_ready v']> (delete zx qs1)), q, z. split; [|split; [|split; [|split; [|split; [|split; [|split]]]]]].
  - unfold exitProcess. kmon. rewrite (sr_run _ _ _ _ Hs). step Hlz. exact Htail.
  - by rewrite Hbl.
  - assert (forall p kp, parked p kp s -> parked p kp s1) as Hps.
    { intros p kp [Hc (w & Hw & Hk)]. rewrite <- Hsch in Hc. split; [done|]. rewrite Hpcbs.
      destruct (decide (p = par)) as [->|Hne]; [|rewrite lookup_insert_ne by done; by exists w].
      rewrite lookup_insert_eq. rewrite Hy in Hw. injection Hw as <-. by eexists. }
    split; [done|done|unfold exit_frames; by rewrite <- Hg, <- Hpt| | |rewrite <- Hpt; exact Hent| |congruence|congruence].
    + intros kp Hkp. by apply Hpk, Hps.
    + intros p kp Hn Hr Hkp. by apply Hpo, Hps.
    + intros p Hne. rewrite (Hproj _ space_of p) by done. rewrite Hpcbs.
      destruct (decide (p = par)) as [->|]; [by rewrite lookup_insert_eq, Hy|by rewrite lookup_insert_ne].
  - rewrite (Hproj _ zombieQ par) by done. by rewrite Hpcbs, lookup_insert_eq.
  - rewrite Hsch, lookup_insert_ne by done. rewrite lookup_delete_ne; [done|]. intros ->. by destruct (Hzq Hqn) as (_ & _ & ?).
  - rewrite Hzs, lookup_del_zombies; [by rewrite Hz, lookup_insert_eq|]. intros Hin%Hzin. rewrite Hzn in Hin. by destruct Hin.
  - done.
  - by rewrite Hsc', Hsch.
Qed.

(** A child that is no more: [removeParent] writes to its freed PCB. *)
Lemma exitProcess_undef s t0 qs ms v x tb cm m zx zs fs all avail par y zq ys status k c :
  can_delete s t0 qs ms v x tb cm zx zs fs all avail -> zombies_ok s -> ms !! cm = Some m ->
  parent x = par -> par <> NULL -> par <> v_run v -> is_parent s qs par y zq ys ->
  m !! k = Some c -> pcbs (k_obj s) !! c = None -> exitProcess status s = Undef.
Proof.
  intros Hcd Hzok Hm Hpar Hpn Hpv Hip Hc Hnone. pose proof Hcd as [Hok Hx _ _ (Hcm & _ & Hcb & Hcs) _ _ _].
  destruct (leave_zombie_ok s t0 qs ms v x par y zq ys status Hok Hzok Hx Hpar Hpn Hip)
    as (s1 & qs1 & q & z & Hlz & Hok1 & Hpcbs & _).
  pose proof (ip_pcb _ _ _ _ _ _ Hip) as Hy.
  assert (pcbs (k_obj s1) !! v_run v = Some x) as Hx1 by (rewrite Hpcbs, lookup_insert_ne by done; done).
  assert (pcbs (k_obj s1) !! c = None) as Hn1 by (rewrite Hpcbs, lookup_insert_ne; [done|intros <-; congruence]).
  unfold exitProcess. kmon. rewrite (sr_run _ _ _ _ (ko_sched _ _ _ _ _ Hok)). step Hlz. cbn [negb]. step (load_pcb_ok _ _ _ Hx1). step_rd Hcm.
  unfold bind at 1. rewrite (removeParents_undef s1 t0 qs1 _ _ cm m k c Hok1); [done| |done|done]. by rewrite lookup_insert_ne.
Qed.
End laws.
