(* ===== verification/WaitLaws.v ===== *)
(** A process in [KernelWait] that goes on: it gets the pid of its child, and
    the status that the child exited with is stored through its pointer. *)

From stdpp Require Import base gmap sets list.
From S2P Require Import Prelude Hardware Queue HashMap FrameList State UserMem Scheduler SyncObjects LoadProgram GeneralCalls Tty Machine PageTable.
From S2P Require Import SwitchLaws SchedView SchedLaws Steps CallLaws.

(** What an address of region 1 means to the process with the table [b]: the
    frame it lies in; [None]: no access. *)
Definition space_trans `{Hardware} (t : pt) (b : ptr) (a p : Z) : option Z :=
  e ← entry t b (Z.shiftr a PAGESHIFT - MAX_PT_LEN);
  if (pte_valid e =? 1) && (Z.land (pte_prot e) p =? p) then Some (pte_pfn e) else None.

(** [mapped], in the region 1 of a process, whether it is running or not. *)
Definition mapped_in `{Hardware} (t : pt) (b : ptr) (a p : Z) (locs : list (Z * Z)) : Prop :=
  forall i l, locs !! i = Some l -> user_addr (a + Z.of_nat i) = true /\
    space_trans t b (a + Z.of_nat i) p = Some l.1 /\ l.2 = (a + Z.of_nat i) mod PAGESIZE.

(** The user context after a call returned [r]. *)
Definition returned (r : Z) (u : UserContext) : UserContext :=
  mkUctxt (uc_code u) (uc_addr u) (uc_pc u) (uc_sp u) (uc_ebp u) (<[O := u32 r]> (uc_regs u)).

Section laws.
Context {QH MH : Type} `{HL : HardwareLaws} `{QO : QueueOps QH} `{MO : MapOps MH}
  `{QL : !QueueLaws QH} `{ML : !MapLaws MH} `{FS : FileSystem}.
Abbreviation kst := (kst QH MH).
Implicit Types s : kst.

Lemma user_addr_page a : user_addr a = true -> MAX_PT_LEN <= Z.shiftr a PAGESHIFT < 2 * MAX_PT_LEN.
Proof.
  unfold user_addr. rewrite andb_true_iff, Z.leb_le, Z.ltb_lt, VMEM_1_BASE_eq, VMEM_1_LIMIT_eq, shiftr_page.
  pose proof PAGESIZE_pos. intros [H1 H2]. split; [by apply Z.div_le_lower_bound; lia|by apply Z.div_lt_upper_bound; lia].
Qed.

(** It is [mapped] when the process runs. *)
Lemma mapped_in_running t s b a p locs : mapped_in t b a p locs -> REG_PTBR1 (k_pt s) = b ->
  (forall i, 0 <= i < MAX_PT_LEN -> entry (k_pt s) b i = entry t b i) -> mapped s a p locs.
Proof.
  intros Hm Hb He i l Hl. destruct (Hm i l Hl) as (Hu & Ht & Ho). split; [done|]. split; [|done].
  rewrite translate_trans. unfold trans. pose proof (user_addr_page _ Hu) as Hpg. pose proof MAX_PT_LEN_pos.
  destruct (Z.leb_spec 0 (Z.shiftr (a + Z.of_nat i) PAGESHIFT)), (Z.ltb_spec (Z.shiftr (a + Z.of_nat i) PAGESHIFT) MAX_PT_LEN),
    (Z.leb_spec MAX_PT_LEN (Z.shiftr (a + Z.of_nat i) PAGESHIFT)), (Z.ltb_spec (Z.shiftr (a + Z.of_nat i) PAGESHIFT) (2 * MAX_PT_LEN)); try lia.
  cbn [andb]. unfold space_trans in Ht. rewrite <- He in Ht by lia. unfold entry in Ht. rewrite Hb. by rewrite Ht.
Qed.

(** [KernelWait] from the point where there is an exited child. *)
Lemma wait_finish_ok s t0 qs ms v x a locs zq zp zs z : kernel_ok s t0 qs ms v -> mapped s a PROT_WRITE locs ->
  length locs = 4%nat -> pcbs (k_obj s) !! v_run v = Some x -> zombieQ x = Some zq -> zq <> readyQ (k_sched s) ->
  qs !! zq = Some (zp :: zs) -> zp <> NULL -> zombies (k_obj s) !! zp = Some z ->
  exists s', wait_finish a s = Ret (z_pid z) s' /\ kernel_ok s' t0 (<[zq := zs]> qs) ms v /\
    zombies (k_obj s') = delete zp (zombies (k_obj s)) /\
    k_mem s' = mem_write (k_mem s) locs (int_bytes (exit_status z)) /\
    k_frame s' = k_frame s /\ pcbs (k_obj s') = pcbs (k_obj s).
Proof.
  intros Hok Hm Hlen Hx Hzq Hne Hq Hzp Hz. destruct (deq_other_ok _ _ _ _ _ _ _ _ Hok Hne Hq) as (h & Hdeq & Hok').
  unfold wait_finish. kmon. rewrite (sr_run _ _ _ _ (ko_sched _ _ _ _ _ Hok)). step (load_pcb_ok _ _ _ Hx). step_rd Hzq. step Hdeq.
  destruct (Z.eqb_spec zp NULL); [done|]. step (load_zombie_ok (with_qh h s) _ _ Hz).
  unfold write_int. assert (mapped (with_qh h s) a PROT_WRITE locs) as Hm' by by apply (mapped_pt s).
  step (write_bytes_ok _ _ _ (int_bytes (exit_status z)) Hm' (eq_sym Hlen)).
  set (s2 := with_mem _ _). unfold free_zombie. kmon. step (load_zombie_ok s2 _ _ Hz). kmon.
  eexists. split; [done|]. split; [|done]. by apply (kernel_ok_ext (with_qh h s)).
Qed.

(** A process [p] that waits in [KernelWait a], and the exited child it will
    find. *)
Record waits s (qs : gmap ptr (list ptr)) (p : ptr) (a : ptr) (u : UserContext) (rp q : ptr) (zp : ptr) (zs : list ptr) (z : zombie_t)
    (locs : list (Z * Z)) : Prop := {
  wt_pcb : exists x, pcbs (k_obj s) !! p = Some x /\ kctxt x = Some (KSaved (mkKctxt (KWait a) u)) /\
    r1PageTable x = Some rp /\ zombieQ x = Some q;
  wt_queue : q <> readyQ (k_sched s) /\ qs !! q = Some (zp :: zs);
  wt_zombie : zp <> NULL /\ zombies (k_obj s) !! zp = Some z;
  wt_pointer : mapped_in (k_pt s) rp a PROT_WRITE locs /\ length locs = 4%nat
}.

(** When it is its turn, it goes on. *)
Lemma wait_goes_on s t0 qs ms v p r a u rp q zp zs z locs k : kernel_ok s t0 qs ms v -> v_ready v = p :: r ->
  waits s qs p a u rp q zp zs z locs ->
  exists v' s2 s3, v_kick v = Some v' /\ kickProcess k s = Switch (mkKctxt (KWait a) u) s2 /\
    resume (KWait a) (with_frame u s2) = Ret tt s3 /\
    kernel_ok s3 t0 (<[q := zs]> (<[readyQ (k_sched s) := v_ready v']> qs)) ms v' /\ v_run v' = p /\
    k_frame s3 = returned (z_pid z) u /\ k_mem s3 = mem_write (k_mem s2) locs (int_bytes (exit_status z)) /\
    zombies (k_obj s3) = delete zp (zombies (k_obj s)).
Proof.
  intros Hok Hrd [(x & Hx & Hk & Hr1 & Hzq) [Hqr Hq] [Hzp Hz] [Hm Hlen]].
  destruct (ready_head _ _ _ _ _ _ _ Hok Hrd) as [_ Hne]. rewrite (sr_run _ _ _ _ (ko_sched _ _ _ _ _ Hok)) in Hne.
  assert (v_kick v = Some (mkView p (r ++ [v_run v]) (v_blocked v) (v_sleeping v))) as Hv by (unfold v_kick; by rewrite Hrd).
  set (v' := mkView _ _ _ _) in Hv. destruct (kickProcess_ok s t0 qs ms v k v' Hok Hv) as (kc & s2 & h & Hrun & Hok2 & Hg).
  destruct (Hg) as (x' & fs & Hx' & Hkc & _ & Hsw). cbn [k_obj with_qh] in Hx'. change (v_run v') with p in Hx'. rewrite Hx in Hx'. injection Hx' as <-.
  assert (kc = mkKctxt (KWait a) u) as -> by (destruct Hkc as [Hkc|[Hkc _]]; congruence).
  destruct (sw_pt _ _ _ _ _ _ _ _ _ Hsw) as (t' & r1 & Hu & Hr1' & Hpt). rewrite Hr1 in Hr1'. injection Hr1' as <-.
  assert (apart t0 rp) as Hap by (destruct (pk_r1 _ _ _ (so_pcb _ _ (ko_sys _ _ _ _ _ Hok) _ _ Hx)) as (? & ? & _ & ?); congruence).
  set (s2u := with_frame u s2). assert (kernel_ok s2u t0 (<[readyQ (k_sched s) := v_ready v']> qs) ms v') as Hok2u by by apply (kernel_ok_ext s2).
  assert (mapped s2u a PROT_WRITE locs) as Hm2.
  { apply (mapped_in_running (k_pt s) _ rp); [done|by change (k_pt s2u) with (k_pt s2); rewrite Hpt|]. intros i Hi.
    change (k_pt s2u) with (k_pt s2). rewrite Hpt. transitivity (entry t' rp i); [done|]. by eapply in_stack_other. }
  destruct (wait_finish_ok s2u t0 _ ms v' (with_kctxt (KSaved (mkKctxt (KWait a) u)) x) a locs q zp zs z Hok2u Hm2 Hlen)
    as (s3 & Hfin & Hok3 & Hz3 & Hm3 & Hf3 & _); try done.
  - change (k_obj s2u) with (k_obj s2). rewrite (sw_pcbs _ _ _ _ _ _ _ _ _ Hsw). apply lookup_insert_eq.
  - change (k_sched s2u) with (k_sched s2). by rewrite (sw_sched _ _ _ _ _ _ _ _ _ Hsw).
  - by rewrite lookup_insert_ne.
  - change (k_obj s2u) with (k_obj s2). by rewrite (sw_zombies _ _ _ _ _ _ _ _ _ Hsw).
  - exists v', s2, (with_frame (returned (z_pid z) u) s3). split; [done|]. split; [done|]. split.
    + cbn [resume]. fold s2u. step Hfin. unfold set_return, returned, modify. by rewrite Hf3.
    + split; [by apply (kernel_ok_ext s3)|]. split; [done|]. split; [done|]. split; [exact Hm3|].
      change (zombies (k_obj s3) = delete zp (zombies (k_obj s))). rewrite Hz3. change (k_obj s2u) with (k_obj s2).
      by rewrite (sw_zombies _ _ _ _ _ _ _ _ _ Hsw).
Qed.

(** From [s] to [s1], nothing that the waiting process [p] has was touched. *)
Record still_waits s s1 (qs1 : gmap ptr (list ptr)) (p rp q zp : ptr) : Prop := {
  sl_pcb : pcbs (k_obj s1) !! p = pcbs (k_obj s) !! p;
  sl_queue : q <> readyQ (k_sched s1) /\ qs1 !! q = Some [zp];
  sl_zombie : zombies (k_obj s1) !! zp = zombies (k_obj s) !! zp;
  sl_entries i : 0 <= i < MAX_PT_LEN -> entry (k_pt s1) rp i = entry (k_pt s) rp i
}.

Lemma mapped_in_entries t t' b a p locs : (forall i, 0 <= i < MAX_PT_LEN -> entry t' b i = entry t b i) ->
  mapped_in t b a p locs -> mapped_in t' b a p locs.
Proof.
  intros He Hm i l Hl. destruct (Hm i l Hl) as (Hu & Ht & Ho). split; [done|]. split; [|done].
  pose proof (user_addr_page _ Hu). unfold space_trans. rewrite He by lia. exact Ht.
Qed.

Lemma waits_still s qs p a u rp q zp z locs s1 qs1 : waits s qs p a u rp q zp [] z locs -> still_waits s s1 qs1 p rp q zp ->
  waits s1 qs1 p a u rp q zp [] z locs.
Proof.
  intros [(x & Hx & Hp) _ [Hzp Hz] [Hm Hlen]] [Hpcb Hq Hzo He]. split.
  - exists x. by rewrite Hpcb.
  - done.
  - by rewrite Hzo.
  - split; [|done]. by eapply mapped_in_entries.
Qed.
End laws.
