(* ===== verification/SpaceLaws.v ===== *)
(** The region 1 of a process as areas of memory: a run of consecutive pages
    that are mapped to given frames, the places of the bytes in it, and what
    the writes of the kernel do to them. *)

From stdpp Require Import base gmap list.
From S2P Require Import Prelude Hardware Queue HashMap FrameList PageTable State UserMem.

(** The page frame and the offset of the byte [o] of an area that lies in the
    frames [fs], and the [n] places from [off] on. *)
Definition place `{Hardware} (fs : list Z) (o : Z) : Z * Z :=
  (fs !!! Z.to_nat (o / PAGESIZE), o mod PAGESIZE).
Definition area `{Hardware} (fs : list Z) (off n : Z) : list (Z * Z) := place fs <$> seqZ off n.

(** The pages from [i] on of the table at [base] are mapped to the frames [fs]
    with protection [prot]. *)
Definition run `{Hardware} (t : pt) (base : ptr) (i prot : Z) (fs : list Z) : Prop :=
  forall j f, fs !! j = Some f -> entry t base (i + Z.of_nat j) = Some (mkPte 1 prot f).

(** Only the frames [fs] may differ. *)
Definition wrote (fs : list Z) (m m' : gmap Z (gmap Z Z)) : Prop := forall f, f ∉ fs -> m' !! f = m !! f.

(** The bytes at the places [locs]. *)
Definition contents (m : gmap Z (gmap Z Z)) (locs : list (Z * Z)) : list Z := mem_get m <$> locs.

Lemma wrote_refl fs m : wrote fs m m.
Proof. done. Qed.

Lemma wrote_weaken fs fs' m m' : fs ⊆ fs' -> wrote fs m m' -> wrote fs' m m'.
Proof. intros Hs Hw f Hf. apply Hw. set_solver. Qed.

Lemma wrote_same fs m1 m2 m3 : wrote fs m1 m2 -> wrote fs m2 m3 -> wrote fs m1 m3.
Proof. intros H1 H2 f Hf. by rewrite H2, H1. Qed.

(** Areas in other frames keep their content. *)
Lemma wrote_contents fs m m' locs : wrote fs m m' -> (forall l, l ∈ locs -> l.1 ∉ fs) -> contents m' locs = contents m locs.
Proof.
  intros Hw Hd. apply list_fmap_ext. intros k l Hl. unfold mem_get. rewrite Hw; [done|].
  apply Hd. by eapply list_elem_of_lookup_2.
Qed.

Lemma mem_write_wrote m locs bs : wrote locs.*1 m (mem_write m locs bs).
Proof.
  unfold mem_write. revert m bs. induction locs as [|l locs IH]; intros m bs f Hf; [done|].
  destruct bs as [|b bs]; [done|]. cbn [zip zip_with foldl]. rewrite IH by set_solver.
  unfold mem_set. cbn [fst snd]. rewrite lookup_insert_ne; [done|set_solver].
Qed.

Lemma mem_write_contents m l1 l2 l3 bs : NoDup (l1 ++ l2 ++ l3) -> length bs = length l2 ->
  contents (mem_write m l2 bs) (l1 ++ l2 ++ l3) = contents m l1 ++ bs ++ contents m l3.
Proof.
  intros (_ & Hd1 & (Hnd & Hd2 & _)%NoDup_app)%NoDup_app Hlen. unfold contents. rewrite !fmap_app, (mem_get_write m l2 bs Hnd Hlen).
  f_equal; [|f_equal]; apply list_fmap_ext; intros k l Hl%list_elem_of_lookup_2; apply mem_get_write_ne.
  - intros Hin. apply (Hd1 l Hl). set_solver.
  - intros Hin. by apply (Hd2 l).
Qed.

Section laws.
Context {QH MH : Type} `{HL : HardwareLaws}.
Abbreviation kst := (kst QH MH).
Implicit Types s : kst.

Lemma with_mem_id s : with_mem (k_mem s) s = s.
Proof. by destruct s. Qed.

(** ** The places of an area *)

Lemma area_length fs off n : length (area fs off n) = Z.to_nat n.
Proof. unfold area. by rewrite length_fmap, length_seqZ. Qed.

Lemma area_lookup fs off n k l : area fs off n !! k = Some l -> Z.of_nat k < n /\ l = place fs (off + Z.of_nat k).
Proof. intros (o & -> & (-> & Hk)%lookup_seqZ)%list_lookup_fmap_Some. done. Qed.

Lemma area_app fs off n m : 0 <= n -> 0 <= m -> area fs off (n + m) = area fs off n ++ area fs (off + n) m.
Proof. intros Hn Hm. unfold area. by rewrite seqZ_app, fmap_app. Qed.

(** The page of a byte of the area. *)
Lemma page_index (fs : list Z) o : 0 <= o < Z.of_nat (length fs) * PAGESIZE ->
  exists f, fs !! Z.to_nat (o / PAGESIZE) = Some f /\ place fs o = (f, o mod PAGESIZE) /\ 0 <= o / PAGESIZE.
Proof.
  intros Ho. pose proof PAGESIZE_pos. assert (0 <= o / PAGESIZE < Z.of_nat (length fs)) as Hi.
  { split; [apply Z.div_pos; lia|apply Z.div_lt_upper_bound; lia]. }
  destruct (lookup_lt_is_Some_2 fs (Z.to_nat (o / PAGESIZE))) as [f Hf]; [lia|].
  exists f. split; [done|]. split; [|lia]. unfold place. by rewrite (list_lookup_total_correct _ _ _ Hf).
Qed.

Lemma area_frames fs off n l : 0 <= off -> off + n <= Z.of_nat (length fs) * PAGESIZE -> l ∈ area fs off n -> l.1 ∈ fs.
Proof.
  intros Ho Hn (k & Hk)%list_elem_of_lookup_1. apply area_lookup in Hk as [Hk ->].
  destruct (page_index fs (off + Z.of_nat k)) as (f & Hf & -> & _); [lia|]. by eapply list_elem_of_lookup_2.
Qed.

Lemma area_NoDup fs off n : NoDup fs -> 0 <= off -> off + n <= Z.of_nat (length fs) * PAGESIZE -> NoDup (area fs off n).
Proof.
  intros Hnd Ho Hn. apply NoDup_alt. intros i j l [Hi ->]%area_lookup [Hj Heq]%area_lookup.
  destruct (page_index fs (off + Z.of_nat i)) as (f & Hf & Hpf & Hp0); [lia|].
  destruct (page_index fs (off + Z.of_nat j)) as (g & Hg & Hpg & Hp1); [lia|].
  rewrite Hpf, Hpg in Heq. injection Heq as -> Hmod. pose proof (NoDup_lookup _ _ _ _ Hnd Hf Hg) as Hdiv.
  pose proof (Z.div_mod (off + Z.of_nat i) PAGESIZE). pose proof (Z.div_mod (off + Z.of_nat j) PAGESIZE).
  pose proof PAGESIZE_pos. assert ((off + Z.of_nat i) / PAGESIZE = (off + Z.of_nat j) / PAGESIZE) as Hq by lia. rewrite Hq in *. lia.
Qed.

(** ** Access to an area *)

Lemma land_RW_WRITE : Z.land PROT_RW PROT_WRITE = PROT_WRITE.
Proof. unfold PROT_RW. apply Z.bits_inj'. intros n _. rewrite Z.land_spec, Z.lor_spec. by destruct (Z.testbit PROT_READ n), (Z.testbit PROT_WRITE n). Qed.
Lemma land_RW_READ : Z.land PROT_RW PROT_READ = PROT_READ.
Proof. unfold PROT_RW. apply Z.bits_inj'. intros n _. rewrite Z.land_spec, Z.lor_spec. by destruct (Z.testbit PROT_READ n), (Z.testbit PROT_WRITE n). Qed.
Lemma land_RX_READ : Z.land PROT_RX PROT_READ = PROT_READ.
Proof. unfold PROT_RX. apply Z.bits_inj'. intros n _. rewrite Z.land_spec, Z.lor_spec. by destruct (Z.testbit PROT_READ n), (Z.testbit PROT_EXEC n). Qed.

Lemma translate_run s t0 t1 i pr p fs o : vm_on (k_pt s) t0 t1 -> run (k_pt s) t1 i pr fs -> Z.land pr p = p ->
  0 <= i -> i + Z.of_nat (length fs) <= MAX_PT_LEN -> 0 <= o < Z.of_nat (length fs) * PAGESIZE ->
  user_addr (VMEM_1_BASE + i * PAGESIZE + o) = true /\
  translate (VMEM_1_BASE + i * PAGESIZE + o) p s = Ret (place fs o).1 s /\
  (place fs o).2 = (VMEM_1_BASE + i * PAGESIZE + o) mod PAGESIZE.
Proof.
  intros Hvm Hrun Hp Hi Hlen Ho. destruct (page_index fs o Ho) as (f & Hf & -> & Hq). pose proof PAGESIZE_pos as HP.
  assert (VMEM_1_BASE + i * PAGESIZE + o = (MAX_PT_LEN + i) * PAGESIZE + o) as -> by (rewrite VMEM_1_BASE_eq; lia).
  assert (((MAX_PT_LEN + i) * PAGESIZE + o) / PAGESIZE = MAX_PT_LEN + (i + o / PAGESIZE)) as Hdiv
    by (rewrite Z.div_add_l by lia; lia).
  assert (o / PAGESIZE < Z.of_nat (length fs)) as Hlt by (apply Z.div_lt_upper_bound; lia).
  pose proof MAX_PT_LEN_pos. split_and!.
  - unfold user_addr. rewrite VMEM_1_BASE_eq, VMEM_1_LIMIT_eq. apply andb_true_intro. split; [apply Z.leb_le; nia|apply Z.ltb_lt; nia].
  - rewrite translate_trans. unfold trans. rewrite shiftr_page, Hdiv.
    rewrite (proj2 (Z.leb_le 0 _)), (proj2 (Z.ltb_ge _ MAX_PT_LEN)), (proj2 (Z.leb_le MAX_PT_LEN _)), (proj2 (Z.ltb_lt _ (2 * MAX_PT_LEN))) by lia.
    cbn [andb]. rewrite (vm_base1 _ _ _ Hvm). replace (_ - MAX_PT_LEN) with (i + Z.of_nat (Z.to_nat (o / PAGESIZE))) by lia.
    specialize (Hrun _ _ Hf). unfold entry in Hrun. rewrite Hrun. cbn. by rewrite Hp, Z.eqb_refl.
  - cbn [snd]. rewrite Z.add_comm. by rewrite Z.mod_add by lia.
Qed.

Lemma area_mapped s t0 t1 i pr p fs off n : vm_on (k_pt s) t0 t1 -> run (k_pt s) t1 i pr fs -> Z.land pr p = p ->
  0 <= i -> i + Z.of_nat (length fs) <= MAX_PT_LEN -> 0 <= off -> off + n <= Z.of_nat (length fs) * PAGESIZE ->
  mapped s (VMEM_1_BASE + i * PAGESIZE + off) p (area fs off n).
Proof.
  intros Hvm Hrun Hp Hi Hlen Ho Hn k l [Hk ->]%area_lookup. rewrite <- Z.add_assoc.
  by apply (translate_run s t0 t1 i pr p fs (off + Z.of_nat k)); try done; lia.
Qed.

(** A write into the middle of a mapped range. *)
Lemma write_inside s a locs bs x old y : mapped s a PROT_WRITE locs -> NoDup locs ->
  contents (k_mem s) locs = x ++ old ++ y -> length bs = length old ->
  exists m, write_bytes (a + Z.of_nat (length x)) bs s = Ret tt (with_mem m s) /\
    contents m locs = x ++ bs ++ y /\ wrote locs.*1 (k_mem s) m.
Proof.
  intros Hm Hnd Hc Hlen. unfold contents in Hc.
  apply fmap_app_inv in Hc as (l1 & l23 & -> & (l2 & l3 & -> & -> & ->)%symmetry%fmap_app_inv & ->).
  rewrite !length_fmap in *. apply mapped_app in Hm as [_ Hm]. apply mapped_app in Hm as [Hm _].
  eexists. split; [apply (write_bytes_ok _ _ _ _ Hm Hlen)|]. split; [by apply mem_write_contents|].
  intros f Hf. apply mem_write_wrote. rewrite !fmap_app in Hf. set_solver.
Qed.

(** Reading the middle of a mapped range. *)
Lemma read_inside s a locs bs x y : mapped s a PROT_READ locs -> contents (k_mem s) locs = x ++ bs ++ y ->
  read_bytes (a + Z.of_nat (length x)) (length bs) s = Ret bs s.
Proof.
  intros Hm Hc. unfold contents in Hc.
  apply fmap_app_inv in Hc as (l1 & l23 & -> & (l2 & l3 & -> & -> & ->)%symmetry%fmap_app_inv & ->).
  rewrite !length_fmap. apply mapped_app in Hm as [_ Hm]. apply mapped_app in Hm as [Hm _]. by apply read_bytes_ok.
Qed.

(** An [int] there. *)
Lemma read_int_inside s a locs n x y : mapped s a PROT_READ locs -> contents (k_mem s) locs = x ++ int_bytes n ++ y ->
  - 2 ^ 31 <= n < 2 ^ 31 -> read_int (a + Z.of_nat (length x)) s = Ret n s.
Proof.
  intros Hm Hc Hn. unfold read_int. pose proof (read_inside _ _ _ _ _ _ Hm Hc) as Hr. cbn [length int_bytes] in Hr.
  step Hr. by rewrite bytes_int_bytes.
Qed.

(** A write to the beginning of a run of pages. *)
Lemma write_run s t0 t1 i fs bs : vm_on (k_pt s) t0 t1 -> run (k_pt s) t1 i PROT_RW fs -> NoDup fs ->
  0 <= i -> i + Z.of_nat (length fs) <= MAX_PT_LEN -> Z.of_nat (length bs) <= Z.of_nat (length fs) * PAGESIZE ->
  exists m, write_bytes (VMEM_1_BASE + i * PAGESIZE) bs s = Ret tt (with_mem m s) /\
    contents m (area fs 0 (Z.of_nat (length bs))) = bs /\ wrote fs (k_mem s) m.
Proof.
  intros Hvm Hrun Hnd Hi Hlen Hbs. set (locs := area fs 0 (Z.of_nat (length bs))).
  assert (length bs = length (contents (k_mem s) locs)) as Hl by (unfold contents, locs; rewrite length_fmap, area_length; lia).
  destruct (write_inside s (VMEM_1_BASE + i * PAGESIZE) locs bs [] (contents (k_mem s) locs) []) as (m & Hr & Hc & Hw).
  - rewrite <- (Z.add_0_r (_ + _)). by eapply area_mapped; [exact Hvm|exact Hrun|apply land_RW_WRITE|lia|lia|lia|lia].
  - apply area_NoDup; (done || lia).
  - by rewrite app_nil_r.
  - done.
  - rewrite Z.add_0_r, app_nil_r in *. exists m. split; [done|]. split; [done|]. intros f Hf. apply Hw.
    intros (l & -> & Hin)%list_elem_of_fmap. apply Hf. eapply area_frames; [| |exact Hin]; lia.
Qed.
End laws.
