(* ===== verification/LoadLaws.v ===== *)
(** What [LoadProgram] does: the pages of the old program go, those of the new
    one come, with the text and data of the file, zeros, and the arguments. *)

From stdpp Require Import base gmap sets list.
From S2P Require Import Prelude Hardware Queue HashMap FrameList State UserMem Scheduler LoadProgram PageTable.
From S2P Require Import SwitchLaws SchedView SchedLaws CopyLaws InitLaws CallLaws ExitLaws SpaceLaws.

(** The header of a program and its arguments fit region 1: text and data are
    whole pages, text below data, data below the stack. *)
Record fits `{Hardware} (li : load_info) (args : list (list Z)) : Prop := {
  ft_entry : VMEM_1_BASE <= LoadProgram.entry li;
  ft_counts : 0 <= t_npg li /\ 0 <= id_npg li /\ 0 <= ud_npg li;
  ft_text : t_vaddr li = VMEM_1_BASE + text_pg1 li * PAGESIZE;
  ft_data : id_vaddr li = VMEM_1_BASE + data_pg1 li * PAGESIZE;
  ft_order : 0 <= text_pg1 li /\ text_pg1 li + t_npg li <= data_pg1 li;
  ft_room : stack_npg args + data_pg1 li + data_npg li < MAX_PT_LEN;
  ft_args : VMEM_1_BASE <= args_sp args;
  ft_bss : id_vaddr li <= id_end li <= id_vaddr li + id_npg li * PAGESIZE /\
    id_end li <= ud_end li <= id_vaddr li + data_npg li * PAGESIZE
}.

(** The new program's pages: text in the frames [tf], with protection [prot],
    data in [df], the stack in [sf]; no other page is valid. *)
Record space `{Hardware} (t : pt) (t1 : ptr) (li : load_info) (args : list (list Z)) (prot : Z) (tf df sf : list Z) : Prop := {
  sp_lengths : length tf = Z.to_nat (t_npg li) /\ length df = Z.to_nat (data_npg li) /\ length sf = Z.to_nat (stack_npg args);
  sp_text : run t t1 (text_pg1 li) prot tf;
  sp_data : run t t1 (data_pg1 li) PROT_RW df;
  sp_stack : run t t1 (MAX_PT_LEN - stack_npg args) PROT_RW sf;
  sp_none i : 0 <= i < MAX_PT_LEN -> ~ (text_pg1 li <= i < text_pg1 li + t_npg li) ->
    ~ (data_pg1 li <= i < data_pg1 li + data_npg li) -> ~ (MAX_PT_LEN - stack_npg args <= i) ->
    exists e, entry t t1 i = Some e /\ pte_valid e <> 1
}.

(** The entries of a table for the pages [ps]. *)
Definition entries_of `{Hardware} (t1 : ptr) (ps : list Z) (a : ptr) : Prop := exists i, i ∈ ps /\ a = pte_at t1 i.

Section laws.
Context {QH MH : Type} `{HL : HardwareLaws} `{QO : QueueOps QH} `{MO : MapOps MH}
  `{QL : !QueueLaws QH} `{ML : !MapLaws MH} `{FS : FileSystem}.
Abbreviation kst := (kst QH MH).
Implicit Types s : kst.

Lemma entries_of_pages t1 i n a : pages_of t1 i n a -> 0 <= i -> i + Z.of_nat n <= MAX_PT_LEN ->
  entries_of t1 (seqZ 0 MAX_PT_LEN) a.
Proof. intros (j & Hj & ->) Hi Hn. exists j. split; [|done]. apply elem_of_seqZ. lia. Qed.

(** ** The page table *)

(** [n] times [setPageTableEntry], and one invalidation, on [t1]. *)
Lemma invalidate_ok t t0 t1 i e : vm_on t t0 t1 -> 0 <= i < MAX_PT_LEN -> entry t t1 i = Some e ->
  exists t', invalidatePageTableEntry (pte_at t1 i) t = Ret tt t' /\ pt_upd (entries_of t1 [i]) t t' /\
    entry t' t1 i = Some (mkPte 0 (pte_prot e) (pte_pfn e)).
Proof.
  intros Hvm Hi He. eexists. split; [by eapply invalidatePageTableEntry_r1|]. split.
  - split; try done.
    + intros a Ha. cbn. rewrite lookup_insert_ne; [done|]. intros <-. apply Ha. exists i. split; [set_solver|done].
    + intros a. cbn. rewrite lookup_insert_is_Some. destruct (decide (pte_at t1 i = a)) as [<-|]; [|tauto].
      split; [intros _; by exists e|by left].
  - unfold entry. cbn. apply lookup_insert_eq.
Qed.

(** The loop that throws away the old region 1. *)
Lemma free_region1_ok s t0 t1 n all avail : vm_on (k_pt s) t0 t1 -> numFrames (k_glob s) = n ->
  fl_rep (k_fl s) n all avail ->
  exists t' f', free_region1 t1 s = Ret tt (with_pt t' (with_fl f' s)) /\
    fl_rep f' n all (given_back all avail (frames_of (k_pt s) t1 (seqZ 0 MAX_PT_LEN))) /\
    pt_upd (entries_of t1 (seqZ 0 MAX_PT_LEN)) (k_pt s) t' /\
    forall i, 0 <= i < MAX_PT_LEN -> exists e, entry t' t1 i = Some e /\ pte_valid e <> 1.
Proof.
  intros Hvm Hn Hf. unfold free_region1.
  loop (fun d s1 => exists t' f', s1 = with_pt t' (with_fl f' s) /\
      fl_rep f' n all (given_back all avail (frames_of (k_pt s) t1 d)) /\ pt_upd (entries_of t1 d) (k_pt s) t' /\
      forall i, i ∈ d -> exists e, entry t' t1 i = Some e /\ pte_valid e <> 1)
    as (s' & Hrun & t' & f' & -> & Hf' & Hu & Hinv).
  - exists (k_pt s), (k_fl s). rewrite with_fl_id, with_pt_id, given_back_nil. split; [done|]. split; [done|].
    split; [apply pt_upd_refl|]. by intros i ?%not_elem_of_nil.
  - intros d i r s1 Heq (t' & f1 & -> & Hf1 & Hu & Hinv).
    assert (i ∉ d) as Hnew by (pose proof (NoDup_seqZ 0 MAX_PT_LEN) as Hnd; rewrite Heq in Hnd;
      apply NoDup_app in Hnd as (_ & Hnd & _); intros Hi; apply (Hnd _ Hi); set_solver).
    assert (0 <= i < MAX_PT_LEN) as Hi by (assert (i ∈ seqZ 0 MAX_PT_LEN) as ?%elem_of_seqZ by (rewrite Heq; set_solver); lia).
    assert (entry t' t1 i = entry (k_pt s) t1 i) as Hsame
      by (apply (upd_ptes _ _ _ Hu); intros (j & Hj & ->%pte_at_inj); done).
    destruct (vm_table1 _ _ _ Hvm) as (_ & _ & Ht). destruct (Ht i Hi) as [e He]. rewrite He in Hsame.
    pose proof (pt_upd_vm _ _ _ _ _ Hu Hvm) as Hvm'.
    assert (load_pte (pte_at t1 i) t' = Ret e t') as Hld by (unfold load_pte, entry in *; by rewrite Hsame).
    set (s1 := with_pt t' _). step (lift_pt _ s1 _ _ Hld). rewrite frames_of_snoc. unfold frames_of at 2. cbn [omap list_omap]. rewrite He.
    destruct (Z.eqb_spec (pte_valid e) 1) as [Hv|Hv].
    + destruct (freeFrame_given _ _ _ _ _ (pte_pfn e) Hf1) as (f2 & Hfr & Hf2).
      destruct (invalidate_ok t' t0 t1 i e Hvm' Hi Hsame) as (t2 & Hiv & Hu2 & He2).
      exists (with_pt t2 (with_fl f2 s)). split.
      * kmon. subst s1. cbn [k_glob with_pt with_fl]. rewrite Hn. step (lift_fl _ (with_pt t' (with_fl f1 s)) _ _ Hfr).
        apply (lift_pt _ (with_pt t' (with_fl f2 s)) _ _ Hiv).
      * exists t2, f2. split; [done|]. split; [done|]. split.
        -- eapply pt_upd_trans; eapply pt_upd_weaken; [|exact Hu| |exact Hu2]; intros a (j & Hj & ->); exists j; set_solver.
        -- intros j [Hj| ->%list_elem_of_singleton]%elem_of_app; [|by eexists].
           destruct (Hinv j Hj) as (e' & He' & Hv'). exists e'. split; [|done]. rewrite <- He'. apply (upd_ptes _ _ _ Hu2).
           intros (k & ->%list_elem_of_singleton & ->%pte_at_inj). done.
    + exists s1. split; [done|]. exists t', f1. rewrite app_nil_r. split; [done|]. split; [done|]. split.
      * eapply pt_upd_weaken, Hu. intros a (j & Hj & ->). exists j. set_solver.
      * intros j [Hj| ->%list_elem_of_singleton]%elem_of_app; [by apply Hinv|by exists e].
  - exists t', f'. split; [done|]. split; [done|]. split; [done|]. intros i Hi. apply Hinv. apply elem_of_seqZ. lia.
Qed.

(** The entries of a run do not change when others are written. *)
Lemma run_upd P t t' t1 i prot fs : pt_upd P t t' -> (forall j, i <= j < i + Z.of_nat (length fs) -> ~ P (pte_at t1 j)) ->
  run t t1 i prot fs -> run t' t1 i prot fs.
Proof.
  intros Hu HP Hr j f Hf. unfold entry. rewrite (upd_ptes _ _ _ Hu); [by apply Hr|].
  apply HP. apply lookup_lt_Some in Hf. lia.
Qed.
Lemma run_pages t t' t1 i n k prot fs : pt_upd (pages_of t1 k n) t t' ->
  i + Z.of_nat (length fs) <= k \/ k + Z.of_nat n <= i -> run t t1 i prot fs -> run t' t1 i prot fs.
Proof. intros Hu Hd. eapply run_upd; [done|]. intros j Hj (l & Hl & ->%pte_at_inj). lia. Qed.

(** New pages, as a run. *)
Lemma alloc_run n t0 t1 nf all s i avail : vm_on (k_pt s) t0 t1 -> 0 <= i -> i + Z.of_nat n <= MAX_PT_LEN ->
  numFrames (k_glob s) = nf -> fl_rep (k_fl s) nf all avail -> frames_fit all -> (n <= size avail)%nat ->
  exists fs t' f', alloc_pages n (pte_at t1 i) s = Ret true (with_pt t' (with_fl f' s)) /\
    length fs = n /\ NoDup fs /\ list_to_set fs ⊆ avail /\ fl_rep f' nf all (avail ∖ list_to_set fs) /\
    pt_upd (pages_of t1 i n) (k_pt s) t' /\ run t' t1 i PROT_RW fs.
Proof.
  intros Hvm Hi Hlen Hnf Hfl Hfit Hn.
  destruct (alloc_pages_ok n t0 t1 nf all s i avail Hvm Hi Hlen Hnf Hfl Hn) as (fs & t' & f' & Hr & Hl & Hnd & Hsub & Hfl' & Hu & He).
  exists fs, t', f'. split_and!; try done. intros j f Hf. rewrite (He _ _ Hf).
  assert (f ∈ all) as Hin by (apply (fl_rep_subset _ _ _ _ Hfl), Hsub, elem_of_list_to_set; by eapply list_elem_of_lookup_2).
  unfold bits. rewrite (Z.mod_small f) by (by apply Hfit). done.
Qed.

(** The text becomes read-only. *)
Lemma protect_text_ok s t0 t1 k fs : vm_on (k_pt s) t0 t1 -> 0 <= k -> k + Z.of_nat (length fs) <= MAX_PT_LEN ->
  run (k_pt s) t1 k PROT_RW fs -> Forall (fun f => 0 <= f < 2 ^ PTE_PFN_BITS) fs ->
  exists t', protect_text (Z.of_nat (length fs)) (pte_at t1 k) s = Ret tt (with_pt t' s) /\
    pt_upd (pages_of t1 k (length fs)) (k_pt s) t' /\ run t' t1 k PROT_RX fs.
Proof.
  intros Hvm Hk Hlen Hrun Hfit. unfold protect_text.
  loop (fun d s1 => exists t', s1 = with_pt t' s /\ pt_upd (pages_of t1 k (length d)) (k_pt s) t' /\ run t' t1 k PROT_RX (take (length d) fs))
    as (s' & Hr & t' & -> & Hu & Hx).
  - exists (k_pt s). rewrite with_pt_id. split; [done|]. split; [apply pt_upd_refl|]. by intros j f Hf.
  - intros d i r s1 Heq (t' & -> & Hu & Hx). apply seqZ_split in Heq as [Hi Hd].
    destruct (lookup_lt_is_Some_2 fs (Z.to_nat i)) as [f Hf]; [lia|].
    pose proof (pt_upd_vm _ _ _ _ _ Hu Hvm) as Hvm'.
    assert (entry t' t1 (k + i) = Some (mkPte 1 PROT_RW f)) as He.
    { rewrite <- (Hrun _ _ Hf), Z2Nat.id by lia. apply (upd_ptes _ _ _ Hu). intros (j & Hj & Heq%pte_at_inj). lia. }
    rewrite pte_at_add. assert (load_pte (pte_at t1 (k + i)) t' = Ret _ t') as Hld by (unfold load_pte, entry in *; by rewrite He).
    step (lift_pt _ (with_pt t' s) _ _ Hld). eexists. split.
    + apply (lift_pt _ (with_pt t' s) tt). apply (setPageTableEntry_r1 t' t0 t1); [done|lia].
    + eexists. split; [done|]. rewrite length_app. cbn [length pte_valid pte_pfn]. split.
      * eapply pt_upd_trans; [eapply pt_upd_weaken, Hu|].
        -- intros a (j & Hj & ->). exists j. split; [lia|done].
        -- apply pt_upd_set_entry; [|by eexists]. exists (k + i). split; [lia|done].
      * intros j g Hg. pose proof PROT_RX_fits. pose proof (Forall_lookup_1 _ _ _ _ Hfit Hf) as Hff. cbn beta in Hff.
        unfold entry, set_entry. cbn. unfold bits. rewrite !Z.mod_small by lia.
        destruct (decide (j = length d)) as [->|Hne].
        -- replace (k + Z.of_nat (length d)) with (k + i) by lia. rewrite lookup_insert_eq.
           rewrite lookup_take_lt in Hg by lia. replace (length d) with (Z.to_nat i) in Hg by lia. congruence.
        -- rewrite lookup_insert_ne by (intros ?%pte_at_inj; lia). apply Hx.
           apply lookup_take_Some in Hg as [Hg Hlt]. apply lookup_take_Some. split; [done|lia].
  - exists t'. rewrite length_seqZ, Nat2Z.id, take_ge in * by lia. done.
Qed.

(** ** The layout *)

Lemma args_size_nonneg args : 0 <= args_size args.
Proof. unfold args_size. induction args as [|a args IH]; cbn [foldr]; lia. Qed.

Lemma args_base_bounds cp n : args_base cp n <= cp - (n + 3 + POST_ARGV_NULL_SPACE) * 4.
Proof.
  unfold args_base. rewrite <- Z.ldiff_land. change 7 with (Z.ones 3). rewrite Z.ldiff_ones_r by lia.
  rewrite Z.shiftr_div_pow2, Z.shiftl_mul_pow2 by lia. set (x := cp - _).
  pose proof (Z.div_mod x (2 ^ 3)). pose proof (Z.mod_pos_bound x (2 ^ 3)). lia.
Qed.

(** The vector, its zeros and the strings lie in this order below the end of
    region 1, in the pages of the stack, which end there. *)
Lemma stack_bounds args : VMEM_1_BASE <= args_sp args ->
  0 <= stack_npg args <= MAX_PT_LEN /\
  VMEM_1_BASE + (MAX_PT_LEN - stack_npg args) * PAGESIZE <= args_cpp args /\
  args_cpp args + (Z.of_nat (length args) + 3) * 4 <= args_cp args /\ args_cp args <= VMEM_1_LIMIT.
Proof.
  intros Hsp. pose proof ARGV_SPACE_nonneg. pose proof (args_size_nonneg args). pose proof PAGESIZE_pos.
  pose proof (args_base_bounds (args_cp args) (Z.of_nat (length args))). unfold stack_npg, args_sp, args_cpp, args_cp in *.
  pose proof VMEM_1_LIMIT_eq. pose proof VMEM_1_BASE_eq. pose proof VMEM_1_LIMIT_int. pose proof MAX_PT_LEN_pos.
  set (cpp := args_base _ _) in *. remember (cpp - INITIAL_STACK_FRAME_SIZE) as sp eqn:Hsp'.
  assert (0 < MAX_PT_LEN * PAGESIZE) by nia. rewrite shiftr_page, DOWN_TO_PAGE_eq by lia.
  pose proof (Z.div_mod sp PAGESIZE). pose proof (Z.mod_pos_bound sp PAGESIZE).
  assert (MAX_PT_LEN <= sp / PAGESIZE) by (apply Z.div_le_lower_bound; lia).
  assert (sp / PAGESIZE <= 2 * MAX_PT_LEN) by (apply Z.div_le_upper_bound; lia).
  replace (VMEM_1_LIMIT - (sp - sp mod PAGESIZE)) with ((2 * MAX_PT_LEN - sp / PAGESIZE) * PAGESIZE) by lia.
  rewrite Z.div_mul by lia. nia.
Qed.

Lemma pages_apart t1 i n k : ~ (i <= k < i + Z.of_nat n) -> ~ pages_of t1 i n (pte_at t1 k).
Proof. intros Hk (j & Hj & ->%pte_at_inj). done. Qed.

Definition program_brk (li : load_info) : Z := VMEM_1_BASE + (data_npg li + t_npg li) * PAGESIZE.

(** Three runs of new pages in a table without valid pages. *)
Lemma space_intro t1 li args t t2 t3 t4 tf df sf : fits li args ->
  (forall i, 0 <= i < MAX_PT_LEN -> exists e, entry t t1 i = Some e /\ pte_valid e <> 1) ->
  length tf = Z.to_nat (t_npg li) -> length df = Z.to_nat (data_npg li) -> length sf = Z.to_nat (stack_npg args) ->
  pt_upd (pages_of t1 (text_pg1 li) (Z.to_nat (t_npg li))) t t2 -> run t2 t1 (text_pg1 li) PROT_RW tf ->
  pt_upd (pages_of t1 (data_pg1 li) (Z.to_nat (data_npg li))) t2 t3 -> run t3 t1 (data_pg1 li) PROT_RW df ->
  pt_upd (pages_of t1 (MAX_PT_LEN - stack_npg args) (Z.to_nat (stack_npg args))) t3 t4 ->
  run t4 t1 (MAX_PT_LEN - stack_npg args) PROT_RW sf -> space t4 t1 li args PROT_RW tf df sf.
Proof.
  intros [_ (? & ? & ?) _ _ [? ?] Hroom Hargs _] Hinv Hlt Hld Hls Hu2 Hr2 Hu3 Hr3 Hu4 Hr4.
  pose proof (stack_bounds args Hargs) as (? & _). unfold data_npg in *.
  split.
  - done.
  - eapply run_pages; [done|lia|]. eapply run_pages; [done|lia|done].
  - eapply run_pages; [done|lia|done].
  - done.
  - intros i Hi Hnt Hnd Hns. unfold entry.
    rewrite (upd_ptes _ _ _ Hu4), (upd_ptes _ _ _ Hu3), (upd_ptes _ _ _ Hu2); [by apply Hinv|apply pages_apart; unfold data_npg in *; lia..].
Qed.

Lemma map_program_ok s t0 t1 p x li args nf all avail : fits li args -> vm_on (k_pt s) t0 t1 -> numFrames (k_glob s) = nf ->
  pcbs (k_obj s) !! p = Some x -> fl_rep (k_fl s) nf all avail -> frames_fit all ->
  let av := given_back all avail (frames_of (k_pt s) t1 (seqZ 0 MAX_PT_LEN)) in
  (Z.to_nat (t_npg li) + Z.to_nat (data_npg li) + Z.to_nat (stack_npg args) <= size av)%nat ->
  exists tf df sf t' f', map_program p t1 li args s =
      Ret true (upd_pcb p (with_brk (Some (program_brk li)) x) (with_pt t' (with_fl f' s))) /\
    NoDup (tf ++ df ++ sf) /\ list_to_set (tf ++ df ++ sf) ⊆ av /\ fl_rep f' nf all (av ∖ list_to_set (tf ++ df ++ sf)) /\
    pt_upd (entries_of t1 (seqZ 0 MAX_PT_LEN)) (k_pt s) t' /\ space t' t1 li args PROT_RW tf df sf.
Proof.
  intros Hfits Hvm Hnf Hx Hfl Hfit av Hsize. pose proof Hfits as [_ (? & ? & ?) _ _ [? ?] Hroom Hargs _].
  pose proof (stack_bounds args Hargs) as (? & _). assert (data_npg li = id_npg li + ud_npg li) as Hdn by done.
  destruct (free_region1_ok s t0 t1 nf all avail Hvm Hnf Hfl) as (t1' & f1 & Hr1 & Hf1 & Hu1 & Hinv).
  pose proof (pt_upd_vm _ _ _ _ _ Hu1 Hvm) as Hvm1. fold av in Hf1. unfold map_program. step Hr1.
  destruct (alloc_run (Z.to_nat (t_npg li)) t0 t1 nf all (with_pt t1' (with_fl f1 s)) (text_pg1 li) av Hvm1)
    as (tf & t2 & f2 & Hr2 & Hl2 & Hn2 & Hs2 & Hf2 & Hu2 & Hrun2); [lia|lia|done..|lia|].
  step Hr2. cbn [negb]. pose proof (pt_upd_vm _ _ _ _ _ Hu2 Hvm1) as Hvm2.
  assert (size (list_to_set tf : gset Z) = Z.to_nat (t_npg li)) as Hz2 by (rewrite size_list_to_set by done; done).
  destruct (alloc_run (Z.to_nat (data_npg li)) t0 t1 nf all (with_pt t2 (with_fl f2 s)) (data_pg1 li) (av ∖ list_to_set tf) Hvm2)
    as (df & t3 & f3 & Hr3 & Hl3 & Hn3 & Hs3 & Hf3 & Hu3 & Hrun3); [lia|lia|done..|rewrite size_difference by done; lia|].
  step Hr3. cbn [negb]. pose proof (pt_upd_vm _ _ _ _ _ Hu3 Hvm2) as Hvm3.
  assert (size (list_to_set df : gset Z) = Z.to_nat (data_npg li)) as Hz3 by (rewrite size_list_to_set by done; done).
  step (update_pcb_ok (with_pt t3 (with_fl f3 s)) p (with_brk (Some (program_brk li))) x Hx). fold (program_brk li).
  destruct (alloc_run (Z.to_nat (stack_npg args)) t0 t1 nf all (upd_pcb p (with_brk (Some (program_brk li)) x) (with_pt t3 (with_fl f3 s)))
    (MAX_PT_LEN - stack_npg args) (av ∖ list_to_set tf ∖ list_to_set df) Hvm3)
    as (sf & t4 & f4 & Hr4 & Hl4 & Hn4 & Hs4 & Hf4 & Hu4 & Hrun4); [lia|lia|done..|rewrite !size_difference by done; lia|].
  exists tf, df, sf, t4, f4. split; [exact Hr4|]. rewrite !list_to_set_app_L.
  split; [apply NoDup_app; split; [done|]; split; [set_solver|]; apply NoDup_app; split; [done|]; split; [set_solver|done]|].
  split; [set_solver|]. split; [by rewrite <- !difference_difference_l_L|]. split; [|by eapply space_intro].
  eapply pt_upd_trans; [exact Hu1|].
  eapply pt_upd_trans; [eapply pt_upd_weaken, Hu2; intros a Ha; eapply entries_of_pages; [done|lia|lia]|].
  eapply pt_upd_trans; [eapply pt_upd_weaken, Hu3; intros a Ha; eapply entries_of_pages; [done|lia|lia]|].
  eapply pt_upd_weaken, Hu4; intros a Ha; eapply entries_of_pages; [done|lia|lia].
Qed.

(** ** The segments *)

(** A segment of whole pages that the file has. *)
Lemma read_segment_ok s t0 t1 fd i npg faddr fs : vm_on (k_pt s) t0 t1 -> run (k_pt s) t1 i PROT_RW fs -> NoDup fs ->
  0 <= i -> i + Z.of_nat (length fs) <= MAX_PT_LEN -> 0 <= npg <= Z.of_nat (length fs) ->
  let bytes := read_file fd faddr (npg * PAGESIZE) in Z.of_nat (length bytes) = npg * PAGESIZE ->
  exists m, read_segment fd (VMEM_1_BASE + i * PAGESIZE) npg faddr s = Ret true (with_mem m s) /\
    contents m (area fs 0 (npg * PAGESIZE)) = bytes /\ wrote fs (k_mem s) m.
Proof.
  intros Hvm Hrun Hnd Hi Hlen Hn bytes Hb. pose proof PAGESIZE_pos. unfold read_segment. rewrite shiftl_page. fold bytes.
  destruct (write_run s t0 t1 i fs bytes) as (m & Hr & Hc & Hw); [done..|nia|].
  exists m. step Hr. rewrite Hb in *. by rewrite Z.eqb_refl.
Qed.

(** Zeros from the byte [k] of an area on, up to its end. *)
Lemma zero_run s t0 t1 i fs bytes k n : vm_on (k_pt s) t0 t1 -> run (k_pt s) t1 i PROT_RW fs -> NoDup fs ->
  0 <= i -> i + Z.of_nat (length fs) <= MAX_PT_LEN -> 0 <= k <= Z.of_nat (length bytes) -> 0 <= n ->
  Z.of_nat (length bytes) <= Z.of_nat (length fs) * PAGESIZE -> k + n <= Z.of_nat (length fs) * PAGESIZE ->
  contents (k_mem s) (area fs 0 (Z.of_nat (length bytes))) = bytes ->
  exists m, write_bytes (VMEM_1_BASE + i * PAGESIZE + k) (replicate (Z.to_nat n) 0) s = Ret tt (with_mem m s) /\
    contents m (area fs 0 (k + n)) = take (Z.to_nat k) bytes ++ replicate (Z.to_nat n) 0 /\ wrote fs (k_mem s) m.
Proof.
  intros Hvm Hrun Hnd Hi Hlen Hk Hn Hfit1 Hfit2 Hc.
  assert (contents (k_mem s) (area fs 0 k) = take (Z.to_nat k) bytes) as Hpre.
  { rewrite <- Hc at 1. replace (Z.of_nat (length bytes)) with (k + (Z.of_nat (length bytes) - k)) by lia.
    rewrite area_app by lia. unfold contents. rewrite fmap_app, take_app_length'; [done|].
    by rewrite length_fmap, area_length. }
  destruct (write_inside s (VMEM_1_BASE + i * PAGESIZE) (area fs 0 (k + n)) (replicate (Z.to_nat n) 0)
    (take (Z.to_nat k) bytes) (contents (k_mem s) (area fs (0 + k) n)) []) as (m & Hr & Hc' & Hw).
  - rewrite <- (Z.add_0_r (_ + _)). eapply area_mapped; [exact Hvm|exact Hrun|apply land_RW_WRITE|lia|lia|lia|lia].
  - apply area_NoDup; (done || lia).
  - rewrite area_app, app_nil_r by lia. unfold contents in *. by rewrite fmap_app, Hpre.
  - unfold contents. by rewrite length_replicate, length_fmap, area_length.
  - rewrite app_nil_r in Hc'. exists m. rewrite length_take, Nat.min_l, Z2Nat.id in Hr by lia. split; [done|]. split; [done|].
    intros f Hf. apply Hw. intros (l & -> & Hin)%list_elem_of_fmap. apply Hf. eapply area_frames; [| |exact Hin]; lia.
Qed.

(** ** The arguments *)

(** The pointers to the strings [args], which lie one behind the other from
    [cp] on, and the strings. *)
Fixpoint arg_ptrs (cp : Z) (args : list (list Z)) : list Z :=
  match args with
  | [] => []
  | a :: args' => int_bytes cp ++ arg_ptrs (cp + Z.of_nat (length a) + 1) args'
  end.
Definition arg_strings (args : list (list Z)) : list Z := concat ((fun a => a ++ [0]) <$> args).

(** The end of region 1: the count, the pointers, zeros, the strings. *)
Definition arg_image (args : list (list Z)) : list Z :=
  int_bytes (Z.of_nat (length args)) ++ arg_ptrs (args_cp args) args ++
  replicate (Z.to_nat (args_cp args - args_cpp args - (Z.of_nat (length args) + 1) * 4)) 0 ++ arg_strings args.

Lemma arg_strings_length args : Z.of_nat (length (arg_strings args)) = args_size args.
Proof.
  unfold arg_strings, args_size. induction args as [|a args IH]; [done|].
  rewrite fmap_cons, concat_cons, !length_app. cbn [foldr length]. cbn [length]. lia.
Qed.
Lemma arg_ptrs_length cp args : length (arg_ptrs cp args) = (4 * length args)%nat.
Proof. revert cp. induction args as [|a args IH]; intros cp; [done|]. cbn [arg_ptrs]. rewrite length_app, IH. cbn. lia. Qed.

(** The loop over the arguments, in an area that ends with [z] zeros, the
    strings [y] that are there, and room for the others. *)
Lemma write_args_ok a locs args : forall s x z y, mapped s a PROT_WRITE locs -> NoDup locs ->
  (4 * length args <= z)%nat -> contents (k_mem s) locs = x ++ replicate z 0 ++ y ++ replicate (Z.to_nat (args_size args)) 0 ->
  let cp := a + Z.of_nat (length x + z + length y) in
  exists m, write_args cp (a + Z.of_nat (length x)) args s = Ret (a + Z.of_nat (length x) + 4 * Z.of_nat (length args)) (with_mem m s) /\
    contents m locs = x ++ arg_ptrs cp args ++ replicate (z - 4 * length args) 0 ++ y ++ arg_strings args /\
    wrote locs.*1 (k_mem s) m.
Proof.
  induction args as [|b args IH]; intros s x z y Hm Hnd Hz Hc cp; cbn [write_args arg_ptrs length].
  - exists (k_mem s). rewrite with_mem_id, Z.add_0_r, Nat.sub_0_r. cbn in Hc |- *. done.
  - cbn [length] in Hz. assert (Z.to_nat (args_size (b :: args)) = (length b + 1) + Z.to_nat (args_size args))%nat as Hsz
      by (pose proof (args_size_nonneg args); unfold args_size in *; cbn [foldr]; lia).
    replace z with (4 + (z - 4))%nat in Hc by lia. rewrite Hsz, !replicate_add, <- !(assoc_L (++)) in Hc.
    destruct (write_inside s a locs (int_bytes cp) x (replicate 4 0) _ Hm Hnd Hc) as (m1 & Hr1 & Hc1 & Hw1); [done|].
    unfold write_int. step Hr1.
    assert (contents m1 locs = (x ++ int_bytes cp ++ replicate (z - 4) 0 ++ y) ++
      (replicate (length b) 0 ++ replicate 1 0) ++ replicate (Z.to_nat (args_size args)) 0) as Hc1' by (by rewrite Hc1, <- !(assoc_L (++))).
    destruct (write_inside (with_mem m1 s) a locs (b ++ [0]) _ _ _ (mapped_pt s (with_mem m1 s) _ _ _ eq_refl Hm) Hnd Hc1') as (m2 & Hr2 & Hc2 & Hw2);
      [by rewrite !length_app, !length_replicate|].
    assert (a + Z.of_nat (length (x ++ int_bytes cp ++ replicate (z - 4) 0 ++ y)) = cp) as Hcp
      by (rewrite !length_app, length_replicate; subst cp; cbn [length int_bytes]; lia).
    rewrite Hcp in Hr2. step Hr2.
    destruct (IH (with_mem m2 (with_mem m1 s)) (x ++ int_bytes cp) (z - 4)%nat (y ++ b ++ [0])) as (m3 & Hr3 & Hc3 & Hw3).
    + by apply (mapped_pt s).
    + done.
    + lia.
    + cbn [k_mem with_mem]. by rewrite Hc2, <- !(assoc_L (++)).
    + assert (a + Z.of_nat (length (x ++ int_bytes cp) + (z - 4) + length (y ++ b ++ [0])) = cp + Z.of_nat (length b) + 1) as Heq
        by (subst cp; rewrite !length_app; cbn [length int_bytes]; lia).
      rewrite Heq in *. rewrite length_app, Nat2Z.inj_add in Hr3. cbn [length int_bytes] in Hr3. change (Z.of_nat 4) with 4 in Hr3.
      exists m3. split; [|split].
      * replace (a + Z.of_nat (length x) + 4) with (a + (Z.of_nat (length x) + 4)) by lia. rewrite Hr3. f_equal. lia.
      * rewrite Hc3, <- !(assoc_L (++)). unfold arg_strings. rewrite fmap_cons, concat_cons, <- !(assoc_L (++)).
        replace (z - 4 - 4 * length args)%nat with (z - 4 * S (length args))%nat by lia. done.
      * eapply wrote_same; [exact Hw1|]. eapply wrote_same; [exact Hw2|exact Hw3].
Qed.

(** The places from the vector to the end of region 1. *)
Definition arg_area (args : list (list Z)) (fs : list Z) : list (Z * Z) :=
  area fs (args_cpp args - (VMEM_1_LIMIT - stack_npg args * PAGESIZE)) (VMEM_1_LIMIT - args_cpp args).

Lemma arg_area_mapped s t0 t1 args fs p : VMEM_1_BASE <= args_sp args -> vm_on (k_pt s) t0 t1 ->
  run (k_pt s) t1 (MAX_PT_LEN - stack_npg args) PROT_RW fs -> length fs = Z.to_nat (stack_npg args) ->
  Z.land PROT_RW p = p -> mapped s (args_cpp args) p (arg_area args fs).
Proof.
  intros Hsp Hvm Hrun Hlen Hp. pose proof (stack_bounds args Hsp) as (Hs & Hlo & Hmid & Hhi).
  pose proof VMEM_1_LIMIT_eq. pose proof VMEM_1_BASE_eq. unfold arg_area.
  set (off := args_cpp args - _).
  assert (off = args_cpp args - (VMEM_1_LIMIT - stack_npg args * PAGESIZE)) as Ho by done.
  replace (args_cpp args) with (VMEM_1_BASE + (MAX_PT_LEN - stack_npg args) * PAGESIZE + off) at 1 by lia.
  eapply area_mapped; [exact Hvm|exact Hrun|exact Hp|rewrite ?Hlen, ?Z2Nat.id by lia; lia..].
Qed.

Lemma arg_area_NoDup args fs : VMEM_1_BASE <= args_sp args -> length fs = Z.to_nat (stack_npg args) -> NoDup fs ->
  NoDup (arg_area args fs) /\ forall l, l ∈ arg_area args fs -> l.1 ∈ fs.
Proof.
  intros Hsp Hlen Hnd. pose proof (stack_bounds args Hsp) as (Hs & Hlo & Hmid & Hhi).
  pose proof VMEM_1_LIMIT_eq. pose proof VMEM_1_BASE_eq. assert (Z.of_nat (length fs) = stack_npg args) as Hl' by lia.
  split; [apply area_NoDup; rewrite ?Hl'; (done || lia)|].
  intros l Hl. eapply area_frames; [| |exact Hl]; rewrite ?Hl'; lia.
Qed.

(** Zeros over zeros. *)
Lemma write_null s a locs x z y : mapped s a PROT_WRITE locs -> NoDup locs -> (4 <= z)%nat ->
  contents (k_mem s) locs = x ++ replicate z 0 ++ y ->
  exists m, write_int (a + Z.of_nat (length x)) NULL s = Ret tt (with_mem m s) /\
    contents m locs = x ++ replicate z 0 ++ y /\ wrote locs.*1 (k_mem s) m.
Proof.
  intros Hm Hnd Hz Hc. replace z with (4 + (z - 4))%nat in * by lia. rewrite replicate_add, <- (assoc_L (++)) in *.
  exact (write_inside s a locs (int_bytes NULL) x _ _ Hm Hnd Hc eq_refl).
Qed.

Lemma build_args_ok s t0 t1 args fs : VMEM_1_BASE <= args_sp args -> vm_on (k_pt s) t0 t1 ->
  run (k_pt s) t1 (MAX_PT_LEN - stack_npg args) PROT_RW fs -> NoDup fs -> length fs = Z.to_nat (stack_npg args) ->
  exists m, build_args args s = Ret tt (with_mem m s) /\ contents m (arg_area args fs) = arg_image args /\
    wrote fs (k_mem s) m.
Proof.
  intros Hsp Hvm Hrun Hndf Hlen. pose proof (stack_bounds args Hsp) as (Hs & Hlo & Hmid & Hhi).
  destruct (arg_area_NoDup args fs Hsp Hlen Hndf) as [Hnd Hin].
  pose proof (arg_area_mapped s t0 t1 args fs PROT_WRITE Hsp Hvm Hrun Hlen land_RW_WRITE) as Hm.
  set (locs := arg_area args fs) in *. set (a := args_cpp args) in *.
  assert (args_cp args = VMEM_1_LIMIT - args_size args) as Hcp by done. pose proof (args_size_nonneg args).
  assert (a = args_cpp args) as Ha by done.
  assert (length locs = Z.to_nat (VMEM_1_LIMIT - a)) as Hll by apply area_length.
  assert (forall m, mapped (with_mem m s) a PROT_WRITE locs) as Hm' by (intros m; by apply (mapped_pt s)).
  destruct (write_inside s a locs (replicate (Z.to_nat (VMEM_1_LIMIT - a)) 0) [] (contents (k_mem s) locs) [] Hm Hnd)
    as (m1 & Hr1 & Hc1 & Hw1); [by rewrite app_nil_r|by rewrite length_replicate; unfold contents; rewrite length_fmap|].
  rewrite Z.add_0_r in Hr1. set (z := Z.to_nat (args_cp args - a - 4)).
  assert (z = Z.to_nat (args_cp args - a - 4)) as Hz by done.
  unfold build_args. fold a. step Hr1. rewrite app_nil_r in Hc1.
  replace (Z.to_nat (VMEM_1_LIMIT - a)) with (4 + (z + Z.to_nat (args_size args)))%nat in Hc1 by lia.
  rewrite !replicate_add in Hc1.
  destruct (write_inside (with_mem m1 s) a locs (int_bytes (Z.of_nat (length args))) [] (replicate 4 0) _ (Hm' m1) Hnd Hc1 eq_refl)
    as (m2 & Hr2 & Hc2 & Hw2). rewrite Z.add_0_r in Hr2. unfold write_int at 1. step Hr2.
  destruct (write_args_ok a locs args (with_mem m2 s) (int_bytes (Z.of_nat (length args))) z []) as (m3 & Hr3 & Hc3 & Hw3);
    [done|done|lia|done|]. cbn zeta in *. rewrite !app_nil_l in Hc3. cbn [length] in Hc3, Hr3.
  assert (a + Z.of_nat (length (int_bytes (Z.of_nat (length args))) + z + 0) = args_cp args) as Heq by (cbn [length int_bytes]; lia).
  rewrite Heq in *. step Hr3. rewrite (assoc_L (++)) in Hc3.
  assert (Z.of_nat (length (int_bytes (Z.of_nat (length args)) ++ arg_ptrs (args_cp args) args)) = 4 + 4 * Z.of_nat (length args)) as Hv
    by (rewrite length_app, arg_ptrs_length; cbn [length int_bytes]; lia).
  assert (4 <= z - 4 * length args)%nat as Hz4 by lia. assert (4 <= z - 4 * length args - 4)%nat as Hz8 by lia.
  destruct (write_null (with_mem m3 s) a locs _ _ _ (Hm' m3) Hnd Hz4 Hc3) as (m4 & Hr4 & Hc4 & Hw4).
  rewrite Hv in Hr4. cbn [length int_bytes]. replace (a + Z.of_nat 4 + _) with (a + (4 + 4 * Z.of_nat (length args))) by lia.
  step Hr4. replace (z - 4 * length args)%nat with (4 + (z - 4 * length args - 4))%nat in Hc4 by lia.
  rewrite replicate_add, <- (assoc_L (++) (replicate 4 0)), (assoc_L (++) _ (replicate 4 0)) in Hc4.
  destruct (write_null (with_mem m4 s) a locs _ _ _ (Hm' m4) Hnd Hz8 Hc4) as (m5 & Hr5 & Hc5 & Hw5).
  rewrite length_app, length_replicate, Nat2Z.inj_add, Hv in Hr5. exists m5. split; [|split].
  - rewrite <- Z.add_assoc. etransitivity; [|exact Hr5]. done.
  - rewrite Hc5. unfold arg_image. rewrite <- !(assoc_L (++)). f_equal. f_equal.
    rewrite (assoc_L (++)), <- replicate_add. f_equal. f_equal. lia.
  - assert (wrote locs.*1 (k_mem s) m5) as Hw
      by (eapply wrote_same; [exact Hw1|]; eapply wrote_same; [exact Hw2|]; eapply wrote_same; [exact Hw3|]; eapply wrote_same; [exact Hw4|exact Hw5]).
    intros f Hf. apply Hw. intros (l & -> & Hl)%list_elem_of_fmap. by apply Hf, Hin.
Qed.

(** ** Reading the arguments *)

(** The new stack as the program sees it: at [args_cpp] the count, then the
    pointers to the strings, each of which ends with a zero, and two NULLs. *)
Record args_on_stack (s : kst) (args : list (list Z)) : Prop := {
  as_argc : read_int (args_cpp args) s = Ret (Z.of_nat (length args)) s;
  as_argv k b : args !! k = Some b -> exists p, read_int (args_cpp args + 4 * (Z.of_nat k + 1)) s = Ret p s /\
    read_bytes p (S (length b)) s = Ret (b ++ [0]) s;
  as_null k : k = length args \/ k = S (length args) -> read_int (args_cpp args + 4 * (Z.of_nat k + 1)) s = Ret NULL s
}.

Lemma args_size_app l1 l2 : args_size (l1 ++ l2) = args_size l1 + args_size l2.
Proof. unfold args_size. induction l1 as [|a l1 IH]; cbn [app foldr]; lia. Qed.
Lemma arg_ptrs_app cp l1 l2 : arg_ptrs cp (l1 ++ l2) = arg_ptrs cp l1 ++ arg_ptrs (cp + args_size l1) l2.
Proof.
  revert cp. induction l1 as [|a l1 IH]; intros cp; [by rewrite Z.add_0_r|].
  cbn [app arg_ptrs]. rewrite IH, <- (assoc_L (++)). do 3 f_equal. unfold args_size. cbn [foldr]. lia.
Qed.
Lemma arg_strings_app l1 l2 : arg_strings (l1 ++ l2) = arg_strings l1 ++ arg_strings l2.
Proof. unfold arg_strings. by rewrite fmap_app, concat_app. Qed.

Lemma args_on_stack_intro s args locs : VMEM_1_BASE <= args_sp args -> mapped s (args_cpp args) PROT_READ locs ->
  contents (k_mem s) locs = arg_image args -> args_on_stack s args.
Proof.
  intros Hsp Hm Hc. pose proof (stack_bounds args Hsp) as (Hs & Hlo & Hmid & Hhi). pose proof (args_size_nonneg args) as Hsz.
  pose proof VMEM_1_LIMIT_int. pose proof VMEM_1_BASE_eq. pose proof PAGESIZE_pos. pose proof MAX_PT_LEN_pos.
  assert (0 <= args_cpp args) as Hpos by nia. assert (args_cp args = VMEM_1_LIMIT - args_size args) as Hcp by done.
  unfold arg_image in Hc. split.
  - rewrite <- (Z.add_0_r (args_cpp args)). apply (read_int_inside s _ locs _ [] _ Hm Hc). lia.
  - intros k b Hk. pose proof (take_drop_middle _ _ _ Hk) as Hargs. pose proof (lookup_lt_Some _ _ _ Hk) as Hlt.
    set (l1 := take k args) in *. set (l2 := drop (S k) args) in *.
    assert (length l1 = k) as Hl1 by (unfold l1; rewrite length_take; lia).
    assert (args_size args = args_size l1 + (Z.of_nat (length b) + 1 + args_size l2)) as Hsplit
      by (rewrite <- Hargs, args_size_app; done).
    pose proof (args_size_nonneg l1). pose proof (args_size_nonneg l2).
    exists (args_cp args + args_size l1). split.
    + assert (forall cp, arg_ptrs cp args = arg_ptrs cp l1 ++ arg_ptrs (cp + args_size l1) (b :: l2)) as Hps
        by (intros cp; by rewrite <- arg_ptrs_app, Hargs).
      rewrite Hps in Hc. cbn [arg_ptrs] in Hc.
      rewrite <- !(assoc_L (++)), (assoc_L (++) _ (arg_ptrs _ l1)) in Hc.
      pose proof (read_int_inside s _ locs _ _ _ Hm Hc ltac:(lia)) as Hr. rewrite <- Hr. f_equal.
      rewrite length_app, arg_ptrs_length, Hl1. cbn [length int_bytes]. lia.
    + assert (arg_strings args = arg_strings l1 ++ (b ++ [0]) ++ arg_strings l2) as Hss
        by (rewrite <- Hargs, arg_strings_app; unfold arg_strings; by rewrite fmap_cons).
      rewrite Hss in Hc.
      rewrite !(assoc_L (++)) in Hc. rewrite <- (assoc_L (++) _ b [0]), <- (assoc_L (++) _ (b ++ [0])) in Hc.
      pose proof (read_inside s _ locs _ _ _ Hm Hc) as Hr. rewrite !length_app in Hr. cbn [length int_bytes] in Hr.
      rewrite Nat.add_1_r in Hr. rewrite <- Hr. f_equal.
      pose proof (arg_strings_length l1). rewrite length_replicate, arg_ptrs_length. lia.
  - intros k Hk. set (z := Z.to_nat _) in Hc.
    assert (z = Z.to_nat (args_cp args - args_cpp args - (Z.of_nat (length args) + 1) * 4)) as Hz by done.
    assert (exists i, z = (4 * i + (4 + (z - 4 - 4 * i)))%nat /\ k = (length args + i)%nat) as (i & Hzi & ->)
      by (destruct Hk; [exists 0%nat|exists 1%nat]; lia).
    rewrite Hzi, !replicate_add, (assoc_L (++)) in Hc. rewrite <- (assoc_L (++) (replicate (4 * i) 0)), (assoc_L (++) _ (replicate (4 * i) 0)) in Hc.
    rewrite <- (assoc_L (++) (replicate 4 0)) in Hc.
    pose proof (read_int_inside s _ locs NULL _ _ Hm Hc ltac:(done)) as Hr. rewrite <- Hr. f_equal.
    rewrite !length_app, arg_ptrs_length, length_replicate. cbn [length int_bytes]. lia.
Qed.

(** ** [LoadProgram] *)

Definition program_uctxt (li : load_info) (args : list (list Z)) (u : UserContext) : UserContext :=
  set_pc (LoadProgram.entry li) (set_ebp (args_sp args) (set_sp (args_sp args) u)).
Definition program_text (fd : file) (li : load_info) : list Z := read_file fd (t_faddr li) (t_npg li * PAGESIZE).
Definition program_data (fd : file) (li : load_info) : list Z := read_file fd (id_faddr li) (id_npg li * PAGESIZE).
(** The initialised data, and zeros for the rest. *)
Definition program_image (fd : file) (li : load_info) : list Z :=
  take (Z.to_nat (id_end li - id_vaddr li)) (program_data fd li) ++ replicate (Z.to_nat (ud_end li - id_end li)) 0.
Definition program_pages (li : load_info) (args : list (list Z)) : nat :=
  (Z.to_nat (t_npg li) + Z.to_nat (data_npg li) + Z.to_nat (stack_npg args))%nat.

(** The program [name] can be loaded for the process [p], whose table is the
    current one: it is in order, it fits, and with the frames of the old pages
    there are enough. *)
Record can_load s (t0 t1 p : ptr) (x : PCB_t) (u : UserContext) (name : list Z) (args : list (list Z)) (fd : file)
    (li : load_info) (all avail : gset Z) : Prop := {
  cl_vm : vm_on (k_pt s) t0 t1;
  cl_mem : mem_ok s;
  cl_pcb : pcbs (k_obj s) !! p = Some x /\ r1PageTable x = Some t1 /\ uctxt x = Some u;
  cl_file : open_file name = Some fd /\ LoadInfo fd = Some li;
  cl_fits : fits li args;
  cl_text : Z.of_nat (length (program_text fd li)) = t_npg li * PAGESIZE;
  cl_data : Z.of_nat (length (program_data fd li)) = id_npg li * PAGESIZE;
  cl_fl : fl_rep (k_fl s) (numFrames (k_glob s)) all avail;
  cl_all : frames_fit all;
  cl_enough : (program_pages li args <= size (given_back all avail (frames_of (k_pt s) t1 (seqZ 0 MAX_PT_LEN))))%nat
}.

(** The process's memory after the call, by page tables and frames. *)
Record filled (t : pt) (m : gmap Z (gmap Z Z)) (t1 : ptr) (args : list (list Z)) (fd : file) (li : load_info)
    (tf df sf : list Z) : Prop := {
  fi_space : space t t1 li args PROT_RX tf df sf;
  fi_text : contents m (area tf 0 (t_npg li * PAGESIZE)) = program_text fd li;
  fi_data : contents m (area df 0 (ud_end li - id_vaddr li)) = program_image fd li;
  fi_args : contents m (arg_area args sf) = arg_image args
}.

(** The same, as the program reads it. *)
Record loaded s (t1 : ptr) (args : list (list Z)) (fd : file) (li : load_info) (tf df sf : list Z) : Prop := {
  ld_space : space (k_pt s) t1 li args PROT_RX tf df sf;
  ld_text : read_bytes (t_vaddr li) (length (program_text fd li)) s = Ret (program_text fd li) s;
  ld_data : read_bytes (id_vaddr li) (length (program_image fd li)) s = Ret (program_image fd li) s;
  ld_args : args_on_stack s args
}.

Lemma update_uctxt_ok s p x u f : pcbs (k_obj s) !! p = Some x -> uctxt x = Some u ->
  update_uctxt p f s = Ret tt (upd_pcb p (with_uctxt (Some (f u)) x) s).
Proof.
  intros Hx Hu. unfold update_uctxt. step (load_pcb_ok s p x Hx). rewrite Hu. exact (update_pcb_ok s p _ x Hx).
Qed.

Lemma program_image_length fd li args : fits li args -> Z.of_nat (length (program_data fd li)) = id_npg li * PAGESIZE ->
  Z.of_nat (length (program_image fd li)) = ud_end li - id_vaddr li.
Proof.
  intros [_ _ _ _ _ _ _ [? ?]] Hd. unfold program_image. rewrite length_app, length_take, length_replicate. lia.
Qed.

(** The program reads what the frames contain. *)
Lemma filled_loaded s t0 t1 li args fd tf df sf : fits li args -> vm_on (k_pt s) t0 t1 ->
  Z.of_nat (length (program_text fd li)) = t_npg li * PAGESIZE ->
  Z.of_nat (length (program_data fd li)) = id_npg li * PAGESIZE ->
  filled (k_pt s) (k_mem s) t1 args fd li tf df sf -> loaded s t1 args fd li tf df sf.
Proof.
  intros Hfits Hvm Htext Hdata [Hsp Ht Hd Ha]. pose proof Hfits as [_ (? & ? & ?) Hvt Hvd [? ?] Hroom Hargs [Hb1 Hb2]].
  pose proof (stack_bounds args Hargs) as (Hs & _). assert (data_npg li = id_npg li + ud_npg li) as Hdn by done.
  pose proof PAGESIZE_pos. pose proof (program_image_length fd li args Hfits Hdata) as Hil.
  pose proof Hsp as [(Hlt & Hld & Hls) Hrt Hrd Hrs _].
  assert (Z.of_nat (length tf) = t_npg li) as Hlt' by lia. assert (Z.of_nat (length df) = data_npg li) as Hld' by lia.
  split; [done| | |].
  - rewrite <- Ht, Hvt. unfold contents. rewrite length_fmap. apply read_bytes_ok.
    rewrite <- (Z.add_0_r (_ + _)). eapply area_mapped; [exact Hvm|exact Hrt|apply land_RX_READ|lia|lia|lia|rewrite Hlt'; lia].
  - rewrite <- Hd. unfold contents. rewrite length_fmap. rewrite Hvd at 1.
    rewrite <- (Z.add_0_r (_ + _)). apply read_bytes_ok. eapply area_mapped; [exact Hvm|exact Hrd|apply land_RW_READ|lia|lia|lia|rewrite Hld'; lia].
  - apply (args_on_stack_intro s args (arg_area args sf) Hargs); [|done].
    by apply (arg_area_mapped s t0 t1); [..|apply land_RW_READ].
Qed.

(** Writes to other frames do not change it. *)
Lemma filled_wrote t m m' t1 li args fd tf df sf fs : fits li args -> (forall f, f ∈ tf ++ df ++ sf -> f ∉ fs) -> wrote fs m m' ->
  filled t m t1 args fd li tf df sf -> filled t m' t1 args fd li tf df sf.
Proof.
  intros Hfits Hd Hw [Hsp Ht Hdt Ha]. pose proof Hfits as [_ (? & ? & ?) _ _ [? ?] Hroom Hargs [Hb1 Hb2]].
  pose proof Hsp as [(Hlt & Hld & Hls) _ _ _ _]. assert (data_npg li = id_npg li + ud_npg li) as Hdn by done.
  assert (forall ps k n, (forall f, f ∈ ps -> f ∈ tf ++ df ++ sf) -> 0 <= k -> k + n <= Z.of_nat (length ps) * PAGESIZE ->
    contents m' (area ps k n) = contents m (area ps k n)) as Hsame.
  { intros ps k n Hps Hk Hn. apply (wrote_contents fs); [done|]. intros l Hl. apply Hd, Hps. by eapply area_frames. }
  pose proof (stack_bounds args Hargs) as (Hs & Hlo & _). pose proof VMEM_1_LIMIT_eq. pose proof VMEM_1_BASE_eq.
  assert (Z.of_nat (length df) = data_npg li) as Hld' by lia. assert (Z.of_nat (length sf) = stack_npg args) as Hls' by lia.
  split; [done| | |].
  - rewrite Hsame; [done|set_solver|lia|rewrite Hlt, Z2Nat.id by lia; lia].
  - rewrite Hsame; [done|set_solver|lia|rewrite Hld'; lia].
  - unfold arg_area. rewrite Hsame; [done|set_solver|lia|rewrite Hls'; lia].
Qed.

(** The end of the call: the segments and the arguments are written, the text
    becomes read-only. *)
Lemma fill_program_ok s t0 t1 li args fd tf df sf : fits li args -> vm_on (k_pt s) t0 t1 ->
  space (k_pt s) t1 li args PROT_RW tf df sf -> NoDup (tf ++ df ++ sf) -> Forall (fun f => 0 <= f < 2 ^ PTE_PFN_BITS) tf ->
  Z.of_nat (length (program_text fd li)) = t_npg li * PAGESIZE ->
  Z.of_nat (length (program_data fd li)) = id_npg li * PAGESIZE ->
  exists m1 m2 m3 t',
    read_segment fd (t_vaddr li) (t_npg li) (t_faddr li) s = Ret true (with_mem m1 s) /\
    read_segment fd (id_vaddr li) (id_npg li) (id_faddr li) (with_mem m1 s) = Ret true (with_mem m2 s) /\
    protect_text (t_npg li) (pte_at t1 (text_pg1 li)) (with_mem m2 s) = Ret tt (with_pt t' (with_mem m2 s)) /\
    write_bytes (id_end li) (replicate (Z.to_nat (ud_end li - id_end li)) 0) (with_pt t' (with_mem m2 s)) =
      Ret tt (with_pt t' (with_mem m3 s)) /\
    (forall s3, k_pt s3 = t' -> k_mem s3 = m3 -> exists m4, build_args args s3 = Ret tt (with_mem m4 s3) /\
      filled t' m4 t1 args fd li tf df sf /\ wrote (tf ++ df ++ sf) (k_mem s) m4) /\
    pt_upd (entries_of t1 (seqZ 0 MAX_PT_LEN)) (k_pt s) t'.
Proof.
  intros Hfits Hvm Hsp Hnd Htf Htext Hdata. pose proof Hfits as [_ (? & ? & ?) Hvt Hvd [? ?] Hroom Hargs [Hb1 Hb2]].
  pose proof (stack_bounds args Hargs) as (Hs & _). assert (data_npg li = id_npg li + ud_npg li) as Hdn by done.
  destruct Hsp as [(Hlt & Hld & Hls) Hrt Hrd Hrs Hnone].
  apply NoDup_app in Hnd as (Hnt & Hdt & (Hnd & Hdd & Hns)%NoDup_app).
  destruct (read_segment_ok s t0 t1 fd (text_pg1 li) (t_npg li) (t_faddr li) tf) as (m1 & Hr1 & Hc1 & Hw1); [done..|lia|lia|lia|done|].
  destruct (read_segment_ok (with_mem m1 s) t0 t1 fd (data_pg1 li) (id_npg li) (id_faddr li) df) as (m2 & Hr2 & Hc2 & Hw2); [done..|lia|lia|lia|done|].
  destruct (protect_text_ok (with_mem m2 s) t0 t1 (text_pg1 li) tf) as (t' & Hr3 & Hu & Hrx); [done|lia|lia|done|done|].
  pose proof (pt_upd_vm _ _ _ _ _ Hu Hvm) as Hvm'.
  assert (run t' t1 (data_pg1 li) PROT_RW df) as Hrd' by (eapply run_pages; [done|lia|done]).
  assert (run t' t1 (MAX_PT_LEN - stack_npg args) PROT_RW sf) as Hrs' by (eapply run_pages; [done|lia|done]).
  fold (program_text fd li) in Hc1. fold (program_data fd li) in Hc2. rewrite <- Hdata in Hc2. rewrite <- Htext in Hc1.
  assert (Z.of_nat (length df) = data_npg li) as Hld' by lia. pose proof PAGESIZE_pos.
  destruct (zero_run (with_pt t' (with_mem m2 s)) t0 t1 (data_pg1 li) df (program_data fd li) (id_end li - id_vaddr li) (ud_end li - id_end li))
    as (m3 & Hr4 & Hc3 & Hw3); [done..|lia|lia|lia|lia|rewrite Hld', Hdn; nia|rewrite Hld'; lia|done|].
  rewrite Hvd in Hr4 at 1. replace (VMEM_1_BASE + _ + _) with (id_end li) in Hr4 by lia.
  exists m1, m2, m3, t'. rewrite Hvt, Hvd. split; [exact Hr1|]. split; [exact Hr2|].
  split; [rewrite <- Hr3; f_equal; lia|]. split; [exact Hr4|]. split.
  - intros s3 <- <-. destruct (build_args_ok s3 t0 t1 args sf Hargs Hvm' Hrs' Hns Hls) as (m4 & Hr5 & Hc5 & Hw5).
    exists m4. split; [done|].
    assert (forall fs l k n, 0 <= k -> k + n <= Z.of_nat (length fs) * PAGESIZE -> l ∈ area fs k n -> l.1 ∈ fs) as Hin
      by (intros fs l k n Hk Hn Hl; eapply area_frames; done).
    split; [split|].
    + split; [done|done|done|done|]. intros i Hi Ht Hd Hst. destruct (Hnone i Hi Ht Hd Hst) as (e & He & Hv). exists e.
      split; [|done]. rewrite <- He. apply (upd_ptes _ _ _ Hu). apply pages_apart. lia.
    + rewrite Htext in Hc1. rewrite (wrote_contents sf _ _ _ Hw5), (wrote_contents df _ _ _ Hw3), (wrote_contents df _ _ _ Hw2); [done|..];
        intros l Hl%Hin; try lia; set_solver.
    + rewrite (wrote_contents sf _ _ _ Hw5).
      * replace (ud_end li - id_vaddr li) with (id_end li - id_vaddr li + (ud_end li - id_end li)) by lia. done.
      * intros l Hl%Hin; [set_solver|lia|rewrite Hld'; lia].
    + done.
    + intros f Hf. rewrite Hw5, Hw3, Hw2, Hw1 by set_solver. done.
  - eapply pt_upd_weaken, Hu. intros a Ha. eapply entries_of_pages; [done|lia|lia].
Qed.


Lemma LoadProgram_ok s t0 t1 p x u name args fd li all avail : can_load s t0 t1 p x u name args fd li all avail ->
  let av := given_back all avail (frames_of (k_pt s) t1 (seqZ 0 MAX_PT_LEN)) in
  exists tf df sf a t' f' m, 
    let s' := with_mem m (with_pt t' (with_fl f' (upd_pcb p (with_brk (Some (program_brk li)) (with_uctxt (Some (program_uctxt li args u)) x)) (with_arena a s)))) in
    LoadProgram name args p s = Ret SUCCESS s' /\ filled t' m t1 args fd li tf df sf /\ wrote (tf ++ df ++ sf) (k_mem s) m /\
    NoDup (tf ++ df ++ sf) /\ list_to_set (tf ++ df ++ sf) ⊆ av /\
    fl_rep f' (numFrames (k_glob s)) all (av ∖ list_to_set (tf ++ df ++ sf)) /\
    pt_upd (entries_of t1 (seqZ 0 MAX_PT_LEN)) (k_pt s) t' /\
    plenty a /\ brk_addr (o_arena (k_obj s)) <= brk_addr a.
Proof.
  intros [Hvm Hmem (Hx & Hr1 & Hu) [Hfd Hli] Hfits Htext Hdata Hfl Hfit Hsize] av.
  unfold LoadProgram. rewrite Hfd, Hli.
  destruct (Z.ltb_spec (LoadProgram.entry li) VMEM_1_BASE); [pose proof (ft_entry _ _ Hfits); lia|].
  destruct (Z.leb_spec MAX_PT_LEN (stack_npg args + data_pg1 li + data_npg li)); [pose proof (ft_room _ _ Hfits); lia|].
  step (update_uctxt_ok s p x u (set_sp (args_sp args)) Hx Hu). set (x1 := with_uctxt _ x).
  assert (pcbs (k_obj (upd_pcb p x1 s)) !! p = Some x1) as Hx1 by apply lookup_insert_eq.
  step (update_uctxt_ok _ p x1 _ (set_ebp (args_sp args)) Hx1 eq_refl). set (x2 := with_uctxt _ x1). rewrite upd_pcb_twice.
  assert (pcbs (k_obj (upd_pcb p x2 s)) !! p = Some x2) as Hx2 by apply lookup_insert_eq.
  destruct (kmalloc_next s (args_size args) Hmem) as (a & Hk & _ & Hlt & Hpl).
  assert (kmalloc (args_size args) (upd_pcb p x2 s) = Ret (brk_addr (o_arena (k_obj s))) (upd_pcb p x2 (with_arena a s))) as Hk2.
  { revert Hk. unfold kmalloc, lift. cbn. destruct (malloc _ _); try done. intros [= -> <-]. done. }
  step Hk2. destruct (Z.eqb_spec (brk_addr (o_arena (k_obj s))) NULL) as [Hz|_]; [destruct Hmem; lia|].
  set (s2 := upd_pcb p x2 (with_arena a s)). assert (pcbs (k_obj s2) !! p = Some x2) as Hx2' by apply lookup_insert_eq.
  step (load_pcb_ok s2 p x2 Hx2'). change (r1PageTable x2) with (r1PageTable x). step_rd Hr1.
  destruct (map_program_ok s2 t0 t1 p x2 li args (numFrames (k_glob s)) all avail Hfits Hvm eq_refl Hx2' Hfl Hfit Hsize)
    as (tf & df & sf & t' & f' & Hmap & Hnd & Hsub & Hfl' & Hupd & Hsp).
  step Hmap. cbn [negb]. set (x3 := with_brk _ x2). set (s3 := upd_pcb p x3 _).
  pose proof (pt_upd_vm _ _ _ _ _ Hupd Hvm) as Hvm3.
  assert (Forall (fun f => 0 <= f < 2 ^ PTE_PFN_BITS) tf) as Htf.
  { apply Forall_forall. intros f Hf. apply Hfit. assert (f ∈ av) as Hin by (apply Hsub; set_solver).
    pose proof (fl_rep_subset _ _ _ _ Hfl). unfold av, given_back in Hin. set_solver. }
  destruct (fill_program_ok s3 t0 t1 li args fd tf df sf Hfits Hvm3 Hsp Hnd Htf Htext Hdata)
    as (m1 & m2 & m3 & t2 & Hr1' & Hr2 & Hr3 & Hr4 & Hfin & Hu2).
  step Hr1'. cbn [negb]. step Hr2. cbn [negb]. step Hr3. step Hr4.
  assert (pcbs (k_obj (with_pt t2 (with_mem m3 s3))) !! p = Some x3) as Hx3 by apply lookup_insert_eq.
  step (update_uctxt_ok _ p x3 _ (set_pc (LoadProgram.entry li)) Hx3 eq_refl).
  destruct (Hfin (upd_pcb p (with_uctxt (Some (set_pc (LoadProgram.entry li) (set_ebp (args_sp args) (set_sp (args_sp args) u)))) x3)
    (with_pt t2 (with_mem m3 s3))) eq_refl eq_refl) as (m4 & Hb & Hl & Hwr).
  step Hb. exists tf, df, sf, a, t2, f', m4. cbn zeta.
  set (x4 := with_uctxt _ x3) in *. set (s4 := with_mem m4 (upd_pcb p x4 _)) in *. set (s5 := with_mem m4 (with_pt t2 (with_fl _ _))).
  assert (s4 = s5) as <-.
  { change s4 with (upd_pcb p x4 (upd_pcb p x3 (upd_pcb p x2 (with_mem m4 (with_pt t2 (with_fl f' (with_arena a s))))))).
    by rewrite !upd_pcb_twice. }
  split; [done|]. split; [exact Hl|]. split; [exact Hwr|]. split; [done|]. split; [done|]. split; [exact Hfl'|].
  split; [eapply pt_upd_trans; [exact Hupd|exact Hu2]|]. split; [done|]. apply Z.lt_le_incl, Hlt.
Qed.
End laws.
