(* ===== verification/ExecLaws.v ===== *)
(** The system call [Exec]: the strings of the caller are read, the new program
    takes the place of the old one, and the process starts again. *)

From stdpp Require Import base gmap sets list.
From S2P Require Import Prelude Hardware Queue HashMap FrameList State UserMem Scheduler LoadProgram GeneralCalls Machine PageTable.
From S2P Require Import SwitchLaws SchedView SchedLaws CopyLaws InitLaws CallLaws ExitLaws SpaceLaws LoadLaws.

Section laws.
Context {QH MH : Type} `{HL : HardwareLaws} `{QO : QueueOps QH} `{MO : MapOps MH}
  `{QL : !QueueLaws QH} `{ML : !MapLaws MH} `{FS : FileSystem}.
Abbreviation kst := (kst QH MH).
Implicit Types s : kst.

(** ** Strings in user memory *)

(** At [a] there are the bytes [bs], none of them zero, and a zero, all in one
    page. *)
Definition user_string s (a : ptr) (bs : list Z) : Prop :=
  VMEM_1_BASE <= a < VMEM_1_LIMIT /\ a mod PAGESIZE + Z.of_nat (length bs) < PAGESIZE /\ (0 ∉ bs) /\
  exists locs, mapped s a PROT_READ locs /\ contents (k_mem s) locs = bs ++ [0].

Lemma read_mapped_byte s a locs bs i b : mapped s a PROT_READ locs -> contents (k_mem s) locs = bs ->
  bs !! i = Some b -> read_byte (a + Z.of_nat i) s = Ret b s.
Proof.
  intros Hm Hc Hi. apply list_elem_of_split_length in Hi as (l1 & l2 & -> & ->).
  change (b :: l2) with ([b] ++ l2) in Hc. pose proof (read_inside s a locs _ _ _ Hm Hc) as Hr. cbn [length read_bytes] in Hr.
  destruct (read_byte_cases (a + Z.of_nat (length l1)) s) as [Hu|[c Hb]].
  - unfold bind in Hr. by rewrite Hu in Hr.
  - rewrite (bind_Ret _ _ _ _ _ Hb) in Hr. injection Hr as <-. done.
Qed.

Lemma user_string_bytes s a bs : user_string s a bs -> read_byte (a + Z.of_nat (length bs)) s = Ret 0 s /\
  forall i, 0 <= i < Z.of_nat (length bs) -> exists b, bs !! Z.to_nat i = Some b /\ read_byte (a + i) s = Ret b s /\ b <> 0.
Proof.
  intros (_ & _ & Hnz & locs & Hm & Hc). split.
  - apply (read_mapped_byte _ _ _ _ _ _ Hm Hc). by rewrite lookup_app_r, Nat.sub_diag by lia.
  - intros i Hi. destruct (lookup_lt_is_Some_2 bs (Z.to_nat i)) as [b Hb]; [lia|]. exists b. split; [done|]. split.
    + replace i with (Z.of_nat (Z.to_nat i)) by lia. apply (read_mapped_byte _ _ _ _ _ _ Hm Hc). by rewrite lookup_app_l by lia.
    + intros ->. apply Hnz. by eapply list_elem_of_lookup_2.
Qed.

Lemma user_string_valid s t0 t1 a bs : vm_on (k_pt s) t0 t1 -> user_string s a bs -> isValidString a s = Ret true s.
Proof.
  intros Hvm Hs. pose proof (user_string_bytes _ _ _ Hs) as [H0 Hb]. destruct Hs as (Ha & Hp & _).
  pose proof PAGESIZE_pos. pose proof (Z.div_mod a PAGESIZE).
  apply (isValidString_true s t0 t1 a (PAGESIZE - a mod PAGESIZE) (Z.of_nat (length bs))); [done|done|lia|lia|done|].
  intros i Hi. destruct (Hb i Hi) as (b & _ & ? & ?). by exists b.
Qed.

Lemma string_bytes_ok s bs : forall a fuel, (length bs < fuel)%nat -> read_byte (a + Z.of_nat (length bs)) s = Ret 0 s ->
  (forall i, 0 <= i < Z.of_nat (length bs) -> exists b, bs !! Z.to_nat i = Some b /\ read_byte (a + i) s = Ret b s /\ b <> 0) ->
  string_bytes fuel a s = Ret bs s.
Proof.
  induction bs as [|c bs IH]; intros a [|fuel] Hf H0 Hb; cbn [length] in *; try lia; cbn [string_bytes].
  - rewrite Z.add_0_r in H0. by step H0.
  - destruct (Hb 0 ltac:(lia)) as (b & [= <-] & Hr & Hnz). rewrite Z.add_0_r in Hr. step Hr.
    destruct (Z.eqb_spec c 0); [done|].
    assert (string_bytes fuel (a + 1) s = Ret bs s) as Hrest.
    { apply IH; [lia|by rewrite <- H0; f_equal; lia|]. intros i Hi. destruct (Hb (i + 1) ltac:(lia)) as (b & Hl & Hr' & Hz).
      exists b. replace (Z.to_nat (i + 1)) with (S (Z.to_nat i)) in Hl by lia. split; [exact Hl|]. split; [|done].
      rewrite <- Hr'. f_equal. lia. }
    by step Hrest.
Qed.

Lemma user_string_read s a bs : user_string s a bs -> read_string a s = Ret bs s.
Proof.
  intros Hs. pose proof (user_string_bytes _ _ _ Hs) as [H0 Hb]. destruct Hs as (Ha & Hp & _).
  apply string_bytes_ok; [|done|done]. pose proof PAGESIZE_pos. pose proof (Z.div_mod a PAGESIZE).
  pose proof VMEM_1_LIMIT_eq. assert (a / PAGESIZE < 2 * MAX_PT_LEN) by (apply Z.div_lt_upper_bound; lia). nia.
Qed.

(** The vector at [argv]: pointers to the strings [args], and NULL. *)
Inductive user_argv s : ptr -> list (list Z) -> Prop :=
| user_argv_nil argv : read_int argv s = Ret NULL s -> user_argv s argv []
| user_argv_cons argv a b args : read_int argv s = Ret a s -> user_string s a b -> user_argv s (argv + 4) args ->
    user_argv s argv (b :: args).

Lemma exec_args_ok s t0 t1 argv args : vm_on (k_pt s) t0 t1 -> user_argv s argv args -> forall fuel, (length args < fuel)%nat ->
  exec_args fuel argv s = Ret (Some args) s.
Proof.
  intros Hvm. induction 1 as [argv Hr|argv a b args Hr Hs _ IH]; intros [|fuel] Hf; cbn [length] in *; try lia; cbn [exec_args].
  - by step Hr.
  - step Hr. pose proof Hs as ((Hlo & Hhi) & _). pose proof (region1_page a (conj Hlo Hhi)) as [Hu _]. rewrite (u32_small a) by lia.
    pose proof VMEM_1_BASE_eq. pose proof MAX_PT_LEN_pos. pose proof PAGESIZE_pos.
    destruct (Z.eqb_spec a NULL) as [->|]; [nia|]. step (user_string_valid _ _ _ _ _ Hvm Hs). cbn [negb].
    step (IH fuel ltac:(lia)). by step (user_string_read _ _ _ Hs).
Qed.

(** ** The kernel after it *)

(** A new region 1 leaves the kernel in order. *)
Lemma kernel_ok_space s t0 t1 qs ms v t' : kernel_ok s t0 qs ms v -> apart t0 t1 ->
  pt_upd (entries_of t1 (seqZ 0 MAX_PT_LEN)) (k_pt s) t' -> kernel_ok (with_pt t' s) t0 qs ms v.
Proof.
  intros [[[Hvm Hb Ht Ha] Hmem Hst Hpcb Hkc] (x & fs & r1 & Hx & Hhk & Hfs & Hmap & Hr1 & Hreg) Hs Hp] Hap Hu. split.
  - split; [split; try done; by eapply pt_upd_vm0|by destruct Hmem|done| |done]. intros q y Hy. eapply pcb_ok_upd; [done|]. by eapply Hpcb.
  - exists x, fs, r1. split_and!; try done; [|cbn; by rewrite (upd_base1 _ _ _ Hu)].
    intros i Hi. destruct (Hmap i Hi) as (f & Hf & He). exists f. split; [done|]. rewrite <- He. apply (upd_ptes _ _ _ Hu).
    intros (j & Hj%elem_of_seqZ & Heq). revert Heq. pose proof (stack_vpn_range i Hi). apply pte_at_apart; [done|lia|lia].
  - by apply (sched_rep_ext s).
  - done.
Qed.

(** The running process may have any context. *)
Lemma kernel_ok_running s t0 qs ms v x y : kernel_ok s t0 qs ms v -> pcbs (k_obj s) !! v_run v = Some y ->
  same_process x (with_kctxt (default KNew (kctxt x)) y) -> has_kctxt x -> kernel_ok (upd_pcb (v_run v) x s) t0 qs ms v.
Proof.
  intros [[[] [? ? Hlt] Hst Hpcb Hkc] (z & fs & r1 & Hz & Hk & Hfs & Hmap & Hr1 & Hreg) Hs Hp] Hy
    (Hpid & _ & Hstk & Hr & Hcm & Hzq) Hhk. cbn in Hpid, Hstk, Hr, Hcm.
  pose proof (sr_run _ _ _ _ Hs) as Hrun. rewrite Hrun in Hz. assert (z = y) as -> by congruence. split.
  - split; [by split| |done|..].
    + split; cbn; [done..|]. intros q [<-|[_ Hq]]%lookup_insert_is_Some; [by apply Hlt; exists y|by apply Hlt].
    + cbn. intros q w [[<- <-]|[_ Hq]]%lookup_insert_Some; [|by eapply Hpcb].
      destruct (Hpcb _ _ Hy) as [(fs' & Hfs') Hr1' Hcm' _]. split; [exists fs'; by eapply has_stack_ext|by rewrite Hr|by rewrite Hcm|done].
    + cbn. intros q w [[<- <-]|[_ Hq]]%lookup_insert_Some Hne; [congruence|by eapply Hkc].
  - exists x, fs, r1. cbn. rewrite Hrun. split; [apply lookup_insert_eq|]. split_and!; try done; [by eapply has_stack_ext|congruence].
  - by apply (sched_rep_ext s).
  - cbn. by rewrite (pids_insert _ _ y).
Qed.

Lemma kernel_ok_loaded s t0 t1 qs ms v x y a t' f' m : kernel_ok s t0 qs ms v -> apart t0 t1 ->
  plenty a -> brk_addr (o_arena (k_obj s)) <= brk_addr a -> pt_upd (entries_of t1 (seqZ 0 MAX_PT_LEN)) (k_pt s) t' ->
  pcbs (k_obj s) !! v_run v = Some y -> same_process x (with_kctxt (default KNew (kctxt x)) y) -> has_kctxt x ->
  kernel_ok (with_mem m (with_pt t' (with_fl f' (upd_pcb (v_run v) x (with_arena a s))))) t0 qs ms v.
Proof.
  intros Hok Hap Ha Hle Hu Hy Hxy Hhk. apply (kernel_ok_ext (upd_pcb (v_run v) x (with_pt t' (with_arena a s)))); try done.
  apply (kernel_ok_running _ _ _ _ _ x y); [|done|done|done].
  apply (kernel_ok_space _ _ t1); [|done|done]. by apply kernel_ok_arena.
Qed.

(** ** The system call *)

(** The running process, with PCB [x] and kernel stack [fs], asks for the
    program [name] with the arguments [args], both in its memory. *)
Record can_exec s (t0 t1 : ptr) (qs : gmap ptr (list ptr)) (ms : gmap ptr (gmap Z ptr)) (v : sview) (x : PCB_t)
    (u : UserContext) (fs : list Z) (filename argvec : ptr) (name : list Z) (args : list (list Z)) (fd : file) (li : load_info)
    (all avail : gset Z) (kc : KernelContext) : Prop := {
  ce_ok : kernel_ok s t0 qs ms v;
  ce_load : can_load s t0 t1 (v_run v) x u name args fd li all avail;
  ce_name : user_string s filename name;
  ce_args : user_argv s argvec args;
  ce_vector : (length args < Z.to_nat (VMEM_1_LIMIT - argvec))%nat;
  ce_stack : has_stack x fs /\ stack_mapped (k_pt s) t0 fs;
  ce_own f : f ∈ fs -> f ∉ given_back all avail (frames_of (k_pt s) t1 (seqZ 0 MAX_PT_LEN));
  ce_starter : starterKctxt (k_glob s) = Some kc
}.

(** What the process is then. *)
Definition exec_pcb (kc : KernelContext) (li : load_info) (args : list (list Z)) (u : UserContext) (x : PCB_t) : PCB_t :=
  with_kctxt (KSaved kc) (with_brk (Some (program_brk li)) (with_uctxt (Some (program_uctxt li args u)) x)).

Lemma running_kctxt s t0 qs ms v x : kernel_ok s t0 qs ms v -> pcbs (k_obj s) !! v_run v = Some x ->
  has_kctxt x /\ is_Some (zombieQ x).
Proof.
  intros [[_ _ _ Hpcb _] (y & fs & r1 & Hy & Hk & _) Hs _] Hx. rewrite (sr_run _ _ _ _ Hs) in Hy.
  assert (y = x) as -> by congruence. split; [done|]. by destruct (Hpcb _ _ Hx).
Qed.

Lemma KernelExec_ok s t0 t1 qs ms v x u fs filename argvec name args fd li all avail kc :
  can_exec s t0 t1 qs ms v x u fs filename argvec name args fd li all avail kc ->
  let av := given_back all avail (frames_of (k_pt s) t1 (seqZ 0 MAX_PT_LEN)) in
  exists tf df sf s', KernelExec filename argvec s = Switch kc s' /\ kernel_ok s' t0 qs ms v /\
    loaded s' t1 args fd li tf df sf /\ wrote (fs ++ tf ++ df ++ sf) (k_mem s) (k_mem s') /\
    NoDup (tf ++ df ++ sf) /\ list_to_set (tf ++ df ++ sf) ⊆ av /\
    fl_rep (k_fl s') (numFrames (k_glob s')) all (av ∖ list_to_set (tf ++ df ++ sf)) /\
    pcbs (k_obj s') = <[v_run v := exec_pcb kc li args u x]> (pcbs (k_obj s)) /\
    pt_upd (entries_of t1 (seqZ 0 MAX_PT_LEN)) (k_pt s) (k_pt s').
Proof.
  intros [Hok Hload Hname Hargs Hvec [Hfs Hmap] Hown Hkc] av. pose proof Hload as [Hvm Hmem (Hx & Hr1 & Hu) _ Hfits Htx Hdt _ _ _].
  destruct (LoadProgram_ok s t0 t1 (v_run v) x u name args fd li all avail Hload)
    as (tf & df & sf & a & t' & f' & m & Hrun & Hfill & Hwr & Hnd & Hsub & Hfl & Hupd & Hpa & Hle). cbn zeta in Hrun.
  set (x1 := with_brk _ _) in Hrun. set (s1 := with_mem m _) in Hrun. destruct (running_kctxt _ _ _ _ _ _ Hok Hx) as [Hhk Hzq].
  assert (kernel_ok s1 t0 qs ms v) as Hok1.
  { apply (kernel_ok_loaded s t0 t1 qs ms v x1 x); try done; [by eapply vm_apart|]. destruct Hhk as [Hk|[kc' Hk]];
      unfold same_process; cbn; rewrite Hk; done. }
  pose proof Hok1 as [[Hmmu1 _ Hst1 _ _] _ Hs1 _].
  assert (pcbs (k_obj s1) !! v_run v = Some x1) as Hx1 by apply lookup_insert_eq.
  assert (stack_mapped (k_pt s1) t0 fs) as Hmap1.
  { intros i Hi. destruct (Hmap i Hi) as (f & Hf & He). exists f. split; [done|]. rewrite <- He. apply (upd_ptes _ _ _ Hupd).
    intros (j & Hj%elem_of_seqZ & Heq). revert Heq. pose proof (stack_vpn_range i Hi). apply pte_at_apart; [by eapply vm_apart|lia|lia]. }
  destruct (execTo_ok s1 t0 fs (v_run v) x1 (mkKctxt KExec (k_frame s1)) kc Hmmu1 Hst1 Hkc (sr_run _ _ _ _ Hs1) Hx1 Hhk Hfs Hmap1)
    as (m' & Hexec & Hm' & _).
  set (s2 := with_mem m' _) in Hexec. exists tf, df, sf, s2.
  assert (pcbs (k_obj s2) = <[v_run v := exec_pcb kc li args u x]> (pcbs (k_obj s))) as Hpcbs.
  { cbn. rewrite (alter_alt_Some _ _ _ _ (lookup_insert_eq _ _ _)). by rewrite insert_insert_eq. }
  assert (filled (k_pt s2) (k_mem s2) t1 args fd li tf df sf) as Hfill2.
  { apply (filled_wrote _ m _ _ _ _ _ _ _ _ fs Hfits); [|exact Hm'|exact Hfill].
    intros f Hf Hin. apply (Hown f Hin), Hsub. by apply elem_of_list_to_set. }
  split; [|split; [|split; [|split; [|done]]]].
  - unfold KernelExec. step (user_string_valid _ _ _ _ _ Hvm Hname). cbn [negb].
    step (exec_args_ok _ _ _ _ _ Hvm Hargs _ Hvec). step (user_string_read _ _ _ Hname). kmon.
    rewrite (sr_run _ _ _ _ (ko_sched _ _ _ _ _ Hok)). step Hrun. change (SUCCESS =? KILL) with false. cbn iota. mon.
    change SUCCESS with 0 at 1. rewrite eqb_0_ERROR. unfold execProcess, KernelContextSwitch, bind. by rewrite Hexec.
  - apply (kernel_ok_ext (with_mem m (with_pt t' (with_fl f' (upd_pcb (v_run v) (exec_pcb kc li args u x) (with_arena a s)))))); try done.
    apply (kernel_ok_loaded s t0 t1 qs ms v _ x); try done; [by eapply vm_apart|by right; eexists].
  - apply (filled_loaded s2 t0); try done. by eapply pt_upd_vm.
  - intros f Hf. cbn. rewrite Hm' by set_solver. apply Hwr. set_solver.
Qed.
End laws.
