(* ===== verification/GrowLaws.v ===== *)
(** The growth of the user stack in [handleTrapMemory], and what both it and
    [KernelBrk] leave of the kernel's invariant. *)

From stdpp Require Import base gmap sets list.
From S2P Require Import Prelude Hardware Queue HashMap FrameList State UserMem Scheduler LoadProgram GeneralCalls Machine PageTable.
From S2P Require Import SwitchLaws SchedView SchedLaws CopyLaws InitLaws CallLaws SpaceLaws LoadLaws ExecLaws.

(** The pages among [ps] that are not mapped. *)
Definition page_missing `{Hardware} (t : pt) (base : ptr) (i : Z) : bool :=
  match entry t base i with Some e => pte_valid e =? 0 | None => false end.
Definition missing_pages `{Hardware} (t : pt) (base : ptr) (ps : list Z) : list Z :=
  filter (fun i => page_missing t base i = true) ps.

(** [t'] is [t] after each page of [l] was mapped to its frame. *)
Record grown `{Hardware} (t : pt) (t1 : ptr) (l : list (Z * Z)) (t' : pt) : Prop := {
  gw_upd : pt_upd (entries_of t1 l.*1) t t';
  gw_pages i f : (i, f) ∈ l -> entry t' t1 i = Some (mkPte 1 PROT_RW f)
}.

Section laws.
Context {QH MH : Type} `{HL : HardwareLaws} `{QO : QueueOps QH} `{MO : MapOps MH}
  `{QL : !QueueLaws QH} `{ML : !MapLaws MH} `{FS : FileSystem}.
Abbreviation kst := (kst QH MH).
Implicit Types s : kst.

Lemma missing_pages_snoc t b ps i :
  missing_pages t b (ps ++ [i]) = missing_pages t b ps ++ (if page_missing t b i then [i] else []).
Proof.
  unfold missing_pages. rewrite filter_app, filter_cons, filter_nil.
  destruct (page_missing t b i); [by rewrite decide_True|by rewrite decide_False].
Qed.

Lemma missing_pages_ext t t' b ps : (forall i, i ∈ ps -> entry t' b i = entry t b i) ->
  missing_pages t' b ps = missing_pages t b ps.
Proof.
  unfold missing_pages. intros He. induction ps as [|i ps IH]; [done|]. rewrite !filter_cons.
  assert (page_missing t' b i = page_missing t b i) as -> by (unfold page_missing; rewrite He by set_solver; done).
  rewrite IH by set_solver. done.
Qed.

(** The loop of [handleTrapMemory] over the pages from [lo + n - 1] down to
    [lo]: those that are missing are mapped, each to a free frame of its own. *)
Lemma grow_stack_ok n t0 t1 nf all lo : 0 <= lo -> forall s avail, vm_on (k_pt s) t0 t1 -> lo + Z.of_nat n <= MAX_PT_LEN ->
  numFrames (k_glob s) = nf -> fl_rep (k_fl s) nf all avail -> frames_fit all ->
  (length (missing_pages (k_pt s) t1 (seqZ lo (Z.of_nat n))) <= size avail)%nat ->
  exists l t' f', grow_stack n t1 (lo + Z.of_nat n - 1) s = Ret tt (with_pt t' (with_fl f' s)) /\
    l.*1 = missing_pages (k_pt s) t1 (seqZ lo (Z.of_nat n)) /\ NoDup l.*2 /\ list_to_set l.*2 ⊆ avail /\
    fl_rep f' nf all (avail ∖ list_to_set l.*2) /\ grown (k_pt s) t1 l t'.
Proof.
  intros Hlo. induction n as [|n IH]; intros s avail Hvm Hhi Hnf Hfl Hfit Hsize.
  - exists [], (k_pt s), (k_fl s). rewrite with_fl_id, with_pt_id. cbn. rewrite difference_empty_L.
    split_and!; try done; [apply NoDup_nil_2|]. split; [apply pt_upd_refl|]. by intros i f ?%not_elem_of_nil.
  - replace (Z.of_nat (S n)) with (Z.of_nat n + 1) in * by lia. rewrite seqZ_app in * by lia. set (i := lo + Z.of_nat n) in *.
    assert (i = lo + Z.of_nat n) as Hi by done. change (seqZ i 1) with [i] in *. rewrite missing_pages_snoc in *.
    destruct (vm_table1 _ _ _ Hvm) as (_ & _ & Ht). destruct (Ht i ltac:(lia)) as [e He].
    assert (load_pte (pte_at t1 i) (k_pt s) = Ret e (k_pt s)) as Hld by (unfold load_pte, entry in *; by rewrite He).
    cbn [grow_stack]. replace (lo + (Z.of_nat n + 1) - 1) with i by lia. step (lift_pt _ _ _ _ Hld). rewrite with_pt_id.
    replace (i - 1) with (lo + Z.of_nat n - 1) by lia. unfold page_missing in *. rewrite He in *.
    destruct (Z.eqb_spec (pte_valid e) 0) as [Hv|Hv]; cbn iota in *.
    + rewrite length_app in Hsize. cbn [length] in Hsize. assert (avail <> ∅) as Hne by (intros ->; rewrite size_empty in Hsize; lia).
      destruct (getFrame_ok _ _ _ _ Hfl Hne) as (p & f1 & Hg & Hp & Hfl1 & _). kmon. rewrite Hnf. step (lift_fl _ _ _ _ Hg).
      pose proof (setPageTableEntry_r1 (k_pt s) t0 t1 i 1 PROT_RW p Hvm ltac:(lia)) as Hset.
      set (s1 := with_fl f1 s). step (lift_pt _ s1 _ _ Hset). set (t2 := set_entry _ _ _ _ _ _).
      assert (pt_upd (entries_of t1 [i]) (k_pt s) t2) as Hu2
        by (apply pt_upd_set_entry; [exists i; split; [set_solver|done]|by exists e]).
      assert (forall j, j <> i -> entry t2 t1 j = entry (k_pt s) t1 j) as Hother.
      { intros j Hj. apply (upd_ptes _ _ _ Hu2). intros (k & ->%list_elem_of_singleton & ->%pte_at_inj). done. }
      assert (missing_pages t2 t1 (seqZ lo (Z.of_nat n)) = missing_pages (k_pt s) t1 (seqZ lo (Z.of_nat n))) as Hmiss
        by (apply missing_pages_ext; intros j Hj%elem_of_seqZ; apply Hother; lia).
      destruct (IH (with_pt t2 s1) (avail ∖ {[p]})) as (l & t' & f' & Hrun & Hl & Hnd & Hsub & Hfl' & [Hu Hpg]);
        [by apply vm_on_set_entry|lia|done|done|done|cbn [k_pt with_pt]; rewrite Hmiss, size_difference, size_singleton by set_solver; lia|].
      cbn [k_pt with_pt] in Hl, Hu. rewrite Hmiss in Hl.
      assert (forall j f, (j, f) ∈ l -> lo <= j < i) as Hin.
      { intros j f Hj. assert (j ∈ l.*1) as Hj1 by (apply list_elem_of_fmap; by exists (j, f)).
        rewrite Hl in Hj1. apply list_elem_of_filter in Hj1 as [_ Hj1%elem_of_seqZ]. lia. }
      exists (l ++ [(i, p)]), t', f'. split; [exact Hrun|]. rewrite !fmap_app, Hl. cbn [fmap list_fmap fst snd].
      split; [done|]. split; [|split; [|split; [|split]]].
      * apply NoDup_app. split; [done|]. split; [|apply NoDup_singleton]. intros f Hf ->%list_elem_of_singleton.
        assert (p ∈ avail ∖ {[p]}) by (apply Hsub; by apply elem_of_list_to_set). set_solver.
      * rewrite list_to_set_app_L. set_solver.
      * assert (avail ∖ list_to_set (l.*2 ++ [p]) = avail ∖ {[p]} ∖ list_to_set l.*2) as ->; [|done].
        rewrite list_to_set_app_L. cbn. set_solver.
      * rewrite fmap_app. eapply pt_upd_trans; eapply pt_upd_weaken; [|exact Hu2| |exact Hu]; intros a (j & Hj & ->); exists j; set_solver.
      * intros j f [Hj|Hj%list_elem_of_singleton]%elem_of_app; [by apply Hpg|]. injection Hj as -> ->.
        unfold entry. rewrite (upd_ptes _ _ _ Hu).
        -- cbn. rewrite lookup_insert_eq, bits_RW. unfold bits. rewrite (Z.mod_small p); [done|].
           apply Hfit, (fl_rep_subset _ _ _ _ Hfl), Hp.
        -- intros (k & Hk & Heq%pte_at_inj). apply list_elem_of_fmap in Hk as ([k' g'] & -> & Hk). apply Hin in Hk. cbn in Heq. lia.
    + mon. rewrite app_nil_r in *. destruct (IH s avail Hvm ltac:(lia) Hnf Hfl Hfit Hsize) as (l & t2 & f2 & Hl). by exists l, t2, f2.
Qed.

(** ** The break *)

(** The running process [x], with table [t1] and break [b] in region 1, in a
    kernel that is in order. *)
Record has_break s (t0 t1 : ptr) (qs : gmap ptr (list ptr)) (ms : gmap ptr (gmap Z ptr)) (v : sview) (x : PCB_t) (b : Z)
    (all avail : gset Z) : Prop := {
  hb_ok : kernel_ok s t0 qs ms v;
  hb_vm : vm_on (k_pt s) t0 t1;
  hb_pcb : pcbs (k_obj s) !! v_run v = Some x;
  hb_brk : brk x = Some b;
  hb_r1 : r1PageTable x = Some t1;
  hb_range : VMEM_1_BASE <= b <= VMEM_1_LIMIT;
  hb_fl : fl_rep (k_fl s) (numFrames (k_glob s)) all avail
}.

(** [s] after a move of the break. *)
Definition break_moved (v : sview) (x : PCB_t) (addr : Z) (t' : pt) (f' : fl) s : kst :=
  upd_pcb (v_run v) (with_brk (Some addr) x) (with_pt t' (with_fl f' s)).

(** What [KernelBrk] begins with, for a region 1 address. *)
Lemma KernelBrk_start s t1 x b addr : pcbs (k_obj s) !! currPCB (k_sched s) = Some x -> brk x = Some b ->
  r1PageTable x = Some t1 -> 0 <= b < 2 ^ 32 -> VMEM_1_BASE <= addr < VMEM_1_LIMIT ->
  KernelBrk addr s =
    (let! ok := move_brk_spec t1 MAX_PT_LEN addr b in
     if negb ok then ret ERROR else
     update_pcb (currPCB (k_sched s)) (with_brk (Some addr)) ;;; ret SUCCESS) s.
Proof.
  intros Hx Hb Hr1 Hbb Haddr. destruct (region1_page _ Haddr) as [Hu _]. unfold KernelBrk.
  rewrite (proj2 (getAddressRegion_1 addr Hu) Haddr), Z.eqb_refl. cbn [negb]. kmon. step (load_pcb_ok _ _ _ Hx).
  step_rd Hb. step_rd Hr1. rewrite !u32_small, USER_BASE_VPN_eq by done. unfold bind at 1 3.
  by rewrite move_brk_ok.
Qed.

Lemma page_up_region1 a : VMEM_1_BASE <= a <= VMEM_1_LIMIT -> MAX_PT_LEN <= page_up a <= 2 * MAX_PT_LEN.
Proof.
  rewrite VMEM_1_BASE_eq, VMEM_1_LIMIT_eq. unfold page_up. pose proof PAGESIZE_pos as HP. intros Ha. split.
  - apply Z.div_le_lower_bound; lia.
  - apply Z.lt_succ_r. apply Z.div_lt_upper_bound; lia.
Qed.

Lemma break_moved_ok s t0 t1 qs ms v x b all avail addr t' f' i n : has_break s t0 t1 qs ms v x b all avail ->
  0 <= i -> i + Z.of_nat n <= MAX_PT_LEN -> pt_upd (pages_of t1 i n) (k_pt s) t' ->
  kernel_ok (break_moved v x addr t' f' s) t0 qs ms v.
Proof.
  intros [Hok Hvm Hx _ _ _ _] Hi Hn Hu. apply (kernel_ok_ext (upd_pcb (v_run v) (with_brk (Some addr) x) (with_pt t' s))); try done.
  apply (kernel_ok_upd_pcb _ _ _ _ _ _ _ x); [|done|].
  - apply (kernel_ok_space s t0 t1); [done|by eapply vm_apart|]. eapply pt_upd_weaken, Hu. intros a Ha. by eapply entries_of_pages.
  - repeat split. by destruct (running_kctxt _ _ _ _ _ _ Hok Hx).
Qed.

Lemma has_break_start s t0 t1 qs ms v x b all avail addr : has_break s t0 t1 qs ms v x b all avail ->
  VMEM_1_BASE <= addr < VMEM_1_LIMIT ->
  KernelBrk addr s =
    (let! ok := move_brk_spec t1 MAX_PT_LEN addr b in
     if negb ok then ret ERROR else update_pcb (v_run v) (with_brk (Some addr)) ;;; ret SUCCESS) s /\
  0 <= page_up b - MAX_PT_LEN <= MAX_PT_LEN /\ 0 <= page_up addr - MAX_PT_LEN <= MAX_PT_LEN.
Proof.
  intros [Hok Hvm Hx Hb Hr1 Hbb Hfl] Haddr. pose proof VMEM_1_LIMIT_int. pose proof VMEM_1_BASE_eq.
  pose proof MAX_PT_LEN_pos. pose proof PAGESIZE_pos. rewrite <- (sr_run _ _ _ _ (ko_sched _ _ _ _ _ Hok)) in *.
  rewrite (KernelBrk_start s t1 x b addr Hx Hb Hr1) by (done || nia).
  pose proof (page_up_region1 b Hbb). pose proof (page_up_region1 addr ltac:(lia)). split; [done|lia].
Qed.

(** Raising the break. *)
Lemma KernelBrk_grow s t0 t1 qs ms v x b all avail addr : has_break s t0 t1 qs ms v x b all avail ->
  VMEM_1_BASE <= addr < VMEM_1_LIMIT -> page_up b <= page_up addr -> (Z.to_nat (page_up addr - page_up b) <= size avail)%nat ->
  exists t' f' fs, KernelBrk addr s = Ret SUCCESS (break_moved v x addr t' f' s) /\
    kernel_ok (break_moved v x addr t' f' s) t0 qs ms v /\
    length fs = Z.to_nat (page_up addr - page_up b) /\ NoDup fs /\ list_to_set fs ⊆ avail /\
    fl_rep f' (numFrames (k_glob s)) all (avail ∖ list_to_set fs) /\
    (forall j f, fs !! j = Some f -> entry t' t1 (page_up b - MAX_PT_LEN + Z.of_nat j) =
       Some (mkPte 1 PROT_RW (bits PTE_PFN_BITS f))) /\
    pt_upd (pages_of t1 (page_up b - MAX_PT_LEN) (length fs)) (k_pt s) t'.
Proof.
  intros Hhb Haddr Hle Hn. pose proof Hhb as [Hok Hvm Hx Hb Hr1 Hbb Hfl].
  destruct (has_break_start s t0 t1 qs ms v x b all avail addr Hhb Haddr) as (-> & Hpb & Hpa). unfold move_brk_spec.
  destruct (Z.ltb_spec (page_up addr) (page_up b)); [lia|].
  destruct (alloc_pages_ok (Z.to_nat (page_up addr - page_up b)) t0 t1 (numFrames (k_glob s)) all s (page_up b - MAX_PT_LEN) avail Hvm)
    as (fs & t' & f' & Hrun & Hlen & Hnd & Hsub & Hfl' & Hupd & Hent); [lia|lia|done|done|done|].
  unfold brk_alloc. step Hrun. cbn [negb]. step (update_pcb_ok (with_pt t' (with_fl f' s)) _ (with_brk (Some addr)) x Hx).
  exists t', f', fs. rewrite Hlen. split; [done|]. split; [|done]. eapply break_moved_ok; [exact Hhb| | |exact Hupd]; lia.
Qed.

(** Raising it with too few frames. *)
Lemma KernelBrk_full s t0 t1 qs ms v x b all avail addr : has_break s t0 t1 qs ms v x b all avail ->
  VMEM_1_BASE <= addr < VMEM_1_LIMIT -> (size avail < Z.to_nat (page_up addr - page_up b))%nat -> KernelBrk addr s = Undef.
Proof.
  intros Hhb Haddr Hn. pose proof Hhb as [Hok Hvm Hx Hb Hr1 Hbb Hfl].
  destruct (has_break_start s t0 t1 qs ms v x b all avail addr Hhb Haddr) as (-> & Hpb & Hpa). unfold move_brk_spec.
  destruct (Z.ltb_spec (page_up addr) (page_up b)); [lia|]. unfold brk_alloc, bind.
  by rewrite (alloc_pages_full _ t0 t1 (numFrames (k_glob s)) all s (page_up b - MAX_PT_LEN) avail Hvm) by (done || lia).
Qed.

(** Lowering the break. *)
Lemma KernelBrk_shrink s t0 t1 qs ms v x b all avail addr fs : has_break s t0 t1 qs ms v x b all avail ->
  VMEM_1_BASE <= addr < VMEM_1_LIMIT -> page_up b = page_up addr + Z.of_nat (length fs) -> fs <> [] -> list_to_set fs ⊆ all ->
  (forall j f, fs !! j = Some f -> exists v pr,
     entry (k_pt s) t1 (page_up addr - MAX_PT_LEN + Z.of_nat j) = Some (mkPte v pr f)) ->
  exists t' f', KernelBrk addr s = Ret SUCCESS (break_moved v x addr t' f' s) /\
    kernel_ok (break_moved v x addr t' f' s) t0 qs ms v /\
    fl_rep f' (numFrames (k_glob s)) all (avail ∪ list_to_set fs) /\
    (forall j, page_up addr <= j < page_up b -> exists e,
       entry t' t1 (j - MAX_PT_LEN) = Some e /\ pte_valid e = 0) /\
    pt_upd (pages_of t1 (page_up addr - MAX_PT_LEN) (length fs)) (k_pt s) t'.
Proof.
  intros Hhb Haddr Heq Hne Hsub Hent. pose proof Hhb as [Hok Hvm Hx Hb Hr1 Hbb Hfl].
  destruct (has_break_start s t0 t1 qs ms v x b all avail addr Hhb Haddr) as (-> & Hpb & Hpa). unfold move_brk_spec.
  assert (0 < Z.of_nat (length fs)) by (destruct fs; [done|cbn; lia]).
  destruct (Z.ltb_spec (page_up addr) (page_up b)); [|lia].
  destruct (brk_free_ok fs t0 t1 (numFrames (k_glob s)) all s (page_up addr - MAX_PT_LEN) avail Hvm)
    as (t' & f' & Hrun & Hfl' & Hupd & Hinv); [lia|lia|done|done|done|done|].
  replace (Z.to_nat (page_up b - page_up addr)) with (length fs) by lia.
  kmon. step Hrun. kmon. cbn [negb]. step (update_pcb_ok (with_pt t' (with_fl f' s)) _ (with_brk (Some addr)) x Hx).
  exists t', f'. split; [done|]. split; [eapply break_moved_ok; [exact Hhb| | |exact Hupd]; lia|].
  split; [done|]. split; [|done]. intros j Hj. apply Hinv. lia.
Qed.

(** ** Faults *)

(** [handleTrapMemory] for an address in region 1, up to its loop. *)
Lemma handleTrapMemory_start s t0 t1 qs ms v x b all avail : has_break s t0 t1 qs ms v x b all avail ->
  let a := uc_addr (k_frame s) in VMEM_1_BASE <= a < VMEM_1_LIMIT ->
  handleTrapMemory s = if a / PAGESIZE <=? b / PAGESIZE + 1 then
      (KernelExit ERROR ;;; grow_stack (Z.to_nat (2 * MAX_PT_LEN - a / PAGESIZE)) t1 (MAX_PT_LEN - 1)) s
    else grow_stack (Z.to_nat (2 * MAX_PT_LEN - a / PAGESIZE)) t1 (MAX_PT_LEN - 1) s.
Proof.
  intros [Hok Hvm Hx Hb Hr1 Hbb Hfl] a Ha. destruct (region1_page a Ha) as [Hu _].
  pose proof VMEM_1_LIMIT_int. pose proof VMEM_1_BASE_eq. pose proof MAX_PT_LEN_pos. pose proof PAGESIZE_pos.
  unfold handleTrapMemory. kmon. fold a. rewrite (sr_run _ _ _ _ (ko_sched _ _ _ _ _ Hok)). step (load_pcb_ok _ _ _ Hx).
  step_rd Hb. rewrite !shiftr_page, (u32_small a), (u32_small b) by nia.
  assert ((VMEM_1_LIMIT - PAGESIZE) / PAGESIZE = 2 * MAX_PT_LEN - 1) as ->.
  { rewrite VMEM_1_LIMIT_eq. replace (_ - PAGESIZE) with ((2 * MAX_PT_LEN - 1) * PAGESIZE) by lia. apply Z.div_mul. lia. }
  replace (2 * MAX_PT_LEN - 1 - a / PAGESIZE + 1) with (2 * MAX_PT_LEN - a / PAGESIZE) by lia.
  destruct (Z.leb_spec (a / PAGESIZE) (b / PAGESIZE + 1)); kmon.
  - unfold bind at 1 3. destruct (KernelExit ERROR s); [|done..]. by step_rd Hr1.
  - by step_rd Hr1.
Qed.

(** The stack grows: the pages from the one of the address up are mapped. *)
Lemma stack_growth_ok s t0 t1 qs ms v x b all avail : has_break s t0 t1 qs ms v x b all avail -> frames_fit all ->
  let a := uc_addr (k_frame s) in let lo := a / PAGESIZE - MAX_PT_LEN in
  let pages := missing_pages (k_pt s) t1 (seqZ lo (MAX_PT_LEN - lo)) in
  VMEM_1_BASE <= a < VMEM_1_LIMIT -> b / PAGESIZE + 1 < a / PAGESIZE -> (length pages <= size avail)%nat ->
  exists l t' f', let s' := with_pt t' (with_fl f' s) in handleTrapMemory s = Ret tt s' /\ kernel_ok s' t0 qs ms v /\
    l.*1 = pages /\ NoDup l.*2 /\ list_to_set l.*2 ⊆ avail /\
    fl_rep f' (numFrames (k_glob s)) all (avail ∖ list_to_set l.*2) /\
    (forall i f, (i, f) ∈ l -> entry t' t1 i = Some (mkPte 1 PROT_RW f)) /\
    pt_upd (entries_of t1 pages) (k_pt s) t'.
Proof.
  intros Hb Hfit a lo pages Ha Hgt Hsize. pose proof (handleTrapMemory_start s t0 t1 qs ms v x b all avail Hb Ha) as Hstart.
  fold a in Hstart. destruct (Z.leb_spec (a / PAGESIZE) (b / PAGESIZE + 1)) as [|_]; [lia|].
  destruct (region1_page a Ha) as [_ Hpg]. pose proof Hb as [Hok Hvm Hx _ Hr1 _ Hfl].
  destruct (grow_stack_ok (Z.to_nat (MAX_PT_LEN - lo)) t0 t1 (numFrames (k_glob s)) all lo ltac:(lia) s avail Hvm)
    as (l & t' & f' & Hrun & Hl & Hnd & Hsub & Hfl' & [Hu Hpgs]); [lia|done|done|done|rewrite Z2Nat.id by lia; done|].
  rewrite Z2Nat.id in Hrun, Hl by lia. fold pages in Hl. exists l, t', f'. cbn zeta.
  split; [rewrite Hstart, <- Hrun; f_equal; lia|]. rewrite Hl in Hu. split_and!; try done.
  apply (kernel_ok_ext (with_pt t' s)); try done. apply (kernel_ok_space s t0 t1); [done|by eapply vm_apart|].
  eapply pt_upd_weaken, Hu. intros y (i & Hi & ->). exists i. split; [|done].
  apply list_elem_of_filter in Hi as [_ Hi%elem_of_seqZ]. apply elem_of_seqZ. lia.
Qed.
End laws.
