(* ===== verification/BootLaws.v ===== *)
(** The start of the kernel: from the state in which the hardware calls
    [KernelStart] to the first process in user mode, in a kernel that is in
    order. *)

From stdpp Require Import base gmap sets list.
From S2P Require Import Prelude Hardware Queue HashMap FrameList State UserMem Scheduler SyncObjects LoadProgram GeneralCalls Tty Machine PageTable.
From S2P Require Import SwitchLaws SchedView SchedLaws CopyLaws InitLaws CallLaws ExitLaws TtyLaws SpaceLaws LoadLaws ExecLaws ForkCall.

Section laws.
Context {QH MH : Type} `{HL : HardwareLaws} `{QO : QueueOps QH} `{MO : MapOps MH}
  `{QL : !QueueLaws QH} `{ML : !MapLaws MH} `{FS : FileSystem}.
Abbreviation kst := (kst QH MH).
Implicit Types s : kst.

(** ** Page tables and frames *)

(** A new table, and where the next one will lie. *)
Lemma new_region_table t : pt_wf t -> plenty (pt_arena t) ->
  exists t', initializeRegionPageTable t = Ret (SUCCESS, brk_addr (pt_arena t)) t' /\
    new_table t (brk_addr (pt_arena t)) t' /\
    brk_addr (pt_arena t') = brk_addr (pt_arena t) + MAX_PT_LEN * PTE_SIZE.
Proof.
  intros Hwf Hpl. destruct (initializeRegionPageTable_ok t Hwf) as (r & b & t' & Hrun & Hwf' & Hpl' & Hc).
  destruct Hc as [(_ & _ & [] & _)|(-> & -> & Hnew & Hold)]; [done|].
  exists t'. split; [done|]. split; [split; try done; [by apply Hpl'|by eapply initializeRegionPageTable_regs]|].
  pose proof PTE_SIZE_pos. pose proof MAX_PT_LEN_pos. destruct Hwf as [Hpos _].
  revert Hrun. unfold initializeRegionPageTable. destruct (malloc_spec (PTE_SIZE * MAX_PT_LEN) (pt_arena t) Hpos) as (b & a & Hm & _ & _ & Hb).
  erewrite bind_Ret by (apply lift_Ret; exact Hm). destruct Hb as [(_ & _ & [])|[-> Hb]]; [done|].
  destruct (Z.eqb_spec (brk_addr (pt_arena t)) NULL); [lia|]. mon. intros [= <-]. cbn. rewrite Hb. nia.
Qed.

(** Storing an entry before virtual memory is on. *)
Lemma setNoFlush_ok t b i v pr f : is_Some (entry t b i) ->
  exists t', setPageTableEntryNoFlush (pte_at b i) v pr f t = Ret tt t' /\ pt_upd (entries_of b [i]) t t' /\
    entry t' b i = Some (mkPte (bits 1 v) (bits PTE_PROT_BITS pr) (bits PTE_PFN_BITS f)).
Proof.
  intros He. eexists. split; [by apply store_pte_ok|]. split; [|by apply lookup_insert_eq]. split; try done.
  - intros a Ha. cbn. rewrite lookup_insert_ne; [done|]. intros <-. apply Ha. exists i. split; [set_solver|done].
  - intros a. cbn. rewrite lookup_insert_is_Some. destruct (decide (pte_at b i = a)) as [<-|]; [|tauto].
    split; [intros _; exact He|by left].
Qed.

(** The stack pages of the first page table are mapped one to one. *)
Lemma r0_prot_stack i st br : 0 <= i -> KERNEL_STACK_BASE_VPN <= i -> st <= br -> br <= KERNEL_STACK_BASE ->
  r0_prot (VMEM_BASE + i * PAGESIZE) st br = Some PROT_RW.
Proof.
  intros Hi Hvpn Hst Hbr. pose proof PAGESIZE_pos. unfold r0_prot. rewrite VMEM_BASE_eq.
  assert (KERNEL_STACK_BASE <= i * PAGESIZE).
  { rewrite KERNEL_STACK_BASE_VPN_eq in Hvpn. rewrite KERNEL_STACK_BASE_eq, KERNEL_STACK_LIMIT_eq, VMEM_0_LIMIT_eq, KERNEL_STACK_pages. nia. }
  repeat zcase; (done || lia).
Qed.

Lemma fill_r0_ok s t0 st br : table (k_pt s) t0 -> st <= br -> br <= KERNEL_STACK_BASE -> MAX_PT_LEN <= 2 ^ PTE_PFN_BITS ->
  exists t', fill_r0 t0 st br s = Ret tt (with_pt t' s) /\ pt_upd (entries_of t0 (seqZ 0 MAX_PT_LEN)) (k_pt s) t' /\
    forall i, KERNEL_STACK_BASE_VPN <= i < MAX_PT_LEN -> entry t' t0 i = Some (mkPte 1 PROT_RW i).
Proof.
  intros Htab Hst Hbr Hfit. pose proof PAGESIZE_pos. unfold fill_r0.
  assert (Z.quot (VMEM_0_LIMIT - VMEM_BASE) PAGESIZE = MAX_PT_LEN) as ->
    by (rewrite VMEM_0_LIMIT_eq, VMEM_BASE_eq, Z.sub_0_r; apply Z.quot_mul; lia).
  loop (fun d s1 => exists t', s1 = with_pt t' s /\ pt_upd (entries_of t0 d) (k_pt s) t' /\
      forall i, i ∈ d -> KERNEL_STACK_BASE_VPN <= i -> entry t' t0 i = Some (mkPte 1 PROT_RW i))
    as (s' & Hrun & t' & -> & Hu & Hs).
  - exists (k_pt s). rewrite with_pt_id. split; [done|]. split; [apply pt_upd_refl|]. by intros i ?%not_elem_of_nil.
  - intros d i r s1 Heq (t' & -> & Hu & Hs). apply seqZ_split in Heq as Hi. destruct Hi as [Hi Hlt]. rewrite Z.add_0_l in Hi.
    assert (forall j, j ∈ d -> 0 <= j < i) as Hd.
    { intros j (k & Hk)%list_elem_of_lookup_1. assert (seqZ 0 MAX_PT_LEN !! k = Some j) as Hj%lookup_seqZ
        by (rewrite Heq, lookup_app_l by (by eapply lookup_lt_Some); done). apply lookup_lt_Some in Hk. lia. }
    destruct Htab as (_ & _ & Ht). assert (is_Some (entry t' t0 i)) as He by (apply (upd_dom _ _ _ Hu), Ht; lia).
    assert (forall j t2, pt_upd (entries_of t0 [i]) t' t2 -> j ∈ d -> entry t2 t0 j = entry t' t0 j) as Hkeep.
    { intros j t2 Hu2 Hj. apply (upd_ptes _ _ _ Hu2). intros (k & ->%list_elem_of_singleton & ->%pte_at_inj). specialize (Hd _ Hj). lia. }
    destruct (r0_prot (VMEM_BASE + i * PAGESIZE) st br) as [prot|] eqn:Hprot.
    + destruct (setNoFlush_ok t' t0 i 1 prot (Z.shiftr (VMEM_BASE + i * PAGESIZE) PAGESHIFT) He) as (t2 & Hset & Hu2 & He2).
      exists (with_pt t2 s). split; [apply (lift_pt _ (with_pt t' s) _ _ Hset)|]. exists t2. split; [done|]. split.
      * eapply pt_upd_trans; eapply pt_upd_weaken; [|exact Hu| |exact Hu2]; intros a (j & Hj & ->); exists j; set_solver.
      * intros j [Hj| ->%list_elem_of_singleton]%elem_of_app Hv; [rewrite (Hkeep j t2) by done; by apply Hs|].
        rewrite (r0_prot_stack i st br) in Hprot by (done || lia). injection Hprot as <-.
        rewrite He2, bits_RW. rewrite shiftr_page, VMEM_BASE_eq, Z.add_0_l, Z.div_mul by lia.
        unfold bits. by rewrite !Z.mod_small by lia.
    + exists (with_pt t' s). split; [done|]. exists t'. split; [done|]. split.
      * eapply pt_upd_weaken, Hu. intros a (j & Hj & ->). exists j. set_solver.
      * intros j [Hj| ->%list_elem_of_singleton]%elem_of_app Hv; [by apply Hs|].
        by rewrite (r0_prot_stack i st br) in Hprot by (done || lia).
  - exists t'. split; [done|]. split; [done|]. intros i Hi. pose proof KERNEL_STACK_room. rewrite KERNEL_STACK_BASE_VPN_eq in *.
    apply Hs; [apply elem_of_seqZ|]; lia.
Qed.

(** The frames of the machine, and those that are free at first. *)
Definition boot_frames (pmem brk : Z) : list frame_t := init_frames (Z.to_nat (pmem / PAGESIZE)) PMEM_BASE brk.

Lemma initFrameList_frames f pmem b : 0 < brk_addr (fl_arena f) -> plenty (fl_arena f) ->
  0 <= pmem / PAGESIZE <= 2 ^ 24 -> 0 <= PMEM_BASE -> PMEM_BASE mod PAGESIZE = 0 -> 24 <= PTE_PFN_BITS ->
  exists f', initFrameList (pmem / PAGESIZE) b f = Ret 0 f' /\
    fl_rep f' (pmem / PAGESIZE) (pfns (boot_frames pmem b)) (free_pfns (boot_frames pmem b)) /\
    frames_fit (pfns (boot_frames pmem b)).
Proof.
  intros Hpos Hpl Hn Hb Hal Hfit. unfold initFrameList, boot_frames.
  destruct (malloc_spec (4 * (pmem / PAGESIZE)) (fl_arena f) Hpos) as (p & a & Hm & _ & _ & Hp).
  erewrite bind_Ret by (apply lift_Ret; exact Hm). destruct Hp as [(_ & _ & [])|[-> _]]; [done|].
  destruct (Z.eqb_spec (brk_addr (fl_arena f)) NULL); [lia|]. mon. eexists. split; [done|]. split.
  - split. eexists. split; [done|]. rewrite init_frames_length. split; [lia|]. split; [apply init_frames_NoDup; lia|done].
  - intros p (i & fr & Hi & <-)%elem_of_pfns. rewrite init_frames_lookup in Hi. case_decide; [|done]. injection Hi as <-.
    unfold init_frame, bits. cbn [pfn]. pose proof (Z.pow_le_mono_r 2 24 PTE_PFN_BITS). 
    pose proof (Z.mod_pos_bound (Z.shiftr (PMEM_BASE + Z.of_nat i * PAGESIZE) PAGESHIFT) (2 ^ 24)). lia.
Qed.

(** ** The first part of [KernelStart] *)

(** What the hardware hands over: empty modules with plenty of memory, the
    kernel's data below its break, and that well below the stack. *)
Record machine_ready s (pmem : Z) : Prop := {
  mr_pt : pt_wf (k_pt s) /\ plenty (pt_arena (k_pt s));
  mr_room : brk_addr (pt_arena (k_pt s)) + 3 * (MAX_PT_LEN * PTE_SIZE) < 2 ^ 32;
  mr_fl : 0 < brk_addr (fl_arena (k_fl s)) /\ plenty (fl_arena (k_fl s));
  mr_pmem : 0 <= pmem / PAGESIZE <= 2 ^ 24 /\ 0 <= PMEM_BASE /\ PMEM_BASE mod PAGESIZE = 0;
  mr_bits : 24 <= PTE_PFN_BITS /\ MAX_PT_LEN <= 2 ^ 24;
  mr_data : kernelDataStart (k_glob s) <= currKernelBrk (k_glob s) /\ currKernelBrk (k_glob s) <= KERNEL_STACK_BASE;
  mr_pages : 2 <= KERNEL_STACK_BASE_VPN
}.

Record memory_started s (pmem : Z) (t0 t1 : ptr) (t : pt) (f : fl) (g : globals) : Prop := {
  ms_vm : vm_on t t0 t1;
  ms_stack i : KERNEL_STACK_BASE_VPN <= i < MAX_PT_LEN -> entry t t0 i = Some (mkPte 1 PROT_RW i);
  ms_r1 i : 0 <= i < MAX_PT_LEN -> entry t t1 i = Some (mkPte 0 PROT_NONE 0);
  ms_pt : pt_wf t /\ plenty (pt_arena t) /\ brk_addr (pt_arena t) + MAX_PT_LEN * PTE_SIZE < 2 ^ 32;
  ms_fl : fl_rep f (numFrames g) (pfns (boot_frames pmem (currKernelBrk (k_glob s))))
    (free_pfns (boot_frames pmem (currKernelBrk (k_glob s))));
  ms_fit : frames_fit (pfns (boot_frames pmem (currKernelBrk (k_glob s))));
  ms_addrs : r0StackBasePtep g = pte_at t0 KERNEL_STACK_BASE_VPN /\ tempPtep g = pte_at t0 (KERNEL_STACK_BASE_VPN - 1) /\
    tempVAddr g = (KERNEL_STACK_BASE_VPN - 1) * PAGESIZE
}.

(** A table below another one. *)
Lemma new_table_old t tb t' b : new_table t tb t' -> pt_wf t -> (forall i, 0 <= i < MAX_PT_LEN -> is_Some (entry t b i)) ->
  forall i, 0 <= i < MAX_PT_LEN -> entry t' b i = entry t b i.
Proof.
  intros [-> _ Hold _ _ _] [_ Hwf] Hb i Hi. apply Hold. specialize (Hwf _ (Hb i Hi)). pose proof PTE_SIZE_pos. lia.
Qed.

Lemma start_memory_ok s pmem : machine_ready s pmem ->
  exists t0 t1 t f g, start_memory pmem s = Ret (t0, t1) (with_glob g (with_pt t (with_fl f s))) /\
    memory_started s pmem t0 t1 t f g.
Proof.
  intros [[Hwf Hpl] Hroom [Hfpos Hfpl] (Hpm & Hb & Hal) [Hbits Hmax] [Hds Hbrk] Hpages].
  pose proof PTE_SIZE_pos. pose proof MAX_PT_LEN_pos. pose proof PAGESIZE_pos.
  destruct (new_region_table (k_pt s) Hwf Hpl) as (u1 & Hr1 & Hn1 & Hb1).
  destruct (new_region_table u1 (nt_wf _ _ _ Hn1) (nt_plenty _ _ _ Hn1)) as (u2 & Hr2 & Hn2 & Hb2).
  set (t0 := brk_addr (pt_arena (k_pt s))) in *. set (t1 := brk_addr (pt_arena u1)) in *.
  assert (t0 = brk_addr (pt_arena (k_pt s))) as Ht0 by done. assert (t1 = brk_addr (pt_arena u1)) as Ht1 by done.
  unfold start_memory, start_frame_list, start_vm. kmon. step (lift_pt _ s _ _ Hr1). cbn [fst snd]. change SUCCESS with 0. rewrite eqb_0_ERROR.
  rewrite bind_assoc. step (lift_pt _ (with_pt u1 s) _ _ Hr2). cbn [fst snd]. change SUCCESS with 0. rewrite eqb_0_ERROR.
  unfold set_numFrames. kmon. set (g1 := mkGlobals _ _ _ _ _ _ _ _ _). set (br := currKernelBrk _).
  destruct (initFrameList_frames (k_fl s) pmem br Hfpos Hfpl Hpm Hb Hal Hbits) as (f & Hfl & Hrep & Hfit).
  unfold or_halt. rewrite bind_assoc. step (lift_fl _ (with_glob g1 (with_pt u2 (with_pt u1 s))) _ _ Hfl). rewrite eqb_0_ERROR. kmon.
  assert (0 < t0) as Hpos by (destruct Hwf; lia).
  assert (forall i, 0 <= i < MAX_PT_LEN -> is_Some (entry u2 t0 i)) as Hs0.
  { intros i Hi. assert (entry u1 t0 i = Some (mkPte 0 PROT_NONE 0)) as He by by apply (nt_new _ _ _ Hn1).
    exists (mkPte 0 PROT_NONE 0). rewrite <- He. eapply new_table_old; [done|apply (nt_wf _ _ _ Hn1)| |done].
    intros j Hj. exists (mkPte 0 PROT_NONE 0). by apply (nt_new _ _ _ Hn1). }
  assert (table u2 t0) as Htab0 by (split; [done|]; split; [lia|done]).
  set (s3 := with_fl f _).
  destruct (fill_r0_ok s3 t0 (kernelDataStart g1) br Htab0 Hds Hbrk) as (u3 & Hfill & Hu3 & Hst).
  { etransitivity; [exact Hmax|]. apply Z.pow_le_mono_r; lia. }
  change (kernelDataStart (k_glob (with_fl f (with_glob g1 (with_pt u2 (with_pt u1 s)))))) with (kernelDataStart g1). step Hfill.
  change (k_pt s3) with u2 in Hu3.
  assert (apart t0 t1) as Hap by (left; lia).
  assert (forall i, 0 <= i < MAX_PT_LEN -> entry u3 t1 i = Some (mkPte 0 PROT_NONE 0)) as Hr1e.
  { intros i Hi. rewrite <- (nt_new _ _ _ Hn2 i Hi). apply (upd_ptes _ _ _ Hu3). intros (j & Hj%elem_of_seqZ & Heq). revert Heq.
    apply pte_at_apart; [unfold apart in *; lia|lia|lia]. }
  assert (table u3 t1) as Htab1 by (split; [lia|]; split; [lia|]; intros i Hi; rewrite Hr1e by done; by eexists).
  pose proof (pt_upd_table _ _ _ _ Hu3 Htab0) as Htab0'.
  unfold enable_vm. cbn [lift]. unfold set_addresses.
  eexists t0, t1, _, f, _. split; [done|].
  cbn [fst snd]. rewrite !u32_small by lia. split.
  - by split.
  - exact Hst.
  - exact Hr1e.
  - destruct (pt_upd_wf _ _ _ Hu3 (nt_wf _ _ _ Hn2)) as [Hp3 Hw3]. pose proof (nt_plenty _ _ _ Hn2) as Hp2.
    split; [by split|]. change (plenty (pt_arena u3) /\ brk_addr (pt_arena u3) + MAX_PT_LEN * PTE_SIZE < 2 ^ 32).
    rewrite (upd_arena _ _ _ Hu3). split; [done|lia].
  - exact Hrep.
  - exact Hfit.
  - cbn. rewrite KERNEL_BASE_VPN_eq, Z.sub_0_r. split; [done|]. split; [done|].
    rewrite KERNEL_STACK_BASE_VPN_eq, KERNEL_STACK_BASE_eq, KERNEL_STACK_LIMIT_eq, VMEM_0_LIMIT_eq, KERNEL_STACK_pages. lia.
Qed.

(** ** The second part: the modules *)

Lemma with_tty_arena s ty a : with_arena a (with_tty ty s) = with_tty ty (with_arena a s).
Proof. done. Qed.

(** Every terminal gets an empty buffer, one behind the other. *)
Lemma init_ttyBufs_ok n : forall s i b, mem_ok s -> (i + n <= length (buffers (k_tty s)))%nat ->
  exists a bs, init_ttyBufs n (Z.of_nat i) b s = Ret true (with_tty (mkTty bs (transmitted (k_tty s))) (with_arena a s)) /\
    plenty a /\ brk_addr (o_arena (k_obj s)) <= brk_addr a /\ length bs = length (buffers (k_tty s)) /\
    (forall j, (j < n)%nat -> bs !! (i + j)%nat = Some (Some (mkTtyBuf (b + Z.of_nat j * TTY_READ_BUFFER_SIZE) 0 0))) /\
    (forall j, (j < i)%nat -> bs !! j = buffers (k_tty s) !! j).
Proof.
  induction n as [|n IH]; intros s i b Hmem Hlen.
  - exists (o_arena (k_obj s)), (buffers (k_tty s)). split; [by destruct s as [? ? ? ? [] ? ? ? ? []]|].
    split; [apply Hmem|]. split_and!; try done; intros; lia.
  - cbn [init_ttyBufs]. destruct (kmalloc_next s 12 Hmem) as (a1 & Hm & _ & Hb1 & Ha1). step Hm.
    pose proof (mem_pos _ Hmem). destruct (Z.eqb_spec (brk_addr (o_arena (k_obj s))) NULL); [lia|].
    unfold set_buffer. mon. rewrite Nat2Z.id. change (k_tty (with_arena a1 s)) with (k_tty s). set (s1 := with_tty _ _).
    assert (mem_ok s1) as Hmem1 by (by destruct (mem_ok_arena s a1 Hmem Ha1 ltac:(lia))).
    assert (length (buffers (k_tty s1)) = length (buffers (k_tty s))) as Hl1 by (cbn; by rewrite length_insert).
    destruct (IH s1 (Datatypes.S i) (b + TTY_READ_BUFFER_SIZE) Hmem1) as (a & bs & Hrun & Ha & Hle & Hl & Hnew & Hold); [lia|].
    replace (Z.of_nat i + 1) with (Z.of_nat (Datatypes.S i)) by lia.
    exists a, bs. split; [rewrite Hrun; done|]. split; [done|]. split; [change (brk_addr a1 <= brk_addr a) in Hle; lia|].
    split; [congruence|]. split.
    + intros [|j] Hj.
      * rewrite Nat.add_0_r, Hold by lia. cbn. rewrite list_lookup_insert_eq by lia. by rewrite Z.add_0_r.
      * replace (i + Datatypes.S j)%nat with (Datatypes.S i + j)%nat by lia. rewrite Hnew by lia.
        do 3 f_equal. lia.
    + intros j Hj. rewrite Hold by lia. cbn. by rewrite list_lookup_insert_ne by lia.
Qed.

(** [initBuffers]: the page below the temporary one gets a frame, the buffers
    of the terminals lie in it. *)
Lemma initBuffers_ok s t0 all avail : mem_ok s -> mmu_ok s t0 -> 2 <= KERNEL_STACK_BASE_VPN ->
  fl_rep (k_fl s) (numFrames (k_glob s)) all avail -> avail <> ∅ -> frames_fit all ->
  (Z.to_nat NUM_TERMINALS <= length (buffers (k_tty s)))%nat ->
  exists fr f' t' a bs, initBuffers s = Ret SUCCESS (with_tty (mkTty bs (transmitted (k_tty s))) (with_arena a (with_pt t' (with_fl f' s)))) /\
    fr ∈ avail /\ fl_rep f' (numFrames (k_glob s)) all (avail ∖ {[fr]}) /\
    pt_upd (entries_of t0 [KERNEL_STACK_BASE_VPN - 2]) (k_pt s) t' /\
    entry t' t0 (KERNEL_STACK_BASE_VPN - 2) = Some (mkPte 1 PROT_RW fr) /\
    plenty a /\ brk_addr (o_arena (k_obj s)) <= brk_addr a /\
    (forall j, (j < Z.to_nat NUM_TERMINALS)%nat -> bs !! j = Some (Some (mkTtyBuf
       ((KERNEL_STACK_BASE_VPN - 2) * PAGESIZE + Z.of_nat j * TTY_READ_BUFFER_SIZE) 0 0))).
Proof.
  intros Hmem Hmmu Hvpn Hfl Hne Hfit Hlen. pose proof KERNEL_STACK_room. pose proof KERNEL_STACK_BASE_VPN_eq.
  destruct (getFrame_ok _ _ _ _ Hfl Hne) as (fr & f' & Hg & Hfr & Hfl' & _).
  destruct Hmmu as [Hvm _ Htemp Htv].
  assert (0 <= fr < 2 ^ PTE_PFN_BITS) as Hfrb by (apply Hfit, (fl_rep_subset _ _ _ _ Hfl); done).
  unfold initBuffers. kmon. rewrite Htemp, Htv. change TOTAL_READ_BUFFER_PAGES with 1.
  set (t' := set_entry (k_pt s) (pte_at t0 (KERNEL_STACK_BASE_VPN - 2)) ((KERNEL_STACK_BASE_VPN - 2) * PAGESIZE) 1 PROT_RW fr).
  assert (setPageTableEntry (pte_at t0 (KERNEL_STACK_BASE_VPN - 2)) 1 PROT_RW fr (k_pt s) = Ret tt t') as Hset
    by (apply setPageTableEntry_r0; [done|lia]).
  cbn [seqZ foldM]. change (seqZ 0 1) with [0]. cbn [foldM]. kmon. step (lift_fl _ s _ _ Hg).
  rewrite pte_at_add. replace (KERNEL_STACK_BASE_VPN - 1 + (- (1) + 0)) with (KERNEL_STACK_BASE_VPN - 2) by lia.
  step (lift_pt _ (with_fl f' s) _ _ Hset). mon.
  set (s1 := with_pt t' (with_fl f' s)).
  destruct (init_ttyBufs_ok (Z.to_nat NUM_TERMINALS) s1 0 ((KERNEL_STACK_BASE_VPN - 1) * PAGESIZE - 1 * PAGESIZE))
    as (a & bs & Hrun & Ha & Hle & _ & Hnew & _); [by destruct Hmem|exact Hlen|]. change (Z.of_nat 0) with 0 in Hrun. step Hrun.
  exists fr, f', t', a, bs. split; [done|]. split; [done|]. split; [done|]. split_and!; try done.
  - apply pt_upd_set_entry; [exists (KERNEL_STACK_BASE_VPN - 2); split; [set_solver|done]|]. apply (vm0_table _ _ Hvm). lia.
  - unfold entry, t'. cbn. rewrite lookup_insert_eq, bits_RW. unfold bits. by rewrite !Z.mod_small by lia.
  - intros j Hj. etransitivity; [exact (Hnew j Hj)|]. do 3 f_equal. lia.
Qed.

(** A new, empty map. *)
Lemma new_map_ok h ms n : 0 < n -> m_rep h ms -> m_plenty h ->
  exists p h', HashMap_new n h = Ret p h' /\ p <> NULL /\ ms !! p = None /\ m_rep h' (<[p := ∅]> ms) /\ m_plenty h'.
Proof.
  intros Hn Hm Hp. destruct (HashMap_new_spec h ms n Hn Hm) as [[[] _]|(p & h' & Hr & Hpl & Hc)]; [done|].
  destruct Hc as [(_ & [] & _)|(? & ? & ?)]; [done|]. exists p, h'. split_and!; auto.
Qed.
Lemma new_queue_ok h qs : q_rep h qs -> q_plenty h ->
  exists p h', make_q h = Ret p h' /\ p <> NULL /\ qs !! p = None /\ q_rep h' (<[p := []]> qs) /\ q_plenty h'.
Proof.
  intros Hm Hp. destruct (make_q_spec h qs Hm) as (p & h' & Hr & Hpl & Hc).
  destruct Hc as [(_ & [] & _)|(? & ? & ?)]; [done|]. exists p, h'. split_and!; auto.
Qed.

(** The queues of the terminals. *)
Lemma init_ttys_ok n : forall s i qs, q_rep (k_qh s) qs -> q_plenty (k_qh s) ->
  (i + n <= length (transmittingQs (k_sched s)))%nat -> (i + n <= length (readingQs (k_sched s)))%nat ->
  exists h tq rq qs', init_ttys (seqZ (Z.of_nat i) (Z.of_nat n)) s = Ret SUCCESS (with_sched (with_ttyQs tq rq (k_sched s)) (with_qh h s)) /\
    q_rep h qs' /\ q_plenty h /\ qs ⊆ qs' /\
    (forall j, (j < n)%nat -> exists t r, tq !! (i + j)%nat = Some t /\ rq !! (i + j)%nat = Some r /\
       qs' !! t = Some [] /\ qs' !! r = Some [] /\ qs !! t = None /\ qs !! r = None /\ t <> r) /\
    (forall j, (j < i)%nat -> tq !! j = transmittingQs (k_sched s) !! j /\ rq !! j = readingQs (k_sched s) !! j).
Proof.
  induction n as [|n IH]; intros s i qs Hq Hpl Ht Hr.
  - exists (k_qh s), (transmittingQs (k_sched s)), (readingQs (k_sched s)), qs. split; [by destruct s as [? ? ? ? ? [] ? ? ? ?]|].
    split_and!; try done; intros; lia.
  - rewrite seqZ_cons by lia. cbn [init_ttys]. unfold init_tty.
    destruct (new_queue_ok _ _ Hq Hpl) as (t & h1 & Hr1 & Ht1 & Hn1 & Hq1 & Hp1).
    rewrite bind_assoc. step (lift_qh _ s _ _ Hr1). kmon. set (s1 := with_sched _ _). destruct (Z.eqb_spec t NULL); [done|].
    destruct (new_queue_ok (k_qh s1) _ Hq1 Hp1) as (r & h2 & Hr2 & Ht2 & Hn2 & Hq2 & Hp2).
    kmon. step (lift_qh _ s1 _ _ Hr2). kmon. set (s2 := with_sched _ _). destruct (Z.eqb_spec r NULL); [done|]. cbn [negb].
    apply lookup_insert_None in Hn2 as [Hnr Htr].
    destruct (IH s2 (Datatypes.S i) _ Hq2 Hp2) as (h & tq & rq & qs' & Hrun & Hq' & Hp' & Hsub & Hnew & Hold).
    { cbn. rewrite length_insert. lia. } { cbn. rewrite length_insert. lia. }
    replace (Z.succ (Z.of_nat i)) with (Z.of_nat (Datatypes.S i)) by lia.
    replace (Z.pred (Z.of_nat (Datatypes.S n))) with (Z.of_nat n) by lia.
    exists h, tq, rq, qs'. split; [rewrite Hrun; by destruct s as [? ? ? ? ? [] ? ? ? ?]|].
    assert (qs ⊆ qs') as Hqs.
    { etransitivity; [|exact Hsub]. etransitivity; [|apply insert_subseteq; by rewrite lookup_insert_ne]. by apply insert_subseteq. }
    split_and!; try done.
    + intros [|j] Hj.
      * rewrite Nat.add_0_r. exists t, r. destruct (Hold i ltac:(lia)) as [-> ->]. cbn.
        rewrite !Nat2Z.id, !list_lookup_insert_eq by lia. split_and!; try done.
        { eapply lookup_weaken; [|exact Hsub]. rewrite lookup_insert_ne by done. apply lookup_insert_eq. }
        { eapply lookup_weaken; [|exact Hsub]. apply lookup_insert_eq. }
      * destruct (Hnew j ltac:(lia)) as (t' & r' & H1 & H2 & H3 & H4 & H5 & H6 & H7).
        replace (i + Datatypes.S j)%nat with (Datatypes.S i + j)%nat by lia. exists t', r'.
        rewrite !lookup_insert_None in H5, H6. naive_solver.
    + intros j Hj. destruct (Hold j ltac:(lia)) as [-> ->]. cbn. rewrite !Nat2Z.id, !list_lookup_insert_ne by lia. done.
Qed.

(** The scheduler before the first process runs: the processes [l] are ready,
    nobody is blocked or asleep, nobody is at a terminal; [n] pids were given
    out. *)
Record sched_up s (qs : gmap ptr (list ptr)) (ms : gmap ptr (gmap Z ptr)) (l : list ptr) (n : Z) : Prop := {
  se_q : q_rep (k_qh s) qs /\ q_plenty (k_qh s);
  se_m : m_rep (k_mh s) ms /\ m_plenty (k_mh s);
  se_ready : qs !! readyQ (k_sched s) = Some l;
  se_blocked : ms !! blockedMap (k_sched s) = Some ∅;
  se_sleeping : ms !! sleepingMap (k_sched s) = Some ∅;
  se_maps : blockedMap (k_sched s) <> sleepingMap (k_sched s);
  se_pid : nextPid (k_sched s) = n;
  se_ttys i : 0 <= i < NUM_TERMINALS -> exists tq rq, tty_is s qs i NULL tq [] rq []
}.

(** Nobody transmits, and there are as many terminals as the hardware has. *)
Definition ttys_unused (c : sched_t) : Prop :=
  currTransmitters c = replicate (Z.to_nat NUM_TERMINALS) NULL /\
  length (transmittingQs c) = Z.to_nat NUM_TERMINALS /\ length (readingQs c) = Z.to_nat NUM_TERMINALS.

Lemma initScheduler_ok s qs ms : q_rep (k_qh s) qs -> q_plenty (k_qh s) -> m_rep (k_mh s) ms -> m_plenty (k_mh s) ->
  ttys_unused (k_sched s) ->
  exists qh mh sc qs' ms', let s' := with_sched sc (with_mh mh (with_qh qh s)) in
    initScheduler s = Ret SUCCESS s' /\ sched_up s' qs' ms' [] 0 /\ ms ⊆ ms' /\
    lockMap sc = lockMap (k_sched s) /\ cvarMap sc = cvarMap (k_sched s) /\ pipeMap sc = pipeMap (k_sched s).
Proof.
  intros Hq Hqp Hm Hmp (Htr & Htq & Hrq). pose proof NUM_TERMINALS_pos.
  unfold initScheduler. kmon.
  destruct (new_queue_ok _ _ Hq Hqp) as (q & h1 & Hr1 & Hq1 & Hn1 & Hqr & Hqp1).
  step (lift_qh _ (with_sched (with_nextSyncId 0 (with_nextPid 0 (k_sched s))) s) _ _ Hr1). kmon.
  destruct (Z.eqb_spec q NULL); [done|].
  destruct (new_map_ok (k_mh s) ms BLOCKED_MAP_HASH_BUCKETS ltac:(done) Hm Hmp) as (b & m1 & Hr2 & Hb1 & Hb2 & Hm1 & Hmp1).
  match goal with |- context [bind (lift (HashMap_new _)) _ ?s2] => step (lift_mh _ s2 _ _ Hr2) end. kmon.
  destruct (Z.eqb_spec b NULL); [done|].
  destruct (new_map_ok m1 _ SLEEPING_MAP_HASH_BUCKETS ltac:(done) Hm1 Hmp1) as (m & m2 & Hr3 & Hc1 & Hc2 & Hm2 & Hmp2).
  match goal with |- context [bind (lift (HashMap_new _)) _ ?s2] => step (lift_mh _ s2 _ _ Hr3) end. kmon.
  destruct (Z.eqb_spec m NULL); [done|].
  match goal with |- context [init_ttys _ ?s3] =>
    destruct (init_ttys_ok (Z.to_nat NUM_TERMINALS) s3 0 _ Hqr Hqp1) as (h & tq & rq & qs' & Hrun & Hq' & Hqp' & Hsub & Hnew & _) end;
    [cbn; lia..|].
  rewrite Z2Nat.id in Hrun by lia. change (Z.of_nat 0) with 0 in Hrun.
  apply lookup_insert_None in Hc2 as [Hc2 Hbm].
  exists h, m2, (with_ttyQs tq rq (with_queues q b m (with_nextSyncId 0 (with_nextPid 0 (k_sched s))))), qs', (<[m := ∅]> (<[b := ∅]> ms)).
  cbn zeta. split; [rewrite Hrun; done|].
  assert (qs' !! q = Some []) as Hqq by (eapply lookup_weaken; [apply lookup_insert_eq|exact Hsub]).
  split; [|split; [|done]].
  - split; cbn; try done.
    + rewrite lookup_insert_ne by done. apply lookup_insert_eq.
    + apply lookup_insert_eq.
    + intros i Hi. destruct (Hnew (Z.to_nat i) ltac:(lia)) as (t & r & H1 & H2 & H3 & H4 & H5 & H6 & H7).
      apply lookup_insert_None in H5 as [_ H5], H6 as [_ H6]. exists t, r. split; cbn; try done; [lia| |congruence..].
      rewrite Htr. apply lookup_replicate_2. lia.
  - transitivity (<[b := ∅]> ms); apply insert_subseteq; [done|]. by rewrite lookup_insert_ne.
Qed.

(** The kernel after [start_modules]: the page of the terminals' buffers is
    mapped, to the frame [fr]; empty maps, queues and buffers. *)
Record modules_started s (t0 : ptr) (all avail : gset Z) (fr : Z) s' (qs : gmap ptr (list ptr)) (ms : gmap ptr (gmap Z ptr)) : Prop := {
  md_fl : fr ∈ avail /\ fl_rep (k_fl s') (numFrames (k_glob s)) all (avail ∖ {[fr]});
  md_pt : pt_upd (entries_of t0 [KERNEL_STACK_BASE_VPN - 2]) (k_pt s) (k_pt s') /\
    entry (k_pt s') t0 (KERNEL_STACK_BASE_VPN - 2) = Some (mkPte 1 PROT_RW fr);
  md_mem : mem_ok s';
  md_same : pcbs (k_obj s') = pcbs (k_obj s) /\ k_glob s' = k_glob s /\ k_mem s' = k_mem s /\ k_frame s' = k_frame s;
  md_sched : sched_up s' qs ms [] 0;
  md_sync : ms !! lockMap (k_sched s') = Some ∅ /\ ms !! cvarMap (k_sched s') = Some ∅ /\ ms !! pipeMap (k_sched s') = Some ∅;
  md_buffers j : (j < Z.to_nat NUM_TERMINALS)%nat -> buffers (k_tty s') !! j =
    Some (Some (mkTtyBuf ((KERNEL_STACK_BASE_VPN - 2) * PAGESIZE + Z.of_nat j * TTY_READ_BUFFER_SIZE) 0 0));
  md_output : transmitted (k_tty s') = transmitted (k_tty s)
}.

Lemma or_halt_ok m s r s' : m s = Ret r s' -> 0 <= r -> or_halt m s = Ret tt s'.
Proof. intros Hm Hr. unfold or_halt. step Hm. pose proof ERROR_neg. destruct (Z.eqb_spec r ERROR); [lia|done]. Qed.

(** A new map for synchronisation objects, put into its global by [f]. *)
Lemma new_sync_map_ok s ms n (f : ptr -> sched_t -> sched_t) : 0 < n -> m_rep (k_mh s) ms -> m_plenty (k_mh s) ->
  exists p h, or_halt (let! m := lift (HashMap_new n) in set_sched (f m) ;;; ret (if m =? NULL then ERROR else SUCCESS)) s =
      Ret tt (with_sched (f p (k_sched s)) (with_mh h s)) /\
    ms !! p = None /\ m_rep h (<[p := ∅]> ms) /\ m_plenty h.
Proof.
  intros Hn Hm Hp. destruct (new_map_ok _ _ n Hn Hm Hp) as (p & h & Hr & Hnz & Hno & Hm' & Hp'). exists p, h.
  split; [|done]. eapply or_halt_ok; [|reflexivity]. step (lift_mh _ s _ _ Hr). kmon. by destruct (Z.eqb_spec p NULL).
Qed.

Lemma start_modules_ok s t0 all avail qs ms : mem_ok s -> mmu_ok s t0 -> 2 <= KERNEL_STACK_BASE_VPN ->
  fl_rep (k_fl s) (numFrames (k_glob s)) all avail -> avail <> ∅ -> frames_fit all ->
  (Z.to_nat NUM_TERMINALS <= length (buffers (k_tty s)))%nat ->
  q_rep (k_qh s) qs -> q_plenty (k_qh s) -> m_rep (k_mh s) ms -> m_plenty (k_mh s) -> ttys_unused (k_sched s) ->
  exists fr s' qs' ms', start_modules s = Ret tt s' /\ modules_started s t0 all avail fr s' qs' ms'.
Proof.
  intros Hmem Hmmu Hvpn Hfl Hne Hfit Hlen Hq Hqp Hm Hmp Htty.
  destruct (initBuffers_ok s t0 all avail) as (fr & f' & t' & a & bs & Hb & Hfr & Hfl' & Hupd & He & Ha & Hle & Hbs); try done.
  set (s1 := with_tty _ _) in Hb. unfold start_modules. step (or_halt_ok _ _ _ _ Hb ltac:(done)).
  destruct (new_sync_map_ok s1 ms LOCK_MAP_HASH_BUCKETS (fun m c => with_syncMaps m (cvarMap c) (pipeMap c) c) ltac:(done) Hm Hmp)
    as (pl & h1 & Hr1 & Hn1 & Hm1 & Hp1). unfold initLockMap. step Hr1. set (s2 := with_sched _ _).
  destruct (new_sync_map_ok s2 _ CVAR_MAP_HASH_BUCKETS (fun m c => with_syncMaps (lockMap c) m (pipeMap c) c) ltac:(done) Hm1 Hp1)
    as (pc & h2 & Hr2 & Hn2 & Hm2 & Hp2). unfold initCvarMap. step Hr2. set (s3 := with_sched _ _).
  destruct (new_sync_map_ok s3 _ PIPE_MAP_HASH_BUCKETS (fun m c => with_syncMaps (lockMap c) (cvarMap c) m c) ltac:(done) Hm2 Hp2)
    as (pp & h3 & Hr3 & Hn3 & Hm3 & Hp3). unfold initPipeMap. step Hr3. set (s4 := with_sched _ _).
  destruct (initScheduler_ok s4 qs _ Hq Hqp Hm3 Hp3 Htty) as (qh & mh & sc & qs' & ms' & Hr4 & Hse & Hsub & Hl & Hc & Hpm).
  cbn zeta in Hr4, Hse. exists fr, (with_sched sc (with_mh mh (with_qh qh s4))), qs', ms'. split; [by apply (or_halt_ok _ _ _ _ Hr4)|].
  apply lookup_insert_None in Hn2 as [_ Hlc], Hn3 as [Hn3 Hcp]. apply lookup_insert_None in Hn3 as [_ Hlp].
  split; try done.
  - destruct (mem_ok_arena s a Hmem Ha Hle). by split.
  - cbn. rewrite Hl, Hc, Hpm. split_and!; (eapply lookup_weaken; [|exact Hsub]); cbn; rewrite ?lookup_insert_ne by done; apply lookup_insert_eq.
Qed.

(** ** The idle process *)

(** [initProcess] makes a process and puts it into the ready queue. *)
Lemma initProcess_ok s ms all avail qs l : can_init s ms all avail ->
  q_rep (k_qh s) qs -> q_plenty (k_qh s) -> qs !! readyQ (k_sched s) = Some l ->
  exists p cm tb fs a h t' f' qh, initProcess s =
      Ret (Some p) (with_qh qh (upd_pcb p (new_pcb (nextPid (k_sched s)) cm tb fs) (initialised a h t' f' s))) /\
    pcb_made s ms all avail p cm tb fs a h t' f' /\
    q_rep qh (<[readyQ (k_sched s) := l ++ [p]]> qs) /\ q_plenty qh.
Proof.
  intros Hcan Hq Hqp Hl. destruct (initPCB_ok s ms all avail Hcan) as (p & cm & tb & fs & a & h & t' & f' & Hrun & Hmade).
  destruct (enq_q_spec (k_qh s) qs _ l p Hq Hl) as (r & qh & Henq & Hqp' & Hc). destruct Hc as [(_ & [] & _)|[-> Hq']]; [done|].
  exists p, cm, tb, fs, a, h, t', f', qh. split; [|by auto]. unfold initProcess. step Hrun. set (s1 := upd_pcb _ _ _). kmon.
  change (readyQ (k_sched s1)) with (readyQ (k_sched s)). step (lift_qh _ s1 _ _ Henq). by rewrite eqb_0_ERROR.
Qed.

(** How the idle process starts. *)
Definition idle_uctxt (DoIdle : Z) (u : UserContext) : UserContext :=
  let sp := args_base VMEM_1_LIMIT 0 - INITIAL_STACK_FRAME_SIZE in set_ebp sp (set_pc DoIdle (set_sp sp u)).

(** [LoadIdle]: a page of stack, and no program: the code is the kernel's. *)
Lemma LoadIdle_ok s D p x u tb all avail : pcbs (k_obj s) !! p = Some x -> r1PageTable x = Some tb -> uctxt x = Some u ->
  is_Some (entry (k_pt s) tb (MAX_PT_LEN - 1)) ->
  fl_rep (k_fl s) (numFrames (k_glob s)) all avail -> avail <> ∅ -> frames_fit all ->
  exists fr f' t', LoadIdle D p s = Ret SUCCESS (upd_pcb p (with_uctxt (Some (idle_uctxt D u)) x) (with_pt t' (with_fl f' s))) /\
    fr ∈ avail /\ fl_rep f' (numFrames (k_glob s)) all (avail ∖ {[fr]}) /\
    pt_upd (entries_of tb [MAX_PT_LEN - 1]) (k_pt s) t' /\ entry t' tb (MAX_PT_LEN - 1) = Some (mkPte 1 PROT_RW fr).
Proof.
  intros Hx Htb Hu He Hfl Hne Hfit. destruct (getFrame_ok _ _ _ _ Hfl Hne) as (fr & f' & Hg & Hfr & Hfl' & _).
  assert (0 <= fr < 2 ^ PTE_PFN_BITS) as Hfrb by (apply Hfit, (fl_rep_subset _ _ _ _ Hfl); done).
  destruct (setNoFlush_ok (k_pt s) tb (MAX_PT_LEN - 1) 1 PROT_RW fr He) as (t' & Hset & Hupd & He').
  exists fr, f', t'. split.
  - unfold LoadIdle. step (load_pcb_ok s p x Hx). step_rd Htb. kmon. step (lift_fl _ s _ _ Hg).
    step (lift_pt _ (with_fl f' s) _ _ Hset). set (s1 := with_pt t' _). set (sp := args_base VMEM_1_LIMIT 0 - INITIAL_STACK_FRAME_SIZE).
    step (update_uctxt_ok s1 p x u (set_sp sp) Hx Hu). set (x1 := with_uctxt _ x).
    assert (pcbs (k_obj (upd_pcb p x1 s1)) !! p = Some x1) as Hx1 by apply lookup_insert_eq.
    step (update_uctxt_ok _ p x1 _ (set_pc D) Hx1 eq_refl). set (x2 := with_uctxt _ x1). rewrite upd_pcb_twice.
    assert (pcbs (k_obj (upd_pcb p x2 s1)) !! p = Some x2) as Hx2 by apply lookup_insert_eq.
    step (update_uctxt_ok _ p x2 _ (set_ebp sp) Hx2 eq_refl). by rewrite upd_pcb_twice.
  - split_and!; try done. rewrite He', bits_RW. unfold bits. by rewrite !Z.mod_small by lia.
Qed.

(** ** The process init *)

(** Its PCB: the kernel stack is the one in use, the page table the current
    one. *)
Definition init_pcb (pid : Z) (cm t1 : ptr) (fs : list Z) : PCB_t :=
  mkPCB pid None (Some fresh_UserContext) (Some KNew) (Some cm) 0 NULL (Some NULL) (Some t1) 0 (Some <$> fs).

(** The loop that copies the frames of the kernel stack into the PCB. *)
Lemma own_stack_ok p t0 fs : forall n s k y, stack_mapped (k_pt s) t0 fs -> Z.of_nat (k + n) = STACK_PAGES ->
  length fs = (k + n)%nat -> stackPfns y = half_stack (take k fs) n ->
  foldM (fun i => let! e := lift (load_pte (pte_at (pte_at t0 KERNEL_STACK_BASE_VPN) i)) in update_pcb p (set_stackPfn i (pte_pfn e)))
    (seqZ (Z.of_nat k) (Z.of_nat n)) (upd_pcb p y s) = Ret tt (upd_pcb p (with_stackPfns (Some <$> fs) y) s).
Proof.
  induction n as [|n IH]; intros s k y Hmap Hk Hlen Hy.
  - unfold half_stack in Hy. rewrite take_ge, app_nil_r in Hy by lia. cbn. rewrite <- Hy. by destruct y.
  - rewrite seqZ_cons by lia. cbn [foldM]. destruct (Hmap (Z.of_nat k) ltac:(lia)) as (f & Hf & He). rewrite Nat2Z.id in Hf.
    assert (load_pte (pte_at (pte_at t0 KERNEL_STACK_BASE_VPN) (Z.of_nat k)) (k_pt s) = Ret (mkPte 1 PROT_RW f) (k_pt s)) as Hl
      by (unfold load_pte; by rewrite stack_pte_at, He).
    rewrite bind_assoc. step (lift_pt _ (upd_pcb p y s) _ _ Hl).
    change (with_pt (k_pt s) (upd_pcb p y s)) with (upd_pcb p y (with_pt (k_pt s) s)). rewrite with_pt_id, bind_update_upd. cbn [pte_pfn].
    replace (Z.succ (Z.of_nat k)) with (Z.of_nat (Datatypes.S k)) by lia.
    replace (Z.pred (Z.of_nat (Datatypes.S n))) with (Z.of_nat n) by lia.
    rewrite (IH s (Datatypes.S k)); [done|done|lia|lia|]. unfold set_stackPfn. cbn. rewrite Nat2Z.id, Hy.
    rewrite (take_S_r _ _ _ Hf). rewrite <- (half_stack_insert (take k fs) n f). f_equal. rewrite length_take. lia.
Qed.

Lemma initInitProcess_ok s t0 t1 ms fs : mem_ok s -> m_rep (k_mh s) ms -> m_plenty (k_mh s) ->
  r0StackBasePtep (k_glob s) = pte_at t0 KERNEL_STACK_BASE_VPN -> stack_mapped (k_pt s) t0 fs -> Z.of_nat (length fs) = STACK_PAGES ->
  exists p cm a h, let pid := nextPid (k_sched s) in
    initInitProcess t1 s = Ret (Some p) (upd_pcb p (init_pcb pid cm t1 fs)
      (with_sched (with_initPid pid (with_nextPid (pid + 1) (k_sched s))) (with_mh h (with_arena a s)))) /\
    0 < p < brk_addr a /\ pcbs (k_obj s) !! p = None /\ plenty a /\ brk_addr (o_arena (k_obj s)) <= brk_addr a /\
    m_rep h (<[cm := ∅]> ms) /\ m_plenty h /\ ms !! cm = None.
Proof.
  intros Hmem Hm Hmp Hbase Hmap Hlen. pose proof (mem_pos _ Hmem) as Hpos. unfold initInitProcess.
  destruct (kmalloc_next s sizeof_PCB Hmem) as (a1 & Hm1 & Hp & Hb1 & Ha1). set (p := brk_addr (o_arena (k_obj s))) in *. step Hm1.
  destruct (Z.eqb_spec p NULL); [lia|]. kmon. set (s1 := with_sched _ _).
  assert (mem_ok s1) as Hmem1 by (by destruct (mem_ok_arena s a1 Hmem Ha1 ltac:(lia))).
  destruct (kmalloc_next s1 sizeof_UserContext Hmem1) as (a2 & Hm2 & _ & Hb2 & Ha2). step Hm2.
  pose proof (mem_pos _ Hmem1). set (u := brk_addr (o_arena (k_obj s1))) in *.
  destruct (Z.eqb_spec u NULL); [lia|]. rewrite bind_set_pcb. set (y := with_pid _ _). change u with (brk_addr a1) in Hb2.
  assert (mem_ok (upd_pcb p y (with_arena a2 s1))) as Hmem2.
  { apply mem_ok_new; [|cbn; lia]. apply mem_ok_arena; [done|done|change (brk_addr a1 <= brk_addr a2); lia]. }
  destruct (kmalloc_next _ sizeof_KernelContext Hmem2) as (a & Hm3 & _ & Hb3 & Ha). step Hm3.
  change (brk_addr (o_arena (k_obj (upd_pcb p y (with_arena a2 s1))))) with (brk_addr a2) in *.
  destruct (Z.eqb_spec (brk_addr a2) NULL); [lia|]. change (with_arena a (upd_pcb p y (with_arena a2 s1))) with (upd_pcb p y (with_arena a s1)).
  rewrite !bind_update_upd.
  destruct (new_map_ok (k_mh s) ms CHILDREN_MAP_HASH_BUCKETS ltac:(done) Hm Hmp) as (cm & h & Hcm & Hcmz & Hcmn & Hrep & Hmp').
  match goal with |- context [bind (lift (HashMap_new _)) _ (upd_pcb p ?z ?s2)] =>
    step (lift_mh _ (upd_pcb p z s2) _ _ Hcm); change (with_mh h (upd_pcb p z s2)) with (upd_pcb p z (with_mh h s2)) end.
  rewrite bind_update_upd. kmon. change (r0StackBasePtep (k_glob (upd_pcb _ _ _))) with (r0StackBasePtep (k_glob s)). rewrite Hbase.
  match goal with |- context [bind (foldM _ _) _ (upd_pcb p ?z ?s2)] =>
    pose proof (own_stack_ok p t0 fs (Z.to_nat STACK_PAGES) s2 0 z Hmap ltac:(lia) ltac:(lia) eq_refl) as Hown end.
  rewrite Z2Nat.id in Hown by lia. change (Z.of_nat 0) with 0 in Hown. step Hown.
  exists p, cm, a, h. split; [done|]. split_and!; try done; lia.
Qed.

(** ** The end: the first process runs *)

(** The pages of the kernel stack, from page [k] on. *)
Definition stack_pages s (fs : list Z) : list (gmap Z Z) := (fun f => page f s) <$> fs.

Lemma read_stack_ok s t0 fs : mmu_ok s t0 -> stack_mapped (k_pt s) t0 fs -> forall n k, Z.of_nat (k + n) = STACK_PAGES ->
  length fs = (k + n)%nat -> read_stack (seqZ (Z.of_nat k) (Z.of_nat n)) s = Ret (stack_pages s (drop k fs)) s.
Proof.
  intros Hmmu Hmap. induction n as [|n IH]; intros k Hk Hlen.
  - cbn. by rewrite drop_ge by lia.
  - rewrite seqZ_cons by lia. cbn [read_stack].
    destruct (translate_stack s t0 fs (Z.of_nat k) PROT_READ Hmmu Hmap ltac:(lia) PROT_RW_read) as (f & Hf & Ht).
    rewrite Nat2Z.id in Hf. step Ht. mon. replace (Z.succ (Z.of_nat k)) with (Z.of_nat (Datatypes.S k)) by lia.
    replace (Z.pred (Z.of_nat (Datatypes.S n))) with (Z.of_nat n) by lia.
    step (IH (Datatypes.S k) ltac:(lia) ltac:(lia)). by rewrite (drop_S _ _ _ Hf).
Qed.

(** [start_init]: the kernel's stack and context are kept for the processes to
    come, and the process [p] runs. *)
Lemma start_init_ok s t0 fs p : mem_ok s -> mmu_ok s t0 -> stack_mapped (k_pt s) t0 fs -> Z.of_nat (length fs) = STACK_PAGES ->
  exists a, let kc := mkKctxt KStart (k_frame s) in
    start_init p s = Switch kc (with_glob (with_starter (Some kc) (Some (stack_pages s fs)) (k_glob s))
      (with_arena a (with_sched (with_currPCB p (k_sched s)) s))) /\
    plenty a /\ brk_addr (o_arena (k_obj s)) <= brk_addr a.
Proof.
  intros Hmem Hmmu Hmap Hlen. pose proof (mem_pos _ Hmem). unfold start_init. kmon. set (s1 := with_sched _ _).
  assert (mem_ok s1) as Hmem1 by (by destruct Hmem).
  destruct (kmalloc_next s1 KERNEL_STACK_MAXSIZE Hmem1) as (a1 & Hm1 & _ & Hb1 & Ha1). step Hm1.
  change (brk_addr (o_arena (k_obj s1))) with (brk_addr (o_arena (k_obj s))) in *.
  destruct (Z.eqb_spec (brk_addr (o_arena (k_obj s))) NULL); [lia|].
  assert (mem_ok (with_arena a1 s1)) as Hmem2 by (apply mem_ok_arena; [done|done|cbn; lia]).
  destruct (kmalloc_next _ sizeof_KernelContext Hmem2) as (a & Hm2 & _ & Hb2 & Ha). step Hm2.
  change (brk_addr (o_arena (k_obj (with_arena a1 s1)))) with (brk_addr a1) in *.
  destruct (Z.eqb_spec (brk_addr a1) NULL); [lia|]. exists a. cbn zeta. split; [|split; [done|lia]].
  change (with_arena a (with_arena a1 s1)) with (with_arena a s1). set (s2 := with_arena a s1).
  assert (mmu_ok s2 t0) as Hmmu2 by (by destruct Hmmu).
  pose proof (read_stack_ok s2 t0 fs Hmmu2 Hmap (Z.to_nat STACK_PAGES) 0 ltac:(lia) ltac:(lia)) as Hst.
  rewrite Z2Nat.id in Hst by lia. change (Z.of_nat 0) with 0 in Hst. rewrite drop_0 in Hst.
  unfold or_halt, KernelContextSwitch, getStarterKernelState, bind at 1. change (k_frame s2) with (k_frame s).
  step Hst. kmon. done.
Qed.
End laws.
