(* ===== verification/StartLaws.v ===== *)
(** The start of the kernel, put together: [KernelStart] from the state the
    hardware hands over to the first process in user mode. *)

From stdpp Require Import base gmap sets list.
From S2P Require Import Prelude Hardware Queue HashMap FrameList State UserMem Scheduler SyncObjects LoadProgram GeneralCalls Tty Machine PageTable.
From S2P Require Import SwitchLaws SchedView SchedLaws CopyLaws InitLaws CallLaws ExitLaws TtyLaws SpaceLaws LoadLaws ExecLaws ForkCall BootLaws.

Section laws.
Context {QH MH : Type} `{HL : HardwareLaws} `{QO : QueueOps QH} `{MO : MapOps MH}
  `{QL : !QueueLaws QH} `{ML : !MapLaws MH} `{FS : FileSystem}.
Abbreviation kst := (kst QH MH).
Implicit Types s : kst.

(** The frames of the kernel stack while there is one process: the pages
    themselves. *)
Definition boot_stack : list Z := seqZ KERNEL_STACK_BASE_VPN STACK_PAGES.

(** The address space of the kernel: virtual memory is on, the kernel stack is
    mapped one to one, the terminals' buffers lie in the frame [fr]. *)
Record space_up (t : pt) (t0 t1 : ptr) (fr : Z) : Prop := {
  su_vm : vm_on t t0 t1;
  su_stack : stack_mapped t t0 boot_stack;
  su_buffer : entry t t0 (KERNEL_STACK_BASE_VPN - 2) = Some (mkPte 1 PROT_RW fr)
}.

(** No process has children; each has a map of its own for them. *)
Definition no_children s (ms : gmap ptr (gmap Z ptr)) : Prop :=
  forall p x, pcbs (k_obj s) !! p = Some x -> exists cm, childrenMap x = Some cm /\ ms !! cm = Some ∅ /\
    cm <> blockedMap (k_sched s) /\ cm <> sleepingMap (k_sched s).

(** The kernel during its start, from virtual memory and the modules on. *)
Record kernel_up s (t0 t1 : ptr) (fr : Z) (all avail : gset Z) (qs : gmap ptr (list ptr)) (ms : gmap ptr (gmap Z ptr))
    (l : list ptr) (n : Z) : Prop := {
  ku_space : space_up (k_pt s) t0 t1 fr;
  ku_mmu : mmu_ok s t0;
  ku_pt : pt_wf (k_pt s) /\ plenty (pt_arena (k_pt s));
  ku_mem : mem_ok s;
  ku_fl : fl_rep (k_fl s) (numFrames (k_glob s)) all avail;
  ku_fit : frames_fit all;
  ku_sched : sched_up s qs ms l n;
  ku_sync : ms !! lockMap (k_sched s) = Some ∅ /\ ms !! cvarMap (k_sched s) = Some ∅ /\ ms !! pipeMap (k_sched s) = Some ∅;
  ku_buffers j : (j < Z.to_nat NUM_TERMINALS)%nat -> buffers (k_tty s) !! j =
    Some (Some (mkTtyBuf ((KERNEL_STACK_BASE_VPN - 2) * PAGESIZE + Z.of_nat j * TTY_READ_BUFFER_SIZE) 0 0));
  ku_pcb p x : pcbs (k_obj s) !! p = Some x -> pcb_ok (k_pt s) t0 x;
  ku_children : no_children s ms
}.

Lemma boot_stack_length : Z.of_nat (length boot_stack) = STACK_PAGES.
Proof. unfold boot_stack. rewrite length_seqZ. pose proof KERNEL_STACK_room. lia. Qed.

Lemma space_up_kept t t' t0 t1 fr : pt_kept t0 t t' -> space_up t t0 t1 fr -> space_up t' t0 t1 fr.
Proof.
  intros Hk [Hvm Hst Hb]. split; [by eapply pt_kept_vm|by eapply pt_kept_stack|].
  unfold entry in *. rewrite (kt_ptes _ _ _ Hk); [done| |by eexists]. intros Heq%pte_at_inj. lia.
Qed.

Lemma space_up_upd t t' t0 t1 fr b ps : 2 <= KERNEL_STACK_BASE_VPN -> apart t0 b -> (forall i, i ∈ ps -> 0 <= i < MAX_PT_LEN) ->
  pt_upd (entries_of b ps) t t' -> space_up t t0 t1 fr -> space_up t' t0 t1 fr.
Proof.
  intros Hv Hap Hps Hu [Hvm Hst Hb]. pose proof KERNEL_STACK_BASE_VPN_eq. pose proof KERNEL_STACK_room.
  assert (forall i, 0 <= i < MAX_PT_LEN -> ptes t' !! pte_at t0 i = ptes t !! pte_at t0 i) as Hsame.
  { intros i Hi. apply (upd_ptes _ _ _ Hu). intros (j & Hj & Heq). revert Heq. apply pte_at_apart; [done|done|by apply Hps]. }
  split; [by eapply pt_upd_vm| |].
  - intros i Hi. destruct (Hst i Hi) as (f & Hf & He). exists f. split; [done|]. unfold stack_pte in *. rewrite Hsame; [done|].
    by apply stack_vpn_range.
  - unfold entry in *. rewrite Hsame; [done|lia].
Qed.

(** ** Memory and modules *)

(** What the hardware hands over, as a whole: the modules of the kernel are
    empty and there is no process. *)
Record hardware_ready s (pmem : Z) : Prop := {
  hr_machine : machine_ready s pmem;
  hr_mem : mem_ok s;
  hr_pcbs : pcbs (k_obj s) = ∅;
  hr_q : q_rep (k_qh s) ∅ /\ q_plenty (k_qh s);
  hr_m : m_rep (k_mh s) ∅ /\ m_plenty (k_mh s);
  hr_ttys : ttys_unused (k_sched s) /\ (Z.to_nat NUM_TERMINALS <= length (buffers (k_tty s)))%nat
}.

(** No page of region 1 is mapped. *)
Definition empty_region1 (t : pt) (t1 : ptr) : Prop := forall i, 0 <= i < MAX_PT_LEN -> entry t t1 i = Some (mkPte 0 PROT_NONE 0).
(** There is room for one more page table. *)
Definition room_for_table (t : pt) : Prop := brk_addr (pt_arena t) + MAX_PT_LEN * PTE_SIZE < 2 ^ 32.

Lemma boot_stack_mapped t t0 : (forall i, KERNEL_STACK_BASE_VPN <= i < MAX_PT_LEN -> entry t t0 i = Some (mkPte 1 PROT_RW i)) ->
  stack_mapped t t0 boot_stack.
Proof.
  intros Ht i Hi. exists (KERNEL_STACK_BASE_VPN + i). split.
  - unfold boot_stack. rewrite lookup_seqZ_lt by lia. f_equal. lia.
  - apply Ht. pose proof (stack_vpn_range _ Hi). lia.
Qed.

Lemma start_kernel_up s pmem : hardware_ready s pmem -> free_pfns (boot_frames pmem (currKernelBrk (k_glob s))) <> ∅ ->
  let frames := boot_frames pmem (currKernelBrk (k_glob s)) in
  exists t0 t1 fr s0 s1 qs ms, start_memory pmem s = Ret (t0, t1) s0 /\ start_modules s0 = Ret tt s1 /\
    fr ∈ free_pfns frames /\ kernel_up s1 t0 t1 fr (pfns frames) (free_pfns frames ∖ {[fr]}) qs ms [] 0 /\
    empty_region1 (k_pt s1) t1 /\ room_for_table (k_pt s1) /\ pcbs (k_obj s1) = ∅ /\ k_frame s1 = k_frame s /\
    transmitted (k_tty s1) = transmitted (k_tty s) /\ k_mem s1 = k_mem s.
Proof.
  intros [Hmr Hmem Hpcbs [Hq Hqp] [Hm Hmp] [Htty Hlen]] Hne frames.
  destruct (start_memory_ok s pmem Hmr) as (t0 & t1 & t & f & g & Hrun & [Hvm Hst Hr1 (Hwf & Hpl & Hroom) Hfl Hfit (Hb & Htemp & Hta)]).
  set (s0 := with_glob _ _) in Hrun. pose proof (mr_pages _ _ Hmr) as Hv.
  assert (mmu_ok s0 t0) as Hmmu by (split; [by eapply vm_on_vm0|done..]).
  assert (mem_ok s0) as Hmem0 by (by destruct Hmem).
  destruct (start_modules_ok s0 t0 _ _ ∅ ∅ Hmem0 Hmmu Hv Hfl Hne Hfit Hlen Hq Hqp Hm Hmp Htty) as (fr & s1 & qs & ms & Hrun1 & Hmd).
  exists t0, t1, fr, s0, s1, qs, ms. split; [done|]. split; [done|]. destruct Hmd as [[Hfr Hfl1] [Hu He] Hmem1 (Hp1 & Hg1 & Hk1 & Hf1) Hse Hsy Hbuf Hout].
  change (k_pt s0) with t in Hu. pose proof KERNEL_STACK_BASE_VPN_eq. pose proof KERNEL_STACK_room.
  assert (forall i, KERNEL_STACK_BASE_VPN <= i < MAX_PT_LEN -> entry (k_pt s1) t0 i = entry t t0 i) as Hst1.
  { intros i Hi. apply (upd_ptes _ _ _ Hu). intros (j & ->%list_elem_of_singleton & ->%pte_at_inj). lia. }
  assert (vm_on (k_pt s1) t0 t1) as Hvm1 by (by eapply pt_upd_vm).
  split; [done|]. split; [split|]; try done.
  - split; [done| |done]. apply boot_stack_mapped. intros i Hi. rewrite Hst1; auto.
  - destruct Hmmu. split; rewrite ?Hg1; try done. by eapply vm_on_vm0.
  - split; [by eapply pt_upd_wf|]. by rewrite (upd_arena _ _ _ Hu).
  - by rewrite Hg1.
  - rewrite Hp1. cbn. rewrite Hpcbs. intros p x Hx. by rewrite lookup_empty in Hx.
  - intros p x. rewrite Hp1. cbn. by rewrite Hpcbs, lookup_empty.
  - split_and!; try done.
    + intros i Hi. rewrite <- (Hr1 i Hi). apply (upd_ptes _ _ _ Hu). intros (j & ->%list_elem_of_singleton & Heq). revert Heq.
      apply pte_at_apart; [pose proof (vm_apart _ _ _ Hvm); unfold apart in *; lia|done|lia].
    + unfold room_for_table. by rewrite (upd_arena _ _ _ Hu).
    + by rewrite Hp1.
Qed.

(** ** The idle process *)

Definition idle_pcb (DoIdle : Z) (cm tb : ptr) (fs : list Z) : PCB_t :=
  with_uctxt (Some (idle_uctxt DoIdle fresh_UserContext)) (new_pcb 0 cm tb fs).

(** Its address space: a page of stack. *)
Definition idle_space (t : pt) (tb : ptr) (f : Z) : Prop :=
  entry t tb (MAX_PT_LEN - 1) = Some (mkPte 1 PROT_RW f) /\
  forall i, 0 <= i < MAX_PT_LEN - 1 -> entry t tb i = Some (mkPte 0 PROT_NONE 0).

Lemma tty_is_insert s s' qs i cur tq rq l : tty_is s qs i cur tq [] rq [] ->
  currTransmitters (k_sched s') = currTransmitters (k_sched s) -> transmittingQs (k_sched s') = transmittingQs (k_sched s) ->
  readingQs (k_sched s') = readingQs (k_sched s) -> readyQ (k_sched s') = readyQ (k_sched s) ->
  tty_is s' (<[readyQ (k_sched s) := l]> qs) i cur tq [] rq [].
Proof.
  intros [] H1 H2 H3 H4. split; rewrite ?H1, ?H2, ?H3, ?H4; try done; by rewrite lookup_insert_ne by done.
Qed.

(** A change of an address behind all tables keeps these. *)
Lemma pt_kept_new_upd t0 t tb t' t'' ps : new_table t tb t' -> pt_wf t -> (forall i, i ∈ ps -> 0 <= i) ->
  pt_upd (entries_of tb ps) t' t'' -> pt_kept t0 t t''.
Proof.
  intros Hn Hwf Hps Hu. eapply pt_kept_upd; [by apply (pt_kept_new t0 _ _ _ Hn)|exact Hu|].
  intros a Ha (i & Hi%Hps & ->). apply Hwf in Ha. rewrite (nt_base _ _ _ Hn) in Ha. unfold pte_at in Ha. pose proof PTE_SIZE_pos. nia.
Qed.

Lemma new_pcb_ok t t0 all avail n cm tb fs : frames_fit all -> avail ⊆ all -> list_to_set fs ⊆ avail -> NoDup fs ->
  Z.of_nat (length fs) = STACK_PAGES -> table t tb -> apart t0 tb -> pcb_ok t t0 (new_pcb n cm tb fs).
Proof.
  intros Hfit Hall Hsub Hnd Hlen Htab Hap. split.
  - exists fs. split; [done|]. split; [done|]. split; [|done]. apply Forall_forall. intros f Hf. apply Hfit. set_solver.
  - exists tb. done.
  - by eexists.
  - by eexists.
Qed.

(** The idle process, made and loaded: it is ready. *)
Record idle_up s (D t0 t1 ip cm tb fi : Z) (fs : list Z) s' : Prop := {
  iu_pcbs : pcbs (k_obj s') = {[ip := idle_pcb D cm tb fs]};
  iu_space : idle_space (k_pt s') tb fi;
  iu_stack : has_stack (idle_pcb D cm tb fs) fs;
  iu_pt : forall i, 0 <= i < MAX_PT_LEN -> entry (k_pt s') t1 i = entry (k_pt s) t1 i;
  iu_apart : apart t0 tb /\ apart t1 tb;
  iu_same : k_frame s' = k_frame s /\ k_mem s' = k_mem s /\ k_tty s' = k_tty s
}.

Lemma start_idle_ok D s t0 t1 fr all avail qs ms : kernel_up s t0 t1 fr all avail qs ms [] 0 -> pcbs (k_obj s) = ∅ ->
  room_for_table (k_pt s) -> (Z.to_nat STACK_PAGES < size avail)%nat ->
  exists ip cm tb fi fs s2 s3 qs' ms', initProcess s = Ret (Some ip) s2 /\ LoadIdle D ip s2 = Ret SUCCESS s3 /\
    NoDup (fi :: fs) /\ list_to_set (fi :: fs) ⊆ avail /\ Z.of_nat (length fs) = STACK_PAGES /\
    kernel_up s3 t0 t1 fr all (avail ∖ list_to_set (fi :: fs)) qs' ms' [ip] 1 /\ idle_up s D t0 t1 ip cm tb fi fs s3.
Proof.
  intros [Hsp Hmmu [Hwf Hpl] Hmem Hfl Hfit [[Hq Hqp] [Hm Hmp] Hrd Hbl Hsl Hne Hpid Htty] Hsync Hbuf Hpcb] Hno Hroom Hsize.
  assert (can_init s ms all avail) as Hcan by (split; try done; lia).
  destruct (initProcess_ok s ms all avail qs [] Hcan Hq Hqp Hrd) as (ip & cm & tb & fs & a & h & t' & f' & qh & Hrun & Hmade & Hq' & Hqp').
  rewrite Hpid in Hrun. pose proof Hmade as [(_ & Hip & _) Ha (Hm' & Hmp' & _ & Hcm) Hnt (Hlen & Hnd & Hsub) Hfl'].
  set (s2 := with_qh qh _) in Hrun. pose proof (fl_rep_subset _ _ _ _ Hfl) as Hall.
  pose proof (vm_table0 _ _ _ (su_vm _ _ _ _ Hsp)) as Htab0. pose proof (vm_table1 _ _ _ (su_vm _ _ _ _ Hsp)) as Htab1.
  pose proof MAX_PT_LEN_pos. pose proof (new_table_apart _ _ _ _ Hnt Hwf Htab0) as Hap0. pose proof (new_table_apart _ _ _ _ Hnt Hwf Htab1) as Hap1.
  assert (pcbs (k_obj s2) !! ip = Some (new_pcb 0 cm tb fs)) as Hx by apply lookup_insert_eq.
  assert (is_Some (entry (k_pt s2) tb (MAX_PT_LEN - 1))) as Hlast by (change (k_pt s2) with t'; rewrite (nt_new _ _ _ Hnt) by lia; by eexists).
  destruct (LoadIdle_ok s2 D ip _ _ tb all (avail ∖ list_to_set fs) Hx eq_refl eq_refl Hlast Hfl') as (fi & f2 & t2 & Hload & Hfi & Hfl2 & Hu & He); [|done|].
  { intros Hemp. apply (f_equal size) in Hemp. rewrite size_difference, size_empty, size_list_to_set in Hemp by done. lia. }
  set (s3 := upd_pcb ip _ _) in Hload. change (k_pt s2) with t' in Hu.
  assert (pt_kept t0 (k_pt s) t2) as Hk by (eapply pt_kept_new_upd; [done|done| |done]; set_solver by lia).
  assert (table t2 tb) as Htb by (eapply pt_upd_table; [done|]; by eapply new_table_table).
  exists ip, cm, tb, fi, fs, s2, s3, (<[readyQ (k_sched s) := [ip]]> qs), (<[cm := ∅]> ms).
  split; [done|]. split; [done|]. split; [apply NoDup_cons; set_solver|]. split; [set_solver|]. split; [done|].
  assert (pcb_ok t2 t0 (idle_pcb D cm tb fs)) as Hok.
  { destruct (new_pcb_ok t2 t0 all avail 0 cm tb fs) as [? ? ? ?]; done. }
  assert (pcbs (k_obj s3) = {[ip := idle_pcb D cm tb fs]}) as Hp3 by (cbn; rewrite Hno; by rewrite !insert_insert_eq).
  split; [split|split].
  - by eapply space_up_kept.
  - destruct Hmmu. split; try done. by eapply vm_on_vm0, pt_kept_vm, su_vm.
  - split; [by eapply pt_upd_wf, nt_wf|]. change (plenty (pt_arena t2)). rewrite (upd_arena _ _ _ Hu). by apply (nt_plenty _ _ _ Hnt).
  - split; [done|cbn; lia|]. rewrite Hp3. intros p Hp%lookup_singleton_is_Some. subst p. cbn. lia.
  - cbn in Hfl2 |- *. replace (avail ∖ ({[fi]} ∪ list_to_set fs)) with ((avail ∖ list_to_set fs) ∖ {[fi]}); [done|].
    set_solver.
  - done.
  - split; try done.
    + apply lookup_insert_eq.
    + cbn. rewrite lookup_insert_ne; [done|congruence].
    + cbn. rewrite lookup_insert_ne; [done|congruence].
    + cbn. lia.
    + intros i Hi. destruct (Htty i Hi) as (tq & rq & Ht). exists tq, rq. by eapply tty_is_insert.
  - cbn. rewrite !lookup_insert_ne by (intros ->; destruct Hsync as (? & ? & ?); congruence). done.
  - done.
  - rewrite Hp3. intros p x [<- <-]%lookup_singleton_Some. done.
  - intros p x. rewrite Hp3. intros [<- <-]%lookup_singleton_Some. exists cm. split; [done|]. split; [apply lookup_insert_eq|].
    cbn. split; intros ->; congruence.
  - done.
  - split; [done|]. intros i Hi. rewrite <- (nt_new _ _ _ Hnt i) by lia. apply (upd_ptes _ _ _ Hu).
    intros (j & ->%list_elem_of_singleton & ->%pte_at_inj). lia.
  - split; [done|]. split; [done|]. split; [|done]. apply Forall_forall. intros f Hf. apply Hfit. set_solver.
  - intros i Hi. eapply pt_kept_entry; [done|done|apply (su_vm _ _ _ _ Hsp)|done].
  - done.
  - done.
Qed.

(** ** The process init *)

Lemma boot_stack_ok : MAX_PT_LEN <= 2 ^ PTE_PFN_BITS -> Forall (fun f => 0 <= f < 2 ^ PTE_PFN_BITS) boot_stack /\ NoDup boot_stack.
Proof.
  intros Hfit. pose proof KERNEL_STACK_BASE_VPN_eq. pose proof KERNEL_STACK_room. split; [|apply NoDup_seqZ].
  apply Forall_forall. intros f Hf%elem_of_seqZ. lia.
Qed.

(** A process more: the state with the PCB [x] at [p], with more memory, more
    maps and one more pid. *)
Lemma kernel_up_init s t0 t1 fr all avail qs ms l n p cm x a h : kernel_up s t0 t1 fr all avail qs ms l n ->
  pcb_ok (k_pt s) t0 x -> childrenMap x = Some cm -> 0 < p < brk_addr a -> plenty a -> brk_addr (o_arena (k_obj s)) <= brk_addr a ->
  m_rep h (<[cm := ∅]> ms) -> m_plenty h -> ms !! cm = None ->
  kernel_up (upd_pcb p x (with_sched (with_initPid n (with_nextPid (n + 1) (k_sched s))) (with_mh h (with_arena a s))))
    t0 t1 fr all avail qs (<[cm := ∅]> ms) l (n + 1).
Proof.
  intros [Hsp Hmmu Hpt Hmem Hfl Hfit [[Hq Hqp] [Hm Hmp] Hrd Hbl Hsl Hne Hpid Htty] Hsync Hbuf Hpcb Hch] Hx Hxc Hp Ha Hle Hm' Hmp' Hcm.
  split; try done.
  - by destruct Hmmu.
  - destruct Hmem as [_ Hpos Hlt]. split; cbn; [done|lia|]. intros q [->|[_ Hq']]%lookup_insert_is_Some; [done|]. apply Hlt in Hq'. lia.
  - split; try done.
    + cbn. rewrite lookup_insert_ne; [done|congruence].
    + cbn. rewrite lookup_insert_ne; [done|congruence].
    + intros i Hi. destruct (Htty i Hi) as (tq & rq & []). by exists tq, rq.
  - cbn. rewrite !lookup_insert_ne by (intros ->; destruct Hsync as (? & ? & ?); congruence). done.
  - cbn. intros q y [[<- <-]|[_ Hy]]%lookup_insert_Some; [done|]. by eapply Hpcb.
  - intros q y. cbn. intros [[<- <-]|[_ Hy]]%lookup_insert_Some.
    + exists cm. split; [done|]. split; [apply lookup_insert_eq|]. split; intros ->; congruence.
    + destruct (Hch q y Hy) as (cm' & ? & Hc & ? & ?). exists cm'. split; [done|]. split; [|done]. rewrite lookup_insert_ne; congruence.
Qed.

Lemma start_init_process_ok s t0 t1 fr all avail qs ms l : kernel_up s t0 t1 fr all avail qs ms l 1 -> MAX_PT_LEN <= 2 ^ PTE_PFN_BITS ->
  exists p cm s' ms', initInitProcess t1 s = Ret (Some p) s' /\ kernel_up s' t0 t1 fr all avail qs ms' l 2 /\
    pcbs (k_obj s) !! p = None /\ pcbs (k_obj s') = <[p := init_pcb 1 cm t1 boot_stack]> (pcbs (k_obj s)) /\
    k_pt s' = k_pt s /\ k_fl s' = k_fl s /\ k_glob s' = k_glob s /\ k_mem s' = k_mem s /\ k_frame s' = k_frame s /\ k_tty s' = k_tty s.
Proof.
  intros Hup Hmax. pose proof Hup as [Hsp Hmmu _ Hmem _ _ [_ [Hm Hmp] _ _ _ _ Hpid _] _ _ _]. pose proof (su_vm _ _ _ _ Hsp) as Hvm.
  destruct (initInitProcess_ok s t0 t1 ms boot_stack Hmem Hm Hmp (mmu_base _ _ Hmmu) (su_stack _ _ _ _ Hsp) boot_stack_length)
    as (p & cm & a & h & Hrun & Hp & Hno & Ha & Hle & Hm' & Hmp' & Hcm). cbn zeta in Hrun. rewrite Hpid in Hrun.
  eexists p, cm, _, _. split; [exact Hrun|]. split; [|done].
  apply (kernel_up_init s t0 t1 fr all avail qs ms l 1); try done. split; try by eexists.
  - exists boot_stack. split; [done|]. split; [apply boot_stack_length|]. by apply boot_stack_ok.
  - exists t1. split; [done|]. split; apply Hvm.
Qed.

(** Its PCB with its program. *)
Definition loaded_pcb (cm t1 : ptr) (li : load_info) (args : list (list Z)) : PCB_t :=
  with_brk (Some (program_brk li)) (with_uctxt (Some (program_uctxt li args fresh_UserContext)) (init_pcb 1 cm t1 boot_stack)).

(** The file is a program that fits, with these arguments. *)
Record is_program (name : list Z) (args : list (list Z)) (fd : file) (li : load_info) : Prop := {
  ip_file : open_file name = Some fd /\ LoadInfo fd = Some li;
  ip_fits : fits li args;
  ip_text : Z.of_nat (length (program_text fd li)) = t_npg li * PAGESIZE;
  ip_data : Z.of_nat (length (program_data fd li)) = id_npg li * PAGESIZE
}.

Lemma frames_of_empty t t1 : empty_region1 t t1 -> frames_of t t1 (seqZ 0 MAX_PT_LEN) = [].
Proof.
  intros He. unfold frames_of. assert (forall i, i ∈ seqZ 0 MAX_PT_LEN -> entry t t1 i = Some (mkPte 0 PROT_NONE 0)) as Hall
    by (intros i Hi%elem_of_seqZ; apply He; lia).
  induction (seqZ 0 MAX_PT_LEN) as [|i l IH]; [done|]. cbn [omap list_omap]. rewrite Hall by set_solver. apply IH. set_solver.
Qed.

Lemma load_init_ok s t0 t1 fr all avail qs ms l n p cm name args fd li : kernel_up s t0 t1 fr all avail qs ms l n ->
  2 <= KERNEL_STACK_BASE_VPN -> pcbs (k_obj s) !! p = Some (init_pcb 1 cm t1 boot_stack) -> empty_region1 (k_pt s) t1 ->
  is_program name args fd li -> (program_pages li args <= size avail)%nat ->
  exists tf df sf s', LoadProgram name args p s = Ret SUCCESS s' /\
    kernel_up s' t0 t1 fr all (avail ∖ list_to_set (tf ++ df ++ sf)) qs ms l n /\
    pcbs (k_obj s') = <[p := loaded_pcb cm t1 li args]> (pcbs (k_obj s)) /\
    filled (k_pt s') (k_mem s') t1 args fd li tf df sf /\ NoDup (tf ++ df ++ sf) /\ list_to_set (tf ++ df ++ sf) ⊆ avail /\
    pt_upd (entries_of t1 (seqZ 0 MAX_PT_LEN)) (k_pt s) (k_pt s') /\
    wrote (tf ++ df ++ sf) (k_mem s) (k_mem s') /\ k_frame s' = k_frame s /\ k_tty s' = k_tty s.
Proof.
  intros Hup Hv Hx He Hprog Hsize. pose proof Hup as [Hsp Hmmu [Hwf Hpl] Hmem Hfl Hfit Hsch Hsync Hbuf Hpcb Hch].
  pose proof Hprog as [Hfile Hfits Htext Hdata]. pose proof (su_vm _ _ _ _ Hsp) as Hvm.
  assert (can_load s t0 t1 p (init_pcb 1 cm t1 boot_stack) fresh_UserContext name args fd li all avail) as Hcan
    by (split; rewrite ?frames_of_empty, ?given_back_nil; done).
  destruct (LoadProgram_ok _ _ _ _ _ _ _ _ _ _ _ _ Hcan) as (tf & df & sf & a & t' & f' & m & Hrun & Hfill & Hwr & Hnd & Hsub & Hfl' & Hu & Ha & Hle).
  rewrite frames_of_empty, given_back_nil in * by done. cbn zeta in Hrun. set (s' := with_mem m _) in Hrun.
  exists tf, df, sf, s'. split; [done|].
  assert (forall i, i ∈ seqZ 0 MAX_PT_LEN -> 0 <= i < MAX_PT_LEN) as Hps by (intros i ?%elem_of_seqZ; lia).
  split; [split|split_and!]; try done.
  - eapply space_up_upd; [done|apply (vm_apart _ _ _ Hvm)|exact Hps|exact Hu|done].
  - destruct Hmmu. split; try done. by eapply pt_upd_vm0.
  - split; [by eapply pt_upd_wf|]. change (plenty (pt_arena t')). by rewrite (upd_arena _ _ _ Hu).
  - pose proof (mem_pcbs _ Hmem _ (mk_is_Some _ _ Hx)).
    destruct (mem_ok_new (with_arena a s) p (loaded_pcb cm t1 li args)); [by apply mem_ok_arena|cbn; lia|by split].
  - destruct Hsch as [? ? ? ? ? ? ? Htty]. split; try done. intros i Hi. destruct (Htty i Hi) as (tq & rq & []). by exists tq, rq.
  - cbn. intros q y [[<- <-]|[_ Hy]]%lookup_insert_Some; eapply pcb_ok_upd; [exact Hu| |exact Hu|by eapply Hpcb].
    destruct (Hpcb _ _ Hx) as [? ? ? ?]. by split.
  - intros q y. cbn. intros [[<- <-]|[_ Hy]]%lookup_insert_Some; [by apply (Hch p (init_pcb 1 cm t1 boot_stack))|by eapply Hch].
Qed.

(** ** The buffers of the terminals *)

(** The bytes of the buffer of the terminal [i]. *)
Definition buffer_locs (fr : Z) (i : Z) : list (Z * Z) := (fun o => (fr, i * TTY_READ_BUFFER_SIZE + o)) <$> seqZ 0 TTY_READ_BUFFER_SIZE.

Lemma translate_inside s t0 vpn o p e : vm0_on (k_pt s) t0 -> 0 <= vpn < MAX_PT_LEN -> 0 <= o < PAGESIZE ->
  entry (k_pt s) t0 vpn = Some e -> pte_valid e = 1 -> Z.land (pte_prot e) p = p ->
  translate (vpn * PAGESIZE + o) p s = Ret (pte_pfn e) s.
Proof.
  intros Hvm Hi Ho He Hv Hp. rewrite <- (translate_r0 s t0 vpn p e) by done. unfold translate.
  rewrite !shiftr_page, Z.div_add_l, (Z.div_small o), Z.add_0_r, Z.div_mul by lia. done.
Qed.

Lemma buffer_inside i k : 0 <= i < NUM_TERMINALS -> 0 <= k < TTY_READ_BUFFER_SIZE -> 0 <= i * TTY_READ_BUFFER_SIZE + k < PAGESIZE.
Proof.
  intros Hi. unfold TTY_READ_BUFFER_SIZE, TOTAL_READ_BUFFER_PAGES. pose proof PAGESIZE_pos.
  rewrite Z.quot_div_nonneg by lia. pose proof (Z.mul_div_le (1 * PAGESIZE) NUM_TERMINALS). nia.
Qed.

Lemma empty_buffer s t0 t1 fr i : space_up (k_pt s) t0 t1 fr -> 2 <= KERNEL_STACK_BASE_VPN -> 0 <= i < NUM_TERMINALS ->
  buffers (k_tty s) !! Z.to_nat i = Some (Some (mkTtyBuf ((KERNEL_STACK_BASE_VPN - 2) * PAGESIZE + i * TTY_READ_BUFFER_SIZE) 0 0)) ->
  buffered s i (buffer_locs fr i) None.
Proof.
  intros [Hvm _ Hfr] Hv Hi Hbuf. pose proof KERNEL_STACK_BASE_VPN_eq. pose proof KERNEL_STACK_room.
  split; [lia| | |cbn; lia|done].
  - eexists. split; [exact Hbuf|]. intros k l Hl. unfold buffer_locs in Hl. rewrite list_lookup_fmap in Hl.
    apply fmap_Some in Hl as (o & [-> Hk]%lookup_seqZ & ->). rewrite Z.add_0_l. cbn [fst snd].
    pose proof (buffer_inside i (Z.of_nat k) Hi ltac:(lia)). rewrite <- Z.add_assoc. split.
    + rewrite (Z.add_comm (_ * PAGESIZE)), Z.mod_add by lia. by rewrite Z.mod_small.
    + intros p Hp. apply (translate_inside s t0 _ _ _ (mkPte 1 PROT_RW fr)); try done; [by eapply vm_on_vm0|lia|].
      destruct Hp as [-> | ->]; [apply PROT_RW_read|apply PROT_RW_write].
  - apply NoDup_fmap_2; [|apply NoDup_seqZ]. intros x y [= ?]. lia.
Qed.

(** ** The kernel is in order *)

Definition start_view (np ip : ptr) : sview := mkView np [ip] ∅ ∅.

Lemma start_view_ok np ip x y : np <> ip -> pid x = 1 -> pid y = 0 ->
  procs_ok (pids (<[np := x]> {[ip := y]})) (start_view np ip).
Proof.
  intros Hne Hx Hy. assert (pids (<[np := x]> {[ip := y]}) = <[np := 1]> {[ip := 0]}) as ->
    by (unfold pids; by rewrite fmap_insert, map_fmap_singleton, Hx, Hy).
  assert (forall p k, (<[np := 1]> {[ip := 0]} : gmap ptr Z) !! p = Some k -> p = np /\ k = 1 \/ p = ip /\ k = 0) as Hlk.
  { intros p k [[<- <-]|[_ [<- <-]%lookup_singleton_Some]]%lookup_insert_Some; auto. }
  assert (places (start_view np ip) = [np; ip]) as Hpl by (unfold places, start_view; cbn; by rewrite map_to_list_empty).
  split; rewrite ?Hpl.
  - apply NoDup_cons. split; [|apply NoDup_singleton]. by intros ->%list_elem_of_singleton.
  - intros p. intros [-> | ->%list_elem_of_singleton]%elem_of_cons; [rewrite lookup_insert_eq|rewrite lookup_insert_ne, lookup_singleton_eq by done]; by eexists.
  - intros k p Hp. change ((∅ : gmap Z ptr) !! k = Some p) in Hp. by rewrite lookup_empty in Hp.
  - intros k p Hp. change ((∅ : gmap Z ptr) !! k = Some p) in Hp. by rewrite lookup_empty in Hp.
  - intros p q k Hp%Hlk Hq%Hlk. naive_solver.
  - intros p k Hp%Hlk. naive_solver lia.
Qed.

Lemma start_end_ok s t0 t1 fr all avail qs ms np ip x y : kernel_up s t0 t1 fr all avail qs ms [ip] 2 ->
  pcbs (k_obj s) = <[np := x]> {[ip := y]} -> np <> ip -> pid x = 1 -> pid y = 0 ->
  kctxt x = Some KNew -> kctxt y = Some KNull -> has_stack x boot_stack -> r1PageTable x = Some t1 ->
  exists s', start_init np s = Switch (mkKctxt KStart (k_frame s)) s' /\ kernel_ok s' t0 qs ms (start_view np ip) /\
    k_pt s' = k_pt s /\ pcbs (k_obj s') = pcbs (k_obj s) /\ k_fl s' = k_fl s /\ numFrames (k_glob s') = numFrames (k_glob s) /\
    k_mem s' = k_mem s /\ k_tty s' = k_tty s /\ k_sched s' = with_currPCB np (k_sched s) /\
    starterKctxt (k_glob s') = Some (mkKctxt KStart (k_frame s)) /\ starterKernelStack (k_glob s') = Some (stack_pages s boot_stack).
Proof.
  intros [Hsp Hmmu Hpt Hmem Hfl Hfit Hsch Hsync Hbuf Hpcb] Hpcbs Hne Hx Hy Hkx Hky Hst Hr1. pose proof (su_vm _ _ _ _ Hsp) as Hvm.
  destruct (start_init_ok s t0 boot_stack np Hmem Hmmu (su_stack _ _ _ _ Hsp) boot_stack_length) as (a & Hrun & Ha & Hle).
  cbn zeta in Hrun. set (s' := with_glob _ _) in Hrun. exists s'. split; [done|]. split; [|done]. split.
  - split.
    + by destruct Hmmu.
    + destruct (mem_ok_arena s a Hmem Ha Hle). by split.
    + eexists _, _. split; [done|]. split; [done|]. unfold stack_pages. rewrite length_fmap. apply boot_stack_length.
    + exact Hpcb.
    + cbn. rewrite Hpcbs. intros p z [[<- <-]|[_ [<- <-]%lookup_singleton_Some]]%lookup_insert_Some Hp; [done|by left].
  - exists x, boot_stack, t1. cbn. rewrite Hpcbs, lookup_insert_eq. split_and!; try done.
    + by left.
    + apply Hsp.
    + apply Hvm.
  - destruct Hsch as [[Hq Hqp] [Hm Hmp] Hrd Hbl Hsl Hne' _ _]. by split.
  - change (pcbs (k_obj s')) with (pcbs (k_obj s)). rewrite Hpcbs. by apply start_view_ok.
Qed.

(** ** The whole of [KernelStart] *)

Definition init_args (cmd_args : list (list Z)) : list (list Z) := match cmd_args with [] => default_args | _ => cmd_args end.
Definition free_at_start s (pmem : Z) : gset Z := free_pfns (boot_frames pmem (currKernelBrk (k_glob s))).

(** The machine is ready, the first argument names a program, and the memory
    is enough: a frame for the buffers of the terminals, the kernel stack and
    a page for the idle process, the program. *)
Record can_start s (pmem : Z) (cmd_args : list (list Z)) (name : list Z) (fd : file) (li : load_info) : Prop := {
  cs_machine : hardware_ready s pmem;
  cs_name : head (init_args cmd_args) = Some name;
  cs_program : is_program name (init_args cmd_args) fd li;
  cs_frames : (2 + Z.to_nat STACK_PAGES + program_pages li (init_args cmd_args) <= size (free_at_start s pmem))%nat
}.

(** The memory the kernel takes for the first two processes: a frame [b] for
    the terminals' buffers, the page tables [t0], [t1] of region 0 and of init,
    [tb] of the idle process with the frame [i] and the kernel stack [k]; the
    frames of init's text, data and stack. *)
Record start_layout := mkLayout {
  sl_t0 : ptr; sl_t1 : ptr; sl_tb : ptr;
  sl_b : Z; sl_i : Z; sl_k : list Z;
  sl_text : list Z; sl_data : list Z; sl_stack : list Z
}.
Definition start_frames (y : start_layout) : list Z := sl_b y :: sl_i y :: sl_k y ++ sl_text y ++ sl_data y ++ sl_stack y.

(** The kernel when [KernelStart] is done: init, [np], runs and the idle
    process, [ip], is ready; nobody waits for anything. *)
Record started s (pmem D : Z) (args : list (list Z)) (fd : file) (li : load_info) (y : start_layout) (np ip : ptr)
    (qs : gmap ptr (list ptr)) (ms : gmap ptr (gmap Z ptr)) s' : Prop := {
  st_ok : kernel_ok s' (sl_t0 y) qs ms (start_view np ip);
  st_vm : vm_on (k_pt s') (sl_t0 y) (sl_t1 y);
  st_apart : apart (sl_t0 y) (sl_tb y) /\ apart (sl_t1 y) (sl_tb y);
  st_processes : exists cm cmi, np <> ip /\
    pcbs (k_obj s') = <[np := loaded_pcb cm (sl_t1 y) li args]> {[ip := idle_pcb D cmi (sl_tb y) (sl_k y)]};
  st_frames : NoDup (start_frames y) /\ list_to_set (start_frames y) ⊆ free_at_start s pmem /\
    fl_rep (k_fl s') (numFrames (k_glob s')) (pfns (boot_frames pmem (currKernelBrk (k_glob s))))
      (free_at_start s pmem ∖ list_to_set (start_frames y));
  st_program : loaded s' (sl_t1 y) args fd li (sl_text y) (sl_data y) (sl_stack y);
  st_idle : idle_space (k_pt s') (sl_tb y) (sl_i y);
  st_ttys i : 0 <= i < NUM_TERMINALS -> buffered s' i (buffer_locs (sl_b y) i) None /\ exists tq rq, tty_is s' qs i NULL tq [] rq [];
  st_sync : ms !! lockMap (k_sched s') = Some ∅ /\ ms !! cvarMap (k_sched s') = Some ∅ /\ ms !! pipeMap (k_sched s') = Some ∅;
  st_starter : starterKctxt (k_glob s') = Some (mkKctxt KStart (k_frame s));
  st_output : transmitted (k_tty s') = transmitted (k_tty s);
  st_children : no_children s' ms;
  st_next : nextPid (k_sched s') = 2;
  st_pt : pt_wf (k_pt s') /\ plenty (pt_arena (k_pt s'))
}.

(** The two processes are made and loaded. *)
Lemma start_processes_ok D s t0 t1 fr all avail qs ms args name fd li : kernel_up s t0 t1 fr all avail qs ms [] 0 ->
  2 <= KERNEL_STACK_BASE_VPN -> MAX_PT_LEN <= 2 ^ PTE_PFN_BITS -> pcbs (k_obj s) = ∅ -> empty_region1 (k_pt s) t1 ->
  room_for_table (k_pt s) -> is_program name args fd li -> (1 + Z.to_nat STACK_PAGES + program_pages li args <= size avail)%nat ->
  exists ip np cm cmi tb fi fs tf df sf s2 s3 s4 s5 qs' ms',
    initProcess s = Ret (Some ip) s2 /\ LoadIdle D ip s2 = Ret SUCCESS s3 /\ initInitProcess t1 s3 = Ret (Some np) s4 /\
    LoadProgram name args np s4 = Ret SUCCESS s5 /\
    kernel_up s5 t0 t1 fr all (avail ∖ list_to_set (fi :: fs ++ tf ++ df ++ sf)) qs' ms' [ip] 2 /\
    NoDup (fi :: fs ++ tf ++ df ++ sf) /\ list_to_set (fi :: fs ++ tf ++ df ++ sf) ⊆ avail /\
    np <> ip /\ pcbs (k_obj s5) = <[np := loaded_pcb cm t1 li args]> {[ip := idle_pcb D cmi tb fs]} /\
    apart t0 tb /\ apart t1 tb /\ filled (k_pt s5) (k_mem s5) t1 args fd li tf df sf /\ idle_space (k_pt s5) tb fi /\
    k_frame s5 = k_frame s /\ k_tty s5 = k_tty s.
Proof.
  intros Hup Hv Hmax Hno He Hroom Hprog Hsize.
  destruct (start_idle_ok D s t0 t1 fr all avail qs ms Hup Hno Hroom) as (ip & cmi & tb & fi & fs & s2 & s3 & qs' & ms1 & Hr1 & Hr2 & Hnd & Hsub & Hlen & Hup3 & Hi); [lia|].
  destruct Hi as [Hp3 Hsp3 Hst3 Hpt3 [Hap0 Hap1] (Hf3 & Hm3 & Hty3)].
  destruct (start_init_process_ok s3 t0 t1 fr all _ qs' ms1 [ip] Hup3 Hmax) as (np & cm & s4 & ms' & Hr3 & Hup4 & Hnp & Hp4 & Hpt4 & Hfl4 & Hg4 & Hm4 & Hf4 & Hty4).
  assert (np <> ip) as Hne by (intros ->; rewrite Hp3, lookup_singleton_eq in Hnp; done).
  rewrite Hp3 in Hp4. assert (pcbs (k_obj s4) !! np = Some (init_pcb 1 cm t1 boot_stack)) as Hx by (rewrite Hp4; apply lookup_insert_eq).
  assert (empty_region1 (k_pt s4) t1) as He4 by (intros i Hi; rewrite Hpt4, Hpt3 by done; by apply He).
  assert (program_pages li args <= size (avail ∖ list_to_set (fi :: fs)))%nat as Hs4
    by (rewrite size_difference, size_list_to_set by done; cbn [length]; lia).
  destruct (load_init_ok s4 t0 t1 fr all _ qs' ms' [ip] 2 np cm name args fd li Hup4 Hv Hx He4 Hprog Hs4)
    as (tf & df & sf & s5 & Hr4 & Hup5 & Hp5 & Hfill & Hnd5 & Hsub5 & Hu5 & Hw5 & Hf5 & Hty5).
  exists ip, np, cm, cmi, tb, fi, fs, tf, df, sf, s2, s3, s4, s5, qs', ms'.
  change (fi :: fs ++ tf ++ df ++ sf) with ((fi :: fs) ++ tf ++ df ++ sf). rewrite list_to_set_app_L, <- difference_difference_l_L.
  split_and!; try done; try congruence.
  - apply NoDup_app. split_and!; [done| |done]. intros f Hf Hf'. assert (f ∈ avail ∖ list_to_set (fi :: fs)) as Hin by (apply Hsub5; by apply elem_of_list_to_set).
    by apply elem_of_difference in Hin as [_ []%not_elem_of_list_to_set].
  - set_solver.
  - by rewrite Hp5, Hp4, insert_insert_eq.
  - destruct Hsp3 as [Hl Ho]. pose proof MAX_PT_LEN_pos.
    assert (forall i, 0 <= i < MAX_PT_LEN -> entry (k_pt s5) tb i = entry (k_pt s3) tb i) as Hsame.
    { intros i Hi. rewrite <- Hpt4. apply (upd_ptes _ _ _ Hu5). intros (j & Hj%elem_of_seqZ & Heq). revert Heq.
      apply pte_at_apart; [unfold apart in *; lia|lia|lia]. }
    split; [rewrite Hsame by lia; done|]. intros i Hi. rewrite Hsame by lia. auto.
Qed.

Lemma or_halt_ptr_ok m s p s' : m s = Ret (Some p) s' -> or_halt_ptr m s = Ret p s'.
Proof. intros Hm. unfold or_halt_ptr. by step Hm. Qed.

Lemma KernelStart_ok D s pmem cmd_args name fd li : can_start s pmem cmd_args name fd li ->
  exists y np ip qs ms s', KernelStart D cmd_args pmem s = Switch (mkKctxt KStart (k_frame s)) s' /\
    started s pmem D (init_args cmd_args) fd li y np ip qs ms s'.
Proof.
  intros [Hhw Hname Hprog Hsize]. pose proof (hr_machine _ _ Hhw) as Hmr. pose proof (mr_pages _ _ Hmr) as Hv.
  assert (MAX_PT_LEN <= 2 ^ PTE_PFN_BITS) as Hmax
    by (destruct (mr_bits _ _ Hmr); etransitivity; [done|]; apply Z.pow_le_mono_r; lia).
  set (F := free_at_start s pmem) in *.
  destruct (start_kernel_up s pmem Hhw) as (t0 & t1 & fr & s0 & s1 & qs0 & ms0 & Hr0 & Hr1 & Hfr & Hup & He & Hroom & Hno & Hf1 & Ht1 & _).
  { intros Hemp. unfold F, free_at_start in Hsize. rewrite Hemp, size_empty in Hsize. lia. }
  fold (free_at_start s pmem) in Hfr, Hup. fold F in Hfr, Hup.
  destruct (start_processes_ok D s1 t0 t1 fr _ _ qs0 ms0 (init_args cmd_args) name fd li Hup Hv Hmax Hno He Hroom Hprog)
    as (ip & np & cm & cmi & tb & fi & fs & tf & df & sf & s2 & s3 & s4 & s5 & qs & ms & Hr2 & Hr3 & Hr4 & Hr5 & Hup5 & Hnd & Hsub
      & Hne & Hp5 & Hap0 & Hap1 & Hfill & Hidle & Hf5 & Hty5).
  { rewrite size_difference, size_singleton by set_solver. lia. }
  destruct (start_end_ok s5 t0 t1 fr _ _ qs ms np ip _ _ Hup5 Hp5 Hne eq_refl eq_refl eq_refl eq_refl)
    as (s' & Hr6 & Hok & Hpt & Hp & Hfl & Hnf & Hm & Hty & Hsc & Hst & _); [|done|].
  { split; [done|]. split; [apply boot_stack_length|]. by apply boot_stack_ok. }
  exists (mkLayout t0 t1 tb fr fi fs tf df sf), np, ip, qs, ms, s'. split.
  - unfold KernelStart. step Hr0. step Hr1. step (or_halt_ptr_ok _ _ _ _ Hr2). step (or_halt_ok _ _ _ _ Hr3 ltac:(done)). cbn [snd].
    fold (init_args cmd_args). step (or_halt_ptr_ok _ _ _ _ Hr4). step_rd Hname. step Hr5. cbn [negb Z.eqb]. change (SUCCESS =? SUCCESS) with true.
    cbn [negb]. rewrite Hr6. congruence.
  - pose proof Hup5 as [Hsp _ _ _ Hfl5 _ [_ _ _ _ _ _ _ Htty] Hsync Hbuf _].
    assert (space_up (k_pt s') t0 t1 fr) as Hsp' by (by rewrite Hpt).
    split; cbn [sl_t0 sl_t1 sl_tb sl_b sl_i sl_k sl_text sl_data sl_stack]; try done.
    + apply Hsp'.
    + exists cm, cmi. split; [done|]. by rewrite Hp.
    + unfold start_frames. cbn [sl_t0 sl_t1 sl_tb sl_b sl_i sl_k sl_text sl_data sl_stack].
      split; [apply NoDup_cons; split; [|done]; intros Hin; assert (fr ∈ F ∖ {[fr]}) by (apply Hsub; by apply elem_of_list_to_set); set_solver|].
      split; [set_solver|]. rewrite Hfl, Hnf. cbn [list_to_set]. rewrite <- difference_difference_l_L. exact Hfl5.
    + destruct Hprog as [_ Hfits Htext Hdata]. eapply filled_loaded; [done|apply Hsp'|done|done|]. by rewrite Hpt, Hm.
    + by rewrite Hpt.
    + intros i Hi. split.
      * eapply empty_buffer; [done|done|done|]. rewrite Hty, Hbuf by lia. by rewrite Z2Nat.id by lia.
      * destruct (Htty i Hi) as (tq & rq & []). exists tq, rq. split; rewrite ?Hsc; done.
    + rewrite Hsc. exact Hsync.
    + rewrite Hst. congruence.
    + congruence.
    + intros p x. rewrite Hp, Hsc. apply (ku_children _ _ _ _ _ _ _ _ _ _ Hup5).
    + rewrite Hsc. apply (se_pid _ _ _ _ _ (ku_sched _ _ _ _ _ _ _ _ _ _ Hup5)).
    + rewrite Hpt. apply (ku_pt _ _ _ _ _ _ _ _ _ _ Hup5).
Qed.
End laws.
