(* ===== verification/IsoLaws.v ===== *)
(** Memory isolation: no frame belongs to two processes, and a free frame
    belongs to none.  What the parts of the kernel that change page tables,
    kernel stacks or the list of frames must do to keep this. *)

From stdpp Require Import base gmap sets list.
From S2P Require Import Prelude Hardware Queue HashMap FrameList State UserMem Scheduler PageTable.
From S2P Require Import SwitchLaws SchedView SchedLaws CopyLaws InitLaws ExitLaws.

(** All pages of region 1. *)
Definition all_pages `{Hardware} : list Z := seqZ 0 MAX_PT_LEN.

(** The frames of a process: those of its valid pages and of its kernel
    stack. *)
Definition stack_frames (x : PCB_t) : list Z := omap id (stackPfns x).
Definition space_frames `{Hardware} (t : pt) (x : PCB_t) : list Z :=
  match r1PageTable x with Some r => frames_of t r all_pages | None => [] end.
Definition owned `{Hardware} (t : pt) (x : PCB_t) : list Z := space_frames t x ++ stack_frames x.

(** The processes [ps] are isolated: [avail] are the free frames, [t0] is the
    table of region 0. *)
Record isolated `{Hardware} (t0 : ptr) (t : pt) (ps : gmap ptr PCB_t) (avail : gset Z) : Prop := {
  is_own p x : ps !! p = Some x -> NoDup (owned t x);
  is_free p x f : ps !! p = Some x -> f ∈ owned t x -> f ∉ avail;
  is_apart p q x y f : ps !! p = Some x -> ps !! q = Some y -> p <> q -> f ∈ owned t x -> f ∉ owned t y;
  is_kernel p x r : ps !! p = Some x -> r1PageTable x = Some r -> table t r /\ apart t0 r;
  is_tables p q x y a b : ps !! p = Some x -> ps !! q = Some y -> p <> q ->
    r1PageTable x = Some a -> r1PageTable y = Some b -> apart a b
}.

(** Every frame is one of the kernel's, [kept], or free, or some process has
    it. *)
Definition accounted `{Hardware} (all kept : gset Z) (t : pt) (ps : gmap ptr PCB_t) (avail : gset Z) : Prop :=
  forall f, f ∈ all -> f ∈ kept \/ f ∈ avail \/ exists p x, ps !! p = Some x /\ f ∈ owned t x.

(** Two PCBs with the same space. *)
Definition same_space (x y : PCB_t) : Prop := r1PageTable x = r1PageTable y /\ stackPfns x = stackPfns y.

Lemma same_space_lookup (ps ps' : gmap ptr PCB_t) p x : space_of <$> ps' !! p = space_of <$> ps !! p -> ps' !! p = Some x ->
  exists y, ps !! p = Some y /\ same_space x y.
Proof. intros Heq Hx. rewrite Hx in Heq. destruct (ps !! p) as [y|]; [|done]. injection Heq as ? ?. by exists y. Qed.
Lemma same_space_of x y : same_space x y -> space_of x = space_of y.
Proof. intros [? ?]. unfold space_of. congruence. Qed.

Lemma stack_frames_some x fs : stackPfns x = Some <$> fs -> stack_frames x = fs.
Proof. intros Hx. unfold stack_frames. rewrite Hx. clear. induction fs as [|f fs IH]; [done|]. cbn. by f_equal. Qed.

Section laws.
Context `{HL : HardwareLaws}.

Lemma elem_of_frames_of t b ps f : f ∈ frames_of t b ps <->
  exists i e, i ∈ ps /\ entry t b i = Some e /\ pte_valid e = 1 /\ pte_pfn e = f.
Proof.
  unfold frames_of. rewrite list_elem_of_omap. split.
  - intros (i & Hi & Hf). exists i. destruct (entry t b i) as [e|]; [|done]. exists e.
    destruct (Z.eqb_spec (pte_valid e) 1); [|done]. by injection Hf as <-.
  - intros (i & e & Hi & He & Hv & <-). exists i. split; [done|]. by rewrite He, Hv.
Qed.

Lemma frames_of_ext t t' b ps : (forall i, i ∈ ps -> entry t' b i = entry t b i) -> frames_of t' b ps = frames_of t b ps.
Proof.
  unfold frames_of. induction ps as [|i ps IH]; intros He; [done|]. cbn [omap list_omap]. rewrite He by set_solver.
  rewrite IH by set_solver. done.
Qed.

Lemma frames_of_app t b ps qs : frames_of t b (ps ++ qs) = frames_of t b ps ++ frames_of t b qs.
Proof. apply omap_app. Qed.

Lemma elem_of_all_pages i : i ∈ all_pages <-> 0 <= i < MAX_PT_LEN.
Proof. unfold all_pages. rewrite elem_of_seqZ. lia. Qed.

Lemma owned_same t t' x y : same_space x y -> (forall r i, r1PageTable y = Some r -> 0 <= i < MAX_PT_LEN -> entry t' r i = entry t r i) ->
  owned t' x = owned t y.
Proof.
  intros [Hr Hst] He. unfold owned, space_frames, stack_frames. rewrite Hr, Hst. f_equal.
  destruct (r1PageTable y) as [r|]; [|done]. apply frames_of_ext. intros i Hi%elem_of_all_pages. by apply He.
Qed.

(** The process [p0] changes: the frames it has afterwards were its own or
    free, and those that are free afterwards were free or its own. *)
Lemma isolated_change t0 t ps avail t' ps' avail' p0 : isolated t0 t ps avail ->
  (forall p, p <> p0 -> space_of <$> ps' !! p = space_of <$> ps !! p) ->
  (forall p x r i, p <> p0 -> ps !! p = Some x -> r1PageTable x = Some r -> 0 <= i < MAX_PT_LEN -> entry t' r i = entry t r i) ->
  (forall x' f, ps' !! p0 = Some x' -> f ∈ owned t' x' -> f ∈ avail \/ exists x, ps !! p0 = Some x /\ f ∈ owned t x) ->
  (forall f, f ∈ avail' -> f ∈ avail \/ exists x, ps !! p0 = Some x /\ f ∈ owned t x) ->
  (forall x', ps' !! p0 = Some x' -> NoDup (owned t' x') /\ forall f, f ∈ owned t' x' -> f ∉ avail') ->
  (forall p x r, ps' !! p = Some x -> r1PageTable x = Some r -> table t' r /\ apart t0 r) ->
  (forall p x y a b, p <> p0 -> ps' !! p0 = Some x -> ps' !! p = Some y -> r1PageTable x = Some a -> r1PageTable y = Some b -> apart a b) ->
  isolated t0 t' ps' avail'.
Proof.
  intros [Hown Hfree Hap Hker Htab] Hps He Hnew Hav Hp0 Hker' Htab'.
  assert (forall p x', p <> p0 -> ps' !! p = Some x' -> exists x, ps !! p = Some x /\ same_space x' x /\ owned t' x' = owned t x) as Hold.
  { intros p x' Hne Hx'. destruct (same_space_lookup ps ps' p x' (Hps p Hne) Hx') as (x & Hx & Hs). exists x. split; [done|]. split; [done|].
    apply owned_same; [done|]. intros r i Hr Hi. by eapply He. }
  assert (forall q y f, q <> p0 -> ps' !! q = Some y -> f ∈ owned t' y ->
    ~ (f ∈ avail \/ exists x, ps !! p0 = Some x /\ f ∈ owned t x)) as Hnot.
  { intros q y f Hne Hy Hf. destruct (Hold q y Hne Hy) as (y0 & Hy0 & _ & Heq). rewrite Heq in Hf.
    intros [Hin|(x & Hx & Hin)]; [by eapply Hfree|]. by eapply (Hap p0 q). }
  split.
  - intros p x Hx. destruct (decide (p = p0)) as [->|Hne]; [by apply Hp0|].
    destruct (Hold p x Hne Hx) as (y & Hy & _ & ->). by eapply Hown.
  - intros p x f Hx Hf Hin. destruct (decide (p = p0)) as [->|Hne]; [by apply (proj2 (Hp0 x Hx) f)|].
    apply (Hnot p x f); auto.
  - intros p q x y f Hx Hy Hne Hf Hf'. destruct (decide (p = p0)) as [->|Hp]; [|destruct (decide (q = p0)) as [->|Hq]].
    + apply (Hnot q y f); [done..|]. by eapply Hnew.
    + apply (Hnot p x f); [done..|]. by eapply Hnew.
    + destruct (Hold p x Hp Hx) as (x0 & Hx0 & _ & Hox), (Hold q y Hq Hy) as (y0 & Hy0 & _ & Hoy). rewrite Hox in Hf. rewrite Hoy in Hf'.
      by eapply (Hap p q).
  - done.
  - intros p q x y a b Hx Hy Hne Ha Hb. destruct (decide (p = p0)) as [->|Hp]; [|destruct (decide (q = p0)) as [->|Hq]].
    + by apply (Htab' q x y).
    + assert (apart b a) by (by apply (Htab' p y x)). unfold apart in *. lia.
    + destruct (Hold p x Hp Hx) as (x0 & Hx0 & [Hrx _] & _), (Hold q y Hq Hy) as (y0 & Hy0 & [Hry _] & _).
      rewrite Hrx in Ha. rewrite Hry in Hb. by eapply (Htab p q).
Qed.

(** What the process [p0] had or was free is free or its own afterwards. *)
Lemma accounted_change all kept t ps avail t' ps' avail' p0 : accounted all kept t ps avail ->
  (forall p, p <> p0 -> space_of <$> ps' !! p = space_of <$> ps !! p) ->
  (forall p x r i, p <> p0 -> ps !! p = Some x -> r1PageTable x = Some r -> 0 <= i < MAX_PT_LEN -> entry t' r i = entry t r i) ->
  (forall f, f ∈ all -> f ∈ avail \/ (exists x, ps !! p0 = Some x /\ f ∈ owned t x) ->
     f ∈ avail' \/ exists x', ps' !! p0 = Some x' /\ f ∈ owned t' x') ->
  accounted all kept t' ps' avail'.
Proof.
  intros Hacc Hps He Hp0 f Hf. destruct (Hacc f Hf) as [?|[Hav|(p & x & Hx & Hin)]]; [by left|right..].
  - destruct (Hp0 f Hf (or_introl Hav)) as [?|(x' & ? & ?)]; [by left|right; by exists p0, x'].
  - destruct (decide (p = p0)) as [->|Hne].
    + destruct (Hp0 f Hf) as [?|(x' & ? & ?)]; [right; by exists x|by left|right; by exists p0, x'].
    + right. destruct (same_space_lookup ps' ps p x (eq_sym (Hps p Hne)) Hx) as (x' & Hx' & Hr & Hst). exists p, x'. split; [done|].
      rewrite (owned_same t t' x' x); [done|done|]. intros r i Hr1 Hi. by eapply He.
Qed.

Lemma table_same t t' r : (forall i, 0 <= i < MAX_PT_LEN -> entry t' r i = entry t r i) -> table t r -> table t' r.
Proof. intros He (? & ? & Ht). split_and!; try done. intros i Hi. rewrite He by done. by apply Ht. Qed.

(** No process changes its space. *)
Lemma isolated_ext t0 t ps avail t' ps' : isolated t0 t ps avail ->
  (forall p, space_of <$> ps' !! p = space_of <$> ps !! p) ->
  (forall p x r i, ps !! p = Some x -> r1PageTable x = Some r -> 0 <= i < MAX_PT_LEN -> entry t' r i = entry t r i) ->
  isolated t0 t' ps' avail.
Proof.
  intros [Hown Hfree Hap Hker Htab] Hps He.
  assert (forall p x', ps' !! p = Some x' -> exists x, ps !! p = Some x /\ same_space x' x /\ owned t' x' = owned t x) as Hold.
  { intros p x' Hx'. destruct (same_space_lookup ps ps' p x' (Hps p) Hx') as (x & Hx & Hs). exists x. split; [done|]. split; [done|].
    apply owned_same; [done|]. intros r i Hr Hi. by eapply He. }
  split.
  - intros p x (y & Hy & _ & ->)%Hold. by eapply Hown.
  - intros p x f (y & Hy & _ & ->)%Hold. by eapply Hfree.
  - intros p q x y f (x0 & Hx0 & _ & ->)%Hold (y0 & Hy0 & _ & ->)%Hold. by eapply Hap.
  - intros p x r (y & Hy & [Hr _] & _)%Hold. rewrite Hr. intros Hyr. destruct (Hker p y r Hy Hyr). split; [|done].
    eapply table_same; [|done]. intros i Hi. by eapply He.
  - intros p q x y a b (x0 & Hx0 & [-> _] & _)%Hold (y0 & Hy0 & [-> _] & _)%Hold. by eapply Htab.
Qed.
End laws.

Section states.
Context {QH MH : Type} `{HL : HardwareLaws} `{QO : QueueOps QH} `{MO : MapOps MH}
  `{QL : !QueueLaws QH} `{ML : !MapLaws MH}.
Abbreviation kst := (kst QH MH).
Implicit Types s : kst.

(** The frames that the kernel keeps for itself; whether the runs are [tight]:
    no break is raised over pages that are mapped, whose frames are then
    nobody's. *)
Context (tight : Prop) (kept : gset Z).

(** The memory of the machine is in order: the processes are isolated, and in
    tight runs no frame is lost. *)
Record mem_safe s (t0 : ptr) (all avail : gset Z) : Prop := {
  sf_fl : fl_rep (k_fl s) (numFrames (k_glob s)) all avail;
  sf_fit : frames_fit all;
  sf_iso : isolated t0 (k_pt s) (pcbs (k_obj s)) avail;
  sf_acc : tight -> accounted all kept (k_pt s) (pcbs (k_obj s)) avail
}.

(** What does not touch page tables, the list of frames and the spaces of the
    processes. *)
Record quiet s s' : Prop := {
  qt_pt : k_pt s' = k_pt s;
  qt_fl : k_fl s' = k_fl s;
  qt_frames : numFrames (k_glob s') = numFrames (k_glob s);
  qt_pcbs p : space_of <$> pcbs (k_obj s') !! p = space_of <$> pcbs (k_obj s) !! p
}.

(** Nothing changes but the entries of region 0. *)
Lemma mem_safe_ext s s' t0 all avail : k_fl s' = k_fl s -> numFrames (k_glob s') = numFrames (k_glob s) ->
  (forall p, space_of <$> pcbs (k_obj s') !! p = space_of <$> pcbs (k_obj s) !! p) ->
  (forall r i, table (k_pt s) r -> apart t0 r -> 0 <= i < MAX_PT_LEN -> entry (k_pt s') r i = entry (k_pt s) r i) ->
  mem_safe s t0 all avail -> mem_safe s' t0 all avail.
Proof.
  intros Hfl Hn Hp He [Hf Hfit Hiso Hacc].
  assert (forall p x r i, pcbs (k_obj s) !! p = Some x -> r1PageTable x = Some r -> 0 <= i < MAX_PT_LEN ->
    entry (k_pt s') r i = entry (k_pt s) r i) as He'.
  { intros p x r i Hx Hr Hi. destruct (is_kernel _ _ _ _ Hiso p x r Hx Hr). by apply He. }
  split; [by rewrite Hfl, Hn|done|by apply (isolated_ext t0 (k_pt s) (pcbs (k_obj s)) avail)|].
  intros Ht. apply (accounted_change all kept (k_pt s) (pcbs (k_obj s)) avail _ _ avail NULL); [by apply Hacc|by intros p _|by intros p x r i _; apply He'|].
  intros f _ [?|(x & Hx & Hin)]; [by left|right].
  destruct (same_space_lookup _ _ NULL x (eq_sym (Hp NULL)) Hx) as (x' & Hx' & Hr & Hst). exists x'. split; [done|].
  rewrite (owned_same (k_pt s) (k_pt s') x' x); [done|done|]. intros r i Hr1 Hi. by eapply He'.
Qed.

Lemma mem_safe_quiet s s' t0 all avail : quiet s s' -> mem_safe s t0 all avail -> mem_safe s' t0 all avail.
Proof. intros [Hpt Hfl Hn Hp]. apply mem_safe_ext; try done. intros r i _ _ _. by rewrite Hpt. Qed.

Lemma quiet_same_pcbs s s' : k_pt s' = k_pt s -> k_fl s' = k_fl s -> numFrames (k_glob s') = numFrames (k_glob s) ->
  pcbs (k_obj s') = pcbs (k_obj s) -> quiet s s'.
Proof. intros ??? Hp. split; [done..|]. intros p. by rewrite Hp. Qed.
End states.
