(* ===== verification/IsoStable.v ===== *)
(** Memory isolation is stable: the calls and handlers that do not manage
    memory keep it, in every state, whatever they return. *)

From stdpp Require Import base gmap sets list.
From S2P Require Import Prelude Hardware Queue HashMap FrameList State UserMem Scheduler SyncObjects LoadProgram GeneralCalls Tty Machine PageTable.
From S2P Require Import SwitchLaws CopyLaws IsoLaws Keeps Stable.

(** [t'] is [t] but for the entry at [p]. *)
Definition rewrites (p : ptr) (t t' : pt) : Prop :=
  (forall a, a <> p -> ptes t' !! a = ptes t !! a) /\ (forall a, is_Some (ptes t' !! a) <-> is_Some (ptes t !! a)).

Section tables.
Context `{HL : HardwareLaws}.

Lemma getVirtualAddr_keeps (I J : pt -> Prop) p : keeps I J (getVirtualAddr p) any.
Proof. unfold getVirtualAddr. repeat keep_step. Qed.

Lemma store_pte_rewrites p e t : keeps (rewrites p t) (rewrites p t) (store_pte p e) any.
Proof.
  intros u [Hu Hd]. unfold store_pte, load_pte, bind, modify. destruct (ptes u !! p) as [e'|] eqn:Hp; [|done]. split; [|done]. split; cbn.
  - intros a Ha. rewrite lookup_insert_ne by done. by apply Hu.
  - intros a. rewrite lookup_insert_is_Some', <- Hd. split; [intros [<-|?]; [by eexists|done]|by right].
Qed.
Lemma setPageTableEntry_rewrites p v pr f t : keeps (rewrites p t) (rewrites p t) (setPageTableEntry p v pr f) any.
Proof.
  unfold setPageTableEntry, setPageTableEntryNoFlush. eapply keeps_bind; [apply store_pte_rewrites|]. intros _ _.
  eapply keeps_bind; [apply getVirtualAddr_keeps|]. intros a _. destruct (a =? ERROR); [by intros u|]. by apply keeps_modify.
Qed.
End tables.

Section iso.
Context {QH MH : Type} `{HL : HardwareLaws} `{QO : QueueOps QH} `{MO : MapOps MH} `{FS : FileSystem}.
Abbreviation kst := (kst QH MH).
Implicit Types s : kst.
Context (tight : Prop) (kept : gset Z) (t0 : ptr) (all : gset Z).
Abbreviation mem_safe := (mem_safe tight kept).

(** The memory is in order, and the kernel knows where the entries of its
    stack are. *)
Definition memory_kept s : Prop :=
  (exists avail, mem_safe s t0 all avail) /\ r0StackBasePtep (k_glob s) = pte_at t0 KERNEL_STACK_BASE_VPN.

(** It does not depend on the rest of the state. *)
Lemma memory_kept_quiet s s' : quiet s s' -> r0StackBasePtep (k_glob s') = r0StackBasePtep (k_glob s) -> memory_kept s -> memory_kept s'.
Proof. intros Hq Hg [[avail Hs] Hb]. split; [|congruence]. exists avail. by eapply mem_safe_quiet. Qed.

#[export] Instance memory_stable : Stable None memory_kept memory_kept.
Proof.
  assert (forall p x y s, pcbs (k_obj s) !! p = Some x -> same_space y x -> memory_kept s ->
    memory_kept (with_obj (with_pcbs (<[p := y]> (pcbs (k_obj s))) (k_obj s)) s)) as Hpcb.
  { intros p x y s Hx Hsp. apply memory_kept_quiet; [|done]. split; [done..|]. intros q. cbn.
    destruct (decide (q = p)) as [->|]; [|by rewrite lookup_insert_ne]. rewrite lookup_insert_eq, Hx. cbn. f_equal. by apply same_space_of. }
  split; [split|]; try done; try (by intros ? ? ? _ ?);
    try (intros; eapply memory_kept_quiet; [| |eassumption]; [by apply quiet_same_pcbs|done]).
  - intros p x y s Hx (Hr & Hst & _). by eapply Hpcb.
  - intros p x kc s Hx _. by eapply Hpcb.
Qed.

(** A change of an entry of the kernel stack, and of registers. *)
Lemma memory_kept_pt s t : (forall r i, table (k_pt s) r -> apart t0 r -> 0 <= i < MAX_PT_LEN -> entry t r i = entry (k_pt s) r i) ->
  memory_kept s -> memory_kept (with_pt t s).
Proof.
  intros He [[avail Hs] Hb]. split; [|done]. exists avail. by apply (mem_safe_ext tight kept s).
Qed.

Lemma stack_entry_keeps i v pr f : 0 <= i < STACK_PAGES ->
  keeps memory_kept memory_kept (lift (setPageTableEntry (pte_at (pte_at t0 KERNEL_STACK_BASE_VPN) i) v pr f)) any.
Proof.
  intros Hi s Hs. pose proof (setPageTableEntry_rewrites (pte_at (pte_at t0 KERNEL_STACK_BASE_VPN) i) v pr f (k_pt s) (k_pt s)) as Hr.
  assert (forall t, rewrites (pte_at (pte_at t0 KERNEL_STACK_BASE_VPN) i) (k_pt s) t -> memory_kept (with_pt t s)) as Ht.
  { intros t [Ht _]. apply memory_kept_pt; [|done]. intros r j _ Hap Hj. unfold entry. apply Ht.
    rewrite pte_at_add. apply not_eq_sym, pte_at_apart; [done|by apply stack_vpn_range|done]. }
  unfold lift. cbn [view lens_pt put]. destruct (setPageTableEntry _ _ _ _ (k_pt s)); [split; [apply Ht, Hr|done]|apply Ht, Hr|apply Ht, Hr|done]; done.
Qed.

Lemma save_kctxt_keeps p kc : keeps memory_kept memory_kept (save_kctxt p kc) any.
Proof. unfold save_kctxt. keep; by apply update_kctxt_keeps; intros ?. Qed.
Lemma map_stack_keeps p : keeps memory_kept memory_kept (map_stack p) any.
Proof.
  unfold map_stack. eapply (keeps_bind _ _ _ _ (fun b => b = pte_at t0 KERNEL_STACK_BASE_VPN)); [apply keeps_gets; by intros s [_ ?]|].
  intros b ->. apply keeps_foldM. intros i Hi%elem_of_stack_indices. keep. by apply stack_entry_keeps.
Qed.
Lemma write_stack_keeps pgs : keeps memory_kept memory_kept (write_stack pgs) any.
Proof.
  unfold write_stack. keep. apply keeps_modify. intros s Hs. eapply memory_kept_quiet; [| |exact Hs]; [by apply quiet_same_pcbs|done].
Qed.
Hint Resolve write_stack_keeps : keeps.
Lemma start_process_keeps p : keeps memory_kept memory_kept (start_process p) any.
Proof. unfold start_process. keep. by apply update_kctxt_keeps; intros ?. Qed.
Lemma register_keeps f : (forall t, ptes (f t) = ptes t) -> keeps memory_kept memory_kept (lift (modify f)) any.
Proof.
  intros Hf s Hs. unfold lift, modify. cbn. split; [|done]. apply memory_kept_pt; [|done]. intros r i _ _ _. unfold entry. by rewrite Hf.
Qed.
Lemma switch_r1_keeps p : keeps memory_kept memory_kept (switch_r1 p) any.
Proof. unfold switch_r1. keep; by apply register_keeps. Qed.
Lemma read_kctxt_keeps p : keeps memory_kept memory_kept (read_kctxt p) any.
Proof. unfold read_kctxt. keep. Qed.

Hint Resolve save_kctxt_keeps map_stack_keeps start_process_keeps switch_r1_keeps read_kctxt_keeps : keeps.

#[export] Instance memory_switching : Switching None memory_kept memory_kept.
Proof.
  intros cur n kc _. unfold switchBetween. keep.
Qed.
End iso.
