(* ===== verification/IsoCalls.v ===== *)
(** The system calls that change memory keep the processes isolated: Fork,
    Exec, Exit, Brk, and the trap that lets the stack grow. *)

From stdpp Require Import base gmap sets list.
From S2P Require Import Prelude Hardware Queue HashMap FrameList State UserMem Scheduler LoadProgram GeneralCalls Machine PageTable.
From S2P Require Import SwitchLaws SchedView SchedLaws Steps CopyLaws InitLaws ForkCall CallLaws ExitLaws SpaceLaws LoadLaws ExecLaws GrowLaws IsoLaws Keeps Stable IsoStable.

Section frames.
Context `{HL : HardwareLaws}.

Lemma frames_of_NoDup t b ps : NoDup ps ->
  (forall i j e e', i ∈ ps -> j ∈ ps -> i <> j -> entry t b i = Some e -> entry t b j = Some e' ->
     pte_valid e = 1 -> pte_valid e' = 1 -> pte_pfn e <> pte_pfn e') -> NoDup (frames_of t b ps).
Proof.
  induction ps as [|i ps IH]; intros Hnd Hinj; [apply NoDup_nil_2|]. apply NoDup_cons in Hnd as [Hi Hnd].
  assert (NoDup (frames_of t b ps)) as Hps by (apply IH; [done|]; intros j k e e' Hj Hk; apply Hinj; set_solver).
  change (i :: ps) with ([i] ++ ps). rewrite frames_of_app. unfold frames_of at 1. cbn [omap list_omap].
  destruct (entry t b i) as [e|] eqn:He; [|done]. destruct (Z.eqb_spec (pte_valid e) 1) as [Hv|]; [|done].
  apply NoDup_cons. split; [|done]. intros (j & e' & Hj & He' & Hv' & Heq)%elem_of_frames_of. revert Heq.
  apply (Hinj j i e' e); try done; [set_solver|set_solver|]. intros ->. done.
Qed.

Lemma frames_of_inj t b ps i j e e' : NoDup (frames_of t b ps) -> i ∈ ps -> j ∈ ps -> i <> j ->
  entry t b i = Some e -> entry t b j = Some e' -> pte_valid e = 1 -> pte_valid e' = 1 -> pte_pfn e <> pte_pfn e'.
Proof.
  intros Hnd Hi Hj Hne He He' Hv Hv' Heq. apply list_elem_of_split in Hi as (l1 & l2 & ->).
  assert (j ∈ l1 ++ l2) as Hj' by set_solver. rewrite frames_of_app in Hnd. change (i :: l2) with ([i] ++ l2) in Hnd.
  rewrite frames_of_app in Hnd. assert (pte_pfn e ∈ frames_of t b [i]) as Hin.
  { apply elem_of_frames_of. exists i, e. split_and!; try done. set_solver. }
  assert (forall l, j ∈ l -> pte_pfn e ∈ frames_of t b l) as Hin'.
  { intros l Hl. apply elem_of_frames_of. exists j, e'. done. }
  apply NoDup_app in Hnd as (_ & Hd1 & (_ & Hd2 & _)%NoDup_app).
  apply elem_of_app in Hj' as [Hj'|Hj']; [apply (Hd1 _ (Hin' _ Hj')); set_solver|by apply (Hd2 _ Hin), Hin'].
Qed.
End frames.

Section laws.
Context {QH MH : Type} `{HL : HardwareLaws} `{QO : QueueOps QH} `{MO : MapOps MH}
  `{QL : !QueueLaws QH} `{ML : !MapLaws MH} `{FS : FileSystem}.
Abbreviation kst := (kst QH MH).
Implicit Types s : kst.
Context (tight : Prop) (kept : gset Z).
Abbreviation mem_safe := (mem_safe tight kept).
Abbreviation memory_kept := (memory_kept tight kept).

(** The process [p] gets another region 1: its pages lie in frames that were
    free or in its old region. *)
Lemma mem_safe_region1 s s' t0 t1 p x x' all avail avail' : mem_safe s t0 all avail ->
  pcbs (k_obj s) !! p = Some x -> r1PageTable x = Some t1 ->
  pcbs (k_obj s') = <[p := x']> (pcbs (k_obj s)) -> same_space x' x ->
  pt_upd (entries_of t1 all_pages) (k_pt s) (k_pt s') -> fl_rep (k_fl s') (numFrames (k_glob s')) all avail' ->
  NoDup (frames_of (k_pt s') t1 all_pages) ->
  (forall f, f ∈ frames_of (k_pt s') t1 all_pages -> (f ∈ avail \/ f ∈ frames_of (k_pt s) t1 all_pages) /\ f ∉ avail') ->
  (forall f, f ∈ avail' -> f ∈ avail \/ f ∈ frames_of (k_pt s) t1 all_pages) ->
  (tight -> forall f, f ∈ all -> f ∈ avail \/ f ∈ frames_of (k_pt s) t1 all_pages ->
     f ∈ avail' \/ f ∈ frames_of (k_pt s') t1 all_pages) ->
  mem_safe s' t0 all avail'.
Proof.
  intros [Hfl Hfit Hiso Hacc] Hx Hr1 Hpcbs [Hr Hst] Hu Hfl' Hnd Hnew Hav Hall.
  assert (forall q, q <> p -> space_of <$> pcbs (k_obj s') !! q = space_of <$> pcbs (k_obj s) !! q) as Hoth
    by (intros q Hne; by rewrite Hpcbs, lookup_insert_ne).
  assert (forall q y r i, q <> p -> pcbs (k_obj s) !! q = Some y -> r1PageTable y = Some r -> 0 <= i < MAX_PT_LEN ->
    entry (k_pt s') r i = entry (k_pt s) r i) as Hent.
  { intros q y r i Hne Hy Hyr Hi. apply (upd_ptes _ _ _ Hu). intros (j & Hj%elem_of_all_pages & Heq). revert Heq.
    apply pte_at_apart; [|done|done]. by apply (is_tables _ _ _ _ Hiso q p y x). }
  destruct (is_kernel _ _ _ _ Hiso p x t1 Hx Hr1) as [Htab Hap].
  assert (owned (k_pt s) x = frames_of (k_pt s) t1 all_pages ++ stack_frames x) as Hox by (unfold owned, space_frames; by rewrite Hr1).
  assert (owned (k_pt s') x' = frames_of (k_pt s') t1 all_pages ++ stack_frames x) as Hox'
    by (unfold owned, space_frames, stack_frames; by rewrite Hr, Hr1, Hst).
  pose proof (is_own _ _ _ _ Hiso p x Hx) as Hown. rewrite Hox in Hown. apply NoDup_app in Hown as (_ & Hdis & Hns).
  assert (forall f, f ∈ stack_frames x -> f ∉ avail) as Hsf.
  { intros f Hf. apply (is_free _ _ _ _ Hiso p x f Hx). rewrite Hox. set_solver. }
  split; [done|done| |].
  2: { intros Ht. apply (accounted_change all kept (k_pt s) (pcbs (k_obj s)) avail _ _ _ p (Hacc Ht) Hoth Hent).
    rewrite Hpcbs, lookup_insert_eq. intros f Hf Hor.
    assert (f ∈ stack_frames x \/ (f ∈ avail \/ f ∈ frames_of (k_pt s) t1 all_pages)) as [Hin|[Hin|Hin]%(Hall Ht f Hf)].
    { destruct Hor as [?|(y & Hy & Hin)]; [by right; left|]. rewrite Hx in Hy. injection Hy as <-. rewrite Hox in Hin.
      apply elem_of_app in Hin as [?|?]; auto. }
    - right. exists x'. split; [done|]. rewrite Hox'. set_solver.
    - by left.
    - right. exists x'. split; [done|]. rewrite Hox'. set_solver. }
  apply (isolated_change t0 (k_pt s) (pcbs (k_obj s)) avail _ _ _ p Hiso Hoth Hent).
  - intros y f. rewrite Hpcbs, lookup_insert_eq. intros [= <-]. rewrite Hox'. intros [Hf|Hf]%elem_of_app.
    + destruct (proj1 (Hnew f Hf)) as [?|?]; [by left|]. right. exists x. split; [done|]. rewrite Hox. set_solver.
    + right. exists x. split; [done|]. rewrite Hox. set_solver.
  - intros f [?|?]%Hav; [by left|]. right. exists x. split; [done|]. rewrite Hox. set_solver.
  - intros y. rewrite Hpcbs, lookup_insert_eq. intros [= <-]. rewrite Hox'. split.
    + apply NoDup_app. split; [done|]. split; [|done]. intros f Hf Hf'.
      destruct (proj1 (Hnew f Hf)) as [?|?]; [by apply (Hsf f)|by eapply Hdis].
    + intros f [Hf|Hf]%elem_of_app; [by apply Hnew|]. intros [?|?]%Hav; [by apply (Hsf f)|by eapply Hdis].
  - intros q y r. rewrite Hpcbs. intros [[<- <-]|[_ Hy]]%lookup_insert_Some Hyr.
    + rewrite Hr in Hyr. destruct (is_kernel _ _ _ _ Hiso p x r Hx Hyr). split; [by eapply pt_upd_table|done].
    + destruct (is_kernel _ _ _ _ Hiso q y r Hy Hyr). split; [by eapply pt_upd_table|done].
  - intros q y z a b Hne. rewrite Hpcbs, lookup_insert_eq, lookup_insert_ne by done. intros [= <-] Hz. rewrite Hr. intros Ha Hb.
    apply (is_tables _ _ _ _ Hiso p q x z); auto.
Qed.

(** Pages are mapped to frames that were free. *)
Lemma mem_safe_mapped s s' t0 t1 p x x' all avail l : mem_safe s t0 all avail ->
  pcbs (k_obj s) !! p = Some x -> r1PageTable x = Some t1 ->
  pcbs (k_obj s') = <[p := x']> (pcbs (k_obj s)) -> same_space x' x ->
  pt_upd (entries_of t1 l.*1) (k_pt s) (k_pt s') -> (forall i, i ∈ l.*1 -> 0 <= i < MAX_PT_LEN) ->
  (forall i f, (i, f) ∈ l -> exists pr, entry (k_pt s') t1 i = Some (mkPte 1 pr f)) ->
  NoDup l.*2 -> list_to_set l.*2 ⊆ avail ->
  (tight -> forall i, i ∈ l.*1 -> exists e, entry (k_pt s) t1 i = Some e /\ pte_valid e <> 1) ->
  fl_rep (k_fl s') (numFrames (k_glob s')) all (avail ∖ list_to_set l.*2) ->
  mem_safe s' t0 all (avail ∖ list_to_set l.*2).
Proof.
  intros Hsafe Hx Hr1 Hpcbs Hsp Hu Hl Hent Hnd Hsub Hnew Hfl. pose proof Hsafe as [_ _ Hiso _].
  assert (forall i e, 0 <= i < MAX_PT_LEN -> entry (k_pt s') t1 i = Some e -> pte_valid e = 1 ->
    (exists f, (i, f) ∈ l /\ pte_pfn e = f) \/ ((i ∉ l.*1) /\ entry (k_pt s) t1 i = Some e)) as Hcase.
  { intros i e Hi He Hv. destruct (decide (i ∈ l.*1)) as [Hin|Hni].
    - left. apply list_elem_of_fmap in Hin as ([i' f] & -> & Hin). exists f. split; [done|].
      destruct (Hent _ _ Hin) as (pr & He'). cbn in He. rewrite He' in He. by injection He as <-.
    - right. split; [done|]. rewrite <- He. symmetry. apply (upd_ptes _ _ _ Hu). intros (j & Hj & ->%pte_at_inj). done. }
  pose proof (is_own _ _ _ _ Hiso p x Hx) as Hown. unfold owned, space_frames in Hown. rewrite Hr1 in Hown. apply NoDup_app in Hown as (Hndo & _).
  assert (forall f, f ∈ frames_of (k_pt s) t1 all_pages -> f ∉ avail) as Hof.
  { intros f Hf. apply (is_free _ _ _ _ Hiso p x f Hx). unfold owned, space_frames. rewrite Hr1. set_solver. }
  assert (forall i f, (i, f) ∈ l -> f ∈ l.*2 /\ f ∈ avail) as Hlf.
  { intros i f Hin. assert (f ∈ l.*2) by (apply list_elem_of_fmap; by exists (i, f)). split; [done|]. apply Hsub. by apply elem_of_list_to_set. }
  assert (forall i e, entry (k_pt s) t1 i = Some e -> 0 <= i < MAX_PT_LEN -> pte_valid e = 1 -> pte_pfn e ∈ frames_of (k_pt s) t1 all_pages) as Hold.
  { intros i e He Hi Hv. apply elem_of_frames_of. exists i, e. rewrite elem_of_all_pages. done. }
  eapply (mem_safe_region1 s s' t0 t1 p x x' all avail); try done.
  - eapply pt_upd_weaken, Hu. intros a (i & Hi & ->). exists i. split; [|done]. apply elem_of_all_pages. auto.
  - apply frames_of_NoDup; [apply NoDup_seqZ|]. intros i j e e' Hi%elem_of_all_pages Hj%elem_of_all_pages Hne He He' Hv Hv'.
    destruct (Hcase i e Hi He Hv) as [(f & Hin & ->)|[_ Ho]], (Hcase j e' Hj He' Hv') as [(f' & Hin' & ->)|[_ Ho']].
    + intros ->. apply Hne. apply list_elem_of_lookup in Hin as (n & Hn), Hin' as (m & Hm).
      assert (n = m) as ->; [|congruence]. eapply (NoDup_lookup l.*2); [done|by rewrite list_lookup_fmap, Hn|by rewrite list_lookup_fmap, Hm].
    + intros Heq. apply (Hof (pte_pfn e')); [by eapply Hold|]. rewrite <- Heq. by apply (Hlf i).
    + intros Heq. apply (Hof (pte_pfn e)); [by eapply Hold|]. rewrite Heq. by apply (Hlf j).
    + eapply (frames_of_inj (k_pt s) t1 all_pages i j); try done; by apply elem_of_all_pages.
  - intros f (i & e & Hi%elem_of_all_pages & He & Hv & <-)%elem_of_frames_of.
    destruct (Hcase i e Hi He Hv) as [(f & Hin & ->)|[Hni Ho]].
    + destruct (Hlf i f Hin). split; [by left|]. rewrite elem_of_difference, elem_of_list_to_set. tauto.
    + pose proof (Hold i e Ho Hi Hv) as Hin. split; [by right|]. intros [Hin' _]%elem_of_difference. by eapply Hof.
  - intros f [Hf _]%elem_of_difference. by left.
  - intros Ht f _ Hor. rewrite elem_of_difference, elem_of_list_to_set. destruct Hor as [Hav|(i & e & Hi & He & Hv & <-)%elem_of_frames_of].
    + destruct (decide (f ∈ l.*2)) as [Hin|]; [right|by left]. apply list_elem_of_fmap in Hin as ([i g] & -> & Hin).
      destruct (Hent i g Hin) as (pr & He). apply elem_of_frames_of. exists i, (mkPte 1 pr g). split; [|done].
      apply elem_of_all_pages, Hl, list_elem_of_fmap. by exists (i, g).
    + right. apply elem_of_frames_of. exists i, e. split; [done|]. split; [|done]. rewrite <- He. apply (upd_ptes _ _ _ Hu).
      intros (j & Hj & <-%pte_at_inj). destruct (Hnew Ht _ Hj) as (e' & He' & Hv'). congruence.
Qed.

(** Pages are taken away and their frames are free. *)
Lemma mem_safe_freed s s' t0 t1 p x x' all avail l : mem_safe s t0 all avail ->
  pcbs (k_obj s) !! p = Some x -> r1PageTable x = Some t1 ->
  pcbs (k_obj s') = <[p := x']> (pcbs (k_obj s)) -> same_space x' x ->
  pt_upd (entries_of t1 l.*1) (k_pt s) (k_pt s') -> (forall i, i ∈ l.*1 -> 0 <= i < MAX_PT_LEN) ->
  (forall i f, (i, f) ∈ l -> exists pr, entry (k_pt s) t1 i = Some (mkPte 1 pr f)) ->
  (forall i, i ∈ l.*1 -> exists e, entry (k_pt s') t1 i = Some e /\ pte_valid e <> 1) ->
  fl_rep (k_fl s') (numFrames (k_glob s')) all (avail ∪ list_to_set l.*2) ->
  mem_safe s' t0 all (avail ∪ list_to_set l.*2).
Proof.
  intros Hsafe Hx Hr1 Hpcbs Hsp Hu Hl Hent Hinv Hfl. pose proof Hsafe as [_ _ Hiso _].
  pose proof (is_own _ _ _ _ Hiso p x Hx) as Hown. unfold owned, space_frames in Hown. rewrite Hr1 in Hown. apply NoDup_app in Hown as (Hndo & _).
  assert (forall i e, 0 <= i < MAX_PT_LEN -> entry (k_pt s') t1 i = Some e -> pte_valid e = 1 ->
    (i ∉ l.*1) /\ entry (k_pt s) t1 i = Some e /\ i ∈ all_pages) as Hcase.
  { intros i e Hi He Hv. assert (i ∉ l.*1) as Hni by (intros Hin; destruct (Hinv i Hin) as (e' & He' & Hv'); congruence).
    split; [done|]. split; [|by apply elem_of_all_pages]. rewrite <- He. symmetry. apply (upd_ptes _ _ _ Hu). intros (j & Hj & ->%pte_at_inj). done. }
  assert (forall i f, (i, f) ∈ l -> i ∈ l.*1 /\ i ∈ all_pages /\ exists e, entry (k_pt s) t1 i = Some e /\ pte_valid e = 1 /\ pte_pfn e = f) as Hle.
  { intros i f Hin. assert (i ∈ l.*1) by (apply list_elem_of_fmap; by exists (i, f)). split; [done|]. split; [apply elem_of_all_pages; auto|].
    destruct (Hent i f Hin) as (pr & He). by eexists. }
  eapply (mem_safe_region1 s s' t0 t1 p x x' all avail); try done.
  - eapply pt_upd_weaken, Hu. intros a (i & Hi & ->). exists i. split; [|done]. apply elem_of_all_pages. auto.
  - apply frames_of_NoDup; [apply NoDup_seqZ|]. intros i j e e' Hi%elem_of_all_pages Hj%elem_of_all_pages Hne He He' Hv Hv'.
    destruct (Hcase i e Hi He Hv) as (_ & Ho & ?), (Hcase j e' Hj He' Hv') as (_ & Ho' & ?). by eapply (frames_of_inj (k_pt s) t1 all_pages i j).
  - intros f (i & e & Hi%elem_of_all_pages & He & Hv & <-)%elem_of_frames_of. destruct (Hcase i e Hi He Hv) as (Hni & Ho & Hia).
    assert (pte_pfn e ∈ frames_of (k_pt s) t1 all_pages) as Hin by (apply elem_of_frames_of; by exists i, e).
    split; [by right|]. intros [Hav|Hf]%elem_of_union.
    + apply (is_free _ _ _ _ Hiso p x (pte_pfn e) Hx); [|done]. unfold owned, space_frames. rewrite Hr1. set_solver.
    + apply elem_of_list_to_set, list_elem_of_fmap in Hf as ([j f] & Heq & Hlf). destruct (Hle j f Hlf) as (Hj & Hja & e' & He' & Hv' & Hp').
      cbn in Heq. apply (frames_of_inj (k_pt s) t1 all_pages i j e e'); try done; [|congruence]. intros ->. done.
  - intros f [Hav|Hf]%elem_of_union; [by left|]. right. apply elem_of_list_to_set, list_elem_of_fmap in Hf as ([j f'] & -> & Hlf).
    destruct (Hle j f' Hlf) as (_ & Hja & e' & He' & Hv' & <-). apply elem_of_frames_of. by exists j, e'.
  - intros _ f _ Hor. rewrite elem_of_union, elem_of_list_to_set. destruct Hor as [Hav|(i & e & Hi & He & Hv & <-)%elem_of_frames_of]; [by left; left|].
    destruct (decide (i ∈ l.*1)) as [Hin|Hni].
    + left. right. apply list_elem_of_fmap in Hin as ([i' g] & -> & Hin). apply list_elem_of_fmap. exists (i', g). split; [|done].
      destruct (Hent _ _ Hin) as (pr & He'). cbn in He |- *. rewrite He' in He. by injection He as <-.
    + right. apply elem_of_frames_of. exists i, e. split; [done|]. split; [|done]. rewrite <- He. apply (upd_ptes _ _ _ Hu).
      intros (j & Hj & <-%pte_at_inj). done.
Qed.

Lemma kernel_base s t0 qs ms v : kernel_ok s t0 qs ms v -> r0StackBasePtep (k_glob s) = pte_at t0 KERNEL_STACK_BASE_VPN.
Proof. intros [[Hmmu _ _ _ _] _ _ _]. apply Hmmu. Qed.

(** ** Exec *)

Lemma frames_of_run t b i prot fs : run t b i prot fs -> frames_of t b (seqZ i (Z.of_nat (length fs))) = fs.
Proof.
  revert i. induction fs as [|f fs IH]; intros i Hrun; [done|]. cbn [length]. rewrite seqZ_cons by lia.
  change (i :: ?l) with ([i] ++ l). rewrite frames_of_app. pose proof (Hrun 0%nat f eq_refl) as He. rewrite Z.add_0_r in He.
  unfold frames_of at 1. cbn [omap list_omap]. rewrite He. cbn. f_equal.
  replace (Z.pred (Z.of_nat (S (length fs)))) with (Z.of_nat (length fs)) by lia. apply IH.
  intros j g Hj. specialize (Hrun (S j) g Hj). rewrite <- Hrun. f_equal. lia.
Qed.

Lemma frames_of_none t b ps : (forall i, i ∈ ps -> exists e, entry t b i = Some e /\ pte_valid e <> 1) -> frames_of t b ps = [].
Proof.
  unfold frames_of. induction ps as [|i ps IH]; intros He; [done|]. cbn [omap list_omap].
  destruct (He i) as (e & -> & Hv); [set_solver|]. destruct (Z.eqb_spec (pte_valid e) 1); [done|]. apply IH. set_solver.
Qed.

(** The frames of a new program, in the order of their pages. *)
Lemma program_frames t t1 li args prot tf df sf : fits li args -> space t t1 li args prot tf df sf ->
  frames_of t t1 all_pages = tf ++ df ++ sf.
Proof.
  intros [_ (? & ? & ?) _ _ [? ?] Hroom Hargs _] [(Hlt & Hld & Hls) Hrt Hrd Hrs Hnone].
  pose proof (stack_bounds args Hargs) as (Hs & _). assert (data_npg li = id_npg li + ud_npg li) as Hdn by done.
  set (a := text_pg1 li) in *. set (b := data_pg1 li) in *. set (n := t_npg li) in *. set (m := data_npg li) in *. set (k := stack_npg args) in *.
  unfold all_pages. replace MAX_PT_LEN with (a + (n + ((b - (a + n)) + (m + ((MAX_PT_LEN - k - (b + m)) + k))))) by lia.
  rewrite !seqZ_app, !frames_of_app by lia. rewrite !Z.add_0_l.
  rewrite (frames_of_none t t1 (seqZ 0 a)).
  2: { intros i Hi%elem_of_seqZ. apply Hnone; lia. }
  rewrite (frames_of_none t t1 (seqZ (a + n) _)).
  2: { intros i Hi%elem_of_seqZ. apply Hnone; lia. }
  rewrite (frames_of_none t t1 (seqZ (a + n + (b - (a + n)) + m) _)).
  2: { intros i Hi%elem_of_seqZ. apply Hnone; lia. }
  replace n with (Z.of_nat (length tf)) at 1 by lia. rewrite (frames_of_run _ _ _ _ _ Hrt).
  replace (a + n + (b - (a + n))) with b by lia. replace m with (Z.of_nat (length df)) at 1 by lia. rewrite (frames_of_run _ _ _ _ _ Hrd).
  replace (b + m + (MAX_PT_LEN - k - (b + m))) with (MAX_PT_LEN - k) by lia. replace k with (Z.of_nat (length sf)) at 2 by lia.
  by rewrite (frames_of_run _ _ _ _ _ Hrs).
Qed.

(** What [KernelExec] needs, isolation apart. *)
Record exec_call s (t0 t1 : ptr) (qs : gmap ptr (list ptr)) (ms : gmap ptr (gmap Z ptr)) (v : sview) (x : PCB_t)
    (u : UserContext) (fs : list Z) (filename argvec : ptr) (name : list Z) (args : list (list Z)) (fd : file) (li : load_info)
    (all avail : gset Z) (kc : KernelContext) : Prop := {
  xc_ok : kernel_ok s t0 qs ms v;
  xc_load : can_load s t0 t1 (v_run v) x u name args fd li all avail;
  xc_name : user_string s filename name;
  xc_args : user_argv s argvec args;
  xc_vector : (length args < Z.to_nat (VMEM_1_LIMIT - argvec))%nat;
  xc_stack : has_stack x fs /\ stack_mapped (k_pt s) t0 fs;
  xc_starter : starterKctxt (k_glob s) = Some kc
}.

Lemma stack_frames_has x fs : has_stack x fs -> stack_frames x = fs.
Proof. intros (Hx & _). by apply stack_frames_some. Qed.

Lemma exec_call_can s t0 t1 qs ms v x u fs filename argvec name args fd li all avail kc : mem_safe s t0 all avail ->
  exec_call s t0 t1 qs ms v x u fs filename argvec name args fd li all avail kc ->
  can_exec s t0 t1 qs ms v x u fs filename argvec name args fd li all avail kc.
Proof.
  intros [_ _ Hiso _] [Hok Hload Hname Hargs Hvec [Hst Hmap] Hkc]. split; try done.
  intros f Hf. destruct (cl_pcb _ _ _ _ _ _ _ _ _ _ _ _ Hload) as (Hx & Hr1 & _).
  pose proof (is_own _ _ _ _ Hiso _ _ Hx) as Hown. pose proof (is_free _ _ _ _ Hiso _ _ f Hx) as Hfree. unfold owned, space_frames in *.
  rewrite Hr1, (stack_frames_has _ _ Hst) in *. apply NoDup_app in Hown as (_ & Hdis & _).
  unfold given_back. rewrite elem_of_union, elem_of_intersection, elem_of_list_to_set. intros [Hav|[Hin _]]; [|by eapply Hdis].
  apply Hfree; [set_solver|done].
Qed.

Lemma exec_safe s t0 t1 qs ms v x u fs filename argvec name args fd li all avail kc kc' s' : mem_safe s t0 all avail ->
  exec_call s t0 t1 qs ms v x u fs filename argvec name args fd li all avail kc ->
  KernelExec filename argvec s = Switch kc' s' -> memory_kept t0 all s'.
Proof.
  intros Hsafe Hcall Hrun. pose proof (exec_call_can _ _ _ _ _ _ _ _ _ _ _ _ _ _ _ _ _ _ Hsafe Hcall) as Hcan.
  destruct (KernelExec_ok _ _ _ _ _ _ _ _ _ _ _ _ _ _ _ _ _ _ Hcan) as (tf & df & sf & s2 & Hrun2 & Hok2 & Hl & _ & Hnd & Hsub & Hfl & Hp & Hu).
  rewrite Hrun2 in Hrun. injection Hrun as _ <-.
  destruct (ce_load _ _ _ _ _ _ _ _ _ _ _ _ _ _ _ _ _ _ Hcan) as [_ _ (Hx & Hr1 & _) _ Hfits _ _ _ _ _].
  pose proof (program_frames _ _ _ _ _ _ _ _ Hfits (ld_space _ _ _ _ _ _ _ _ Hl)) as Heq. fold all_pages in Hsub, Hfl, Hu.
  split; [|by eapply kernel_base]. eexists. eapply (mem_safe_region1 s s2 t0 t1 (v_run v) x); try done; rewrite ?Heq; [done| | |].
  - intros f Hf. assert (f ∈ given_back all avail (frames_of (k_pt s) t1 all_pages)) as Hin by (by apply Hsub, elem_of_list_to_set).
    split; [unfold given_back in Hin; set_solver|]. intros [_ []%not_elem_of_list_to_set]%elem_of_difference. done.
  - intros f [Hin _]%elem_of_difference. unfold given_back in Hin. set_solver.
  - intros _ f Hf Hor. destruct (decide (f ∈ tf ++ df ++ sf)) as [?|Hni]; [by right|left]. unfold given_back.
    rewrite elem_of_difference, elem_of_list_to_set, elem_of_union, elem_of_intersection, elem_of_list_to_set. tauto.
Qed.

(** ** Brk *)

Lemma elem_of_zip_pages (i : Z) (fs : list Z) j f : (j, f) ∈ zip (seqZ i (Z.of_nat (length fs))) fs ->
  exists k, fs !! k = Some f /\ j = i + Z.of_nat k.
Proof.
  intros (k & Hk)%list_elem_of_lookup. rewrite lookup_zip_with in Hk.
  destruct (seqZ _ _ !! k) as [j'|] eqn:Hj; [|done]. destruct (fs !! k) as [g|] eqn:Hg; [|done]. cbn in Hk. injection Hk as -> ->.
  apply lookup_seqZ in Hj as [-> _]. by exists k.
Qed.

Lemma zip_pages_fst (i : Z) (fs : list Z) : (zip (seqZ i (Z.of_nat (length fs))) fs).*1 = seqZ i (Z.of_nat (length fs)).
Proof. apply fst_zip. rewrite length_seqZ. lia. Qed.
Lemma zip_pages_snd (i : Z) (fs : list Z) : (zip (seqZ i (Z.of_nat (length fs))) fs).*2 = fs.
Proof. apply snd_zip. rewrite length_seqZ. lia. Qed.

Lemma pages_of_entries t t' t1 i n : pt_upd (pages_of t1 i n) t t' -> pt_upd (entries_of t1 (seqZ i (Z.of_nat n))) t t'.
Proof. intros Hu. eapply pt_upd_weaken, Hu. intros a (j & Hj & ->). exists j. split; [apply elem_of_seqZ; lia|done]. Qed.

(** What the break needs: frames for new pages, which in tight runs are not
    mapped yet, or pages to give back. *)
Definition brk_possible s (t1 : ptr) (b addr : Z) (all avail : gset Z) : Prop :=
  page_up b <= page_up addr /\ (Z.to_nat (page_up addr - page_up b) <= size avail)%nat /\
    (tight -> forall i, page_up b <= i < page_up addr ->
       exists e, entry (k_pt s) t1 (i - MAX_PT_LEN) = Some e /\ pte_valid e <> 1) \/
  exists fs, fs <> [] /\ page_up b = page_up addr + Z.of_nat (length fs) /\ list_to_set fs ⊆ all /\
    forall j f, fs !! j = Some f -> exists pr, entry (k_pt s) t1 (page_up addr - MAX_PT_LEN + Z.of_nat j) = Some (mkPte 1 pr f).

Lemma brk_safe s t0 t1 qs ms v x b all avail addr r s' : mem_safe s t0 all avail -> has_break s t0 t1 qs ms v x b all avail ->
  VMEM_1_BASE <= addr < VMEM_1_LIMIT -> brk_possible s t1 b addr all avail -> KernelBrk addr s = Ret r s' ->
  memory_kept t0 all s'.
Proof.
  intros Hsafe Hhb Haddr Hpos Hrun. pose proof Hhb as [_ Hvm Hx _ Hr1 Hbb _]. pose proof (sf_fit _ _ _ _ _ _ Hsafe) as Hfit.
  pose proof (page_up_region1 b Hbb) as Hpb. assert (VMEM_1_BASE <= addr <= VMEM_1_LIMIT) as Hpa%page_up_region1 by lia.
  destruct Hpos as [(Hle & Hsz & Hgap)|(fs & Hne & Heq & Hsub & Hent)].
  - destruct (KernelBrk_grow s t0 t1 qs ms v x b all avail addr Hhb Haddr Hle Hsz) as (t' & f' & fs & Hrun2 & Hok2 & Hlen & Hnd & Hsub & Hfl & Hent & Hu).
    rewrite Hrun2 in Hrun. injection Hrun as _ <-. split; [|by eapply kernel_base]. set (i := page_up b - MAX_PT_LEN) in *. assert (i = page_up b - MAX_PT_LEN) as Hi by done.
    exists (avail ∖ list_to_set (zip (seqZ i (Z.of_nat (length fs))) fs).*2).
    eapply (mem_safe_mapped s _ t0 t1 (v_run v) x (with_brk (Some addr) x)); rewrite ?zip_pages_fst, ?zip_pages_snd; try done.
    + by apply pages_of_entries.
    + intros j Hj%elem_of_seqZ. lia.
    + intros j f (k & Hk & ->)%elem_of_zip_pages. exists PROT_RW. cbn. rewrite (Hent k f Hk). do 2 f_equal. unfold bits. apply Z.mod_small.
      apply Hfit, (fl_rep_subset _ _ _ _ (sf_fl _ _ _ _ _ _ Hsafe)), Hsub, elem_of_list_to_set. apply list_elem_of_lookup. by exists k.
    + intros Ht j Hj%elem_of_seqZ. destruct (Hgap Ht (j + MAX_PT_LEN)) as (e & He & Hv); [lia|].
      replace (j + MAX_PT_LEN - MAX_PT_LEN) with j in He by lia. by exists e.
  - destruct (KernelBrk_shrink s t0 t1 qs ms v x b all avail addr fs Hhb Haddr Heq Hne Hsub) as (t' & f' & Hrun2 & Hok2 & Hfl & Hinv & Hu).
    { intros j f Hj. destruct (Hent j f Hj) as (pr & He). by exists 1, pr. }
    rewrite Hrun2 in Hrun. injection Hrun as _ <-. split; [|by eapply kernel_base]. set (i := page_up addr - MAX_PT_LEN) in *. assert (i = page_up addr - MAX_PT_LEN) as Hi by done.
    exists (avail ∪ list_to_set (zip (seqZ i (Z.of_nat (length fs))) fs).*2).
    eapply (mem_safe_freed s _ t0 t1 (v_run v) x (with_brk (Some addr) x)); rewrite ?zip_pages_fst, ?zip_pages_snd; try done.
    + by apply pages_of_entries.
    + intros j Hj%elem_of_seqZ. lia.
    + intros j f (k & Hk & ->)%elem_of_zip_pages. by apply Hent.
    + intros j Hj%elem_of_seqZ. destruct (Hinv (j + MAX_PT_LEN)) as (e & He & Hv); [lia|].
      replace (j + MAX_PT_LEN - MAX_PT_LEN) with j in He by lia. exists e. split; [done|lia].
Qed.

(** ** The stack *)

Lemma stack_safe s t0 t1 qs ms v x b all avail s' : mem_safe s t0 all avail -> has_break s t0 t1 qs ms v x b all avail ->
  let a := uc_addr (k_frame s) in let lo := a / PAGESIZE - MAX_PT_LEN in
  VMEM_1_BASE <= a < VMEM_1_LIMIT -> b / PAGESIZE + 1 < a / PAGESIZE ->
  (length (missing_pages (k_pt s) t1 (seqZ lo (MAX_PT_LEN - lo))) <= size avail)%nat ->
  handleTrapMemory s = Ret tt s' -> memory_kept t0 all s'.
Proof.
  intros Hsafe Hhb a lo Ha Hgt Hsz Hrun. pose proof Hhb as [_ _ Hx _ Hr1 _ _].
  assert (0 <= uc_addr (k_frame s) / PAGESIZE - MAX_PT_LEN) as Hlo by (destruct (region1_page a Ha) as [_ Hpg]; fold a; lia).
  destruct (stack_growth_ok s t0 t1 qs ms v x b all avail Hhb (sf_fit _ _ _ _ _ _ Hsafe) Ha Hgt Hsz)
    as (l & t' & f' & Hrun2 & Hok2 & Hl & Hnd & Hsub & Hfl & Hent & Hu).
  rewrite Hrun2 in Hrun. injection Hrun as <-. split; [|by eapply kernel_base]. exists (avail ∖ list_to_set l.*2).
  eapply (mem_safe_mapped s _ t0 t1 (v_run v) x x); try done.
  - cbn. by rewrite insert_id.
  - by rewrite Hl.
  - rewrite Hl. intros i [_ Hi%elem_of_seqZ]%list_elem_of_filter. lia.
  - intros i f Hin. exists PROT_RW. by apply Hent.
  - intros _ i. rewrite Hl. intros [Hm _]%list_elem_of_filter. unfold page_missing in Hm. destruct (entry (k_pt s) t1 i) as [e|]; [|done].
    exists e. split; [done|]. apply Z.eqb_eq in Hm. lia.
Qed.

(** ** Exit *)

(** What [exitProcess] needs, isolation apart; the parent, if there is one,
    is [par], and [v'] is the view afterwards. *)
Record exit_call s (t0 : ptr) (qs : gmap ptr (list ptr)) (ms : gmap ptr (gmap Z ptr)) (v : sview) (x : PCB_t) (tb cm : ptr)
    (m : gmap Z ptr) (zx : ptr) (zs : list ptr) (fs : list Z) (all avail : gset Z) (v' : sview) : Prop := {
  tc_ok : kernel_ok s t0 qs ms v;
  tc_pcb : pcbs (k_obj s) !! v_run v = Some x /\ r1PageTable x = Some tb /\ has_stack x fs;
  tc_children : childrenMap x = Some cm /\ ms !! cm = Some m /\ cm <> blockedMap (k_sched s) /\ cm <> sleepingMap (k_sched s) /\
    forall k c, m !! k = Some c -> c <> v_run v /\ is_Some (pcbs (k_obj s) !! c);
  tc_zombies : zombieQ x = Some zx /\ (zx = NULL /\ zs = [] \/ qs !! zx = Some zs /\ zx <> readyQ (k_sched s)) /\
    NoDup zs /\ (forall z, z ∈ zs -> is_Some (zombies (k_obj s) !! z)) /\ zombies_ok s;
  tc_fl : fl_rep (k_fl s) (numFrames (k_glob s)) all avail;
  tc_parent : parent x = NULL /\ v_exit v = Some v' \/
    exists y zq ys, parent x <> NULL /\ parent x <> v_run v /\ is_parent s qs (parent x) y zq ys /\ (zx <> NULL -> zq <> zx) /\
      v_exit (v_unblock (pid y) v) = Some v'
}.

Lemma exit_run s t0 qs ms v x tb cm m zx zs fs all avail v' status : mem_safe s t0 all avail ->
  exit_call s t0 qs ms v x tb cm m zx zs fs all avail v' ->
  exists kc s', exitProcess status s = Switch kc s' /\ exited s t0 v m tb fs all avail v' kc s'.
Proof.
  intros [_ _ Hiso _] [Hok (Hx & Hr1 & Hst) (Hcm & Hm & Hcb & Hcs & Hch) (Hzx & Hzq & Hnd & Hzin & Hzok) Hfl Hpar].
  assert (can_exit s t0 qs ms v x tb cm m zx zs fs all avail) as Hcan.
  { split; [split| | |]; try done.
    - intros p y r Hp Hne Hyr. by apply (is_tables _ _ _ _ Hiso p (v_run v) y x). }
  destruct Hpar as [[Hp Hv]|(y & zq & ys & Hpn & Hpv & Hip & Hzz & Hv)].
  - destruct (exitProcess_orphan s t0 qs ms v x tb cm m zx zs fs all avail v' status Hcan Hp Hv) as (kc & s' & Hrun & _ & Hex).
    by exists kc, s'.
  - destruct (exitProcess_ok s t0 qs ms v x tb cm m zx zs fs all avail (parent x) y zq ys v' status Hcan eq_refl Hpn Hpv Hip Hzz Hv)
      as (kc & s' & qs' & q & z & Hrun & _ & Hex & _). by exists kc, s'.
Qed.

Lemma exit_safe s t0 qs ms v x tb cm m zx zs fs all avail v' status kc s' : mem_safe s t0 all avail ->
  exit_call s t0 qs ms v x tb cm m zx zs fs all avail v' -> exitProcess status s = Switch kc s' ->
  memory_kept t0 all s'.
Proof.
  intros Hsafe Hcall Hrun. destruct (exit_run s t0 qs ms v x tb cm m zx zs fs all avail v' status Hsafe Hcall) as (kc2 & s2 & Hrun2 & Hex).
  rewrite Hrun2 in Hrun. injection Hrun as _ <-. destruct Hex as [Hgone _ Hfl _ _ Hent Hoth Hg _]. destruct Hsafe as [_ Hfit Hiso Hacc].
  destruct Hcall as [Hok (Hx & Hr1 & Hst) _ _ _ _]. pose proof (is_kernel _ _ _ _ Hiso _ _ _ Hx Hr1) as [_ Hap0].
  assert (owned (k_pt s) x = exit_frames s tb fs) as Hox by (unfold owned, space_frames; by rewrite Hr1, (stack_frames_has _ _ Hst)).
  assert (forall p y r i, p <> v_run v -> pcbs (k_obj s) !! p = Some y -> r1PageTable y = Some r -> 0 <= i < MAX_PT_LEN ->
    entry (k_pt s2) r i = entry (k_pt s) r i) as Hsame.
  { intros p y r i Hne Hy Hyr Hi. apply Hent; [by apply (is_kernel _ _ _ _ Hiso p y r)|by apply (is_tables _ _ _ _ Hiso p (v_run v) y x)|done]. }
  split; [|rewrite Hg; by eapply kernel_base]. eexists. split; [by rewrite Hg|done| |].
  2: { intros Ht. apply (accounted_change all kept (k_pt s) (pcbs (k_obj s)) avail _ _ _ (v_run v) (Hacc Ht) Hoth Hsame).
    intros f Hf Hor. left. unfold given_back. rewrite elem_of_union, elem_of_intersection, elem_of_list_to_set.
    destruct Hor as [?|(y & Hy & Hin)]; [by left|right]. rewrite Hx in Hy. injection Hy as <-. by rewrite <- Hox. }
  apply (isolated_change t0 (k_pt s) (pcbs (k_obj s)) avail _ _ _ (v_run v) Hiso Hoth Hsame).
  - intros y f Hy. congruence.
  - intros f. unfold given_back. rewrite elem_of_union, elem_of_intersection, elem_of_list_to_set. intros [?|[? _]]; [by left|right].
    exists x. by rewrite Hox.
  - intros y Hy. congruence.
  - intros p y r Hy Hyr. assert (p <> v_run v) as Hne by congruence.
    destruct (same_space_lookup _ _ p y (Hoth p Hne) Hy) as (z & Hz & [Hzr _]). rewrite Hzr in Hyr.
    destruct (is_kernel _ _ _ _ Hiso p z r Hz Hyr) as [Ht Ha]. split; [|done]. eapply table_same; [|exact Ht]. intros i Hi. by eapply Hsame.
  - intros p y z a b Hne Hy. congruence.
Qed.

(** ** Fork *)

(** What [KernelFork] needs, isolation apart. *)
Record fork_call (s : kst) (t0 t1 : ptr) (qs : gmap ptr (list ptr)) (ms : gmap ptr (gmap Z ptr)) (v : sview)
    (xp : PCB_t) (u : UserContext) (cm : ptr) (m : gmap Z ptr) (all avail : gset Z) : Prop := {
  fc_ok : kernel_ok s t0 qs ms v;
  fc_vm : vm_on (k_pt s) t0 t1;
  fc_pcb : pcbs (k_obj s) !! v_run v = Some xp /\ uctxt xp = Some u /\ r1PageTable xp = Some t1;
  fc_children : childrenMap xp = Some cm /\ ms !! cm = Some m /\
    cm <> blockedMap (k_sched s) /\ cm <> sleepingMap (k_sched s);
  fc_pids p y : pcbs (k_obj s) !! p = Some y -> pid y < nextPid (k_sched s);
  fc_keys : m !! nextPid (k_sched s) = None;
  fc_init : can_init s ms all avail;
  fc_readable i e : 0 <= i < MAX_PT_LEN -> entry (k_pt s) t1 i = Some e -> pte_valid e = 1 ->
    Z.land (pte_prot e) PROT_READ = PROT_READ /\ 0 <= pte_prot e < 2 ^ PTE_PROT_BITS;
  fc_size : (Z.to_nat STACK_PAGES + length (valid_pages (k_pt s) t1 region1_pages) <= size avail)%nat
}.

Lemma fork_call_can s t0 t1 qs ms v xp u cm m all avail : mem_safe s t0 all avail ->
  fork_call s t0 t1 qs ms v xp u cm m all avail -> can_fork s t0 t1 qs ms v xp u cm m all avail.
Proof.
  intros [_ Hfit Hiso _] [Hok Hvm (Hx & Hu & Hr1) Hch Hpids Hkeys Hinit Hrd Hsz]. split; try done.
  - intros i e Hi He Hv. destruct (Hrd i e Hi He Hv). split; [done|]. split; [done|]. apply (is_free _ _ _ _ Hiso _ _ _ Hx).
    unfold owned, space_frames. rewrite Hr1. apply elem_of_app. left. apply elem_of_frames_of. exists i, e. by rewrite elem_of_all_pages.
  - intros fs f Hst Hf. apply (is_free _ _ _ _ Hiso _ _ _ Hx). unfold owned. rewrite (stack_frames_has _ _ Hst). set_solver.
Qed.

(** The child's pages have the frames that the copy took. *)
Lemma child_frames s' tc l : (forall i f, (i, f) ∈ l -> exists pr, entry (k_pt s') tc i = Some (mkPte 1 pr f)) ->
  (forall i f, (i, f) ∈ l -> 0 <= i < MAX_PT_LEN) ->
  (forall i, 0 <= i < MAX_PT_LEN -> i ∉ l.*1 -> entry (k_pt s') tc i = Some (mkPte 0 PROT_NONE 0)) -> NoDup l.*2 ->
  NoDup (frames_of (k_pt s') tc all_pages) /\ forall f, f ∈ frames_of (k_pt s') tc all_pages <-> f ∈ l.*2.
Proof.
  intros Hin Hrange Hout Hnd.
  assert (forall i e, i ∈ all_pages -> entry (k_pt s') tc i = Some e -> pte_valid e = 1 -> exists f, (i, f) ∈ l /\ pte_pfn e = f) as Hcase.
  { intros i e Hi%elem_of_all_pages He Hv. destruct (decide (i ∈ l.*1)) as [Hil|Hni].
    - apply list_elem_of_fmap in Hil as ([i' f] & -> & Hil). exists f. split; [done|]. destruct (Hin _ _ Hil) as (pr & He').
      cbn in He. rewrite He' in He. by injection He as <-.
    - rewrite (Hout i Hi Hni) in He. by injection He as <-. }
  split.
  - apply frames_of_NoDup; [apply NoDup_seqZ|]. intros i j e e' Hi Hj Hne He He' Hv Hv' Heq.
    destruct (Hcase i e Hi He Hv) as (f & Hf & Hp), (Hcase j e' Hj He' Hv') as (f' & Hf' & Hp'). apply Hne.
    apply list_elem_of_lookup in Hf as (n & Hn), Hf' as (m & Hm).
    assert (n = m) as ->; [|congruence]. eapply (NoDup_lookup l.*2 _ _ f); [done|by rewrite list_lookup_fmap, Hn|rewrite list_lookup_fmap, Hm; cbn; congruence].
  - intros f. rewrite elem_of_frames_of. split.
    + intros (i & e & Hi & He & Hv & <-). destruct (Hcase i e Hi He Hv) as (f & Hf & ->). apply list_elem_of_fmap. by exists (i, f).
    + intros ([i f'] & -> & Hf)%list_elem_of_fmap. destruct (Hin _ _ Hf) as (pr & He). exists i, (mkPte 1 pr f').
      rewrite elem_of_all_pages. split; [by eapply Hrange|done].
Qed.

(** What a fork does to the spaces: the child [c] is new and has the table
    [tc] with the frames of [l], and the kernel stack [fs]; no other process
    changes its own. *)
Record fork_spaces (s : kst) (t0 : ptr) (c tc : ptr) (fs : list Z) (l : list (Z * Z)) (s2 : kst) : Prop := {
  fsp_new : pcbs (k_obj s) !! c = None;
  fsp_child : exists y, pcbs (k_obj s2) !! c = Some y /\ r1PageTable y = Some tc /\ NoDup (owned (k_pt s2) y) /\
    forall f, f ∈ owned (k_pt s2) y <-> f ∈ fs ++ l.*2;
  fsp_others p : p <> c -> space_of <$> pcbs (k_obj s2) !! p = space_of <$> pcbs (k_obj s) !! p;
  fsp_entry b i : table (k_pt s) b -> apart t0 b -> 0 <= i < MAX_PT_LEN -> entry (k_pt s2) b i = entry (k_pt s) b i;
  fsp_table : table (k_pt s2) tc /\ apart t0 tc /\ forall b, table (k_pt s) b -> apart b tc
}.

(** The PCBs after a fork. *)
Lemma forked_pcbs_eq s t0 t1 ms v xp cm m all avail c cmc tc fs fs0 l s1 s2 h kc : pcbs (k_obj s) !! v_run v = Some xp -> v_run v <> c ->
  let x := child_pcb (nextPid (k_sched s)) xp (v_run v) cmc tc fs in
  fork_ready s t0 t1 ms v xp cm m all avail c cmc tc fs l s1 -> forked t0 (with_qh h s1) (v_run v) kc c x fs fs0 s2 ->
  pcbs (k_obj s2) = <[c := with_kctxt (KSaved kc) x]> (<[v_run v := with_kctxt (KSaved kc) (parent_pcb xp)]> (pcbs (k_obj s))).
Proof.
  intros Hxp Hne x Hr Hf. rewrite (fk_obj _ _ _ _ _ _ _ _ _ Hf). cbn.
  pose proof (gr_pcbs _ _ _ _ _ (fr_grown _ _ _ _ _ _ _ _ _ _ _ _ _ _ _ _ Hr)) as Hpc. cbn in Hpc.
  assert (forall q, q <> c -> pcbs (k_obj s1) !! q = <[v_run v := parent_pcb xp]> (pcbs (k_obj s)) !! q) as Hs1
    by (intros q Hq; by rewrite <- Hpc, lookup_delete_ne).
  apply map_eq. intros p. destruct (decide (p = c)) as [->|Hp].
  - by rewrite lookup_alter_eq, lookup_alter_ne, lookup_insert_eq, (fr_child _ _ _ _ _ _ _ _ _ _ _ _ _ _ _ _ Hr).
  - rewrite lookup_alter_ne, lookup_insert_ne by done. destruct (decide (p = v_run v)) as [->|Hpv].
    + by rewrite lookup_alter_eq, Hs1, !lookup_insert_eq.
    + by rewrite lookup_alter_ne, Hs1, !lookup_insert_ne.
Qed.

Lemma forked_pcbs s t0 t1 ms v xp cm m all avail c cmc tc fs fs0 l s1 s2 h kc : pcbs (k_obj s) !! v_run v = Some xp -> v_run v <> c ->
  let x := child_pcb (nextPid (k_sched s)) xp (v_run v) cmc tc fs in
  fork_ready s t0 t1 ms v xp cm m all avail c cmc tc fs l s1 -> forked t0 (with_qh h s1) (v_run v) kc c x fs fs0 s2 ->
  pcbs (k_obj s2) !! c = Some (with_kctxt (KSaved kc) x) /\
  forall p, p <> c -> space_of <$> pcbs (k_obj s2) !! p = space_of <$> pcbs (k_obj s) !! p.
Proof.
  intros Hxp Hne x Hr Hf. rewrite (forked_pcbs_eq _ _ _ _ _ _ _ _ _ _ _ _ _ _ _ _ _ _ _ _ Hxp Hne Hr Hf). split; [apply lookup_insert_eq|].
  intros p Hp. rewrite lookup_insert_ne by done. destruct (decide (p = v_run v)) as [->|]; [by rewrite lookup_insert_eq, Hxp|by rewrite lookup_insert_ne].
Qed.

Lemma forked_spaces s t0 t1 qs ms v xp u cm m all avail c cmc tc fs fs0 l s1 s2 h kc :
  can_fork s t0 t1 qs ms v xp u cm m all avail -> v_run v <> c ->
  fork_ready s t0 t1 ms v xp cm m all avail c cmc tc fs l s1 ->
  forked t0 (with_qh h s1) (v_run v) kc c (child_pcb (nextPid (k_sched s)) xp (v_run v) cmc tc fs) fs fs0 s2 ->
  fork_spaces s t0 c tc fs l s2.
Proof.
  intros Hcan Hne Hr Hf. destruct (cf_pcb _ _ _ _ _ _ _ _ _ _ _ _ Hcan) as (Hxp & _).
  destruct (forked_pcbs _ _ _ _ _ _ _ _ _ _ _ _ _ _ _ _ _ _ _ _ Hxp Hne Hr Hf) as [Hc2 Hoth].
  destruct Hr as [(_ & Hcn) _ Hgr _ (Htc & Ha0 & _ & Hatc) (Hlen & Hnd & Hsub) _ Hpg Hcp Hinv _ _].
  assert (forall b i, apart t0 b -> 0 <= i < MAX_PT_LEN -> entry (k_pt s2) b i = entry (k_pt s1) b i) as Hent
    by (intros b i Hb Hi; by rewrite (forked_entry _ _ _ _ _ _ _ _ _ _ _ Hf)).
  assert (forall i f, (i, f) ∈ l -> 0 <= i < MAX_PT_LEN) as Hrange.
  { intros i f Hin. assert (i ∈ l.*1) as Hi by (apply list_elem_of_fmap; by exists (i, f)).
    rewrite Hpg in Hi. apply elem_of_valid_pages in Hi as [_ Hi]. rewrite region1_pages_eq, elem_of_seqZ in Hi. lia. }
  apply NoDup_app in Hnd as (Hndf & Hdis & Hndl).
  destruct (child_frames s2 tc l) as [Hndc Hinc]; [|done| |done|].
  { intros i f Hin. destruct (Hcp i f Hin) as (e & _ & He & _). exists (pte_prot e). rewrite Hent; [done|done|by eapply Hrange]. }
  { intros i Hi Hni. rewrite Hent by done. by apply Hinv. }
  split; try done.
  - eexists. split; [exact Hc2|]. split; [done|].
    assert (owned (k_pt s2) (with_kctxt (KSaved kc) (child_pcb (nextPid (k_sched s)) xp (v_run v) cmc tc fs)) =
      frames_of (k_pt s2) tc all_pages ++ fs) as ->.
    { unfold owned, space_frames. cbn [r1PageTable with_kctxt]. f_equal. by apply stack_frames_some. }
    split.
    + apply NoDup_app. split; [done|]. split; [|done]. intros f Hff%Hinc Hff'. by eapply Hdis.
    + intros f. rewrite !elem_of_app, Hinc. tauto.
  - intros b i Htb Hb Hi. rewrite Hent by done. eapply pt_kept_entry; [apply Hgr|done..].
  - split; [|done]. eapply table_same; [|exact Htc]. intros i Hi. by apply Hent.
Qed.

Lemma fork_safe s t0 t1 qs ms v xp u cm m all avail kc s' : mem_safe s t0 all avail ->
  fork_call s t0 t1 qs ms v xp u cm m all avail -> KernelFork s = Switch kc s' -> memory_kept t0 all s'.
Proof.
  intros Hsafe Hcall Hrun. pose proof (fork_call_can _ _ _ _ _ _ _ _ _ _ _ _ Hsafe Hcall) as Hcan.
  destruct (KernelFork_run s t0 t1 qs ms v xp u cm m all avail Hcan) as (c & cmc & tc & fs & fs0 & l & s1 & s2 & h & Hrun2 & Hne & Hr & _ & Hf).
  cbn zeta in Hrun2, Hf. rewrite Hrun2 in Hrun. injection Hrun as _ <-. destruct Hsafe as [_ Hfit Hiso Hacc].
  destruct (forked_spaces _ _ _ _ _ _ _ _ _ _ _ _ _ _ _ _ _ _ _ _ _ _ Hcan Hne Hr Hf) as [Hcn (y & Hy & Hyt & Hndy & Hown) Hoth Hent (Htc & Ha0 & Hatc)].
  destruct Hr as [_ _ Hgr _ _ (_ & _ & Hsub) Hfl _ _ _ _ _]. pose proof (gr_glob _ _ _ _ _ Hgr) as Hg. cbn in Hg.
  assert (k_glob s2 = k_glob s) as Hg2 by (rewrite (fk_glob _ _ _ _ _ _ _ _ _ Hf); exact Hg).
  assert (forall p y r i, p <> c -> pcbs (k_obj s) !! p = Some y -> r1PageTable y = Some r -> 0 <= i < MAX_PT_LEN ->
    entry (k_pt s2) r i = entry (k_pt s) r i) as He.
  { intros p z r i _ Hz Hzr Hi. destruct (is_kernel _ _ _ _ Hiso p z r Hz Hzr). by apply Hent. }
  split; [|rewrite Hg2; by eapply kernel_base, (fc_ok _ _ _ _ _ _ _ _ _ _ _ _ Hcall)].
  exists (avail ∖ list_to_set (fs ++ l.*2)). split; [by rewrite (fk_fl _ _ _ _ _ _ _ _ _ Hf), Hg2|done| |].
  - apply (isolated_change t0 (k_pt s) (pcbs (k_obj s)) avail _ _ _ c Hiso Hoth He).
    + intros z f Hz Hff. left. apply Hsub, elem_of_list_to_set, Hown. congruence.
    + intros f [Hff _]%elem_of_difference. by left.
    + intros z Hz. assert (z = y) as -> by congruence. split; [done|]. intros f Hff%Hown [_ []%not_elem_of_list_to_set]%elem_of_difference. done.
    + intros p z r Hz Hzr. destruct (decide (p = c)) as [->|Hp]; [assert (r = tc) as -> by congruence; done|].
      destruct (same_space_lookup _ _ p z (Hoth p Hp) Hz) as (w & Hw & [Hwr _]). rewrite Hwr in Hzr.
      destruct (is_kernel _ _ _ _ Hiso p w r Hw Hzr). split; [|done]. eapply table_same; [|done]. intros i Hi. by apply Hent.
    + intros p z w a b Hp Hz Hw Hza Hwb. assert (a = tc) as -> by congruence.
      destruct (same_space_lookup _ _ p w (Hoth p Hp) Hw) as (w' & Hw' & [Hwr _]). rewrite Hwr in Hwb.
      destruct (is_kernel _ _ _ _ Hiso p w' b Hw' Hwb) as [Ht _]. apply Hatc in Ht. unfold apart in *. lia.
  - intros Ht. apply (accounted_change all kept (k_pt s) (pcbs (k_obj s)) avail _ _ _ c (Hacc Ht) Hoth He).
    intros f _ [Hff|(z & Hz & _)]; [|congruence]. destruct (decide (f ∈ fs ++ l.*2)) as [Hin|Hni].
    + right. exists y. split; [done|]. by apply Hown.
    + left. apply elem_of_difference. split; [done|]. by rewrite elem_of_list_to_set.
Qed.
End laws.
