(* ===== verification/IsoRun.v ===== *)
(** Memory isolation over a run of the kernel: it holds when [KernelStart] is
    done and every step keeps it. *)

From stdpp Require Import base gmap sets list relations.
From S2P Require Import Prelude Hardware Queue HashMap FrameList State UserMem Scheduler LoadProgram GeneralCalls Machine PageTable.
From S2P Require Import SwitchLaws SchedView SchedLaws Steps CopyLaws InitLaws ForkCall CallLaws ExitLaws SpaceLaws LoadLaws ExecLaws GrowLaws BootLaws StartLaws IsoLaws Keeps Stable IsoStable IsoCalls.

(** The list of frames determines its sets. *)
Lemma fl_rep_unique f n all avail all' avail' : fl_rep f n all avail -> fl_rep f n all' avail' -> all' = all /\ avail' = avail.
Proof. intros [(l & Hl & _ & _ & -> & ->)] [(l' & Hl' & _ & _ & -> & ->)]. rewrite Hl in Hl'. by injection Hl' as <-. Qed.

(** Physical memory has no more frames than frame numbers. *)
Definition pmem_fits `{Hardware} (pmem : Z) : Prop := PMEM_BASE / PAGESIZE + pmem / PAGESIZE <= 2 ^ 24.

Section start.
Context {QH MH : Type} `{HL : HardwareLaws} `{QO : QueueOps QH} `{MO : MapOps MH}
  `{QL : !QueueLaws QH} `{ML : !MapLaws MH} `{FS : FileSystem}.
Abbreviation kst := (kst QH MH).
Implicit Types s : kst.

Lemma boot_frames_fit s pmem : machine_ready s pmem -> frames_fit (pfns (boot_frames pmem (currKernelBrk (k_glob s)))).
Proof.
  intros Hm. destruct (start_memory_ok s pmem Hm) as (t0 & t1 & t & f & g & _ & Hms). apply Hms.
Qed.

(** The kernel stack of init lies in frames that are never handed out. *)
Lemma boot_stack_kept s pmem f : machine_ready s pmem -> pmem_fits pmem -> f ∈ boot_stack -> f ∉ free_at_start s pmem.
Proof.
  intros Hm Hfits Hf. destruct (mr_pmem _ _ Hm) as (Hn & Hb & Hal). destruct (mr_bits _ _ Hm) as [_ Hmax].
  apply elem_of_seqZ in Hf. pose proof KERNEL_STACK_BASE_VPN_eq. pose proof KERNEL_STACK_room. pose proof PAGESIZE_pos.
  intros (i & fr & Hi & Hpf & Hfr)%elem_of_free_pfns. unfold boot_frames in Hi. rewrite init_frames_lookup in Hi. case_decide as Hlt; [|done].
  injection Hi as <-. rewrite init_frame_pfn in Hpf by lia. unfold pmem_fits in Hfits.
  pose proof (Z.div_pos PMEM_BASE PAGESIZE Hb). rewrite Z.mod_small in Hpf by lia.
  assert (PMEM_BASE = PMEM_BASE / PAGESIZE * PAGESIZE) as Heq by (pose proof (Z.div_mod PMEM_BASE PAGESIZE); lia).
  assert (KERNEL_STACK_BASE = (MAX_PT_LEN - STACK_PAGES) * PAGESIZE /\ KERNEL_STACK_LIMIT = MAX_PT_LEN * PAGESIZE) as [Hbase Hlim].
  { rewrite KERNEL_STACK_BASE_eq, KERNEL_STACK_LIMIT_eq, VMEM_0_LIMIT_eq, KERNEL_STACK_pages. lia. }
  apply Hfr. unfold init_frame. cbn [isFree]. repeat zcase; (done || nia).
Qed.

(** Two processes are isolated when their frames and tables are. *)
Lemma isolated_two t0 t p q x y a b avail : p <> q -> r1PageTable x = Some a -> r1PageTable y = Some b ->
  NoDup (owned t x ++ owned t y) -> (forall f, f ∈ owned t x ++ owned t y -> f ∉ avail) ->
  (table t a /\ apart t0 a) -> (table t b /\ apart t0 b) -> apart a b ->
  isolated t0 t (<[p := x]> {[q := y]}) avail.
Proof.
  intros Hne Ha Hb (Hx & Hxy & Hy)%NoDup_app Hfree Hta Htb Hab.
  assert (forall r z, (<[p := x]> {[q := y]} : gmap ptr PCB_t) !! r = Some z -> r = p /\ z = x \/ r = q /\ z = y) as Hlk.
  { intros r z [[<- <-]|[_ [<- <-]%lookup_singleton_Some]]%lookup_insert_Some; auto. }
  assert (apart b a) as Hba by (unfold apart in *; lia).
  split.
  - intros r z [[-> ->]|[-> ->]]%Hlk; done.
  - intros r z f [[-> ->]|[-> ->]]%Hlk Hf; apply Hfree; set_solver.
  - intros r1 r2 z1 z2 f [[-> ->]|[-> ->]]%Hlk [[-> ->]|[-> ->]]%Hlk ? Hf Hf'; try done; by eapply Hxy.
  - intros r z c [[-> ->]|[-> ->]]%Hlk Hc; congruence.
  - intros r1 r2 z1 z2 c d [[-> ->]|[-> ->]]%Hlk [[-> ->]|[-> ->]]%Hlk ? ? ?; congruence.
Qed.

Lemma idle_frames t tb f : idle_space t tb f -> frames_of t tb all_pages = [f].
Proof.
  intros [Hl Hn]. pose proof MAX_PT_LEN_pos. unfold all_pages. replace MAX_PT_LEN with ((MAX_PT_LEN - 1) + 1) by lia.
  rewrite seqZ_app, frames_of_app by lia. rewrite (frames_of_none t tb (seqZ 0 _)).
  - rewrite Z.add_0_l, (seqZ_cons _ 1) by lia. change (seqZ _ (Z.pred 1)) with (@nil Z).
    unfold frames_of. cbn [omap list_omap app]. by rewrite Hl.
  - intros i Hi%elem_of_seqZ. eexists. split; [apply Hn; lia|done].
Qed.

(** The frames of the first two processes. *)
Lemma start_frames_ok s pmem y : machine_ready s pmem -> pmem_fits pmem ->
  NoDup (start_frames y) -> list_to_set (start_frames y) ⊆ free_at_start s pmem ->
  let own := ((sl_text y ++ sl_data y ++ sl_stack y) ++ boot_stack) ++ sl_i y :: sl_k y in
  NoDup own /\ forall f, f ∈ own -> f ∉ free_at_start s pmem ∖ list_to_set (start_frames y).
Proof.
  intros Hm Hpf Hnd Hsub own.
  assert (own ≡ₚ boot_stack ++ tail (start_frames y)) as Hperm.
  { unfold own, start_frames. cbn [tail]. change (sl_i y :: sl_k y ++ ?l) with ((sl_i y :: sl_k y) ++ l).
    rewrite (Permutation_app_comm (_ ++ _ ++ _) boot_stack), <- app_assoc. apply Permutation_app_head, Permutation_app_comm. }
  assert (forall f, f ∈ boot_stack -> f ∉ free_at_start s pmem) as Hbs by (intros f; by apply boot_stack_kept).
  assert (forall f, f ∈ tail (start_frames y) -> f ∈ start_frames y) as Htail by (intros f; unfold start_frames; cbn [tail]; set_solver).
  split.
  - rewrite Hperm. apply NoDup_app. split; [apply NoDup_seqZ|]. split; [|by apply NoDup_cons in Hnd as [_ ?]].
    intros f Hf Hf'%Htail. apply (Hbs f Hf), Hsub. by apply elem_of_list_to_set.
  - intros f. rewrite Hperm. intros [Hf|Hf%Htail]%elem_of_app [Hin Hno%not_elem_of_list_to_set]%elem_of_difference; [by apply (Hbs f)|done].
Qed.

(** The frames that are never handed out to a process: those in use when the
    kernel starts, and [b], which it takes for the buffers of the terminals. *)
Definition kernel_frames s (pmem b : Z) : gset Z :=
  pfns (boot_frames pmem (currKernelBrk (k_glob s))) ∖ free_at_start s pmem ∪ {[b]}.

(** When [KernelStart] is done, the memory is in order. *)
Lemma started_safe (tight : Prop) s pmem D args fd li y np ip qs ms s' : machine_ready s pmem -> pmem_fits pmem -> fits li args ->
  started s pmem D args fd li y np ip qs ms s' ->
  mem_safe tight (kernel_frames s pmem (sl_b y)) s' (sl_t0 y) (pfns (boot_frames pmem (currKernelBrk (k_glob s)))) (free_at_start s pmem ∖ list_to_set (start_frames y)).
Proof.
  intros Hm Hpf Hfits [Hok Hvm [Hap0 Hap1] (cm & cmi & Hne & Hp) (Hnd & Hsub & Hfl) [Hsp _ _ _] Hidle _ _ _ _].
  split; [done|by apply boot_frames_fit|..]; rewrite Hp.
  all: assert (owned (k_pt s') (loaded_pcb cm (sl_t1 y) li args) = (sl_text y ++ sl_data y ++ sl_stack y) ++ boot_stack) as Hinit
    by (unfold owned, space_frames; cbn [loaded_pcb init_pcb r1PageTable with_brk with_uctxt];
        rewrite (program_frames _ _ _ _ _ _ _ _ Hfits Hsp); f_equal; by apply stack_frames_some).
  all: assert (owned (k_pt s') (idle_pcb D cmi (sl_tb y) (sl_k y)) = sl_i y :: sl_k y) as Hid
    by (unfold owned, space_frames; cbn [idle_pcb new_pcb r1PageTable with_uctxt]; rewrite (idle_frames _ _ _ Hidle);
        cbn [app]; f_equal; by apply stack_frames_some).
  - assert (pcb_ok (k_pt s') (sl_t0 y) (idle_pcb D cmi (sl_tb y) (sl_k y))) as [_ (r & Hr & Hrt) _ _].
    { apply (so_pcb _ _ (ko_sys _ _ _ _ _ Hok) ip). by rewrite Hp, lookup_insert_ne, lookup_singleton_eq by done. }
    cbn in Hr. injection Hr as <-.
    destruct (start_frames_ok s pmem y Hm Hpf Hnd Hsub) as [Hn Hf].
    apply (isolated_two _ _ _ _ _ _ (sl_t1 y) (sl_tb y)); rewrite ?Hinit, ?Hid; try done.
    split; apply Hvm.
  - intros _ f Hall. unfold kernel_frames. destruct (decide (f ∈ free_at_start s pmem)) as [Hfree|]; [|left; set_solver].
    destruct (decide (f ∈ start_frames y)) as [Hst|Hst].
    + unfold start_frames in Hst. rewrite !elem_of_cons, !elem_of_app in Hst.
      destruct Hst as [->|[Hi|[Hk|Hst]]]; [left; set_solver|right; right..].
      1, 2: exists ip; eexists; rewrite lookup_insert_ne, lookup_singleton_eq by done; split; [done|]; rewrite Hid; set_solver.
      exists np; eexists; rewrite lookup_insert_eq; split; [done|]. rewrite Hinit, !elem_of_app. tauto.
    + right. left. apply elem_of_difference. by rewrite elem_of_list_to_set.
Qed.
End start.

(** ** The steps of the kernel *)

Section run.
Context {QH MH : Type} `{HL : HardwareLaws} `{QO : QueueOps QH} `{MO : MapOps MH}
  `{QL : !QueueLaws QH} `{ML : !MapLaws MH} `{QR : !QueueRuns QH} `{MR : !MapRuns MH} `{FS : FileSystem}.
Abbreviation kst := (kst QH MH).
Implicit Types s : kst.
Context (tight : Prop) (kept : gset Z).
Abbreviation mem_safe := (mem_safe tight kept).
Abbreviation memory_kept := (memory_kept tight kept).

(** The steps of the kernel: user code, that changes registers and the
    contents of memory; a trap that manages no memory, in any state; what a
    process was doing in the kernel when it gave the processor away goes on;
    the calls and the trap that manage memory, in states in which they are
    possible. *)
Inductive memory_step (t0 : ptr) : kst -> kst -> Prop :=
| step_user s u m : memory_step t0 s (with_mem m (with_frame u s))
| step_trap fuel tr s s' : quiet_trap None tr s -> ends_in (interruptVectorArray fuel tr s) s' -> memory_step t0 s s'
| step_resume k s s' : ends_in (resume k s) s' -> memory_step t0 s s'
| step_fork s t1 qs ms v xp u cm m all avail kc s' : fork_call s t0 t1 qs ms v xp u cm m all avail ->
    KernelFork s = Switch kc s' -> memory_step t0 s s'
| step_exec s t1 qs ms v x u fs filename argvec name args fd li all avail kc kc' s' :
    exec_call s t0 t1 qs ms v x u fs filename argvec name args fd li all avail kc ->
    KernelExec filename argvec s = Switch kc' s' -> memory_step t0 s s'
| step_exit s qs ms v x tb cm m zx zs fs all avail v' status kc s' :
    exit_call s t0 qs ms v x tb cm m zx zs fs all avail v' -> exitProcess status s = Switch kc s' -> memory_step t0 s s'
| step_brk s t1 qs ms v x b all avail addr r s' : has_break s t0 t1 qs ms v x b all avail ->
    VMEM_1_BASE <= addr < VMEM_1_LIMIT -> brk_possible tight s t1 b addr all avail -> KernelBrk addr s = Ret r s' -> memory_step t0 s s'
| step_stack s t1 qs ms v x b all avail s' : has_break s t0 t1 qs ms v x b all avail ->
    VMEM_1_BASE <= uc_addr (k_frame s) < VMEM_1_LIMIT -> b / PAGESIZE + 1 < uc_addr (k_frame s) / PAGESIZE ->
    (length (missing_pages (k_pt s) t1 (seqZ (uc_addr (k_frame s) / PAGESIZE - MAX_PT_LEN)
       (MAX_PT_LEN - (uc_addr (k_frame s) / PAGESIZE - MAX_PT_LEN)))) <= size avail)%nat ->
    handleTrapMemory s = Ret tt s' -> memory_step t0 s s'.

Lemma memory_kept_sets s t0 all all' avail' : memory_kept t0 all s ->
  fl_rep (k_fl s) (numFrames (k_glob s)) all' avail' -> mem_safe s t0 all avail' /\ all' = all.
Proof. intros [[avail Hsafe] _] Hfl. destruct (fl_rep_unique _ _ _ _ _ _ (sf_fl _ _ _ _ _ _ Hsafe) Hfl) as [-> ->]. done. Qed.

Lemma memory_step_kept t0 all s s' : memory_step t0 s s' -> memory_kept t0 all s -> memory_kept t0 all s'.
Proof.
  intros Hstep Hk. destruct Hstep as [s u m|fuel tr s s' Hq Hrun|k s s' Hrun|s t1 qs ms v xp u cm m all' avail kc s' Hc Hrun|
    s t1 qs ms v x u fs fn av name args fd li all' avail kc kc' s' Hc Hrun|s qs ms v x tb cm m zx zs fs all' avail v' status kc s' Hc Hrun|
    s t1 qs ms v x b all' avail addr r s' Hc Ha Hp Hrun|s t1 qs ms v x b all' avail s' Hc Ha Hgt Hsz Hrun].
  - eapply memory_kept_quiet; [| |exact Hk]; [by apply quiet_same_pcbs|done].
  - pose proof (trap_keeps (L := None) (I := memory_kept t0 all) (J := memory_kept t0 all) fuel tr s Hq Hk) as Hkeep.
    destruct (interruptVectorArray fuel tr s); cbn in Hrun; [by subst..|done].
  - eapply (keeps_ends_in _ (resume k)); [by apply (resume_keeps (L := None)); intros ?|done..].
  - destruct (memory_kept_sets _ _ _ _ _ Hk (ci_fl _ _ _ _ (fc_init _ _ _ _ _ _ _ _ _ _ _ _ Hc))) as [Hs ->]. by eapply fork_safe.
  - destruct (memory_kept_sets _ _ _ _ _ Hk (cl_fl _ _ _ _ _ _ _ _ _ _ _ _ (xc_load _ _ _ _ _ _ _ _ _ _ _ _ _ _ _ _ _ _ Hc))) as [Hs ->].
    by eapply exec_safe.
  - destruct (memory_kept_sets _ _ _ _ _ Hk (tc_fl _ _ _ _ _ _ _ _ _ _ _ _ _ _ _ Hc)) as [Hs ->]. by eapply exit_safe.
  - destruct (memory_kept_sets _ _ _ _ _ Hk (hb_fl _ _ _ _ _ _ _ _ _ _ Hc)) as [Hs ->]. by eapply brk_safe.
  - destruct (memory_kept_sets _ _ _ _ _ Hk (hb_fl _ _ _ _ _ _ _ _ _ _ Hc)) as [Hs ->]. by eapply stack_safe.
Qed.

Lemma memory_run_kept t0 all s s' : rtc (memory_step t0) s s' -> memory_kept t0 all s -> memory_kept t0 all s'.
Proof. induction 1 as [|s s1 s2 Hstep _ IH]; [done|]. intros Hs. by apply IH, (memory_step_kept t0 all s s1). Qed.

(** The clock, when nobody sleeps and a process is ready. *)
Lemma clock_kicks s t0 qs ms v v' : kernel_ok s t0 qs ms v -> v_sleeping v = ∅ -> v_kick v = Some v' ->
  exists kc s', handleTrapClock s = Switch kc s' /\ currPCB (k_sched s') = v_run v' /\
    forall p, is_Some (pcbs (k_obj s) !! p) -> is_Some (pcbs (k_obj s') !! p).
Proof.
  intros Hok Hsl Hv. destruct (tickDownSleepers_ok _ _ _ _ _ Hok) as (order & h & m & Hord & Hrun & Hok').
  rewrite Hsl, map_to_list_empty in Hord. apply Permutation_nil_r in Hord as ->.
  assert (v_wake (woken (pcbs (k_obj s)) []) v = v) as Hw by (unfold v_wake; cbn; rewrite app_nil_r; by destruct v).
  rewrite Hw in Hok'. destruct (kickProcess_ok _ _ _ _ _ KClock _ Hok' Hv) as (kc & s' & h' & Hkick & Hok2 & (x & fs & _ & _ & _ & Hsw)).
  exists kc, s'. split; [|split; [apply (sr_run _ _ _ _ (ko_sched _ _ _ _ _ Hok2))|]].
  - unfold handleTrapClock. step Hrun. rewrite eqb_0_ERROR. unfold bind. by rewrite Hkick.
  - intros p Hp. rewrite (sw_pcbs _ _ _ _ _ _ _ _ _ Hsw). apply lookup_insert_is_Some'. right. unfold saved. destruct (_ =? _); [done|]. by apply lookup_alter_is_Some.
Qed.

(** A run: the start of the kernel, the user code of init, and then a tick of
    the clock, that gives the processor to the idle process. *)
Lemma start_then_clock D s pmem cmd_args name fd li u : can_start s pmem cmd_args name fd li ->
  exists s' s2 kc np ip x y, np <> ip /\ KernelStart D cmd_args pmem s = Switch (mkKctxt KStart (k_frame s)) s' /\
    handleTrapClock (with_mem (k_mem s') (with_frame u s')) = Switch kc s2 /\ currPCB (k_sched s2) = ip /\
    pcbs (k_obj s2) !! np = Some x /\ pcbs (k_obj s2) !! ip = Some y /\ rtc (memory_step (REG_PTBR0 (k_pt s'))) s' s2.
Proof.
  intros Hcan. destruct (KernelStart_ok D s pmem cmd_args name fd li Hcan) as (y & np & ip & qs & ms & s' & Hrun & Hst).
  destruct Hst as [Hok Hvm _ (cm & cmi & Hne & Hp) _ _ _ _ _ _ _].
  set (s1 := with_mem (k_mem s') (with_frame u s')).
  assert (kernel_ok s1 (sl_t0 y) qs ms (start_view np ip)) as Hok1 by 
    by (destruct Hok; split; [by apply (sys_ok_ext s')|by apply (running_ok_ext s')|by apply (sched_rep_ext s')|done]).
  destruct (clock_kicks s1 _ _ _ _ (mkView ip [np] ∅ ∅) Hok1) as (kc & s2 & Hclock & Hcur & Hkeep); [done..|].
  destruct (Hkeep np) as [x2 Hx2]; [cbn; rewrite Hp, lookup_insert_eq; by eexists|].
  destruct (Hkeep ip) as [y2 Hy2]; [cbn; rewrite Hp, lookup_insert_ne, lookup_singleton_eq by done; by eexists|].
  exists s', s2, kc, np, ip, x2, y2. split_and!; try done. rewrite (vm_base0 _ _ _ Hvm). eapply rtc_l; [apply (step_user _ s' u (k_mem s'))|].
  apply rtc_once, (step_trap _ 0%nat TRAP_CLOCK); [done|]. cbn [interruptVectorArray]. fold s1. by rewrite Hclock.
Qed.
End run.
