(* ===== verification/Processes.v ===== *)
(** The processes as the user sees them: an abstract machine of processes with
    a user context each, and how the state of the kernel represents it.

    A process that does not run has a saved kernel context; [goes_on] says with
    which user context it will leave the kernel when it is its turn. *)

From stdpp Require Import base gmap sets list.
From S2P Require Import Prelude Hardware Queue HashMap FrameList State UserMem Scheduler LoadProgram GeneralCalls Machine PageTable.
From S2P Require Import SwitchLaws SchedView SchedLaws Steps CopyLaws InitLaws ForkCall WaitLaws StartLaws IsoLaws Keeps Stable IsoStable IsoCalls.

(** ** The abstract machine *)

(** The scheduler's state, the user context of every process, as it is now or
    as it will be when the process runs again, and the next pid. *)
Record machine := mkMachine { m_sched : astate; m_ctx : gmap ptr UserContext; m_next : Z }.
Definition m_run (m : machine) : ptr := v_run (a_view (m_sched m)).

(** What the running process asks for, or the clock. *)
Inductive event := EClock | EGetPid | EDelay (n : Z) | EFork.

Definition event_of `{Hardware} (t : trap) (u : UserContext) : option event :=
  match t with
  | TRAP_CLOCK => Some EClock
  | TRAP_KERNEL =>
    match decode (uc_code u), uc_regs u with
    | Some GETPID, _ :: _ :: _ :: _ => Some EGetPid
    | Some FORK, _ :: _ :: _ :: _ => Some EFork
    | Some DELAY, r :: _ :: _ :: _ => Some (EDelay (s32 r))
    | _, _ => None
    end
  | _ => None
  end.

(** One event, with the user context [u] of the running process. *)
Inductive mstep `{Hardware} (u : UserContext) : event -> machine -> machine -> Prop :=
| m_clock a cx nx a1 a2 : astep OTick a a1 -> astep (OKick KClock) a1 a2 ->
    mstep u EClock (mkMachine a cx nx) (mkMachine a2 (<[v_run (a_view a) := u]> cx) nx)
| m_getpid a cx nx i : a_pids a !! v_run (a_view a) = Some i ->
    mstep u EGetPid (mkMachine a cx nx) (mkMachine a (<[v_run (a_view a) := returned i u]> cx) nx)
| m_delay n a cx nx a' : astep (OSleep n KDelay) a a' ->
    mstep u (EDelay n) (mkMachine a cx nx)
      (mkMachine a' (<[v_run (a_view a) := returned (if n <? 0 then ERROR else SUCCESS) u]> cx) nx)
| m_fork v ps tk cx nx c : ps !! c = None ->
    mstep u EFork (mkMachine (mkAstate v ps tk) cx nx)
      (mkMachine (mkAstate (v_fork c v) (<[c := nx]> ps) (<[c := 0]> tk))
        (<[c := returned SUCCESS u]> (<[v_run v := returned nx u]> cx)) (nx + 1)).

(** ** How the kernel represents it *)

Section code.
Context {QH MH : Type} `{HW : Hardware} `{QO : QueueOps QH} `{MO : MapOps MH}
  `{QL : !QueueLaws QH} `{ML : !MapLaws MH}.
Abbreviation kst := (kst QH MH).
Implicit Types s : kst.

(** The process [p], suspended in the kernel, leaves it with the context [u]. *)
Definition goes_on s (p : ptr) (u : UserContext) : Prop :=
  exists x, pcbs (k_obj s) !! p = Some x /\
    (kctxt x = Some KNull /\ uctxt x = Some u \/
     exists k f, kctxt x = Some (KSaved (mkKctxt k f)) /\
       match k with
       | KStart => uctxt x = Some u
       | KClock => u = f
       | KDelay => u = returned SUCCESS f
       | KFork par ch => exists y z, pcbs (k_obj s) !! par = Some y /\ pcbs (k_obj s) !! ch = Some z /\ pid y <> pid z /\
           (p = par /\ u = returned (pid z) f \/ p = ch /\ u = returned SUCCESS f)
       | _ => False
       end).

(** What a fork needs of the state besides room: every process has a map of
    its own children, whose pids are in use, and a saved user context; the
    memory is in order; all pages can be read. *)
Record forkable (t0 : ptr) (all : gset Z) s (ms : gmap ptr (gmap Z ptr)) : Prop := {
  fb_children p x : pcbs (k_obj s) !! p = Some x -> exists cm m, childrenMap x = Some cm /\ ms !! cm = Some m /\
    cm <> blockedMap (k_sched s) /\ cm <> sleepingMap (k_sched s) /\ forall k, nextPid (k_sched s) <= k -> m !! k = None;
  fb_uctxt p x : pcbs (k_obj s) !! p = Some x -> is_Some (uctxt x);
  fb_pids p x : pcbs (k_obj s) !! p = Some x -> pid x < nextPid (k_sched s);
  fb_memory : memory_kept False ∅ t0 all s;
  fb_vm : vm_on (k_pt s) t0 (REG_PTBR1 (k_pt s));
  fb_pt : pt_wf (k_pt s) /\ plenty (pt_arena (k_pt s));
  fb_read p x r i e : pcbs (k_obj s) !! p = Some x -> r1PageTable x = Some r -> 0 <= i < MAX_PT_LEN ->
    entry (k_pt s) r i = Some e -> pte_valid e = 1 -> Z.land (pte_prot e) PROT_READ = PROT_READ /\ 0 <= pte_prot e < 2 ^ PTE_PROT_BITS;
  fb_starter : exists f, starterKctxt (k_glob s) = Some (mkKctxt KStart f)
}.

(** The state [s] represents the machine [m]; the process [idle] never waits. *)
Record represents (t0 idle : ptr) (all : gset Z) s (m : machine) : Prop := {
  rp_kernel : exists qs ms, kernel_ok s t0 qs ms (a_view (m_sched m)) /\ forkable t0 all s ms;
  rp_pids : a_pids (m_sched m) = pids (pcbs (k_obj s));
  rp_ticks : a_ticks (m_sched m) = numRemainingDelayTicks <$> pcbs (k_obj s);
  rp_next : m_next m = nextPid (k_sched s);
  rp_running : m_ctx m !! m_run m = Some (k_frame s);
  rp_others p : p <> m_run m -> is_Some (pcbs (k_obj s) !! p) -> exists u, m_ctx m !! p = Some u /\ goes_on s p u;
  rp_idle : idle ∈ v_run (a_view (m_sched m)) :: v_ready (a_view (m_sched m))
}.

(** There is memory for one more process: a page table, and frames for a
    kernel stack and the pages of the caller. *)
Definition fork_room s : Prop :=
  room_for_table (k_pt s) /\ exists all avail, fl_rep (k_fl s) (numFrames (k_glob s)) all avail /\
    (Z.to_nat STACK_PAGES + length (valid_pages (k_pt s) (REG_PTBR1 (k_pt s)) region1_pages) <= size avail)%nat.

(** The idle process does not sleep, and a fork needs room. *)
Definition possible (idle : ptr) (e : event) s : Prop :=
  match e with
  | EClock | EGetPid => True
  | EDelay n => n <= 0 \/ currPCB (k_sched s) <> idle
  | EFork => fork_room s
  end.
End code.
