(* ===== verification/ProcLaws.v ===== *)
(** The kernel implements the machine of Processes: every trap of the running
    process, and every tick of the clock, ends in user mode, in the state of
    the machine after the step. *)

From stdpp Require Import base gmap sets list.
From S2P Require Import Prelude Hardware Queue HashMap FrameList State UserMem Scheduler LoadProgram GeneralCalls Machine PageTable.
From S2P Require Import SwitchLaws SchedView SchedLaws Steps ForkLaws CopyLaws InitLaws ForkCall ExitLaws WaitLaws StartLaws IsoLaws Keeps Stable IsoStable IsoCalls Processes.

Section laws.
Context {QH MH : Type} `{HL : HardwareLaws} `{QO : QueueOps QH} `{MO : MapOps MH}
  `{QL : !QueueLaws QH} `{ML : !MapLaws MH} `{FS : FileSystem}.
Abbreviation kst := (kst QH MH).
Implicit Types s : kst.

(** ** Where suspended processes go on *)

(** [goes_on] looks at three members of the PCBs. *)
Definition face (x : PCB_t) : option kctxt_t * option UserContext * Z := (kctxt x, uctxt x, pid x).

Lemma fmap_lookup_inv {A} (f : PCB_t -> A) (m m' : gmap ptr PCB_t) p x : f <$> m' !! p = f <$> m !! p -> m' !! p = Some x ->
  exists y, m !! p = Some y /\ f x = f y.
Proof. intros Heq Hx. rewrite Hx in Heq. destruct (m !! p) as [y|]; [|done]. exists y. split; [done|]. by injection Heq. Qed.

Lemma goes_on_mono s s' p u : (forall q y, pcbs (k_obj s) !! q = Some y -> exists y', pcbs (k_obj s') !! q = Some y' /\ pid y = pid y') ->
  face <$> pcbs (k_obj s') !! p = face <$> pcbs (k_obj s) !! p -> goes_on s p u -> goes_on s' p u.
Proof.
  intros Hpid Hp (x & Hx & Hu). destruct (fmap_lookup_inv face _ _ p x (eq_sym Hp) Hx) as (x' & Hx' & Hf).
  injection Hf as Hk Hc _. exists x'. split; [done|]. rewrite <- Hk, <- Hc. destruct Hu as [?|(k & f & Hkx & Hm)]; [by left|right].
  exists k, f. split; [done|]. destruct k as [| | | | |par ch| | | | | | | | |]; try done.
  destruct Hm as (y & z & Hy & Hz & Hne & Hor).
  destruct (Hpid par y Hy) as (y' & Hy' & Hpy), (Hpid ch z Hz) as (z' & Hz' & Hpz). exists y', z'. by rewrite <- Hpy, <- Hpz.
Qed.

Lemma goes_on_ext s s' p u : (forall q, pid <$> pcbs (k_obj s') !! q = pid <$> pcbs (k_obj s) !! q) ->
  face <$> pcbs (k_obj s') !! p = face <$> pcbs (k_obj s) !! p -> goes_on s p u -> goes_on s' p u.
Proof. intros Hpid. apply goes_on_mono. intros q y. by apply fmap_lookup_inv. Qed.

(** A process that was given the processor goes on where [goes_on] says. *)
Lemma resume_goes_on s n x kc u : currPCB (k_sched s) = n -> pcbs (k_obj s) !! n = Some x -> kctxt x = Some (KSaved kc) ->
  goes_on s n u -> resume (kc_resume kc) (with_frame (kc_frame kc) s) = Ret tt (with_frame u s).
Proof.
  intros Hcur Hx Hk (x' & Hx' & Hu). rewrite Hx in Hx'. injection Hx' as <-. rewrite Hk in Hu.
  destruct Hu as [[? _]|(k & f & [= ->] & Hu)]; [done|]. cbn [kc_resume kc_frame].
  set (sf := with_frame f s). assert (currPCB (k_sched sf) = n) as Hc by done.
  destruct k as [| | | | |par ch| | | | | | | | |]; try done; cbn [resume].
  - unfold start_finish. kmon. rewrite Hc. assert (pcbs (k_obj sf) !! n = Some x) as Hxf by done. step (load_pcb_ok _ _ _ Hxf). by step_rd Hu.
  - by rewrite Hu.
  - by rewrite Hu.
  - destruct Hu as (y & z & Hy & Hz & Hne & [[-> ->]|[-> ->]]).
    + step (fork_return_parent sf par ch y z Hc Hy Hz). done.
    + step (fork_return_child sf par ch y z Hc Hy Hz Hne). done.
Qed.

(** A switch: nobody else's place changes. *)
Lemma gave_face t0 s cur k n kc s' p : p <> cur -> p <> n -> gave t0 s cur k n kc s' ->
  face <$> pcbs (k_obj s') !! p = face <$> pcbs (k_obj s) !! p.
Proof.
  intros Hc Hn (x & fs & _ & _ & _ & Hsw). rewrite (sw_pcbs _ _ _ _ _ _ _ _ _ Hsw), lookup_insert_ne by done.
  unfold saved. destruct (_ =? _); [done|]. by rewrite lookup_alter_ne.
Qed.

Lemma gave_goes_on t0 s cur k n kc s' p u f : starterKctxt (k_glob s) = Some (mkKctxt KStart f) -> cur <> n -> p <> cur ->
  gave t0 s cur k n kc s' -> goes_on s p u -> goes_on s' p u.
Proof.
  intros Hst Hne Hpc Hg Hu. pose proof (gave_proj pid t0 s cur k n kc s' (fun _ _ => eq_refl) Hne Hg) as Hpid.
  assert (forall q, pid <$> pcbs (k_obj s') !! q = pid <$> pcbs (k_obj s) !! q) as Hpids by (intros q; by rewrite <- !lookup_fmap, Hpid).
  destruct (decide (p = n)) as [->|Hpn]; [|eapply (goes_on_ext s); [done|by apply (gave_face t0 s cur k n kc)|done]].
  destruct Hg as (x & fs & Hx & Hkc & _ & Hsw). destruct Hu as (x' & Hx' & Hu). rewrite Hx in Hx'. injection Hx' as <-.
  exists (with_kctxt (KSaved kc) x). split; [rewrite (sw_pcbs _ _ _ _ _ _ _ _ _ Hsw); apply lookup_insert_eq|right].
  destruct Hkc as [Hkc|(Hkc & Hst' & _)]; rewrite Hkc in Hu.
  - destruct Hu as [[? _]|(k' & f' & [= ->] & Hu)]; [done|]. exists k', f'. split; [done|].
    destruct k' as [| | | | |par ch| | | | | | | | |]; try done. destruct Hu as (y & z & Hy & Hz & Hor).
    destruct (fmap_lookup_inv pid _ _ par y (eq_sym (Hpids par)) Hy) as (y' & Hy' & Hpy).
    destruct (fmap_lookup_inv pid _ _ ch z (eq_sym (Hpids ch)) Hz) as (z' & Hz' & Hpz).
    exists y', z'. by rewrite <- Hpy, <- Hpz.
  - destruct Hu as [[_ Hu]|(? & ? & ? & _)]; [|done]. rewrite Hst in Hst'. injection Hst' as <-. by exists KStart, f.
Qed.

(** The caller of a switch goes on behind it. *)
Lemma gave_caller_goes_on t0 s cur k n kc s' x u : cur <> n -> cur <> NULL -> pcbs (k_obj s) !! cur = Some x ->
  k = KClock /\ u = k_frame s \/ k = KDelay /\ u = returned SUCCESS (k_frame s) -> gave t0 s cur k n kc s' -> goes_on s' cur u.
Proof.
  intros Hne Hnz Hx Hu Hg. destruct (gave_caller t0 s cur k n kc s' x Hne Hnz Hx Hg) as (_ & y & Hy & Hk).
  exists y. split; [done|]. right. exists k, (k_frame s). split; [done|]. by destruct Hu as [[-> ?]|[-> ?]].
Qed.

(** ** What a fork needs *)

(** [forkable] looks at five members of the PCBs. *)
Definition outline (x : PCB_t) : option ptr * list (option Z) * option ptr * option UserContext * Z :=
  (r1PageTable x, stackPfns x, childrenMap x, uctxt x, pid x).

(** What the parts of the kernel that manage no memory leave alone. *)
Record same_outline s s' (ms ms' : gmap ptr (gmap Z ptr)) : Prop := {
  so_outline p : outline <$> pcbs (k_obj s') !! p = outline <$> pcbs (k_obj s) !! p;
  so_frames : k_fl s' = k_fl s;
  so_globals : k_glob s' = k_glob s;
  so_next : nextPid (k_sched s') = nextPid (k_sched s);
  so_maps : blockedMap (k_sched s') = blockedMap (k_sched s) /\ sleepingMap (k_sched s') = sleepingMap (k_sched s);
  so_other hm : hm <> blockedMap (k_sched s) -> hm <> sleepingMap (k_sched s) -> ms' !! hm = ms !! hm
}.

Lemma forkable_same t0 all s s' ms ms' : same_outline s s' ms ms' ->
  (forall r i, table (k_pt s) r -> apart t0 r -> 0 <= i < MAX_PT_LEN -> entry (k_pt s') r i = entry (k_pt s) r i) ->
  vm_on (k_pt s') t0 (REG_PTBR1 (k_pt s')) -> pt_wf (k_pt s') /\ plenty (pt_arena (k_pt s')) ->
  forkable t0 all s ms -> forkable t0 all s' ms'.
Proof.
  intros [Hout Hfl Hg Hn [Hb Hsl] Hms] He Hvm Hwf [Hch Hu Hpid [[avail Hsafe] Hbase] _ _ Hrd Hst].
  assert (forall p x', pcbs (k_obj s') !! p = Some x' -> exists x, pcbs (k_obj s) !! p = Some x /\ outline x' = outline x) as Hinv
    by (intros p x'; apply fmap_lookup_inv, Hout).
  split; rewrite ?Hn, ?Hb, ?Hsl, ?Hg; try done.
  - intros p x' (x & Hx & [= _ _ Hc _ _])%Hinv. destruct (Hch p x Hx) as (cm & m & Hcm & Hm & Hcb & Hcs & Hk).
    exists cm, m. rewrite Hc, Hms by done. done.
  - intros p x' (x & Hx & [= _ _ _ Hc _])%Hinv. rewrite Hc. by eapply Hu.
  - intros p x' (x & Hx & [= _ _ _ _ Hc])%Hinv. rewrite Hc. by eapply Hpid.
  - split; [|by rewrite Hg]. exists avail. apply (mem_safe_ext False ∅ s); try done; [by rewrite Hg|].
    intros p. specialize (Hout p). destruct (pcbs (k_obj s') !! p), (pcbs (k_obj s) !! p); try done.
    injection Hout as Hr Hs' _ _ _. cbn. unfold space_of. congruence.
  - intros p x' r i e (x & Hx & [= Hr _ _ _ _])%Hinv. rewrite Hr. intros Hxr Hi.
    destruct (is_kernel _ _ _ _ (sf_iso _ _ _ _ _ _ Hsafe) p x r Hx Hxr). rewrite He by done. by eapply Hrd.
Qed.

(** Nothing but queues, maps and PCBs changes. *)
Lemma forkable_quiet t0 all s s' ms ms' : same_outline s s' ms ms' -> k_pt s' = k_pt s -> forkable t0 all s ms -> forkable t0 all s' ms'.
Proof.
  intros Hs Hpt Hf. pose proof (fb_vm _ _ _ _ Hf) as Hvm. pose proof (fb_pt _ _ _ _ Hf) as Hwf.
  by eapply (forkable_same t0 all s); rewrite ?Hpt.
Qed.

Lemma outline_fmap s s' : outline <$> pcbs (k_obj s') = outline <$> pcbs (k_obj s) ->
  forall p, outline <$> pcbs (k_obj s') !! p = outline <$> pcbs (k_obj s) !! p.
Proof. intros Heq p. by rewrite <- !lookup_fmap, Heq. Qed.

Lemma forkable_gave t0 all s cur k n kc s' ms : cur <> n -> gave t0 s cur k n kc s' -> forkable t0 all s ms -> forkable t0 all s' ms.
Proof.
  intros Hne Hg Hf. pose proof (gave_proj outline t0 s cur k n kc s' (fun _ _ => eq_refl) Hne Hg) as Hout.
  destruct Hg as (x & fs & Hx & _ & _ & Hsw). destruct (sw_pt _ _ _ _ _ _ _ _ _ Hsw) as (t' & r & Hu & Hr & Hpt).
  pose proof (fb_vm _ _ _ _ Hf) as Hvm. destruct (fb_pt _ _ _ _ Hf) as [Hwf Hpl]. destruct (fb_memory _ _ _ _ Hf) as [[avail Hsafe] _].
  destruct (is_kernel _ _ _ _ (sf_iso _ _ _ _ _ _ Hsafe) n x r Hx Hr) as [Htab Hap].
  pose proof (pt_upd_vm _ _ _ _ _ Hu Hvm) as Hvm'.
  apply (forkable_same t0 all s s' ms ms); [| | | |done].
  - split; rewrite ?(sw_sched _ _ _ _ _ _ _ _ _ Hsw); try done; [by apply outline_fmap|apply Hsw|apply Hsw].
  - intros b i _ Hb Hi. rewrite Hpt. transitivity (entry t' b i); [done|]. by eapply in_stack_other.
  - rewrite Hpt. destruct Hvm' as []. split; try done. exact (pt_upd_table _ _ _ _ Hu Htab).
  - rewrite Hpt. cbn. rewrite (upd_arena _ _ _ Hu). split; [|done]. by apply (pt_upd_wf _ _ _ Hu).
Qed.

(** ** A switch *)

(** The contexts with which the processes other than [p] will go on. *)
Definition others_go_on s (p : ptr) (cx : gmap ptr UserContext) : Prop :=
  forall q, q <> p -> is_Some (pcbs (k_obj s) !! q) -> exists u, cx !! q = Some u /\ goes_on s q u.

Lemma others_ext s s' p cx : (forall q, face <$> pcbs (k_obj s') !! q = face <$> pcbs (k_obj s) !! q) ->
  others_go_on s p cx -> others_go_on s' p cx.
Proof.
  intros Hf Ho q Hq [x Hx]. destruct (fmap_lookup_inv face _ _ q x (Hf q) Hx) as (y & Hy & _).
  destruct (Ho q Hq) as (u & Hu & Hg); [by eexists|]. exists u. split; [done|]. apply (goes_on_ext s); [|done|done].
  intros r. specialize (Hf r). destruct (pcbs (k_obj s') !! r), (pcbs (k_obj s) !! r); try done. injection Hf as _ _ Hp. cbn. by f_equal.
Qed.

(** The processor goes to the process [v_run v'], which goes on in user mode:
    the state represents the machine in which the caller has the context [u]
    for its next turn. *)
Lemma switch_represents t0 idle all s k v v' kc s' qs' ms' pd tk cx u : 
  kernel_ok s' t0 qs' ms' v' -> gave t0 s (v_run v) k (v_run v') kc s' -> forkable t0 all s ms' ->
  v_run v <> v_run v' -> 0 < v_run v -> is_Some (pcbs (k_obj s) !! v_run v) -> others_go_on s (v_run v) cx ->
  k = KClock /\ u = k_frame s \/ k = KDelay /\ u = returned SUCCESS (k_frame s) ->
  pd = pids (pcbs (k_obj s)) -> tk = numRemainingDelayTicks <$> pcbs (k_obj s) -> idle ∈ v_run v' :: v_ready v' ->
  exists s2, settle 1 (Switch kc s') = Some (Ret tt s2) /\
    represents t0 idle all s2 (mkMachine (mkAstate v' pd tk) (<[v_run v := u]> cx) (nextPid (k_sched s))).
Proof.
  intros Hok Hg Hf Hne Hpos [x Hx] Ho Hu -> -> Hid. destruct (fb_starter _ _ _ _ Hf) as [f Hst].
  pose proof (forkable_gave _ _ _ _ _ _ _ _ _ Hne Hg Hf) as Hf'.
  pose proof (gave_proj pid t0 s _ k _ kc s' (fun _ _ => eq_refl) Hne Hg) as Hpid.
  pose proof (gave_proj numRemainingDelayTicks t0 s _ k _ kc s' (fun _ _ => eq_refl) Hne Hg) as Htk.
  pose proof Hg as (xn & fs & Hxn & _ & _ & Hsw). destruct (Ho (v_run v')) as (un & Hun & Hgn); [done|by eexists|].
  assert (goes_on s' (v_run v') un) as Hgn' by (by eapply gave_goes_on).
  assert (pcbs (k_obj s') !! v_run v' = Some (with_kctxt (KSaved kc) xn)) as Hxn' by (rewrite (sw_pcbs _ _ _ _ _ _ _ _ _ Hsw); apply lookup_insert_eq).
  exists (with_frame un s'). split.
  { cbn [settle]. by rewrite (resume_goes_on s' (v_run v') _ kc un (sr_run _ _ _ _ (ko_sched _ _ _ _ _ Hok)) Hxn' eq_refl Hgn'). }
  split; cbn [m_sched m_ctx m_next m_run a_view a_pids a_ticks]; try done.
  - exists qs', ms'. split; [by apply (kernel_ok_ext s')|]. by apply (forkable_quiet t0 all s' _ ms' ms').
  - change (nextPid (k_sched s) = nextPid (k_sched s')). by rewrite (sw_sched _ _ _ _ _ _ _ _ _ Hsw).
  - by rewrite lookup_insert_ne.
  - intros p Hp Hin. destruct (decide (p = v_run v)) as [->|Hpv].
    + exists u. split; [apply lookup_insert_eq|]. change (goes_on s' (v_run v) u). eapply gave_caller_goes_on; [done| |done|done|done]. lia.
    + destruct (Ho p Hpv) as (up & Hup & Hgp).
      { apply (f_equal (fun m => m !! p)) in Hpid. rewrite !lookup_fmap in Hpid. destruct Hin as [y Hy]. change (pcbs (k_obj s') !! p = Some y) in Hy.
        rewrite Hy in Hpid. destruct (pcbs (k_obj s) !! p); [by eexists|done]. }
      exists up. rewrite lookup_insert_ne by done. split; [done|]. by apply (gave_goes_on t0 s (v_run v) k (v_run v') kc s' p up f).
Qed.

(** ** User code *)

(** Whatever the running process does in user mode, it has another context and
    other contents of memory. *)
Lemma represents_user t0 idle all s m mem u : represents t0 idle all s m ->
  represents t0 idle all (with_frame u (with_mem mem s)) (mkMachine (m_sched m) (<[m_run m := u]> (m_ctx m)) (m_next m)).
Proof.
  intros [(qs & ms & Hok & Hf) Hp Ht Hn Hr Ho Hi]. split; cbn [m_sched m_ctx m_next m_run]; try done.
  - exists qs, ms. split; [by apply (kernel_ok_ext s)|]. by apply (forkable_quiet t0 all s _ ms ms).
  - apply lookup_insert_eq.
  - intros p Hpr Hin. destruct (Ho p Hpr Hin) as (up & Hup & Hg). exists up. by rewrite lookup_insert_ne.
Qed.

(** A system call that returns at once. *)
Lemma represents_returned t0 idle all s m r : represents t0 idle all s m ->
  exists s2, set_return r s = Ret tt s2 /\
    represents t0 idle all s2 (mkMachine (m_sched m) (<[m_run m := returned r (k_frame s)]> (m_ctx m)) (m_next m)).
Proof.
  intros Hr. exists (with_frame (returned r (k_frame s)) (with_mem (k_mem s) s)). split; [by destruct s|]. by apply represents_user.
Qed.

Lemma represents_pcb t0 idle all s m : represents t0 idle all s m ->
  exists x, pcbs (k_obj s) !! m_run m = Some x /\ currPCB (k_sched s) = m_run m /\ 0 < m_run m.
Proof.
  intros [(qs & ms & Hok & _) _ _ _ _ _ _]. destruct (running_lookup _ _ _ _ _ Hok) as (x & Hx & _). exists x. split; [done|].
  split; [apply (sr_run _ _ _ _ (ko_sched _ _ _ _ _ Hok))|]. apply (mem_pcbs _ (so_mem _ _ (ko_sys _ _ _ _ _ Hok)) (m_run m)). by exists x.
Qed.

Lemma outline_ticks (m m' : gmap ptr PCB_t) : (forall p, (fun x => with_ticks 0 x) <$> m' !! p = (fun x => with_ticks 0 x) <$> m !! p) ->
  (forall p, outline <$> m' !! p = outline <$> m !! p) /\ (forall p, face <$> m' !! p = face <$> m !! p).
Proof.
  intros Hw. split; intros p; specialize (Hw p); destruct (m' !! p), (m !! p); try done; injection Hw as ? ? ? ? ? ? ? ? ? ?;
    cbn; unfold outline, face; congruence.
Qed.

(** ** [GetPid] and [Delay] *)

Lemma getpid_step t0 idle all s m : represents t0 idle all s m ->
  exists s2 m', (let! r := KernelGetPid in set_return r) s = Ret tt s2 /\ mstep (k_frame s) EGetPid m m' /\ represents t0 idle all s2 m'.
Proof.
  intros Hr. destruct (represents_pcb _ _ _ _ _ Hr) as (x & Hx & Hcur & _).
  destruct (represents_returned _ _ _ _ _ (pid x) Hr) as (s2 & Hret & Hr2). exists s2. eexists. split; [|split; [|exact Hr2]].
  - unfold KernelGetPid. kmon. rewrite Hcur. step (load_pcb_ok _ _ _ Hx). done.
  - destruct m as [a cx nx]. apply m_getpid. rewrite (rp_pids _ _ _ _ _ Hr). apply lookup_pids. by exists x.
Qed.

Lemma delay_step t0 idle all s m n : represents t0 idle all s m -> n <= 0 \/ currPCB (k_sched s) <> idle ->
  exists s2 m', settle 1 ((let! r := KernelDelay n in set_return r) s) = Some (Ret tt s2) /\
    mstep (k_frame s) (EDelay n) m m' /\ represents t0 idle all s2 m'.
Proof.
  intros Hr Hidle. destruct (represents_pcb _ _ _ _ _ Hr) as (x & Hx & Hcur & Hpos). unfold KernelDelay.
  destruct (Z.leb_spec n 0) as [Hle|Hn].
  - destruct (represents_returned _ _ _ _ _ (if n <? 0 then ERROR else SUCCESS) Hr) as (s2 & Hret & Hr2).
    exists s2. eexists. split; [|split; [|exact Hr2]].
    + destruct (Z.eqb_spec n 0) as [->|]; [by cbn in *; rewrite Hret|]. destruct (Z.ltb_spec n 0); [|lia]. cbn in *. by rewrite Hret.
    + destruct m as [a cx nx]. exact (m_delay _ n a cx nx a (a_sleep_now n KDelay a Hle)).
  - destruct m as [[v pd tk] cx nx]. destruct Hr as [(qs & ms & Hok & Hf) Hp Ht Hnx Hrun Ho Hid]. cbn in *.
    unfold m_run in *. cbn in *. destruct Hidle as [?|Hidle]; [lia|]. rewrite Hcur in Hidle. destruct (idle_ready _ _ Hid Hidle) as (nxt & r & Hrd & Hin).
    assert (v_sleep (pid x) v = Some (mkView nxt r (v_blocked v) (<[pid x := v_run v]> (v_sleeping v)))) as Hv by (unfold v_sleep; by rewrite Hrd).
    destruct (sleepProcess_ok _ _ _ _ _ _ n KDelay _ Hok Hn Hx Hv) as (kc & s' & h & mm & Hrun2 & Hok' & Hg).
    set (s0 := with_qh h _) in Hg. set (v' := mkView _ _ _ _) in *.
    destruct (outline_ticks (pcbs (k_obj s)) (pcbs (k_obj s0))) as [Hout Hface].
    { intros p. cbn. destruct (decide (p = v_run v)) as [->|]; [by rewrite lookup_insert_eq, Hx|by rewrite lookup_insert_ne]. }
    destruct (switch_represents t0 idle all s0 KDelay v v' kc s' _ _ pd (<[v_run v := n]> tk) cx (returned SUCCESS (k_frame s)) Hok' Hg)
      as (s2 & Hset & Hr2).
    + apply (forkable_quiet t0 all s _ ms); try done. split; try done. intros hm _ Hsl. by apply lookup_insert_ne.
    + by eapply head_ne.
    + done.
    + cbn. rewrite lookup_insert_eq. by eexists.
    + eapply others_ext; [exact Hface|exact Ho].
    + by right.
    + cbn. by rewrite (pids_insert _ _ x).
    + cbn. rewrite Ht, fmap_insert. done.
    + cbn. by rewrite <- Hrd.
    + exists s2. eexists. split; [|split; [|exact Hr2]].
      * destruct (Z.eqb_spec n 0), (Z.ltb_spec n 0); try lia. unfold bind. by rewrite Hrun2.
      * cbn. rewrite <- Hnx. replace SUCCESS with (if n <? 0 then ERROR else SUCCESS) by (destruct (Z.ltb_spec n 0); [lia|done]).
        apply (m_delay _ n (mkAstate v pd tk) cx nx). econstructor; [done| |done]. rewrite Hp. apply lookup_pids. by exists x.
Qed.

(** ** The clock *)

Lemma tick_all_same l (m : gmap ptr PCB_t) p : NoDup l -> (fun x => with_ticks 0 x) <$> tick_all l m !! p = (fun x => with_ticks 0 x) <$> m !! p.
Proof.
  intros Hnd. destruct (decide (p ∈ l)) as [Hin|Hni]; [|by rewrite lookup_tick_all_ne].
  rewrite lookup_tick_all by done. by destruct (m !! p).
Qed.

(** After the sleepers' tick the state represents the machine after its own,
    but for the places of the processes that are ready now. *)
Lemma tick_step t0 idle all s m : represents t0 idle all s m ->
  exists s1 a1, tickDownSleepers s = Ret SUCCESS s1 /\ astep OTick (m_sched m) a1 /\ v_run (a_view a1) = m_run m /\
    k_frame s1 = k_frame s /\ represents t0 idle all s1 (mkMachine a1 (m_ctx m) (m_next m)).
Proof.
  destruct m as [[v pd tk] cx nx]. intros [(qs & ms & Hok & Hf) Hp Ht Hnx Hrun Ho Hid]. unfold m_run in *. cbn [m_sched m_ctx m_next a_view a_pids a_ticks] in *.
  destruct (tickDownSleepers_ok _ _ _ _ _ Hok) as (order & h & mh & Hord & Htick & Hok1).
  assert (NoDup order.*2) as Hnd by (rewrite Hord; eapply sleeping_nodup, Hok).
  set (s1 := ticked s order h mh) in *. destruct (outline_ticks (pcbs (k_obj s)) (pcbs (k_obj s1))) as [Hout Hface]; [intros p; by apply tick_all_same|].
  exists s1, (mkAstate (v_wake (wakers tk order) v) pd (tick_down (v_sleeping v) tk)). rewrite Ht, wakers_woken.
  split; [done|]. split; [rewrite <- wakers_woken; by constructor|]. split; [done|]. split; [done|].
  split; cbn [m_sched m_ctx m_next a_view a_pids a_ticks]; unfold m_run; cbn [m_sched a_view]; try done.
  - eexists _, _. split; [exact Hok1|]. apply (forkable_quiet t0 all s _ ms); try done. split; try done. intros hm _ Hsl. by apply lookup_insert_ne.
  - cbn. by rewrite pids_tick_all.
  - cbn. by rewrite (tick_down_all _ (v_sleeping v)).
  - intros p Hpr Hin. assert (others_go_on s1 (v_run v) cx) as Ho1 by (by eapply others_ext). by apply Ho1.
  - cbn. set_solver.
Qed.

Lemma clock_step t0 idle all s m : represents t0 idle all s m ->
  exists s2 m', settle 1 (handleTrapClock s) = Some (Ret tt s2) /\ mstep (k_frame s) EClock m m' /\ represents t0 idle all s2 m'.
Proof.
  intros Hr. destruct (tick_step _ _ _ _ _ Hr) as (s1 & a1 & Htick & Ha1 & Hrun1 & Hfr & Hr1).
  unfold handleTrapClock. step Htick. rewrite eqb_0_ERROR. destruct m as [a cx nx]. cbn [m_sched m_ctx m_next] in *.
  destruct (represents_pcb _ _ _ _ _ Hr1) as (x & Hx & Hcur & Hpos). pose proof (rp_running _ _ _ _ _ Hr1) as Hcx.
  unfold m_run in *. cbn [m_sched m_ctx] in *. pose proof Hr1 as [(qs & ms & Hok & Hf) Hp Ht Hnx _ Ho Hid].
  cbn [m_sched m_ctx m_next a_view] in *. destruct a1 as [v pd tk]. cbn [a_view a_pids a_ticks] in *.
  destruct (v_ready v) as [|n r] eqn:Hrd.
  - unfold bind. rewrite (kickProcess_idle _ _ _ _ _ KClock Hok Hrd). change SUCCESS with 0. rewrite eqb_0_ERROR.
    exists s1, (mkMachine (mkAstate v pd tk) cx nx). split; [done|]. split; [|done].
    assert (cx = <[v_run (a_view a) := k_frame s]> cx) as Hid' by (symmetry; apply insert_id; congruence).
    rewrite Hid' at 2. apply (m_clock _ a cx nx (mkAstate v pd tk)); [done|]. by apply a_kick_alone.
  - assert (v_kick v = Some (mkView n (r ++ [v_run v]) (v_blocked v) (v_sleeping v))) as Hv by (unfold v_kick; by rewrite Hrd).
    destruct (kickProcess_ok _ _ _ _ _ KClock _ Hok Hv) as (kc & s' & h & Hkick & Hok' & Hg). set (v' := mkView _ _ _ _) in *.
    destruct (switch_represents t0 idle all (with_qh h s1) KClock v v' kc s' _ _ pd tk cx (k_frame s1) Hok' Hg) as (s2 & Hset & Hr2); try done.
    + by apply (forkable_quiet t0 all s1 _ ms ms).
    + by eapply head_ne.
    + by left.
    + cbn. set_solver.
    + exists s2. eexists. split; [unfold bind; rewrite Hkick; exact Hset|]. split; [|exact Hr2]. cbn. rewrite <- Hnx, Hfr, Hrun1.
      apply (m_clock _ a cx nx (mkAstate v pd tk)); [done|]. by apply a_kick.
Qed.
End laws.
