(* ===== verification/ProcFork.v ===== *)
(** [Fork] on the machine of Processes: the child runs with the context of
    its parent, and the parent goes on with the pid of the child. *)

From stdpp Require Import base gmap sets list.
From S2P Require Import Prelude Hardware Queue HashMap FrameList State UserMem Scheduler LoadProgram GeneralCalls Machine PageTable.
From S2P Require Import SwitchLaws SchedView SchedLaws Steps ForkLaws CopyLaws InitLaws ForkCall ExitLaws WaitLaws StartLaws IsoLaws Keeps Stable IsoStable IsoCalls IsoRun Processes ProcLaws.

Section laws.
Context {QH MH : Type} `{HL : HardwareLaws} `{QO : QueueOps QH} `{MO : MapOps MH}
  `{QL : !QueueLaws QH} `{ML : !MapLaws MH} `{FS : FileSystem}.
Abbreviation kst := (kst QH MH).
Implicit Types s : kst.

(** What a fork needs is there. *)
Lemma represents_fork_call t0 all s qs ms v : kernel_ok s t0 qs ms v -> forkable t0 all s ms -> fork_room s ->
  exists xp u cm m avail, fork_call s t0 (REG_PTBR1 (k_pt s)) qs ms v xp u cm m all avail /\ mem_safe False ∅ s t0 all avail.
Proof.
  intros Hok [Hch Huc Hpid Hmem Hvm [Hwf Hpl] Hrd _] [Hroom (all' & avail & Hfl & Hsz)].
  pose proof Hmem as [[avail' Hsafe] _]. destruct (fl_rep_unique _ _ _ _ _ _ (sf_fl _ _ _ _ _ _ Hsafe) Hfl) as [-> ->].
  pose proof (sr_run _ _ _ _ (ko_sched _ _ _ _ _ Hok)) as Hcur.
  destruct (ko_running _ _ _ _ _ Hok) as (xp & fs & r1 & Hxp & _ & _ & _ & Hr1 & Hreg). rewrite Hcur in Hxp.
  destruct (Hch _ _ Hxp) as (cm & m & Hcm & Hm & Hcb & Hcs & Hk), (Huc _ _ Hxp) as [u Hu].
  exists xp, u, cm, m, avail'. split; [|done]. split; try done.
  - by rewrite Hreg.
  - by apply Hk.
  - split; try done; try apply Hok. lia.
  - intros i e Hi He Hv. apply (Hrd (v_run v) xp (REG_PTBR1 (k_pt s)) i e); try done. by rewrite Hreg.
Qed.

(** One fork: [s1] is the state in which the child is given the processor. *)
Context (s s1 s2 : kst) (t0 t1 : ptr) (qs : gmap ptr (list ptr)) (ms : gmap ptr (gmap Z ptr)) (v : sview)
  (xp : PCB_t) (u : UserContext) (cm : ptr) (m : gmap Z ptr) (all avail : gset Z)
  (c cmc tc : ptr) (fs fs0 : list Z) (l : list (Z * Z)) (h : QH).
Let n := nextPid (k_sched s).
Let kc := mkKctxt (KFork (v_run v) c) (k_frame s).
Let x := child_pcb n xp (v_run v) cmc tc fs.
Hypothesis Hcan : can_fork s t0 t1 qs ms v xp u cm m all avail.
Hypothesis Hne : v_run v <> c.
Hypothesis Hr : fork_ready s t0 t1 ms v xp cm m all avail c cmc tc fs l s1.
Hypothesis Hf : forked t0 (with_qh h s1) (v_run v) kc c x fs fs0 s2.

Local Lemma fork_parent : pcbs (k_obj s) !! v_run v = Some xp /\ uctxt xp = Some u /\ r1PageTable xp = Some t1.
Proof. apply Hcan. Qed.
Local Lemma fork_new : pcbs (k_obj s) !! c = None.
Proof. apply Hr. Qed.
Local Lemma fork_pcbs : pcbs (k_obj s2) = <[c := with_kctxt (KSaved kc) x]> (<[v_run v := with_kctxt (KSaved kc) (parent_pcb xp)]> (pcbs (k_obj s))).
Proof. eapply forked_pcbs_eq; [apply fork_parent|exact Hne|exact Hr|exact Hf]. Qed.

(** A member of the PCBs that a fork leaves alone. *)
Local Lemma fork_proj {A} (f : PCB_t -> A) : (forall k y, f (with_kctxt k y) = f y) -> f (parent_pcb xp) = f xp ->
  f <$> pcbs (k_obj s2) = <[c := f x]> (f <$> pcbs (k_obj s)).
Proof.
  intros Hk Hp. rewrite fork_pcbs, !fmap_insert, !Hk, Hp. f_equal. apply insert_id. rewrite lookup_fmap. destruct fork_parent as (-> & _). done.
Qed.

Local Lemma fork_outline p z : pcbs (k_obj s2) !! p = Some z ->
  p = c /\ outline z = outline x \/ p <> c /\ exists y, pcbs (k_obj s) !! p = Some y /\ outline z = outline y.
Proof.
  intros Hz. pose proof (f_equal (fun m => m !! p) (fork_proj outline (fun _ _ => eq_refl) eq_refl)) as Heq. cbn in Heq.
  rewrite lookup_fmap, Hz in Heq. symmetry in Heq. apply lookup_insert_Some in Heq as [[<- Ho]|[Hpc Ho]]; [by left|right].
  rewrite lookup_fmap in Ho. destruct (pcbs (k_obj s) !! p) as [y|]; [|done]. split; [done|]. exists y. split; [done|]. by apply (inj Some) in Ho.
Qed.

Local Lemma fork_glob : k_glob s2 = k_glob s.
Proof. rewrite (fk_glob _ _ _ _ _ _ _ _ _ Hf). exact (gr_glob _ _ _ _ _ (fr_grown _ _ _ _ _ _ _ _ _ _ _ _ _ _ _ _ Hr)). Qed.

Local Lemma fork_sched : nextPid (k_sched s2) = n + 1 /\ currPCB (k_sched s2) = c /\
  blockedMap (k_sched s2) = blockedMap (k_sched s) /\ sleepingMap (k_sched s2) = sleepingMap (k_sched s).
Proof.
  pose proof Hr as [_ _ [] _ _ _ _ _ _ _ _ _ Hn _]. rewrite (fk_sched _ _ _ _ _ _ _ _ _ Hf). done.
Qed.

(** The protection of the pages. *)
Local Lemma fork_readable p z r i e : 
  (forall p x r i e, pcbs (k_obj s) !! p = Some x -> r1PageTable x = Some r -> 0 <= i < MAX_PT_LEN ->
    entry (k_pt s) r i = Some e -> pte_valid e = 1 -> Z.land (pte_prot e) PROT_READ = PROT_READ /\ 0 <= pte_prot e < 2 ^ PTE_PROT_BITS) ->
  (forall p x r, pcbs (k_obj s) !! p = Some x -> r1PageTable x = Some r -> table (k_pt s) r /\ apart t0 r) ->
  pcbs (k_obj s2) !! p = Some z -> r1PageTable z = Some r -> 0 <= i < MAX_PT_LEN ->
  entry (k_pt s2) r i = Some e -> pte_valid e = 1 -> Z.land (pte_prot e) PROT_READ = PROT_READ /\ 0 <= pte_prot e < 2 ^ PTE_PROT_BITS.
Proof.
  intros Hrd Hker Hz Hzr Hi He Hv. destruct (forked_spaces _ _ _ _ _ _ _ _ _ _ _ _ _ _ _ _ _ _ _ _ _ _ Hcan Hne Hr Hf) as [_ _ _ Hent (_ & Ha0 & _)].
  destruct (fork_outline p z Hz) as [[-> [= Ho _ _ _ _]]|(Hpc & y & Hy & [= Ho _ _ _ _])]; rewrite Ho in Hzr.
  - injection Hzr as <-. rewrite (forked_entry _ _ _ _ _ _ _ _ _ _ _ Hf) in He by done. change (entry (k_pt s1) tc i = Some e) in He.
    destruct (decide (i ∈ l.*1)) as [Hin|Hni].
    + apply list_elem_of_fmap in Hin as ([j f] & -> & Hin). destruct (fr_copied _ _ _ _ _ _ _ _ _ _ _ _ _ _ _ _ Hr j f Hin) as (e0 & He0 & He1 & _).
      assert (j ∈ l.*1) as Hj by (apply list_elem_of_fmap; by exists (j, f)). rewrite (fr_pages _ _ _ _ _ _ _ _ _ _ _ _ _ _ _ _ Hr) in Hj.
      apply elem_of_valid_pages in Hj as [Hvp _]. unfold valid_page in Hvp. rewrite He0 in Hvp. apply Z.eqb_eq in Hvp.
      cbn in He. rewrite He1 in He. injection He as <-. destruct fork_parent as (Hxp & _ & Hx1). by eapply (Hrd (v_run v) xp t1 j e0).
    + rewrite (fr_invalid _ _ _ _ _ _ _ _ _ _ _ _ _ _ _ _ Hr i Hi Hni) in He. by injection He as <-.
  - destruct (Hker p y r Hy Hzr). rewrite Hent in He by done. by eapply Hrd.
Qed.

Local Lemma fork_forkable : forkable t0 all s ms -> memory_kept False ∅ t0 all s2 ->
  forkable t0 all s2 (<[cm := <[n := c]> m]> (<[cmc := ∅]> ms)).
Proof.
  intros [Hch Huc Hpid [[av Hsafe] _] Hvm [Hwf Hpl] Hrd Hst] Hmem. destruct fork_parent as (Hxp & Hu & Hx1).
  pose proof (proj2 (proj2 (fr_maps _ _ _ _ _ _ _ _ _ _ _ _ _ _ _ _ Hr))) as Hcmc.
  destruct (cf_children _ _ _ _ _ _ _ _ _ _ _ _ Hcan) as (_ & Hm & Hcb & Hcs).
  destruct fork_sched as (Hn & _ & Hb & Hs). pose proof (ko_sched _ _ _ _ _ (cf_ok _ _ _ _ _ _ _ _ _ _ _ _ Hcan)) as Hsr.
  assert (cm <> cmc) as Hcc by congruence.
  split; rewrite ?Hn, ?Hb, ?Hs, ?fork_glob; try done.
  - intros p z Hz. destruct (fork_outline p z Hz) as [[-> [= _ _ Ho _ _]]|(Hpc & y & Hy & [= _ _ Ho _ _])]; rewrite Ho.
    + exists cmc, ∅. rewrite lookup_insert_ne, lookup_insert_eq by done. split_and!; try done; intros ->.
      * by rewrite (sr_blocked _ _ _ _ Hsr) in Hcmc.
      * by rewrite (sr_sleeping _ _ _ _ Hsr) in Hcmc.
    + destruct (Hch p y Hy) as (cmp & mp & Hcmp & Hmp & ? & ? & Hk). exists cmp. assert (cmp <> cmc) by congruence.
      destruct (decide (cmp = cm)) as [->|].
      * exists (<[n := c]> m). rewrite lookup_insert_eq. split_and!; try done. intros k Hkn. assert (mp = m) as -> by congruence.
        rewrite lookup_insert_ne by lia. apply Hk. unfold n in *. lia.
      * exists mp. rewrite !lookup_insert_ne by done. split_and!; try done. intros k Hkn. apply Hk. unfold n in *. lia.
  - intros p z Hz. destruct (fork_outline p z Hz) as [[-> [= _ _ _ Ho _]]|(Hpc & y & Hy & [= _ _ _ Ho _])]; rewrite Ho; [|by eapply Huc].
    cbn. rewrite Hu. by eexists.
  - intros p z Hz. destruct (fork_outline p z Hz) as [[-> [= _ _ _ _ Ho]]|(Hpc & y & Hy & [= _ _ _ _ Ho])]; rewrite Ho; [cbn; lia|].
    specialize (Hpid p y Hy). unfold n. lia.
  - destruct (fk_pt _ _ _ _ _ _ _ _ _ Hf) as (t' & r1 & Hup & [= <-] & Hpt). 
    pose proof (pt_upd_vm _ _ _ _ _ Hup (pt_kept_vm _ _ _ _ _ (gr_pt _ _ _ _ _ (fr_grown _ _ _ _ _ _ _ _ _ _ _ _ _ _ _ _ Hr)) Hvm)) as [].
    destruct (fr_table _ _ _ _ _ _ _ _ _ _ _ _ _ _ _ _ Hr) as (Htc & Ha0 & _).
    rewrite Hpt. split; try done. exact (pt_upd_table _ _ _ _ Hup Htc).
  - destruct (fk_pt _ _ _ _ _ _ _ _ _ Hf) as (t' & r1 & Hup & _ & Hpt). destruct (fr_pt _ _ _ _ _ _ _ _ _ _ _ _ _ _ _ _ Hr) as [Hwf1 Hpl1].
    rewrite Hpt. cbn. rewrite (upd_arena _ _ _ Hup). split; [|done]. by apply (pt_upd_wf _ _ _ Hup).
  - intros p z r i e. apply fork_readable; [exact Hrd|]. apply (is_kernel _ _ _ _ (sf_iso _ _ _ _ _ _ Hsafe)).
Qed.

(** Where the processes go on after the fork. *)
Local Lemma fork_pid_kept q y : pcbs (k_obj s) !! q = Some y -> exists y', pcbs (k_obj s2) !! q = Some y' /\ pid y = pid y'.
Proof.
  intros Hy. rewrite fork_pcbs. pose proof fork_new. rewrite lookup_insert_ne by congruence.
  destruct (decide (q = v_run v)) as [->|]; [|rewrite lookup_insert_ne by done; by exists y].
  rewrite lookup_insert_eq. eexists. split; [done|]. destruct fork_parent as [Hxp _]. by rewrite Hy in Hxp; injection Hxp as ->.
Qed.

Local Lemma fork_goes_on p w : p <> v_run v -> goes_on s p w -> goes_on s2 p w.
Proof.
  intros Hp Hg. apply (goes_on_mono s); [exact fork_pid_kept| |done]. rewrite fork_pcbs. destruct Hg as (y & Hy & _).
  pose proof fork_new. rewrite !lookup_insert_ne by congruence. done.
Qed.

Local Lemma fork_both_go_on : goes_on s2 (v_run v) (returned n (k_frame s)) /\ goes_on s2 c (returned SUCCESS (k_frame s)).
Proof.
  pose proof (cf_pids _ _ _ _ _ _ _ _ _ _ _ _ Hcan _ _ (proj1 fork_parent)) as Hpid.
  assert (pcbs (k_obj s2) !! v_run v = Some (with_kctxt (KSaved kc) (parent_pcb xp)) /\ pcbs (k_obj s2) !! c = Some (with_kctxt (KSaved kc) x)) as [Hp Hc]
    by (rewrite fork_pcbs; by rewrite lookup_insert_ne, !lookup_insert_eq).
  assert (pid (with_kctxt (KSaved kc) (parent_pcb xp)) <> pid (with_kctxt (KSaved kc) x)) as Hd by (cbn; unfold n; lia).
  split; eexists; (split; [done|right; exists (KFork (v_run v) c), (k_frame s); split; [done|]]); eexists _, _; by eauto 10.
Qed.

(** The state after the fork represents the machine after it. *)
Local Lemma fork_represents idle ps tk cx nx qs' : represents t0 idle all s (mkMachine (mkAstate v ps tk) cx nx) ->
  forkable t0 all s ms -> kernel_ok s2 t0 qs' (<[cm := <[n := c]> m]> (<[cmc := ∅]> ms)) (v_fork c v) -> memory_kept False ∅ t0 all s2 ->
  represents t0 idle all (with_frame (returned SUCCESS (k_frame s)) s2)
    (mkMachine (mkAstate (v_fork c v) (<[c := nx]> ps) (<[c := 0]> tk))
      (<[c := returned SUCCESS (k_frame s)]> (<[v_run v := returned nx (k_frame s)]> cx)) (nx + 1)).
Proof.
  intros [_ Hps Htk Hnx _ Ho Hid] Hfk Hok Hmem. destruct fork_sched as (Hn & _), fork_both_go_on as [Hgp Hgc]. pose proof fork_new as Hc0.
  cbn [m_sched m_ctx m_next a_view a_pids a_ticks] in *. unfold m_run in *. cbn [m_sched a_view] in *. subst ps tk nx. fold n.
  split; cbn [m_sched m_ctx m_next a_view a_pids a_ticks]; unfold m_run; cbn [m_sched a_view]; try done.
  - eexists _, _. split; [by apply (kernel_ok_ext s2)|]. eapply (forkable_quiet t0 all s2); [|done|by apply fork_forkable]. done.
  - symmetry. exact (fork_proj pid (fun _ _ => eq_refl) eq_refl).
  - symmetry. exact (fork_proj numRemainingDelayTicks (fun _ _ => eq_refl) eq_refl).
  - apply lookup_insert_eq.
  - intros p Hp Hin. change (p <> c) in Hp. rewrite lookup_insert_ne by done. destruct (decide (p = v_run v)) as [->|Hpv].
    + exists (returned n (k_frame s)). by rewrite lookup_insert_eq.
    + change (is_Some (pcbs (k_obj s2) !! p)) in Hin. rewrite fork_pcbs, !lookup_insert_ne in Hin by done.
      destruct (Ho p Hpv Hin) as (w & Hw & Hg). exists w. rewrite lookup_insert_ne by done. split; [done|]. by apply fork_goes_on.
  - cbn. set_solver.
Qed.
End laws.

Section step.
Context {QH MH : Type} `{HL : HardwareLaws} `{QO : QueueOps QH} `{MO : MapOps MH}
  `{QL : !QueueLaws QH} `{ML : !MapLaws MH} `{FS : FileSystem}.
Abbreviation kst := (kst QH MH).
Implicit Types s : kst.

Lemma fork_step t0 idle all s m : represents t0 idle all s m -> fork_room s ->
  exists s2 m', settle 1 ((let! r := KernelFork in set_return r) s) = Some (Ret tt s2) /\
    mstep (k_frame s) EFork m m' /\ represents t0 idle all s2 m'.
Proof.
  intros Hrep Hroom. destruct m as [[v ps tk] cx nx]. pose proof (rp_kernel _ _ _ _ _ Hrep) as (qs & ms & Hok & Hfk). cbn [m_sched a_view] in Hok.
  destruct (represents_fork_call _ _ _ _ _ _ Hok Hfk Hroom) as (xp & u & cm & mc & avail & Hcall & Hsafe).
  pose proof (fork_call_can _ _ _ _ _ _ _ _ _ _ _ _ _ _ Hsafe Hcall) as Hcan.
  destruct (KernelFork_run _ _ _ _ _ _ _ _ _ _ _ _ Hcan) as (c & cmc & tc & fs & fs0 & l & s1 & s2 & h & Hrun & Hne & Hr & [qs' Hok2] & Hf).
  cbn zeta in Hrun, Hf.
  pose proof (fork_represents s s1 s2 t0 _ qs ms v xp u cm mc all avail c cmc tc fs fs0 l h Hcan Hne Hr Hf idle ps tk cx nx qs' Hrep Hfk Hok2
    (fork_safe _ _ _ _ _ _ _ _ _ _ _ _ _ _ _ _ Hsafe Hcall Hrun)) as Hrep2.
  eexists _, _. split; [|split; [|exact Hrep2]].
  - destruct (fork_both_go_on s s1 s2 t0 _ qs ms v xp u cm mc all avail c cmc tc fs fs0 l h Hcan Hne Hr Hf) as [_ Hg].
    pose proof (fork_pcbs s s1 s2 t0 _ qs ms v xp u cm mc all avail c cmc tc fs fs0 l h Hcan Hne Hr Hf) as Hpcbs.
    unfold bind. rewrite Hrun. cbn [settle].
    rewrite (resume_goes_on s2 c (with_kctxt (KSaved (mkKctxt (KFork (v_run v) c) (k_frame s))) (child_pcb (nextPid (k_sched s)) xp (v_run v) cmc tc fs))
      (mkKctxt (KFork (v_run v) c) (k_frame s)) (returned SUCCESS (k_frame s))); [done| | |done|exact Hg].
    + apply (sr_run _ _ _ _ (ko_sched _ _ _ _ _ Hok2)).
    + rewrite Hpcbs. apply lookup_insert_eq.
  - apply m_fork. pose proof (rp_pids _ _ _ _ _ Hrep) as Hp. cbn in Hp. rewrite Hp. unfold pids.
    by rewrite lookup_fmap, (proj2 (fr_addr _ _ _ _ _ _ _ _ _ _ _ _ _ _ _ _ Hr)).
Qed.
End step.
