(* ===== verification/ProcRun.v ===== *)
(** Runs of the machine of Processes: it starts where [KernelStart] ends, and
    every event the hardware delivers is a step of it. *)

From stdpp Require Import base gmap sets list relations.
From S2P Require Import Prelude Hardware Queue HashMap FrameList State UserMem Scheduler LoadProgram GeneralCalls Machine PageTable.
From S2P Require Import SwitchLaws SchedView SchedLaws Steps InitLaws ForkCall CallLaws ExitLaws WaitLaws SpaceLaws LoadLaws BootLaws StartLaws IsoLaws Keeps Stable IsoStable IsoCalls IsoRun Processes ProcLaws ProcFork.

(** init runs its program from its entry point, the idle process is ready. *)
Definition start_machine `{Hardware} (D : Z) (args : list (list Z)) (li : load_info) (np ip : ptr) : machine :=
  mkMachine (mkAstate (start_view np ip) (<[np := 1]> {[ip := 0]}) (<[np := 0]> {[ip := 0]}))
    (<[np := program_uctxt li args fresh_UserContext]> {[ip := idle_uctxt D fresh_UserContext]}) 2.

Section pages.
Context `{HL : HardwareLaws}.

(** Pages that a fork can copy. *)
Definition readable (t : pt) (b : ptr) : Prop := forall i e, 0 <= i < MAX_PT_LEN -> entry t b i = Some e -> pte_valid e = 1 ->
  Z.land (pte_prot e) PROT_READ = PROT_READ /\ 0 <= pte_prot e < 2 ^ PTE_PROT_BITS.

Lemma land_lor_r a b : Z.land (Z.lor a b) a = a.
Proof. apply Z.bits_inj'. intros n _. rewrite Z.land_spec, Z.lor_spec. by destruct (Z.testbit a n), (Z.testbit b n). Qed.
Lemma PROT_RW_readable : Z.land PROT_RW PROT_READ = PROT_READ /\ 0 <= PROT_RW < 2 ^ PTE_PROT_BITS.
Proof. split; [apply land_lor_r|]. pose proof PROT_RW_fits. lia. Qed.
Lemma PROT_RX_readable : Z.land PROT_RX PROT_READ = PROT_READ /\ 0 <= PROT_RX < 2 ^ PTE_PROT_BITS.
Proof. split; [apply land_lor_r|]. pose proof PROT_RX_fits. lia. Qed.

Lemma idle_readable t b f : idle_space t b f -> readable t b.
Proof.
  intros [Hl Hn] i e Hi He Hv. destruct (decide (i = MAX_PT_LEN - 1)) as [->|].
  - rewrite Hl in He. injection He as <-. apply PROT_RW_readable.
  - rewrite Hn in He by lia. by injection He as <-.
Qed.

(** An entry of a run of pages. *)
Lemma run_entry t b a prot fs i e : run t b a prot fs -> a <= i < a + Z.of_nat (length fs) -> entry t b i = Some e -> pte_prot e = prot.
Proof.
  intros Hr Hi He. destruct (lookup_lt_is_Some_2 fs (Z.to_nat (i - a))) as [f Hf]; [lia|].
  specialize (Hr _ _ Hf). replace (a + Z.of_nat (Z.to_nat (i - a))) with i in Hr by lia. rewrite Hr in He. by injection He as <-.
Qed.

Lemma program_readable t b li args tf df sf : fits li args -> space t b li args PROT_RX tf df sf -> readable t b.
Proof.
  intros [_ (? & ? & ?) _ _ [? ?] Hroom Hargs _] [(Hlt & Hld & Hls) Hrt Hrd Hrs Hnone] i e Hi He Hv.
  pose proof (stack_bounds args Hargs) as (Hs & _). assert (data_npg li = id_npg li + ud_npg li) as Hdn by done.
  destruct (decide (text_pg1 li <= i < text_pg1 li + t_npg li)); [|destruct (decide (data_pg1 li <= i < data_pg1 li + data_npg li));
    [|destruct (decide (MAX_PT_LEN - stack_npg args <= i))]].
  - erewrite (run_entry t b _ _ tf); [apply PROT_RX_readable|done| |done]. lia.
  - erewrite (run_entry t b _ _ df); [apply PROT_RW_readable|done| |done]. lia.
  - erewrite (run_entry t b _ _ sf); [apply PROT_RW_readable|done| |done]. lia.
  - destruct (Hnone i) as (e' & He' & ?); [done|lia..|]. congruence.
Qed.
End pages.

Section laws.
Context {QH MH : Type} `{HL : HardwareLaws} `{QO : QueueOps QH} `{MO : MapOps MH}
  `{QL : !QueueLaws QH} `{ML : !MapLaws MH} `{QR : !QueueRuns QH} `{MR : !MapRuns MH} `{FS : FileSystem}.
Abbreviation kst := (kst QH MH).
Implicit Types s : kst.

(** ** Events *)

Definition handler (e : event) : M kst unit :=
  match e with
  | EClock => handleTrapClock
  | EGetPid => let! r := KernelGetPid in set_return r
  | EDelay n => let! r := KernelDelay n in set_return r
  | EFork => let! r := KernelFork in set_return r
  end.

Lemma event_handled fuel t u e s : event_of t u = Some e -> interruptVectorArray fuel t (with_frame u s) = handler e (with_frame u s).
Proof.
  destruct t; try done; cbn [event_of interruptVectorArray]; [|by intros [= <-]]. unfold handleTrapKernel. kmon. cbn [k_frame with_frame].
  destruct (decode (uc_code u)) as [call|]; [|done]. destruct (uc_regs u) as [|r0 [|r1 [|r2 rs]]]; try by destruct call.
  by destruct call; intros [= <-].
Qed.

(** The context that the kernel has of the running process is replaced by the
    one the hardware delivers. *)
Lemma mstep_user u e m m' : mstep u e (mkMachine (m_sched m) (<[m_run m := u]> (m_ctx m)) (m_next m)) m' -> mstep u e m m'.
Proof.
  destruct m as [a cx nx]. unfold m_run. cbn [m_sched m_ctx m_next]. intros Hm. inversion Hm; subst; cbn [a_view];
    rewrite insert_insert_eq; by econstructor.
Qed.

Lemma event_step fuel t u e t0 idle all s m mem : represents t0 idle all s m -> event_of t u = Some e -> possible idle e s ->
  exists s2 m', deliver fuel 1 t u (with_mem mem s) = Some (Ret tt s2) /\ mstep u e m m' /\ represents t0 idle all s2 m'.
Proof.
  intros Hr He Hp. pose proof (represents_user _ _ _ _ _ mem u Hr) as Hru. unfold deliver. rewrite (event_handled _ _ _ _ _ He).
  assert (forall m', mstep u e (mkMachine (m_sched m) (<[m_run m := u]> (m_ctx m)) (m_next m)) m' -> mstep u e m m') as Hu by (intros m'; apply mstep_user).
  destruct e; cbn [handler].
  - destruct (clock_step _ _ _ _ _ Hru) as (s2 & m' & Hrun & Hm & Hr2). exists s2, m'. auto.
  - destruct (getpid_step _ _ _ _ _ Hru) as (s2 & m' & Hrun & Hm & Hr2). exists s2, m'. rewrite Hrun. auto.
  - destruct (delay_step _ _ _ _ _ n Hru Hp) as (s2 & m' & Hrun & Hm & Hr2). exists s2, m'. auto.
  - destruct (fork_step _ _ _ _ _ Hru Hp) as (s2 & m' & Hrun & Hm & Hr2). exists s2, m'. auto.
Qed.

Lemma represents_current t0 idle all s m : represents t0 idle all s m -> currPCB (k_sched s) = m_run m.
Proof. intros Hr. by destruct (represents_pcb _ _ _ _ _ Hr) as (x & _ & ? & _). Qed.

(** One event of the hardware: a trap [t] of the running process, whose user
    context is [u] by now, with any memory contents. *)
Inductive kernel_event (idle : ptr) s : kst -> Prop :=
| an_event fuel t u e mem s2 : event_of t u = Some e -> possible idle e s ->
    deliver fuel 1 t u (with_mem mem s) = Some (Ret tt s2) -> kernel_event idle s s2.

Definition machine_event (m m' : machine) : Prop := exists u e, mstep u e m m'.

Lemma run_represents t0 idle all s s2 : rtc (kernel_event idle) s s2 -> forall m, represents t0 idle all s m ->
  exists m', rtc machine_event m m' /\ represents t0 idle all s2 m'.
Proof.
  induction 1 as [s|s s1 s2 Hev _ IH]; intros m Hr; [by exists m|]. destruct Hev as [fuel t u e mem s1 He Hp Hd].
  destruct (event_step fuel t u e _ _ _ _ _ mem Hr He Hp) as (s3 & m1 & Hd3 & Hm & Hr1). assert (s3 = s1) as -> by congruence.
  destruct (IH m1 Hr1) as (m' & Hrun & Hr2). exists m'. split; [|done]. eapply rtc_l; [|done]. by exists u, e.
Qed.

(** A process that does not run keeps its context. *)
Lemma mstep_private u e m m' p i : mstep u e m m' -> a_pids (m_sched m) !! p = Some i -> p <> m_run m -> m_ctx m' !! p = m_ctx m !! p.
Proof.
  unfold m_run. intros Hm Hp Hne. inversion Hm; subst; cbn in *; rewrite lookup_insert_ne; [done|done|done|done|done|done|by rewrite lookup_insert_ne|].
  congruence.
Qed.

(** ** The start *)

Lemma start_represents D s pmem cmd_args name fd li : can_start s pmem cmd_args name fd li -> pmem_fits pmem ->
  exists s' s1 t0 np ip all, KernelStart D cmd_args pmem s = Switch (mkKctxt KStart (k_frame s)) s' /\ np <> ip /\
    settle 1 (Switch (mkKctxt KStart (k_frame s)) s') = Some (Ret tt s1) /\
    represents t0 ip all s1 (start_machine D (init_args cmd_args) li np ip).
Proof.
  intros Hcan Hpf. destruct (KernelStart_ok D s pmem cmd_args name fd li Hcan) as (y & np & ip & qs & ms & s' & Hrun & Hst).
  destruct Hcan as [Hhw _ Hprog _].
  pose proof (started_safe False _ _ _ _ _ _ _ _ _ _ _ _ (hr_machine _ _ Hhw) Hpf (ip_fits _ _ _ _ Hprog) Hst) as Hsafe.
  destruct Hst as [Hok Hvm _ (cm & cmi & Hne & Hp) _ Hld Hidle _ _ Hstart _ Hch Hnext Hpt].
  set (args := init_args cmd_args) in *. set (s1 := with_frame (program_uctxt li args fresh_UserContext) s').
  assert (forall p x, pcbs (k_obj s') !! p = Some x -> p = np /\ x = loaded_pcb cm (sl_t1 y) li args \/ p = ip /\ x = idle_pcb D cmi (sl_tb y) (sl_k y)) as Hlk.
  { intros p x. rewrite Hp. intros [[<- <-]|[_ [<- <-]%lookup_singleton_Some]]%lookup_insert_Some; auto. }
  assert (forkable (sl_t0 y) (pfns (boot_frames pmem (currKernelBrk (k_glob s)))) s' ms) as Hfk.
  { split; rewrite ?Hnext, ?(vm_base1 _ _ _ Hvm); try done.
    - intros p x Hx. destruct (Hch p x Hx) as (c & Hc & Hm & ? & ?). by exists c, ∅.
    - intros p x [[_ ->]|[_ ->]]%Hlk; by eexists.
    - intros p x [[_ ->]|[_ ->]]%Hlk; cbn; lia.
    - split; [|by eapply kernel_base]. destruct Hsafe as [Hfl Hfit Hiso _]. by eexists.
    - intros p x r i e [[_ ->]|[_ ->]]%Hlk [= <-]; [eapply program_readable; [apply Hprog|apply Hld]|by eapply idle_readable].
    - by eexists. }
  exists s', s1, (sl_t0 y), np, ip, (pfns (boot_frames pmem (currKernelBrk (k_glob s)))). split; [done|]. split; [done|]. split.
  - cbn [settle kc_resume kc_frame resume]. unfold start_finish. kmon. cbn [k_sched with_frame]. rewrite (sr_run _ _ _ _ (ko_sched _ _ _ _ _ Hok)). cbn [v_run start_view].
    assert (pcbs (k_obj (with_frame (k_frame s) s')) !! np = Some (loaded_pcb cm (sl_t1 y) li args)) as Hx by (cbn; rewrite Hp; apply lookup_insert_eq).
    step (load_pcb_ok _ _ _ Hx). done.
  - split; unfold m_run; cbn [start_machine m_sched m_ctx m_next a_view a_pids a_ticks v_run v_ready start_view k_frame with_frame s1].
    + exists qs, ms. split; [by apply (kernel_ok_ext s')|]. by apply (forkable_quiet (sl_t0 y) _ s' _ ms ms).
    + unfold pids. cbn. rewrite Hp, fmap_insert, map_fmap_singleton. done.
    + cbn. rewrite Hp, fmap_insert, map_fmap_singleton. done.
    + by rewrite <- Hnext.
    + apply lookup_insert_eq.
    + intros p Hpn [x Hx]. destruct (Hlk p x Hx) as [[-> _]|[-> ->]]; [done|]. exists (idle_uctxt D fresh_UserContext).
      rewrite lookup_insert_ne, lookup_singleton_eq by done. split; [done|]. exists (idle_pcb D cmi (sl_tb y) (sl_k y)). split; [done|by left].
    + set_solver.
Qed.
End laws.
