(* ===== verification/Boot.v ===== *)
(** Concrete runs of the whole kernel, from [KernelStart] on, on the machine
    [dartmouth] with 2 MiB of memory, and with a file system whose only
    program has one page of text and two of data. *)

From stdpp Require Import base gmap list.
From S2P Require Import Prelude Hardware Linked Queue HashMap FrameList PageTable State UserMem Scheduler.
From S2P Require Import SyncObjects LoadProgram GeneralCalls Tty Machine IsoLaws.

Abbreviation kernel := (kst QueueImpl.qheap mheap).

(** The kernel as the hardware hands it to [KernelStart]: its data ends at
    0x8000, no other memory is in use. *)
Definition booting : kernel :=
  mkKst (QueueImpl.mkQheap (mkArena [] 16) ∅ ∅) (mkMheap (mkArena [] 16) ∅ ∅ ∅) (mkFl (mkArena [] 16) None)
    (mkPt (mkArena [] 16) ∅ 0 0 0 0 0 [])
    (mkObjects (mkArena [] 16) ∅ ∅ ∅ ∅)
    (mkSched 0 0 0 0 0 0 0 (replicate 4 NULL) (replicate 4 NULL) (replicate 4 NULL) 0 0 0)
    (mkGlobals 0x4000 0x8000 0x8000 0 0 0 0 None None) ∅ fresh_UserContext
    (mkTty (replicate 4 None) []).

Section runs.
Context `{FS : FileSystem}.

(** The address of [DoIdle]. *)
Definition idle_pc : Z := 0x4100.
Definition boot : option (outcome kernel unit) := settle 5 (KernelStart idle_pc [] 0x200000 booting).

(** The running process makes the system call [c] with the argument [a]; the
    clock ticks. *)
Definition call (c : yalnix_call) (a : Z) (s : kernel) : option (outcome kernel unit) :=
  let u := k_frame s in
  deliver 10 5 TRAP_KERNEL (mkUctxt (YALNIX c) 0 (uc_pc u) (uc_sp u) (uc_ebp u) (a :: repeat 0 7)) s.
Definition clock (s : kernel) : option (outcome kernel unit) := deliver 10 5 TRAP_CLOCK (k_frame s) s.

(** A run goes on as long as processes return to user mode. *)
Definition next (f : kernel -> option (outcome kernel unit)) (o : option (outcome kernel unit)) :
    option (outcome kernel unit) :=
  match o with Some (Ret _ s) => f s | _ => o end.

(** What a user sees: the pid of the running process, its program counter and
    its first register. *)
Definition visible (s : kernel) : option (Z * Z * Z) :=
  match pcbs (k_obj s) !! currPCB (k_sched s), uc_regs (k_frame s) with
  | Some x, r :: _ => Some (pid x, uc_pc (k_frame s), r)
  | _, _ => None
  end.
Definition seen (o : option (outcome kernel unit)) : option (Z * Z * Z) :=
  match o with Some (Ret _ s) => visible s | _ => None end.
Definition crashed (o : option (outcome kernel unit)) : bool :=
  match o with Some Undef => true | _ => false end.

End runs.

(** The file system with the one program. *)
#[local] Instance one_file : FileSystem := {|
  file := unit; open_file _ := Some tt;
  LoadInfo _ := Some (mkLoadInfo 0x100040 0x100000 1 0 0x102000 1 0x2000 0x102010 1 0x104020);
  read_file _ _ n := repeat 7 (Z.to_nat n) |}.

(** Break and gaps: a file whose data begins a page behind the end of its
    text.  [LoadProgram] puts the break at the beginning of the data, the page
    in between is not mapped. *)
Definition gap_file : FileSystem := {|
  file := unit; open_file _ := Some tt;
  LoadInfo _ := Some (mkLoadInfo 0x100040 0x100000 1 0 0x104000 1 0x2000 0x104010 0 0x106000);
  read_file _ _ n := repeat 7 (Z.to_nat n) |}.

(** The frame that [getFrame] would give. *)
Definition next_frame (o : option (outcome kernel unit)) : option Z :=
  match o with
  | Some (Ret _ s) => match getFrame (numFrames (k_glob s)) (k_fl s) with Ret r _ => r | _ => None end
  | _ => None
  end.

(** The kernel boots, evaluated: [KernelStart] ends in user mode, in the process
    init, with pid 1, at the entry point of its program; a clock tick gives
    the processor to the idle process 0 at [DoIdle], the next one back to
    init; [Fork] returns 0 in the child, which has pid 2 and runs at once, and 2
    in the parent; [GetPid] returns 2 in the child. *)
Theorem boot_and_fork :
  seen boot = Some (1, 0x100040, 0) /\
  seen (next clock boot) = Some (0, 0x4100, 0) /\
  seen (next clock (next clock boot)) = Some (1, 0x100040, 0) /\
  seen (next (call FORK 0) boot) = Some (2, 0x100040, 0) /\
  seen (next (call GETPID 0) (next (call FORK 0) boot)) = Some (2, 0x100040, 2) /\
  seen (next clock (next clock (next (call FORK 0) boot))) = Some (1, 0x100040, 2).
Proof. split_and!; vm_compute; reflexivity. Qed.

(** A child that exits before its parent ran again leaves its PCB freed
    while the parent, still inside [KernelFork], compares its pid with the
    child's: the parent reads freed memory.  If the parent runs first, the
    same exit is harmless. *)
Theorem fork_exit_use_after_free :
  crashed (next clock (next (call EXIT 3) (next (call FORK 0) boot))) = true /\
  seen (next (call EXIT 3) (next clock (next clock (next clock (next (call FORK 0) boot))))) <> None.
Proof. split; vm_compute; congruence. Qed.

(** The frames that are neither free nor a process's. *)
Definition nobodys_frames (o : option (outcome kernel unit)) : option (list Z) :=
  match o with
  | Some (Ret _ s) => match fl_frames (k_fl s) with
      | Some l => let used := flat_map (fun px => owned (k_pt s) px.2) (map_to_list (pcbs (k_obj s))) in
          Some (filter (fun f => f ∉ used) (pfn <$> filter (fun x => isFree x = 0) l))
      | None => None
      end
  | _ => None
  end.

(** When init moves its break down by this page, [KernelBrk] frees the frame
    number that it finds in the entry, valid or not: it is 0, and frame 0,
    which holds the kernel's text, is the next one to be given to a process. *)
Theorem brk_frees_kernel_frame : let boot := boot (FS:=gap_file) in
  seen boot = Some (1, 0x100040, 0) /\ next_frame boot = Some 11 /\
  seen (next (call (FS:=gap_file) BRK 0x102000) boot) = Some (1, 0x100040, SUCCESS) /\
  next_frame (next (call (FS:=gap_file) BRK 0x102000) boot) = Some 0.
Proof. split_and!; vm_compute; reflexivity. Qed.

(** [KernelStart] hands [currKernelBrk] to [initFrameList] by value, and
    [initFrameList] allocates the array of frames before it looks at it.  When
    that allocation moves the kernel's break, here up by one page, region 0 is
    mapped up to the new break, but the frames are free from the old one on: the
    kernel's page 4 lies in frame 4, the first frame that [getFrame] gives. *)
Theorem stale_break :
  match start_frame_list 0x200000 booting with
  | Ret tables s1 =>
    match SetKernelBrk 0xa000 s1 with
    | Ret r s2 =>
      match start_vm (fst tables) (snd tables) s2 with
      | Ret _ s3 => r = SUCCESS /\ load_pte (pte_at (fst tables) 4) (k_pt s3) = Ret (mkPte 1 PROT_RW 4) (k_pt s3) /\ next_frame (Some (Ret tt s3)) = Some 4
      | _ => False
      end
    | _ => False
    end
  | _ => False
  end.
Proof. vm_compute. split_and!; reflexivity. Qed.

(** [KernelBrk] does not look where the stack is: when init moves its break
    up over its stack, the stack's page is mapped to a new frame, and the old
    frame is free no more nor a page of any process. *)
Theorem brk_loses_stack_frame :
  nobodys_frames boot = Some [0; 1; 2; 3; 4] /\
  nobodys_frames (next (call BRK 0x1f0000) boot) = Some [0; 1; 2; 3; 4] /\
  seen (next (call BRK 0x1ff000) boot) = Some (1, 0x100040, SUCCESS) /\
  nobodys_frames (next (call BRK 0x1ff000) boot) = Some [0; 1; 2; 3; 4; 11].
Proof. split_and!; vm_compute; reflexivity. Qed.
