(* ===== verification/Demo.v ===== *)
(** A concrete kernel, on the machine [dartmouth] with the queues of Queue.c
    and the maps of HashMap.c, that is in order: the hypotheses of the
    theorems hold in it, and the theorems are applied to it.

    Process 1 runs; it has an exited child, 9, and a living one, 2.  Process 0
    is ready and never ran.  Processes 2 and 4 are blocked: 2 waits for the
    lock 0, which process 1 owns, and 4 waits on the condition variable 1.
    Process 3 sleeps for one more tick.  Process 5 waits for a line from
    terminal 0, process 6 for the end of its transmission to terminal 1.  Process 1 owns the lock 3 too, the
    lock 4 is free and process 4 owns the lock 5; nobody waits for these.  The
    pipe 2 holds three bytes and has no reader. *)

From stdpp Require Import base gmap list.
From S2P Require Import Prelude Hardware Linked Queue HashMap FrameList PageTable State UserMem Scheduler.
From S2P Require Import SyncObjects LoadProgram SwitchLaws SchedView SchedLaws SyncLaws Steps ForkLaws.

(** The state a computation ends in. *)
Definition run {S A} (m : M S A) (s : S) : S := match m s with Ret _ s' => s' | _ => s end.

(** A computation that gives a result, given that its evaluation says so. *)
Lemma succeeds {A} (o : option A) : (if o then true else false) = true -> exists x, o = Some x.
Proof. destruct o as [x|]; [by exists x|done]. Qed.

(** ** The heap of queues *)

Definition qheap0 : QueueImpl.qheap := QueueImpl.mkQheap (mkArena [] 16) ∅ ∅.

Section q_script.
Context {QH : Type} `{HW : Hardware} `{QO : QueueOps QH} `{QL : !QueueLaws QH}.

Lemma make_rep h m p h' : q_rep h m -> q_plenty h -> make_q h = Ret p h' ->
  (p =? NULL) = false -> q_rep h' (<[p := []]> m) /\ q_plenty h'.
Proof.
  intros Hr Hp Hm Hn. destruct (make_q_spec _ _ Hr) as (p' & h1 & Hm' & Hpl & Hc). rewrite Hm in Hm'.
  injection Hm' as <- <-. split; [|by apply Hpl]. destruct Hc as [(-> & _)|(_ & _ & ?)]; done.
Qed.

Lemma enq_rep h m q xs x r h' : q_rep h m -> q_plenty h -> m !! q = Some xs ->
  enq_q q x h = Ret r h' -> q_rep h' (<[q := xs ++ [x]]> m) /\ q_plenty h'.
Proof.
  intros Hr Hp Hq He. destruct (enq_q_spec _ _ _ _ x Hr Hq) as (r' & h1 & He' & Hpl & Hc). rewrite He in He'.
  injection He' as <- <-. split; [|by apply Hpl]. destruct Hc as [(_ & Hn & _)|(_ & ?)]; done.
Qed.
End q_script.

(** The queues are made in this order: ready, of lock 0, of condition variable
    1, of pipe 2, of lock 3, the zombies of process 1, of lock 4, of lock 5, of
    the writers and readers of terminal 0, and of those of terminal 1. *)
Definition qheap1 := Eval vm_compute in run make_q qheap0.
Definition qheap2 := Eval vm_compute in run make_q qheap1.
Definition qheap3 := Eval vm_compute in run make_q qheap2.
Definition qheap4 := Eval vm_compute in run make_q qheap3.
Definition qheap5 := Eval vm_compute in run make_q qheap4.
Definition qheap6 := Eval vm_compute in run make_q qheap5.
Definition qheap7 := Eval vm_compute in run make_q qheap6.
Definition qheap8 := Eval vm_compute in run make_q qheap7.
Definition qheap9 := Eval vm_compute in run make_q qheap8.
Definition qheap10 := Eval vm_compute in run make_q qheap9.
Definition qheap11 := Eval vm_compute in run make_q qheap10.
Definition qheap12 := Eval vm_compute in run make_q qheap11.
Definition qheap13 := Eval vm_compute in run (enq_q 16 200) qheap12.
Definition qheap14 := Eval vm_compute in run (enq_q 24 300) qheap13.
Definition qheap15 := Eval vm_compute in run (enq_q 32 500) qheap14.
Definition qheap16 := Eval vm_compute in run (enq_q 56 800) qheap15.
Definition demo_qh := Eval vm_compute in run (enq_q 88 510) qheap16.

Definition demo_qs : gmap ptr (list ptr) :=
  <[16 := [200]]> (<[24 := [300]]> (<[32 := [500]]> (<[40 := []]> (<[48 := []]>
    (<[56 := [800]]> (<[64 := []]> (<[72 := []]> (<[80 := []]> (<[88 := [510]]> (<[96 := []]>
    (<[104 := []]> ∅))))))))))).

Lemma qheap0_rep : q_rep qheap0 ∅ /\ q_plenty qheap0.
Proof.
  split; [|apply Forall_nil_2]. exists ∅. split; [|by rewrite fmap_empty].
  split; try done; cbn; intros *; rewrite ?lookup_empty; try done; by intros [].
Qed.

Lemma demo_q_rep : q_rep demo_qh demo_qs /\ q_plenty demo_qh.
Proof.
  destruct qheap0_rep as [Hr Hp].
  destruct (make_rep _ _ 16 qheap1 Hr Hp) as [Hr1 Hp1]; [done..|].
  destruct (make_rep _ _ 24 qheap2 Hr1 Hp1) as [Hr2 Hp2]; [done..|].
  destruct (make_rep _ _ 32 qheap3 Hr2 Hp2) as [Hr3 Hp3]; [done..|].
  destruct (make_rep _ _ 40 qheap4 Hr3 Hp3) as [Hr4 Hp4]; [done..|].
  destruct (make_rep _ _ 48 qheap5 Hr4 Hp4) as [Hr5 Hp5]; [done..|].
  destruct (make_rep _ _ 56 qheap6 Hr5 Hp5) as [Hr6 Hp6]; [done..|].
  destruct (make_rep _ _ 64 qheap7 Hr6 Hp6) as [Hr7 Hp7]; [done..|].
  destruct (make_rep _ _ 72 qheap8 Hr7 Hp7) as [Hr8 Hp8]; [done..|].
  destruct (make_rep _ _ 80 qheap9 Hr8 Hp8) as [Hr9 Hp9]; [done..|].
  destruct (make_rep _ _ 88 qheap10 Hr9 Hp9) as [Hr10 Hp10]; [done..|].
  destruct (make_rep _ _ 96 qheap11 Hr10 Hp10) as [Hr11 Hp11]; [done..|].
  destruct (make_rep _ _ 104 qheap12 Hr11 Hp11) as [Hr12 Hp12]; [done..|].
  destruct (enq_rep _ _ 16 [] 200 0 qheap13 Hr12 Hp12) as [Hr13 Hp13]; [done..|].
  destruct (enq_rep _ _ 24 [] 300 0 qheap14 Hr13 Hp13) as [Hr14 Hp14]; [done..|].
  destruct (enq_rep _ _ 32 [] 500 0 qheap15 Hr14 Hp14) as [Hr15 Hp15]; [done..|].
  destruct (enq_rep _ _ 56 [] 800 0 qheap16 Hr15 Hp15) as [Hr16 Hp16]; [done..|].
  destruct (enq_rep _ _ 88 [] 510 0 demo_qh Hr16 Hp16) as [Hr17 Hp17]; [done..|].
  split; [|done]. exact Hr17.
Qed.

(** ** The heap of maps *)

Definition mheap0 : mheap := mkMheap (mkArena [] 16) ∅ ∅ ∅.

Section m_script.
Context {MH : Type} `{HW : Hardware} `{MO : MapOps MH} `{ML : !MapLaws MH}.

Lemma new_rep h ms n p h' : m_rep h ms -> m_plenty h -> 0 < n -> HashMap_new n h = Ret p h' ->
  (p =? NULL) = false -> m_rep h' (<[p := ∅]> ms) /\ m_plenty h'.
Proof.
  intros Hr Hp Hn Hm Hnz. destruct (HashMap_new_spec _ _ _ Hn Hr) as [[Hnp _]|(p' & h1 & Hm' & Hpl & Hc)]; [done|].
  rewrite Hm in Hm'. injection Hm' as <- <-. split; [|by apply Hpl].
  destruct Hc as [(-> & _)|(_ & _ & ?)]; done.
Qed.

Lemma insert_rep h ms hm m k x r h' : m_rep h ms -> m_plenty h -> ms !! hm = Some m -> 0 <= k ->
  m !! k = None -> x <> NULL -> HashMap_insert hm k x h = Ret r h' ->
  m_rep h' (<[hm := <[k := x]> m]> ms) /\ m_plenty h'.
Proof.
  intros Hr Hp Hm Hk Hn Hx He.
  destruct (HashMap_insert_new _ _ _ _ _ _ Hr Hm Hk Hn Hx) as (r' & h1 & He' & Hpl & Hc). rewrite He in He'.
  injection He' as <- <-. split; [|by apply Hpl]. destruct Hc as [(_ & Hnp & _)|(_ & ?)]; done.
Qed.
End m_script.

(** The maps are made in this order: blocked, sleeping, locks, condition
    variables, pipes, and the children of process 1. *)
Definition mheap1 := Eval vm_compute in run (HashMap_new 20) mheap0.
Definition mheap2 := Eval vm_compute in run (HashMap_new 20) mheap1.
Definition mheap3 := Eval vm_compute in run (HashMap_new 20) mheap2.
Definition mheap4 := Eval vm_compute in run (HashMap_new 20) mheap3.
Definition mheap5 := Eval vm_compute in run (HashMap_new 20) mheap4.
Definition mheap6 := Eval vm_compute in run (HashMap_new 10) mheap5.
Definition mheap7 := Eval vm_compute in run (HashMap_insert 16 2 300) mheap6.
Definition mheap8 := Eval vm_compute in run (HashMap_insert 16 4 500) mheap7.
Definition mheap9 := Eval vm_compute in run (HashMap_insert 184 3 400) mheap8.
Definition mheap10 := Eval vm_compute in run (HashMap_insert 352 0 600) mheap9.
Definition mheap11 := Eval vm_compute in run (HashMap_insert 352 3 610) mheap10.
Definition mheap12 := Eval vm_compute in run (HashMap_insert 352 4 620) mheap11.
Definition mheap13 := Eval vm_compute in run (HashMap_insert 352 5 630) mheap12.
Definition mheap14 := Eval vm_compute in run (HashMap_insert 520 1 32) mheap13.
Definition mheap15 := Eval vm_compute in run (HashMap_insert 688 2 700) mheap14.
Definition demo_mh := Eval vm_compute in run (HashMap_insert 856 2 300) mheap15.

Definition demo_ms : gmap ptr (gmap Z ptr) :=
  <[16 := <[2 := 300]> (<[4 := 500]> ∅)]> (<[184 := <[3 := 400]> ∅]>
  (<[352 := <[0 := 600]> (<[3 := 610]> (<[4 := 620]> (<[5 := 630]> ∅)))]>
  (<[520 := <[1 := 32]> ∅]> (<[688 := <[2 := 700]> ∅]> (<[856 := <[2 := 300]> ∅]> ∅))))).

Lemma mheap0_rep : m_rep mheap0 ∅ /\ m_plenty mheap0.
Proof.
  split; [|split; [apply Forall_nil_2|by intros hm M ss; cbn; rewrite lookup_empty]].
  exists ∅. split; split; try done; cbn; intros *; rewrite ?lookup_empty; try done; by intros [].
Qed.

Lemma demo_m_rep : m_rep demo_mh demo_ms /\ m_plenty demo_mh.
Proof.
  destruct mheap0_rep as [Hr Hp].
  destruct (new_rep _ _ 20 16 mheap1 Hr Hp) as [Hr1 Hp1]; [done..|].
  destruct (new_rep _ _ 20 184 mheap2 Hr1 Hp1) as [Hr2 Hp2]; [done..|].
  destruct (new_rep _ _ 20 352 mheap3 Hr2 Hp2) as [Hr3 Hp3]; [done..|].
  destruct (new_rep _ _ 20 520 mheap4 Hr3 Hp3) as [Hr4 Hp4]; [done..|].
  destruct (new_rep _ _ 20 688 mheap5 Hr4 Hp4) as [Hr5 Hp5]; [done..|].
  destruct (new_rep _ _ 10 856 mheap6 Hr5 Hp5) as [Hr6 Hp6]; [done..|].
  destruct (insert_rep _ _ 16 ∅ 2 300 0 mheap7 Hr6 Hp6) as [Hr7 Hp7]; [done..|].
  destruct (insert_rep _ _ 16 _ 4 500 0 mheap8 Hr7 Hp7 eq_refl) as [Hr8 Hp8]; [done..|].
  destruct (insert_rep _ _ 184 ∅ 3 400 0 mheap9 Hr8 Hp8) as [Hr9 Hp9]; [done..|].
  destruct (insert_rep _ _ 352 ∅ 0 600 0 mheap10 Hr9 Hp9) as [Hr10 Hp10]; [done..|].
  destruct (insert_rep _ _ 352 _ 3 610 0 mheap11 Hr10 Hp10 eq_refl) as [Hr11 Hp11]; [done..|].
  destruct (insert_rep _ _ 352 _ 4 620 0 mheap12 Hr11 Hp11 eq_refl) as [Hr12 Hp12]; [done..|].
  destruct (insert_rep _ _ 352 _ 5 630 0 mheap13 Hr12 Hp12 eq_refl) as [Hr13 Hp13]; [done..|].
  destruct (insert_rep _ _ 520 ∅ 1 32 0 mheap14 Hr13 Hp13) as [Hr14 Hp14]; [done..|].
  destruct (insert_rep _ _ 688 ∅ 2 700 0 mheap15 Hr14 Hp14) as [Hr15 Hp15]; [done..|].
  destruct (insert_rep _ _ 856 ∅ 2 300 0 demo_mh Hr15 Hp15) as [Hr16 Hp16]; [done..|].
  split; [|done]. exact Hr16.
Qed.

(** ** The state *)

(** The page tables: of region 0, of region 1 for the processes 1, 0, 2, 3,
    4, a spare one, and for the processes 5 and 6.  Page 124 of region 0 is the
    buffer of the terminals. *)
Definition demo_tables : list ptr := [10000; 11000; 12000; 13000; 14000; 15000; 16000; 17000; 18000].
Definition demo_ptes : gmap ptr pte :=
  <[pte_at 10000 126 := mkPte 1 PROT_RW 40]> (<[pte_at 10000 127 := mkPte 1 PROT_RW 41]>
  (<[pte_at 10000 124 := mkPte 1 PROT_RW 34]> (<[pte_at 11000 0 := mkPte 1 PROT_RW 20]> (<[pte_at 11000 1 := mkPte 1 PROT_RW 21]>
  (<[pte_at 11000 127 := mkPte 1 PROT_RW 22]> (<[pte_at 15000 0 := mkPte 1 PROT_RW 23]>
    (foldr (fun b m => init_entries PT_LEN b m) ∅ demo_tables))))))).
Definition demo_pt : pt := mkPt (mkArena [] 20000) demo_ptes 10000 128 11000 128 1 [].

Definition demo_frame (pc : Z) : UserContext := mkUctxt 0 0 pc 0x1ffff0 0x1ffff0 (repeat 0 8).
Definition demo_pcbs : gmap ptr PCB_t :=
  <[100 := mkPCB 1 (Some (VMEM_1_BASE + 2 * PAGESIZE)) (Some (demo_frame 1)) (Some KNew) (Some 856) 2 NULL (Some 56)
             (Some 11000) 0 [Some 40; Some 41]]>
  (<[200 := mkPCB 0 None (Some (demo_frame 0)) (Some KNull) (Some 856) 0 NULL (Some NULL)
             (Some 12000) 0 [Some 42; Some 43]]>
  (<[300 := mkPCB 2 (Some VMEM_1_BASE) (Some (demo_frame 2)) (Some (KSaved (mkKctxt (KAcquire 600) (demo_frame 2)))) (Some 856) 0
             100 (Some NULL) (Some 13000) 0 [Some 44; Some 45]]>
  (<[400 := mkPCB 3 (Some VMEM_1_BASE) (Some (demo_frame 3)) (Some (KSaved (mkKctxt KDelay (demo_frame 3)))) (Some 856) 0
             NULL (Some NULL) (Some 14000) 1 [Some 46; Some 47]]>
  (<[500 := mkPCB 4 (Some VMEM_1_BASE) (Some (demo_frame 4)) (Some (KSaved (mkKctxt (KCvarWait 0) (demo_frame 4)))) (Some 856) 0
             NULL (Some NULL) (Some 15000) 0 [Some 48; Some 49]]>
  (<[510 := mkPCB 5 (Some VMEM_1_BASE) (Some (demo_frame 5)) (Some (KSaved (mkKctxt (KTtyRead 0 VMEM_1_BASE 8) (demo_frame 5)))) (Some 856) 0
             NULL (Some NULL) (Some 17000) 0 [Some 30; Some 31]]>
  (<[520 := mkPCB 6 (Some VMEM_1_BASE) (Some (demo_frame 6)) (Some (KSaved (mkKctxt (KTtyWait 1 [72; 105] 2) (demo_frame 6)))) (Some 856) 0
             NULL (Some NULL) (Some 18000) 0 [Some 32; Some 33]]> ∅)))))).

Definition demo_objects : objects :=
  mkObjects (mkArena [] 1000) demo_pcbs (<[800 := mkZombie 9 7]> ∅)
    (<[600 := mkLock 100 24]> (<[610 := mkLock 100 48]> (<[620 := mkLock NULL 64]> (<[630 := mkLock 500 72]> ∅))))
    (<[700 := mkPipe ([Some 10; Some 20; Some 30] ++ replicate 509 None) 3 40]> ∅).
Definition demo_sched : sched_t :=
  mkSched 10 6 1 100 16 16 184 [NULL; 520; NULL; NULL] [80; 96; NULL; NULL] [88; 104; NULL; NULL] 352 520 688.
Definition demo_globals : globals :=
  mkGlobals 0x4000 0x8000 0x8000 64 (pte_at 10000 126) (pte_at 10000 125) (125 * PAGESIZE)
    (Some (mkKctxt KStart (demo_frame 0))) (Some [∅; ∅]).
(** Frames 50 to 63 are free. *)
Definition demo_fl : fl :=
  mkFl (mkArena [] 16) (Some ((fun i => mkFrame i (if i <? 50 then 0 else 1)) <$> seqZ 0 64)).
Definition demo : kst QueueImpl.qheap mheap :=
  mkKst demo_qh demo_mh demo_fl demo_pt demo_objects demo_sched demo_globals
    (<[20 := <[0 := 65]> (<[1 := 66]> (<[2 := 67]> (<[3 := 0]> ∅)))]> ∅) (demo_frame 1) 
    (mkTty ((fun i => Some (mkTtyBuf (124 * PAGESIZE + i * 2048) 0 0)) <$> [0; 1; 2; 3]) [(1, [72; 105])]).

Definition demo_view : sview := mkView 100 [200] (<[2 := 300]> (<[4 := 500]> ∅)) (<[3 := 400]> ∅).

(** ** It is in order *)

Lemma demo_table b : b ∈ demo_tables -> table demo_pt b.
Proof.
  intros Hb.
  assert (Forall (fun b => 0 < b /\ b + MAX_PT_LEN * PTE_SIZE < 2 ^ 32 /\
    Forall (fun i => is_Some (demo_ptes !! pte_at b i)) (seqZ 0 MAX_PT_LEN)) demo_tables) as Hall
    by (apply (bool_decide_unpack _); vm_compute; exact I).
  rewrite Forall_forall in Hall. destruct (Hall b Hb) as (H1 & H2 & H3). split; [done|]. split; [done|].
  intros i Hi. rewrite Forall_forall in H3. apply H3, elem_of_seqZ. lia.
Qed.

(** The PCBs, one by one. *)
Ltac each_pcb H :=
  cbn [k_obj pcbs demo demo_objects] in H; unfold demo_pcbs in H;
  repeat (apply lookup_insert_Some in H as [[<- <-]|[_ H]]; [|]);
  [..|by rewrite lookup_empty in H].

Lemma demo_mem_ok : mem_ok demo.
Proof. split; [apply Forall_nil_2|done|]. intros p [x H]. each_pcb H; cbn; lia. Qed.

Lemma demo_has_stack x f g : stackPfns x = [Some f; Some g] -> 0 <= f < 2 ^ 24 -> 0 <= g < 2 ^ 24 -> f <> g ->
  has_stack x [f; g].
Proof.
  intros Hx Hf Hg Hne. split; [done|]. split; [done|]. split; [by apply Forall_cons_2, Forall_singleton|].
  apply NoDup_cons. split; [|apply NoDup_singleton]. by rewrite list_elem_of_singleton.
Qed.

Lemma demo_stack x f g : stackPfns x = [Some f; Some g] -> 0 <= f < 2 ^ 24 -> 0 <= g < 2 ^ 24 -> f <> g ->
  exists fs, has_stack x fs.
Proof. intros. exists [f; g]. by apply demo_has_stack. Qed.

Lemma demo_sys_ok : sys_ok demo 10000.
Proof.
  split.
  - split; [|reflexivity..]. split; [reflexivity..|]. apply demo_table. set_solver.
  - apply demo_mem_ok.
  - by eexists _, _.
  - intros p x H. each_pcb H; (split; [by eapply demo_stack| |by eexists|by eexists]; eexists; split; [done|];
      split; [apply demo_table; set_solver|by left]).
  - intros p x H Hne. each_pcb H; try done; try (by left); right; by eexists.
Qed.

Lemma demo_running_ok : running_ok demo 10000.
Proof.
  eexists _, [40; 41], 11000. split; [reflexivity|]. split; [by left|]. split.
  - by apply demo_has_stack.
  - split; [|done]. intros i Hi. change STACK_PAGES with 2 in Hi. assert (i = 0 \/ i = 1) as [->| ->] by lia; by eexists.
Qed.

Lemma demo_sched_rep : sched_rep demo demo_qs demo_ms demo_view.
Proof. split; [apply demo_q_rep|apply demo_m_rep|apply demo_q_rep|apply demo_m_rep|reflexivity..|discriminate]. Qed.

Lemma demo_procs_ok : procs_ok (pids demo_pcbs) demo_view.
Proof.
  split.
  - apply (bool_decide_unpack _). vm_compute. exact I.
  - assert (Forall (fun p => is_Some (pids demo_pcbs !! p)) (places demo_view)) as Hall
      by (apply (bool_decide_unpack _); vm_compute; exact I).
    rewrite Forall_forall in Hall. exact Hall.
  - intros k p H. cbn [v_blocked demo_view] in H. repeat (apply lookup_insert_Some in H as [[<- <-]|[_ H]]; [done|]).
    by rewrite lookup_empty in H.
  - intros k p H. cbn [v_sleeping demo_view] in H. repeat (apply lookup_insert_Some in H as [[<- <-]|[_ H]]; [done|]).
    by rewrite lookup_empty in H.
  - intros p q k Hp Hq. apply lookup_pids in Hp as (x & Hp & Hx), Hq as (y & Hq & Hy).
    each_pcb Hp; each_pcb Hq; cbn in *; congruence.
  - intros p k H. apply lookup_pids in H as (x & H & <-). each_pcb H; cbn; lia.
Qed.

Lemma demo_ok : kernel_ok demo 10000 demo_qs demo_ms demo_view.
Proof. split; [apply demo_sys_ok|apply demo_running_ok|apply demo_sched_rep|apply demo_procs_ok]. Qed.

(** The abstract state it implements; process 0 is the idle process. *)
Definition demo_astate : astate :=
  mkAstate demo_view (pids demo_pcbs) (numRemainingDelayTicks <$> demo_pcbs).

Lemma demo_implements : implements 10000 200 demo demo_astate.
Proof.
  split; [exists demo_qs, demo_ms; apply demo_ok|]. split; [done|]. split; [done|].
  apply (bool_decide_unpack _). vm_compute. exact I.
Qed.

(** A run of the kernel: a tick wakes process 3, then two kicks. *)
Definition demo_run := [OTick; OKick KClock; OKick KClock].

(** Deciding [mapped]. *)
Fixpoint mapped_b (s : kst QueueImpl.qheap mheap) (a prot : Z) (locs : list (Z * Z)) : bool :=
  match locs with
  | [] => true
  | l :: r => user_addr a && bool_decide (trans (k_pt s) a prot = Some l.1) && (l.2 =? a mod PAGESIZE) &&
      mapped_b s (a + 1) prot r
  end.

Lemma mapped_check s a prot locs : mapped_b s a prot locs = true -> mapped s a prot locs.
Proof.
  revert a. induction locs as [|l r IH]; intros a Hb i l' Hi; [done|].
  cbn [mapped_b] in Hb. rewrite !andb_true_iff, bool_decide_eq_true, Z.eqb_eq in Hb.
  destruct Hb as [[[Hu Ht] Ho] Hr]. destruct i as [|i]; cbn in Hi.
  - injection Hi as <-. rewrite Z.add_0_r. split; [done|]. split; [|done]. by rewrite translate_trans, Ht.
  - replace (a + Z.of_nat (S i)) with (a + 1 + Z.of_nat i) by lia. by apply IH.
Qed.

(** Places in the first page of process 1, from offset [o] on. *)
Definition demo_locs (o n : Z) : list (Z * Z) := (fun i => (20, i)) <$> seqZ o n.

(** The free frames of Demo are 50 to 63. *)
Definition demo_frames : list frame_t := (fun i => mkFrame i (if i <? 50 then 0 else 1)) <$> seqZ 0 64.
Lemma demo_fl_rep : fl_rep demo_fl 64 (pfns demo_frames) (free_pfns demo_frames).
Proof.
  split. exists demo_frames. split_and!; try done. apply (bool_decide_unpack _). vm_cast_no_check I.
Qed.

Lemma demo_frames_fit f : f ∈ pfns demo_frames -> 0 <= f < 2 ^ PTE_PFN_BITS.
Proof.
  intros (i & fr & Hi & <-)%elem_of_pfns. unfold demo_frames in Hi.
  apply list_lookup_fmap_Some in Hi as (k & -> & Hk%list_elem_of_lookup_2%elem_of_seqZ). cbn.
  change (2 ^ PTE_PFN_BITS) with 16777216. lia.
Qed.

Lemma demo_vm_on : vm_on demo_pt 10000 11000.
Proof. split; try done; [apply demo_table; set_solver..|]. by left. Qed.

(** The running process. *)
Definition demo_pcb1 : PCB_t := Eval vm_compute in match demo_pcbs !! 100 with Some x => x | None => fresh_PCB end.

(** A file system without files. *)
#[export] Instance no_files : FileSystem := {|
  file := unit; open_file _ := None; LoadInfo _ := None; read_file _ _ _ := [] |}.
