(* ===== verification/ClaimsData.v ===== *)
(** The data structures keep their promises: Queue.c, HashMap.c and set.c,
    FrameList.c, PageTable.c, and the bytes of user memory, each property with
    a witness.

    The reference machines [ref_queue] and [ref_map] say what a sequence of
    calls returns. *)

From stdpp Require Import base gmap sets list.
From S2P Require Import Prelude Hardware Linked Queue HashMap FrameList PageTable State UserMem.
From S2P Require Import Scheduler SwitchLaws SchedView SchedLaws SyncLaws Steps Demo.

(** * Reference machines *)

Inductive qop := Enq (q item : ptr) | Deq (q : ptr) | Peek (q : ptr).
Definition queue_of (o : qop) : ptr := match o with Enq q _ | Deq q | Peek q => q end.

Definition run_qop `{Hardware} (o : qop) : M QueueImpl.qheap Z :=
  match o with
  | Enq q x => QueueImpl.enq_q q x
  | Deq q => QueueImpl.deq_q q
  | Peek q => QueueImpl.peek_q q
  end.
Definition ref_qop (o : qop) (m : gmap ptr (list ptr)) : Z * gmap ptr (list ptr) :=
  match o with
  | Enq q x => (0, <[q := default [] (m !! q) ++ [x]]> m)
  | Deq q => match m !! q with Some (x :: xs) => (x, <[q := xs]> m) | _ => (NULL, m) end
  | Peek q => (default NULL (m !! q ≫= head), m)
  end.

Inductive mop := Insert (hm : ptr) (key : Z) (item : ptr) | Find (hm : ptr) (key : Z) | Remove (hm : ptr) (key : Z).
Definition map_of (o : mop) : ptr := match o with Insert hm _ _ | Find hm _ | Remove hm _ => hm end.
Definition key_of (o : mop) : Z := match o with Insert _ k _ | Find _ k | Remove _ k => k end.

Definition run_mop `{Hardware} (o : mop) : M mheap Z :=
  match o with
  | Insert hm k x => HashMapImpl.HashMap_insert hm k x
  | Find hm k => HashMapImpl.HashMap_find hm k
  | Remove hm k => HashMapImpl.HashMap_remove hm k
  end.
Definition ref_mop `{Hardware} (o : mop) (ms : gmap ptr (gmap Z ptr)) : Z * gmap ptr (gmap Z ptr) :=
  let m := default ∅ (ms !! map_of o) in
  match o with
  | Insert hm k x => if decide (x = NULL \/ is_Some (m !! k)) then (ERROR, ms) else (0, <[hm := <[k := x]> m]> ms)
  | Find _ k => (default NULL (m !! k), ms)
  | Remove hm k => (default NULL (m !! k), <[hm := delete k m]> ms)
  end.

(** The results of a sequence of calls, and those of the reference machine. *)
Fixpoint run_all {S O} (run : O -> M S Z) (os : list O) : M S (list Z) :=
  match os with
  | [] => ret []
  | o :: os' => let! r := run o in let! rs := run_all run os' in ret (r :: rs)
  end.
Fixpoint ref_all {A O} (ref : O -> A -> Z * A) (os : list O) (a : A) : list Z * A :=
  match os with
  | [] => ([], a)
  | o :: os' => let (r, a') := ref o a in let (rs, a2) := ref_all ref os' a' in (r :: rs, a2)
  end.

(** A simulation of single calls is one of sequences. *)
Lemma run_all_ref {S A O} (run : O -> M S Z) (ref : O -> A -> Z * A) (ok : O -> Prop) (R : S -> A -> Prop) :
  (forall o s a, ok o -> R s a -> exists s', run o s = Ret (ref o a).1 s' /\ R s' (ref o a).2) ->
  forall os s a, Forall ok os -> R s a ->
    exists s', run_all run os s = Ret (ref_all ref os a).1 s' /\ R s' (ref_all ref os a).2.
Proof.
  intros Hsim. induction os as [|o os IH]; intros s a Hok HR; [by exists s|].
  apply Forall_cons in Hok as [Ho Hos]. destruct (Hsim o s a Ho HR) as (s1 & Hrun & HR1).
  destruct (IH s1 _ Hos HR1) as (s2 & Hrun2 & HR2). exists s2. cbn.
  step Hrun. step Hrun2. destruct (ref o a) as [r a1]. cbn in *. by destruct (ref_all ref os a1).
Qed.

(** Successive calls of [getFrame]. *)
Fixpoint getFrames `{Hardware} (n : nat) (numFrames : Z) : M fl (list (option Z)) :=
  match n with
  | O => ret []
  | S n' => let! o := getFrame numFrames in let! os := getFrames n' numFrames in ret (o :: os)
  end.

(** Any sequence of [getFrame] and [freeFrame]: what the calls of [getFrame]
    give. *)
Inductive frame_op := FGet | FFree (pfn : Z).
Fixpoint frame_ops `{Hardware} (numFrames : Z) (ops : list frame_op) : M fl (list (option Z)) :=
  match ops with
  | [] => ret []
  | FGet :: ops' => let! o := getFrame numFrames in let! os := frame_ops numFrames ops' in ret (o :: os)
  | FFree p :: ops' => freeFrame numFrames p ;;; frame_ops numFrames ops'
  end.
Fixpoint gets_of (ops : list frame_op) : nat :=
  match ops with [] => 0 | FGet :: ops' => S (gets_of ops') | FFree _ :: ops' => gets_of ops' end.

(** The page frame number of the frame [i], and whether it holds memory below
    the break [b] or the kernel stack. *)
Definition frame_number `{Hardware} (i : Z) : Z := (PMEM_BASE / PAGESIZE + i) mod 2 ^ 24.
Definition holds_kernel `{Hardware} (b i : Z) : Prop :=
  PMEM_BASE + i * PAGESIZE < b \/ KERNEL_STACK_BASE <= PMEM_BASE + i * PAGESIZE < KERNEL_STACK_LIMIT.

(** A function for [HashMap_iterate] that records the entries it is called
    with, and removes some of them. *)
Definition visit `{Hardware} (wakes : Z -> ptr -> bool) (hm : ptr) (k : Z) (x : ptr) : M (mheap * list (Z * ptr)) unit :=
  (if wakes k x then lift (HashMapImpl.HashMap_remove hm k) ;;; ret tt else ret tt) ;;;
  modify (fun sl => (sl.1, sl.2 ++ [(k, x)])).

(** The map once the entries [d] were visited. *)
Definition uncut (wakes : Z -> ptr -> bool) (d : list (Z * ptr)) (m : gmap Z ptr) : gmap Z ptr :=
  filter (fun kx => wakes kx.1 kx.2 = false \/ kx ∉ d) m.

Lemma uncut_nil wakes m : uncut wakes [] m = m.
Proof. apply map_filter_id. set_solver. Qed.
Lemma uncut_all wakes d m : d ≡ₚ map_to_list m -> uncut wakes d m = filter (fun kx => wakes kx.1 kx.2 = false) m.
Proof.
  intros Hd. apply map_filter_ext. intros k x Hk. cbn.
  assert ((k, x) ∈ d) by (rewrite Hd; by apply elem_of_map_to_list). tauto.
Qed.
Lemma uncut_snoc_wakes wakes d k x m : m !! k = Some x -> wakes k x = true ->
  uncut wakes (d ++ [(k, x)]) m = delete k (uncut wakes d m).
Proof.
  intros Hk Hw. apply map_eq. intros j. apply option_eq. intros y. unfold uncut.
  rewrite lookup_delete_Some, !map_lookup_filter_Some. cbn. rewrite elem_of_app, list_elem_of_singleton.
  destruct (decide (j = k)) as [->|Hj]; [|naive_solver].
  split; [|naive_solver]. intros [Hy H]. simplify_eq. destruct H; [congruence|]. exfalso. tauto.
Qed.
Lemma uncut_snoc_stays wakes d k x m : m !! k = Some x -> wakes k x = false ->
  uncut wakes (d ++ [(k, x)]) m = uncut wakes d m.
Proof.
  intros Hk Hw. apply map_filter_ext. intros j y Hj. cbn.
  rewrite elem_of_app, list_elem_of_singleton. destruct (decide (j = k)) as [->|Hne]; naive_solver.
Qed.

Lemma getFrames_ok `{HL : HardwareLaws} k f n all avail : fl_rep f n all avail -> (k <= size avail)%nat ->
  exists ps f', getFrames k n f = Ret (Some <$> ps) f' /\ length ps = k /\ NoDup ps /\
    list_to_set ps ⊆ avail /\ fl_rep f' n all (avail ∖ list_to_set ps) /\ fl_arena f' = fl_arena f.
Proof.
  revert f avail. induction k as [|k IH]; intros f avail Hr Hk.
  - exists [], f. cbn. rewrite difference_empty_L. split_and!; try done; apply NoDup_nil_2.
  - destruct (getFrame_ok f n all avail Hr) as (p & f1 & Hg & Hp & Hr1 & Ha); [intros ->; by rewrite size_empty in Hk; lia|].
    destruct (IH f1 (avail ∖ {[p]}) Hr1) as (ps & f2 & Hgs & Hlen & Hnd & Hsub & Hr2 & Ha2).
    { rewrite size_difference by set_solver. rewrite size_singleton. lia. }
    exists (p :: ps), f2. split_and!; [|by cbn; rewrite Hlen| |set_solver| |congruence].
    + cbn. step Hg. by step Hgs.
    + apply NoDup_cons. split; [set_solver|done].
    + cbn. by rewrite <- difference_difference_l_L.
Qed.

(** Frames that are freed stay within [U] when those that are given back do. *)
Lemma frame_ops_ok `{HL : HardwareLaws} (U : gset Z) n all ops : forall f avail, fl_rep f n all avail -> avail ⊆ U ->
  (forall p, FFree p ∈ ops -> p ∈ all -> p ∈ U) ->
  (exists ps f', frame_ops n ops f = Ret (Some <$> ps) f' /\ length ps = gets_of ops /\ forall p, p ∈ ps -> p ∈ U) \/
  frame_ops n ops f = Undef /\ (size avail < gets_of ops)%nat.
Proof.
  induction ops as [|[|q] ops IH]; intros f avail Hr Hsub Hops; cbn [frame_ops gets_of].
  - left. exists [], f. split; [done|]. split; [done|]. set_solver.
  - destruct (decide (avail = ∅)) as [->|Hne].
    { right. unfold bind at 1. rewrite (getFrame_full f n all Hr). split; [done|]. rewrite size_empty. lia. }
    destruct (getFrame_ok f n all avail Hr Hne) as (p & f1 & Hg & Hp & Hr1 & _). step Hg.
    destruct (IH f1 (avail ∖ {[p]}) Hr1) as [(ps & f2 & Hrun & Hlen & Hin)|[Hu Hsz]]; [set_solver|set_solver|left|right].
    + exists (p :: ps), f2. step Hrun. cbn [length]. rewrite Hlen. split; [done|]. split; [done|]. set_solver.
    + unfold bind. rewrite Hu. split; [done|]. rewrite size_difference, size_singleton in Hsz by set_solver. lia.
  - destruct (freeFrame_ok f n all avail q Hr) as (f1 & Hf & _ & Hr1). step Hf.
    destruct (IH f1 _ Hr1) as [?|[Hu Hsz]]; [|set_solver|by left|].
    + case_decide; [|done]. assert (q ∈ U) by (apply Hops; [set_solver|done]). set_solver.
    + right. split; [done|]. eapply Nat.le_lt_trans; [|exact Hsz]. apply subseteq_size. case_decide; set_solver.
Qed.

Section claims.
Context `{HL : HardwareLaws}.

(** C18. Refinement of Queue.c: any sequence of [enq_q], [deq_q] and [peek_q] on
    any queues of the heap returns exactly what first-in first-out lists
    return, with no failure as long as memory lasts, and leaves the heap a
    representation of the final lists. *)
Theorem queue_fifo (h : QueueImpl.qheap) m os : QueueImpl.rep h m -> QueueImpl.plentiful h ->
  Forall (fun o => is_Some (m !! queue_of o)) os ->
  exists h', run_all run_qop os h = Ret (ref_all ref_qop os m).1 h' /\
    QueueImpl.rep h' (ref_all ref_qop os m).2 /\ QueueImpl.plentiful h'.
Proof.
  intros Hr Hp Hos.
  destruct (run_all_ref run_qop ref_qop (fun o => is_Some (m !! queue_of o))
    (fun h m' => QueueImpl.rep h m' /\ QueueImpl.plentiful h /\ forall q, is_Some (m !! q) -> is_Some (m' !! q)))
    with os h m as (h' & Hrun & Hr' & Hp' & _); [|done..|by exists h'].
  intros o s a Ho (Hrep & Hpl & Hdom). apply Hdom in Ho as Hq.
  destruct o as [q x|q|q]; cbn in Hq; destruct Hq as [xs Hxs]; cbn; rewrite Hxs; cbn.
  - destruct (QueueImpl.enq_q_ok _ _ _ _ x Hrep Hxs) as (r & h' & Hrun & Hpl' & [(_ & Hn & _)|(-> & Hr')]); [done|].
    exists h'. split_and!; auto. intros q' Hq'. rewrite lookup_insert. case_decide; [done|auto].
  - destruct xs as [|x xs].
    + exists s. split; [by eapply QueueImpl.deq_q_nil_ok|done].
    + destruct (QueueImpl.deq_q_cons_ok _ _ _ _ _ Hrep Hxs) as (h' & Hrun & Hpl' & Hr').
      exists h'. split_and!; auto. intros q' Hq'. cbn. rewrite lookup_insert. case_decide; [done|auto].
  - exists s. split; [by apply (QueueImpl.peek_q_ok _ _ _ _ Hrep)|done].
Qed.

(** C19. Refinement of HashMap.c and set.c: any sequence of [HashMap_insert],
    [HashMap_find] and [HashMap_remove] with keys that are not negative returns
    exactly what finite maps return: an insertion of an existing key or of
    NULL is an ERROR and changes nothing. *)
Theorem hashmap_refines (h : mheap) ms os : HashMapShape.rep h ms -> HashMapShape.plentiful h ->
  Forall (fun o => is_Some (ms !! map_of o) /\ 0 <= key_of o) os ->
  exists h', run_all run_mop os h = Ret (ref_all ref_mop os ms).1 h' /\
    HashMapShape.rep h' (ref_all ref_mop os ms).2 /\ HashMapShape.plentiful h'.
Proof.
  intros Hr Hp Hos.
  destruct (run_all_ref run_mop ref_mop (fun o => is_Some (ms !! map_of o) /\ 0 <= key_of o)
    (fun h ms' => HashMapShape.rep h ms' /\ HashMapShape.plentiful h /\ forall q, is_Some (ms !! q) -> is_Some (ms' !! q)))
    with os h ms as (h' & Hrun & Hr' & Hp' & _); [|done..|by exists h'].
  intros o s a [Ho Hk] (Hrep & Hpl & Hdom). apply Hdom in Ho as Hq.
  destruct o as [hm k x|hm k|hm k]; cbn in Hq, Hk; destruct Hq as [m Hm]; unfold ref_mop; cbn [map_of]; rewrite Hm; cbn [default from_option].
  - case_decide as Hc.
    + exists s. split; [|done]. destruct Hc as [->|[y Hy]]; cbn; [|by eapply HashMapShape.HashMap_insert_old_ok].
      unfold HashMapImpl.HashMap_insert. by rewrite andb_false_r.
    + destruct (HashMapShape.HashMap_insert_new_ok s a hm m k x) as (r & h' & Hrun & Hpl' & [(_ & Hn & _)|(-> & Hr')]);
        [done|done|done|apply eq_None_not_Some; tauto|tauto|done|].
      exists h'. split_and!; auto. intros q' Hq'. cbn. rewrite lookup_insert. case_decide; [done|auto].
  - exists s. split; [by apply (HashMapShape.HashMap_find_ok _ _ _ _ _ Hrep)|done].
  - destruct (HashMapShape.HashMap_remove_ok s a hm m k Hrep Hm Hk) as (h' & Hrun & Hpl' & Hr').
    exists h'. split_and!; auto. intros q' Hq'. cbn. rewrite lookup_insert. case_decide; [done|auto].
Qed.

(** C20. [HashMap_iterate] calls the given function exactly once for every
    entry of the map, also when the function removes the entry it is called
    with (which is how [tickDownSleepers] wakes sleepers). *)
Theorem iterate_removing (h : mheap) ms hm m (wakes : Z -> ptr -> bool) :
  HashMapShape.rep h ms -> ms !! hm = Some m -> map_Forall (fun k _ => 0 <= k) m ->
  exists order h', order ≡ₚ map_to_list m /\
    HashMapImpl.HashMap_iterate hm (visit wakes hm) (h, []) = Ret tt (h', order) /\
    HashMapShape.rep h' (<[hm := filter (fun kx => wakes kx.1 kx.2 = false) m]> ms).
Proof.
  intros Hrep Hm Hpos.
  destruct (HashMap_iterate_spec (MH := mheap) (S := mheap * list (Z * ptr)) (h, []) ms hm m (visit wakes hm))
    as (order & Hord & Hit); [exact Hrep|exact Hm|].
  assert (NoDup order.*1) as Hnd by (rewrite Hord; apply NoDup_fst_map_to_list).
  destruct (Hit (fun d sl => sl.2 = d /\ HashMapShape.rep sl.1 (<[hm := uncut wakes d m]> ms)))
    as ([h' l] & Hrun & Hl & Hr).
  - split; [done|]. cbn. rewrite uncut_nil. by rewrite insert_id.
  - intros d k x r [h1 l] Heq [Hl Hr1]. cbn in Hl, Hr1. subst l.
    assert (m !! k = Some x) as Hkx by (apply elem_of_map_to_list; rewrite <- Hord, Heq; set_solver).
    unfold visit. destruct (wakes k x) eqn:Hw.
    + destruct (HashMapShape.HashMap_remove_ok h1 _ hm (uncut wakes d m) k Hr1) as (h2 & Hrem & _ & Hr2);
        [apply lookup_insert_eq|by apply (Hpos k x)|].
      exists (h2, d ++ [(k, x)]). split; [|split; [split|]].
      * rewrite bind_assoc. erewrite bind_Ret by (apply (lift_Ret (A := mheap)); exact Hrem). done.
      * done.
      * cbn. rewrite insert_insert_eq in Hr2. by rewrite (uncut_snoc_wakes wakes d k x m Hkx Hw).
      * right. eexists. exact Hrem.
    + exists (h1, d ++ [(k, x)]). split; [done|]. split; [split|by left]; [done|]. cbn.
      by rewrite uncut_snoc_stays.
  - exists order, h'. split; [done|]. cbn in Hl, Hr. subst l. split; [exact Hrun|].
    by rewrite (uncut_all wakes order m) in Hr.
Qed.

(** Page frames are handed out once: successive calls of [getFrame] give
    different frames, all of them free before, and together they are exactly
    the free frames; the call after the last free frame reads past the end of
    [frameList] (the bounds check comes after the access), undefined behaviour
    instead of ERROR. *)
Theorem frames_distinct f n all avail : fl_rep f n all avail ->
  exists ps f', getFrames (size avail) n f = Ret (Some <$> ps) f' /\ NoDup ps /\
    list_to_set ps = avail /\ getFrame n f' = Undef.
Proof.
  intros Hr. destruct (getFrames_ok (size avail) f n all avail Hr) as (ps & f' & Hg & Hlen & Hnd & Hsub & Hr' & _); [done|].
  assert (list_to_set ps = avail) as Heq.
  { apply set_subseteq_size_eq; [done|]. rewrite size_list_to_set by done. lia. }
  exists ps, f'. split_and!; try done. eapply (getFrame_full _ _ all). by rewrite Heq, difference_diag_L in Hr'.
Qed.

(** C21. The kernel's own memory is not handed out.  After [initFrameList] the
    frames available are exactly those that neither hold memory below its
    argument, the kernel's break at the call, nor the kernel stack; and however
    [getFrame] and [freeFrame] are called from then on, as long as [freeFrame]
    is not called with the number of a frame of the kernel, every frame that
    [getFrame] gives is one of them.  The sequence ends early, in undefined
    behaviour, only when there are more calls of [getFrame] than frames
    available at the start.  [KernelBrk] breaks the condition when it
    lowers the break over a page that was never mapped (it frees frame 0), and
    a break that moves while [initFrameList] allocates is not seen by it. *)
Theorem kernel_frames_kept f n b : 0 < brk_addr (fl_arena f) -> plenty (fl_arena f) ->
  0 <= n <= 2 ^ 24 -> 0 <= PMEM_BASE -> PMEM_BASE mod PAGESIZE = 0 ->
  exists f' (avail : gset Z), initFrameList n b f = Ret 0 f' /\
    (forall p, p ∈ avail <-> exists i, 0 <= i < n /\ p = frame_number i /\ ~ holds_kernel b i) /\
    forall ops, (forall i, 0 <= i < n -> holds_kernel b i -> FFree (frame_number i) ∉ ops) ->
      (exists ps f2, frame_ops n ops f' = Ret (Some <$> ps) f2 /\ length ps = gets_of ops /\ forall p, p ∈ ps -> p ∈ avail) \/
      frame_ops n ops f' = Undef /\ (size avail < gets_of ops)%nat.
Proof.
  intros Hpos Hpl Hn Hb Hal. destruct (initFrameList_ok f n b Hpos Hpl Hn Hb Hal) as (f' & all & avail & Hi & _ & Hr & Hav & Hall).
  assert (forall p, p ∈ avail <-> exists i, 0 <= i < n /\ p = frame_number i /\ ~ holds_kernel b i) as Hav'.
  { intros p. rewrite Hav. unfold holds_kernel, frame_number. split; intros (i & Hi' & -> & Hk); exists i; (split; [done|split; [done|lia]]). }
  exists f', avail. split; [done|]. split; [done|]. intros ops Hops. apply (frame_ops_ok avail n all ops f' avail Hr); [done|].
  intros p Hp (i & Hi' & ->)%Hall. apply Hav'. exists i. split; [done|]. split; [done|]. intros Hk. by apply (Hops i).
Qed.

(** C22. [setPageTableEntry] on entry [i] of the current table of region 1
    writes exactly this entry, with every field cut to its width, keeps
    virtual memory in order, and flushes exactly the translation of the page
    that the entry maps; invalidating the entry then makes every access to the
    page fail, and flushes the same page. *)
Theorem set_then_invalidate t t0 t1 i prot pfn : vm_on t t0 t1 -> 0 <= i < MAX_PT_LEN ->
  let va := VMEM_1_BASE + i * PAGESIZE in
  exists t' t2, setPageTableEntry (pte_at t1 i) 1 prot pfn t = Ret tt t' /\ vm_on t' t0 t1 /\
    entry t' t1 i = Some (mkPte 1 (bits PTE_PROT_BITS prot) (bits PTE_PFN_BITS pfn)) /\
    (forall p, p <> pte_at t1 i -> ptes t' !! p = ptes t !! p) /\
    tlb_flushes t' = tlb_flushes t ++ [va] /\
    invalidatePageTableEntry (pte_at t1 i) t' = Ret tt t2 /\ vm_on t2 t0 t1 /\
    (forall a p, a / PAGESIZE = va / PAGESIZE -> trans t2 a p = None) /\
    tlb_flushes t2 = (tlb_flushes t ++ [va]) ++ [va].
Proof.
  intros Hvm Hi va. set (t' := set_entry t (pte_at t1 i) va 1 prot pfn).
  assert (vm_on t' t0 t1) as Hvm' by by apply vm_on_set_entry.
  assert (entry t' t1 i = Some (mkPte 1 (bits PTE_PROT_BITS prot) (bits PTE_PFN_BITS pfn))) as He
    by (cbn; unfold entry; cbn; by rewrite lookup_insert_eq).
  eexists t', _. split; [by apply (setPageTableEntry_r1 t t0 t1)|]. split; [done|]. split; [done|].
  split; [intros p Hp; cbn; by rewrite lookup_insert_ne|]. split; [done|].
  split; [by apply (invalidatePageTableEntry_r1 t' t0 t1)|]. split; [by apply vm_on_flush, vm_on_insert|].
  split; [|done]. intros a p Ha. unfold trans. rewrite shiftr_page, Ha. subst va.
  pose proof PAGESIZE_pos. pose proof MAX_PT_LEN_pos. rewrite VMEM_1_BASE_eq, <- Z.mul_add_distr_r, Z.div_mul by lia.
  destruct (Z.leb_spec 0 (MAX_PT_LEN + i)), (Z.ltb_spec (MAX_PT_LEN + i) MAX_PT_LEN),
    (Z.leb_spec MAX_PT_LEN (MAX_PT_LEN + i)), (Z.ltb_spec (MAX_PT_LEN + i) (2 * MAX_PT_LEN)); try lia.
  cbn [andb]. cbn [REG_PTBR1 invalidate_entry with_flush with_ptes]. fold t'. rewrite (vm_base1 _ _ _ Hvm').
  replace (MAX_PT_LEN + i - MAX_PT_LEN) with i by lia. cbn. by rewrite lookup_insert_eq.
Qed.

End claims.

(** ** Witnesses *)

Lemma queue_fifo_witness : exists h',
  run_all run_qop [Enq 40 7; Peek 16; Enq 16 8; Deq 16; Deq 16; Deq 16; Deq 40] demo_qh = Ret [0; 200; 0; 200; 8; NULL; 7] h'.
Proof.
  destruct (queue_fifo demo_qh demo_qs [Enq 40 7; Peek 16; Enq 16 8; Deq 16; Deq 16; Deq 16; Deq 40])
    as (h' & Hrun & _); [apply demo_q_rep|apply demo_q_rep| |exists h'; exact Hrun].
  repeat (apply Forall_cons; split; [by eexists|]). apply Forall_nil_2.
Defined.

Lemma hashmap_refines_witness : exists h',
  run_all run_mop [Insert 16 22 9; Find 16 2; Insert 16 2 9; Remove 16 22; Find 16 22] demo_mh =
    Ret [0; 300; ERROR; 9; NULL] h'.
Proof.
  destruct (hashmap_refines demo_mh demo_ms [Insert 16 22 9; Find 16 2; Insert 16 2 9; Remove 16 22; Find 16 22])
    as (h' & Hrun & _); [apply demo_m_rep|apply demo_m_rep| |exists h'; exact Hrun].
  repeat (apply Forall_cons; split; [split; [by eexists|cbn; lia]|]). apply Forall_nil_2.
Defined.

Lemma iterate_removing_witness : exists order h', order ≡ₚ map_to_list (<[2 := 300]> (<[4 := 500]> ∅) : gmap Z ptr) /\
  HashMapImpl.HashMap_iterate 16 (visit (fun k _ => k =? 2) 16) (demo_mh, []) = Ret tt (h', order).
Proof.
  destruct (iterate_removing demo_mh demo_ms 16 (<[2 := 300]> (<[4 := 500]> ∅)) (fun k _ => k =? 2))
    as (order & h' & Hord & Hrun & _); [apply demo_m_rep|reflexivity| |exists order, h'; split; [exact Hord|exact Hrun]].
  apply (bool_decide_unpack _). vm_cast_no_check I.
Defined.

Lemma frames_distinct_witness : exists ps f', getFrames 14 64 demo_fl = Ret (Some <$> ps) f' /\ NoDup ps /\
  getFrame 64 f' = Undef.
Proof.
  destruct (frames_distinct demo_fl 64 _ _ demo_fl_rep) as (ps & f' & Hg & Hnd & _ & Hu).
  exists ps, f'. split; [exact Hg|]. split; [exact Hnd|exact Hu].
Defined.

(** The frames 4 and 5 are taken, 4 is given back, and taken again. *)
Lemma kernel_frames_kept_witness : exists f' p q r f2,
  initFrameList 64 0x8000 (mkFl (mkArena [] 16) None) = Ret 0 f' /\
  frame_ops 64 [FGet; FGet; FFree 4; FGet] f' = Ret [Some p; Some q; Some r] f2 /\
  0x8000 <= p * PAGESIZE /\ 0x8000 <= q * PAGESIZE /\ 0x8000 <= r * PAGESIZE.
Proof.
  destruct (kernel_frames_kept (mkFl (mkArena [] 16) None) 64 0x8000) as (f' & avail & Hrun & Hav & Hops);
    [done|apply Forall_nil_2|lia|done|done|].
  assert (forall i, 0 <= i < 64 -> frame_number i = i) as Hnum by (intros i Hi; unfold frame_number; change (PMEM_BASE / PAGESIZE + i) with i; apply Z.mod_small; lia).
  assert (forall p, p ∈ avail -> 0x8000 <= p * PAGESIZE) as Hge.
  { intros p (i & Hi & -> & Hk)%Hav. rewrite Hnum by done. unfold holds_kernel in Hk. change (PMEM_BASE + i * PAGESIZE) with (i * PAGESIZE) in Hk. lia. }
  assert (forall i, 4 <= i < 7 -> i ∈ avail) as Hin.
  { intros i Hi. apply Hav. exists i. split; [lia|]. split; [symmetry; apply Hnum; lia|]. intros [Hk|Hk]; cbn in Hk; lia. }
  assert (3 <= size avail)%nat as Hsz.
  { assert ((list_to_set [4; 5; 6] : gset Z) ⊆ avail) as Hsub.
    { intros i Hi%elem_of_list_to_set. apply Hin. rewrite !elem_of_cons in Hi. set_solver by lia. }
    apply subseteq_size in Hsub. rewrite size_list_to_set in Hsub; [exact Hsub|]. apply (bool_decide_unpack _). exact I. }
  destruct (Hops [FGet; FGet; FFree 4; FGet]) as [(ps & f2 & Hg & Hlen & Hps)|[_ Hbad]]; [| |cbn in Hbad; lia].
  { intros i Hi Hk. rewrite Hnum by done. intros Hf. assert (i = 4) as -> by set_solver. destruct Hk as [Hk|Hk]; cbn in Hk; lia. }
  destruct ps as [|p [|q [|r [|]]]]; try discriminate Hlen. exists f', p, q, r, f2. split; [exact Hrun|]. split; [exact Hg|].
  split; [|split]; apply Hge, Hps; set_solver.
Defined.

Lemma set_then_invalidate_witness : exists t' t2, setPageTableEntry (pte_at 11000 5) 1 PROT_RW 50 demo_pt = Ret tt t' /\
  invalidatePageTableEntry (pte_at 11000 5) t' = Ret tt t2 /\ trans t2 (VMEM_1_BASE + 5 * PAGESIZE + 77) PROT_READ = None.
Proof.
  destruct (set_then_invalidate demo_pt 10000 11000 5 PROT_RW 50 demo_vm_on) as (t' & t2 & H1 & _ & _ & _ & _ & H2 & _ & H3 & _);
    [done|].
  exists t', t2. split; [exact H1|]. split; [exact H2|]. by apply H3.
Defined.

