(* ===== verification/ClaimsSched.v ===== *)
(** The scheduler keeps its promises: the properties of Scheduler.c, each
    with a witness on the concrete kernel of Demo. *)

From stdpp Require Import base gmap list.
From S2P Require Import Prelude Hardware Queue HashMap FrameList PageTable State Scheduler.
From S2P Require Import SwitchLaws SchedView SchedLaws SyncLaws Steps Demo.

Section claims.
Context {QH MH : Type} `{HL : HardwareLaws} `{QO : QueueOps QH} `{MO : MapOps MH}
  `{QL : !QueueLaws QH} `{ML : !MapLaws MH}.
Abbreviation kst := (kst QH MH).
Implicit Types s : kst.

(** C1. Refinement: in every state in order, each of [blockProcess],
    [sleepProcess], [kickProcess], [tickDownSleepers] and [unblockProcess]
    succeeds (it never fails, never halts, touches no freed object), does what
    the abstract machine does, and leaves a state in order.  ([allowed]: the
    idle process does not call the first two, as Scheduler.h demands, and the
    pid given to the last is not negative.) *)
Theorem scheduler_refines t0 idle o s a : implements t0 idle s a -> allowed idle o s = true ->
  exists l s' a', kstep o s = Some (l, s') /\ astep o a a' /\ implements t0 idle s' a'.
Proof.
  intros Hi Hal. destruct (kstep_ok _ _ _ _ _ Hi Hal) as (l & s' & a' & Hk & Ha & Hi' & _). by exists l, s', a'.
Qed.

(** C2. No process is lost, duplicated or renumbered by any run of the
    scheduler: the processes that run, are ready, blocked or asleep at the end
    are those of the beginning. *)
Theorem no_process_lost t0 idle os s a log s' : implements t0 idle s a ->
  run_ops idle os s = Some (log, s') ->
  exists a', implements t0 idle s' a' /\ places (a_view a') ≡ₚ places (a_view a) /\ a_pids a' = a_pids a.
Proof.
  intros Hi Hrun. refine (run_ops_ind t0 idle (fun _ a' =>
    places (a_view a') ≡ₚ places (a_view a) /\ a_pids a' = a_pids a) _ os s a log s' Hi _ Hrun); [|done].
  intros d o s1 a1 a2 [Hp Hps] Hi1 Ha. destruct (astep_places _ _ _ (implements_procs _ _ _ _ Hi1) Ha) as [Hp' Hps'].
  split; [by rewrite Hp'|congruence].
Qed.

(** C3. Round robin: the process that [i] others precede in the ready queue
    runs after exactly [i + 1] kicks of the clock. *)
Theorem round_robin t0 idle s a k i p : implements t0 idle s a -> v_ready (a_view a) !! i = Some p ->
  exists log s', run_ops idle (replicate (S i) (OKick k)) s = Some (log, s') /\ currPCB (k_sched s') = p.
Proof. intros Hi Hp. by eapply run_ops_kicks. Qed.

(** C4. [KernelDelay] sleeps exactly as long as asked for: a process that goes
    to sleep for [n > 0] ticks is asleep as long as fewer than [n] ticks have
    come, whatever else happens, and the [n]-th tick makes it ready. *)
Theorem delay_exact t0 idle s a n k os log s' : implements t0 idle s a -> 0 < n ->
  run_ops idle (OSleep n k :: os) s = Some (log, s') ->
  exists i a', implements t0 idle s' a' /\ a_pids a !! v_run (a_view a) = Some i /\
    (count_ticks os < n -> v_sleeping (a_view a') !! i = Some (v_run (a_view a)) /\
       a_ticks a' !! v_run (a_view a) = Some (n - count_ticks os)) /\
    (forall os1, os = os1 ++ [OTick] -> count_ticks os = n ->
       v_run (a_view a) ∈ v_ready (a_view a') /\ v_sleeping (a_view a') !! i = None).
Proof.
  intros Hi Hn (Hal & l & s1 & log' & Hk & Hrun & _)%run_ops_cons.
  destruct (kstep_ok _ _ _ _ _ Hi Hal) as (l' & s1' & a1 & Hk' & Ha & Hi1 & _). simplify_eq.
  inversion Ha as [|? ? v ps tk i v' _ Hps Hv| | | | |]; subst; [|lia]. cbn. set (p := v_run v) in *.
  assert (asleep i p n (mkAstate v' ps (<[p:=n]> tk))) as Hsl.
  { unfold v_sleep in Hv. destruct (v_ready v); [done|]. injection Hv as <-. split; cbn; apply lookup_insert_eq. }
  destruct (run_ops_ind t0 idle (fun d a =>
      (count_ticks d < n -> asleep i p (n - count_ticks d) a) /\
      (forall d1, d = d1 ++ [OTick] -> count_ticks d = n ->
         p ∈ v_ready (a_view a) /\ v_sleeping (a_view a) !! i = None))) with os s1 (mkAstate v' ps (<[p:=n]> tk)) log' s'
    as (a' & Hi' & [H1 H2]); [| |split|done|]; [|done| | |by exists i, a'].
  - intros d o s2 a2 a3 [Hlt Heq] Hi2 Ha2. rewrite count_ticks_snoc.
    pose proof (astep_asleep o a2 a3 i p (n - count_ticks d) (implements_procs _ _ _ _ Hi2) Ha2) as Hstep.
    split.
    + destruct o; cbn [is_tick]; rewrite ?Z.add_0_r; try (intros Hc; by apply Hstep, Hlt).
      intros Hc. rewrite decide_False in Hstep by lia. rewrite Z.sub_add_distr. apply Hstep, Hlt. lia.
    + intros d1 [-> ->]%app_inj_singleton. cbn [is_tick]. intros Hc. rewrite decide_True in Hstep by lia.
      apply Hstep, Hlt. lia.
  - intros _. by rewrite Z.sub_0_r.
  - by intros [].
Qed.

(** C5. A suspended process goes on where it was suspended: when the running
    process gives the processor away at the point [k] of the kernel, then the
    first context in which it is resumed, however long that takes, is the
    point [k] with the user context it had. *)
Theorem resumed_where_suspended t0 idle s a o k kc0 s1 os log s2 l1 kc l2 : implements t0 idle s a ->
  allowed idle o s = true -> resumes_at o = Some k -> kstep o s = Some (Some kc0, s1) ->
  run_ops idle os s1 = Some (log, s2) -> log = l1 ++ (currPCB (k_sched s), kc) :: l2 ->
  currPCB (k_sched s) ∉ l1.*1 -> kc = mkKctxt k (k_frame s).
Proof.
  intros Hi Hal Hk Hs Hrun Hlog Hni.
  destruct (kstep_ok _ _ _ _ _ Hi Hal) as (l & s1' & a1 & Hs' & _ & Hi1 & Hc). simplify_eq.
  pose proof (ctxt_step_caller _ _ _ _ _ _ _ _ _ Hc Hk Hi) as Hp. by eapply parked_run.
Qed.

End claims.

(** ** Witnesses *)

Lemma scheduler_refines_witness : exists l s' a',
  kstep OTick demo = Some (l, s') /\ astep OTick demo_astate a' /\ implements 10000 200 s' a'.
Proof. apply (scheduler_refines 10000 200 OTick demo demo_astate); [apply demo_implements|reflexivity]. Defined.

Lemma no_process_lost_witness : exists s' a', implements 10000 200 s' a' /\
  places (a_view a') ≡ₚ places demo_view /\ a_pids a' = pids demo_pcbs.
Proof.
  destruct (succeeds (run_ops 200 demo_run demo)) as [[log s'] Hrun]; [vm_cast_no_check (eq_refl true)|].
  exists s'. exact (no_process_lost 10000 200 demo_run demo demo_astate log s' demo_implements Hrun).
Defined.

Lemma round_robin_witness : exists log s',
  run_ops 200 [OKick KClock] demo = Some (log, s') /\ currPCB (k_sched s') = 200.
Proof. exact (round_robin 10000 200 demo demo_astate KClock 0 200 demo_implements eq_refl). Defined.


Lemma delay_exact_witness : exists s' a', implements 10000 200 s' a' /\
  100 ∈ v_ready (a_view a') /\ v_sleeping (a_view a') !! 1 = None.
Proof.
  destruct (succeeds (run_ops 200 [OSleep 1 KDelay; OTick] demo)) as [[log s'] Hrun];
    [vm_cast_no_check (eq_refl true)|].
  destruct (delay_exact 10000 200 demo demo_astate 1 KDelay [OTick] log s' demo_implements eq_refl Hrun)
    as (i & a' & Hi & Hpid & _ & H).
  exists s', a'. split; [exact Hi|]. injection Hpid as <-. exact (H [] eq_refl eq_refl).
Defined.

(** Process 1 blocks, process 0 runs, wakes it and is kicked. *)
Definition resume_run : list kop := [OUnblock 1; OKick KClock].

Lemma two_runs s o os p : (match kstep o s with
    | Some (Some _, s1) => match run_ops 200 os s1 with Some ((q, _) :: _, _) => q =? p | _ => false end
    | _ => false
    end) = true ->
  exists kc0 s1 kc l2 s2, kstep o s = Some (Some kc0, s1) /\ run_ops 200 os s1 = Some ((p, kc) :: l2, s2).
Proof.
  destruct (kstep o s) as [[[kc0|] s1]|]; [|done..].
  destruct (run_ops 200 os s1) as [[[|[q kc] l2] s2]|] eqn:Hr; [done| |done].
  intros ->%Z.eqb_eq. by exists kc0, s1, kc, l2, s2.
Qed.

Lemma resumed_where_suspended_witness : exists kc0 s1 kc l2 s2,
  kstep (OBlock (KWait 7)) demo = Some (Some kc0, s1) /\
  run_ops 200 resume_run s1 = Some ((100, kc) :: l2, s2) /\ kc = mkKctxt (KWait 7) (k_frame demo).
Proof.
  destruct (two_runs demo (OBlock (KWait 7)) resume_run 100) as (kc0 & s1 & kc & l2 & s2 & H1 & H2);
    [vm_cast_no_check (eq_refl true)|].
  exists kc0, s1, kc, l2, s2. split; [exact H1|]. split; [exact H2|].
  apply (resumed_where_suspended 10000 200 demo demo_astate (OBlock (KWait 7)) (KWait 7) kc0 s1 resume_run _ s2 [] kc l2
    demo_implements eq_refl eq_refl H1 H2 eq_refl).
  apply not_elem_of_nil.
Defined.
