(* ===== verification/ClaimsSync.v ===== *)
(** The synchronisation objects keep their promises: the system calls on
    locks, condition variables and pipes, each property with a witness on the
    concrete kernel of Demo. *)

From stdpp Require Import base gmap list.
From S2P Require Import Prelude Hardware Queue HashMap FrameList State UserMem Scheduler SyncObjects LoadProgram PageTable.
From S2P Require Import SwitchLaws SchedView SchedLaws SyncLaws Steps PipeLaws Demo.

Section claims.
Context {QH MH : Type} `{HL : HardwareLaws} `{QO : QueueOps QH} `{MO : MapOps MH}
  `{QL : !QueueLaws QH} `{ML : !MapLaws MH}.
Abbreviation kst := (kst QH MH).
Implicit Types s : kst.

Lemma lock_is_ready s qs ms id lockp owner q ws v' : lock_is s qs ms id lockp owner q ws ->
  lock_is s (moved_q s qs v') ms id lockp owner q ws.
Proof.
  intros []. split; try done. unfold moved_q. by rewrite lookup_insert_ne.
Qed.

(** C23. Acquiring: a free lock becomes the caller's at once; for a lock that
    is owned the caller goes to the end of the lock's queue and blocks, the
    first ready process runs, and the caller is suspended at the point where
    it tries again. *)
Theorem acquire_spec s t0 qs ms v x id lockp owner q ws v' : kernel_ok s t0 qs ms v ->
  lock_is s qs ms id lockp owner q ws -> pcbs (k_obj s) !! v_run v = Some x ->
  v_block (pid x) v = Some v' ->
  if owner =? NULL then
    KernelAcquire id s = Ret SUCCESS (upd_lock lockp (mkLock (v_run v) q) s) /\
    kernel_ok (upd_lock lockp (mkLock (v_run v) q) s) t0 qs ms v
  else exists kc s', KernelAcquire id s = Switch kc s' /\
    kernel_ok s' t0 (moved_q s (<[q := ws ++ [v_run v]]> qs) v') (moved_m s ms v') v' /\
    locks (k_obj s') = locks (k_obj s) /\
    parked (v_run v) (mkKctxt (KAcquire lockp) (k_frame s)) s'.
Proof.
  intros Hok Hl Hx Hv. destruct (getLock_ok _ _ _ _ _ _ _ _ _ _ Hok Hl) as (Hg & Hnz & _).
  assert (KernelAcquire id s = acquire_loop lockp s) as ->.
  { unfold KernelAcquire. step Hg. by destruct (Z.eqb_spec lockp NULL). }
  destruct (Z.eqb_spec owner NULL) as [->|Ho].
  - rewrite <- (sr_run _ _ _ _ (ko_sched _ _ _ _ _ Hok)).
    split; [apply acquire_loop_free, Hl|]. by apply (kernel_ok_ext s).
  - destruct (acquire_loop_busy _ _ _ _ _ _ _ _ _ _ _ Hok (li_lock _ _ _ _ _ _ _ _ Hl) Ho
      (li_queue _ _ _ _ _ _ _ _ Hl) (li_other _ _ _ _ _ _ _ _ Hl) Hx Hv) as (kc & s' & h & m & Hrun & Hok' & Hgave).
    exists kc, s'. split; [done|]. split; [done|]. split.
    + destruct Hgave as (? & ? & _ & _ & _ & Hsw). apply (sw_locks _ _ _ _ _ _ _ _ _ Hsw).
    + apply (gave_caller t0 (with_qh h (with_mh m s)) _ _ (v_run v') kc _ x); [| |done|done].
      * unfold v_block in Hv. destruct (v_ready v) as [|n r] eqn:Hr; [done|]. injection Hv as <-. by eapply head_ne.
      * pose proof (mem_pcbs _ (so_mem _ _ (ko_sys _ _ _ _ _ Hok)) _ (mk_is_Some _ _ Hx)). intros Heq. lia.
Qed.

(** C24. Releasing: only the owner can release a lock, for anybody else the
    call is an ERROR without effect; after the owner's release the lock is
    free, its first waiter (and no other) has left its queue and is ready, and
    when that waiter runs while the lock is still free, it becomes its
    owner. *)
Theorem release_spec s t0 qs ms v id lockp owner q ws : kernel_ok s t0 qs ms v ->
  lock_is s qs ms id lockp owner q ws -> Forall (fun w => is_Some (pcbs (k_obj s) !! w)) ws ->
  if decide (owner = v_run v) then
    exists s', let v' := released_view s ws v in KernelRelease id s = Ret SUCCESS s' /\
      kernel_ok s' t0 (moved_q s (<[q := tail ws]> qs) v') (moved_m s ms v') v' /\
      locks (k_obj s') !! lockp = Some (mkLock NULL q) /\
      (forall s2, locks (k_obj s2) !! lockp = Some (mkLock NULL q) ->
         acquire_loop lockp s2 = Ret SUCCESS (upd_lock lockp (mkLock (currPCB (k_sched s2)) q) s2))
  else KernelRelease id s = Ret ERROR s.
Proof.
  intros Hok Hl Hws. pose proof (ko_sched _ _ _ _ _ Hok) as Hs.
  case_decide as Ho; [subst owner|by eapply KernelRelease_denied].
  destruct ws as [|w ws].
  - destruct (KernelRelease_free _ _ _ _ _ _ _ _ Hok Hl) as [Hrun Hok']. eexists. cbv zeta. split; [exact Hrun|].
    unfold moved_q, moved_m. cbn [released_view tail]. rewrite (insert_id qs q) by apply Hl.
    rewrite (insert_id qs) by apply (sr_ready _ _ _ _ Hs). rewrite (insert_id ms) by apply (sr_blocked _ _ _ _ Hs).
    split; [done|]. split; [apply lookup_insert_eq|]. intros s2. apply acquire_loop_free.
  - apply Forall_cons in Hws as [[xw Hxw] _].
    destruct (KernelRelease_handoff _ _ _ _ _ _ _ _ _ _ _ Hok Hl Hxw) as (h & m & Hrun & Hok').
    eexists. cbv zeta. split; [exact Hrun|]. cbn [released_view tail]. rewrite Hxw.
    split; [done|]. split; [apply lookup_insert_eq|]. intros s2. apply acquire_loop_free.
Qed.


(** C26. Signalling wakes exactly the process that has waited longest, and
    nobody when nobody waits.  Broadcasting terminates, empties the queue and
    makes all waiting processes ready, in the order in which they began to
    wait. *)
Theorem cvar_broadcast_spec s t0 qs ms v id q ws ks fuel : kernel_ok s t0 qs ms v ->
  cvar_is s qs ms id q ws -> with_pids s ws ks -> (length ws < fuel)%nat ->
  (exists s', let v' := released_view s ws v in KernelCvarSignal id s = Ret SUCCESS s' /\
    kernel_ok s' t0 (moved_q s (<[q := tail ws]> qs) v') (moved_m s ms v') v') /\
  (exists s', KernelCvarBroadcast fuel id s = Ret SUCCESS s' /\
    kernel_ok s' t0 (moved_q s (<[q := []]> qs) (v_unblock_all ks v)) (moved_m s ms (v_unblock_all ks v))
      (v_unblock_all ks v) /\
    (NoDup ks -> Forall2 (fun k w => v_blocked v !! k = Some w) ks ws ->
       v_ready (v_unblock_all ks v) = v_ready v ++ ws)).
Proof.
  intros Hok Hc Hks Hf. split.
  - apply (KernelCvarSignal_ok s t0 qs ms v id q ws Hok Hc). eapply Forall2_Forall_l; [exact Hks|]. apply Forall_true.
    intros k w Hk. unfold pids in Hk. rewrite lookup_fmap in Hk. destruct (pcbs (k_obj s) !! w); [by eexists|done].
  - destruct (KernelCvarBroadcast_ok _ _ _ _ _ _ _ _ _ _ Hok Hc Hks Hf) as (h & m & Hrun & Hok').
    eexists. split; [exact Hrun|]. split; [exact Hok'|]. apply v_unblock_all_ready.
Qed.

(** C27. Writing to a pipe with room appends exactly the user's bytes to those
    it holds, returns their number, and makes the longest waiting reader ready. *)
Theorem pipe_write_spec s t0 qs ms v id pipep x bs q ws buf locs : kernel_ok s t0 qs ms v ->
  pipe_is s qs ms id pipep x bs q ws -> mapped s buf PROT_READ locs -> locs <> [] ->
  Z.of_nat (length bs) + Z.of_nat (length locs) <= PIPE_MAX_BYTES ->
  Forall (fun w => is_Some (pcbs (k_obj s) !! w)) ws ->
  exists s' x' v', KernelPipeWrite id buf (Z.of_nat (length locs)) s = Ret (Z.of_nat (length locs)) s' /\
    pipes (k_obj s') !! pipep = Some x' /\ pipe_holds x' (bs ++ (mem_get (k_mem s) <$> locs)) /\
    v' = released_view s ws v /\ kernel_ok s' t0 (moved_q s qs v') (moved_m s ms v') v'.
Proof.
  intros Hok Hp Hm Hne Hroom Hws.
  destruct (KernelPipeWrite_ok _ _ _ _ _ _ _ _ _ _ _ _ _ Hok Hp Hm Hne Hroom Hws) as (h & m & v' & Hrun & Hh & Hv & Hok').
  eexists _, _, v'. split; [exact Hrun|]. split; [apply lookup_insert_eq|]. split; [exact Hh|]. split; [|exact Hok'].
  destruct ws as [|w ws]; [done|]. cbn in Hv |- *. by destruct Hv as (xw & -> & ->).
Qed.

(** C28. Writing more than the pipe has room for is an ERROR without effect;
    but the test adds two [int]s, and for a length that makes the sum exceed
    [INT_MAX] its behaviour is undefined. *)
Theorem pipe_write_limit s t0 qs ms v id pipep x bs q ws buf len : kernel_ok s t0 qs ms v ->
  pipe_is s qs ms id pipep x bs q ws -> 0 < len < 2 ^ 31 -> PIPE_MAX_BYTES < Z.of_nat (length bs) + len ->
  KernelPipeWrite id buf len s = if Z.of_nat (length bs) + len <? 2 ^ 31 then Ret ERROR s else Undef.
Proof.
  intros Hok Hp Hlen Hfull. destruct (Z.ltb_spec (Z.of_nat (length bs) + len) (2 ^ 31)).
  - eapply KernelPipeWrite_full; [done|done|lia|lia].
  - by eapply KernelPipeWrite_overflow.
Qed.

(** C29. Reading blocks exactly when it must: behind another reader the caller
    waits for its turn, as the first reader it waits for [len] bytes, and with
    enough bytes there it takes the first [len] of them, in order, into the
    user's buffer, and leaves the others in the pipe. *)
Theorem pipe_read_spec s t0 qs ms v xr id pipep x bs q ws buf locs v' : kernel_ok s t0 qs ms v ->
  pipe_is s qs ms id pipep x bs q ws -> locs <> [] -> v_run v ∉ ws ->
  pcbs (k_obj s) !! v_run v = Some xr -> v_block (pid xr) v = Some v' -> mapped s buf PROT_WRITE locs ->
  let len := Z.of_nat (length locs) in
  if decide (ws = [] /\ len <= Z.of_nat (length bs)) then
    exists s' x', KernelPipeRead id buf len s = Ret len s' /\ kernel_ok s' t0 qs ms v /\
      k_mem s' = mem_write (k_mem s) locs (take (length locs) bs) /\
      pipes (k_obj s') !! pipep = Some x' /\ pipe_holds x' (drop (length locs) bs)
  else exists kc s', KernelPipeRead id buf len s = Switch kc s' /\
    kernel_ok s' t0 (moved_q s (<[q := ws ++ [v_run v]]> qs) v') (moved_m s ms v') v' /\
    parked (v_run v) (mkKctxt (if decide (ws = []) then KPipeReadBytes pipep q buf len
                               else KPipeReadTurn pipep q buf len) (k_frame s)) s'.
Proof.
  intros Hok Hp Hne Hni Hx Hv Hm len.
  assert (0 < len) as Hpos by (subst len; destruct locs; [done|cbn; lia]).
  assert (v_run v <> v_run v') as Hrne.
  { unfold v_block in Hv. destruct (v_ready v) as [|n r] eqn:Hr; [done|]. injection Hv as <-. by eapply head_ne. }
  assert (v_run v <> NULL) as Hnz.
  { pose proof (mem_pcbs _ (so_mem _ _ (ko_sys _ _ _ _ _ Hok)) _ (mk_is_Some _ _ Hx)). intros Heq. lia. }
  case_decide as Hc; [destruct Hc as [-> Hle]|destruct ws as [|w ws]].
  - destruct (KernelPipeRead_now _ _ _ _ _ _ _ _ _ _ buf locs Hok Hp Hne) as (h & m & Hrun & Hh & Hok'); [lia|done|].
    eexists _, _. split; [exact Hrun|]. split; [exact Hok'|]. split; [done|]. split; [apply lookup_insert_eq|exact Hh].
  - assert (Z.of_nat (length bs) < len) as Hlt by (destruct (decide (len <= Z.of_nat (length bs))); [tauto|lia]).
    destruct (KernelPipeRead_wait _ _ _ _ _ _ _ _ _ _ _ buf _ _ Hok Hp Hpos Hlt Hx Hv) as (kc & s' & h & m & Hrun & Hok' & Hg).
    exists kc, s'. split; [exact Hrun|]. split; [exact Hok'|]. rewrite decide_True by done.
    by apply (gave_caller t0 (with_qh h (with_mh m s)) _ _ (v_run v') kc _ xr).
  - assert (w <> v_run v) as Hw by set_solver.
    destruct (KernelPipeRead_turn _ _ _ _ _ _ _ _ _ _ _ w ws buf _ v' Hok Hp Hpos Hw Hx Hv)
      as (kc & s' & h & m & Hrun & Hok' & Hg).
    exists kc, s'. split; [exact Hrun|]. split; [exact Hok'|]. rewrite decide_False by done.
    by apply (gave_caller t0 (with_qh h (with_mh m s)) _ _ (v_run v') kc _ xr).
Qed.

(** C30. A pipe is a stream. Whatever happens after a pipe holds [bs] - writes
    and reads by any processes in any order, readers that wait behind others
    or for bytes and go on later, and everything else that the kernel does -
    the bytes that readers have found in their buffers, in the order of the
    reads, followed by those that the pipe holds, are [bs] followed by those
    that were written, in the order of the writes: none is lost, repeated or
    overtaken, and the pipe never holds more than it has room for. *)
Theorem pipe_stream id pipep s ws rs s' bs : pipe_run id pipep s ws rs s' -> pipe_at s pipep bs ->
  exists bs', pipe_at s' pipep bs' /\ bs ++ ws = rs ++ bs' /\ Z.of_nat (length bs') <= PIPE_MAX_BYTES.
Proof.
  intros Hrun Hat. destruct (pipe_run_stream _ _ _ _ _ _ Hrun bs Hat) as (bs' & Hat' & Heq). exists bs'.
  split; [done|]. split; [done|]. destruct Hat' as (x & _ & Hh). by eapply pipe_holds_length.
Qed.

(** Round trip: after a write, a read of everything the pipe holds gives
    the bytes it held before, followed by those written, unchanged and in
    order. *)
Theorem pipe_roundtrip s t0 qs ms v id pipep x bs q buf locs buf2 locs2 : kernel_ok s t0 qs ms v ->
  pipe_is s qs ms id pipep x bs q [] -> locs <> [] -> length locs2 = (length bs + length locs)%nat -> NoDup locs2 ->
  Z.of_nat (length locs2) <= PIPE_MAX_BYTES ->
  mapped s buf PROT_READ locs -> mapped s buf2 PROT_WRITE locs2 ->
  exists s1 s2, KernelPipeWrite id buf (Z.of_nat (length locs)) s = Ret (Z.of_nat (length locs)) s1 /\
    KernelPipeRead id buf2 (Z.of_nat (length locs2)) s1 = Ret (Z.of_nat (length locs2)) s2 /\
    mem_get (k_mem s2) <$> locs2 = bs ++ (mem_get (k_mem s) <$> locs).
Proof.
  intros Hok Hp Hne Hlen Hnd Hroom Hm Hm2.
  destruct (pipe_write_alone _ _ _ _ _ _ _ _ _ _ _ _ Hok Hp Hm Hne) as (s1 & Hrun & Hok1 & Hp1 & Hpt & Hmem); [lia|].
  assert (mapped s1 buf2 PROT_WRITE locs2) as Hm1 by by apply (mapped_pt s).
  assert (locs2 <> []) as Hne2 by (intros ->; destruct locs; [done|cbn in Hlen; lia]).
  assert ((length locs2 <= length (bs ++ (mem_get (k_mem s) <$> locs)))%nat) as Hle by (rewrite length_app, length_fmap; lia).
  destruct (KernelPipeRead_now _ _ _ _ _ _ _ _ _ _ buf2 locs2 Hok1 Hp1 Hne2 Hle Hm1) as (h2 & m2 & Hrun2 & _).
  eexists s1, _. split; [exact Hrun|]. split; [exact Hrun2|].
  destruct (pipe_was_read _ _ _ _ _ _ _ _ _ _ _ _ _ Hok1 Hp1 Hm1 Hne2 Hnd Hle Hrun2) as [_ ->].
  apply take_ge. rewrite length_app, length_fmap. lia.
Qed.

(** The system calls on an id that no object has are errors without
    effect. *)
Theorem no_such_object s t0 qs ms v lm cm pm id buf len : kernel_ok s t0 qs ms v -> 0 <= id -> 0 < len ->
  ms !! lockMap (k_sched s) = Some lm -> lm !! id = None ->
  ms !! cvarMap (k_sched s) = Some cm -> cm !! id = None ->
  ms !! pipeMap (k_sched s) = Some pm -> pm !! id = None ->
  KernelAcquire id s = Ret ERROR s /\ KernelRelease id s = Ret ERROR s /\
  KernelCvarSignal id s = Ret ERROR s /\ (forall fuel, KernelCvarBroadcast fuel id s = Ret ERROR s) /\
  (forall lock_id, KernelCvarWait id lock_id s = Ret ERROR s) /\
  KernelPipeRead id buf len s = Ret ERROR s /\ KernelPipeWrite id buf len s = Ret ERROR s.
Proof.
  intros Hok Hid Hlen Hlm Hl Hcm Hc Hpm Hp.
  assert (getLock id s = Ret NULL s) as HL0 by by eapply getLock_none.
  assert (getCvar id s = Ret NULL s) as HC0
    by (unfold getCvar; kmon; rewrite (find_ok _ _ _ _ _ _ _ id Hok Hcm Hid), Hc; done).
  assert (getPipe id s = Ret NULL s) as HP0
    by (unfold getPipe; kmon; rewrite (find_ok _ _ _ _ _ _ _ id Hok Hpm Hid), Hp; done).
  unfold KernelAcquire, KernelRelease, KernelCvarSignal, KernelCvarBroadcast, KernelCvarWait, KernelPipeRead,
    KernelPipeWrite.
  destruct (Z.ltb_spec len 0), (Z.eqb_spec len 0); try lia.
  split_and!; intros; (step HL0 || step HC0 || step HP0); done.
Qed.

End claims.

(** ** Witnesses *)

Lemma demo_lock id lockp owner q ws : (<[0 := 600]> (<[3 := 610]> (<[4 := 620]> (<[5 := 630]> ∅))) : gmap Z ptr) !! id = Some lockp ->
  locks demo_objects !! lockp = Some (mkLock owner q) -> demo_qs !! q = Some ws -> (q =? 16) = false -> 0 <= id ->
  lock_is demo demo_qs demo_ms id lockp owner q ws.
Proof.
  intros Hid Hl Hq Hne Hpos. split; [|exact Hpos|exact Hl|exact Hq|by apply Z.eqb_neq in Hne].
  eexists. split; [reflexivity|exact Hid].
Qed.
Lemma demo_cvar : cvar_is demo demo_qs demo_ms 1 32 [500].
Proof. split; [eexists; by split|done|done|done]. Qed.
Definition demo_pipe : pipe_t := mkPipe ([Some 10; Some 20; Some 30] ++ replicate 509 None) 3 40.
Lemma demo_pipe_is : pipe_is demo demo_qs demo_ms 2 700 demo_pipe [10; 20; 30] 40 [].
Proof. split; [eexists; by split|done|done|by split|done|done|done]. Qed.
Definition demo_blocked : sview := mkView 200 [] (<[1 := 100]> (v_blocked demo_view)) (v_sleeping demo_view).
Lemma acquire_spec_witness : exists kc s', KernelAcquire 5 demo = Switch kc s' /\
  parked 100 (mkKctxt (KAcquire 630) (k_frame demo)) s'.
Proof.
  destruct (acquire_spec demo 10000 demo_qs demo_ms demo_view demo_pcb1 5 630 500 72 [] demo_blocked demo_ok)
    as (kc & s' & H1 & _ & _ & H2); [apply demo_lock; reflexivity || lia|reflexivity|reflexivity|].
  exists kc, s'. split; [exact H1|exact H2].
Defined.

Lemma release_spec_witness : exists s', KernelRelease 0 demo = Ret SUCCESS s' /\
  locks (k_obj s') !! 600 = Some (mkLock NULL 24).
Proof.
  destruct (release_spec demo 10000 demo_qs demo_ms demo_view 0 600 100 24 [300] demo_ok)
    as (s' & H1 & _ & H2 & _); [apply demo_lock; reflexivity || lia|by apply Forall_singleton; eexists|].
  exists s'. split; [exact H1|exact H2].
Defined.


Lemma cvar_broadcast_spec_witness : exists s' s2, KernelCvarSignal 1 demo = Ret SUCCESS s' /\
  (exists qs ms, kernel_ok s' 10000 qs ms (v_unblock 4 demo_view)) /\
  KernelCvarBroadcast 2 1 demo = Ret SUCCESS s2 /\ v_ready (v_unblock_all [4] demo_view) = [200; 500].
Proof.
  destruct (cvar_broadcast_spec demo 10000 demo_qs demo_ms demo_view 1 32 [500] [4] 2 demo_ok demo_cvar)
    as [(s' & H1 & H2) (s2 & H3 & _ & H4)]; [by apply Forall2_cons; split; [reflexivity|constructor]|cbn; lia|].
  exists s', s2. split; [exact H1|]. split; [eexists _, _; exact H2|]. split; [exact H3|].
  apply H4; [apply NoDup_singleton|by apply Forall2_cons; split; [reflexivity|constructor]].
Defined.

Lemma pipe_write_spec_witness : exists s' x', KernelPipeWrite 2 (VMEM_1_BASE + 0) 3 demo = Ret 3 s' /\
  pipes (k_obj s') !! 700 = Some x' /\ pipe_holds x' [10; 20; 30; 65; 66; 67].
Proof.
  destruct (pipe_write_spec demo 10000 demo_qs demo_ms demo_view 2 700 demo_pipe [10; 20; 30] 40 []
    (VMEM_1_BASE + 0) (demo_locs 0 3) demo_ok demo_pipe_is) as (s' & x' & v' & H1 & H2 & H3 & _).
  - apply mapped_check. vm_cast_no_check (eq_refl true).
  - done.
  - vm_compute. congruence.
  - apply Forall_nil_2.
  - exists s', x'. split; [exact H1|]. split; [exact H2|exact H3].
Defined.

Lemma pipe_write_limit_witness : KernelPipeWrite 2 VMEM_1_BASE 600 demo = Ret ERROR demo /\
  KernelPipeWrite 2 VMEM_1_BASE (2 ^ 31 - 1) demo = Undef.
Proof.
  split.
  - apply (pipe_write_limit demo 10000 demo_qs demo_ms demo_view 2 700 demo_pipe [10; 20; 30] 40 []
      VMEM_1_BASE 600 demo_ok demo_pipe_is); vm_compute; intuition congruence.
  - apply (pipe_write_limit demo 10000 demo_qs demo_ms demo_view 2 700 demo_pipe [10; 20; 30] 40 []
      VMEM_1_BASE (2 ^ 31 - 1) demo_ok demo_pipe_is); vm_compute; intuition congruence.
Defined.

Lemma pipe_read_spec_witness : exists s', KernelPipeRead 2 (VMEM_1_BASE + 0) 2 demo = Ret 2 s' /\
  k_mem s' = mem_write (k_mem demo) (demo_locs 0 2) [10; 20].
Proof.
  destruct (pipe_read_spec demo 10000 demo_qs demo_ms demo_view demo_pcb1 2 700 demo_pipe [10; 20; 30] 40 []
    (VMEM_1_BASE + 0) (demo_locs 0 2) demo_blocked demo_ok demo_pipe_is) as (s' & x' & H1 & _ & H2 & _).
  - done.
  - apply not_elem_of_nil.
  - reflexivity.
  - reflexivity.
  - apply mapped_check. vm_cast_no_check (eq_refl true).
  - exists s'. split; [exact H1|exact H2].
Defined.

(** Three bytes are written, four are read: three of the pipe's own first. *)
Lemma pipe_stream_witness : exists s2 rs bs', pipe_run 2 700 demo [65; 66; 67] rs s2 /\ length rs = 4%nat /\
  pipe_at s2 700 bs' /\ [10; 20; 30; 65; 66; 67] = rs ++ bs'.
Proof.
  assert (mapped demo (VMEM_1_BASE + 0) PROT_READ (demo_locs 0 3)) as Hm by (apply mapped_check; vm_cast_no_check (eq_refl true)).
  assert (mapped demo (VMEM_1_BASE + 50) PROT_WRITE (demo_locs 50 4)) as Hm2 by (apply mapped_check; vm_cast_no_check (eq_refl true)).
  destruct (pipe_write_alone demo 10000 demo_qs demo_ms demo_view 2 700 demo_pipe [10; 20; 30] 40 (VMEM_1_BASE + 0) (demo_locs 0 3) demo_ok demo_pipe_is Hm)
    as (s1 & Hw & Hok1 & Hp1 & Hpt & Hmem); [discriminate|vm_compute; congruence|].
  assert (mapped s1 (VMEM_1_BASE + 50) PROT_WRITE (demo_locs 50 4)) as Hm1 by by apply (mapped_pt demo).
  assert (NoDup (demo_locs 50 4)) as Hnd by (apply (bool_decide_unpack _); vm_cast_no_check I).
  destruct (KernelPipeRead_now s1 10000 demo_qs demo_ms demo_view 2 700 _ _ 40 (VMEM_1_BASE + 50) (demo_locs 50 4) Hok1 Hp1) as (h & m & Hr & _);
    [discriminate|apply Nat.leb_le; vm_cast_no_check (eq_refl true)|exact Hm1|].
  eassert (pipe_run 2 700 demo ([65; 66; 67] ++ [] ++ []) ([] ++ _ ++ []) _) as Hrun.
  { eapply pr_cons; [|eapply pr_cons; [|apply pr_nil]].
    - exact (pe_write 2 700 demo 10000 demo_qs demo_ms demo_view demo_pipe [10; 20; 30] 40 [] (VMEM_1_BASE + 0) (demo_locs 0 3) s1 demo_ok demo_pipe_is
        (Forall_nil_2 _) Hm ltac:(discriminate) ltac:(vm_compute; congruence) Hw).
    - eapply (pe_read 2 700 s1 10000 demo_qs demo_ms demo_view _ _ 40 (VMEM_1_BASE + 50) (demo_locs 50 4)); [exact Hok1|exact Hp1|exact Hm1|discriminate|exact Hnd|apply Nat.leb_le; vm_cast_no_check (eq_refl true)|exact Hr]. }
  destruct (pipe_stream 2 700 demo _ _ _ [10; 20; 30] Hrun) as (bs' & H1 & H2 & _); [exists demo_pipe; split; [reflexivity|apply demo_pipe_is]|].
  eexists _, _, bs'. split; [exact Hrun|]. split; [reflexivity|]. split; [exact H1|exact H2].
Defined.

Lemma no_such_object_witness : KernelAcquire 77 demo = Ret ERROR demo /\ KernelPipeRead 77 VMEM_1_BASE 5 demo = Ret ERROR demo.
Proof.
  destruct (no_such_object demo 10000 demo_qs demo_ms demo_view _ _ _ 77 VMEM_1_BASE 5 demo_ok ltac:(lia) ltac:(lia)
    eq_refl eq_refl eq_refl eq_refl eq_refl eq_refl) as (H1 & _ & _ & _ & _ & H2 & _).
  split; [exact H1|exact H2].
Defined.
