(* ===== verification/ClaimsCalls.v ===== *)
(** Brk, the growing stack, Wait and the checks of user pointers: the
    properties, each with a witness on the concrete kernel of Demo; first the
    context switch they rest on. *)

From stdpp Require Import base gmap sets list.
From S2P Require Import Prelude Hardware Queue HashMap FrameList State UserMem Scheduler SyncObjects.
From S2P Require Import LoadProgram GeneralCalls Tty Machine PageTable SwitchLaws SchedView SchedLaws SyncLaws Steps ForkLaws CallLaws.
From S2P Require Import CopyLaws WaitLaws LoadLaws ExecLaws GrowLaws Demo.

Section claims.
Context {QH MH : Type} `{HL : HardwareLaws} `{QO : QueueOps QH} `{MO : MapOps MH}
  `{QL : !QueueLaws QH} `{ML : !MapLaws MH}.
Abbreviation kst := (kst QH MH).
Implicit Types s : kst.

(** [switchBetween] gives the processor to the next process: the context
    of the caller is saved in its PCB; the kernel stack of the next process is
    mapped page by page, its region 1 is current, and the context to go on
    with is its own; a process that never ran starts in the starter context,
    on a copy of the starter stack. *)
Lemma switch_spec s t0 cur xc k next x kc fs r1 : mmu_ok s t0 -> cur <> next -> cur <> NULL ->
  pcbs (k_obj s) !! cur = Some xc -> has_kctxt xc ->
  pcbs (k_obj s) !! next = Some x -> has_stack x fs -> next_kctxt s x kc ->
  r1PageTable x = Some r1 -> 0 <= r1 < 2 ^ 32 ->
  exists s', KernelContextSwitch (switchBetween cur next) k s = Switch kc s' /\
    currPCB (k_sched s') = next /\ REG_PTBR1 (k_pt s') = r1 /\ stack_mapped (k_pt s') t0 fs /\
    pcbs (k_obj s') = <[next := with_kctxt (KSaved kc) x]>
      (<[cur := with_kctxt (KSaved (mkKctxt k (k_frame s))) xc]> (pcbs (k_obj s))) /\
    (kctxt x = Some (KSaved kc) -> k_mem s' = k_mem s) /\
    (kctxt x = Some KNull -> forall st i f pg, starterKernelStack (k_glob s) = Some st ->
      fs !! i = Some f -> st !! i = Some pg -> k_mem s' !! f = Some pg).
Proof.
  intros Hmmu Hne Hnz Hxc Hk Hx Hfs Hkc Hr1 Hb.
  destruct (switchBetween_ok s t0 cur (mkKctxt k (k_frame s)) next x kc fs r1) as (s' & Hrun & Hsw); try done.
  { intros _. by exists xc. }
  exists s'. split; [unfold KernelContextSwitch; by rewrite Hrun|].
  pose proof Hsw as [Hsched Hpcbs _ _ _ _ _ _ _ _ _ (t' & r1' & _ & Hr1' & Hpt) Hmap _ Hold Hnew _].
  rewrite Hsched, Hpcbs. unfold saved. destruct (Z.eqb_spec cur NULL); [done|].
  rewrite (alter_alt_Some _ _ _ _ Hxc). split_and!; try done. rewrite Hpt. cbn. congruence.
Qed.

(** C36. [KernelBrk] and [SetKernelBrk] compute their page ranges by cases on
    the page numbers and the alignment of the two breaks; in all cases this is
    to map, or give back, the pages between the breaks rounded up. *)
Theorem brk_cases_equiv base baseVpn addr currBrk s : 0 <= addr < 2 ^ 32 -> 0 <= currBrk < 2 ^ 32 ->
  move_brk base baseVpn addr currBrk s = move_brk_spec base baseVpn addr currBrk s.
Proof. apply move_brk_ok. Qed.

(** C37. [KernelBrk] of the running process for an address in region 1.
    Raising the break with enough free frames: every page up to the new break is
    mapped, readable and writable, to a free frame of its own, and exactly these
    frames are no longer free; with too few, [getFrame] runs past the end of its
    array and the behaviour is undefined.  Lowering it: every entry passed is
    made invalid, and the frame number stored in each of them, whether the page
    was valid or not, is added to the free frames.  For mapped pages these are
    the frames of the pages; the entry of a page that was never mapped stores 0,
    and then frame 0, the kernel's, is free, a defect.  No other page changes,
    and page tables, PCBs and queues stay in order. *)
Theorem brk_spec s t0 t1 qs ms v x b all avail addr : has_break s t0 t1 qs ms v x b all avail ->
  VMEM_1_BASE <= addr < VMEM_1_LIMIT ->
  (page_up b <= page_up addr -> (Z.to_nat (page_up addr - page_up b) <= size avail)%nat ->
   exists s' fs, KernelBrk addr s = Ret SUCCESS s' /\ kernel_ok s' t0 qs ms v /\
     brk <$> pcbs (k_obj s') !! v_run v = Some (Some addr) /\
     length fs = Z.to_nat (page_up addr - page_up b) /\ NoDup fs /\ list_to_set fs ⊆ avail /\
     fl_rep (k_fl s') (numFrames (k_glob s')) all (avail ∖ list_to_set fs) /\
     (forall j f, fs !! j = Some f -> entry (k_pt s') t1 (page_up b - MAX_PT_LEN + Z.of_nat j) =
        Some (mkPte 1 PROT_RW (bits PTE_PFN_BITS f))) /\
     pt_upd (pages_of t1 (page_up b - MAX_PT_LEN) (length fs)) (k_pt s) (k_pt s')) /\
  ((size avail < Z.to_nat (page_up addr - page_up b))%nat -> KernelBrk addr s = Undef) /\
  (forall fs, page_up b = page_up addr + Z.of_nat (length fs) -> fs <> [] -> list_to_set fs ⊆ all ->
   (forall j f, fs !! j = Some f -> exists v pr,
      entry (k_pt s) t1 (page_up addr - MAX_PT_LEN + Z.of_nat j) = Some (mkPte v pr f)) ->
   exists s', KernelBrk addr s = Ret SUCCESS s' /\ kernel_ok s' t0 qs ms v /\
     brk <$> pcbs (k_obj s') !! v_run v = Some (Some addr) /\
     fl_rep (k_fl s') (numFrames (k_glob s')) all (avail ∪ list_to_set fs) /\
     (forall j, page_up addr <= j < page_up b -> exists e,
        entry (k_pt s') t1 (j - MAX_PT_LEN) = Some e /\ pte_valid e = 0) /\
     pt_upd (pages_of t1 (page_up addr - MAX_PT_LEN) (length fs)) (k_pt s) (k_pt s')).
Proof.
  intros Hb Haddr. split; [|split; [intros Hn; by eapply KernelBrk_full|]].
  - intros Hle Hn. destruct (KernelBrk_grow s t0 t1 qs ms v x b all avail addr Hb Haddr Hle Hn)
      as (t' & f' & fs & Hrun & Hok & Hrest). exists (break_moved v x addr t' f' s), fs. split; [done|]. split; [done|].
    split; [by cbn; rewrite lookup_insert_eq|done].
  - intros fs Heq Hne Hsub Hent. destruct (KernelBrk_shrink s t0 t1 qs ms v x b all avail addr fs Hb Haddr Heq Hne Hsub Hent)
      as (t' & f' & Hrun & Hok & Hrest). exists (break_moved v x addr t' f' s). split; [done|]. split; [done|].
    split; [by cbn; rewrite lookup_insert_eq|done].
Qed.

(** C38. A fault of the running process in region 1, [handleTrapMemory], with
    as many free frames as pages are missing.  More than a page above the break
    it is the stack that grows: every page from the address to the top of
    region 1 that is not mapped gets a free frame of its own, readable and
    writable; the others, and the memory, stay as they are.  An address that is
    not that far above the break ends the process. *)
Theorem stack_growth_spec s t0 t1 qs ms v x b all avail : has_break s t0 t1 qs ms v x b all avail -> frames_fit all ->
  let a := uc_addr (k_frame s) in let lo := a / PAGESIZE - MAX_PT_LEN in
  let pages := missing_pages (k_pt s) t1 (seqZ lo (MAX_PT_LEN - lo)) in
  VMEM_1_BASE <= a < VMEM_1_LIMIT -> (length pages <= size avail)%nat ->
  if a / PAGESIZE <=? b / PAGESIZE + 1 then
    forall kc s', KernelExit ERROR s = Switch kc s' -> handleTrapMemory s = Switch kc s'
  else
    exists l s', handleTrapMemory s = Ret tt s' /\ kernel_ok s' t0 qs ms v /\
      l.*1 = pages /\ NoDup l.*2 /\ list_to_set l.*2 ⊆ avail /\
      fl_rep (k_fl s') (numFrames (k_glob s')) all (avail ∖ list_to_set l.*2) /\
      (forall i f, (i, f) ∈ l -> entry (k_pt s') t1 i = Some (mkPte 1 PROT_RW f)) /\
      pt_upd (entries_of t1 pages) (k_pt s) (k_pt s') /\ k_mem s' = k_mem s.
Proof.
  intros Hb Hfit a lo pages Ha Hsize. pose proof (handleTrapMemory_start s t0 t1 qs ms v x b all avail Hb Ha) as Hstart.
  fold a in Hstart. destruct (Z.leb_spec (a / PAGESIZE) (b / PAGESIZE + 1)) as [Hle|Hgt].
  - intros kc s' Hexit. rewrite Hstart. unfold bind. by rewrite Hexit.
  - destruct (stack_growth_ok s t0 t1 qs ms v x b all avail Hb Hfit Ha Hgt Hsize) as (l & t' & f' & Hrun & Hok & Hl).
    exists l, (with_pt t' (with_fl f' s)). split; [done|]. split; [done|].
    destruct Hl as (? & ? & ? & ? & ? & ?). by split_and!.
Qed.

(** [isValidBuffer] counts pages by the length alone: a buffer that begins
    inside one page and ends in the next passes although the next page is not
    mapped, and the copy of [KernelTtyWrite] then faults inside the kernel. *)
Theorem tty_write_overrun s t0 t1 tty_id a len : vm_on (k_pt s) t0 t1 -> VMEM_1_BASE <= a < VMEM_1_LIMIT -> 0 < len ->
  a / PAGESIZE - MAX_PT_LEN + page_up len <= MAX_PT_LEN ->
  forallb (page_allows (k_pt s) t1 PROT_READ) (seqZ (a / PAGESIZE - MAX_PT_LEN) (page_up len)) = true ->
  trans (k_pt s) (a + len - 1) PROT_READ = None ->
  isValidBuffer a len PROT_READ s = Ret true s /\ KernelTtyWrite tty_id a len s = Undef.
Proof.
  intros Hvm Ha Hlen Hend Hall Ht. split; [|by eapply KernelTtyWrite_overrun].
  by rewrite (isValidBuffer_ok s t0 t1 a len PROT_READ Hvm Ha Hlen Hend), Hall.
Qed.

(** C39. [isValidString]: a string that ends inside its first page is accepted;
    one whose first page cannot be read is refused; but the entry that the
    loop looks at stays that of the first page, so for a string that goes on
    to a page that is not mapped, the check itself faults in the kernel, and so
    does [KernelExec]. *)
Theorem valid_string_spec s t0 t1 a n : vm_on (k_pt s) t0 t1 -> VMEM_1_BASE <= a < VMEM_1_LIMIT ->
  (a / PAGESIZE + 1) * PAGESIZE = a + n ->
  (forall k, 0 <= k < n -> read_byte (a + k) s = Ret 0 s ->
     (forall i, 0 <= i < k -> exists b, read_byte (a + i) s = Ret b s /\ b <> 0) -> isValidString a s = Ret true s) /\
  (page_allows (k_pt s) t1 PROT_READ (a / PAGESIZE - MAX_PT_LEN) = false -> isValidString a s = Ret false s) /\
  ((forall i, 0 <= i < n -> exists b, read_byte (a + i) s = Ret b s /\ b <> 0) ->
   trans (k_pt s) (a + n) PROT_READ = None -> a / PAGESIZE + 1 < 2 * MAX_PT_LEN ->
   isValidString a s = Undef /\ forall argvec `{!FileSystem}, KernelExec a argvec s = Undef).
Proof.
  intros Hvm Ha Hn. pose proof PAGESIZE_pos as HP.
  assert (0 < n) as Hnpos by (pose proof (Z.div_mod a PAGESIZE); pose proof (Z.mod_pos_bound a PAGESIZE HP); lia).
  split; [intros k; by eapply isValidString_true|]. split; [by eapply isValidString_false|].
  intros Hall Ht Hlast. assert (isValidString a s = Undef) as Hund by by eapply isValidString_undef.
  split; [done|]. intros argvec FS. unfold KernelExec, bind at 1. by rewrite Hund.
Qed.

(** The checks of [KernelWait] passed. *)
Lemma KernelWait_start s t0 t1 a x e : vm_on (k_pt s) t0 t1 -> VMEM_1_BASE <= a < VMEM_1_LIMIT ->
  entry (k_pt s) t1 (a / PAGESIZE - MAX_PT_LEN) = Some e -> pte_prot e = PROT_RW ->
  pcbs (k_obj s) !! currPCB (k_sched s) = Some x -> 0 < numChildren x ->
  KernelWait a s = (let! zq := rd (zombieQ x) in
    let! hd := lift (peek_q zq) in
    if hd =? NULL then
      let! r := blockProcess (KWait a) in
      if r =? ERROR then Halt else wait_finish a
    else wait_finish a) s.
Proof.
  intros Hvm Ha He Hprot Hx Hn. destruct (region1_page _ Ha) as [Hu _]. unfold KernelWait.
  rewrite (proj2 (getAddressRegion_1 a Hu) Ha), Z.eqb_refl. cbn [negb].
  destruct (getAddressProt_r1 _ _ _ _ Hvm Ha) as (e' & He' & Hp). rewrite He in He'. injection He' as <-.
  step (lift_pt _ s _ _ Hp). rewrite with_pt_id, Hprot, Z.eqb_refl. cbn [negb]. kmon. step (load_pcb_ok _ _ _ Hx).
  destruct (Z.leb_spec (numChildren x) 0); [lia|done].
Qed.

(** C40. [KernelWait] with an exited child: the status of the child that
    exited first is stored through [status_ptr], its pid is returned, the
    zombie is freed and leaves the queue, and the kernel is in order. *)
Theorem wait_spec s t0 t1 qs ms v x e a locs zq zp zs z : kernel_ok s t0 qs ms v -> vm_on (k_pt s) t0 t1 ->
  VMEM_1_BASE <= a < VMEM_1_LIMIT -> entry (k_pt s) t1 (a / PAGESIZE - MAX_PT_LEN) = Some e -> pte_prot e = PROT_RW ->
  mapped s a PROT_WRITE locs -> length locs = 4%nat ->
  pcbs (k_obj s) !! v_run v = Some x -> 0 < numChildren x -> zombieQ x = Some zq -> zq <> readyQ (k_sched s) ->
  qs !! zq = Some (zp :: zs) -> zp <> NULL -> zombies (k_obj s) !! zp = Some z ->
  exists s', KernelWait a s = Ret (z_pid z) s' /\ kernel_ok s' t0 (<[zq := zs]> qs) ms v /\
    zombies (k_obj s') = delete zp (zombies (k_obj s)) /\
    k_mem s' = mem_write (k_mem s) locs (int_bytes (exit_status z)).
Proof.
  intros Hok Hvm Ha He Hprot Hm Hlen Hx Hn Hzq Hne Hq Hzp Hz.
  assert (pcbs (k_obj s) !! currPCB (k_sched s) = Some x) as Hxc
    by by rewrite (sr_run _ _ _ _ (ko_sched _ _ _ _ _ Hok)).
  rewrite (KernelWait_start s t0 t1 a x e) by done. step_rd Hzq. step (peek_ok _ _ _ _ _ _ _ Hok Hq).
  change (default NULL (head (zp :: zs))) with zp. destruct (Z.eqb_spec zp NULL); [done|].
  destruct (wait_finish_ok s t0 qs ms v x a locs zq zp zs z Hok Hm Hlen Hx Hzq Hne Hq Hzp Hz) as (s' & Hrun & Hok' & Hzo & Hmem & _).
  by exists s'.
Qed.

(** [KernelWait] refuses a status pointer outside region 1, one whose page
    is not both readable and writable, and a caller without children; nothing
    changes. *)
Lemma wait_errors s t0 t1 a x : vm_on (k_pt s) t0 t1 -> 0 <= a < 2 ^ 32 ->
  pcbs (k_obj s) !! currPCB (k_sched s) = Some x ->
  ~ (VMEM_1_BASE <= a < VMEM_1_LIMIT) \/
  (exists e, entry (k_pt s) t1 (a / PAGESIZE - MAX_PT_LEN) = Some e /\ pte_prot e <> PROT_RW) \/
  numChildren x <= 0 ->
  KernelWait a s = Ret ERROR s.
Proof.
  intros Hvm Hu Hx Hcase. unfold KernelWait. destruct (Z.eqb_spec (getAddressRegion a) 1) as [Hr|Hr]; [|done].
  apply getAddressRegion_1 in Hr as Ha; [|done]. cbn [negb].
  destruct (getAddressProt_r1 _ _ _ _ Hvm Ha) as (e' & He' & Hp). step (lift_pt _ s _ _ Hp). rewrite with_pt_id.
  destruct (Z.eqb_spec (pte_prot e') PROT_RW) as [Hrw|Hrw]; [|done]. cbn [negb]. kmon. step (load_pcb_ok _ _ _ Hx).
  destruct (Z.leb_spec (numChildren x) 0); [done|]. destruct Hcase as [?|[(e & He & Hne)|?]]; [done| |lia].
  rewrite He in He'. by injection He' as ->.
Qed.

(** The kernel trap runs exactly the handler of the system call whose
    number is in [uctxt->code] and stores its result in the first register;
    for any other number the kernel halts. *)
Lemma trap_dispatch `{FS : FileSystem} s fuel :
  (forall c, uc_code (k_frame s) = YALNIX c ->
     handleTrapKernel fuel s = (let! r := dispatch fuel c (uc_regs (k_frame s)) in set_return r) s) /\
  ((forall c, uc_code (k_frame s) <> YALNIX c) -> handleTrapKernel fuel s = Halted s).
Proof.
  unfold handleTrapKernel. mon. split.
  - intros c Hc. rewrite Hc. assert (decode (YALNIX c) = Some c) as ->; [|done].
    unfold decode. destruct (find _ all_calls) as [d|] eqn:Hf.
    + apply find_some in Hf as [_ Heq%Z.eqb_eq]. by apply YALNIX_inj in Heq as ->.
    + assert (In c all_calls) as Hin by (destruct c; cbn; tauto).
      pose proof (find_none _ _ Hf c Hin) as Hn. cbv beta in Hn. by rewrite Z.eqb_refl in Hn.
  - intros Hn. unfold decode. destruct (find _ all_calls) as [d|] eqn:Hf; [|done].
    apply find_some in Hf as [_ Heq%Z.eqb_eq]. by destruct (Hn d).
Qed.

End claims.

(** The ids that user programs pass are not checked to be non-negative:
    C's [%] makes the bucket of a negative id negative, and the system call
    reads before the array of sets. *)
Lemma negative_id_undefined {QH} `{HL : HardwareLaws} `{QO : QueueOps QH} (s : kst QH mheap) M id :
  lockMap (k_sched s) <> NULL -> mh_maps (k_mh s) !! lockMap (k_sched s) = Some M -> 0 < hm_size M ->
  id < 0 -> Z.rem id (hm_size M) <> 0 ->
  KernelAcquire id s = Undef /\ KernelRelease id s = Undef.
Proof.
  intros Hnz HM Hs Hid Hrem. assert (Z.rem id (hm_size M) < 0) as Hneg.
  { pose proof (Z.rem_nonpos id (hm_size M)). lia. }
  assert (getLock id s = Undef) as Hg.
  { unfold getLock. kmon. unfold lift. cbn. unfold HashMapImpl.HashMap_find.
    destruct (Z.eqb_spec (lockMap (k_sched s)) NULL); [done|]. step (HashMapShape.load_map_ok _ _ _ HM).
    unfold HashMapImpl.bucket, HashMapImpl.sets_at.
    destruct (Z.eqb_spec (hm_size M) 0); [lia|]. by destruct (Z.ltb_spec (Z.rem id (hm_size M)) 0); [|lia]. }
  unfold KernelAcquire, KernelRelease, bind. by rewrite Hg.
Qed.

(** ** Witnesses *)

Lemma switch_spec_witness : exists s',
  KernelContextSwitch (switchBetween 100 300) KClock demo = Switch (mkKctxt (KAcquire 600) (demo_frame 2)) s' /\
  currPCB (k_sched s') = 300 /\ REG_PTBR1 (k_pt s') = 13000.
Proof.
  destruct (demo_stack (default fresh_PCB (demo_pcbs !! 300)) 44 45) as [fs Hfs]; [reflexivity|done..|].
  destruct (switch_spec demo 10000 100 demo_pcb1 KClock 300 (default fresh_PCB (demo_pcbs !! 300))
    (mkKctxt (KAcquire 600) (demo_frame 2)) fs 13000) as (s' & H1 & H2 & H3 & _).
  - apply (so_mmu _ _ demo_sys_ok).
  - done.
  - done.
  - reflexivity.
  - by left.
  - reflexivity.
  - exact Hfs.
  - by left.
  - reflexivity.
  - lia.
  - exists s'. split; [exact H1|]. split; [exact H2|exact H3].
Defined.

Lemma brk_cases_equiv_witness :
  move_brk 11000 MAX_PT_LEN (VMEM_1_BASE + 3 * PAGESIZE + 1) (VMEM_1_BASE + 2 * PAGESIZE) demo =
  brk_alloc (Z.to_nat (132 - 130)) (pte_at 11000 (130 - MAX_PT_LEN)) demo.
Proof.
  rewrite (brk_cases_equiv 11000 MAX_PT_LEN (VMEM_1_BASE + 3 * PAGESIZE + 1) (VMEM_1_BASE + 2 * PAGESIZE) demo)
    by (vm_compute; intuition congruence).
  unfold move_brk_spec. replace (page_up (VMEM_1_BASE + 3 * PAGESIZE + 1)) with 132 by (vm_compute; reflexivity).
  by replace (page_up (VMEM_1_BASE + 2 * PAGESIZE)) with 130 by (vm_compute; reflexivity).
Defined.

Lemma demo_has_break : has_break demo 10000 11000 demo_qs demo_ms demo_view demo_pcb1 (VMEM_1_BASE + 2 * PAGESIZE)
  (pfns demo_frames) (free_pfns demo_frames).
Proof. split; [apply demo_ok|apply demo_vm_on|reflexivity..|vm_compute; intuition congruence|exact demo_fl_rep]. Qed.

Lemma brk_spec_witness : (exists s' (fs : list Z), KernelBrk (VMEM_1_BASE + 3 * PAGESIZE + 1) demo = Ret SUCCESS s' /\
    length fs = 2%nat /\ NoDup fs) /\
  exists s', KernelBrk (VMEM_1_BASE + PAGESIZE - 5) demo = Ret SUCCESS s' /\
    exists e, entry (k_pt s') 11000 1 = Some e /\ pte_valid e = 0.
Proof.
  split.
  - destruct (brk_spec demo 10000 11000 demo_qs demo_ms demo_view demo_pcb1 (VMEM_1_BASE + 2 * PAGESIZE)
      (pfns demo_frames) (free_pfns demo_frames) (VMEM_1_BASE + 3 * PAGESIZE + 1) demo_has_break) as [Hg _].
    + vm_compute; intuition congruence.
    + destruct Hg as (s' & fs & H1 & _ & _ & H2 & H3 & _).
      * vm_compute; congruence.
      * apply (bool_decide_unpack _). vm_cast_no_check I.
      * exists s', fs. split; [exact H1|]. split; [exact H2|exact H3].
  - destruct (brk_spec demo 10000 11000 demo_qs demo_ms demo_view demo_pcb1 (VMEM_1_BASE + 2 * PAGESIZE)
      (pfns demo_frames) (free_pfns demo_frames) (VMEM_1_BASE + PAGESIZE - 5) demo_has_break) as (_ & _ & Hs).
    + vm_compute; intuition congruence.
    + destruct (Hs [21]) as (s' & H1 & _ & _ & _ & H2 & _).
      * reflexivity.
      * discriminate.
      * apply (bool_decide_unpack _). vm_cast_no_check I.
      * intros [|j] f Hf; [|discriminate]. injection Hf as <-. eexists _, _. reflexivity.
      * exists s'. split; [exact H1|]. exact (H2 129 ltac:(vm_compute; intuition congruence)).
Defined.

(** A fault two pages below the stack of process 1. *)
Definition demo_fault : kst QueueImpl.qheap mheap := with_frame (mkUctxt 0 (VMEM_1_LIMIT - 3 * PAGESIZE + 4) 1 0 0 []) demo.

Lemma demo_fault_break : has_break demo_fault 10000 11000 demo_qs demo_ms demo_view demo_pcb1 (VMEM_1_BASE + 2 * PAGESIZE)
  (pfns demo_frames) (free_pfns demo_frames).
Proof.
  destruct demo_has_break as [H1 H2 H3 H4 H5 H6 H7]. split; [by apply (kernel_ok_ext demo)|exact H2|exact H3|exact H4|exact H5|exact H6|exact H7].
Qed.

Lemma stack_growth_spec_witness : exists (l : list (Z * Z)) s', handleTrapMemory demo_fault = Ret tt s' /\ l.*1 = [125; 126] /\
  kernel_ok s' 10000 demo_qs demo_ms demo_view.
Proof.
  destruct (stack_growth_spec demo_fault 10000 11000 demo_qs demo_ms demo_view demo_pcb1 (VMEM_1_BASE + 2 * PAGESIZE)
    (pfns demo_frames) (free_pfns demo_frames) demo_fault_break) as (l & s' & H1 & H2 & H3 & _).
  - exact demo_frames_fit.
  - vm_compute; intuition congruence.
  - apply (bool_decide_unpack _). vm_cast_no_check I.
  - exists l, s'. split; [exact H1|]. split; [|exact H2]. rewrite H3. vm_compute. reflexivity.
Defined.

Lemma tty_write_overrun_witness : isValidBuffer (VMEM_1_BASE + 2 * PAGESIZE - 1) 2 PROT_READ demo = Ret true demo /\
  KernelTtyWrite 0 (VMEM_1_BASE + 2 * PAGESIZE - 1) 2 demo = Undef.
Proof.
  apply (tty_write_overrun demo 10000 11000 0 (VMEM_1_BASE + 2 * PAGESIZE - 1) 2 demo_vm_on).
  - vm_compute; intuition congruence.
  - lia.
  - vm_compute; congruence.
  - vm_cast_no_check (eq_refl true).
  - vm_cast_no_check (eq_refl (@None Z)).
Defined.

Lemma valid_string_spec_witness : isValidString (VMEM_1_BASE + 0) demo = Ret true demo.
Proof.
  assert (forall i b, 0 <= i < 4 -> [65; 66; 67; 0] !! Z.to_nat i = Some b ->
    read_byte (VMEM_1_BASE + 0 + i) demo = Ret b demo) as Hread.
  { intros i b Hi Hb. assert (i = 0 \/ i = 1 \/ i = 2 \/ i = 3) as [->|[->|[->| ->]]] by lia;
      injection Hb as <-; reflexivity. }
  apply (valid_string_spec demo 10000 11000 (VMEM_1_BASE + 0) PAGESIZE demo_vm_on) with (k := 3).
  - vm_compute; intuition congruence.
  - reflexivity.
  - vm_compute; intuition congruence.
  - by apply Hread.
  - intros i Hi. assert (i = 0 \/ i = 1 \/ i = 2) as [->|[->| ->]] by lia; eexists; (split; [by apply Hread|done]).
Defined.

Lemma wait_spec_witness : exists s', KernelWait (VMEM_1_BASE + 100) demo = Ret 9 s' /\
  k_mem s' = mem_write (k_mem demo) (demo_locs 100 4) (int_bytes 7).
Proof.
  destruct (wait_spec demo 10000 11000 demo_qs demo_ms demo_view demo_pcb1 (mkPte 1 PROT_RW 20) (VMEM_1_BASE + 100)
    (demo_locs 100 4) 56 800 [] (mkZombie 9 7) demo_ok demo_vm_on) as (s' & H1 & _ & _ & H2).
  - vm_compute; intuition congruence.
  - reflexivity.
  - reflexivity.
  - apply mapped_check. vm_cast_no_check (eq_refl true).
  - reflexivity.
  - reflexivity.
  - done.
  - reflexivity.
  - done.
  - reflexivity.
  - done.
  - reflexivity.
  - exists s'. split; [exact H1|exact H2].
Defined.

