(* ===== verification/ClaimsStart.v ===== *)
(** The start of the kernel, and the isolation of processes from then on: the
    properties, with witnesses on the machine of Boot. *)

From stdpp Require Import base gmap sets list relations.
From S2P Require Import Prelude Hardware Linked Queue HashMap FrameList State UserMem Scheduler LoadProgram GeneralCalls Tty Machine PageTable.
From S2P Require Import SwitchLaws SchedView SchedLaws InitLaws TtyLaws SpaceLaws LoadLaws BootLaws StartLaws IsoLaws Keeps Stable IsoStable IsoCalls IsoRun Boot Demo.

Section claims.
Context {QH MH : Type} `{HL : HardwareLaws} `{QO : QueueOps QH} `{MO : MapOps MH}
  `{QL : !QueueLaws QH} `{ML : !MapLaws MH} `{QR : !QueueRuns QH} `{MR : !MapRuns MH} `{FS : FileSystem}.
Abbreviation kst := (kst QH MH).
Implicit Types s : kst.

(** C6. [KernelStart] on a machine that is ready, with a program to run and
    enough frames for it, ends with the kernel in order: init, with pid 1,
    runs its program with its arguments and leaves the kernel at its entry
    point; the idle process, with pid 0, is ready to start at [DoIdle].  Both
    have frames of their own, all different and taken from those that were
    free; nobody is blocked, asleep or at a terminal, every terminal has an
    empty buffer and no line, there is no lock, condition variable or pipe,
    nothing was transmitted.  (The kernel's own allocator, which is not in the
    repository, does not move the kernel's break by [SetKernelBrk] meanwhile.) *)
Theorem kernel_start_spec D s pmem cmd_args name fd li : can_start s pmem cmd_args name fd li ->
  let args := init_args cmd_args in
  exists y np ip qs ms s', KernelStart D cmd_args pmem s = Switch (mkKctxt KStart (k_frame s)) s' /\
    started s pmem D args fd li y np ip qs ms s' /\
    (forall f, resume KStart (with_frame f s') = Ret tt (with_frame (program_uctxt li args fresh_UserContext) s')).
Proof.
  intros Hcan args. destruct (KernelStart_ok D s pmem cmd_args name fd li Hcan) as (y & np & ip & qs & ms & s' & Hrun & Hst).
  exists y, np, ip, qs, ms, s'. split; [done|]. split; [done|]. intros f.
  destruct Hst as [Hok _ _ (cm & cmi & _ & Hp) _ _ _ _ _ _ _]. cbn [resume]. unfold start_finish. kmon. cbn [k_sched with_frame].
  rewrite (sr_run _ _ _ _ (ko_sched _ _ _ _ _ Hok)). cbn [v_run start_view].
  assert (pcbs (k_obj (with_frame f s')) !! np = Some (loaded_pcb cm (sl_t1 y) li args)) as Hx by (cbn; rewrite Hp; apply lookup_insert_eq).
  step (load_pcb_ok _ _ _ Hx). done.
Qed.

(** C8. Isolation.  Through any sequence of these steps from the end of
    [KernelStart]: user code writes to memory; a trap or call that manages no
    memory, in any state; a process that gave the processor away goes on; and,
    in a kernel in order, when they succeed: Fork, Exec, growth of the stack
    and a raised break with enough free frames, a break lowered over mapped
    pages only, and an exit while every child of the process still has a PCB:
    no frame holds two pages of processes, be it of region 1 or of a kernel
    stack, no frame in use is free, and the list of frames is that of the
    start.  No frame is lost: each that was free at the start, but the one of
    the terminals' buffers, is free or some process has it, when ([tight]) no
    break is raised over mapped pages.  Outside this: a break lowered over a
    page never mapped, which frees the kernel's frame 0; an exit after a
    child's; and a kernel allocator that moves the kernel's break
    ([SetKernelBrk]), which takes and frees frames too. *)
Theorem memory_isolation D s pmem cmd_args name fd li : can_start s pmem cmd_args name fd li -> pmem_fits pmem ->
  exists s' b, KernelStart D cmd_args pmem s = Switch (mkKctxt KStart (k_frame s)) s' /\ b ∈ free_at_start s pmem /\
    forall (tight : Prop) s2, rtc (memory_step tight (REG_PTBR0 (k_pt s'))) s' s2 ->
      let t := k_pt s2 in let ps := pcbs (k_obj s2) in
      (exists avail, fl_rep (k_fl s2) (numFrames (k_glob s2)) (pfns (boot_frames pmem (currKernelBrk (k_glob s)))) avail /\
         (forall p x f, ps !! p = Some x -> f ∈ owned t x -> f ∉ avail) /\
         (tight -> forall f, f ∈ free_at_start s pmem -> f <> b -> f ∈ avail \/ exists p x, ps !! p = Some x /\ f ∈ owned t x)) /\
      (forall p x, ps !! p = Some x -> NoDup (owned t x)) /\
      (forall p q x y f, ps !! p = Some x -> ps !! q = Some y -> p <> q -> f ∈ owned t x -> f ∉ owned t y) /\
      (forall p q x y a b i j e e', ps !! p = Some x -> ps !! q = Some y -> p <> q ->
         r1PageTable x = Some a -> r1PageTable y = Some b -> 0 <= i < MAX_PT_LEN -> 0 <= j < MAX_PT_LEN ->
         entry t a i = Some e -> entry t b j = Some e' -> pte_valid e = 1 -> pte_valid e' = 1 -> pte_pfn e <> pte_pfn e').
Proof.
  intros Hcan Hpf. destruct (KernelStart_ok D s pmem cmd_args name fd li Hcan) as (y & np & ip & qs & ms & s' & Hrun & Hst).
  pose proof (st_vm _ _ _ _ _ _ _ _ _ _ _ _ Hst) as Hvm. pose proof (st_frames _ _ _ _ _ _ _ _ _ _ _ _ Hst) as (_ & Hsub & _).
  exists s', (sl_b y). split; [done|]. split; [apply Hsub; unfold start_frames; set_solver|].
  intros tight s2 Hsteps t ps. rewrite (vm_base0 _ _ _ Hvm) in Hsteps. destruct Hcan as [Hhw _ Hprog _].
  pose proof (started_safe tight _ _ _ _ _ _ _ _ _ _ _ _ (hr_machine _ _ Hhw) Hpf (ip_fits _ _ _ _ Hprog) Hst) as Hsafe.
  assert (memory_kept tight (kernel_frames s pmem (sl_b y)) (sl_t0 y) (pfns (boot_frames pmem (currKernelBrk (k_glob s)))) s') as Hkept
    by (split; [by eexists|]; eapply kernel_base, (st_ok _ _ _ _ _ _ _ _ _ _ _ _ Hst)).
  destruct (memory_run_kept _ _ _ _ _ _ Hsteps Hkept) as [(avail & [Hfl _ [Hown Hfree Hap _ _] Hacc]) _].
  split; [exists avail; split; [done|]; split; [done|]|split; [done|split; [done|]]].
  { intros Ht f Hf Hfb. destruct (Hacc Ht f) as [Hk|Hr]; [by apply free_pfns_subset|exfalso; unfold kernel_frames in Hk; set_solver|done]. }
  intros p q x z a b i j e e' Hx Hz Hne Ha Hb Hi Hj He He' Hv Hv' Heq.
  assert (forall w c k d, r1PageTable w = Some c -> 0 <= k < MAX_PT_LEN -> entry t c k = Some d -> pte_valid d = 1 ->
    pte_pfn d ∈ owned t w) as Hin.
  { intros w c k d Hw Hk Hd Hdv. unfold owned, space_frames. rewrite Hw. apply elem_of_app. left. apply elem_of_frames_of.
    exists k, d. by rewrite elem_of_all_pages. }
  apply (Hap p q x z (pte_pfn e)); try done; [by apply (Hin x a i)|]. rewrite Heq. by apply (Hin z b j).
Qed.
End claims.

(** ** On the concrete machine *)

#[local] Existing Instance one_file.
Definition boot_program : load_info := mkLoadInfo 0x100040 0x100000 1 0 0x102000 1 0x2000 0x102010 1 0x104020.

Lemma booting_ready : hardware_ready booting 0x200000.
Proof.
  split.
  - split; try (vm_compute; intuition congruence).
    + split; [|apply Forall_nil_2]. split; [done|]. intros p [? Hp]. cbn in Hp. by rewrite lookup_empty in Hp.
    + split; [done|apply Forall_nil_2].
  - split; [apply Forall_nil_2|done|]. cbn. intros p [? Hp]. by rewrite lookup_empty in Hp.
  - done.
  - apply qheap0_rep.
  - apply mheap0_rep.
  - split; [split_and!; vm_compute; reflexivity|apply Nat.leb_le; vm_compute; reflexivity].
Qed.

Lemma boot_program_is : is_program [105; 110; 105; 116] (init_args []) (tt : @file one_file) boot_program.
Proof. split; [done|split; vm_compute; intuition congruence|vm_compute; reflexivity|vm_compute; reflexivity]. Qed.

Lemma booting_can_start : can_start booting 0x200000 [] [105; 110; 105; 116] (tt : @file one_file) boot_program.
Proof.
  split; [apply booting_ready|done|apply boot_program_is|]. apply Nat.leb_le. vm_cast_no_check (eq_refl true).
Qed.

Lemma kernel_start_spec_witness : exists s' np ip qs ms t0,
  KernelStart idle_pc [] 0x200000 booting = Switch (mkKctxt KStart fresh_UserContext) s' /\
  kernel_ok s' t0 qs ms (start_view np ip) /\
  exists u, resume KStart (with_frame fresh_UserContext s') = Ret tt (with_frame u s') /\ uc_pc u = 0x100040.
Proof.
  destruct (kernel_start_spec idle_pc booting 0x200000 [] [105; 110; 105; 116] (tt : @file one_file) boot_program booting_can_start)
    as (y & np & ip & qs & ms & s' & H1 & H2 & H3).
  exists s', np, ip, qs, ms, (sl_t0 y). split; [exact H1|]. split; [exact (st_ok _ _ _ _ _ _ _ _ _ _ _ _ H2)|].
  exists (program_uctxt boot_program (init_args []) fresh_UserContext). split; [exact (H3 fresh_UserContext)|reflexivity].
Defined.

Lemma memory_isolation_witness : exists s' s2 kc np ip x y, np <> ip /\
  KernelStart idle_pc [] 0x200000 booting = Switch (mkKctxt KStart fresh_UserContext) s' /\
  handleTrapClock (with_mem (k_mem s') (with_frame fresh_UserContext s')) = Switch kc s2 /\ currPCB (k_sched s2) = ip /\
  pcbs (k_obj s2) !! np = Some x /\ pcbs (k_obj s2) !! ip = Some y /\
  (forall f, f ∈ owned (k_pt s2) x -> f ∉ owned (k_pt s2) y) /\
  exists b (avail : gset Z), forall f, f ∈ free_at_start booting 0x200000 -> f <> b ->
    f ∈ avail \/ exists p z, pcbs (k_obj s2) !! p = Some z /\ f ∈ owned (k_pt s2) z.
Proof.
  destruct (start_then_clock True idle_pc booting 0x200000 [] [105; 110; 105; 116] (tt : @file one_file) boot_program fresh_UserContext booting_can_start)
    as (s' & s2 & kc & np & ip & x & y & Hne & Hrun & Hck & Hcur & Hx & Hy & Hsteps).
  destruct (memory_isolation idle_pc booting 0x200000 [] [105; 110; 105; 116] (tt : @file one_file) boot_program booting_can_start)
    as (s2' & b & H1 & _ & H2); [vm_compute; congruence|].
  assert (s2' = s') as -> by congruence.
  exists s', s2, kc, np, ip, x, y. do 6 (split; [done|]).
  destruct (H2 True s2 Hsteps) as ((avail & _ & _ & H4) & _ & H3 & _).
  split; [intros f; exact (H3 np ip x y f Hx Hy Hne)|]. exists b, avail. exact (H4 I).
Defined.
