(* ===== verification/ClaimsFork.v ===== *)
(** The system call [Fork] as a whole, and its use on the concrete kernel of
    Demo. *)

From stdpp Require Import base gmap sets list.
From S2P Require Import Prelude Hardware Queue HashMap FrameList State Scheduler PageTable GeneralCalls.
From S2P Require Import SwitchLaws SchedView SchedLaws Steps ForkLaws CopyLaws InitLaws ForkCall Demo.

Section claims.
Context {QH MH : Type} `{HL : HardwareLaws} `{QO : QueueOps QH} `{MO : MapOps MH}
  `{QL : !QueueLaws QH} `{ML : !MapLaws MH}.
Abbreviation kst := (kst QH MH).
Implicit Types s : kst.

(** C11. [KernelFork] by the running process, when memory of all kinds is
    left: a process with a pid of its own, a child of the caller with its
    registers, break and children count 0, joins the processes and runs.  Its
    kernel stack and every valid page of its region 1 lie in distinct frames
    that were free; a page has the content and the protection of the caller's,
    and no other page is valid.  The caller's pages, and every frame in use,
    keep their content, the frame list gives up just these frames, and the
    kernel is in order again.  The child gets 0 from the call, the caller,
    once it runs again, the pid of the child. *)
Theorem kernel_fork_spec s t0 t1 qs ms v xp u cm m all avail : can_fork s t0 t1 qs ms v xp u cm m all avail ->
  exists c cmc tc fs l kc s', KernelFork s = Switch (mkKctxt (KFork (v_run v) c) (k_frame s)) s' /\
    pcbs (k_obj s) !! c = None /\ (exists qs' ms', kernel_ok s' t0 qs' ms' (v_fork c v)) /\
    pcbs (k_obj s') !! c = Some (with_kctxt (KSaved kc) (child_pcb (nextPid (k_sched s)) xp (v_run v) cmc tc fs)) /\
    NoDup (fs ++ l.*2) /\ list_to_set (fs ++ l.*2) ⊆ avail /\ Z.of_nat (length fs) = STACK_PAGES /\
    fl_rep (k_fl s') (numFrames (k_glob s')) all (avail ∖ list_to_set (fs ++ l.*2)) /\
    l.*1 = valid_pages (k_pt s) t1 region1_pages /\
    (forall i f, (i, f) ∈ l -> page_copied s t1 tc (k_pt s') (k_mem s') i f) /\
    (forall i, 0 <= i < MAX_PT_LEN -> i ∉ l.*1 -> entry (k_pt s') tc i = Some (mkPte 0 PROT_NONE 0)) /\
    (forall i, 0 <= i < MAX_PT_LEN -> entry (k_pt s') t1 i = entry (k_pt s) t1 i) /\
    (forall f, f ∉ fs ++ l.*2 -> k_mem s' !! f = k_mem s !! f) /\
    fork_return (v_run v) c s' = Ret SUCCESS s' /\
    (forall s2 x y, currPCB (k_sched s2) = v_run v -> pcbs (k_obj s2) !! v_run v = Some x ->
       pcbs (k_obj s2) !! c = Some y -> pid y = nextPid (k_sched s) ->
       fork_return (v_run v) c s2 = Ret (nextPid (k_sched s)) s2).
Proof.
  intros Hcan. destruct (KernelFork_run s t0 t1 qs ms v xp u cm m all avail Hcan)
    as (c & cmc & tc & fs & fs0 & l & s1 & s' & h & Hrun & Hne & Hr & Hok' & Hf). cbn zeta in Hf.
  pose proof Hr as [(_ & Hcn) Hch Hgr _ (_ & Ha0 & _) (Hlen & Hnd & Hsub) Hfl Hpg Hcp Hinv Hmem Hfr].
  pose proof (vm_apart _ _ _ (cf_vm _ _ _ _ _ _ _ _ _ _ _ _ Hcan)) as Ha1.
  destruct (cf_pcb _ _ _ _ _ _ _ _ _ _ _ _ Hcan) as (Hxp & _).
  pose proof (cf_pids _ _ _ _ _ _ _ _ _ _ _ _ Hcan _ _ Hxp) as Hpid.
  assert (pcbs (k_obj s') !! c = Some (with_kctxt (KSaved (mkKctxt (KFork (v_run v) c) (k_frame s)))
    (child_pcb (nextPid (k_sched s)) xp (v_run v) cmc tc fs))) as Hchild.
  { rewrite (fk_obj _ _ _ _ _ _ _ _ _ Hf). cbn. by rewrite lookup_alter_eq, lookup_alter_ne, Hch. }
  assert (exists y, pcbs (k_obj s') !! v_run v = Some y /\ pid y = pid xp) as (y & Hy & Hyp).
  { rewrite (fk_obj _ _ _ _ _ _ _ _ _ Hf). cbn. rewrite lookup_alter_ne, lookup_alter_eq by done.
    assert (pcbs (k_obj (without c s1)) !! v_run v = Some (parent_pcb xp)) as Hy
      by (rewrite (gr_pcbs _ _ _ _ _ Hgr); apply lookup_insert_eq).
    cbn in Hy. apply lookup_delete_Some in Hy as [_ ->]. by eexists. }
  exists c, cmc, tc, fs, l, (mkKctxt (KFork (v_run v) c) (k_frame s)), s'.
  split; [done|]. split; [done|]. split; [destruct Hok' as [qs' Hok']; by eexists _, _|]. split; [done|].
  split; [done|]. split; [done|]. split; [done|].
  rewrite (fk_fl _ _ _ _ _ _ _ _ _ Hf), (fk_glob _ _ _ _ _ _ _ _ _ Hf). split; [pose proof (gr_glob _ _ _ _ _ Hgr) as Hg; cbn in Hg |- *; by rewrite Hg|].
  split; [done|]. split; [|split; [|split; [|split; [|split]]]].
  - intros i f Hin. assert (i ∈ l.*1 /\ f ∈ l.*2) as [Hi Hfl2] by (split; apply list_elem_of_fmap; by exists (i, f)).
    rewrite Hpg in Hi. apply elem_of_valid_pages in Hi as [_ Hi]. rewrite region1_pages_eq, elem_of_seqZ in Hi.
    apply NoDup_app in Hnd as (_ & Hdis & _). destruct (Hcp i f Hin) as (e & He & He2 & Hm). exists e. split; [done|].
    split; [rewrite (forked_entry _ _ _ _ _ _ _ _ _ _ _ Hf) by (done || lia); done|].
    rewrite (fk_mem_other _ _ _ _ _ _ _ _ _ Hf); [done|]. intros Hfs. by eapply Hdis.
  - intros i Hi Hni. rewrite (forked_entry _ _ _ _ _ _ _ _ _ _ _ Hf) by done. by apply Hinv.
  - intros i Hi. rewrite (forked_entry _ _ _ _ _ _ _ _ _ _ _ Hf) by done.
    eapply pt_kept_entry; [apply Hgr|apply Hcan|done|done].
  - intros f Hf'. rewrite (fk_mem_other _ _ _ _ _ _ _ _ _ Hf) by set_solver. apply Hmem. set_solver.
  - eapply fork_return_child; [by rewrite (fk_sched _ _ _ _ _ _ _ _ _ Hf)|done|done|cbn; lia].
  - intros s2 x z Hcur Hx Hz <-. by eapply fork_return_parent.
Qed.
End claims.

(** ** On the concrete kernel *)

Lemma demo_pt_wf : pt_wf demo_pt.
Proof.
  split; [done|].
  assert (map_Forall (fun p (_ : pte) => p + PTE_SIZE <= 20000) demo_ptes) as Hall
    by (apply (bool_decide_unpack _); vm_cast_no_check I).
  intros p [e He]. exact (Hall p e He).
Qed.

Lemma demo_can_init : can_init demo demo_ms (pfns demo_frames) (free_pfns demo_frames).
Proof.
  split; [apply demo_mem_ok|apply demo_m_rep|apply demo_m_rep|apply demo_pt_wf|apply Forall_nil_2|done|apply demo_fl_rep|].
  apply Nat.leb_le. vm_cast_no_check (eq_refl true).
Qed.

(** Whether a page satisfies [space_ok]. *)
Definition space_ok_b (t : pt) (base : ptr) (avail : gset Z) (i : Z) : bool :=
  match entry t base i with
  | Some e => negb (pte_valid e =? 1) || bool_decide (Z.land (pte_prot e) PROT_READ = PROT_READ /\
      (0 <= pte_prot e < 2 ^ PTE_PROT_BITS) /\ pte_pfn e ∉ avail)
  | None => true
  end.

Lemma demo_space_ok : space_ok demo_pt 11000 (free_pfns demo_frames).
Proof.
  assert (forallb (space_ok_b demo_pt 11000 (free_pfns demo_frames)) (seqZ 0 MAX_PT_LEN) = true) as Hall
    by (vm_cast_no_check (eq_refl true)).
  rewrite forallb_forall in Hall. intros i e Hi He Hv. specialize (Hall i). unfold space_ok_b in Hall.
  rewrite He, Hv in Hall. cbn [Z.eqb Pos.eqb negb orb] in Hall. eapply bool_decide_eq_true_1, Hall.
  apply list_elem_of_In, elem_of_seqZ. lia.
Qed.

Lemma demo_can_fork : can_fork demo 10000 11000 demo_qs demo_ms demo_view demo_pcb1 (demo_frame 1) 856 (<[2 := 300]> ∅)
  (pfns demo_frames) (free_pfns demo_frames).
Proof.
  split.
  - apply demo_ok.
  - apply demo_vm_on.
  - by vm_compute.
  - by vm_compute.
  - intros p y H. each_pcb H; done.
  - done.
  - apply demo_can_init.
  - assert (forallb (fun f => (0 <=? f) && (f <? 2 ^ PTE_PFN_BITS)) (elements (pfns demo_frames)) = true) as Hall
      by (vm_cast_no_check (eq_refl true)).
    rewrite forallb_forall in Hall. intros f Hf. apply elem_of_elements, list_elem_of_In, Hall, andb_true_iff in Hf as [? ?].
    split; [by apply Z.leb_le|by apply Z.ltb_lt].
  - apply demo_space_ok.
  - apply Nat.leb_le. vm_cast_no_check (eq_refl true).
  - intros fs f (Hfs & _). change (Some <$> [40; 41] = Some <$> fs) in Hfs. apply (inj _) in Hfs as <-. intros Hf.
    assert (bool_decide (Forall (fun f => f ∉ free_pfns demo_frames) [40; 41]) = true) as Hall
      by (vm_cast_no_check (eq_refl true)).
    apply bool_decide_eq_true_1 in Hall. rewrite Forall_forall in Hall. by apply Hall.
Qed.

(** Process 1 forks: its three pages are copied. *)
Lemma kernel_fork_spec_witness : exists c (l : list (Z * Z)) s', KernelFork demo = Switch (mkKctxt (KFork 100 c) (demo_frame 1)) s' /\
  l.*1 = [0; 1; 127] /\ fork_return 100 c s' = Ret 0 s' /\ (exists x, pcbs (k_obj s') !! c = Some x /\ pid x = 10).
Proof.
  destruct (kernel_fork_spec demo 10000 11000 demo_qs demo_ms demo_view demo_pcb1 (demo_frame 1) 856 (<[2 := 300]> ∅)
    (pfns demo_frames) (free_pfns demo_frames) demo_can_fork)
    as (c & cmc & tc & fs & l & kc & s' & H1 & _ & _ & H4 & _ & _ & _ & _ & H9 & _ & _ & _ & _ & H14 & _).
  exists c, l, s'. split; [exact H1|]. split; [|split; [exact H14|eexists; split; [exact H4|reflexivity]]].
  rewrite H9. vm_compute. reflexivity.
Defined.
