(* ===== verification/ClaimsTty.v ===== *)
(** Terminals: the properties of the system calls and interrupts, each with a
    witness on the concrete kernel of Demo. *)

From stdpp Require Import base gmap list.
From S2P Require Import Prelude Hardware Queue HashMap FrameList PageTable State UserMem Scheduler GeneralCalls Tty Machine.
From S2P Require Import SwitchLaws SchedView SchedLaws Steps CallLaws TtyLaws Demo.

Section claims.
Context {QH MH : Type} `{HL : HardwareLaws} `{QO : QueueOps QH} `{MO : MapOps MH}
  `{QL : !QueueLaws QH} `{ML : !MapLaws MH}.
Abbreviation kst := (kst QH MH).
Implicit Types s : kst.

(** C31. [KernelTtyWrite] of a buffer in user memory: when the terminal is
    free, the first batch of at most [TERMINAL_MAX_LINE] bytes goes to it and
    the caller waits as its transmitter; when it is busy, the caller joins the
    terminal's queue with its copy of the bytes.  Either way the next ready
    process runs, and the kernel stays in order. *)
Theorem tty_write_spec s t0 t1 qs ms v v' tty_id cur tq ws rq rs buf locs : kernel_ok s t0 qs ms v ->
  tty_is s qs tty_id cur tq ws rq rs -> v_leave v = Some v' -> locs <> [] -> mapped s buf PROT_READ locs ->
  accepted (k_pt s) t0 t1 buf (Z.of_nat (length locs)) PROT_READ ->
  let bs := mem_get (k_mem s) <$> locs in
  exists kc s', KernelTtyWrite tty_id buf (Z.of_nat (length locs)) s = Switch kc s' /\
    if cur =? NULL then
      kernel_ok s' t0 (<[readyQ (k_sched s) := v_ready v']> qs) ms v' /\
      currTransmitters (k_sched s') !! Z.to_nat tty_id = Some (v_run v) /\
      parked (v_run v) (mkKctxt (KTtyWait tty_id bs (Z.of_nat (length (batch bs 0)))) (k_frame s)) s' /\
      transmitted (k_tty s') = transmitted (k_tty s) ++ [(tty_id, batch bs 0)]
    else
      kernel_ok s' t0 (<[readyQ (k_sched s) := v_ready v']> (<[tq := ws ++ [v_run v]]> qs)) ms v' /\
      currTransmitters (k_sched s') !! Z.to_nat tty_id = Some cur /\
      parked (v_run v) (mkKctxt (KTtyBlock tty_id bs) (k_frame s)) s' /\
      transmitted (k_tty s') = transmitted (k_tty s).
Proof.
  intros Hok Hti Hv Hne Hm Hacc bs.
  destruct (KernelTtyWrite_enter s t0 t1 qs ms v tty_id buf locs Hok Hne Hm Hacc) as (a & Hrun & Hok1). rewrite Hrun.
  pose proof (ti_cur _ _ _ _ _ _ _ _ Hti) as Hc. pose proof (ti_id _ _ _ _ _ _ _ _ Hti) as Hi.
  destruct (Z.eqb_spec cur NULL) as [->|Hnz].
  - destruct (tty_write_start_free (with_arena a s) t0 qs ms v v' tty_id bs) as (kc & s' & Hr & Hok' & Hsch & Hpk & Htr);
      [done..|by destruct locs|done|].
    exists kc, s'. split; [done|]. split; [done|]. split; [|done]. rewrite Hsch. cbn.
    apply list_lookup_insert_eq. by eapply lookup_lt_Some.
  - destruct (tty_write_start_busy (with_arena a s) t0 qs ms v v' tty_id cur tq ws rq rs bs) as (kc & s' & Hr & Hok' & Hpk & Htty & Hsch);
      [done|by destruct Hti|done..|].
    exists kc, s'. split; [done|]. split; [done|]. rewrite Hsch, Htty. done.
Qed.

(** C32. The bytes of a write arrive complete and in order.  However the turns
    of the writer interleave with what the rest of the kernel does, the batches
    that it transmits until its system call returns are, put together, the
    bytes it was given, and no batch is empty or longer than
    [TERMINAL_MAX_LINE]. *)
Theorem tty_write_delivers (t0 w : ptr) (tty_id : Z) (bs : list Z) (cs : list (list Z)) :
  delivers (QH := QH) (MH := MH) t0 w tty_id bs 0 cs ->
  concat cs = bs /\ Forall (fun c => 0 < Z.of_nat (length c) <= TERMINAL_MAX_LINE) cs.
Proof. intros Hd. apply delivers_rest in Hd; [|lia]. done. Qed.

(** C17. The interrupt that ends a transmission, [handleTtyTransmit], gives the
    processor to the terminal's transmitter at once: it goes on where it waited,
    the interrupted process is the last of the ready ones and parked at the end
    of the handler, the kernel stays in order and no terminal's buffer changes.
    The transmitter stays the terminal's transmitter: the comment in
    Scheduler.h says that [signalTransmitter] removes it, the code leaves that
    to [unblockTransmitter]. *)
Theorem tty_signal_spec s t0 qs ms v tty_id w : kernel_ok s t0 qs ms v -> uc_code (k_frame s) = tty_id -> 0 <= tty_id ->
  currTransmitters (k_sched s) !! Z.to_nat tty_id = Some w -> w ∉ places v -> is_Some (pcbs (k_obj s) !! w) ->
  exists kc s', handleTtyTransmit s = Switch kc s' /\ (forall kp, parked w kp s -> kc = kp) /\
    kernel_ok s' t0 (<[readyQ (k_sched s) := v_ready v ++ [v_run v]]> qs) ms (v_signal w v) /\
    parked (v_run v) (mkKctxt KTtySignal (k_frame s)) s' /\ k_tty s' = k_tty s /\ k_sched s' = with_currPCB w (k_sched s).
Proof.
  intros Hok <- Hi Hc Hni Hw.
  destruct (signalTransmitter_ok s t0 qs ms v _ w KTtySignal Hok Hi Hc Hni Hw) as (kc & s' & Hrun & Hok' & Hsch & Htty & Hpk & Hkc).
  exists kc, s'. split; [|done]. unfold handleTtyTransmit. kmon. unfold bind. by rewrite Hrun.
Qed.

(** C33. A line that arrives is in the terminal's buffer, and the first process
    that waits for one is ready; the end of the input leaves the buffer empty
    and wakes nobody. *)
Theorem tty_receive_spec s t0 qs ms v tty_id cur tq ws rq rs locs old line : kernel_ok s t0 qs ms v ->
  uc_code (k_frame s) = tty_id -> tty_is s qs tty_id cur tq ws rq rs -> first_waits s v rs ->
  buffered s tty_id locs old -> (length line <= length locs)%nat ->
  (exists s', handleTtyReceive (Z.of_nat (length line) + 1) line s = Ret tt s' /\
    kernel_ok s' t0 (first_q s qs v rq rs) ms (v_first rs v) /\ buffered s' tty_id locs (Some line) /\
    k_pt s' = k_pt s) /\
  (exists s', handleTtyReceive 0 [] s = Ret tt s' /\ kernel_ok s' t0 qs ms v /\ buffered s' tty_id locs None).
Proof.
  intros Hok <- Hti Hhead Hbuf Hlen. unfold handleTtyReceive. split.
  - destruct (writeBuffer_ok s t0 qs ms v _ cur tq ws rq rs locs old line Hok Hti Hhead Hbuf Hlen)
      as (s' & Hw & Hok' & Hbuf' & _ & Hpt & _).
    exists s'. split; [|done]. kmon. step Hw. by rewrite eqb_0_ERROR.
  - destruct Hbuf as [Hi (b & Hb & Hm) Hnd _ _]. kmon. unfold writeBuffer. rewrite bind_assoc.
    step (load_buffer_ok s _ _ Hi Hb). cbn [store_bytes base]. unfold set_buffer. mon. cbn [Z.ltb Z.compare].
    mon. rewrite eqb_0_ERROR. eexists. split; [done|]. split; [by apply (kernel_ok_ext s)|].
    split; [done| |done|cbn; lia|done]. exists b. split; [|by apply (kmapped_pt s)].
    cbn. rewrite list_lookup_insert_eq; [done|]. by eapply lookup_lt_Some.
Qed.

(** C34. [KernelTtyRead] of [length ulocs] bytes: without a line the caller
    waits in the terminal's queue and the next process runs; from a line it
    gets the first bytes, as many as it asked for and there are; what is left
    of the line stays in the buffer, and then the next reader is ready. *)
Theorem tty_read_spec s t0 t1 qs ms v v' tty_id cur tq ws rq rs locs buf ulocs line : kernel_ok s t0 qs ms v ->
  tty_is s qs tty_id cur tq ws rq rs -> first_waits s v rs -> v_leave v = Some v' -> buffered s tty_id locs line ->
  read_buffer s t0 t1 locs buf ulocs ->
  let len := length ulocs in
  match line with
  | None => exists kc s', KernelTtyRead tty_id buf (Z.of_nat len) s = Switch kc s' /\
      kernel_ok s' t0 (<[readyQ (k_sched s) := v_ready v']> (<[rq := rs ++ [v_run v]]> qs)) ms v' /\
      parked (v_run v) (mkKctxt (KTtyRead tty_id buf (Z.of_nat len)) (k_frame s)) s'
  | Some bs => exists s', KernelTtyRead tty_id buf (Z.of_nat len) s = Ret (Z.of_nat (length (take len bs))) s' /\
      mem_get (k_mem s') <$> take (length bs) ulocs = take len bs /\
      buffered s' tty_id locs (line_rest len bs) /\
      if decide (len < length bs)%nat then kernel_ok s' t0 (first_q s qs v rq rs) ms (v_first rs v)
      else kernel_ok s' t0 qs ms v
  end.
Proof.
  intros Hok Hti Hhead Hv Hbuf Hrb len. destruct line as [bs|].
  - destruct (KernelTtyRead_line s t0 t1 qs ms v tty_id cur tq ws rq rs locs buf ulocs bs Hok Hti Hhead Hbuf Hrb)
      as (s' & Hr & Hm & Hb & Hok' & _). by exists s'.
  - unfold len. rewrite (KernelTtyRead_enter s t0 t1 tty_id locs) by done.
    destruct (readBuffer_wait s t0 qs ms v v' tty_id cur tq ws rq rs locs buf (Z.of_nat len) Hok Hti Hbuf Hv)
      as (kc & s' & Hr & Hok' & Hpk & _). by exists kc, s'.
Qed.

(** C35. A line reaches its readers as it arrived.  A process that asks for
    less than the line and one that asks for at least the rest get, put
    together, the bytes of the line, and then the buffer is empty. *)
Theorem tty_line_roundtrip s t0 t1 qs ms v tty_id cur tq ws rq locs line buf1 ulocs1 buf2 ulocs2 : kernel_ok s t0 qs ms v ->
  uc_code (k_frame s) = tty_id -> tty_is s qs tty_id cur tq ws rq [] -> buffered s tty_id locs None ->
  (length ulocs1 < length line <= length locs)%nat -> (length line <= length ulocs1 + length ulocs2)%nat ->
  read_buffer s t0 t1 locs buf1 ulocs1 -> read_buffer s t0 t1 locs buf2 ulocs2 ->
  exists s1 s2 s3 n1 n2, handleTtyReceive (Z.of_nat (length line) + 1) line s = Ret tt s1 /\
    KernelTtyRead tty_id buf1 (Z.of_nat (length ulocs1)) s1 = Ret n1 s2 /\
    KernelTtyRead tty_id buf2 (Z.of_nat (length ulocs2)) s2 = Ret n2 s3 /\
    (mem_get (k_mem s2) <$> take (Z.to_nat n1) ulocs1) ++ (mem_get (k_mem s3) <$> take (Z.to_nat n2) ulocs2) = line /\
    buffered s3 tty_id locs None /\ kernel_ok s3 t0 qs ms v.
Proof.
  intros Hok <- Hti Hbuf [Hlt Hfit] Hlen Hrb1 Hrb2. assert (forall s, first_waits s v []) as Hnone by done.
  destruct (writeBuffer_ok s t0 qs ms v _ cur tq ws rq [] locs None line Hok Hti (Hnone s) Hbuf Hfit)
    as (s1 & Hw & Hok1 & Hbuf1 & Hs1 & Hpt1 & _). cbn [first_q v_first] in Hok1.
  assert (tty_is s1 qs (uc_code (k_frame s)) cur tq ws rq []) as Hti1 by (destruct Hti; split; by rewrite ?Hs1).
  destruct (KernelTtyRead_line s1 t0 t1 qs ms v _ cur tq ws rq [] locs buf1 ulocs1 line Hok1 Hti1 (Hnone s1) Hbuf1)
    as (s2 & Hr1 & Hm1 & Hb1 & Hok2 & Hpt2 & Hs2); [by eapply read_buffer_pt|].
  unfold line_rest in Hb1. rewrite !decide_True in * by done. cbn [first_q v_first] in Hok2.
  assert (tty_is s2 qs (uc_code (k_frame s)) cur tq ws rq []) as Hti2 by (destruct Hti1; split; by rewrite ?Hs2).
  destruct (KernelTtyRead_line s2 t0 t1 qs ms v _ cur tq ws rq [] locs buf2 ulocs2 (drop (length ulocs1) line) Hok2 Hti2 (Hnone s2) Hb1)
    as (s3 & Hr2 & Hm2 & Hb2 & Hok3 & _); [apply (read_buffer_pt s); [congruence|done]|].
  unfold line_rest in Hb2. rewrite length_drop in *. rewrite !decide_False in * by lia.
  exists s1, s2, s3. do 2 eexists. split; [unfold handleTtyReceive; kmon; step Hw; by rewrite eqb_0_ERROR|].
  split; [exact Hr1|]. split; [exact Hr2|]. split; [|done].
  rewrite !Nat2Z.id, !length_take, length_drop. rewrite (take_ge ulocs1) in * by lia.
  rewrite Hm1.
  replace (length ulocs2 `min` (length line - length ulocs1))%nat with (length line - length ulocs1)%nat by lia.
  rewrite Hm2, (take_ge (drop _ _)) by (rewrite length_drop; lia). apply take_drop.
Qed.
End claims.

(** ** On the concrete kernel *)

Definition demo_view' : sview := mkView 200 [] (v_blocked demo_view) (v_sleeping demo_view).
Lemma demo_leave : v_leave demo_view = Some demo_view'. Proof. reflexivity. Qed.

Lemma demo_tty0 : tty_is demo demo_qs 0 NULL 80 [] 88 [510].
Proof. by split. Qed.
Lemma demo_tty1 : tty_is demo demo_qs 1 520 96 [] 104 [].
Proof. by split. Qed.

Lemma demo_outside p : p ∈ [510; 520] -> (p ∉ places demo_view) /\ is_Some (pcbs (k_obj demo) !! p).
Proof.
  intros Hp. assert (Forall (fun p => (p ∉ places demo_view) /\ is_Some (demo_pcbs !! p)) [510; 520]) as Hall
    by (apply (bool_decide_unpack _); vm_compute; exact I).
  rewrite Forall_forall in Hall. by apply Hall.
Qed.
Lemma demo_first_waits : first_waits demo demo_view [510].
Proof. intros w [= <-]. apply demo_outside. set_solver. Qed.

(** Deciding [kmapped] and [accepted]. *)
Fixpoint kmapped_b (t : pt) (a : Z) (locs : list (Z * Z)) : bool :=
  match locs with
  | [] => true
  | l :: r => (l.2 =? a mod PAGESIZE) && bool_decide (trans t a PROT_READ = Some l.1) &&
      bool_decide (trans t a PROT_WRITE = Some l.1) && kmapped_b t (a + 1) r
  end.
Lemma kmapped_check (s : kst QueueImpl.qheap mheap) a locs : kmapped_b (k_pt s) a locs = true -> kmapped s a locs.
Proof.
  revert a. induction locs as [|l locs IH]; intros a Hb i l' Hi; [done|].
  cbn [kmapped_b] in Hb. rewrite !andb_true_iff, !bool_decide_eq_true, Z.eqb_eq in Hb.
  destruct Hb as [[[Ho Hr] Hw] Hrest]. destruct i as [|i]; cbn in Hi.
  - injection Hi as <-. rewrite Z.add_0_r. split; [done|]. intros p [->| ->]; by rewrite translate_trans, ?Hr, ?Hw.
  - replace (a + Z.of_nat (S i)) with (a + 1 + Z.of_nat i) by lia. by apply IH.
Qed.

Definition accepted_b (t : pt) (t1 : ptr) (a len prot : Z) : bool :=
  (VMEM_1_BASE <=? a) && (a <? VMEM_1_LIMIT) && (a / PAGESIZE - MAX_PT_LEN + page_up len <=? MAX_PT_LEN) &&
  forallb (page_allows t t1 prot) (seqZ (a / PAGESIZE - MAX_PT_LEN) (page_up len)).
Lemma accepted_check a len prot : accepted_b demo_pt 11000 a len prot = true -> accepted demo_pt 10000 11000 a len prot.
Proof.
  unfold accepted_b. rewrite !andb_true_iff, !Z.leb_le, Z.ltb_lt. intros [[[? ?] ?] ?].
  split; [apply demo_vm_on|done].
Qed.

(** Sixteen places of the buffers of the terminals 0 and 1. *)
Definition demo_buffer (i : Z) : list (Z * Z) := (fun o => (34, o)) <$> seqZ (i * 2048) 16.
Lemma demo_kmapped i : i = 0 \/ i = 1 -> kmapped demo (124 * PAGESIZE + i * 2048) (demo_buffer i).
Proof. intros [->| ->]; apply kmapped_check; vm_compute; reflexivity. Qed.
Lemma demo_buffer_nodup i : i = 0 \/ i = 1 -> NoDup (demo_buffer i).
Proof. intros [->| ->]; apply (bool_decide_unpack _); vm_compute; exact I. Qed.
Lemma demo_buffered i : i = 0 \/ i = 1 -> buffered demo i (demo_buffer i) None.
Proof.
  intros Hi. split; [lia| |by apply demo_buffer_nodup|cbn; lia|done].
  eexists. split; [|by apply demo_kmapped]. by destruct Hi as [->| ->].
Qed.

(** A buffer of [n] bytes in the first page of process 1. *)
Lemma demo_read_buffer i o n : i = 0 \/ i = 1 -> o = 0 \/ o = 100 -> n = 2 \/ n = 4 ->
  read_buffer demo 10000 11000 (demo_buffer i) (VMEM_1_BASE + o) (demo_locs o n).
Proof.
  intros Hi Ho Hn. split.
  - by destruct Hn as [->| ->].
  - apply mapped_check. destruct Ho as [->| ->], Hn as [->| ->]; vm_compute; reflexivity.
  - unfold demo_locs. apply NoDup_fmap_2; [intros ? ? [=]; done|apply NoDup_seqZ].
  - intros l Hl Hl'. unfold demo_locs, demo_buffer in *. apply list_elem_of_fmap in Hl as (? & -> & _), Hl' as (? & ? & _). done.
  - apply accepted_check. destruct Ho as [->| ->], Hn as [->| ->]; vm_compute; reflexivity.
Qed.

(** The state in which the interrupt of the terminal [i] arrives. *)
Definition demo_intr (i : Z) : kst QueueImpl.qheap mheap := with_frame (mkUctxt i 0 1 0x1ffff0 0x1ffff0 (repeat 0 8)) demo.
Lemma demo_intr_ok i : kernel_ok (demo_intr i) 10000 demo_qs demo_ms demo_view.
Proof. by apply (kernel_ok_ext demo), demo_ok. Qed.

Lemma demo_intr_buffered i j : i = 0 \/ i = 1 -> buffered (demo_intr j) i (demo_buffer i) None.
Proof.
  intros Hi. destruct (demo_buffered i Hi) as [H1 (b & H2 & H3) H4 H5 H6].
  split; [exact H1|exists b; split; [exact H2|by apply (kmapped_pt demo)]|exact H4|exact H5|exact H6].
Qed.

Lemma tty_write_spec_witness : exists kc s', KernelTtyWrite 0 VMEM_1_BASE 3 demo = Switch kc s' /\
  transmitted (k_tty s') = [(1, [72; 105]); (0, [65; 66; 67])] /\
  parked 100 (mkKctxt (KTtyWait 0 [65; 66; 67] 3) (demo_frame 1)) s'.
Proof.
  destruct (tty_write_spec demo 10000 11000 demo_qs demo_ms demo_view demo_view' 0 NULL 80 [] 88 [510] VMEM_1_BASE
    (demo_locs 0 3) demo_ok demo_tty0 demo_leave) as (kc & s' & Hr & Hok & _ & Hpk & Htr).
  - done.
  - apply mapped_check. vm_compute. reflexivity.
  - apply accepted_check. vm_compute. reflexivity.
  - exists kc, s'. split; [exact Hr|]. split; [exact Htr|exact Hpk].
Defined.

(** A write of 1030 bytes takes two batches. *)
Lemma demo_turn : turn demo 10000 100 0.
Proof.
  exists demo_qs, demo_ms, demo_view, NULL, 80, [], 88, [510].
  split; [apply demo_ok|]. split; [done|]. split; [done|]. split; [apply demo_tty0|done].
Qed.
Lemma demo_batch bs n cs : 0 <= n < Z.of_nat (length bs) ->
  delivers (QH := QueueImpl.qheap) (MH := mheap) 10000 100 0 bs (n + Z.of_nat (length (batch bs n))) cs ->
  delivers (QH := QueueImpl.qheap) (MH := mheap) 10000 100 0 bs n (batch bs n :: cs).
Proof.
  intros Hn Hd. pose proof (tty_write_turn demo 10000 100 0 bs n demo_turn (proj1 Hn)) as Ht.
  rewrite decide_True in Ht by lia. destruct Ht as (kc & s' & Hr & Htr & Hpk).
  by eapply delivers_batch; [apply demo_turn| | | |].
Qed.
Lemma demo_end bs n : Z.of_nat (length bs) <= n -> 0 <= n ->
  delivers (QH := QueueImpl.qheap) (MH := mheap) 10000 100 0 bs n [].
Proof.
  intros Hn Hn0. pose proof (tty_write_turn demo 10000 100 0 bs n demo_turn Hn0) as Ht.
  rewrite decide_False in Ht by lia. destruct Ht as (s' & Hr & _). by eapply delivers_end; [apply demo_turn|].
Qed.
Definition demo_long : list Z := replicate 1030 7.
Lemma demo_delivers : delivers (QH := QueueImpl.qheap) (MH := mheap) 10000 100 0 demo_long 0
  [batch demo_long 0; batch demo_long 1024].
Proof.
  apply demo_batch; [split; [done|vm_compute; reflexivity]|].
  replace (0 + Z.of_nat (length (batch demo_long 0))) with 1024 by (vm_compute; reflexivity).
  apply demo_batch; [split; [done|vm_compute; reflexivity]|]. apply demo_end; vm_compute; discriminate.
Qed.
Lemma tty_write_delivers_witness : exists cs : list (list Z), length <$> cs = [1024; 6]%nat /\ concat cs = demo_long.
Proof.
  exists [batch demo_long 0; batch demo_long 1024]. split; [vm_compute; reflexivity|].
  apply (tty_write_delivers 10000 100 0 demo_long _ demo_delivers).
Defined.

Lemma tty_signal_spec_witness : exists s', handleTtyTransmit (demo_intr 1) = Switch (mkKctxt (KTtyWait 1 [72; 105] 2) (demo_frame 6)) s' /\
  exists qs ms, kernel_ok s' 10000 qs ms (mkView 520 [200; 100] (v_blocked demo_view) (v_sleeping demo_view)).
Proof.
  destruct (demo_outside 520) as [Hni Hs]; [set_solver|].
  destruct (tty_signal_spec (demo_intr 1) 10000 demo_qs demo_ms demo_view 1 520 (demo_intr_ok 1) eq_refl ltac:(done) eq_refl Hni Hs)
    as (kc & s' & Hr & Hkc & Hok & _).
  exists s'. split; [|eexists _, _; exact Hok]. rewrite Hr. f_equal. apply Hkc. split; [discriminate|]. eexists. split; reflexivity.
Defined.

Lemma tty_receive_spec_witness : exists s', handleTtyReceive 3 [72; 105] (demo_intr 0) = Ret tt s' /\
  buffered s' 0 (demo_buffer 0) (Some [72; 105]) /\
  exists qs ms, kernel_ok s' 10000 qs ms (mkView 100 [200; 510] (v_blocked demo_view) (v_sleeping demo_view)).
Proof.
  destruct (tty_receive_spec (demo_intr 0) 10000 demo_qs demo_ms demo_view 0 NULL 80 [] 88 [510] (demo_buffer 0) None [72; 105]
    (demo_intr_ok 0) eq_refl) as [(s' & Hr & Hok & Hb & _) _].
  - by split.
  - exact demo_first_waits.
  - apply demo_intr_buffered. by left.
  - vm_compute. lia.
  - exists s'. split; [exact Hr|]. split; [exact Hb|]. eexists _, _. exact Hok.
Defined.

Lemma tty_read_spec_witness : exists kc s', KernelTtyRead 0 (VMEM_1_BASE + 0) 2 demo = Switch kc s' /\
  parked 100 (mkKctxt (KTtyRead 0 (VMEM_1_BASE + 0) 2) (demo_frame 1)) s'.
Proof.
  destruct (tty_read_spec demo 10000 11000 demo_qs demo_ms demo_view demo_view' 0 NULL 80 [] 88 [510] (demo_buffer 0)
    (VMEM_1_BASE + 0) (demo_locs 0 2) None demo_ok demo_tty0 demo_first_waits demo_leave) as (kc & s' & Hr & _ & Hpk).
  - apply demo_buffered. by left.
  - apply demo_read_buffer; by left.
  - exists kc, s'. split; [exact Hr|exact Hpk].
Defined.

Lemma tty_line_roundtrip_witness : exists s1 s2 s3 n1 n2, handleTtyReceive 4 [72; 105; 10] (demo_intr 1) = Ret tt s1 /\
  KernelTtyRead 1 (VMEM_1_BASE + 0) 2 s1 = Ret n1 s2 /\ KernelTtyRead 1 (VMEM_1_BASE + 100) 4 s2 = Ret n2 s3 /\
  (mem_get (k_mem s2) <$> take (Z.to_nat n1) (demo_locs 0 2)) ++ (mem_get (k_mem s3) <$> take (Z.to_nat n2) (demo_locs 100 4)) =
    [72; 105; 10].
Proof.
  destruct (tty_line_roundtrip (demo_intr 1) 10000 11000 demo_qs demo_ms demo_view 1 520 96 [] 104 (demo_buffer 1) [72; 105; 10]
    (VMEM_1_BASE + 0) (demo_locs 0 2) (VMEM_1_BASE + 100) (demo_locs 100 4) (demo_intr_ok 1) eq_refl)
    as (s1 & s2 & s3 & n1 & n2 & H1 & H2 & H3 & H4 & _).
  - by split.
  - apply demo_intr_buffered. by right.
  - vm_compute. lia.
  - vm_compute. lia.
  - apply (read_buffer_pt demo); [done|]. apply demo_read_buffer; [by right|by left|by left].
  - apply (read_buffer_pt demo); [done|]. apply demo_read_buffer; by right.
  - exists s1, s2, s3, n1, n2. split; [exact H1|]. split; [exact H2|]. split; [exact H3|exact H4].
Defined.
