(* ===== verification/ClaimsExit.v ===== *)
(** The system call [Exit], and its use on the concrete kernel of Demo. *)

From stdpp Require Import base gmap sets list.
From S2P Require Import Prelude Hardware Queue HashMap FrameList State UserMem Scheduler GeneralCalls Machine PageTable.
From S2P Require Import SwitchLaws SchedView SchedLaws Steps CopyLaws TtyLaws CallLaws ExitLaws WaitLaws Demo.

Section claims.
Context {QH MH : Type} `{HL : HardwareLaws} `{QO : QueueOps QH} `{MO : MapOps MH}
  `{QL : !QueueLaws QH} `{ML : !MapLaws MH} `{FS : LoadProgram.FileSystem}.
Abbreviation kst := (kst QH MH).
Implicit Types s : kst.

(** C12. [exitProcess] by a process with a parent.  When all children that the
    process ever forked still have their PCBs: the parent has a zombie with its
    pid and exit status, behind those it had, and is unblocked; the children
    have no parent any more; the PCB is gone, and the frames of its region 1
    and of its kernel stack are free; the next ready process goes on where it
    was suspended, in a kernel that is in order and knows all processes but
    this one.  When one of the children is no more, having exited before, the
    behaviour is undefined: [removeParent] writes to the freed PCB, because
    nothing takes a child out of its parent's [childrenMap]. *)
Theorem exit_spec s t0 qs ms v x tb cm m zx zs fs all avail par y zq ys v' status :
  can_delete s t0 qs ms v x tb cm zx zs fs all avail -> zombies_ok s -> ms !! cm = Some m ->
  (forall k c, m !! k = Some c -> c <> v_run v) -> parent x = par -> par <> NULL -> par <> v_run v ->
  is_parent s qs par y zq ys -> (zx <> NULL -> zq <> zx) -> v_exit (v_unblock (pid y) v) = Some v' ->
  ((forall k c, m !! k = Some c -> is_Some (pcbs (k_obj s) !! c)) ->
   exists kc s' qs' ms' q z, exitProcess status s = Switch kc s' /\ kernel_ok s' t0 qs' ms' v' /\
     zombieQ <$> pcbs (k_obj s') !! par = Some (Some q) /\ qs' !! q = Some (ys ++ [z]) /\
     zombies (k_obj s') !! z = Some (mkZombie (pid x) status) /\
     pcbs (k_obj s') !! v_run v = None /\
     (forall k c, m !! k = Some c -> parent <$> pcbs (k_obj s') !! c = Some NULL) /\
     fl_rep (k_fl s') (numFrames (k_glob s)) all
       (avail ∪ (list_to_set (frames_of (k_pt s) tb (seqZ 0 MAX_PT_LEN) ++ fs) ∩ all)) /\
     (forall kp, parked (v_run v') kp s -> kc = kp)) /\
  (forall k c, m !! k = Some c -> pcbs (k_obj s) !! c = None -> exitProcess status s = Undef).
Proof.
  intros Hcd Hzs Hm Hne Hpar Hpn Hpv Hip Hzz Hv. split; [intros Hch|intros k c Hc Hn; by eapply exitProcess_undef].
  assert (can_exit s t0 qs ms v x tb cm m zx zs fs all avail) as Hce by (split; [done..|intros k c Hc; by eauto]).
  destruct (exitProcess_ok s t0 qs ms v x tb cm m zx zs fs all avail par y zq ys v' status Hce Hpar Hpn Hpv Hip Hzz Hv)
    as (kc & s' & qs' & q & z & Hrun & Hok & [Hgone Hch' Hfl Hpk] & Hq & Hz & Hzb & _).
  by exists kc, s', qs', (delete cm (<[blockedMap (k_sched s) := v_blocked v']> ms)), q, z.
Qed.

(** C13. A process, all of whose children still have their PCBs, exits while
    its parent is in [KernelWait a].  Whatever happens then, as long as it
    leaves the parent alone: when it is the parent's turn again, [KernelWait]
    returns the pid of the child, the bytes at [a], in the parent's memory, are
    those of the status that the child exited with, and the zombie is gone.
    (A process with a child that has exited before does not get this far: its
    own exit is undefined behaviour, as [exit_spec] says; init.c has such a
    child.) *)
Theorem exit_status_reaches_parent s t0 qs ms v x tb cm m zx zs fs all avail par y zq v' status a u rp locs :
  can_exit s t0 qs ms v x tb cm m zx zs fs all avail -> parent x = par -> par <> NULL -> par <> v_run v ->
  is_parent s qs par y zq [] -> (zx <> NULL -> zq <> zx) -> v_exit (v_unblock (pid y) v) = Some v' -> v_run v' <> par ->
  parked par (mkKctxt (KWait a) u) s -> r1PageTable y = Some rp ->
  mapped_in (k_pt s) rp a PROT_WRITE locs -> length locs = 4%nat -> NoDup locs ->
  exists kc s' qs' ms' q z, exitProcess status s = Switch kc s' /\ kernel_ok s' t0 qs' ms' v' /\ qs' !! q = Some [z] /\
    still_waits s' s' qs' par rp q z /\
    forall s1 qs1 ms1 v1 r k, kernel_ok s1 t0 qs1 ms1 v1 -> v_ready v1 = par :: r -> still_waits s' s1 qs1 par rp q z ->
      exists s2 s3, kickProcess k s1 = Switch (mkKctxt (KWait a) u) s2 /\ resume (KWait a) (with_frame u s2) = Ret tt s3 /\
        k_frame s3 = returned (pid x) u /\ mem_get (k_mem s3) <$> locs = int_bytes status /\ zombies (k_obj s3) !! z = None.
Proof.
  intros Hce Hpar Hpn Hpv Hip Hzz Hv Hother Hpk Hrp Hm Hlen Hnd. pose proof (ce_delete _ _ _ _ _ _ _ _ _ _ _ _ _ _ Hce) as Hcd.
  destruct (exitProcess_ok s t0 qs ms v x tb cm m zx zs fs all avail par y zq [] v' status Hce Hpar Hpn Hpv Hip Hzz Hv)
    as (kc & s' & qs' & q & z & Hrun & Hok & Hex & Hq & Hz & Hzb & Hzn & Hqr).
  set (ms' := delete cm _) in Hok. exists kc, s', qs', ms', q, z. split; [done|]. split; [done|]. split; [done|]. split; [by split|].
  destruct (ex_parked _ _ _ _ _ _ _ _ _ _ _ Hex par _ (not_eq_sym Hother) Hpv Hpk) as (_ & x' & Hx' & Hkx).
  pose proof (ex_others _ _ _ _ _ _ _ _ _ _ _ Hex par Hpv) as Hr1. rewrite Hx', (ip_pcb _ _ _ _ _ _ Hip) in Hr1.
  injection Hr1 as Hr1 _. rewrite Hrp in Hr1.
  assert (zombieQ x' = Some q) as Hzq by (rewrite Hx' in Hq; by injection Hq).
  assert (apart t0 rp) as Hap0.
  { destruct (pk_r1 _ _ _ (so_pcb _ _ (ko_sys _ _ _ _ _ Hok) _ _ Hx')) as (? & ? & _ & ?). congruence. }
  pose proof (cd_apart _ _ _ _ _ _ _ _ _ _ _ _ _ Hcd par y rp (ip_pcb _ _ _ _ _ _ Hip) Hpv Hrp) as Hapt.
  assert (waits s' qs' par a u rp q z [] (mkZombie (pid x) status) locs) as Hw.
  { split; [by exists x'|done|done|]. split; [|done]. eapply mapped_in_entries; [|exact Hm].
    intros i Hi. by apply (ex_entries _ _ _ _ _ _ _ _ _ _ _ Hex). }
  intros s1 qs1 ms1 v1 r k Hok1 Hrd Hst.
  destruct (wait_goes_on s1 t0 qs1 ms1 v1 par r a u rp q z [] _ locs k Hok1 Hrd (waits_still _ _ _ _ _ _ _ _ _ _ _ _ Hw Hst))
    as (v2 & s2 & s3 & _ & Hk2 & Hres & _ & _ & Hf3 & Hm3 & Hz3).
  exists s2, s3. split; [done|]. split; [done|]. split; [done|]. split; [rewrite Hm3; by apply mem_get_write|].
  rewrite Hz3. apply lookup_delete_eq.
Qed.
End claims.

(** ** On the concrete kernel *)

(** Process 1 is a child of process 4, which is in [KernelWait]: the status is
    to be stored in its first page. *)
Definition demo_waiter (kc : KernelContext) : PCB_t := mkPCB 4 (Some VMEM_1_BASE) (Some (demo_frame 4)) (Some (KSaved kc))
  (Some 856) 0 NULL (Some NULL) (Some 15000) 0 [Some 48; Some 49].
Definition demo_wait : KernelContext := mkKctxt (KWait (VMEM_1_BASE + 100)) (demo_frame 4).
Definition demo_exiting : kst QueueImpl.qheap mheap := upd_pcb 500 (demo_waiter demo_wait) (upd_pcb 100 (with_parent 500 demo_pcb1) demo).
Definition waiter_locs : list (Z * Z) := [(23, 100); (23, 101); (23, 102); (23, 103)].

Lemma demo_exiting_ok : kernel_ok demo_exiting 10000 demo_qs demo_ms demo_view.
Proof.
  apply (kernel_ok_parked _ _ _ _ _ 500 (demo_waiter (mkKctxt (KCvarWait 0) (demo_frame 4)))); [|reflexivity|discriminate].
  eapply (kernel_ok_upd_pcb demo); [apply demo_ok|reflexivity|]. repeat split. by eexists.
Qed.

Lemma demo_can_exit : can_exit demo_exiting 10000 demo_qs demo_ms demo_view (with_parent 500 demo_pcb1) 11000 856
  (<[2 := 300]> ∅) 56 [800] [40; 41] (pfns demo_frames) (free_pfns demo_frames).
Proof.
  split; [split| | |].
  - apply demo_exiting_ok.
  - reflexivity.
  - reflexivity.
  - intros p y r Hp Hne Hr. cbn [k_obj pcbs demo_exiting upd_pcb with_obj with_pcbs] in Hp.
    apply lookup_insert_Some in Hp as [[_ <-]|[_ Hp]]; [injection Hr as <-; unfold apart; vm_compute; intuition discriminate|].
    apply lookup_insert_Some in Hp as [[<- _]|[_ Hp]]; [done|].
    each_pcb Hp; try done; injection Hr as <-; unfold apart; vm_compute; intuition discriminate.
  - split; [reflexivity|]. split; [by eexists|]. split; discriminate.
  - split; [reflexivity|]. split; [right; split; [reflexivity|discriminate]|]. split; [apply NoDup_singleton|].
    intros z ->%list_elem_of_singleton. by eexists.
  - by apply demo_has_stack.
  - apply demo_fl_rep.
  - intros z [y Hz]. cbn in Hz. apply lookup_insert_Some in Hz as [[<- _]|[_ Hz]]; [vm_compute; intuition congruence|].
    by rewrite lookup_empty in Hz.
  - reflexivity.
  - intros k c Hc. apply lookup_insert_Some in Hc as [[_ <-]|[_ Hc]]; [|by rewrite lookup_empty in Hc].
    split; [discriminate|]. by eexists.
Qed.

(** Process 1 exits with status 7: process 4 has its zombie and is ready,
    process 0 runs. *)
Lemma exit_spec_witness : exists kc s' q z qs' ms', exitProcess 7 demo_exiting = Switch kc s' /\
  kernel_ok s' 10000 qs' ms' (mkView 200 [500] (<[2 := 300]> ∅) (<[3 := 400]> ∅)) /\
  qs' !! q = Some [z] /\ zombies (k_obj s') !! z = Some (mkZombie 1 7) /\ pcbs (k_obj s') !! 100 = None.
Proof.
  destruct (exit_spec demo_exiting 10000 demo_qs demo_ms demo_view (with_parent 500 demo_pcb1) 11000 856 (<[2 := 300]> ∅) 56 [800]
    [40; 41] (pfns demo_frames) (free_pfns demo_frames) 500 (demo_waiter demo_wait)
    NULL [] (mkView 200 [500] (<[2 := 300]> ∅) (<[3 := 400]> ∅)) 7 (ce_delete _ _ _ _ _ _ _ _ _ _ _ _ _ _ demo_can_exit)
    (ce_zombies _ _ _ _ _ _ _ _ _ _ _ _ _ _ demo_can_exit) (ce_map _ _ _ _ _ _ _ _ _ _ _ _ _ _ demo_can_exit)) as [Hex _].
  - intros k c Hc. exact (proj1 (ce_children _ _ _ _ _ _ _ _ _ _ _ _ _ _ demo_can_exit k c Hc)).
  - reflexivity.
  - discriminate.
  - discriminate.
  - split; [reflexivity|reflexivity|by left].
  - discriminate.
  - vm_compute. reflexivity.
  - destruct Hex as (kc & s' & qs' & ms' & q & z & H1 & H2 & _ & H4 & H5 & H6 & _).
    { intros k c Hc. exact (proj2 (ce_children _ _ _ _ _ _ _ _ _ _ _ _ _ _ demo_can_exit k c Hc)). }
    exists kc, s', q, z, qs', ms'. split; [exact H1|]. split; [exact H2|]. split; [exact H4|]. split; [exact H5|exact H6].
Defined.

(** Process 0 runs when the child is gone; when it gives the processor away,
    process 4 gets pid 1 and the status 7. *)
Lemma exit_status_reaches_parent_witness : exists kc s' s2 s3, exitProcess 7 demo_exiting = Switch kc s' /\
  kickProcess KClock s' = Switch demo_wait s2 /\ resume (KWait (VMEM_1_BASE + 100)) (with_frame (demo_frame 4) s2) = Ret tt s3 /\
  k_frame s3 = returned 1 (demo_frame 4) /\ mem_get (k_mem s3) <$> waiter_locs = int_bytes 7.
Proof.
  destruct (exit_status_reaches_parent demo_exiting 10000 demo_qs demo_ms demo_view (with_parent 500 demo_pcb1) 11000 856 (<[2 := 300]> ∅)
    56 [800] [40; 41] (pfns demo_frames) (free_pfns demo_frames) 500 (demo_waiter demo_wait) NULL
    (mkView 200 [500] (<[2 := 300]> ∅) (<[3 := 400]> ∅)) 7 (VMEM_1_BASE + 100) (demo_frame 4) 15000 waiter_locs demo_can_exit)
    as (kc & s' & qs' & ms' & q & z & H1 & H2 & _ & H3 & H4).
  - reflexivity.
  - discriminate.
  - discriminate.
  - split; [reflexivity|reflexivity|by left].
  - discriminate.
  - vm_compute. reflexivity.
  - discriminate.
  - split; [discriminate|]. eexists. split; reflexivity.
  - reflexivity.
  - intros i l Hl. do 4 (destruct i as [|i]; [injection Hl as <-; vm_compute; intuition congruence|]). done.
  - reflexivity.
  - apply (bool_decide_unpack _). exact I.
  - destruct (H4 s' qs' ms' (mkView 200 [500] (<[2 := 300]> ∅) (<[3 := 400]> ∅)) [] KClock H2 eq_refl H3) as (s2 & s3 & H5 & H6 & H7 & H8 & _).
    exists kc, s', s2, s3. split; [exact H1|]. split; [exact H5|]. split; [exact H6|]. split; [exact H7|exact H8].
Defined.
