(* ===== verification/ClaimsLoad.v ===== *)
(** Loading programs and the system call [Exec]: the properties, each with a
    witness on the concrete kernel of Demo. *)

From stdpp Require Import base gmap sets list.
From S2P Require Import Prelude Hardware Queue HashMap FrameList State UserMem Scheduler LoadProgram GeneralCalls Machine PageTable.
From S2P Require Import SwitchLaws SchedView SchedLaws CopyLaws CallLaws ExitLaws SpaceLaws LoadLaws ExecLaws Demo.

Section claims.
Context {QH MH : Type} `{HL : HardwareLaws} `{QO : QueueOps QH} `{MO : MapOps MH}
  `{QL : !QueueLaws QH} `{ML : !MapLaws MH} `{FS : FileSystem}.
Abbreviation kst := (kst QH MH).
Implicit Types s : kst.

(** C15. [LoadProgram] with enough free frames replaces the program of a
    process.  The frames of its old pages are free and as many as the new
    program needs are taken, all different; the text can be read and executed
    but not written, the data and the stack can be read and written, no other
    page is valid.  The program reads its text, its data, zeros behind them, and
    on its stack the count of its arguments, the pointers to them, each a
    string, and two NULLs.  Stack pointer and program counter are the new
    program's; no other frame changes.  The break is [VMEM_1_BASE] plus one page
    for each page of data and text.  The comment in the code calls this the next
    page after the data, which it is if and only if the pages before the data
    are those of the text: it lies lower when the program leaves a gap before
    its text or its data. *)
Theorem load_program_spec s t0 t1 p x u name args fd li all avail : can_load s t0 t1 p x u name args fd li all avail ->
  let av := given_back all avail (frames_of (k_pt s) t1 (seqZ 0 MAX_PT_LEN)) in
  exists tf df sf s', LoadProgram name args p s = Ret SUCCESS s' /\
    space (k_pt s') t1 li args PROT_RX tf df sf /\
    NoDup (tf ++ df ++ sf) /\ list_to_set (tf ++ df ++ sf) ⊆ av /\
    fl_rep (k_fl s') (numFrames (k_glob s')) all (av ∖ list_to_set (tf ++ df ++ sf)) /\
    read_bytes (t_vaddr li) (length (program_text fd li)) s' = Ret (program_text fd li) s' /\
    read_bytes (id_vaddr li) (length (program_image fd li)) s' = Ret (program_image fd li) s' /\
    args_on_stack s' args /\
    (let brk := VMEM_1_BASE + (data_npg li + t_npg li) * PAGESIZE in
     let after_data := id_vaddr li + data_npg li * PAGESIZE in
     pcbs (k_obj s') = <[p := with_brk (Some brk) (with_uctxt (Some (program_uctxt li args u)) x)]> (pcbs (k_obj s)) /\
     brk <= after_data /\ (brk = after_data <-> data_pg1 li = t_npg li)) /\
    wrote (tf ++ df ++ sf) (k_mem s) (k_mem s') /\
    pt_upd (entries_of t1 (seqZ 0 MAX_PT_LEN)) (k_pt s) (k_pt s').
Proof.
  intros Hcan av.
  destruct (LoadProgram_ok s t0 t1 p x u name args fd li all avail Hcan)
    as (tf & df & sf & a & t' & f' & m & Hrun & Hfill & Hwr & Hnd & Hsub & Hfl & Hupd & _). cbn zeta in Hrun.
  set (s' := with_mem m _) in Hrun. exists tf, df, sf, s'.
  destruct Hcan as [Hvm _ _ _ Hfits Htx Hdt _ _ _].
  destruct (filled_loaded s' t0 t1 li args fd tf df sf Hfits) as [H1 H2 H3 H4]; [by eapply pt_upd_vm|done..|].
  destruct Hfits as [_ _ _ Hdata [Ht Hord] _ _ _]. pose proof PAGESIZE_pos.
  do 8 (split; [done|]). split; [|by split]. cbn zeta. split; [done|]. rewrite Hdata. split; [nia|]. split; [intros Heq; nia|intros ->; lia].
Qed.

(** C14. [KernelExec] by the running process for a file that is a program,
    with enough free frames for it, those of its old program included: it
    starts again, in the starter context on a fresh kernel stack, with the new
    program in its region 1; it leaves the kernel at the program's entry point,
    on the new stack.  All other processes are as before and the kernel is in
    order. *)
Theorem kernel_exec_spec s t0 t1 qs ms v x u fs filename argvec name args fd li all avail kc :
  can_exec s t0 t1 qs ms v x u fs filename argvec name args fd li all avail kc ->
  let av := given_back all avail (frames_of (k_pt s) t1 (seqZ 0 MAX_PT_LEN)) in
  exists tf df sf s', KernelExec filename argvec s = Switch kc s' /\ kernel_ok s' t0 qs ms v /\
    loaded s' t1 args fd li tf df sf /\ wrote (fs ++ tf ++ df ++ sf) (k_mem s) (k_mem s') /\
    NoDup (tf ++ df ++ sf) /\ list_to_set (tf ++ df ++ sf) ⊆ av /\
    fl_rep (k_fl s') (numFrames (k_glob s')) all (av ∖ list_to_set (tf ++ df ++ sf)) /\
    (forall p, p <> v_run v -> pcbs (k_obj s') !! p = pcbs (k_obj s) !! p) /\
    (forall f, resume KStart (with_frame f s') = Ret tt (with_frame (program_uctxt li args u) s')).
Proof.
  intros Hcan av. destruct (KernelExec_ok _ _ _ _ _ _ _ _ _ _ _ _ _ _ _ _ _ _ Hcan)
    as (tf & df & sf & s' & Hrun & Hok & Hl & Hw & Hnd & Hsub & Hfl & Hp & _).
  exists tf, df, sf, s'. split_and!; try done.
  - intros p Hne. by rewrite Hp, lookup_insert_ne.
  - intros f. cbn [resume]. unfold start_finish. kmon. cbn [k_sched with_frame].
    rewrite (sr_run _ _ _ _ (ko_sched _ _ _ _ _ Hok)).
    assert (pcbs (k_obj (with_frame f s')) !! v_run v = Some (exec_pcb kc li args u x)) as Hx
      by (cbn; rewrite Hp; apply lookup_insert_eq).
    step (load_pcb_ok _ _ _ Hx). done.
Qed.

(** C16. [KernelExec] refuses, with [ERROR] and without any change of the
    caller, a file that does not exist, is not a program, begins below region 1
    or has no room beside its stack.  For a file that is not a program this
    needs [ERROR] to be -1, the value that [LoadProgram] then returns. *)
Theorem exec_refused s t0 t1 filename argvec name args : vm_on (k_pt s) t0 t1 -> user_string s filename name ->
  user_argv s argvec args -> (length args < Z.to_nat (VMEM_1_LIMIT - argvec))%nat ->
  (match open_file name with
   | None => True
   | Some fd => match LoadInfo fd with
     | None => ERROR = -1
     | Some li => LoadProgram.entry li < VMEM_1_BASE \/ MAX_PT_LEN <= stack_npg args + data_pg1 li + data_npg li
     end
   end) ->
  KernelExec filename argvec s = Ret ERROR s.
Proof.
  intros Hvm Hname Hargs Hvec Hbad. unfold KernelExec. step (user_string_valid _ _ _ _ _ Hvm Hname). cbn [negb].
  step (exec_args_ok _ _ _ _ _ Hvm Hargs _ Hvec). step (user_string_read _ _ _ Hname). kmon.
  assert (LoadProgram name args (currPCB (k_sched s)) s = Ret ERROR s) as Hload.
  { unfold LoadProgram. destruct (open_file name) as [fd|]; [|done]. destruct (LoadInfo fd) as [li|]; [|by rewrite Hbad].
    destruct (Z.ltb_spec (LoadProgram.entry li) VMEM_1_BASE); [done|].
    destruct (Z.leb_spec MAX_PT_LEN (stack_npg args + data_pg1 li + data_npg li)); [done|]. destruct Hbad; lia. }
  step Hload. pose proof ERROR_neg. unfold KILL. destruct (Z.eqb_spec ERROR 42); [lia|]. mon. by rewrite Z.eqb_refl.
Qed.
End claims.

(** ** On the concrete kernel *)

(** The only file is a program with a page of text, a page of data, 16 bytes
    of it initialised, and a page for zeros. *)
Definition small_program : load_info := mkLoadInfo 0x100040 0x100000 1 0 0x102000 1 0x2000 0x102010 1 0x104020.
#[local] Instance one_program : FileSystem := {|
  file := unit; open_file name := if bool_decide (name = [65; 66; 67]) then Some tt else None;
  LoadInfo _ := Some small_program; read_file _ off n := repeat (off mod 251) (Z.to_nat n) |}.

Definition demo_fd : @file one_program := tt.

(** Process 1 has the string "ABC" at the beginning of region 1 and a vector
    with one pointer to it at offset 16. *)
Definition demo_exec : kst QueueImpl.qheap mheap := with_mem (mem_set (k_mem demo) (20, 18) 16) demo.
Definition demo_args : list (list Z) := [[65; 66; 67]].

Lemma demo_exec_string : user_string demo_exec VMEM_1_BASE [65; 66; 67].
Proof.
  split; [vm_compute; intuition congruence|]. split; [vm_compute; reflexivity|].
  split; [apply (bool_decide_unpack _); vm_compute; exact I|].
  exists (demo_locs 0 4). split; [apply mapped_check; vm_cast_no_check (eq_refl true)|reflexivity].
Qed.

Lemma demo_exec_argv : user_argv demo_exec (VMEM_1_BASE + 16) demo_args.
Proof.
  apply (user_argv_cons _ _ VMEM_1_BASE [65; 66; 67]); [|apply demo_exec_string|apply user_argv_nil].
  - assert (mapped demo_exec (VMEM_1_BASE + 16) PROT_READ (demo_locs 16 4)) as Hm
      by (apply mapped_check; vm_cast_no_check (eq_refl true)).
    rewrite <- (Z.add_0_r (VMEM_1_BASE + 16)). by apply (read_int_inside demo_exec _ _ VMEM_1_BASE [] [] Hm).
  - assert (mapped demo_exec (VMEM_1_BASE + 16 + 4) PROT_READ (demo_locs 20 4)) as Hm
      by (apply mapped_check; vm_cast_no_check (eq_refl true)).
    rewrite <- (Z.add_0_r (VMEM_1_BASE + 16 + 4)). by apply (read_int_inside demo_exec _ _ NULL [] [] Hm).
Qed.

Lemma small_program_fits : fits small_program demo_args.
Proof. split; vm_compute; intuition congruence. Qed.

Lemma demo_can_load : can_load demo_exec 10000 11000 100 demo_pcb1 (demo_frame 1) [65; 66; 67] demo_args demo_fd small_program
  (pfns demo_frames) (free_pfns demo_frames).
Proof.
  split.
  - apply demo_vm_on.
  - destruct demo_mem_ok as [H1 H2 H3]. split; [exact H1|exact H2|exact H3].
  - done.
  - done.
  - apply small_program_fits.
  - vm_compute. reflexivity.
  - vm_compute. reflexivity.
  - apply demo_fl_rep.
  - exact demo_frames_fit.
  - apply (bool_decide_unpack _). vm_cast_no_check I.
Qed.

Lemma load_program_spec_witness : exists s', LoadProgram [65; 66; 67] demo_args 100 demo_exec = Ret SUCCESS s' /\
  read_bytes 0x102000 (length (program_image demo_fd small_program)) s' = Ret (program_image demo_fd small_program) s' /\
  read_int (args_cpp demo_args) s' = Ret 1 s'.
Proof.
  destruct (load_program_spec demo_exec 10000 11000 100 demo_pcb1 (demo_frame 1) [65; 66; 67] demo_args demo_fd small_program
    (pfns demo_frames) (free_pfns demo_frames) demo_can_load)
    as (tf & df & sf & s' & H1 & _ & _ & _ & _ & _ & H2 & [H3 _ _] & _).
  exists s'. split; [exact H1|]. split; [exact H2|exact H3].
Defined.

Lemma demo_exec_ok : kernel_ok demo_exec 10000 demo_qs demo_ms demo_view.
Proof. by apply (kernel_ok_ext demo), demo_ok. Qed.

Lemma demo_can_exec : can_exec demo_exec 10000 11000 demo_qs demo_ms demo_view demo_pcb1 (demo_frame 1) [40; 41]
  VMEM_1_BASE (VMEM_1_BASE + 16) [65; 66; 67] demo_args demo_fd small_program (pfns demo_frames) (free_pfns demo_frames)
  (mkKctxt KStart (demo_frame 0)).
Proof.
  split.
  - apply demo_exec_ok.
  - apply demo_can_load.
  - apply demo_exec_string.
  - apply demo_exec_argv.
  - apply Nat.ltb_lt. vm_compute. reflexivity.
  - split; [by apply demo_has_stack|]. intros i Hi. change STACK_PAGES with 2 in Hi.
    assert (i = 0 \/ i = 1) as [->| ->] by lia; by eexists.
  - assert (Forall (fun f => f ∉ given_back (pfns demo_frames) (free_pfns demo_frames)
      (frames_of demo_pt 11000 (seqZ 0 MAX_PT_LEN))) [40; 41]) as Hall by (apply (bool_decide_unpack _); vm_cast_no_check I).
    rewrite Forall_forall in Hall. exact Hall.
  - reflexivity.
Qed.

Lemma kernel_exec_spec_witness : exists s', KernelExec VMEM_1_BASE (VMEM_1_BASE + 16) demo_exec =
    Switch (mkKctxt KStart (demo_frame 0)) s' /\ kernel_ok s' 10000 demo_qs demo_ms demo_view /\
  exists u, resume KStart (with_frame (demo_frame 0) s') = Ret tt (with_frame u s') /\ uc_pc u = 0x100040.
Proof.
  destruct (kernel_exec_spec demo_exec 10000 11000 demo_qs demo_ms demo_view demo_pcb1 (demo_frame 1) [40; 41]
    VMEM_1_BASE (VMEM_1_BASE + 16) [65; 66; 67] demo_args demo_fd small_program (pfns demo_frames) (free_pfns demo_frames)
    (mkKctxt KStart (demo_frame 0)) demo_can_exec) as (tf & df & sf & s' & H1 & H2 & _ & _ & _ & _ & _ & _ & H3).
  exists s'. split; [exact H1|]. split; [exact H2|]. exists (program_uctxt small_program demo_args (demo_frame 1)).
  split; [exact (H3 (demo_frame 0))|reflexivity].
Defined.

(** There is no file with an empty name; the zero at offset 3 is one. *)
Lemma exec_refused_witness : KernelExec (VMEM_1_BASE + 3) (VMEM_1_BASE + 16) demo_exec = Ret ERROR demo_exec.
Proof.
  apply (exec_refused demo_exec 10000 11000 (VMEM_1_BASE + 3) (VMEM_1_BASE + 16) [] demo_args).
  - apply demo_vm_on.
  - split; [vm_compute; intuition congruence|]. split; [vm_compute; reflexivity|].
    split; [apply (bool_decide_unpack _); vm_compute; exact I|].
    exists (demo_locs 3 1). split; [apply mapped_check; vm_cast_no_check (eq_refl true)|reflexivity].
  - apply demo_exec_argv.
  - apply Nat.ltb_lt. vm_compute. reflexivity.
  - exact I.
Defined.
