(* ===== verification/ClaimsBuffers.v ===== *)
(** The buffers of pipes and terminals are never overrun: the property, with a
    witness on the machine of Boot. *)

From stdpp Require Import base gmap list relations.
From S2P Require Import Prelude Hardware Linked Queue HashMap FrameList PageTable State UserMem Scheduler SyncObjects LoadProgram GeneralCalls Tty Machine.
From S2P Require Import Keeps Stable Managed Buffers Boot.

(** There is no pipe, no process, no terminal buffer and no saved context yet. *)
Record nothing_yet {QH MH} (s : kst QH MH) : Prop := {
  ny_pipes : pipes (k_obj s) = ∅;
  ny_pcbs : pcbs (k_obj s) = ∅;
  ny_ttys : Forall (fun b => b = None) (buffers (k_tty s));
  ny_starter : starterKctxt (k_glob s) = None
}.

Section claims.
Context {QH MH : Type} `{HL : HardwareLaws} `{QO : QueueOps QH} `{MO : MapOps MH} `{QR : !QueueRuns QH} `{MR : !MapRuns MH}
  `{FS : FileSystem}.
Abbreviation kst := (kst QH MH).

Lemma nothing_yet_ok (s : kst) : nothing_yet s -> buffers_ok False s.
Proof.
  intros [Hp Hx Hb Hk]. split; [rewrite Hp; apply map_Forall_empty| |rewrite Hx; apply map_Forall_empty|by rewrite Hk|done].
  intros i b Hi _. rewrite Forall_lookup in Hb. by specialize (Hb _ _ Hi).
Qed.
Lemma KernelStart_ends_in D args pmem (s0 s : kst) : nothing_yet s0 -> ends_in (KernelStart D args pmem s0) s -> buffers_ok False s.
Proof.
  intros H0 Hrun. pose proof (KernelStart_fits D args pmem s0 (nothing_yet_ok s0 H0)) as Hs.
  destruct (KernelStart _ _ _ s0); cbn in Hrun; subst; [by eapply buffers_ok_out, Hs|done..].
Qed.

(** C9. Buffers. [KernelStart], on a machine that has no pipe, process or
    terminal buffer yet, and then any number of turns of processes, each with
    user code that changes memory and registers and a trap of any kind, or with
    the rest of what the process was doing in the kernel, as its PCB says.  At
    the end of each turn every pipe has a buffer of [PIPE_MAX_BYTES]
    bytes, says that it holds between 0 and [PIPE_MAX_BYTES] of them, and
    every byte that it says it holds was written; every terminal's buffer is
    where [initBuffers] put it, holds less than [TERMINAL_MAX_LINE] bytes, and
    none when no line is ready; and when a terminal's share of the page is not
    shorter than a line, the bytes of different terminals do not overlap.
    ([TtyReceive] stores no more than it was asked for; [TtyBuffer] relies on
    it.) *)
Theorem buffers_never_overrun D args pmem (s0 s s' : kst) : nothing_yet s0 ->
  ends_in (KernelStart D args pmem s0) s -> rtc kernel_turn s s' ->
  (forall p x, pipes (k_obj s') !! p = Some x -> pipe_fits x) /\
  (forall i b, 0 <= i -> buffers (k_tty s') !! Z.to_nat i = Some (Some b) -> buffer_fits buffer_page i b /\
    forall j c, 0 <= j -> i < j -> buffers (k_tty s') !! Z.to_nat j = Some (Some c) -> TERMINAL_MAX_LINE <= TTY_READ_BUFFER_SIZE ->
      base b + tty_numBytesWritten b <= base c).
Proof.
  intros H0 Hstart Hrun.
  assert (buffers_ok False s') as [Hp Hb _ _ _] by (eapply kernel_turns_fit; [exact Hrun|]; by eapply KernelStart_ends_in).
  split; [done|]. intros i b Hi Hib. split; [by apply Hb|]. intros j c Hj Hij Hjc Hsize.
  destruct (Hb i b Hib Hi) as [-> [Hn0 Hn] _], (Hb j c Hjc Hj) as [-> _ _]. nia.
Qed.
End claims.

(** ** Witness *)

#[local] Existing Instance one_file.

Definition got_line (o : outcome kernel unit) : bool :=
  match o with
  | Ret _ s => match buffers (k_tty s) !! 2%nat with Some (Some b) => tty_numBytesWritten b =? 3 | _ => false end
  | _ => false
  end.
#[local] Abbreviation started_boot := (KernelStart idle_pc [] 0x200000 booting : outcome kernel unit).
#[local] Abbreviation line_arrives s :=
  (interruptVectorArray 10 (TRAP_TTY_RECEIVE 4 [104; 105; 10]) (with_frame (mkUctxt 2 0 0 0 0 (repeat 0 8)) (with_mem (k_mem s) s)) : outcome kernel unit).

(** A line of three bytes arrives at the terminal 2. *)
Lemma buffers_never_overrun_witness : exists s s' b, rtc kernel_turn s s' /\
  buffers (k_tty s') !! Z.to_nat 2 = Some (Some b) /\ tty_numBytesWritten b = 3 /\ buffer_fits buffer_page 2 b.
Proof.
  assert (match started_boot with Switch _ s => got_line (line_arrives s) | _ => false end = true) as Hv by (vm_compute; reflexivity).
  destruct started_boot as [|kc s| |] eqn:Hs; try discriminate Hv. unfold got_line in Hv.
  destruct (line_arrives s) as [[] s'| | |] eqn:Ht; try discriminate Hv.
  destruct (buffers (k_tty s') !! 2%nat) as [[b|]|] eqn:Hb; try discriminate Hv.
  assert (kernel_turn s s') as Hturn.
  { apply (kt_trap 10 (TRAP_TTY_RECEIVE 4 [104; 105; 10]) (mkUctxt 2 0 0 0 0 (repeat 0 8)) (k_mem s)); [vm_compute; discriminate|]. rewrite Ht. reflexivity. }
  exists s, s', b. split; [exact (rtc_once _ _ Hturn)|]. split; [exact Hb|]. split; [exact (proj1 (Z.eqb_eq _ _) Hv)|].
  assert (nothing_yet booting) as H0 by (split; [reflexivity|reflexivity|repeat constructor|reflexivity]).
  assert (ends_in (KernelStart idle_pc [] 0x200000 booting) s) as He by (rewrite Hs; reflexivity).
  assert (0 <= 2) as Hi by discriminate.
  exact (proj1 (proj2 (buffers_never_overrun idle_pc [] 0x200000 booting s s' H0 He (rtc_once _ _ Hturn)) 2 b Hi Hb)).
Defined.
