(* ===== verification/ClaimsLocks.v ===== *)
(** Locks exclude: over any run of the kernel, whatever the processes do. *)

From stdpp Require Import base gmap list relations.
From S2P Require Import Prelude Hardware Queue HashMap FrameList State UserMem Scheduler SyncObjects LoadProgram GeneralCalls Tty Machine PageTable.
From S2P Require Import Keeps Stable Managed Ownership SwitchLaws SchedView SchedLaws SyncLaws Steps Demo.

Section claims.
Context {QH MH : Type} `{HL : HardwareLaws} `{QO : QueueOps QH} `{MO : MapOps MH} `{QR : !QueueRuns QH} `{MR : !MapRuns MH}
  `{FS : FileSystem}.
Abbreviation kst := (kst QH MH).
Implicit Types s : kst.

(** C10. Mutual exclusion, in a kernel in any state, with user code that
    changes memory and registers at will and traps of every kind.  A lock that
    the process [p] has stays with [p] through any number of turns of other
    processes (system calls, interrupts, faults, exits, deletions of locks,
    and what processes go on with in the kernel), and meanwhile nobody, [p]
    included, acquires it; a turn of [p] leaves it with [p] or frees it.  A
    lock that is free becomes in one turn at most the lock of the process whose
    turn it is, or is deleted; and a deleted lock is never anybody's again. *)
Theorem mutual_exclusion lockp s : lockp < brk_addr (o_arena (k_obj s)) ->
  match owner lockp s with
  | None => forall s', rtc turn s s' -> owner lockp s' = None
  | Some p =>
    if p =? NULL then
      forall s', turn s s' -> owner lockp s' = Some NULL \/ owner lockp s' = Some (currPCB (k_sched s)) \/ owner lockp s' = None
    else forall s', rtc (turn_of_other p) s s' ->
      owner lockp s' = Some p /\ (forall s'', acquire_loop lockp s' <> Ret SUCCESS s'') /\
      (forall s'', currPCB (k_sched s') = p -> turn s' s'' -> owner lockp s'' = Some p \/ owner lockp s'' = Some NULL)
  end.
Proof.
  intros Hb. destruct (owner lockp s) as [p|] eqn:Ho.
  2: { intros s' Hrun. eapply (turns_lock lockp (fun o => o = None)); [|exact Hrun|done]. intros s1 s2 Ht. split; [done|apply fair_gone]. }
  destruct (Z.eqb_spec p NULL) as [->|Hp].
  - intros s' Ht. eapply (turn_lock lockp _ _ s s' (fair_free _) Ht). split; [done|]. by left.
  - intros s' Hrun. assert (lock_in lockp (fun o => o = Some p) s') as [Hb' Ho'].
    { eapply turns_lock; [|exact Hrun|done]. intros s1 s2 [Hc Ht]. split; [done|by apply fair_owned]. }
    split; [done|]. split; [intros s''; by eapply acquire_loop_owned|].
    intros s'' Hc Ht. pose proof (fair_owner p Hp) as Hf. rewrite <- Hc in Hf at 1. by apply (turn_lock lockp _ _ s' s'' Hf Ht).
Qed.
End claims.

(** ** Witness *)

Definition acquiring (id : Z) (s : kst QueueImpl.qheap mheap) : outcome (kst QueueImpl.qheap mheap) unit :=
  interruptVectorArray 10 TRAP_KERNEL
    (with_frame (mkUctxt (YALNIX LOCK_ACQUIRE) 0 0 0 0 (id :: repeat 0 7)) (with_mem (k_mem s) s)).

(** Process 1 takes the lock 4, which is free, and blocks at the lock 5, which
    process 4 has. *)
Lemma mutual_exclusion_witness : exists s1 s2, turn_of_other 500 demo s1 /\ turn_of_other 500 s1 s2 /\
  owner 620 s1 = Some 100 /\ currPCB (k_sched s2) = 200 /\ owner 630 s2 = Some 500.
Proof.
  assert (match acquiring 4 demo with
          | Ret _ s1 => match acquiring 5 s1 with
                        | Switch _ s2 => Some (currPCB (k_sched s1), owner 620 s1, currPCB (k_sched s2)) | _ => None end
          | _ => None end = Some (100, Some 100, 200)) as Hv by (vm_compute; reflexivity).
  destruct (acquiring 4 demo) as [[] s1| | |] eqn:H1; try discriminate Hv.
  destruct (acquiring 5 s1) as [|kc s2| |] eqn:H2; try discriminate Hv. injection Hv as Hc1 Ho1 Hc2.
  assert (turn_of_other 500 demo s1) as Ht1.
  { split; [discriminate|]. eapply turn_trap. unfold acquiring in H1. rewrite H1. reflexivity. }
  assert (turn_of_other 500 s1 s2) as Ht2.
  { split; [rewrite Hc1; discriminate|]. eapply turn_trap. unfold acquiring in H2. rewrite H2. reflexivity. }
  exists s1, s2. split; [exact Ht1|]. split; [exact Ht2|]. split; [exact Ho1|]. split; [exact Hc2|].
  exact (proj1 (mutual_exclusion 630 demo eq_refl s2 (rtc_l _ _ _ _ Ht1 (rtc_once _ _ Ht2)))).
Defined.
