(* ===== verification/UserTests.v ===== *)
(** The test programs of the repository, run on the whole kernel with the
    example user library and file system of UserLib: test runs, by evaluation. *)

From Stdlib Require Import String.
From stdpp Require Import base gmap list.
From S2P Require Import Prelude Hardware Linked Queue HashMap FrameList PageTable State UserMem Scheduler SyncObjects LoadProgram GeneralCalls Tty Machine.
From S2P Require Import Boot UserPrograms StressTests UserRun UserLib.
#[local] Open Scope string_scope.

(** What is typed at every terminal, whenever it is read. *)
Definition typed_line (_ : Z) : list Z := text "hello, kernel\n".

(** The kernel has started with [main] as the program init. *)
Definition booted (main : user unit) : status :=
  back boot (<[idle_pc := fun _ => DoIdle]> (<[entry_of false := fun _ => main]> {[entry_of true := fun _ => Exectest.main]})) 0x110000.

(** How a run ends, and what was printed until then: the kernel halts, with the
    code and the address of the last trap; it has undefined behaviour in a
    system call; it does neither in the steps allowed. *)
Inductive verdict :=
| Halts (printed : list (Z * list Z)) (code addr : Z)
| Crashes (printed : list (Z * list Z)) (call : option (yalnix_call * list Z))
| Runs (printed : list (Z * list Z)).
Definition verdict_in (steps : Z) (typed : Z -> list Z) (ticks : bool) (main : user unit) : verdict :=
  match booted main with
  | Running w =>
    match urun typed ticks 10 5 (Z.to_nat steps) w with
    | Halting s => Halts (transmitted (k_tty s)) (uc_code (k_frame s)) (uc_addr (k_frame s))
    | Undefined_at w' => Crashes (transmitted (k_tty (u_kernel w'))) (asks w')
    | Going w' => Runs (transmitted (k_tty (u_kernel w')))
    end
  | _ => Runs []
  end.
Definition verdict_of : bool -> user unit -> verdict := verdict_in 20000 typed_line.

(** The lines printed, with their terminals. *)
Definition lines (l : list (Z * string)) : list (Z * list Z) := (fun p => (p.1, text p.2)) <$> l.

Definition init_transcript : list (Z * string) :=
  [(0, "init calling GetPid()...\n");
   (0, "init's pid: 1\n");
   (0, "init calling Delay(1)...\n");
   (0, "malloc'ing 1024 bytes to trigger Brk()...\n");
   (0, "free'ing the 1024 bytes just allocated... \n");
   (0, "init initializing lock...\n");
   (0, "lock id = 0...\n");
   (0, "init initializing cvar...\n");
   (0, "cvar id = 1...\n");
   (0, "init initializing pipe...\n");
   (0, "pipe id = 2...\n");
   (0, "init calling Fork()...\n");
   (0, "child (pid = 2) is trying to acquire lock 0...\n");
   (0, "child (pid = 2) has acquired lock 0...\n");
   (0, "child (pid = 2) calling Delay(1) after acquiring lock.\n");
   (0, "parent is trying to acquire lock 0...\n");
   (0, "condition == 0, so child (pid = 2) calling CvarWait(1, 0)...\n");
   (0, "parent has acquired lock 0...\n");
   (0, "parent calling Delay(2) after forking & acquiring lock.\n");
   (0, "parent is releasing lock 0...\n");
   (0, "parent signaling cvar 1...\n");
   (0, "parent trying to read 20 bytes from pipe 2... (currently there should be nothing in the pipe, and the next time the child wakes up, it will write something into it)\n");
   (0, "condition != 0, so child (pid = 2) is proceeding...\n");
   (0, "child (pid = 2) is releasing lock 0...\n");
   (0, "child writing 10 bytes, " ++ dq ++ "1234567890" ++ dq ++ ", fewer than expected bytes (20) to pipe 2\n");
   (0, "child writing 26 more bytes, " ++ dq ++ "abcdefghijklmnopqrstuvwxyz" ++ dq ++ "; now pipe 2 has 36 bytes, more than the expected length (20 bytes)\n");
   (0, "child is delaying for another 1 ticks so the parent can print the read bytes\n");
   (0, "parent just read 20 characters:\n1234567890abcdefghij\n");
   (0, "child (pid = 2) is calling Fork()...\n");
   (0, "grandchild (pid = 3) is going to test other tty's...\n");
   (1, "Terminal 1, give me (pid = 3) something to read (10 characters):\n");
   (0, "child (pid = 2) is waiting on grandchild (pid = 3)...\n");
   (1, "TtyRead said I read 10 bytes, and I read the following:\nhello, ker\n");
   (2, "Terminal 2, give me (pid = 3) something to read (10 characters):\n");
   (2, "TtyRead said I read 10 bytes, and I read the following:\nhello, ker\n");
   (3, "Terminal 3, give me (pid = 3) something to read (10 characters):\n");
   (3, "TtyRead said I read 10 bytes, and I read the following:\nhello, ker\n");
   (0, "child (pid = 2) resumed from waiting, grandchild (pid = 3) status = 40\n");
   (0, "child (pid = 2) is calling Exec()...\n");
   (0, "In execTest; iteration = 0, about to delay with ticks = 3\n");
   (0, "In execTest; iteration = 1, about to delay with ticks = 3\n");
   (1, "In execTest; Terminal 1, give me (pid = 2) something to read (15 characters):\n");
   (1, "TtyRead said I read 4 bytes, and I read the following:\nnel\n\n");
   (2, "In execTest; Terminal 2, give me (pid = 2) something to read (15 characters):\n");
   (2, "TtyRead said I read 4 bytes, and I read the following:\nnel\n\n");
   (3, "In execTest; Terminal 3, give me (pid = 2) something to read (15 characters):\n");
   (3, "TtyRead said I read 4 bytes, and I read the following:\nnel\n\n")].
Definition orphan_transcript : list (Z * string) :=
  [(0, "init now testing what happens when a parent exits before child does (orphans should keep running). Since init exiting will halt Yalnix, we test this on its child and grandchild.\n");
   (0, "parent calling Fork()...\n");
   (0, "Orphan-test child (pid = 2) calling Fork()...\n");
   (0, "Orphan-test grandchild (pid = 3) calling Delay(3) so orphan-test child can exit first\n");
   (0, "Orphan-test child (pid = 2) exiting immediately after Fork()\n");
   (0, "parent (pid = 1) calling Wait()\n");
   (0, "parent (pid = 1) resumed from Wait(); calling Delay(5) so Yalnix doesn't halt until grandchild has a chance to resume.\n");
   (0, "Orphan-test grandchild (pid = 3) exiting (if this line is printed, grandchild was not orphan-collected)\n");
   (0, "parent (pid = 1) exiting with status = 20\n")].

(** What forktest.c prints: [who] counts down from [i]. *)
Fixpoint countdown (who : list Z) (i : nat) : list (Z * list Z) :=
  (1, (who ++ [32] ++ decimal (Z.of_nat i) ++ [10])%list) ::
  match i with O => [(1, text "Done with recursion\n")] | S i' => countdown who i' end.

(** The signals of torture.c as they are printed: [true] for a ping of
    SonarGuy, [false] for the boing of Bouncer. *)
Definition signals (printed : list (Z * list Z)) : list bool :=
  omap (fun p => if decide (p.2 = text "ping!\n") then Some true
    else if decide (p.2 = text "boing!\n") then Some false else None) printed.
(** Every boing answers a ping of its own. *)
Fixpoint answered (pinged : bool) (l : list bool) : bool :=
  match l with
  | [] => true
  | true :: l' => answered true l'
  | false :: l' => pinged && answered false l'
  end.
Definition signals_in (v : verdict) : option (list bool) := match v with Runs printed => Some (signals printed) | _ => None end.

(** The verdict is a crash in the call [c] after the lines [l], in any order. *)
Definition crashes_after (v : verdict) (l : list (Z * list Z)) (c : yalnix_call * list Z) : Prop :=
  match v with Crashes l' c' => l' ≡ₚ l /\ c' = Some c | _ => False end.
#[local] Instance yalnix_call_dec : EqDecision yalnix_call.
Proof. solve_decision. Defined.
#[local] Instance crashes_after_dec v l c : Decision (crashes_after v l c).
Proof. unfold crashes_after. destruct v; apply _. Defined.

(** The repository's own test programs, on the whole kernel.  init.c prints exactly the lines of [init_transcript]: locks, condition
    variables, the pipe, the terminals, Delay, Fork, Wait and Exec do what it
    expects of them, until its child exits after its own child has: then
    [exitProcess] writes to the freed PCB of the grandchild, which is still in
    the map of the children.  With a tick of the clock after every system call
    the same lines come in another order, with the same end.  Its orphan test
    runs to the halt of the kernel when init exits.  zero.c is killed for its
    write to the text, and bigstack.c gets the stack it writes to.  The two
    processes of forktest.c get stack and heap for 34 nested calls each, and
    print their countdowns.  torture.c, six processes at a time, is still
    running after 10000 steps: with a clock that is slow the pings and boings of
    its condition variable alternate; with a tick after every system call a
    signal may be lost, but no boing comes without a ping of its own. *)
Theorem init_run :
  verdict_of false Init.main = Crashes (lines init_transcript) (Some (EXIT, [Exectest.EXIT_STATUS])) /\
  crashes_after (verdict_of true Init.main) (lines init_transcript) (EXIT, [Exectest.EXIT_STATUS]) /\
  verdict_of false (Init.orphan_test 1) = Halts (lines orphan_transcript) (YALNIX EXIT) 0 /\
  verdict_of false Zero.main = Halts [] 0 0x100000 /\
  verdict_of false Bigstack.main = Halts [] (YALNIX EXIT) 0 /\
  verdict_in 100000 typed_line false Forktest.main = Halts (countdown (codes "child") 33 ++ countdown (codes "parent") 33)%list (YALNIX EXIT) 0 /\
  signals_in (verdict_in 10000 (fun _ => text "go\n") false Torture.main) = Some (mjoin (replicate 23 [true; false]) ++ [true])%list /\
  (exists l, signals_in (verdict_in 10000 (fun _ => text "go\n") true Torture.main) = Some l /\
    answered false l = true /\ (15 <= count_occ Bool.bool_dec l false)%nat).
Proof.
  split_and!; [vm_compute; done|apply (bool_decide_unpack _); vm_compute; done|vm_compute; done..|].
  eexists. split; [vm_compute; reflexivity|]. split; [reflexivity|]. apply Nat.leb_le. reflexivity.
Qed.
