(* ===== verification/ClaimsRun.v ===== *)
(** The kernel as the machine of Processes: the property, with a run of the
    machine of Boot as its witness. *)

From stdpp Require Import base gmap sets list relations.
From S2P Require Import Prelude Hardware Linked Queue HashMap FrameList State UserMem Scheduler LoadProgram GeneralCalls Machine PageTable.
From S2P Require Import SwitchLaws SchedView SchedLaws Steps InitLaws WaitLaws SpaceLaws LoadLaws BootLaws StartLaws IsoLaws Keeps Stable IsoStable IsoCalls IsoRun Processes ProcLaws ProcFork ProcRun Boot Demo ClaimsStart.

Section claims.
Context {QH MH : Type} `{HL : HardwareLaws} `{QO : QueueOps QH} `{MO : MapOps MH}
  `{QL : !QueueLaws QH} `{ML : !MapLaws MH} `{QR : !QueueRuns QH} `{MR : !MapRuns MH} `{FS : FileSystem}.
Abbreviation kst := (kst QH MH).
Implicit Types s : kst.

(** C7. The kernel implements the machine of processes. [KernelStart] ends in
    user mode, in a state that represents the machine with init running its
    program and the idle process ready. From a state that represents a
    machine, whatever the user code did to the registers and to memory, a
    tick of the clock and the calls GetPid, Delay (not by the idle process) and
    Fork (with enough free frames and room for a page table) end in user mode
    again, after one switch at most, in a state that represents the machine
    after that step: the process that runs has the context it left user mode
    with, changed by nothing but the result of its call, and nobody else's
    context changed. So every run of such events is a run of the machine. *)
Theorem process_machine D s pmem cmd_args name fd li : can_start s pmem cmd_args name fd li -> pmem_fits pmem ->
  exists s' s1 t0 np ip all, let m1 := start_machine D (init_args cmd_args) li np ip in
    KernelStart D cmd_args pmem s = Switch (mkKctxt KStart (k_frame s)) s' /\ np <> ip /\
    settle 1 (Switch (mkKctxt KStart (k_frame s)) s') = Some (Ret tt s1) /\ represents t0 ip all s1 m1 /\
    (forall s2 m fuel t u e mem, represents t0 ip all s2 m -> event_of t u = Some e -> possible ip e s2 ->
       exists s3 m', deliver fuel 1 t u (with_mem mem s2) = Some (Ret tt s3) /\ mstep u e m m' /\ represents t0 ip all s3 m' /\
         m_ctx m' !! m_run m' = Some (k_frame s3) /\
         forall p x, pcbs (k_obj s2) !! p = Some x -> p <> m_run m -> m_ctx m' !! p = m_ctx m !! p) /\
    (forall s2, rtc (kernel_event ip) s1 s2 -> exists m, rtc machine_event m1 m /\ represents t0 ip all s2 m).
Proof.
  intros Hcan Hpf. destruct (start_represents D s pmem cmd_args name fd li Hcan Hpf) as (s' & s1 & t0 & np & ip & all & Hrun & Hne & Hset & Hr).
  exists s', s1, t0, np, ip, all. cbn zeta. do 4 (split; [done|]). split; [|intros s2 Hs2; by apply (run_represents _ _ _ _ _ Hs2)].
  intros s2 m fuel t u e mem Hr2 He Hp. destruct (event_step fuel t u e _ _ _ _ _ mem Hr2 He Hp) as (s3 & m' & Hd & Hm & Hr3).
  exists s3, m'. do 3 (split; [done|]). split; [apply (rp_running _ _ _ _ _ Hr3)|]. intros p x Hx Hpn.
  apply (mstep_private u e m m' p (pid x) Hm); [|done]. rewrite (rp_pids _ _ _ _ _ Hr2). apply lookup_pids. by exists x.
Qed.
End claims.

(** ** On the concrete machine *)

#[local] Existing Instance one_file.

(** The user context of a process at [pc] that makes a call. *)
Definition asks (c : yalnix_call) (arg pc : Z) : UserContext := mkUctxt (YALNIX c) 0 pc 0 0 [arg; 0; 0].

(** init asks for its pid and gets 1, and then sleeps; the idle process runs
    at [idle_pc]. *)
Lemma process_machine_witness : exists s1 s2 s3, settle 1 (KernelStart idle_pc [] 0x200000 booting) = Some (Ret tt s1) /\
  uc_pc (k_frame s1) = 0x100040 /\
  deliver 0 1 TRAP_KERNEL (asks GETPID 0 7) s1 = Some (Ret tt s2) /\ k_frame s2 = asks GETPID 1 7 /\
  deliver 0 1 TRAP_KERNEL (asks DELAY 5 8) s2 = Some (Ret tt s3) /\ k_frame s3 = idle_uctxt idle_pc fresh_UserContext.
Proof.
  destruct (process_machine idle_pc booting 0x200000 [] [105; 110; 105; 116] (tt : @file one_file) boot_program booting_can_start)
    as (s' & s1 & t0 & np & ip & all & Hrun & Hne & Hset & Hr1 & Hstep & _); [vm_compute; congruence|].
  destruct (Hstep s1 _ 0%nat TRAP_KERNEL (asks GETPID 0 7) EGetPid (k_mem s1) Hr1 eq_refl I) as (s2 & m2 & Hd2 & Hm2 & Hr2 & Hc2 & _).
  inversion Hm2 as [|a cx nx i Hi| |]; subst. cbn in Hi. rewrite lookup_insert_eq in Hi. injection Hi as <-.
  cbn in Hc2. rewrite lookup_insert_eq in Hc2. injection Hc2 as Hf2.
  destruct (Hstep s2 _ 0%nat TRAP_KERNEL (asks DELAY 5 8) (EDelay 5) (k_mem s2) Hr2 eq_refl)
    as (s3 & m3 & Hd3 & Hm3 & Hr3 & Hc3 & _); [right; rewrite (represents_current _ _ _ _ _ Hr2); exact Hne|].
  inversion Hm3 as [| |n a' cx' nx' a2 Hsl|]; subst. inversion Hsl as [|n k v ps tk i v' _ _ Hv| | | | |]; [subst|lia].
  cbn in Hv. injection Hv as <-. cbn in Hc3. rewrite !lookup_insert_ne, lookup_singleton_eq in Hc3 by done. injection Hc3 as Hf3.
  rewrite with_mem_id in Hd2, Hd3. exists s1, s2, s3. rewrite <- Hf2, <- Hf3, Hrun.
  split; [exact Hset|]. split; [|by split_and!]. pose proof (rp_running _ _ _ _ _ Hr1) as Hc1. cbn in Hc1. rewrite lookup_insert_eq in Hc1. injection Hc1 as <-. done.
Defined.
